(* ===== verification/_CoqProject ===== *)
-Q . S2P
Prelude.v
Mmio.v
Clock.v
ClockSearch.v
ClockFreq.v
Env.v
EnvFlash.v
EnvStore.v
MemBlock.v
MemBlockSafe.v
MemBlockCalls.v
MemBlockUse.v
Prdt.v
PrdtPages.v
Edid.v
EdidSpec.v
EdidModes.v
VideoMode.v
VideoModeUse.v
Regs.v
Rtc.v
Dma.v
DmaSafe.v
DmaCalls.v
DmaRing.v
Scan.v
Cpufreq.v
CpufreqUse.v
