(* ===== verification/Prelude.v ===== *)
(** * The WonderMedia WM8850 platform layer, modelled and verified

    The repository is the Linux 3.0.8 kernel of the WM8850 tablets with the
    drivers WonderMedia added to it (sources under
    [src/ANDROID_3.0.8/]).  This development models eight parts of them, as
    functions in a state and fault monad, and proves what they do.

    ** The parts

    - The clock manager, [arch/arm/mach-wmt/wmt_clk.c]: gates with enable
      counts, and the searches for PLL parameters and divisors.  [Mmio] is the
      register file it writes to; [Clock] has the operations ([auto_pll_divisor]
      is the main entry) and the gates, [ClockSearch] the search
      loops, [ClockFreq] the frequencies the hardware ends up with.
    - The boot environment, [drivers/mtd/wmt_env.c]: variables shared with
      u-boot, kept in two copies on flash.  [Env] has the CRC and the loops
      over the variable list, [EnvFlash] start-up, update, [wmt_getsyspara] and
      [wmt_setsyspara], [EnvStore] the theorems.  The flash drivers are the
      class [FlashOps], what is relied on of them is [FlashSpec], and a NOR chip
      with two partitions is an instance.
    - Memory blocks, [drivers/video/wmt/memblock.c]: contiguous memory for the
      video engines, shared by reference counts.  [MemBlock] has the state and
      every exported function and file operation, [MemBlockSafe] the invariant,
      [MemBlockCalls] and [MemBlockUse] the theorems.  [Prdt] and [PrdtPages]
      model the part of the same file that turns user buffers into tables of
      physical regions; page tables, [get_user_pages] and the memory areas of a
      task are the classes [AddressSpace] and [UserPages].
    - The EDID parser, [drivers/video/wmt/parse-edid.c]: the description a
      display sends, and the lookup of modes in it.  [Edid] has the operations,
      [EdidSpec] what each of them does on the bytes, [EdidModes] the theorems.
    - Display modes, parts of [drivers/video/wmt/vpp.c] and [vout.c] with the
      table of [vpp.h]: the choice of a mode the display supports.  [VideoMode]
      has the table and the operations, [VideoModeUse] the theorems.
    - The real time clock, [drivers/rtc/wmt-rtc.c]: time, date and alarm packed
      into registers, the interrupt and the ioctl commands, all in [Rtc].
    - The DMA controller, [arch/arm/mach-wmt/dma.c]: channels, each with a ring
      of descriptors in memory.  [Dma] has the operations, [DmaSafe] the
      invariant, [DmaCalls] sequences of calls, [DmaRing] the ring as a queue.
      [Regs] is the access of these two drivers to the registers of [Mmio].
    - The CPU frequency driver, [arch/arm/mach-wmt/wmt_cpufreq.c], with the
      helpers of [drivers/cpufreq/freq_table.c] it calls: a table of frequencies
      from a boot variable, and the choice of one.  [Scan] is [sscanf] of
      [lib/vsprintf.c], [Cpufreq] has the operations, [CpufreqUse] the theorems.

    Display modes call the EDID parser, and [edid_mode_choice] is about both; the
    DMA controller opens its gate through the clock manager, whose state is a
    field of its own; the CPU frequency driver reads its table through
    [wmt_getsyspara], on the state of the environment.  The other parts do not
    call each other; they share this file.

    ** Reading the model

    C integers are [Z] with the wrap-around written out ([u8], [u16], [u32],
    [u64], [s32]).  A function that changes state is in [M S A]: it answers a
    value and a state, or the fault [Undefined] (an access outside an array, a
    null or uninitialised pointer) or [Hang].  Names are those of the source; a
    definition named [..._body] is the body of a loop.

    ** What is shown

    - Safety: the memory block driver neither faults nor loses its invariant
      under any sequence of calls, as long as [MBIO_FORCE_RESET] is used only
      while no block has a user and the memory manager passes proper areas; a
      power failure anywhere in [env_update] leaves a flash from which the next
      boot loads the old variables or a copy whose CRC checks, whatever the flash
      driver answered; SET_PLLDIV does not overshoot on the way from one
      frequency to another, for a divisor field of 1 to 31 (from a field of 0 it
      does, [set_plldiv_overshoot_from_32]); the DMA driver stores only into the
      descriptors of the channel, under any sequence of calls with channel and
      device numbers of the driver, until the allocator answers null, a channel
      that copies memory is freed ([dma_free_memory_channel]) or the engine, where
      its position is read, is outside the descriptors with something left; the
      operations of the CPU frequency driver stay inside their tables in any
      order, until [wmt_cpu_exit] frees them.
    - Function: the searches answer the best candidate of their search space
      (SET_PLLDIV the highest one not above the request, for PLLs other than C and
      G and devices other than SD/MMC hosts); allocation is first-fit and fails
      only when it must; a variable that is set is stored, also across a reset,
      when the flash chip does what it is told, and read back when no name is
      defined twice; a table of regions names exactly the bytes of the buffer; the
      lookup of a mode answers for exactly the modes that are advertised, and the
      choice of a mode takes the last one of the table that fits and is
      advertised; a time that is set is read back, an alarm compares exactly the
      fields in range, and the interrupt handler makes exactly the register writes
      it should; the CPU frequency driver loads exactly the table of its variable
      and announces the closest frequency of it, inside the policy when there is
      one on the side asked for, but never changes the speed.
    - Refinement and equivalence: gates against an account of users, [release]
      against an abstract collection, the unrolled CRC against the bitwise one,
      two methods of building a table against each other, the ring of
      descriptors, as an engine that follows it sees it, against a queue.
    - Errors: inputs on which the code leaves its arrays, does not end, or
      answers something else than it means to.  The positive theorems exclude
      such inputs by hypotheses.

    ** What is assumed

    - Of the flash: [FlashSpec] says that a read inside a partition answers what
      it holds, that erases and writes stay inside their partition, and that a
      write touches no byte outside its range and clears bits only.  That erases
      and writes are carried out is the separate hypothesis [flash_works], since
      [sf_write] of [drivers/mtd/devices/wmt_sf.c] answers 0 also when they are not.
    - Of [dma_alloc_coherent]: it answers null, or memory that is not in use.
      [dma_free_coherent] is defined only for a block with its own bus address,
      since it frees the pages of the address it is given.
    - Of a display: extensions that are accepted have the layout of CEA-861 with at
      least one data block ([ext_laid_out]); for the lookup of modes there is at
      most one extension, no video code from 64 on, with which the parser leaves its
      array ([edid_parse_returns]), and no standard timing of 92 Hz or more, of which
      the code reads five of six bits ([standard_rate_truncated]).
    - Of the registers: [quiet] and [settled] say that the hardware does not change
      them while a function runs; the theorems that need it name it.

    ** Fuel

    Loops that are not structural run on fuel, and running out of it is
    [Hang], so a theorem that a call answers shows that the fuel was enough.
    The fuel is a bound of the data: a polled register has as many pending
    answers plus one, and the wait for the DMA engine those of its register and
    of the timer plus one; [add_descript] the number of pieces plus one; [vsscanf]
    the length of the format plus one ([vsscanf_returns]); the loops over the
    environment the size of the buffer; [page_fuel] the pages of a buffer plus
    three; [max_blocks] is 256 because the data blocks of an extension end at most 255 bytes behind its start and
    each has at least one byte; [mode_fuel] is 64 because every loop over the
    60 entries of the mode table moves on, or down to another size.  Where the
    source has no bound ([mb_probe] without memory to reserve) the theorem is that every fuel runs
    out.

    ** Not modelled

    - Messages, [/proc] files and locks that only make a call atomic.  The
      parser of EDID is modelled with its messages off, their initial setting.
    - In the modelled files: the NOR variant of the environment and the
      dynamic areas of memory blocks, which the configuration leaves out, and
      the registration of the drivers with the kernel.
    - What the DMA engine and the clock chip do by themselves: they answer reads
      of their registers with anything.  [follow] in [DmaRing] is the engine's
      side of a ring, written from the layout of the descriptors.
    - The core of the CPU frequency subsystem, which calls the driver.
    - The rest of [drivers/video/wmt] (display engines, HDMI, scaler, and what
      is left of [vout.c] and [vpp.c]), the other files of [arch/arm/mach-wmt]
      (GPIO, interrupts, CPU idle, power management, board set-up), the flash
      drivers, and the SPI, battery, backlight, PWM, GPIO, sound, USB, serial, I2C
      and input devices: not modelled so far.  Several of them have parts that
      could be (queues, lists, parsers of boot variables).
    - The kernel itself, apart from the few functions the drivers are proved
      against ([find_vma], the semaphore, [sscanf], [strsep]), and the binary
      objects of [ANDROID_3.0.8_Driver_Obj], which have no source. *)

From Stdlib Require Export ZArith Lia Bool.
From stdpp Require Export base list gmap option.

#[global] Open Scope Z_scope.
#[global] Set Default Goal Selector "!".

(** ** Machine integers

    A C integer is a [Z]; every place where the source stores a value in a
    narrower or unsigned object is one of the conversions below. *)

Definition wrap (w z : Z) : Z := z mod 2 ^ w.
Definition u8 (z : Z) : Z := wrap 8 z.
Definition u16 (z : Z) : Z := wrap 16 z.
Definition u32 (z : Z) : Z := wrap 32 z.
Definition u64 (z : Z) : Z := wrap 64 z.

(** Conversion to [int]: two's complement on 32 bits. *)
Definition s32 (z : Z) : Z :=
  let r := u32 z in if r <? 2 ^ 31 then r else r - 2 ^ 32.

(** [do_div(n, base)] of [asm/div64.h]: a 64-bit dividend, a base that is
    passed in one 32-bit register.  The assembly helper answers 0 after a
    warning when the base is 0, which is what [Z.div] gives. *)
Definition do_div (n base : Z) : Z := u64 n / u32 base.

(** [1 << n] as the 32-bit mask the drivers use. *)
Definition BIT (n : Z) : Z := Z.shiftl 1 n.
Definition set_bit (v n : Z) : Z := Z.lor v (BIT n).
Definition clear_bit (v n : Z) : Z := Z.land v (Z.lnot (BIT n)).
Definition test_bit (v n : Z) : bool := negb (Z.land v (BIT n) =? 0).

(** ** Faults, and the state monad of the drivers

    [Undefined]: the C code reads an uninitialised variable, dereferences a
    null pointer or leaves the bounds of an array.  [Hang]: a polling loop
    never sees the value it waits for. *)

Inductive fault := Undefined | Hang.

Inductive result (A : Type) :=
| Ok (a : A)
| Fault (f : fault).
Arguments Ok {A} a.
Arguments Fault {A} f.

Definition M (S A : Type) : Type := S -> result (A * S).

#[global] Instance M_ret {S} : MRet (M S) := fun A a s => Ok (a, s).
#[global] Instance M_bind {S} : MBind (M S) := fun A B k m s =>
  match m s with
  | Ok (a, s') => k a s'
  | Fault f => Fault f
  end.

Definition fail_with {S A} (f : fault) : M S A := fun _ => Fault f.
Definition get {S} : M S S := fun s => Ok (s, s).
Definition gets {S A} (f : S -> A) : M S A := fun s => Ok (f s, s).
Definition put {S} (s : S) : M S unit := fun _ => Ok (tt, s).
Definition modify {S} (f : S -> S) : M S unit := fun s => Ok (tt, f s).

(** Reading a variable that may not have been written. *)
Definition initialised {S A} (o : option A) : M S A :=
  match o with Some a => mret a | None => fail_with Undefined end.

(** Total correctness: [m] returns from [s], and its result satisfies [Q]. *)
Definition wp {S A} (m : M S A) (Q : A -> S -> Prop) (s : S) : Prop :=
  match m s with
  | Ok (a, s') => Q a s'
  | Fault _ => False
  end.

(** ** C loops with [break], [continue] and a jump out *)

Inductive ctl (S R : Type) :=
| Next (s : S)
| Break (s : S)
| Goto (r : R).
Arguments Next {S R} s.
Arguments Break {S R} s.
Arguments Goto {S R} r.

Fixpoint for_each {I S R} (l : list I) (body : I -> S -> ctl S R) (s : S) : S + R :=
  match l with
  | [] => inl s
  | i :: l' =>
      match body i s with
      | Next s' => for_each l' body s'
      | Break s' => inl s'
      | Goto r => inr r
      end
  end.

(** The body of an outer loop that runs an inner one. *)
Definition nested {S R} (r : S + R) : ctl S R :=
  match r with inl s => Next s | inr r => Goto r end.

(** [while], [for (;;)] and [goto] loops that may fault or change the state:
    [inl] goes round again, [inr] leaves.  Running out of fuel is [Hang]; a
    theorem that a call answers shows that its loops leave before. *)
Fixpoint loop {S A R} (fuel : nat) (body : A -> M S (A + R)) (a : A) : M S R :=
  match fuel with
  | O => fail_with Hang
  | Datatypes.S n =>
      r ← body a;
      match r with
      | inl a' => loop n body a'
      | inr r => mret r
      end
  end.

(** [for] over a list of values; a body that answers [false] is left by [break]. *)
Fixpoint for_m {S I} (l : list I) (body : I -> M S bool) : M S unit :=
  match l with
  | [] => mret tt
  | i :: l' => more ← body i; if (more : bool) then for_m l' body else mret tt
  end.

(** [lo], [lo+1], ... ([n] values) and the same counted down from [hi]. *)
Definition upto (lo n : Z) : list Z := seqZ lo n.
Definition downfrom (hi n : Z) : list Z := reverse (seqZ (hi - n + 1) n).

(** [switch] on an integer with several labels per case. *)
Fixpoint switch {A} (v : Z) (cases : list (list Z * A)) (default : A) : A :=
  match cases with
  | [] => default
  | (labels, a) :: rest =>
      if existsb (Z.eqb v) labels then a else switch v rest default
  end.

(** ** Automation *)

Create HintDb wmt.
Create HintDb cint.

(** [lia] with division and remainder by constants. *)
Ltac dlia := Z.to_euclidean_division_equations; lia.

Ltac case_bool :=
  match goal with
  | |- context [?a =? ?b] => destruct (Z.eqb_spec a b)
  | |- context [?a <? ?b] => destruct (Z.ltb_spec a b)
  | |- context [?a <=? ?b] => destruct (Z.leb_spec a b)
  | |- context [Z.geb ?a ?b] => rewrite (Z.geb_leb a b)
  | |- context [Z.gtb ?a ?b] => rewrite (Z.gtb_ltb a b)
  end.

Ltac bool_to_prop :=
  repeat match goal with
  | H : (_ && _)%bool = true |- _ => apply andb_true_iff in H; destruct H
  | H : (_ || _)%bool = false |- _ => apply orb_false_iff in H; destruct H
  | H : negb _ = true |- _ => apply negb_true_iff in H
  | H : negb _ = false |- _ => apply negb_false_iff in H
  | H : (_ =? _) = true |- _ => apply Z.eqb_eq in H
  | H : (_ =? _) = false |- _ => apply Z.eqb_neq in H
  | H : (_ <? _) = true |- _ => apply Z.ltb_lt in H
  | H : (_ <? _) = false |- _ => apply Z.ltb_ge in H
  | H : (_ <=? _) = true |- _ => apply Z.leb_le in H
  | H : (_ <=? _) = false |- _ => apply Z.leb_gt in H
  end.

(** ** Lemmas on the monad *)

Section WpRules.
Context {S : Type}.

Lemma wp_ret {A} (a : A) (Q : A -> S -> Prop) s : Q a s -> wp (mret a) Q s.
Proof. done. Qed.

Lemma wp_bind {A B} (m : M S A) (k : A -> M S B) Q s :
  wp m (fun a s' => wp (k a) Q s') s -> wp (mbind k m) Q s.
Proof. unfold wp, mbind, M_bind. by destruct (m s) as [[a s']|]. Qed.

Lemma wp_mono {A} (m : M S A) (P Q : A -> S -> Prop) s :
  (forall a s', P a s' -> Q a s') -> wp m P s -> wp m Q s.
Proof. unfold wp. intros H. destruct (m s) as [[a s']|]; auto. Qed.

Lemma wp_run {A} (m : M S A) Q s :
  wp m Q s <-> exists a s', m s = Ok (a, s') /\ Q a s'.
Proof.
  unfold wp. destruct (m s) as [[a s']|f]; split; intros H; try done.
  - eauto.
  - by destruct H as (? & ? & [= <- <-] & ?).
  - by destruct H as (? & ? & [=] & ?).
Qed.

Lemma bind_ok {A B} (m : M S A) (k : A -> M S B) s a s' :
  m s = Ok (a, s') -> (mbind k m) s = k a s'.
Proof. unfold mbind, M_bind. by intros ->. Qed.

Lemma loop_next {A R} n (body : A -> M S (A + R)) a s a' s' :
  body a s = Ok (inl a', s') -> loop (Datatypes.S n) body a s = loop n body a' s'.
Proof. intros H. simpl. unfold mbind, M_bind. by rewrite H. Qed.

Lemma loop_exit {A R} n (body : A -> M S (A + R)) a s r s' :
  body a s = Ok (inr r, s') -> loop (Datatypes.S n) body a s = Ok (r, s').
Proof. intros H. simpl. unfold mbind, M_bind. by rewrite H. Qed.

Lemma loop_fault {A R} n (body : A -> M S (A + R)) a s f :
  body a s = Fault f -> loop (Datatypes.S n) body a s = Fault f.
Proof. intros H. simpl. unfold mbind, M_bind. by rewrite H. Qed.

Lemma bind_fault {A B} (m : M S A) (k : A -> M S B) s f :
  m s = Fault f -> (mbind k m) s = Fault f.
Proof. unfold mbind, M_bind. by intros ->. Qed.

Lemma bind_inv {A B} (m : M S A) (k : A -> M S B) s r :
  (mbind k m) s = Ok r -> exists a s', m s = Ok (a, s') /\ k a s' = Ok r.
Proof. unfold mbind, M_bind. destruct (m s) as [[a s']|]; [eauto|done]. Qed.
End WpRules.

(** ** Lemmas on machine integers *)

Lemma wrap_bound w z : 0 <= w -> 0 <= wrap w z < 2 ^ w.
Proof. intros. apply Z.mod_pos_bound. lia. Qed.

Lemma u8_bound z : 0 <= u8 z < 256.
Proof. apply (wrap_bound 8). lia. Qed.
Lemma u32_bound z : 0 <= u32 z < 2 ^ 32.
Proof. apply (wrap_bound 32). lia. Qed.
Lemma u64_bound z : 0 <= u64 z < 2 ^ 64.
Proof. apply (wrap_bound 64). lia. Qed.

Lemma wrap_small w z : 0 <= z < 2 ^ w -> wrap w z = z.
Proof. apply Z.mod_small. Qed.
Lemma u8_small z : 0 <= z < 256 -> u8 z = z.
Proof. apply (wrap_small 8). Qed.
Lemma u32_small z : 0 <= z < 2 ^ 32 -> u32 z = z.
Proof. apply wrap_small. Qed.
Lemma u64_small z : 0 <= z < 2 ^ 64 -> u64 z = z.
Proof. apply wrap_small. Qed.

Lemma s32_small z : - 2 ^ 31 <= z < 2 ^ 31 -> s32 z = z.
Proof.
  intros H. unfold s32, u32, wrap.
  destruct (decide (0 <= z)).
  - rewrite Z.mod_small by lia. case_bool; lia.
  - assert (z mod 2 ^ 32 = z + 2 ^ 32) as ->.
    { rewrite <- (Z.mod_small (z + 2 ^ 32) (2 ^ 32)) by lia.
      by rewrite <- (Z.mod_add z 1 (2 ^ 32)), Z.mul_1_l by lia. }
    case_bool; lia.
Qed.

Lemma s32_bound z : - 2 ^ 31 <= s32 z < 2 ^ 31.
Proof. unfold s32. pose proof (u32_bound z). case_bool; lia. Qed.

Lemma do_div_small n b :
  0 <= n < 2 ^ 64 -> 0 <= b < 2 ^ 32 -> do_div n b = n / b.
Proof. intros. unfold do_div. by rewrite u64_small, u32_small. Qed.

#[export] Hint Resolve u8_bound u32_bound u64_bound s32_bound : cint.
#[export] Hint Rewrite u8_small u32_small u64_small s32_small do_div_small
  using (cbn; lia) : cint.

Lemma BIT_bits n m : 0 <= n -> Z.testbit (BIT n) m = (n =? m).
Proof.
  intros. unfold BIT. rewrite Z.shiftl_1_l. apply Z.pow2_bits_eqb. lia.
Qed.

Lemma set_bit_bits v n m :
  0 <= n -> Z.testbit (set_bit v n) m = Z.testbit v m || (n =? m).
Proof. intros. unfold set_bit. by rewrite Z.lor_spec, BIT_bits. Qed.

Lemma clear_bit_bits v n m :
  0 <= n -> 0 <= m ->
  Z.testbit (clear_bit v n) m = Z.testbit v m && negb (n =? m).
Proof. intros. unfold clear_bit. by rewrite Z.land_spec, Z.lnot_spec, BIT_bits. Qed.

Lemma test_bit_testbit v n : 0 <= n -> test_bit v n = Z.testbit v n.
Proof.
  intros Hn. unfold test_bit. destruct (Z.testbit v n) eqn:E.
  - apply negb_true_iff, Z.eqb_neq. intros H.
    assert (Z.testbit (Z.land v (BIT n)) n = true) as H1
      by (by rewrite Z.land_spec, BIT_bits, E, Z.eqb_refl).
    by rewrite H, Z.testbit_0_l in H1.
  - apply negb_false_iff, Z.eqb_eq, Z.bits_inj_0. intros m.
    rewrite Z.land_spec, BIT_bits by done.
    destruct (Z.eqb_spec n m) as [->|]; [by rewrite E|by rewrite andb_false_r].
Qed.

(** A value fits in [w] bits when every bit from [w] on is clear. *)
Lemma bits_bound w v :
  0 <= w -> 0 <= v -> (forall m, w <= m -> Z.testbit v m = false) -> v < 2 ^ w.
Proof.
  intros Hw Hv H. destruct (decide (v = 0)) as [->|]; [apply Z.pow_pos_nonneg; lia|].
  apply Z.log2_lt_pow2; [lia|]. destruct (decide (w <= Z.log2 v)); [|lia].
  pose proof (Z.bit_log2 v ltac:(lia)). rewrite H in * by done. done.
Qed.

Lemma bits_above w v m : 0 <= v < 2 ^ w -> 0 <= w <= m -> Z.testbit v m = false.
Proof.
  intros Hv Hm. destruct (decide (v = 0)) as [->|]; [apply Z.testbit_0_l|].
  apply Z.bits_above_log2; [lia|]. enough (Z.log2 v < w) by lia.
  apply Z.log2_lt_pow2; lia.
Qed.

Lemma set_bit_bound w v n : 0 <= n < w -> 0 <= v < 2 ^ w -> 0 <= set_bit v n < 2 ^ w.
Proof.
  intros Hn Hv.
  assert (0 <= set_bit v n).
  { unfold set_bit. apply Z.lor_nonneg. split; [lia|].
    unfold BIT. rewrite Z.shiftl_1_l. apply Z.pow_nonneg. lia. }
  split; [done|]. apply bits_bound; [lia|done|]. intros m Hm.
  rewrite set_bit_bits, (bits_above w) by lia. apply Z.eqb_neq. lia.
Qed.

Lemma clear_bit_bound w v n : 0 <= n -> 0 <= w -> 0 <= v < 2 ^ w -> 0 <= clear_bit v n < 2 ^ w.
Proof.
  intros Hn Hw Hv.
  assert (0 <= clear_bit v n) by (unfold clear_bit; apply Z.land_nonneg; lia).
  split; [done|]. apply bits_bound; [lia|done|]. intros m Hm.
  by rewrite clear_bit_bits, (bits_above w) by lia.
Qed.

(** ** Lemmas on loops *)

Lemma for_each_app {I S R} (l1 l2 : list I) (body : I -> S -> ctl S R) s :
  (forall i s s', i ∈ l1 -> body i s <> Break s') ->
  for_each (l1 ++ l2) body s =
  match for_each l1 body s with inl s' => for_each l2 body s' | inr r => inr r end.
Proof.
  revert s. induction l1 as [|i l1 IH]; intros s H; simpl; [done|].
  destruct (body i s) eqn:E.
  - apply IH. intros. apply H. by right.
  - destruct (H i s s0); [by left|done].
  - done.
Qed.

(** An invariant [P], carried over the prefix of the list already visited. *)
Lemma for_each_inv {I S R} (body : I -> S -> ctl S R)
    (P : list I -> S -> Prop) (Q : S + R -> Prop) l s0 :
  P [] s0 ->
  (forall done i rest s, l = done ++ i :: rest -> P done s ->
     match body i s with
     | Next s' => P (done ++ [i]) s'
     | Break s' => Q (inl s')
     | Goto r => Q (inr r)
     end) ->
  (forall s, P l s -> Q (inl s)) ->
  Q (for_each l body s0).
Proof.
  intros H0 Hstep Hend.
  enough (forall rest pre s, l = pre ++ rest -> P pre s -> Q (for_each rest body s)) as H
    by (by apply (H l [])).
  induction rest as [|i rest IH]; intros pre s Hl HP; simpl.
  - apply Hend. by rewrite Hl, app_nil_r.
  - specialize (Hstep pre i rest s Hl HP). destruct (body i s) as [s'|s'|r]; try done.
    apply (IH (pre ++ [i])); [by rewrite Hl, <- app_assoc|done].
Qed.

(** The same for a counting loop, the invariant indexed by the counter. *)
Lemma for_upto_inv {S R} (body : Z -> S -> ctl S R)
    (P : Z -> S -> Prop) (Q : S + R -> Prop) lo n s0 :
  0 <= n ->
  P lo s0 ->
  (forall i s, lo <= i < lo + n -> P i s ->
     match body i s with
     | Next s' => P (i + 1) s'
     | Break s' => Q (inl s')
     | Goto r => Q (inr r)
     end) ->
  (forall s, P (lo + n) s -> Q (inl s)) ->
  Q (for_each (upto lo n) body s0).
Proof.
  intros Hn. unfold upto. rewrite <- (Z2Nat.id n) by done. generalize (Z.to_nat n) as k.
  intros k. revert lo s0. induction k as [|k IH]; intros lo s0 H0 Hstep Hend.
  - rewrite seqZ_nil by lia. apply Hend. by rewrite Z.add_0_r.
  - rewrite seqZ_cons by lia. simpl.
    replace (Z.pred (Z.of_nat (Datatypes.S k))) with (Z.of_nat k) by lia.
    specialize (Hstep lo s0 ltac:(lia) H0) as H1.
    destruct (body lo s0) as [s'|s'|r]; [|done|done].
    apply IH.
    + by rewrite <- Z.add_1_r.
    + intros i s Hi. apply Hstep. lia.
    + intros s. rewrite <- Z.add_1_r. replace (lo + 1 + Z.of_nat k)
        with (lo + Z.of_nat (Datatypes.S k)) by lia. apply Hend.
Qed.

Lemma in_downfrom hi n i : In i (downfrom hi n) <-> hi - n < i <= hi.
Proof.
  unfold downfrom. rewrite <- list_elem_of_In, elem_of_reverse, elem_of_seqZ. lia.
Qed.
