(* ===== verification/Mmio.v ===== *)
(** * Memory-mapped registers

    The register file of the SoC as the drivers see it: a little-endian byte
    memory reached through volatile [unsigned char] and [unsigned int] pointer
    casts of the sources, the answers that status
    registers owned by the hardware will give to the next reads, and the
    trace of the writes, oldest first.  The same divisor register is written
    as a word and read back as a byte by [wmt_clk.c], so the file is a byte
    memory and not a map of words. *)

From S2P Require Import Prelude.

Inductive event :=
| W8 (addr val : Z)
| W32 (addr val : Z).

#[global] Instance event_eq_dec : EqDecision event.
Proof. solve_decision. Defined.

Record hw := mk_hw {
  mem : gmap Z Z;              (* one byte per address, absent = 0 *)
  pending : gmap Z (list Z);   (* next answers of the hardware-owned words *)
  trace : list event;
}.

Definition byte_at (m : gmap Z Z) (a : Z) : Z := default 0 (m !! a).

Definition word_at (m : gmap Z Z) (a : Z) : Z :=
  byte_at m a + 2 ^ 8 * byte_at m (a + 1) + 2 ^ 16 * byte_at m (a + 2)
  + 2 ^ 24 * byte_at m (a + 3).

Definition store8 (a v : Z) (m : gmap Z Z) : gmap Z Z := <[a := u8 v]> m.

Definition store32 (a v : Z) (m : gmap Z Z) : gmap Z Z :=
  store8 (a + 3) (v / 2 ^ 24) (store8 (a + 2) (v / 2 ^ 16)
    (store8 (a + 1) (v / 2 ^ 8) (store8 a v m))).

(** A read through a volatile [unsigned char] pointer. *)
Definition read8 (a : Z) : M hw Z := gets (fun h => byte_at (mem h) a).

(** A read through a volatile [unsigned int] pointer: an answer the hardware has pending for
    this word is consumed; otherwise the word reads as last written. *)
Definition read32 (a : Z) : M hw Z := fun h =>
  match pending h !! a with
  | Some (v :: vs) => Ok (u32 v, mk_hw (mem h) (<[a := vs]> (pending h)) (trace h))
  | _ => Ok (word_at (mem h) a, h)
  end.

Definition write8 (a v : Z) : M hw unit :=
  modify (fun h => mk_hw (store8 a v (mem h)) (pending h) (trace h ++ [W8 a (u8 v)])).

Definition write32 (a v : Z) : M hw unit :=
  modify (fun h => mk_hw (store32 a v (mem h)) (pending h) (trace h ++ [W32 a (u32 v)])).

(** A polling loop with an empty body.  The word is read until it is ready; when the
    pending answers are used up it reads the same value for ever, so a word
    that is then not ready is a loop that never ends.  The fuel is the number
    of pending answers plus one. *)
Fixpoint poll_loop (fuel : nat) (a : Z) (ready : Z -> bool) : M hw unit :=
  match fuel with
  | O => fail_with Hang
  | S fuel' => v ← read32 a; if ready v then mret tt else poll_loop fuel' a ready
  end.

Definition poll (a : Z) (ready : Z -> bool) : M hw unit := fun h =>
  poll_loop (S (length (default [] (pending h !! a)))) a ready h.

(** ** Lemmas *)

Definition bytes_ok (m : gmap Z Z) : Prop := forall a v, m !! a = Some v -> 0 <= v < 256.

Lemma byte_at_bound m a : bytes_ok m -> 0 <= byte_at m a < 256.
Proof.
  intros H. unfold byte_at. destruct (m !! a) eqn:E; simpl; [by apply (H a)|lia].
Qed.

Lemma word_at_bound m a : bytes_ok m -> 0 <= word_at m a < 2 ^ 32.
Proof.
  intros H. unfold word_at.
  pose proof (byte_at_bound m a H). pose proof (byte_at_bound m (a + 1) H).
  pose proof (byte_at_bound m (a + 2) H). pose proof (byte_at_bound m (a + 3) H). lia.
Qed.

Lemma store8_ok a v m : bytes_ok m -> bytes_ok (store8 a v m).
Proof.
  intros H b w. unfold store8. rewrite lookup_insert. case_decide.
  - intros [= <-]. apply u8_bound.
  - apply H.
Qed.

Lemma store32_ok a v m : bytes_ok m -> bytes_ok (store32 a v m).
Proof. intros. unfold store32. by repeat apply store8_ok. Qed.

Lemma byte_at_store8 a v m : byte_at (store8 a v m) a = u8 v.
Proof. unfold byte_at, store8. by rewrite lookup_insert_eq. Qed.

Lemma byte_at_store8_ne a b v m : a <> b -> byte_at (store8 a v m) b = byte_at m b.
Proof. intros. unfold byte_at, store8. by rewrite lookup_insert_ne. Qed.

Lemma byte_at_store32_ne a b v m :
  b < a \/ a + 3 < b -> byte_at (store32 a v m) b = byte_at m b.
Proof. intros. unfold store32. by rewrite !byte_at_store8_ne by lia. Qed.

Lemma word_at_store8_ne a b v m :
  a < b \/ b + 3 < a -> word_at (store8 a v m) b = word_at m b.
Proof. intros. unfold word_at. by rewrite !byte_at_store8_ne by lia. Qed.

Lemma word_at_store32_ne a b v m :
  b + 3 < a \/ a + 3 < b -> word_at (store32 a v m) b = word_at m b.
Proof. intros. unfold word_at. by rewrite !byte_at_store32_ne by lia. Qed.

Lemma byte_at_store32 a v m : byte_at (store32 a v m) a = u8 v.
Proof. unfold store32. by rewrite !byte_at_store8_ne, byte_at_store8 by lia. Qed.

Lemma bytes_of_word v :
  u8 v + 2 ^ 8 * u8 (v / 2 ^ 8) + 2 ^ 16 * u8 (v / 2 ^ 16) + 2 ^ 24 * u8 (v / 2 ^ 24) = u32 v.
Proof.
  unfold u8, u32, wrap.
  pose proof (Z.rem_mul_r v (2 ^ 8) (2 ^ 24) ltac:(lia) ltac:(lia)) as H1.
  pose proof (Z.rem_mul_r (v / 2 ^ 8) (2 ^ 8) (2 ^ 16) ltac:(lia) ltac:(lia)) as H2.
  pose proof (Z.rem_mul_r (v / 2 ^ 16) (2 ^ 8) (2 ^ 8) ltac:(lia) ltac:(lia)) as H3.
  rewrite Z.div_div in H2, H3 by lia.
  change (2 ^ 8 * 2 ^ 24) with (2 ^ 32) in H1. change (2 ^ 8 * 2 ^ 16) with (2 ^ 24) in H2.
  change (2 ^ 8 * 2 ^ 8) with (2 ^ 16) in H2, H3. change (2 ^ 16 * 2 ^ 8) with (2 ^ 24) in H3.
  lia.
Qed.

(** A word written and read back is the value modulo 2^32. *)
Lemma word_at_store32 a v m : word_at (store32 a v m) a = u32 v.
Proof.
  unfold word_at, store32.
  rewrite byte_at_store8, !(byte_at_store8_ne (a + 3)) by lia.
  rewrite byte_at_store8, !(byte_at_store8_ne (a + 2)) by lia.
  rewrite byte_at_store8, (byte_at_store8_ne (a + 1)), byte_at_store8 by lia.
  apply bytes_of_word.
Qed.

#[export] Hint Resolve store8_ok store32_ok : wmt.
#[export] Hint Rewrite byte_at_store8 byte_at_store32 word_at_store32 : mmio.
#[export] Hint Rewrite byte_at_store8_ne byte_at_store32_ne word_at_store8_ne
  word_at_store32_ne using lia : mmio.

(** A status word polled until ready: the loop ends, having changed nothing
    but the pending answers of that word, as soon as the hardware answers
    ready once or the word itself is ready. *)
Definition same_regs (h h' : hw) : Prop := mem h' = mem h /\ trace h' = trace h.

#[global] Instance same_regs_preorder : PreOrder same_regs.
Proof. split; [done|]. intros h1 h2 h3 [? ?] [? ?]. split; congruence. Qed.

Definition will_be_ready (a : Z) (ready : Z -> bool) (h : hw) : Prop :=
  Exists (fun v => ready (u32 v) = true) (default [] (pending h !! a)) \/
  ready (word_at (mem h) a) = true.

Definition only_pending (a : Z) (h h' : hw) : Prop :=
  same_regs h h' /\ (forall b, b <> a -> pending h' !! b = pending h !! b).

Lemma poll_loop_ready fuel a ready h :
  (length (default [] (pending h !! a)) < fuel)%nat ->
  will_be_ready a ready h ->
  exists h', poll_loop fuel a ready h = Ok (tt, h') /\ only_pending a h h' /\
    (length (default [] (pending h' !! a)) <= length (default [] (pending h !! a)))%nat.
Proof.
  revert h. induction fuel as [|fuel IH]; intros h Hlen Hready; [lia|].
  simpl. unfold mbind, M_bind, read32.
  destruct (pending h !! a) as [[|v vs]|] eqn:E; simpl in *.
  - destruct Hready as [H|H].
    + rewrite E in H. inversion H.
    + rewrite H. exists h. rewrite E. by repeat split.
  - destruct (ready (u32 v)) eqn:R.
    + eexists. split; [done|]. split.
      * split; [by split|]. intros b Hb. simpl. by rewrite lookup_insert_ne.
      * simpl. rewrite lookup_insert_eq. simpl. lia.
    + set (h1 := mk_hw (mem h) (<[a:=vs]> (pending h)) (trace h)).
      destruct (IH h1) as (h' & Hrun & Hsame & Hle).
      * simpl. rewrite lookup_insert_eq. simpl. lia.
      * destruct Hready as [H|H]; [left|by right].
        rewrite E in H. simpl in *. rewrite lookup_insert_eq. simpl.
        inversion H; subst; [congruence|done].
      * exists h'. split; [done|]. destruct Hsame as [[? ?] Hp]. repeat split; try done.
        -- intros b Hb. rewrite (Hp b Hb). simpl. by rewrite lookup_insert_ne.
        -- etransitivity; [apply Hle|]. simpl. rewrite lookup_insert_eq. simpl. lia.
  - destruct Hready as [H|H].
    + rewrite E in H. inversion H.
    + rewrite H. exists h. rewrite E. by repeat split.
Qed.

Lemma poll_ready a ready h :
  will_be_ready a ready h ->
  exists h', poll a ready h = Ok (tt, h') /\ only_pending a h h'.
Proof.
  intros H. destruct (poll_loop_ready (S (length (default [] (pending h !! a)))) a ready h)
    as (h' & ? & ? & _); [lia|done|]. eauto.
Qed.

(** The other direction: when no answer is ready, the loop never ends. *)
Lemma poll_loop_hang fuel a ready h :
  Forall (fun v => ready (u32 v) = false) (default [] (pending h !! a)) ->
  ready (word_at (mem h) a) = false ->
  poll_loop fuel a ready h = Fault Hang.
Proof.
  revert h. induction fuel as [|fuel IH]; intros h Hall Hw; [done|].
  simpl. unfold mbind, M_bind, read32.
  destruct (pending h !! a) as [[|v vs]|] eqn:E; simpl in *.
  - rewrite Hw. apply IH; [by rewrite E|done].
  - inversion_clear Hall. rewrite H. apply IH; [|done]. simpl. by rewrite lookup_insert_eq.
  - rewrite Hw. apply IH; [by rewrite E|done].
Qed.

(** ** Weakest preconditions of the accesses *)

(** No answer of the hardware is pending for the word at [a]. *)
Definition settled (a : Z) (h : hw) : Prop := default [] (pending h !! a) = [].

Lemma wp_read8 a Q h : Q (byte_at (mem h) a) h -> wp (read8 a) Q h.
Proof. done. Qed.

Lemma wp_read32 a Q h : settled a h -> Q (word_at (mem h) a) h -> wp (read32 a) Q h.
Proof.
  unfold settled, wp, read32. intros Hs HQ. by destruct (pending h !! a) as [[|]|].
Qed.

Lemma wp_write8 a v Q h :
  Q tt (mk_hw (store8 a v (mem h)) (pending h) (trace h ++ [W8 a (u8 v)])) ->
  wp (write8 a v) Q h.
Proof. done. Qed.

Lemma wp_write32 a v Q h :
  Q tt (mk_hw (store32 a v (mem h)) (pending h) (trace h ++ [W32 a (u32 v)])) ->
  wp (write32 a v) Q h.
Proof. done. Qed.

Lemma wp_poll a ready Q h :
  will_be_ready a ready h ->
  (forall h', only_pending a h h' -> Q tt h') ->
  wp (poll a ready) Q h.
Proof.
  intros Hr HQ. destruct (poll_ready a ready h Hr) as (h' & Hrun & Hp).
  unfold wp. rewrite Hrun. auto.
Qed.
