(* ===== verification/Clock.v ===== *)
(** * The clock manager ([arch/arm/mach-wmt/wmt_clk.c])

    Every device of the SoC has a clock gate (one bit of the four words at
    [PMC_CLK]) and, for most of them, a divisor register behind one of the
    seven PLLs.  The driver keeps an enable count per gate
    ([dev_en_count]), and sets a requested frequency by searching the PLL
    parameters and divisors.  [printk] output is not modelled, and the
    [*divisor] result, which the only caller drops, is not returned. *)

From S2P Require Import Prelude Mmio.

(** ** Devices and commands ([wmt_clk.h]) *)

Definition DEV_SDMMC0 : Z := 0.
Definition DEV_SDMMC1 : Z := 1.
Definition DEV_SDMMC2 : Z := 2.
Definition DEV_SDMMC3 : Z := 3.
Definition DEV_ETHMAC : Z := 4.
Definition DEV_ETHPHY : Z := 6.
Definition DEV_RTC : Z := 7.
Definition DEV_I2C0 : Z := 8.
Definition DEV_I2C1 : Z := 9.
Definition DEV_I2C2 : Z := 10.
Definition DEV_GPIO : Z := 11.
Definition DEV_I2C3 : Z := 12.
Definition DEV_KEYPAD : Z := 14.
Definition DEV_EBM : Z := 15.
Definition DEV_PCM : Z := 16.
Definition DEV_PWM : Z := 17.
Definition DEV_SCC : Z := 21.
Definition DEV_SYS : Z := 22.
Definition DEV_AMP : Z := 24.
Definition DEV_MALI : Z := 26.
Definition DEV_PERM : Z := 30.
Definition DEV_MBOX : Z := 31.
Definition DEV_DDRMC : Z := 32.
Definition DEV_ARF : Z := 32 + 3.
Definition DEV_ARFP : Z := 32 + 4.
Definition DEV_DMA : Z := 32 + 5.
Definition DEV_PDMA : Z := 32 + 6.
Definition DEV_VDMA : Z := 32 + 7.
Definition DEV_UHDC : Z := 32 + 9.
Definition DEV_AHBB : Z := 32 + 13.
Definition DEV_NAND : Z := 32 + 16.
Definition DEV_NOR : Z := 32 + 17.
Definition DEV_SPI0 : Z := 32 + 19.
Definition DEV_SPI1 : Z := 32 + 20.
Definition DEV_SF : Z := 32 + 23.
Definition DEV_UART0 : Z := 32 + 24.
Definition DEV_UART1 : Z := 32 + 25.
Definition DEV_UART2 : Z := 32 + 26.
Definition DEV_UART3 : Z := 32 + 27.
Definition DEV_UART4 : Z := 32 + 28.
Definition DEV_UART5 : Z := 32 + 29.
Definition DEV_NA0 : Z := 64.
Definition DEV_NA0REF : Z := 64 + 1.
Definition DEV_JDEC : Z := 64 + 3.
Definition DEV_MSVD : Z := 64 + 4.
Definition DEV_VP8DEC : Z := 64 + 5.
Definition DEV_SAE : Z := 64 + 6.
Definition DEV_HDCE : Z := 64 + 7.
Definition DEV_H264 : Z := 64 + 8.
Definition DEV_CIR : Z := 64 + 15.
Definition DEV_NA12 : Z := 64 + 16.
Definition DEV_VPU : Z := 64 + 17.
Definition DEV_VPP : Z := 64 + 18.
Definition DEV_VID : Z := 64 + 19.
Definition DEV_VDU : Z := 64 + 20.
Definition DEV_SCL444U : Z := 64 + 21.
Definition DEV_HDMII2C : Z := 64 + 22.
Definition DEV_HDMI : Z := 64 + 23.
Definition DEV_GOVW : Z := 64 + 24.
Definition DEV_GOVRHD : Z := 64 + 25.
Definition DEV_GE : Z := 64 + 26.
Definition DEV_DISP : Z := 64 + 27.
Definition DEV_DVO : Z := 64 + 29.
Definition DEV_HDMILVDS : Z := 64 + 30.
Definition DEV_SDTV : Z := 64 + 31.
Definition DEV_I2S : Z := 96 + 2.
Definition DEV_ARM : Z := 99.
Definition DEV_AHB : Z := 100.
Definition DEV_APB : Z := 101.
Definition DEV_L2C : Z := 102.
Definition DEV_L2CAXI : Z := 103.
Definition DEV_L2CPAXI : Z := 104.

Inductive clk_cmd := CLK_DISABLE | GET_FREQ | CLK_ENABLE | SET_DIV | SET_PLL | SET_PLLDIV.
Inductive power_cmd := DEV_PWRON | DEV_PWROFF | DEV_PWRSTS.

Definition PM_CTRL_BASE_ADDR : Z := 0xFE130000.
Definition PMC_BASE : Z := PM_CTRL_BASE_ADDR.
Definition PMC_PLL : Z := PM_CTRL_BASE_ADDR + 0x200.
Definition PMC_CLK : Z := PM_CTRL_BASE_ADDR + 0x250.

Definition PLL_BUSY : Z := 0x7F0038.
Definition MAX_DF : Z := Z.shiftl 1 7 - 1.
Definition MAX_DR : Z := 1.
Definition MAX_DQ : Z := Z.shiftl 1 2 - 1.
Definition GET_DIVF (d : Z) : Z := (Z.land (Z.shiftr d 16) MAX_DF + 1) * 2.
Definition GET_DIVR (d : Z) : Z := Z.land (Z.shiftr d 8) MAX_DR + 1.
Definition GET_DIVQ (d : Z) : Z := Z.shiftl 1 (Z.land d MAX_DQ).
Definition SRC_FREQ : Z := 24.

(** ** State *)

Record clk := mk_clk {
  chw : hw;
  dev_en_count : list Z;   (* static int dev_en_count[128] *)
}.

(** A register access, seen from the driver's state. *)
Definition on_hw {A} (m : M hw A) : M clk A := fun c =>
  match m (chw c) with
  | Ok (a, h) => Ok (a, mk_clk h (dev_en_count c))
  | Fault f => Fault f
  end.

Definition get_count (dev : Z) : M clk Z := fun c =>
  match dev_en_count c !! Z.to_nat dev with
  | Some n => Ok (n, c)
  | None => Fault Undefined
  end.

Definition set_count (dev n : Z) : M clk unit :=
  modify (fun c => mk_clk (chw c) (<[Z.to_nat dev := n]> (dev_en_count c))).

Definition check_PLL_DIV_busy : M clk unit :=
  on_hw (poll (PMC_BASE + 0x18) (fun v => Z.land v PLL_BUSY =? 0)).

(** The gate word of a device and its bit in it. *)
Definition gate_addr (dev : Z) : Z := PMC_CLK + 4 * (dev / 32).
Definition gate_bit (dev : Z) : Z := dev - 32 * (dev / 32).

(** ** Clock gates *)

Definition disable_dev_clk (dev : Z) : M clk Z :=
  if 128 <=? dev then mret (-1)
  else
    en_count ← get_count dev;
    if en_count <=? 1 then
      _ ← set_count dev 0;
      v ← on_hw (read32 (gate_addr dev));
      _ ← on_hw (write32 (gate_addr dev) (clear_bit v (gate_bit dev)));
      mret 0
    else
      _ ← set_count dev (en_count - 1);
      mret (en_count - 1).

Definition enable_dev_clk (dev : Z) : M clk Z :=
  if 128 <? dev then mret (-1)
  else
    en_count ← get_count dev;
    tmp ← on_hw (read32 (gate_addr dev));
    if (en_count <=? 0) || negb (test_bit tmp (gate_bit dev)) then
      _ ← set_count dev 1;
      v ← on_hw (read32 (gate_addr dev));
      _ ← on_hw (write32 (gate_addr dev) (set_bit v (gate_bit dev)));
      mret 1
    else
      _ ← set_count dev (s32 (en_count + 1));
      mret (s32 (en_count + 1)).

(** ** PLL and divisor register of a device

    The first component is the returned PLL number (-1: not found, -2: no
    divisor); the second is what is stored through [div_offset], which the
    default case leaves unwritten. *)
Definition calc_pll_num (dev : Z) : Z * option Z :=
  switch dev
    [([DEV_UART0; DEV_UART1; DEV_UART2; DEV_UART3; DEV_UART4; DEV_UART5; DEV_CIR;
       DEV_VP8DEC], (-2, Some 0));
     ([DEV_I2C0], (1, Some 0x3A0));
     ([DEV_I2C1], (1, Some 0x3A4));
     ([DEV_I2C2], (1, Some 0x3A8));
     ([DEV_I2C3], (1, Some 0x3AC));
     ([DEV_PWM], (1, Some 0x350));
     ([DEV_SPI0], (1, Some 0x340));
     ([DEV_SPI1], (1, Some 0x344));
     ([DEV_HDMILVDS; DEV_SDTV], (2, Some 0x36C));
     ([DEV_DVO], (6, Some 0x370));
     ([DEV_EBM], (3, Some 0x38C));
     ([DEV_SCC; DEV_JDEC; DEV_MSVD; DEV_AMP; DEV_VPU; DEV_MBOX; DEV_GE; DEV_GOVRHD;
       DEV_KEYPAD; DEV_RTC; DEV_GPIO], (-2, Some 0));
     ([DEV_MALI], (1, Some 0x388));
     ([DEV_DDRMC], (3, Some 0x310));
     ([DEV_NA0], (3, Some 0x358));
     ([DEV_NA12; DEV_VPP], (1, Some 0x35C));
     ([DEV_L2C], (0, Some 0x30C));
     ([DEV_L2CAXI], (0, Some 0x3B0));
     ([DEV_L2CPAXI], (0, Some 0x3C0));
     ([DEV_ARF; DEV_ARFP; DEV_DMA; DEV_UHDC; DEV_PERM; DEV_PDMA; DEV_VDMA], (-2, Some 0));
     ([DEV_VDU], (1, Some 0x368));
     ([DEV_NAND], (1, Some 0x318));
     ([DEV_NOR], (1, Some 0x31C));
     ([DEV_SDMMC0], (1, Some 0x330));
     ([DEV_SDMMC1], (1, Some 0x334));
     ([DEV_SDMMC2], (1, Some 0x338));
     ([DEV_SDMMC3], (1, Some 0x33C));
     ([DEV_ETHMAC], (1, Some 0x394));
     ([DEV_SF], (1, Some 0x314));
     ([DEV_PCM], (1, Some 0x354));
     ([DEV_I2S], (4, Some 0x374));
     ([DEV_HDMI; DEV_SCL444U; DEV_GOVW; DEV_VID; DEV_SAE], (-2, Some 0));
     ([DEV_ARM], (0, Some 0x300));
     ([DEV_AHB], (1, Some 0x304));
     ([DEV_APB], (1, Some 0x320));
     ([DEV_ETHPHY], (-2, Some 25))]
    (-1, None).

Definition is_sdmmc (dev : Z) : bool :=
  (dev =? DEV_SDMMC0) || (dev =? DEV_SDMMC1) || (dev =? DEV_SDMMC2) || (dev =? DEV_SDMMC3).

Definition base : Z := 1000000.

(** The byte at the divisor register plus two selects the SDTV clock. *)
Definition select_sdtv (dev div_addr_offs : Z) : M clk unit :=
  on_hw (write8 (PMC_BASE + div_addr_offs + 2) (if dev =? DEV_SDTV then 1 else 0)).

(** ** Reading a frequency *)

Definition get_freq (dev : Z) : M clk Z :=
  let '(PLL_NO, offs) := calc_pll_num dev in
  if PLL_NO =? -1 then mret (-1)
  else
    _ ← (if dev <? 128 then _ ← on_hw (read32 (gate_addr dev)); mret tt else mret tt);
    div_addr_offs ← initialised offs;
    if PLL_NO =? -2 then mret (s32 (div_addr_offs * 1000000))
    else
      _ ← select_sdtv dev div_addr_offs;
      _ ← check_PLL_DIV_busy;
      divisor ← on_hw (read8 (PMC_BASE + div_addr_offs));
      tmp ← on_hw (read32 (PMC_PLL + 4 * PLL_NO));
      let div :=
        if negb (is_sdmmc dev) then Z.land divisor 0x1F
        else Z.land divisor 0x1F * (if test_bit divisor 5 then 64 else 1) * 2 in
      let freq_llu := SRC_FREQ * GET_DIVF tmp * base in
      let tmp' := GET_DIVR tmp * GET_DIVQ tmp * div in
      mret (s32 (u32 (do_div freq_llu tmp'))).

(** ** Setting the divisor only *)

(** The search loop: [per i] is the divisor the candidate [i] stands for,
    [skip i] the candidates the loop passes over.  The state is [div] (0 when
    nothing is found) and [PLL_tmp]. *)
Definition div_loop (skip : Z -> bool) (per : Z -> Z) (PLL freq_target : Z)
    : (Z * Z) + Empty_set :=
  for_each (upto 1 32) (fun i '(div, PLL_tmp) =>
    if skip i then Next (div, PLL_tmp)
    else
      let PLL_tmp := do_div PLL (per i) in
      if PLL_tmp <=? freq_target then Break (i, PLL_tmp) else Next (div, PLL_tmp)) (0, 0).

Definition loop_state {S} (r : S + Empty_set) : S :=
  match r with inl s => s | inr e => match e with end end.

(** [freq_target] in Hz, from a frequency in Hz, kHz or MHz. *)
Definition target_hz (unit freq : Z) : Z :=
  if unit =? 1 then u64 (u64 freq * 1000)
  else if unit =? 2 then u64 (u64 freq * 1000000)
  else u64 freq.

(** The choice between the two search loops: [j] selects the extra divisor of
    64 of the SD/MMC hosts, [div] is 0 when no divisor is found. *)
Definition choose_divisor (SD_MMC : bool) (PLL_NO PLL div_llu freq_target : Z)
    : bool * (Z * Z) :=
  let j := SD_MMC && (freq_target <=? do_div (do_div PLL div_llu) 64) in
  (j,
   if negb SD_MMC then
     loop_state (div_loop (fun i => (1 <? i) && (i mod 2 =? 1) && (PLL_NO =? 2))
                   (fun i => div_llu * i) PLL freq_target)
   else
     loop_state (div_loop (fun _ => false)
                   (fun i => div_llu * (i * (if j then 64 else 1) * 2)) PLL freq_target)).

Definition set_divisor (dev unit freq : Z) : M clk Z :=
  let '(PLL_NO, offs) := calc_pll_num dev in
  if PLL_NO =? -1 then mret (-1)
  else if PLL_NO =? -2 then mret (-1)
  else
    div_addr_offs ← initialised offs;
    _ ← select_sdtv dev div_addr_offs;
    _ ← check_PLL_DIV_busy;
    tmp ← on_hw (read32 (PMC_PLL + 4 * PLL_NO));
    let PLL := SRC_FREQ * GET_DIVF tmp * base in
    let div_llu := GET_DIVR tmp * GET_DIVQ tmp in
    enabled ← (if dev <? 128 then
                 v ← on_hw (read32 (gate_addr dev)); mret (test_bit v (gate_bit dev))
               else mret true);
    if negb enabled then mret (-1)
    else
      let '(j, (div, PLL_tmp)) :=
        choose_divisor (is_sdmmc dev) PLL_NO PLL div_llu (target_hz unit freq) in
      if negb (div =? 0) && (div <? 33) then
        _ ← check_PLL_DIV_busy;
        _ ← (if dev =? DEV_NA0 then
               on_hw (write32 (PMC_BASE + div_addr_offs)
                 (Z.lor 0x200 (if div =? 32 then 0 else div)))
             else
               on_hw (write32 (PMC_BASE + div_addr_offs)
                 ((if dev =? DEV_SDTV then 0x10000 else 0) + (if j then 32 else 0)
                  + (if div =? 32 then 0 else div))));
        _ ← check_PLL_DIV_busy;
        mret (s32 (u32 PLL_tmp))
      else mret (-1).

(** ** Searching the PLL parameters *)

Record pll_best := mk_best {
  DIVF : Z;
  DIVR : Z;
  DIVQ : Z;
  div : Z;
  min_minor : Z;
}.

Definition best0 : pll_best := mk_best 1 1 1 1 0xFF000000.

(** The frequency of one candidate, in Hz. *)
Definition pll_freq (DF DR DQ VD : Z) : Z :=
  do_div (SRC_FREQ * 2 * (DF + 1) * base) (VD * (DR + 1) * Z.shiftl 1 DQ).

(** One turn of the innermost loop.  [over] tells whether a frequency above
    the target may be taken (PLL C, and PLL G in [set_pll_divisor]). *)
Definition pll_try (over : bool) (freq_llu DR DQ VD DF : Z) (b : pll_best)
    : ctl pll_best pll_best :=
  if SRC_FREQ / (DR + 1) <? 10 then Break b
  else if (2 * (DF + 1)) / (DR + 1) <? 800 / SRC_FREQ then Next b
  else if 1600 / SRC_FREQ <? (2 * (DF + 1)) / (DR + 1) then Break b
  else
    let PLL_llu := pll_freq DF DR DQ VD in
    if PLL_llu =? freq_llu then Goto (mk_best DF DR DQ VD (min_minor b))
    else if PLL_llu <? freq_llu then
      let minor := freq_llu - PLL_llu in
      if minor <? min_minor b then Next (mk_best DF DR DQ VD minor) else Next b
    else if over then
      let minor := PLL_llu - freq_llu in
      if minor <? min_minor b then Break (mk_best DF DR DQ VD minor) else Break b
    else Break b.

Definition pll_df_loop (over : bool) (freq_llu DR DQ VD : Z) (b : pll_best)
    : pll_best + pll_best :=
  for_each (upto 0 (MAX_DF + 1)) (pll_try over freq_llu DR DQ VD) b.

(** [for (DR = MAX_DR; DR >= 0; DR--) for (DQ = MAX_DQ; DQ >= 0; DQ--)] *)
Definition pll_speed_search (over : bool) (freq_llu VD : Z) : pll_best + pll_best :=
  for_each (downfrom MAX_DR (MAX_DR + 1)) (fun DR b => nested (
    for_each (downfrom MAX_DQ (MAX_DQ + 1)) (fun DQ b => nested (
      pll_df_loop over freq_llu DR DQ VD b)) b)) best0.

Definition pll_divisor_search (over odd_skipped : bool) (freq_llu : Z) : pll_best + pll_best :=
  for_each (downfrom MAX_DR (MAX_DR + 1)) (fun DR b => nested (
    for_each (downfrom MAX_DQ (MAX_DQ + 1)) (fun DQ b => nested (
      for_each (downfrom 32 32) (fun VD b =>
        if (1 <? VD) && (VD mod 2 =? 1) && odd_skipped then Next b
        else nested (pll_df_loop over freq_llu DR DQ VD b)) b)) b)) best0.

(** The label [find] is reached with the same variables either way. *)
Definition found (r : pll_best + pll_best) : pll_best :=
  match r with inl b => b | inr b => b end.

Definition pll_word (b : pll_best) : Z :=
  Z.shiftl (DIVF b) 16 + Z.shiftl (DIVR b) 8 + DIVQ b.

Definition unit_base (unit : Z) : option Z :=
  if unit =? 1 then Some 1000
  else if unit =? 2 then Some 1000000
  else if unit =? 0 then Some 1
  else None.

Definition set_pll_speed (dev unit freq : Z) : M clk Z :=
  let '(PLL_NO, offs) := calc_pll_num dev in
  if PLL_NO =? -1 then mret (-1)
  else if PLL_NO =? -2 then mret (-1)
  else
    div_addr_offs ← initialised offs;
    _ ← select_sdtv dev div_addr_offs;
    _ ← check_PLL_DIV_busy;
    VD ← on_hw (read8 (PMC_BASE + div_addr_offs));
    match unit_base unit with
    | None => mret (-1)
    | Some base_f =>
        let freq_llu := u64 (u64 freq * base_f) in
        let b := found (pll_speed_search (PLL_NO =? 2) freq_llu VD) in
        let last_freq := u32 (do_div (SRC_FREQ * 2 * (DIVF b + 1) * base)
                                ((DIVR b + 1) * Z.shiftl 1 (DIVQ b) * VD)) in
        _ ← check_PLL_DIV_busy;
        _ ← on_hw (write32 (PMC_PLL + 4 * PLL_NO) (pll_word b));
        _ ← check_PLL_DIV_busy;
        mret (s32 last_freq)
    end.

(** The word written to a divisor register. *)
Definition divisor_word (dev div : Z) : Z :=
  if dev =? DEV_NA0 then Z.lor 0x200 (if div =? 32 then 0 else div)
  else (if dev =? DEV_SDTV then 0x10000 else 0) + (if div =? 32 then 0 else div).

Definition set_pll_divisor (dev unit freq : Z) : M clk Z :=
  let '(PLL_NO, offs) := calc_pll_num dev in
  if PLL_NO =? -1 then mret (-1)
  else if PLL_NO =? -2 then mret (-1)
  else
    div_addr_offs ← initialised offs;
    _ ← select_sdtv dev div_addr_offs;
    _ ← check_PLL_DIV_busy;
    old_divisor ← on_hw (read8 (PMC_BASE + div_addr_offs));
    match unit_base unit with
    | None => mret (-1)
    | Some base_f =>
        let freq_llu := u64 (u64 freq * base_f) in
        let over := (PLL_NO =? 2) || (PLL_NO =? 6) in
        let b := found (pll_divisor_search over over freq_llu) in
        let last_freq := u32 (do_div (SRC_FREQ * 2 * (DIVF b + 1) * base)
                                ((DIVR b + 1) * Z.shiftl 1 (DIVQ b) * div b)) in
        enabled ← (if dev <? 128 then
                     v ← on_hw (read32 (gate_addr dev)); mret (test_bit v (gate_bit dev))
                   else mret true);
        if negb enabled then mret (-1)
        else
          _ ← check_PLL_DIV_busy;
          _ ← (if old_divisor <? div b then
                 _ ← on_hw (write32 (PMC_BASE + div_addr_offs) (divisor_word dev (div b)));
                 check_PLL_DIV_busy
               else mret tt);
          _ ← on_hw (write32 (PMC_PLL + 4 * PLL_NO) (pll_word b));
          _ ← check_PLL_DIV_busy;
          _ ← (if div b <? old_divisor then
                 _ ← on_hw (write32 (PMC_BASE + div_addr_offs) (divisor_word dev (div b)));
                 check_PLL_DIV_busy
               else mret tt);
          mret (s32 last_freq)
    end.

(** ** Entry points *)

Definition auto_pll_divisor (dev : Z) (cmd : clk_cmd) (unit freq : Z) : M clk Z :=
  match cmd with
  | CLK_DISABLE => if dev <? 128 then disable_dev_clk dev else mret (-1)
  | CLK_ENABLE => if dev <? 128 then enable_dev_clk dev else mret (-1)
  | GET_FREQ => get_freq dev
  | SET_DIV => set_divisor dev unit freq
  | SET_PLL => set_pll_speed dev unit freq
  | SET_PLLDIV => set_pll_divisor dev unit freq
  end.

Definition manu_pll_divisor (dev DIVF DIVR DIVQ dev_div : Z) : M clk Z :=
  let SD_MMC := is_sdmmc dev in
  if (DIVF <? 0) || (MAX_DF <? DIVF) then mret (-1)
  else if (DIVR <? 0) || (MAX_DR <? DIVR) then mret (-1)
  else if (DIVQ <? 0) || (MAX_DQ <? DIVQ) then mret (-1)
  else if (2 * (DIVF + 1)) / (DIVR + 1) <? 800 / SRC_FREQ then mret (-1)
  else if 1600 / SRC_FREQ <? (2 * (DIVF + 1)) / (DIVR + 1) then mret (-1)
  else if (if SD_MMC then 63 else 31) <? dev_div then mret (-1)
  else
    let '(PLL_NO, offs) := calc_pll_num dev in
    if PLL_NO =? -1 then mret (-1)
    else
      div_addr_offs ← initialised offs;
      old_divisor ← on_hw (read8 (PMC_BASE + div_addr_offs));
      let j := SD_MMC && test_bit dev_div 5 in
      let div := Z.land dev_div 0x1F in
      let freq :=
        u32 ((1000 * SRC_FREQ * 2 * (DIVF + 1))
             / u32 ((DIVR + 1) * Z.shiftl 1 DIVQ * div * (if j then 128 else 1))) in
      let freq := u32 (freq * 1000) in
      let PLL := Z.shiftl DIVF 16 + Z.shiftl DIVR 8 + DIVQ in
      let word := (if j then 32 else 0) + (if div =? 32 then 0 else div) in
      _ ← (if dev <? 128 then
             v ← on_hw (read32 (gate_addr dev));
             if negb (test_bit v (gate_bit dev)) then _ ← enable_dev_clk dev; mret tt
             else mret tt
           else mret tt);
      _ ← check_PLL_DIV_busy;
      _ ← (if old_divisor <? u32 dev_div then
             _ ← on_hw (write32 (PMC_BASE + div_addr_offs) word); check_PLL_DIV_busy
           else mret tt);
      _ ← on_hw (write32 (PMC_PLL + 4 * PLL_NO) PLL);
      _ ← check_PLL_DIV_busy;
      _ ← (if u32 dev_div <? old_divisor then
             _ ← on_hw (write32 (PMC_BASE + div_addr_offs) word); check_PLL_DIV_busy
           else mret tt);
      mret (s32 freq).

(** ** Power of the Mali core *)

Definition mali_off : Z := 0xFE000000 + 0x00130620.

(** The loop leaves when the state field is all zeros or all ones; the word
    is read once or twice per turn, as [&&] evaluates. *)
Fixpoint mali_wait_loop (fuel : nat) : M hw unit :=
  match fuel with
  | O => fail_with Hang
  | S fuel' =>
      v ← read32 mali_off;
      if Z.land v 0xF0 =? 0 then mret tt
      else
        w ← read32 mali_off;
        if Z.land w 0xF0 =? 0xF0 then mret tt else mali_wait_loop fuel'
  end.

Definition mali_wait : M hw unit := fun h =>
  mali_wait_loop (S (length (default [] (pending h !! mali_off)))) h.

Definition wm_pmc_set (dev : Z) (cmd : power_cmd) : M hw Z :=
  v ← read32 (0xFE000000 + 0x00110110);
  let temp := Z.lor (Z.land (Z.shiftr v 10) 0xC0) (Z.land v 0x3F) in
  match cmd with
  | DEV_PWRON =>
      if Z.land temp 0xC0 =? 0x80 then mret (-1)
      else
        _ ← mali_wait;
        mali_val ← read32 mali_off;
        _ ← (if negb (Z.land mali_val 0xF0 =? 0xF0) then
               w ← read32 mali_off; write32 mali_off (Z.lor w 1)
             else mret tt);
        _ ← mali_wait;
        mret 0
  | DEV_PWROFF =>
      if Z.land temp 0xC3 =? 0xC0 then mret (-1)
      else
        _ ← mali_wait;
        mali_val ← read32 mali_off;
        _ ← (if negb (Z.land mali_val 0xF0 =? 0) then
               w ← read32 mali_off; write32 mali_off (clear_bit w 0)
             else mret tt);
        _ ← mali_wait;
        mret 0
  | DEV_PWRSTS =>
      _ ← mali_wait;
      w ← read32 mali_off;
      mret (if negb (Z.land w 0xF0 =? 0) then 1 else 0)
  end.

(** [wmt_power_dev]: its body is compiled out and it answers 0. *)
Definition wmt_power_dev (dev : Z) (cmd : power_cmd) : M hw Z := mret 0.

(** ** The hardware as the driver relies on it

    The PMC status word settles on "not busy", and every other register reads
    back as written. *)

Definition PMC_STATUS : Z := PMC_BASE + 0x18.

Definition hw_ok (h : hw) : Prop :=
  bytes_ok (mem h) /\ Z.land (word_at (mem h) PMC_STATUS) PLL_BUSY = 0 /\
  (forall a, a <> PMC_STATUS -> settled a h).

Definition clk_ok (c : clk) : Prop :=
  hw_ok (chw c) /\ length (dev_en_count c) = 128%nat.

(** Two driver states with the same registers, trace and counts: they differ
    in how many busy answers of the status word have been consumed. *)
Definition clk_same (c c' : clk) : Prop :=
  same_regs (chw c) (chw c') /\ dev_en_count c' = dev_en_count c.

#[global] Instance clk_same_preorder : PreOrder clk_same.
Proof.
  split.
  - intros c. by split.
  - intros c1 c2 c3 [? ?] [? ?]. split; [by etransitivity|congruence].
Qed.

(** The state after one more register write. *)
Definition after_write32 (a v : Z) (c : clk) : clk :=
  mk_clk (mk_hw (store32 a v (mem (chw c))) (pending (chw c)) (trace (chw c) ++ [W32 a (u32 v)]))
    (dev_en_count c).
Definition after_write8 (a v : Z) (c : clk) : clk :=
  mk_clk (mk_hw (store8 a v (mem (chw c))) (pending (chw c)) (trace (chw c) ++ [W8 a (u8 v)]))
    (dev_en_count c).
Definition with_count (dev n : Z) (c : clk) : clk :=
  mk_clk (chw c) (<[Z.to_nat dev := n]> (dev_en_count c)).

Definition gate_word (c : clk) (dev : Z) : Z := word_at (mem (chw c)) (gate_addr dev).
Definition gate_on (c : clk) (dev : Z) : bool := Z.testbit (gate_word c dev) (gate_bit dev).
Definition count_of (c : clk) (dev : Z) : Z := default 0 (dev_en_count c !! Z.to_nat dev).

(** ** Symbolic execution of the driver *)

Lemma wp_on_hw {A} (m : M hw A) Q c :
  wp m (fun a h => Q a (mk_clk h (dev_en_count c))) (chw c) -> wp (on_hw m) Q c.
Proof. unfold wp, on_hw. by destruct (m (chw c)) as [[a h]|]. Qed.

Lemma wp_rd8 a Q c : Q (byte_at (mem (chw c)) a) c -> wp (on_hw (read8 a)) Q c.
Proof. intros. apply wp_on_hw, wp_read8. by destruct c. Qed.

Lemma wp_rd32 a Q c :
  clk_ok c -> a <> PMC_STATUS -> Q (word_at (mem (chw c)) a) c -> wp (on_hw (read32 a)) Q c.
Proof.
  intros [(_ & _ & Hs) _] Ha HQ. apply wp_on_hw, wp_read32; [auto|]. by destruct c.
Qed.

Lemma wp_wr8 a v Q c : Q tt (after_write8 a v c) -> wp (on_hw (write8 a v)) Q c.
Proof. intros. by apply wp_on_hw, wp_write8. Qed.

Lemma wp_wr32 a v Q c : Q tt (after_write32 a v c) -> wp (on_hw (write32 a v)) Q c.
Proof. intros. by apply wp_on_hw, wp_write32. Qed.

Lemma wp_set_count dev n Q c : Q tt (with_count dev n c) -> wp (set_count dev n) Q c.
Proof. done. Qed.

Lemma wp_get_count dev Q c :
  clk_ok c -> 0 <= dev < 128 -> Q (count_of c dev) c -> wp (get_count dev) Q c.
Proof.
  intros [_ Hlen] Hd HQ. unfold wp, get_count, count_of in *.
  destruct (dev_en_count c !! Z.to_nat dev) eqn:E; [done|].
  apply lookup_ge_None in E. lia.
Qed.

Lemma clk_ok_same c c' : clk_same c c' ->
  (forall a, a <> PMC_STATUS -> settled a (chw c')) -> clk_ok c -> clk_ok c'.
Proof.
  intros [[Hm _] Hd] Hp [(Hb & Hst & _) Hlen]. unfold clk_ok, hw_ok. by rewrite Hm, Hd.
Qed.

Lemma wp_busy Q c :
  clk_ok c -> (forall c', clk_ok c' -> clk_same c c' -> Q tt c') -> wp check_PLL_DIV_busy Q c.
Proof.
  intros Hok HQ. pose proof Hok as [(_ & Hst & Hs) _]. apply wp_on_hw, wp_poll.
  - right. by apply Z.eqb_eq.
  - intros h' [Hsame Hp].
    assert (clk_same c (mk_clk h' (dev_en_count c))) as Hcs by done.
    apply HQ; [|done]. apply (clk_ok_same c); [done| |done].
    intros a Ha. unfold settled in *. simpl. by rewrite (Hp a Ha), Hs.
Qed.

Lemma clk_ok_write32 a v c :
  clk_ok c -> a + 3 < PMC_STATUS \/ PMC_STATUS + 3 < a -> clk_ok (after_write32 a v c).
Proof.
  intros [(Hb & Hst & Hs) Hlen] Ha. split; [|done]. split; [by apply store32_ok|].
  split; [|done]. simpl. by rewrite word_at_store32_ne by lia.
Qed.

Lemma clk_ok_write8 a v c :
  clk_ok c -> a < PMC_STATUS \/ PMC_STATUS + 3 < a -> clk_ok (after_write8 a v c).
Proof.
  intros [(Hb & Hst & Hs) Hlen] Ha. split; [|done]. split; [by apply store8_ok|].
  split; [|done]. simpl. by rewrite word_at_store8_ne by lia.
Qed.

Lemma clk_ok_count dev n c : clk_ok c -> clk_ok (with_count dev n c).
Proof. intros [H Hlen]. split; [done|]. simpl. by rewrite length_insert. Qed.

#[export] Hint Resolve clk_ok_write32 clk_ok_write8 clk_ok_count : wmt.

Ltac addr_lia :=
  unfold gate_addr, gate_bit, PMC_STATUS, PMC_PLL, PMC_CLK, PMC_BASE, PM_CTRL_BASE_ADDR in *;
  lia.

(** One step of symbolic execution; a busy wait introduces the state after it. *)
Ltac wp_step :=
  lazymatch goal with
  | |- wp (mbind _ _) _ _ => apply wp_bind
  | |- wp (mret _) _ _ => apply wp_ret
  | |- wp (initialised (Some _)) _ _ => apply wp_ret
  | |- wp (on_hw (read8 _)) _ _ => apply wp_rd8
  | |- wp (on_hw (read32 _)) _ _ => apply wp_rd32; [eauto with wmt| |]
  | |- wp (on_hw (write8 _ _)) _ _ => apply wp_wr8
  | |- wp (on_hw (write32 _ _)) _ _ => apply wp_wr32
  | |- wp (set_count _ _) _ _ => apply wp_set_count
  | |- wp (get_count _) _ _ => apply wp_get_count; [eauto with wmt| |]
  | |- wp check_PLL_DIV_busy _ _ =>
      let c := fresh "c" in let Hok := fresh "Hok" in let Hs := fresh "Hs" in
      apply wp_busy; [eauto with wmt|intros c Hok Hs]
  end.

(** ** Clock gates: the enable count refines a set of users *)

Definition is_gate (dev : Z) : Prop := 0 <= dev < 128.

Lemma gate_bit_bound dev : 0 <= gate_bit dev < 32.
Proof. unfold gate_bit. pose proof (Z.mod_pos_bound dev 32). pose proof (Z.div_mod dev 32). lia. Qed.

Lemma gate_inj d d' :
  gate_addr d = gate_addr d' -> gate_bit d = gate_bit d' -> d = d'.
Proof. unfold gate_addr, gate_bit. lia. Qed.

Lemma gate_addr_apart d d' :
  gate_addr d <> gate_addr d' ->
  gate_addr d + 3 < gate_addr d' \/ gate_addr d' + 3 < gate_addr d.
Proof. unfold gate_addr. lia. Qed.

Lemma gate_addr_range dev : is_gate dev -> PMC_CLK <= gate_addr dev <= PMC_CLK + 12.
Proof. unfold is_gate, gate_addr. dlia. Qed.

(** Writing one bit of a gate word changes that gate and no other. *)
Lemma gate_on_rmw dev d v c :
  is_gate dev -> is_gate d -> 0 <= v < 2 ^ 32 ->
  (forall m, 0 <= m -> m <> gate_bit dev -> Z.testbit v m = Z.testbit (gate_word c dev) m) ->
  gate_on (after_write32 (gate_addr dev) v c) d =
  if d =? dev then Z.testbit v (gate_bit dev) else gate_on c d.
Proof.
  intros Hdev Hd Hv Hbits. unfold gate_on, gate_word in *. simpl.
  destruct (decide (gate_addr d = gate_addr dev)) as [Ha|Ha].
  - rewrite Ha, word_at_store32, u32_small by done.
    case_bool; [by subst|]. apply Hbits; [apply gate_bit_bound|].
    intros Hb. by apply (gate_inj d dev) in Ha.
  - case_bool; [by subst|]. rewrite word_at_store32_ne; [done|].
    by apply gate_addr_apart.
Qed.

Lemma gate_word_bound c dev : clk_ok c -> 0 <= gate_word c dev < 2 ^ 32.
Proof. intros [(Hb & _) _]. by apply word_at_bound. Qed.

Lemma gate_on_set dev d c :
  clk_ok c -> is_gate dev -> is_gate d ->
  gate_on (after_write32 (gate_addr dev) (set_bit (gate_word c dev) (gate_bit dev)) c) d =
  if d =? dev then true else gate_on c d.
Proof.
  intros Hok Hdev Hd. pose proof (gate_bit_bound dev). rewrite gate_on_rmw; try done.
  - case_bool; [|done]. by rewrite set_bit_bits, Z.eqb_refl, orb_true_r by lia.
  - apply set_bit_bound; [lia|by apply gate_word_bound].
  - intros m Hm Hne. rewrite set_bit_bits by lia.
    by rewrite (proj2 (Z.eqb_neq _ _)), orb_false_r by congruence.
Qed.

Lemma gate_on_clear dev d c :
  clk_ok c -> is_gate dev -> is_gate d ->
  gate_on (after_write32 (gate_addr dev) (clear_bit (gate_word c dev) (gate_bit dev)) c) d =
  if d =? dev then false else gate_on c d.
Proof.
  intros Hok Hdev Hd. pose proof (gate_bit_bound dev). rewrite gate_on_rmw; try done.
  - case_bool; [|done]. by rewrite clear_bit_bits, Z.eqb_refl, andb_false_r by lia.
  - apply clear_bit_bound; [lia..|by apply gate_word_bound].
  - intros m Hm Hne. rewrite clear_bit_bits by lia.
    by rewrite (proj2 (Z.eqb_neq _ _)), andb_true_r by congruence.
Qed.

Lemma count_of_with dev d n c :
  clk_ok c -> is_gate dev -> is_gate d ->
  count_of (with_count dev n c) d = if d =? dev then n else count_of c d.
Proof.
  intros [_ Hlen] Hdev Hd. unfold is_gate in *. unfold count_of. simpl.
  case_bool.
  - subst. rewrite list_lookup_insert_eq by lia. done.
  - rewrite list_lookup_insert_ne by lia. done.
Qed.

(** What one gate is, to its users: how many hold it, and whether it runs. *)
Inductive gate_op := Enable | Disable.

Definition gate_spec (op : gate_op) (g : Z * bool) : Z * bool :=
  match op with
  | Enable => (g.1 + 1, true)
  | Disable => if g.1 <=? 1 then (0, false) else (g.1 - 1, g.2)
  end.

Definition gate_cmd (op : gate_op) : clk_cmd :=
  match op with Enable => CLK_ENABLE | Disable => CLK_DISABLE end.

(** The gate of [d] in a driver state, and the states the driver keeps. *)
Definition gate_view (c : clk) (d : Z) : Z * bool := (count_of c d, gate_on c d).
Definition gate_ok (g : Z * bool) : Prop := 0 <= g.1 /\ (0 < g.1 -> g.2 = true).

Definition point_update (f : Z -> Z * bool) (d : Z) (g : Z * bool) : Z -> Z * bool :=
  fun d' => if d' =? d then g else f d'.

Lemma gate_step op dev c :
  clk_ok c -> is_gate dev -> gate_ok (gate_view c dev) -> count_of c dev + 1 < 2 ^ 31 ->
  wp (auto_pll_divisor dev (gate_cmd op) 0 0)
    (fun r c' => clk_ok c' /\ r = (gate_spec op (gate_view c dev)).1 /\
       forall d, is_gate d ->
         gate_view c' d = point_update (gate_view c) dev (gate_spec op (gate_view c dev)) d) c.
Proof.
  intros Hok Hdev [Hn Hon] Hmax. simpl in Hn, Hon.
  pose proof (gate_addr_range dev Hdev) as Haddr. pose proof Hdev as Hdev'. unfold is_gate in Hdev'.
  assert (gate_addr dev + 3 < PMC_STATUS \/ PMC_STATUS + 3 < gate_addr dev) by addr_lia.
  unfold point_update, gate_view, gate_spec.
  destruct op; cbn [gate_cmd auto_pll_divisor fst snd];
    rewrite (proj2 (Z.ltb_lt dev 128)) by lia.
  - unfold enable_dev_clk. rewrite (proj2 (Z.ltb_ge 128 dev)) by lia.
    repeat wp_step; [lia|addr_lia|].
    fold (gate_word c dev). rewrite test_bit_testbit by apply gate_bit_bound.
    fold (gate_on c dev).
    destruct (Z.leb_spec (count_of c dev) 0) as [H0|H0]; cbn [orb].
    + repeat wp_step; [addr_lia|]. cbn [gate_word chw with_count].
      fold (gate_word c dev). split; [eauto with wmt|]. split; [lia|]. intros d Hd.
      change (gate_on (after_write32 ?a ?v (with_count dev 1 c)) d)
        with (gate_on (after_write32 a v c) d).
      change (count_of (after_write32 ?a ?v ?c) d) with (count_of c d).
      rewrite gate_on_set, count_of_with by done.
      replace (count_of c dev + 1) with 1 by lia. by case_bool.
    + rewrite Hon by done. cbn [negb]. rewrite s32_small by lia. repeat wp_step.
      split; [eauto with wmt|]. split; [done|]. intros d Hd.
      change (gate_on (with_count ?a ?b ?c) d) with (gate_on c d).
      rewrite count_of_with by done. case_bool; [|done]. subst. by rewrite Hon.
  - unfold disable_dev_clk. rewrite (proj2 (Z.leb_gt 128 dev)) by lia.
    repeat wp_step; [lia|]. destruct (Z.leb_spec (count_of c dev) 1) as [H1|H1].
    + repeat wp_step; [addr_lia|]. cbn [chw with_count]. fold (gate_word c dev).
      split; [eauto with wmt|]. split; [done|]. intros d Hd.
      change (gate_on (after_write32 ?a ?v (with_count dev 0 c)) d)
        with (gate_on (after_write32 a v c) d).
      change (count_of (after_write32 ?a ?v ?c) d) with (count_of c d).
      rewrite gate_on_clear, count_of_with by done. by case_bool.
    + repeat wp_step. split; [eauto with wmt|]. split; [done|]. intros d Hd.
      change (gate_on (with_count ?a ?b ?c) d) with (gate_on c d).
      rewrite count_of_with by done. case_bool; by subst.
Qed.

(** ** Sequences of gate requests *)

Fixpoint run_gates (l : list (gate_op * Z)) : M clk (list Z) :=
  match l with
  | [] => mret []
  | (op, dev) :: l' =>
      r ← auto_pll_divisor dev (gate_cmd op) 0 0;
      rs ← run_gates l';
      mret (r :: rs)
  end.

Fixpoint spec_gates (l : list (gate_op * Z)) (f : Z -> Z * bool) : list Z * (Z -> Z * bool) :=
  match l with
  | [] => ([], f)
  | (op, dev) :: l' =>
      let g := gate_spec op (f dev) in
      let '(rs, f') := spec_gates l' (point_update f dev g) in
      (g.1 :: rs, f')
  end.

Lemma gate_spec_ok op g : gate_ok g -> gate_ok (gate_spec op g).
Proof.
  unfold gate_ok. destruct g as [n on], op; simpl; intros [Hn Hon].
  - split; [lia|done].
  - case_bool; simpl; [split; [lia|lia]|]. split; [lia|]. intros. apply Hon. lia.
Qed.

Lemma gate_spec_count op g : gate_ok g -> (gate_spec op g).1 <= g.1 + 1.
Proof. intros [? ?]. destruct op; simpl; [lia|]. case_bool; simpl; lia. Qed.

Lemma run_gates_refines l : forall f c,
  clk_ok c ->
  (forall d, is_gate d -> gate_view c d = f d) ->
  (forall d, is_gate d -> gate_ok (f d)) ->
  Forall (fun r => is_gate r.2) l ->
  (forall d, is_gate d -> (f d).1 + Z.of_nat (length l) < 2 ^ 31) ->
  wp (run_gates l)
    (fun rs c' => clk_ok c' /\ rs = (spec_gates l f).1 /\
       forall d, is_gate d -> gate_view c' d = (spec_gates l f).2 d) c.
Proof.
  induction l as [|[op dev] l IH]; intros f c Hok Hview Hinv Hdevs Hmax; simpl.
  - apply wp_ret. auto.
  - inversion_clear Hdevs as [|? ? Hdev Hl]. simpl in Hdev. apply wp_bind.
    pose proof (Hmax dev Hdev) as Hm. simpl length in Hm.
    rewrite <- (Hview dev Hdev) in Hm. simpl in Hm.
    eapply wp_mono; [|apply gate_step; auto; [by rewrite Hview; auto|lia]].
    intros r c' (Hok' & -> & Hview'). simpl. apply wp_bind.
    rewrite (Hview dev Hdev). rewrite (Hview dev Hdev) in Hview'.
    set (g := gate_spec op (f dev)) in *.
    assert (gate_ok g) by (apply gate_spec_ok; auto).
    assert (g.1 <= (f dev).1 + 1) by (apply gate_spec_count; auto).
    eapply wp_mono; [|apply (IH (point_update f dev g)); auto].
    + intros rs c'' (Hok'' & -> & Hview''). apply wp_ret.
      destruct (spec_gates l (point_update f dev g)) as [rs f'] eqn:E. simpl. auto.
    + intros d Hd. rewrite Hview' by done. unfold point_update. case_bool; auto.
    + intros d Hd. unfold point_update. case_bool; auto.
    + intros d Hd. specialize (Hmax d Hd). simpl length in Hmax. unfold point_update.
      case_bool; [subst; lia|lia].
Qed.

(** ** The registers a frequency command may touch *)

(** The PLL words and the block of divisor registers. *)
Definition in_freq_area (a : Z) : Prop :=
  PMC_PLL <= a < PMC_PLL + 28 \/ PMC_BASE + 0x300 <= a < PMC_BASE + 0x3C4.

Definition pmc_frame (c c' : clk) : Prop :=
  dev_en_count c' = dev_en_count c /\
  forall a, ~ in_freq_area a -> byte_at (mem (chw c')) a = byte_at (mem (chw c)) a.

#[global] Instance pmc_frame_preorder : PreOrder pmc_frame.
Proof.
  split.
  - intros c. by split.
  - intros c1 c2 c3 [Hd1 Hm1] [Hd2 Hm2]. split; [congruence|].
    intros a Ha. by rewrite Hm2, Hm1.
Qed.

(** [m] returns, whatever the registers hold, and stays in that area. *)
Definition pmc_op {A} (m : M clk A) : Prop :=
  forall c, clk_ok c -> wp m (fun _ c' => clk_ok c' /\ pmc_frame c c') c.

Lemma pmc_ret {A} (a : A) : pmc_op (mret a).
Proof. intros c Hok. by apply wp_ret. Qed.

Lemma pmc_bind {A B} (m : M clk A) (k : A -> M clk B) :
  pmc_op m -> (forall a, pmc_op (k a)) -> pmc_op (mbind k m).
Proof.
  intros Hm Hk c Hok. apply wp_bind. eapply wp_mono; [|by apply Hm].
  intros a c' [Hok' Hf]. simpl. eapply wp_mono; [|by apply Hk].
  intros b c'' [Hok'' Hf']. split; [done|]. by etransitivity.
Qed.

Lemma pmc_bind_init {A B} (a : A) (k : A -> M clk B) :
  pmc_op (k a) -> pmc_op (mbind k (initialised (Some a))).
Proof. intros Hk c Hok. by apply wp_bind, wp_ret, Hk. Qed.

Lemma pmc_rd8 a : pmc_op (on_hw (read8 a)).
Proof. intros c Hok. by apply wp_rd8. Qed.

Lemma pmc_rd32 a : a <> PMC_STATUS -> pmc_op (on_hw (read32 a)).
Proof. intros Ha c Hok. by apply wp_rd32. Qed.

Lemma pmc_wr8 a v : in_freq_area a -> pmc_op (on_hw (write8 a v)).
Proof.
  intros Ha c Hok. apply wp_wr8. split.
  - apply clk_ok_write8; [done|]. unfold in_freq_area in *. addr_lia.
  - split; [done|]. intros b Hb. simpl. apply byte_at_store8_ne. congruence.
Qed.

Lemma pmc_wr32 a v : in_freq_area a -> in_freq_area (a + 3) -> pmc_op (on_hw (write32 a v)).
Proof.
  intros Ha Ha3 c Hok. apply wp_wr32. split.
  - apply clk_ok_write32; [done|]. unfold in_freq_area in *. addr_lia.
  - split; [done|]. intros b Hb. simpl. apply byte_at_store32_ne.
    unfold in_freq_area in *. addr_lia.
Qed.

Lemma pmc_busy : pmc_op check_PLL_DIV_busy.
Proof.
  intros c Hok. apply wp_busy; [done|]. intros c' Hok' [[Hm _] Hd]. split; [done|].
  split; [done|]. intros a _. by rewrite Hm.
Qed.

#[export] Hint Resolve pmc_ret pmc_rd8 pmc_rd32 pmc_wr8 pmc_wr32 pmc_busy : wmt.

(** What the table of [calc_pll_num] can answer. *)
Lemma switch_case {A} v (cases : list (list Z * A)) d :
  switch v cases d = d \/
  exists labels a, In (labels, a) cases /\ In v labels /\ switch v cases d = a.
Proof.
  induction cases as [|[labels a] cases IH]; simpl; [by left|].
  destruct (existsb (Z.eqb v) labels) eqn:E.
  - right. exists labels, a. apply existsb_exists in E as (x & Hx & ->%Z.eqb_eq). auto.
  - destruct IH as [IH|(l & a' & ? & ? & ?)]; [by left|right]. exists l, a'. auto.
Qed.

Definition pll_entry_ok (e : Z * option Z) : bool :=
  match e with
  | (p, Some o) =>
      (p =? -2) && ((o =? 0) || (o =? 25)) ||
      (0 <=? p) && (p <=? 6) && (0x300 <=? o) && (o <=? 0x3C0) && (o mod 4 =? 0)
  | (_, None) => false
  end.

Lemma calc_pll_num_entry dev :
  calc_pll_num dev = (-1, None) \/ pll_entry_ok (calc_pll_num dev) = true.
Proof.
  unfold calc_pll_num.
  match goal with |- context [switch dev ?l ?d] =>
    destruct (switch_case dev l d) as [->|(labels & a & Hin & _ & ->)]; [by left|right];
    assert (forallb (fun e => pll_entry_ok e.2) l = true) as H by reflexivity
  end.
  rewrite forallb_forall in H. by apply (H (labels, a)).
Qed.

Lemma calc_pll_num_cases dev :
  calc_pll_num dev = (-1, None) \/
  calc_pll_num dev = (-2, Some 0) \/ calc_pll_num dev = (-2, Some 25) \/
  exists PLL_NO o, calc_pll_num dev = (PLL_NO, Some o) /\
    0 <= PLL_NO <= 6 /\ 0x300 <= o <= 0x3C0 /\ o mod 4 = 0.
Proof.
  destruct (calc_pll_num_entry dev) as [?|H]; [by left|right].
  destruct (calc_pll_num dev) as [p [o|]]; [|done]. simpl in H.
  apply orb_true_iff in H as [H|H]; bool_to_prop.
  - apply orb_true_iff in H0 as [H0|H0]; bool_to_prop; subst; auto.
  - right; right. exists p, o. auto.
Qed.

Ltac pmc_case dev :=
  let E := fresh "E" in
  destruct (calc_pll_num_cases dev) as [E|[E|[E|(PLL_NO & o & E & Hp & Ho & Ho4)]]];
  rewrite E; cbn beta iota.

Lemma select_sdtv_pmc dev o : 0x300 <= o <= 0x3C0 -> pmc_op (select_sdtv dev o).
Proof. intros. apply pmc_wr8. unfold in_freq_area. addr_lia. Qed.
#[export] Hint Resolve select_sdtv_pmc : wmt.

Lemma gate_addr_status dev : gate_addr dev <> PMC_STATUS \/ dev < 0.
Proof. unfold gate_addr. destruct (decide (dev < 0)); [by right|left]. 
  pose proof (Z.div_pos dev 32). addr_lia. Qed.

(** Walks through an operation, splitting on its conditions. *)
Ltac pmc_walk :=
  repeat (cbv zeta;
    match goal with
    | |- pmc_op (mbind _ (initialised (Some _))) => apply pmc_bind_init
    | |- pmc_op (mbind _ _) => apply pmc_bind; [|intros ?]
    | |- pmc_op (if ?b then _ else _) => destruct b eqn:?; try discriminate
    | |- pmc_op (match ?x with _ => _ end) => destruct x eqn:?
    | |- pmc_op (on_hw (write32 _ _)) => apply pmc_wr32; unfold in_freq_area; addr_lia
    | |- pmc_op (on_hw (read32 (gate_addr ?dev))) =>
        apply pmc_rd32; destruct (gate_addr_status dev); [done|lia]
    | |- pmc_op (on_hw (read32 _)) => apply pmc_rd32; addr_lia
    | |- pmc_op _ => solve [auto with wmt]
    end).

Section FreqCommandsFrame.
Context (dev : Z) (Hdev : 0 <= dev).

Lemma get_freq_pmc : pmc_op (get_freq dev).
Proof. unfold get_freq. pmc_case dev; pmc_walk. Qed.

Lemma set_divisor_pmc unit freq : pmc_op (set_divisor dev unit freq).
Proof. unfold set_divisor. pmc_case dev; pmc_walk. Qed.

Lemma set_pll_speed_pmc unit freq : pmc_op (set_pll_speed dev unit freq).
Proof. unfold set_pll_speed. pmc_case dev; pmc_walk. Qed.

Lemma set_pll_divisor_pmc unit freq : pmc_op (set_pll_divisor dev unit freq).
Proof. unfold set_pll_divisor. pmc_case dev; pmc_walk. Qed.
End FreqCommandsFrame.

Lemma pmc_frame_gates c c' d :
  is_gate d -> pmc_frame c c' -> gate_view c' d = gate_view c d.
Proof.
  intros Hd [Hc Hm]. pose proof (gate_addr_range d Hd).
  unfold gate_view, count_of, gate_on, gate_word, word_at. rewrite Hc.
  by rewrite !Hm by (unfold in_freq_area; addr_lia).
Qed.

(** ** Concrete register files *)

(** The state after boot: the listed words hold the listed values, everything
    else is 0, and nobody has asked for a clock yet. *)
Definition boot_clk (words : list (Z * Z)) : clk :=
  mk_clk (mk_hw (foldr (fun w m => store32 w.1 w.2 m) ∅ words) ∅ []) (replicate 128 0).

Lemma boot_clk_ok words :
  forallb (fun w => (w.1 + 3 <? PMC_STATUS) || (PMC_STATUS + 3 <? w.1)) words = true ->
  clk_ok (boot_clk words).
Proof.
  intros H. assert (Hm : bytes_ok (foldr (fun w m => store32 w.1 w.2 m) ∅ words) /\
    word_at (foldr (fun w m => store32 w.1 w.2 m) ∅ words) PMC_STATUS = 0).
  { induction words as [|w words IH]; simpl in *; [done|]. apply andb_true_iff in H as [Hw H].
    destruct (IH H) as [IHb IHw]. split; [by apply store32_ok|].
    rewrite word_at_store32_ne; [done|]. apply orb_true_iff in Hw as [Hw|Hw]; bool_to_prop; lia. }
  destruct Hm as [Hb Hw]. split; [|done]. split; [done|]. split; [simpl; by rewrite Hw|].
  intros a _. unfold settled. simpl. by rewrite lookup_empty.
Qed.

(** All gates open, PLL B at 24 MHz * 66, I2C0 and I2C1 divided by 16, the SF
    controller by 32. *)
Definition boot_words : list (Z * Z) :=
  [(PMC_CLK, 0xFFFFFFFF); (PMC_CLK + 4, 0xFFFFFFFF); (PMC_CLK + 8, 0xFFFFFFFF);
   (PMC_CLK + 12, 0xFFFFFFFF); (PMC_PLL + 4, 0x200000); (PMC_BASE + 0x3A0, 16);
   (PMC_BASE + 0x3A4, 16); (PMC_BASE + 0x314, 0)].

Definition boot : clk := boot_clk boot_words.

Lemma boot_ok : clk_ok boot.
Proof. apply boot_clk_ok. reflexivity. Qed.

Lemma boot_gates d : is_gate d -> gate_view boot d = (0, true).
Proof.
  unfold is_gate. intros Hd.
  assert (forallb (fun d => (count_of boot d =? 0) && gate_on boot d) (seqZ 0 128) = true) as H
    by (vm_compute; reflexivity).
  rewrite forallb_forall in H. specialize (H d). rewrite <- list_elem_of_In, elem_of_seqZ in H.
  specialize (H ltac:(lia)). bool_to_prop. unfold gate_view. congruence.
Qed.

(** ** Properties *)

(** [C10] The enable counts refine a plain account of users: for every sequence
    of enable and disable requests on any gates, the driver answers the user
    counts of the account, and afterwards every gate has exactly the count and
    the on/off state the account gives it.  In particular the hardware bit of
    a gate is changed by requests for that gate alone. *)
Theorem clock_gates_refine l c :
  clk_ok c -> (forall d, is_gate d -> gate_ok (gate_view c d)) ->
  Forall (fun r => is_gate r.2) l ->
  (forall d, is_gate d -> count_of c d + Z.of_nat (length l) < 2 ^ 31) ->
  wp (run_gates l)
    (fun rs c' => clk_ok c' /\ rs = (spec_gates l (gate_view c)).1 /\
       forall d, is_gate d -> gate_view c' d = (spec_gates l (gate_view c)).2 d) c.
Proof. intros. by apply run_gates_refines. Qed.

Lemma clock_gates_refine_witness :
  wp (run_gates [(Enable, DEV_I2C0); (Enable, DEV_I2C0); (Disable, DEV_UART0); (Disable, DEV_I2C0)])
    (fun rs c' => clk_ok c' /\ rs = [1; 2; 0; 1] /\
       forall d, is_gate d -> gate_view c' d = (spec_gates
         [(Enable, DEV_I2C0); (Enable, DEV_I2C0); (Disable, DEV_UART0); (Disable, DEV_I2C0)]
         (gate_view boot)).2 d) boot.
Proof.
  apply (clock_gates_refine [(Enable, DEV_I2C0); (Enable, DEV_I2C0); (Disable, DEV_UART0);
    (Disable, DEV_I2C0)] boot boot_ok).
  - intros d Hd. rewrite boot_gates by done. by split.
  - repeat apply Forall_cons_2; try apply Forall_nil_2; unfold is_gate; simpl;
      unfold DEV_I2C0, DEV_UART0; lia.
  - intros d Hd. assert (count_of boot d = 0) as -> by (by injection (boot_gates d Hd)). simpl. lia.
Defined.

(** The users of [dev] after a request. *)
Definition users (dev : Z) (n : Z) (r : gate_op * Z) : Z :=
  if r.2 =? dev then match r.1 with Enable => n + 1 | Disable => n - 1 end else n.

Lemma spec_gates_held dev l : forall f,
  gate_ok (f dev) ->
  (forall k, (k <= length l)%nat -> 0 < foldl (users dev) (f dev).1 (take k l)) ->
  (spec_gates l f).2 dev = (foldl (users dev) (f dev).1 l, true).
Proof.
  induction l as [|[op d] l IH]; intros f Hok Hpos; simpl.
  - destruct (f dev) as [n on] eqn:E. destruct Hok as [_ Hon]. simpl in *.
    rewrite Hon; [done|]. specialize (Hpos 0%nat ltac:(lia)). simpl in Hpos. done.
  - set (g := gate_spec op (f d)). specialize (IH (point_update f d g)).
    destruct (spec_gates l (point_update f d g)) as [rs f']. simpl in *.
    assert (Hu : (point_update f d g dev).1 = users dev (f dev).1 (op, d) /\
                 gate_ok (point_update f d g dev)).
    { pose proof (Hpos 1%nat ltac:(lia)) as H1. unfold point_update, users in *. simpl in *.
      rewrite (Z.eqb_sym d dev) in *.
      destruct (Z.eqb_spec dev d) as [->|]; [|done].
      split; [|by apply gate_spec_ok]. unfold g, gate_spec. destruct op; simpl in *; [done|].
      destruct (Z.leb_spec (f d).1 1); simpl; lia. }
    destruct Hu as [Hu Hg]. rewrite IH, Hu; [done|done|].
    intros k Hk. rewrite Hu. apply (Hpos (S k)). lia.
Qed.

(** A clock is never cut while a driver holds it: if, along a sequence of
    requests, the number of users of a gate (its count, plus the enables, minus
    the disables) stays positive, then the gate is open at the end and its
    count is that number. *)
Theorem clock_gate_held_stays_on dev l c :
  clk_ok c -> (forall d, is_gate d -> gate_ok (gate_view c d)) -> is_gate dev ->
  Forall (fun r => is_gate r.2) l ->
  (forall d, is_gate d -> count_of c d + Z.of_nat (length l) < 2 ^ 31) ->
  (forall k, (k <= length l)%nat -> 0 < foldl (users dev) (count_of c dev) (take k l)) ->
  wp (run_gates l)
    (fun _ c' => gate_on c' dev = true /\ count_of c' dev = foldl (users dev) (count_of c dev) l) c.
Proof.
  intros Hok Hg Hdev Hl Hmax Hpos.
  eapply wp_mono; [|by apply (run_gates_refines l (gate_view c))].
  intros rs c' (_ & _ & Hview). specialize (Hview dev Hdev).
  rewrite spec_gates_held in Hview by auto. by injection Hview as -> ->.
Qed.

(** [boot], with the clock of I2C0 held by one driver. *)
Definition boot_held : clk := with_count DEV_I2C0 1 boot.

Lemma boot_held_gates d :
  is_gate d -> gate_view boot_held d = if d =? DEV_I2C0 then (1, true) else (0, true).
Proof.
  intros Hd. unfold gate_view, boot_held. rewrite count_of_with; [|apply boot_ok|done|done].
  change (gate_on (with_count ?a ?b ?c) d) with (gate_on c d).
  pose proof (boot_gates d Hd) as [= -> ->]. by case_bool.
Qed.

Lemma clock_gate_held_stays_on_witness :
  wp (run_gates [(Enable, DEV_I2C0); (Disable, DEV_SF); (Disable, DEV_I2C0)])
    (fun _ c' => gate_on c' DEV_I2C0 = true /\ count_of c' DEV_I2C0 = 1) boot_held.
Proof.
  apply (clock_gate_held_stays_on DEV_I2C0
    [(Enable, DEV_I2C0); (Disable, DEV_SF); (Disable, DEV_I2C0)] boot_held).
  - apply clk_ok_count, boot_ok.
  - intros d Hd. rewrite boot_held_gates by done. case_bool; by split.
  - unfold is_gate, DEV_I2C0. lia.
  - repeat apply Forall_cons_2; try apply Forall_nil_2; unfold is_gate; simpl;
      unfold DEV_I2C0, DEV_SF; lia.
  - intros d Hd. assert (count_of boot_held d <= 1); [|simpl; lia].
    pose proof (boot_held_gates d Hd) as H. unfold gate_view in H.
    destruct (d =? DEV_I2C0); injection H; lia.
  - intros k Hk. do 4 (destruct k as [|k]; [by vm_compute|]). simpl in Hk. lia.
Defined.

(** [C13] Every command of [auto_pll_divisor], on any device number and with
    any arguments, returns: it never indexes outside the counts, reads an
    unset divisor offset or waits for ever.  It keeps the driver's invariant,
    leaves the gate of every other device alone, and only CLK_ENABLE and
    CLK_DISABLE touch the gate of the device itself. *)
Theorem auto_pll_divisor_safe dev cmd unit freq c :
  0 <= dev -> clk_ok c -> (forall d, is_gate d -> gate_ok (gate_view c d)) ->
  (forall d, is_gate d -> count_of c d + 1 < 2 ^ 31) ->
  wp (auto_pll_divisor dev cmd unit freq)
    (fun r c' => clk_ok c' /\ (forall d, is_gate d -> gate_ok (gate_view c' d)) /\
       forall d, is_gate d -> d <> dev \/ (cmd <> CLK_ENABLE /\ cmd <> CLK_DISABLE) ->
         gate_view c' d = gate_view c d) c.
Proof.
  intros Hdev Hok Hg Hmax.
  assert (Hpmc : forall m : M clk Z, pmc_op m -> wp m (fun r c' => clk_ok c' /\
    (forall d, is_gate d -> gate_ok (gate_view c' d)) /\
    forall d, is_gate d -> d <> dev \/ (cmd <> CLK_ENABLE /\ cmd <> CLK_DISABLE) ->
         gate_view c' d = gate_view c d) c).
  { intros m Hm. eapply wp_mono; [|by apply Hm]. intros r c' [Hok' Hf]. split; [done|].
    split; intros d Hd; [rewrite (pmc_frame_gates c); auto|]. intros _. by apply pmc_frame_gates. }
  assert (Hgate : forall op, dev < 128 -> cmd = gate_cmd op ->
    wp (auto_pll_divisor dev (gate_cmd op) 0 0) (fun r c' => clk_ok c' /\
    (forall d, is_gate d -> gate_ok (gate_view c' d)) /\
    forall d, is_gate d -> d <> dev \/ (cmd <> CLK_ENABLE /\ cmd <> CLK_DISABLE) ->
         gate_view c' d = gate_view c d) c).
  { intros op Hlt Hcmd. assert (is_gate dev) by (unfold is_gate; lia).
    eapply wp_mono; [|apply gate_step; auto]. intros r c' (Hok' & _ & Hv). split; [done|].
    unfold point_update in Hv. split; intros d Hd; rewrite (Hv d Hd).
    - case_bool; [apply gate_spec_ok|]; auto.
    - intros [?|[? ?]]; [by rewrite (proj2 (Z.eqb_neq d dev))|by destruct op]. }
  destruct cmd.
  - destruct (Z.ltb_spec dev 128) as [Hlt|Hge].
    + exact (Hgate Disable Hlt eq_refl).
    + simpl. rewrite (proj2 (Z.ltb_ge dev 128)) by lia. apply Hpmc, pmc_ret.
  - apply Hpmc, get_freq_pmc, Hdev.
  - destruct (Z.ltb_spec dev 128) as [Hlt|Hge].
    + exact (Hgate Enable Hlt eq_refl).
    + simpl. rewrite (proj2 (Z.ltb_ge dev 128)) by lia. apply Hpmc, pmc_ret.
  - apply Hpmc, set_divisor_pmc, Hdev.
  - apply Hpmc, set_pll_speed_pmc.
  - apply Hpmc, set_pll_divisor_pmc, Hdev.
Qed.

Lemma auto_pll_divisor_safe_witness :
  wp (auto_pll_divisor DEV_SDTV SET_PLLDIV 2 27)
    (fun r c' => clk_ok c' /\ (forall d, is_gate d -> gate_ok (gate_view c' d)) /\
       forall d, is_gate d -> d <> DEV_SDTV \/ (SET_PLLDIV <> CLK_ENABLE /\ SET_PLLDIV <> CLK_DISABLE) ->
         gate_view c' d = gate_view boot d) boot.
Proof.
  apply (auto_pll_divisor_safe DEV_SDTV SET_PLLDIV 2 27 boot).
  - by vm_compute.
  - apply boot_ok.
  - intros d Hd. rewrite boot_gates by done. by split.
  - intros d Hd. assert (count_of boot d = 0) as -> by (by injection (boot_gates d Hd)). lia.
Defined.

(** [enable_dev_clk] tests its argument against 128 with [>] where its
    counterpart uses [>=]: the first device number past the table is let
    through and indexes out of bounds.  [auto_pll_divisor] and
    [manu_pll_divisor] test the number themselves, so they never pass it. *)
Theorem enable_dev_clk_128_out_of_bounds c :
  length (dev_en_count c) = 128%nat ->
  enable_dev_clk 128 c = Fault Undefined /\ disable_dev_clk 128 c = Ok (-1, c).
Proof.
  intros Hlen. split; [|done]. unfold enable_dev_clk. simpl.
  unfold mbind, M_bind, get_count. by rewrite lookup_ge_None_2 by (rewrite Hlen; vm_compute; lia).
Qed.

Lemma enable_dev_clk_128_out_of_bounds_witness :
  enable_dev_clk 128 boot = Fault Undefined /\ disable_dev_clk 128 boot = Ok (-1, boot).
Proof. apply (enable_dev_clk_128_out_of_bounds boot). reflexivity. Defined.
