(* ===== verification/ClockSearch.v ===== *)
(** * The frequency searches of the clock manager

    Correctness of the loops of [wmt_clk.c] that choose a divisor
    ([set_divisor]) or PLL parameters ([set_pll_speed], [set_pll_divisor]):
    the early exits of the nested loops lose no better candidate. *)

From S2P Require Import Prelude Mmio Clock.

Ltac maxes :=
  change MAX_DF with 127 in *; change MAX_DR with 1 in *; change MAX_DQ with 3 in *.

(** ** Candidates *)

Record cand := mk_cand { cDR : Z; cDQ : Z; cVD : Z; cDF : Z }.

Definition cand_freq (k : cand) : Z := pll_freq (cDF k) (cDR k) (cDQ k) (cVD k).

(** The VCO window the loops enforce, and the ranges of the PLL fields. *)
Definition cand_ok (k : cand) : Prop :=
  0 <= cDR k <= MAX_DR /\ 0 <= cDQ k <= MAX_DQ /\ 0 <= cDF k <= MAX_DF /\
  800 / SRC_FREQ <= (2 * (cDF k + 1)) / (cDR k + 1) <= 1600 / SRC_FREQ.

Definition best_cand (b : pll_best) : cand := mk_cand (DIVR b) (DIVQ b) (div b) (DIVF b).

(** How far a candidate is from the target, when it may be taken at all. *)
Definition cost (over : bool) (target : Z) (k : cand) : option Z :=
  if cand_freq k <=? target then Some (target - cand_freq k)
  else if over then Some (cand_freq k - target) else None.

Section Search.
Context (over : bool) (target : Z).

Definition sound (V : Z -> Prop) (b : pll_best) : Prop :=
  b = best0 \/
  cand_ok (best_cand b) /\ V (div b) /\ cost over target (best_cand b) = Some (min_minor b) /\
  min_minor b < min_minor best0.

(** [b] is the best of the candidates in [P]. *)
Definition opt (V : Z -> Prop) (P : cand -> Prop) (b : pll_best) : Prop :=
  sound V b /\
  forall k n, P k -> cand_ok k -> cost over target k = Some n -> min_minor b <= n.

Definition exact (V : Z -> Prop) (b : pll_best) : Prop :=
  cand_ok (best_cand b) /\ V (div b) /\ cand_freq (best_cand b) = target.

Definition good (V : Z -> Prop) (P : cand -> Prop) (r : pll_best + pll_best) : Prop :=
  match r with inl b => opt V P b | inr b => exact V b end.

Lemma opt_weaken V (P P' : cand -> Prop) b : (forall k, P' k -> P k) -> opt V P b -> opt V P' b.
Proof. intros HP [Hs Ho]. split; [done|]. eauto. Qed.

(** A loop all of whose turns extend the set of candidates seen. *)
Lemma loop_good {I} V (C : I -> cand -> Prop) (body : I -> pll_best -> ctl pll_best pll_best) l :
  (forall i b P, In i l -> opt V P b ->
     match body i b with
     | Next b' => opt V (fun k => P k \/ C i k) b'
     | Break _ => False
     | Goto b' => exact V b'
     end) ->
  forall P b, opt V P b ->
  good V (fun k => P k \/ exists i, In i l /\ C i k) (for_each l body b).
Proof.
  induction l as [|i l IH]; intros Hbody P b Hb; simpl.
  - eapply opt_weaken; [|done]. intros k [H|(i & [] & _)]. done.
  - pose proof (Hbody i b P (or_introl eq_refl) Hb) as Hi.
    destruct (body i b) as [b'|b'|b']; [|done|done].
    specialize (IH (fun j b P Hj => Hbody j b P (or_intror Hj)) _ _ Hi).
    destruct (for_each l body b') as [b''|b'']; [|done]. simpl in *.
    eapply opt_weaken; [|done]. intros k [H|(j & [<-|Hj] & Hk)]; eauto.
Qed.

Lemma nested_good V (P : cand -> Prop) r :
  good V P r ->
  match nested r with Next b' => opt V P b' | Break _ => False | Goto b' => exact V b' end.
Proof. by destruct r. Qed.

(** ** Frequencies grow with the feedback divider *)

Lemma pll_freq_eq DF DR DQ VD :
  0 <= DF <= MAX_DF -> 0 <= DR <= MAX_DR -> 0 <= DQ <= MAX_DQ -> 0 <= VD < 256 ->
  pll_freq DF DR DQ VD = 48000000 * (DF + 1) / (VD * (DR + 1) * 2 ^ DQ).
Proof.
  maxes. intros ? ? ? ?. unfold pll_freq, base, SRC_FREQ.
  rewrite Z.shiftl_1_l. assert (0 < 2 ^ DQ <= 2 ^ 3).
  { split; [apply Z.pow_pos_nonneg; lia|apply Z.pow_le_mono_r; lia]. }
  rewrite do_div_small by (cbn in *; nia). f_equal. lia.
Qed.

Lemma pll_freq_mono DF DF' DR DQ VD :
  0 <= DF <= DF' -> DF' <= MAX_DF -> 0 <= DR <= MAX_DR -> 0 <= DQ <= MAX_DQ -> 0 <= VD < 256 ->
  pll_freq DF DR DQ VD <= pll_freq DF' DR DQ VD.
Proof.
  intros. rewrite !pll_freq_eq by lia.
  assert (0 < 2 ^ DQ) by (apply Z.pow_pos_nonneg; lia).
  destruct (decide (VD = 0)) as [->|]; [by rewrite !Z.mul_0_l, !Z.div_0_r|].
  apply Z.div_le_mono; nia.
Qed.

Lemma ratio_mono DF DF' DR : 0 <= DR -> DF <= DF' ->
  (2 * (DF + 1)) / (DR + 1) <= (2 * (DF' + 1)) / (DR + 1).
Proof. intros. apply Z.div_le_mono; lia. Qed.

(** Taking a candidate of cost [n] when it beats the best one so far. *)
Lemma opt_take V (P P' : cand -> Prop) b DF DR DQ VD n :
  opt V P b -> cand_ok (mk_cand DR DQ VD DF) -> V VD ->
  cost over target (mk_cand DR DQ VD DF) = Some n ->
  (forall k m, P' k -> cand_ok k -> cost over target k = Some m -> P k \/ n <= m) ->
  opt V P' (if n <? min_minor b then mk_best DF DR DQ VD n else b).
Proof.
  intros [Hs Hb] Hok HV Hc HP.
  assert (min_minor b <= min_minor best0) by (destruct Hs as [->|(_ & _ & _ & ?)]; lia).
  destruct (Z.ltb_spec n (min_minor b)) as [Hn|Hn].
  - split; [right; do 3 (split; [done|]); cbn [min_minor] in *; lia|].
    intros k m Hk Hkok Hm. simpl. destruct (HP k m Hk Hkok Hm) as [Hin|?]; [|done].
    specialize (Hb k m Hin Hkok Hm). lia.
  - split; [done|]. intros k m Hk Hkok Hm. destruct (HP k m Hk Hkok Hm) as [Hin|?]; [eauto|lia].
Qed.

Definition same_row (DR DQ VD : Z) (k : cand) : Prop := cDR k = DR /\ cDQ k = DQ /\ cVD k = VD.

Lemma row_freq_mono DR DQ VD DF k :
  0 <= VD < 256 -> 0 <= DF -> cand_ok k -> same_row DR DQ VD k -> DF <= cDF k ->
  pll_freq DF DR DQ VD <= cand_freq k.
Proof. intros ? ? (? & ? & ? & _) (<- & <- & <-) ?. apply pll_freq_mono; lia. Qed.

(** One turn of the innermost loop: breaking at the first candidate above the
    target skips only candidates that are no better. *)
Lemma pll_try_good V (P : cand -> Prop) DR DQ VD DF b :
  0 <= DR <= MAX_DR -> 0 <= DQ <= MAX_DQ -> 0 <= VD < 256 -> V VD -> 0 <= DF <= MAX_DF ->
  opt V (fun k => P k \/ same_row DR DQ VD k /\ cDF k < DF) b ->
  match pll_try over target DR DQ VD DF b with
  | Next b' => opt V (fun k => P k \/ same_row DR DQ VD k /\ cDF k < DF + 1) b'
  | Break b' => opt V (fun k => P k \/ same_row DR DQ VD k) b'
  | Goto b' => exact V b'
  end.
Proof.
  intros HDR HDQ HVD HV HDF Hb. unfold pll_try.
  assert ((SRC_FREQ / (DR + 1) <? 10) = false) as ->.
  { assert (DR = 0 \/ DR = 1) as [->| ->] by (maxes; lia); done. }
  assert (Hmore : forall k, cand_ok k -> same_row DR DQ VD k -> DF <= cDF k ->
    pll_freq DF DR DQ VD <= cand_freq k) by (intros; apply row_freq_mono; auto; lia).
  destruct (Z.ltb_spec ((2 * (DF + 1)) / (DR + 1)) (800 / SRC_FREQ)) as [Hlo|Hlo].
  { destruct Hb as [Hs Hb]. split; [done|].
    intros k n [Hk|[Hk Hlt]] Hok Hc; [by apply (Hb k); auto|].
    destruct (decide (cDF k < DF)); [by apply (Hb k); auto|].
    destruct Hok as (? & ? & ? & Hr), Hk as (<- & _ & _).
    replace (cDF k) with DF in Hr by lia. lia. }
  destruct (Z.ltb_spec (1600 / SRC_FREQ) ((2 * (DF + 1)) / (DR + 1))) as [Hhi|Hhi].
  { destruct Hb as [Hs Hb]. split; [done|]. intros k n Hk Hok Hc. apply (Hb k); [|done..].
    destruct Hk as [Hk|Hk]; [by left|right]. split; [done|].
    destruct Hok as (? & ? & ? & Hr), Hk as (<- & _ & _).
    pose proof (ratio_mono DF (cDF k) (cDR k)). lia. }
  set (f := pll_freq DF DR DQ VD) in *.
  assert (Hok : cand_ok (mk_cand DR DQ VD DF)) by (repeat split; simpl; lia).
  destruct (Z.eqb_spec f target) as [Heq|Hne]; [done|].
  destruct (Z.ltb_spec f target) as [Hlt|Hge].
  - assert (H : opt V (fun k => P k \/ same_row DR DQ VD k /\ cDF k < DF + 1)
      (if target - f <? min_minor b then mk_best DF DR DQ VD (target - f) else b)).
    { eapply opt_take; [exact Hb|done|done| |].
      - unfold cost, cand_freq. cbn [cDF cDR cDQ cVD]. fold f. case_bool; [done|lia].
      - intros k m [Hk|[Hk Hlt']] Hkok Hc; [auto|].
        destruct (decide (cDF k < DF)); [auto|right].
        assert (cand_freq k = f) as Hf
          by (unfold cand_freq, f; destruct Hk as (-> & -> & ->); f_equal; lia).
        unfold cost in Hc. rewrite Hf in Hc.
        rewrite (proj2 (Z.leb_le f target)) in Hc by lia. injection Hc as <-. lia. }
    by destruct (target - f <? min_minor b).
  - assert (H : over = true -> opt V (fun k => P k \/ same_row DR DQ VD k)
      (if f - target <? min_minor b then mk_best DF DR DQ VD (f - target) else b)).
    { intros Hover. eapply opt_take; [exact Hb|done|done| |].
      - unfold cost, cand_freq. cbn [cDF cDR cDQ cVD]. fold f. rewrite Hover. case_bool; [lia|done].
      - intros k m [Hk|Hk] Hkok Hc; [auto|].
        destruct (decide (cDF k < DF)); [auto|right]. specialize (Hmore k Hkok Hk ltac:(lia)).
        unfold cost in Hc. rewrite Hover, (proj2 (Z.leb_gt (cand_freq k) target)) in Hc by lia.
        injection Hc as <-. lia. }
    destruct over eqn:Eo.
    + specialize (H eq_refl). by destruct (f - target <? min_minor b).
    + destruct Hb as [Hs Hb]. split; [done|]. intros k n [Hk|Hk] Hkok Hc; [by apply (Hb k); auto|].
      destruct (decide (cDF k < DF)); [by apply (Hb k); auto|].
      specialize (Hmore k Hkok Hk ltac:(lia)). unfold cost in Hc.
      rewrite Eo, (proj2 (Z.leb_gt (cand_freq k) target)) in Hc by lia. done.
Qed.

Lemma df_loop_good V (P : cand -> Prop) DR DQ VD b :
  0 <= DR <= MAX_DR -> 0 <= DQ <= MAX_DQ -> 0 <= VD < 256 -> V VD ->
  opt V P b ->
  good V (fun k => P k \/ same_row DR DQ VD k) (pll_df_loop over target DR DQ VD b).
Proof.
  intros HDR HDQ HVD HV Hb. unfold pll_df_loop.
  apply (for_upto_inv _ (fun DF b => opt V (fun k => P k \/ same_row DR DQ VD k /\ cDF k < DF) b)).
  - maxes; lia.
  - destruct Hb as [Hs Hb]. split; [done|].
    intros k n [Hk|[_ Hk]] Hok; [by apply Hb|]. destruct Hok as (? & ? & ? & _). lia.
  - intros DF b' HDF Hb'. pose proof (pll_try_good V P DR DQ VD DF b') as H.
    destruct (pll_try over target DR DQ VD DF b'); apply H; auto; maxes; lia.
  - intros b' [Hs Hb']. split; [done|]. intros k n [Hk|Hk] Hok; [by apply Hb'; auto|].
    apply Hb'; [|done]. right. split; [done|]. destruct Hok as (? & ? & ? & _). maxes. lia.
Qed.

Lemma opt_start V : opt V (fun _ => False) best0.
Proof. split; [by left|done]. Qed.

(** The search of [set_pll_speed], for the divisor in the register. *)
Lemma speed_search_good VD :
  0 <= VD < 256 ->
  good (eq VD) (fun k => cVD k = VD) (pll_speed_search over target VD) .
Proof.
  intros HVD. unfold pll_speed_search.
  set (C := fun DR DQ k => same_row DR DQ VD k).
  assert (H : good (eq VD) (fun k => False \/ exists DR, In DR (downfrom MAX_DR (MAX_DR + 1)) /\
      exists DQ, In DQ (downfrom MAX_DQ (MAX_DQ + 1)) /\ C DR DQ k)
    (pll_speed_search over target VD)).
  { apply (loop_good (eq VD) (fun DR k => exists DQ, In DQ _ /\ C DR DQ k)); [|apply opt_start].
    intros DR b P HDR%in_downfrom Hb. apply nested_good, loop_good; [|done].
    intros DQ b' P' HDQ%in_downfrom Hb'. apply nested_good, df_loop_good; auto; maxes; lia. }
  unfold pll_speed_search in H. destruct (for_each _ _ _) as [b|b]; [|done]. cbn [good] in *.
  destruct H as [Hs Hb]. split; [done|]. intros k n Hk Hok. apply Hb; [|done]. right.
  destruct Hok as (? & ? & ? & _). exists (cDR k). rewrite in_downfrom. split; [lia|].
  exists (cDQ k). rewrite in_downfrom. split; [lia|]. done.
Qed.

(** The divisors [set_pll_divisor] tries. *)
Definition vd_ok (odd_skipped : bool) (VD : Z) : Prop :=
  1 <= VD <= 32 /\ (odd_skipped = true -> VD = 1 \/ VD mod 2 = 0).

Lemma divisor_search_good odd_skipped :
  good (vd_ok odd_skipped) (fun k => vd_ok odd_skipped (cVD k))
    (pll_divisor_search over odd_skipped target).
Proof.
  set (V := vd_ok odd_skipped).
  set (C := fun DR DQ VD k => V VD /\ same_row DR DQ VD k).
  assert (H : good V (fun k => False \/ exists DR, In DR (downfrom MAX_DR (MAX_DR + 1)) /\
      exists DQ, In DQ (downfrom MAX_DQ (MAX_DQ + 1)) /\
      exists VD, In VD (downfrom 32 32) /\ C DR DQ VD k)
    (pll_divisor_search over odd_skipped target)).
  { apply (loop_good V (fun DR k => exists DQ, In DQ _ /\ exists VD, In VD _ /\ C DR DQ VD k));
      [|apply opt_start].
    intros DR b P HDR%in_downfrom Hb. apply nested_good.
    apply (loop_good V (fun DQ k => exists VD, In VD _ /\ C DR DQ VD k)); [|done].
    intros DQ b' P' HDQ%in_downfrom Hb'. apply nested_good, loop_good; [|done].
    intros VD b'' P'' HVD%in_downfrom Hb''.
    destruct ((1 <? VD) && (VD mod 2 =? 1) && odd_skipped) eqn:E.
    - eapply opt_weaken; [|exact Hb'']. intros k [?|[[_ Hodd] _]]; [done|].
      bool_to_prop. destruct (Hodd ltac:(done)); lia.
    - assert (V VD).
      { split; [lia|]. intros ->. rewrite andb_true_r in E.
        apply andb_false_iff in E as [E|E]; bool_to_prop; dlia. }
      assert (Hg : good V (fun k => P'' k \/ same_row DR DQ VD k)
        (pll_df_loop over target DR DQ VD b'')) by (apply df_loop_good; auto; maxes; lia).
      destruct (pll_df_loop over target DR DQ VD b''); [|done]. cbn [good] in *.
      eapply opt_weaken; [|exact Hg]. intros k [?|[_ ?]]; auto. }
  destruct (pll_divisor_search over odd_skipped target) as [b|b]; [|done]. cbn [good] in *.
  destruct H as [Hs Hb]. split; [done|]. intros k n Hk Hok. apply Hb; [|done]. right.
  destruct Hok as (? & ? & ? & _). exists (cDR k). rewrite in_downfrom. split; [lia|].
  exists (cDQ k). rewrite in_downfrom. split; [lia|]. exists (cVD k). rewrite in_downfrom.
  split; [|done]. destruct Hk as [? _]. lia.
Qed.
End Search.
