(* ===== verification/ClockFreq.v ===== *)
(** * What the frequency commands of the clock manager achieve

    The commands [GET_FREQ], [SET_DIV], [SET_PLL] and [SET_PLLDIV] of
    [wmt_clk.c], related to the frequency the hardware produces from the
    registers they leave behind. *)

From S2P Require Import Prelude Mmio Clock ClockSearch.

(** ** The clock output of the hardware

    Source times the feedback ratio, through the reference, output and device
    dividers; a device divisor field of 0 divides by 32, which is why the
    driver writes 0 for 32.  An SD/MMC host has a further divider by 2, and one
    by 64 that bit 5 switches on, as [get_freq] and [set_divisor] reckon. *)

Definition eff_div (dev byte : Z) : Z :=
  let d := Z.land byte 0x1F in
  let d := if d =? 0 then 32 else d in
  if is_sdmmc dev then d * (if test_bit byte 5 then 64 else 1) * 2 else d.

Definition out_freq (dev w byte : Z) : Z :=
  SRC_FREQ * GET_DIVF w * base / (GET_DIVR w * GET_DIVQ w * eff_div dev byte).

Definition hw_freq (dev : Z) (m : gmap Z Z) (PLL_NO o : Z) : Z :=
  out_freq dev (word_at m (PMC_PLL + 4 * PLL_NO)) (byte_at m (PMC_BASE + o)).

(** ** Fields of the PLL word *)

Lemma finite_check (P : Z -> bool) lo n :
  forallb P (seqZ lo n) = true -> forall i, lo <= i < lo + n -> P i = true.
Proof. rewrite forallb_forall. intros H i Hi. apply H, list_elem_of_In, elem_of_seqZ. lia. Qed.

Lemma land_mask_bound v n : 0 <= n -> 0 <= Z.land v (2 ^ n - 1) < 2 ^ n.
Proof.
  intros.
  replace (2 ^ n - 1) with (Z.ones n) by (rewrite Z.ones_equiv; lia).
  rewrite Z.land_ones by done. apply Z.mod_pos_bound. lia.
Qed.

Lemma GET_DIVF_bound d : 2 <= GET_DIVF d <= 256.
Proof. unfold GET_DIVF. pose proof (land_mask_bound (Z.shiftr d 16) 7 ltac:(lia)) as H.
  change (2 ^ 7 - 1) with 127 in H. maxes. lia. Qed.

Lemma GET_DIVR_bound d : 1 <= GET_DIVR d <= 2.
Proof. unfold GET_DIVR. pose proof (land_mask_bound (Z.shiftr d 8) 1 ltac:(lia)) as H.
  change (2 ^ 1 - 1) with 1 in H. maxes. lia. Qed.

Lemma GET_DIVQ_bound d : 1 <= GET_DIVQ d <= 8.
Proof.
  unfold GET_DIVQ. pose proof (land_mask_bound d 2 ltac:(lia)) as H.
  change (2 ^ 2 - 1) with 3 in H. maxes. rewrite Z.shiftl_1_l.
  split; [|change 8 with (2 ^ 3); apply Z.pow_le_mono_r; lia].
  pose proof (Z.pow_pos_nonneg 2 (Z.land d 3)). lia.
Qed.

Lemma divider_bound d : 1 <= GET_DIVR d * GET_DIVQ d <= 16.
Proof. pose proof (GET_DIVR_bound d). pose proof (GET_DIVQ_bound d). nia. Qed.

Lemma pll_word_fields b :
  0 <= DIVF b <= MAX_DF -> 0 <= DIVR b <= MAX_DR -> 0 <= DIVQ b <= MAX_DQ ->
  GET_DIVF (pll_word b) = 2 * (DIVF b + 1) /\ GET_DIVR (pll_word b) = DIVR b + 1 /\
  GET_DIVQ (pll_word b) = 2 ^ DIVQ b /\ 0 <= pll_word b < 2 ^ 32.
Proof.
  destruct b as [df dr dq d n]. unfold pll_word. cbn [DIVF DIVR DIVQ]. maxes. intros Hf Hr Hq.
  set (w := fun df dr dq => Z.shiftl df 16 + Z.shiftl dr 8 + dq).
  pose (chk := fun df dr dq =>
    (GET_DIVF (w df dr dq) =? 2 * (df + 1)) && (GET_DIVR (w df dr dq) =? dr + 1) &&
    (GET_DIVQ (w df dr dq) =? 2 ^ dq) && (0 <=? w df dr dq) && (w df dr dq <? 2 ^ 32)).
  assert (chk df dr dq = true) as H.
  { assert (forallb (fun df => forallb (fun dr => forallb (fun dq => chk df dr dq)
      (seqZ 0 4)) (seqZ 0 2)) (seqZ 0 128) = true) as H by (vm_compute; reflexivity).
    pose proof (finite_check _ _ _ H df ltac:(lia)) as H1.
    pose proof (finite_check _ _ _ H1 dr ltac:(lia)) as H2.
    exact (finite_check _ _ _ H2 dq ltac:(lia)). }
  unfold chk in H. bool_to_prop. auto.
Qed.

(** ** The divisor search of SET_DIV *)

Lemma div_loop_spec skip per PLL target :
  match loop_state (div_loop skip per PLL target) with
  | (d, f) =>
      d = 0 /\ (forall i, 1 <= i <= 32 -> skip i = false -> target < do_div PLL (per i)) \/
      1 <= d <= 32 /\ skip d = false /\ f = do_div PLL (per d) /\ f <= target /\
      (forall i, 1 <= i < d -> skip i = false -> target < do_div PLL (per i))
  end.
Proof.
  unfold div_loop.
  apply (for_upto_inv _ (fun i s => s.1 = 0 /\
    forall i', 1 <= i' < i -> skip i' = false -> target < do_div PLL (per i'))
    (fun r => let '(d, f) := loop_state r in _)).
  - lia.
  - split; [done|]. intros; lia.
  - intros i [d f] Hi [Hd Hall]. simpl in Hd. destruct (skip i) eqn:Es.
    + split; [done|]. intros i' Hi' Hs. apply Hall; [|done].
      destruct (decide (i' = i)); [congruence|lia].
    + case_bool; simpl.
      * right. repeat split; try lia; done.
      * split; [done|]. intros i' Hi' Hs.
        destruct (decide (i' = i)) as [->|]; [lia|apply Hall; [lia|done]].
  - intros [d f] [Hd Hall]. simpl in *. left. split; [done|]. intros. apply Hall; [lia|done].
Qed.

(** ** SET_DIV and GET_FREQ on the registers *)

(** A device with a PLL and a divisor register. *)
Definition has_divisor (dev PLL_NO o : Z) : Prop :=
  calc_pll_num dev = (PLL_NO, Some o) /\ 0 <= PLL_NO.

Lemma has_divisor_range dev PLL_NO o :
  has_divisor dev PLL_NO o -> 0 <= PLL_NO <= 6 /\ 0x300 <= o <= 0x3C0 /\ o mod 4 = 0.
Proof.
  intros [H Hp].
  destruct (calc_pll_num_cases dev) as [E|[E|[E|(p & o' & E & ?)]]]; rewrite H in E;
    injection E; intros; subst; lia || done.
Qed.

(** Whether a command that needs the clock gate open goes on. *)
Definition clock_running (c : clk) (dev : Z) : bool := (128 <=? dev) || gate_on c dev.

Definition divisor_byte (j : bool) (d : Z) : Z := (if j then 32 else 0) + (if d =? 32 then 0 else d).

Definition chosen (c : clk) (dev PLL_NO unit freq : Z) : bool * (Z * Z) :=
  let w := word_at (mem (chw c)) (PMC_PLL + 4 * PLL_NO) in
  choose_divisor (is_sdmmc dev) PLL_NO (SRC_FREQ * GET_DIVF w * base) (GET_DIVR w * GET_DIVQ w)
    (target_hz unit freq).

(** Uses what busy waits left unchanged. *)
Ltac clk_simp :=
  repeat match goal with
  | H : clk_same _ ?c |- _ =>
      destruct H as [[? ?] ?]; cbn [chw after_write8 after_write32 mem trace dev_en_count] in *
  end;
  repeat match goal with
  | H : mem (chw ?c) = _ |- _ => is_var c; rewrite H in *; clear H
  | H : trace (chw ?c) = _ |- _ => is_var c; rewrite H in *; clear H
  | H : dev_en_count ?c = _ |- _ => is_var c; rewrite H in *; clear H
  end.

Lemma choose_j_sdmmc sd PLL_NO PLL q t : (choose_divisor sd PLL_NO PLL q t).1 = true -> sd = true.
Proof. unfold choose_divisor. simpl. by destruct sd. Qed.

Lemma divisor_byte_written dev j d :
  1 <= d <= 32 -> (j = true -> is_sdmmc dev = true) ->
  u8 (if dev =? DEV_NA0 then Z.lor 0x200 (if d =? 32 then 0 else d)
      else (if dev =? DEV_SDTV then 0x10000 else 0) + (if j then 32 else 0)
           + (if d =? 32 then 0 else d)) = divisor_byte j d.
Proof.
  intros Hd Hj. unfold divisor_byte.
  assert (Hx : 0 <= (if d =? 32 then 0 else d) < 32) by (case_bool; lia).
  revert Hx. generalize (if d =? 32 then 0 else d) as x. intros x Hx. clear Hd.
  pose (chk := fun x => (u8 (Z.lor 0x200 x) =? x) && (u8 (0x10000 + 0 + x) =? x) &&
    (u8 (0x10000 + 32 + x) =? 32 + x) && (u8 (0 + 0 + x) =? x) && (u8 (0 + 32 + x) =? 32 + x)).
  assert (chk x = true) as H.
  { apply (finite_check chk 0 32); [vm_compute; reflexivity|lia]. }
  unfold chk in H. bool_to_prop.
  destruct (Z.eqb_spec dev DEV_NA0) as [->|].
  - destruct j; [by discriminate Hj|]. lia.
  - destruct (dev =? DEV_SDTV), j; lia.
Qed.

(** Reading the gate word, as the setters do before they go on. *)
Lemma wp_clock_running dev (k : bool -> M clk Z) Q c :
  0 <= dev -> clk_ok c ->
  wp (k (clock_running c dev)) Q c ->
  wp (mbind k (if dev <? 128 then
                 mbind (fun v => mret (test_bit v (gate_bit dev))) (on_hw (read32 (gate_addr dev)))
               else mret true)) Q c.
Proof.
  intros Hdev Hok HQ. apply wp_bind. unfold clock_running in HQ.
  destruct (Z.ltb_spec dev 128).
  - rewrite (proj2 (Z.leb_gt 128 dev)) in HQ by lia. repeat wp_step.
    + destruct (gate_addr_status dev); [done|lia].
    + by rewrite test_bit_testbit by apply gate_bit_bound.
  - rewrite (proj2 (Z.leb_le 128 dev)) in HQ by lia. by repeat wp_step.
Qed.

Lemma wp_gate_peek {A} dev (k : M clk A) Q c :
  0 <= dev -> clk_ok c -> wp k Q c ->
  wp (mbind (fun _ => k) (if dev <? 128 then
        mbind (fun _ => mret tt) (on_hw (read32 (gate_addr dev))) else mret tt)) Q c.
Proof.
  intros Hdev Hok HQ. apply wp_bind. destruct (dev <? 128); repeat wp_step; try done.
  destruct (gate_addr_status dev); [done|lia].
Qed.

Lemma clock_running_frame dev c c' :
  0 <= dev -> pmc_frame c c' -> clock_running c' dev = clock_running c dev.
Proof.
  intros Hdev Hf. unfold clock_running. destruct (Z.leb_spec 128 dev); [done|]. simpl.
  assert (gate_view c' dev = gate_view c dev) as [= _ ->]; [|done].
  apply pmc_frame_gates; [|done]. unfold is_gate. lia.
Qed.

Lemma wp_write_if (b : bool) a x y Q c :
  wp (on_hw (write32 a (if b then x else y))) Q c ->
  wp (if b then on_hw (write32 a x) else on_hw (write32 a y)) Q c.
Proof. by destruct b. Qed.

Lemma clk_same_frame c c' : clk_same c c' -> pmc_frame c c'.
Proof. intros [[Hm _] Hd]. split; [done|]. intros. by rewrite Hm. Qed.

(** A write to the frequency registers followed by a busy wait. *)
Lemma wp_write_busy a v Q c :
  clk_ok c -> in_freq_area a -> in_freq_area (a + 3) ->
  (forall c', clk_ok c' -> pmc_frame c c' ->
     mem (chw c') = store32 a v (mem (chw c)) ->
     trace (chw c') = trace (chw c) ++ [W32 a (u32 v)] -> Q tt c') ->
  wp (on_hw (write32 a v)) (fun _ c' => wp check_PLL_DIV_busy Q c') c.
Proof.
  intros Hok Ha Ha3 HQ. pose proof (pmc_wr32 a v Ha Ha3 c Hok) as Hf.
  destruct Hf as [Hok1 Hf1].
  apply wp_wr32. apply wp_busy; [done|]. intros c' Hok' [[Hm Ht] Hd]. apply HQ; try done.
  etransitivity; [exact Hf1|]. by apply clk_same_frame.
Qed.

Section OneDevice.
Context (dev PLL_NO o : Z) (Hdev : 0 <= dev) (Hhas : has_divisor dev PLL_NO o).

Abbreviation reg_pll := (PMC_PLL + 4 * PLL_NO).
Abbreviation reg_div := (PMC_BASE + o).

(** The state after the SDTV select byte is written and the busy bit clears. *)
Lemma wp_select {A} (k : M clk A) Q c :
  clk_ok c ->
  (forall c', clk_ok c' -> pmc_frame c c' ->
     word_at (mem (chw c')) reg_pll = word_at (mem (chw c)) reg_pll ->
     byte_at (mem (chw c')) reg_div = byte_at (mem (chw c)) reg_div ->
     trace (chw c') = trace (chw c) ++ [W8 (reg_div + 2) (if dev =? DEV_SDTV then 1 else 0)] ->
     wp k Q c') ->
  wp (mbind (fun _ => mbind (fun _ => k) check_PLL_DIV_busy) (select_sdtv dev o)) Q c.
Proof.
  intros Hok Hk. pose proof (has_divisor_range _ _ _ Hhas) as (Hp & Ho & _).
  apply wp_bind, wp_wr8, wp_bind, wp_busy; [apply clk_ok_write8; [done|addr_lia]|].
  intros c' Hok' [[Hm Ht] Hd]. cbn [chw after_write8 mem trace dev_en_count] in *.
  apply Hk; [done|split; [done|]| | |]; rewrite ?Hm.
  - intros a Ha. apply byte_at_store8_ne. unfold in_freq_area in Ha. addr_lia.
  - apply word_at_store8_ne. addr_lia.
  - apply byte_at_store8_ne. addr_lia.
  - rewrite Ht. by case_bool.
Qed.

(** SET_DIV: what it answers, and what it leaves in the divisor register. *)
Lemma wp_set_divisor unit freq c :
  clk_ok c ->
  wp (set_divisor dev unit freq)
    (fun r c' => clk_ok c' /\ pmc_frame c c' /\
       word_at (mem (chw c')) reg_pll = word_at (mem (chw c)) reg_pll /\
       let '(j, (d, f)) := chosen c dev PLL_NO unit freq in
       if negb (clock_running c dev) || (d =? 0) then r = -1
       else r = s32 (u32 f) /\ byte_at (mem (chw c')) reg_div = divisor_byte j d) c.
Proof.
  intros Hok. pose proof (has_divisor_range _ _ _ Hhas) as (Hp & Ho & _).
  unfold set_divisor. destruct Hhas as [-> _].
  rewrite (proj2 (Z.eqb_neq PLL_NO (-1))), (proj2 (Z.eqb_neq PLL_NO (-2))) by lia.
  apply wp_bind, wp_ret, wp_select; [done|]. intros c1 Hok1 Hf1 Hw1 Hb1 _.
  apply wp_bind, wp_rd32; [done|addr_lia|]. rewrite Hw1.
  apply wp_clock_running; [done..|]. rewrite (clock_running_frame dev c) by done.
  destruct (clock_running c dev); cbn [negb orb]; cycle 1.
  { apply wp_ret. do 3 (split; [done|]). by destruct (chosen c dev PLL_NO unit freq) as [? []]. }
  unfold chosen. set (ch := choose_divisor _ _ _ _ _).
  assert (Hj : ch.1 = true -> is_sdmmc dev = true) by apply choose_j_sdmmc.
  assert (Hd : ch.2.1 = 0 \/ 1 <= ch.2.1 <= 32).
  { unfold ch, choose_divisor. destruct (is_sdmmc dev); cbn [negb snd];
      match goal with |- context [loop_state (div_loop ?s ?p ?P ?t)] =>
        pose proof (div_loop_spec s p P t) as H; destruct (loop_state _) as [d f] end;
      simpl; destruct H as [[? _]|[? _]]; auto. }
  destruct ch as [j [d f]]. cbn [fst snd] in *.
  destruct (Z.eqb_spec d 0) as [->|Hd0]; cbn [negb andb].
  { by apply wp_ret. }
  rewrite (proj2 (Z.ltb_lt d 33)) by lia.
  apply wp_bind, wp_busy; [done|]. intros c2 Hok2 Hs2.
  apply wp_bind, wp_write_if.
  eapply wp_mono; [intros ? c' Hc'; apply wp_bind; exact Hc'|].
  apply wp_write_busy; [done|unfold in_freq_area; addr_lia..|].
  intros c3 Hok3 Hf3 Hm3 _. apply wp_ret. split; [done|]. split.
  { etransitivity; [exact Hf1|]. etransitivity; [by apply clk_same_frame|exact Hf3]. }
  rewrite Hm3, byte_at_store32, word_at_store32_ne by addr_lia.
  split; [by rewrite (proj1 (proj1 Hs2))|]. split; [done|].
  apply divisor_byte_written; [lia|done].
Qed.

(** GET_FREQ: what it answers from the registers. *)
Definition read_div (byte : Z) : Z :=
  if negb (is_sdmmc dev) then Z.land byte 0x1F
  else Z.land byte 0x1F * (if test_bit byte 5 then 64 else 1) * 2.

Lemma wp_get_freq c :
  clk_ok c ->
  wp (get_freq dev)
    (fun r c' => clk_ok c' /\ pmc_frame c c' /\
       let w := word_at (mem (chw c)) reg_pll in
       r = s32 (u32 (do_div (SRC_FREQ * GET_DIVF w * base)
             (GET_DIVR w * GET_DIVQ w * read_div (byte_at (mem (chw c)) reg_div))))) c.
Proof.
  intros Hok. pose proof (has_divisor_range _ _ _ Hhas) as (Hp & Ho & _).
  unfold get_freq. destruct Hhas as [-> _].
  rewrite (proj2 (Z.eqb_neq PLL_NO (-1))), (proj2 (Z.eqb_neq PLL_NO (-2))) by lia.
  apply wp_gate_peek; [done..|]. apply wp_bind, wp_ret, wp_select; [done|]. intros c1 Hok1 Hf1 Hw1 Hb1 _.
  apply wp_bind, wp_rd8, wp_bind, wp_rd32; [done|addr_lia|]. rewrite Hw1, Hb1.
  apply wp_ret. auto.
Qed.

Lemma read_back_byte j d :
  0 < d < 32 -> (j = true -> is_sdmmc dev = true) ->
  read_div (divisor_byte j d) = if is_sdmmc dev then d * (if j then 64 else 1) * 2 else d.
Proof.
  intros Hd Hj. unfold read_div, divisor_byte.
  pose (chk := fun d => (Z.land (0 + d) 0x1F =? d) && (Z.land (32 + d) 0x1F =? d) &&
    negb (test_bit (0 + d) 5) && test_bit (32 + d) 5).
  assert (chk d = true) as H by (apply (finite_check chk 1 31); [vm_compute; reflexivity|lia]).
  unfold chk in H. bool_to_prop. rewrite (proj2 (Z.eqb_neq d 32)) by lia.
  destruct j; [rewrite (Hj eq_refl)|destruct (is_sdmmc dev)]; cbn [negb];
    rewrite ?H0, ?H1, ?H2, ?H3, ?H by done; lia.
Qed.

Lemma read_back_byte32 j : read_div (divisor_byte j 32) = 0.
Proof. unfold read_div. by destruct j, (is_sdmmc dev). Qed.

Lemma chosen_freq c unit freq :
  let '(j, (d, f)) := chosen c dev PLL_NO unit freq in
  let w := word_at (mem (chw c)) reg_pll in
  (j = true -> is_sdmmc dev = true) /\
  (d = 0 \/ 1 <= d <= 32 /\
   f = do_div (SRC_FREQ * GET_DIVF w * base)
         (GET_DIVR w * GET_DIVQ w * (if is_sdmmc dev then d * (if j then 64 else 1) * 2 else d))).
Proof.
  unfold chosen. set (w := word_at _ _). pose proof (choose_j_sdmmc (is_sdmmc dev) PLL_NO
    (SRC_FREQ * GET_DIVF w * base) (GET_DIVR w * GET_DIVQ w) (target_hz unit freq)) as Hj.
  unfold choose_divisor in *. cbn [fst] in Hj.
  destruct (is_sdmmc dev); cbn [negb andb] in *;
    match goal with |- context [loop_state (div_loop ?s ?p ?P ?t)] =>
      pose proof (div_loop_spec s p P t) as H; destruct (loop_state _) as [d f] end;
    (split; [done|]); destruct H as [[? _]|(? & _ & ? & _)]; auto.
Qed.
End OneDevice.

(** The frequency a device would get from the divisor [i]. *)
Definition freq_with (c : clk) (PLL_NO i : Z) : Z :=
  let w := word_at (mem (chw c)) (PMC_PLL + 4 * PLL_NO) in
  SRC_FREQ * GET_DIVF w * base / (GET_DIVR w * GET_DIVQ w * i).

(** The divisors SET_DIV considers: 1 to 32, only 1 and the even ones on PLL C. *)
Definition div_allowed (PLL_NO i : Z) : Prop :=
  1 <= i <= 32 /\ (PLL_NO = 2 -> i = 1 \/ i mod 2 = 0).

Lemma freq_with_do_div c PLL_NO i :
  0 <= i <= 4096 ->
  let w := word_at (mem (chw c)) (PMC_PLL + 4 * PLL_NO) in
  do_div (SRC_FREQ * GET_DIVF w * base) (GET_DIVR w * GET_DIVQ w * i) = freq_with c PLL_NO i.
Proof.
  intros Hi w. unfold freq_with. fold w. pose proof (GET_DIVF_bound w). pose proof (divider_bound w).
  apply do_div_small; unfold SRC_FREQ, base; nia.
Qed.

Lemma freq_with_antitone c PLL_NO i i' :
  1 <= i <= i' -> freq_with c PLL_NO i' <= freq_with c PLL_NO i.
Proof.
  intros. unfold freq_with. set (w := word_at _ _).
  pose proof (GET_DIVF_bound w). pose proof (divider_bound w).
  apply Z.div_le_compat_l; unfold SRC_FREQ, base; nia.
Qed.

(** What the divisors the driver writes for itself (never with bit 5) divide by. *)
Definition sd_factor (dev : Z) : Z := if is_sdmmc dev then 2 else 1.

Lemma eff_div_byte_sd dev d : 1 <= d <= 32 -> eff_div dev (divisor_byte false d) = sd_factor dev * d.
Proof.
  intros Hd. unfold eff_div, sd_factor.
  pose (chk := fun d => let b := divisor_byte false d in let e := Z.land b 0x1F in
    ((if e =? 0 then 32 else e) =? d) && negb (test_bit b 5)).
  assert (chk d = true) as Hc by (apply (finite_check chk 1 32); [vm_compute; reflexivity|lia]).
  unfold chk in Hc. bool_to_prop. destruct (is_sdmmc dev); rewrite ?H0, H; lia.
Qed.

Lemma eff_div_byte dev d : is_sdmmc dev = false -> 1 <= d <= 32 -> eff_div dev (divisor_byte false d) = d.
Proof. intros Hs Hd. rewrite eff_div_byte_sd by done. unfold sd_factor. rewrite Hs. lia. Qed.

(** ** SET_PLLDIV on the registers *)

Lemma divisor_word_byte dev d : 1 <= d <= 32 -> u8 (divisor_word dev d) = divisor_byte false d.
Proof.
  intros Hd. rewrite <- (divisor_byte_written dev) by done. f_equal. unfold divisor_word.
  destruct (dev =? DEV_NA0); [done|]. lia.
Qed.

Definition over_ok (PLL_NO : Z) : bool := (PLL_NO =? 2) || (PLL_NO =? 6).

(** The parameters SET_PLLDIV settles on. *)
Definition plldiv_best (PLL_NO target : Z) : pll_best :=
  found (pll_divisor_search (over_ok PLL_NO) (over_ok PLL_NO) target).

Lemma plldiv_best_range PLL_NO t :
  let b := plldiv_best PLL_NO t in
  0 <= DIVF b <= MAX_DF /\ 0 <= DIVR b <= MAX_DR /\ 0 <= DIVQ b <= MAX_DQ /\ 1 <= div b <= 32.
Proof.
  unfold plldiv_best. pose proof (divisor_search_good (over_ok PLL_NO) t (over_ok PLL_NO)) as H.
  destruct (pll_divisor_search _ _ _) as [b|b]; simpl in *.
  - destruct H as [[->|((? & ? & ? & _) & [? _] & _)] _]; [simpl; maxes; lia|auto].
  - destruct H as ((? & ? & ? & _) & [? _] & _). auto.
Qed.

Definition best_freq (b : pll_best) : Z := pll_freq (DIVF b) (DIVR b) (DIVQ b) (div b).

Lemma out_freq_best dev b byte :
  0 <= DIVF b <= MAX_DF -> 0 <= DIVR b <= MAX_DR -> 0 <= DIVQ b <= MAX_DQ -> 1 <= div b <= 32 ->
  eff_div dev byte = div b -> out_freq dev (u32 (pll_word b)) byte = best_freq b.
Proof.
  intros Hf Hr Hq Hd He. destruct (pll_word_fields b Hf Hr Hq) as (Ef & Er & Eq & Hw).
  unfold out_freq, best_freq. rewrite u32_small, Ef, Er, Eq, He by done.
  rewrite pll_freq_eq by lia. unfold SRC_FREQ, base. f_equal; lia.
Qed.

Definition plldiv_events (dev PLL_NO o old : Z) (b : pll_best) : list event :=
  let wd := W32 (PMC_BASE + o) (u32 (divisor_word dev (div b))) in
  [W8 (PMC_BASE + o + 2) (if dev =? DEV_SDTV then 1 else 0)] ++
  (if old <? div b then [wd] else []) ++
  [W32 (PMC_PLL + 4 * PLL_NO) (u32 (pll_word b))] ++
  (if div b <? old then [wd] else []).

Section PllDiv.
Context (dev PLL_NO o : Z) (Hdev : 0 <= dev) (Hhas : has_divisor dev PLL_NO o).

Abbreviation reg_pll := (PMC_PLL + 4 * PLL_NO).
Abbreviation reg_div := (PMC_BASE + o).

(** A conditional write of the divisor register and the wait after it. *)
Lemma wp_div_write {A} (go : bool) v (k : M clk A) Q c :
  clk_ok c ->
  (forall c', clk_ok c' -> pmc_frame c c' ->
     word_at (mem (chw c')) reg_pll = word_at (mem (chw c)) reg_pll ->
     byte_at (mem (chw c')) reg_div = (if go then u8 v else byte_at (mem (chw c)) reg_div) ->
     trace (chw c') = trace (chw c) ++ (if go then [W32 reg_div (u32 v)] else []) ->
     wp k Q c') ->
  wp (mbind (fun _ => k) (if go then
        mbind (fun _ => check_PLL_DIV_busy) (on_hw (write32 reg_div v))
      else mret tt)) Q c.
Proof.
  intros Hok Hk. pose proof (has_divisor_range _ _ _ Hhas) as (Hp & Ho & _).
  apply wp_bind. destruct go.
  - apply wp_bind. apply wp_write_busy; [done|unfold in_freq_area; addr_lia..|].
    intros c' Hok' Hf' Hm Ht. apply Hk; try done; rewrite Hm.
    + apply word_at_store32_ne. addr_lia.
    + by rewrite byte_at_store32.
  - apply wp_ret, Hk; try done. by rewrite app_nil_r.
Qed.

Lemma wp_set_pll_divisor unit freq bf c :
  clk_ok c -> clock_running c dev = true -> unit_base unit = Some bf ->
  let b := plldiv_best PLL_NO (u64 (u64 freq * bf)) in
  let old := byte_at (mem (chw c)) reg_div in
  wp (set_pll_divisor dev unit freq)
    (fun r c' => clk_ok c' /\ pmc_frame c c' /\ r = s32 (u32 (best_freq b)) /\
       word_at (mem (chw c')) reg_pll = u32 (pll_word b) /\
       byte_at (mem (chw c')) reg_div = (if old =? div b then old else divisor_byte false (div b)) /\
       trace (chw c') = trace (chw c) ++ plldiv_events dev PLL_NO o old b) c.
Proof.
  intros Hok Hrun Hu b old. pose proof (has_divisor_range _ _ _ Hhas) as (Hp & Ho & _).
  destruct (plldiv_best_range PLL_NO (u64 (u64 freq * bf))) as (HF & HR & HQ & HD).
  fold b in HF, HR, HQ, HD.
  unfold set_pll_divisor. rewrite (proj1 Hhas), Hu.
  rewrite (proj2 (Z.eqb_neq PLL_NO (-1))), (proj2 (Z.eqb_neq PLL_NO (-2))) by lia.
  apply wp_bind, wp_ret, (wp_select dev PLL_NO o Hhas); [done|]. intros c1 Hok1 Hf1 Hw1 Hb1 Ht1.
  apply wp_bind, wp_rd8. rewrite Hb1. fold old. cbv zeta. fold (over_ok PLL_NO).
  fold (plldiv_best PLL_NO (u64 (u64 freq * bf))). fold b.
  apply wp_clock_running; [done..|]. rewrite (clock_running_frame dev c), Hrun by done. cbn [negb].
  apply wp_bind, wp_busy; [done|]. intros c2 Hok2 Hs2. pose proof (clk_same_frame _ _ Hs2) as Hf2.
  destruct Hs2 as [[Hm2 Ht2] _].
  apply wp_div_write; [done|]. intros c3 Hok3 Hf3 Hw3 Hb3 Ht3.
  apply wp_bind. eapply wp_mono; [intros ? c' Hc'; apply wp_bind; exact Hc'|].
  apply wp_write_busy; [done|unfold in_freq_area; addr_lia..|]. intros c4 Hok4 Hf4 Hm4 Ht4.
  apply wp_div_write; [done|]. intros c5 Hok5 Hf5 Hw5 Hb5 Ht5. apply wp_ret.
  split; [done|]. split; [by do 4 (etransitivity; [eassumption|])|]. split.
  { do 2 f_equal. unfold best_freq, pll_freq. f_equal. lia. }
  split; [by rewrite Hw5, Hm4, word_at_store32|]. split.
  - rewrite Hb5, Hm4, byte_at_store32_ne, Hb3, Hm2, Hb1, divisor_word_byte by (done || addr_lia).
    fold old.
    destruct (Z.eqb_spec old (div b)) as [E|E].
    + rewrite <- E, Z.ltb_irrefl. done.
    + destruct (Z.ltb_spec (div b) old); [done|]. by rewrite (proj2 (Z.ltb_lt old (div b))) by lia.
  - rewrite Ht5, Ht4, Ht3, Ht2, Ht1. unfold plldiv_events. by rewrite <- !app_assoc.
Qed.
End PllDiv.

(** ** Properties *)

(** SET_DIV, on a device whose clock runs and that is not an SD/MMC host:
    either every allowed divisor gives more than the target and the answer is
    -1, or the answer is the highest frequency not above the target that an
    allowed divisor gives, and it is the frequency the hardware then produces. *)
Theorem set_div_best dev PLL_NO o unit freq c :
  0 <= dev -> has_divisor dev PLL_NO o -> clk_ok c -> is_sdmmc dev = false ->
  clock_running c dev = true -> target_hz unit freq < 2 ^ 31 ->
  wp (auto_pll_divisor dev SET_DIV unit freq)
    (fun r c' =>
       (r = -1 /\ forall i, div_allowed PLL_NO i -> target_hz unit freq < freq_with c PLL_NO i) \/
       (0 <= r <= target_hz unit freq /\ hw_freq dev (mem (chw c')) PLL_NO o = r /\
        (exists d, div_allowed PLL_NO d /\ freq_with c PLL_NO d = r) /\
        forall i, div_allowed PLL_NO i -> freq_with c PLL_NO i <= target_hz unit freq ->
          freq_with c PLL_NO i <= r)) c.
Proof.
  intros Hdev Hhas Hok Hsd Hrun Ht.
  eapply wp_mono; [|exact (wp_set_divisor dev PLL_NO o Hdev Hhas unit freq c Hok)].
  intros r c' (_ & _ & Hw & H). rewrite Hrun in H.
  unfold chosen, choose_divisor in H. rewrite Hsd in H. cbn [negb andb orb] in H.
  set (w := word_at (mem (chw c)) (PMC_PLL + 4 * PLL_NO)) in *.
  match goal with H : context [loop_state (div_loop ?s ?p ?P ?t)] |- _ =>
    pose proof (div_loop_spec s p P t) as Hspec; destruct (loop_state _) as [d f] end.
  assert (Hskip : forall i, 1 <= i <= 32 ->
    (1 <? i) && (i mod 2 =? 1) && (PLL_NO =? 2) = false <-> div_allowed PLL_NO i).
  { intros i Hi. unfold div_allowed. pose proof (Z.mod_pos_bound i 2).
    destruct (Z.ltb_spec 1 i), (Z.eqb_spec (i mod 2) 1), (Z.eqb_spec PLL_NO 2); simpl;
      split; try done; intros; try split; try lia. }
  destruct Hspec as [[-> Hall]|(Hd & Hs & -> & Hle & Hall)].
  - left. split; [exact H|]. intros i Hi. pose proof Hi as [Hr _].
    rewrite <- freq_with_do_div by lia. apply Hall, Hskip; done.
  - right. rewrite (proj2 (Z.eqb_neq d 0)) in H by lia. destruct H as [-> Hb].
    apply Hskip in Hs; [|done]. pose proof (freq_with_do_div c PLL_NO d ltac:(lia)) as Hf.
    fold w in Hf. cbv zeta in Hf. rewrite Hf in *.
    assert (0 <= freq_with c PLL_NO d).
    { apply Z.div_pos; fold w; pose proof (GET_DIVF_bound w); pose proof (divider_bound w);
        unfold SRC_FREQ, base; nia. }
    rewrite u32_small, s32_small by lia. split; [lia|]. split; [|split].
    + unfold hw_freq, out_freq. rewrite Hw, Hb, eff_div_byte by done. done.
    + by exists d.
    + intros i Hi Hti. destruct (Z.lt_ge_cases i d) as [Hlt|Hge].
      * pose proof Hi as [Hr _]. apply Hskip in Hi; [|done].
        specialize (Hall i ltac:(lia) Hi). unfold w in Hall.
        rewrite freq_with_do_div in Hall by lia. lia.
      * apply freq_with_antitone. lia.
Qed.

(** GET_FREQ reads back what SET_DIV set: when SET_DIV settles on a
    divisor other than 32, on any device with a divisor, a GET_FREQ that
    follows answers the same frequency. *)
Theorem set_div_get_freq_roundtrip dev PLL_NO o unit freq c j d f :
  0 <= dev -> has_divisor dev PLL_NO o -> clk_ok c -> clock_running c dev = true ->
  chosen c dev PLL_NO unit freq = (j, (d, f)) -> 0 < d < 32 ->
  wp (r ← auto_pll_divisor dev SET_DIV unit freq;
      g ← auto_pll_divisor dev GET_FREQ 0 0;
      mret (r, g)) (fun rg _ => rg = (s32 (u32 f), s32 (u32 f))) c.
Proof.
  intros Hdev Hhas Hok Hrun Hch Hd. apply wp_bind.
  pose proof (chosen_freq dev PLL_NO c unit freq) as Hf.
  eapply wp_mono; [|exact (wp_set_divisor dev PLL_NO o Hdev Hhas unit freq c Hok)].
  intros r c' (Hok' & _ & Hw & H). rewrite Hch in H, Hf. rewrite Hrun in H.
  rewrite (proj2 (Z.eqb_neq d 0)) in H by lia. destruct H as [-> Hb].
  destruct Hf as [Hj [?|[_ Hf]]]; [lia|]. apply wp_bind.
  eapply wp_mono; [|exact (wp_get_freq dev PLL_NO o Hdev Hhas c' Hok')].
  intros g c'' (_ & _ & ->). apply wp_ret. by rewrite Hw, Hb, read_back_byte, <- Hf by done.
Qed.

(** The divisor 32 is not read back: SET_DIV leaves 0 in the field, which
    the hardware takes for 32, and GET_FREQ divides by it and answers 0. *)
Theorem get_freq_zero_after_div32 dev PLL_NO o unit freq c j f :
  0 <= dev -> has_divisor dev PLL_NO o -> clk_ok c -> clock_running c dev = true ->
  chosen c dev PLL_NO unit freq = (j, (32, f)) ->
  wp (r ← auto_pll_divisor dev SET_DIV unit freq;
      g ← auto_pll_divisor dev GET_FREQ 0 0;
      mret (r, g)) (fun rg _ => rg = (s32 (u32 f), 0)) c.
Proof.
  intros Hdev Hhas Hok Hrun Hch. apply wp_bind.
  eapply wp_mono; [|exact (wp_set_divisor dev PLL_NO o Hdev Hhas unit freq c Hok)].
  intros r c' (Hok' & _ & Hw & H). rewrite Hch, Hrun in H. destruct H as [-> Hb].
  apply wp_bind.
  eapply wp_mono; [|exact (wp_get_freq dev PLL_NO o Hdev Hhas c' Hok')].
  intros g c'' (_ & _ & ->). apply wp_ret. cbv zeta. rewrite Hb, read_back_byte32, Z.mul_0_r.
  unfold do_div. by rewrite Z.div_0_r.
Qed.

Lemma cand_freq_bound k : cand_ok k -> 1 <= cVD k < 256 -> 0 <= cand_freq k <= 1584000000.
Proof.
  destruct k as [dr dq vd df]. unfold cand_ok, cand_freq. cbn [cDR cDQ cVD cDF].
  intros (Hr & Hq & Hf & Hw) Hv. change (1600 / SRC_FREQ) with 66 in Hw.
  change (800 / SRC_FREQ) with 33 in Hw.
  rewrite pll_freq_eq by lia. assert (1 <= 2 ^ dq) by (pose proof (Z.pow_pos_nonneg 2 dq); lia).
  split; [apply Z.div_pos; nia|].
  assert (df + 1 <= 33 * (dr + 1)).
  { assert (dr = 0 \/ dr = 1) as [->| ->] by (maxes; lia); dlia. }
  apply Z.lt_succ_r, Z.div_lt_upper_bound; nia.
Qed.

Lemma vd_ok_byte odd d : vd_ok odd d -> 1 <= d < 256.
Proof. intros [? _]. lia. Qed.

Lemma eff_div_raw_sd dev d : 1 <= d <= 31 -> eff_div dev d = sd_factor dev * d.
Proof.
  intros Hd. rewrite <- eff_div_byte_sd by lia. f_equal. apply Z.eqb_eq.
  apply (finite_check (fun d => d =? divisor_byte false d) 1 31); [vm_compute; reflexivity|lia].
Qed.

Lemma eff_div_raw dev d : is_sdmmc dev = false -> 1 <= d <= 32 -> eff_div dev d = d.
Proof.
  intros Hs Hd. unfold eff_div. rewrite Hs. apply Z.eqb_eq.
  apply (finite_check (fun d => (let e := Z.land d 0x1F in if e =? 0 then 32 else e) =? d) 1 32);
    [vm_compute; reflexivity|lia].
Qed.

Lemma plldiv_eff_div dev old b : is_sdmmc dev = false ->
  1 <= div b <= 32 -> eff_div dev (if old =? div b then old else divisor_byte false (div b)) = div b.
Proof.
  intros Hs Hd. destruct (Z.eqb_spec old (div b)) as [->|]; [by apply eff_div_raw|by apply eff_div_byte].
Qed.

(** The search result, when some candidate qualifies. *)
Lemma search_best_spec ov (V : Z -> Prop) t r k0 n0 :
  good ov t V (fun k => V (cVD k)) r -> (forall d, V d -> 1 <= d < 256) ->
  0 <= t < 2 ^ 31 -> cand_ok k0 -> V (cVD k0) -> cost ov t k0 = Some n0 ->
  cand_ok (best_cand (found r)) /\ V (div (found r)) /\
  (ov = false -> best_freq (found r) <= t) /\
  forall k n, cand_ok k -> V (cVD k) -> cost ov t k = Some n ->
    Z.abs (best_freq (found r) - t) <= n.
Proof.
  intros H HV Ht Hk0 Hv0 Hc0.
  assert (Hn0 : n0 < min_minor best0).
  { pose proof (cand_freq_bound _ Hk0 (HV _ Hv0)). unfold cost in Hc0. cbn [min_minor best0].
    destruct (Z.leb_spec (cand_freq k0) t); [injection Hc0; lia|].
    destruct ov; [injection Hc0; lia|done]. }
  assert (Hpos : forall k n, cost ov t k = Some n -> 0 <= n).
  { intros k n. unfold cost. case_bool; [intros [= <-]; lia|].
    destruct ov; [intros [= <-]; lia|done]. }
  destruct r as [b'|b']; cbn [good found] in *.
  - destruct H as [[->|(Hok & Hv & Hc & Hlt)] Hopt].
    { specialize (Hopt k0 n0 Hv0 Hk0 Hc0). lia. }
    assert (Hf : best_freq b' = cand_freq (best_cand b')) by done.
    rewrite Hf. unfold cost in Hc. split; [done|]. split; [done|]. split.
    + intros ->. by destruct (Z.leb_spec (cand_freq (best_cand b')) t).
    + intros k n Hk Hvk Hck. specialize (Hopt k n Hvk Hk Hck).
      destruct (Z.leb_spec (cand_freq (best_cand b')) t); [injection Hc; lia|].
      destruct ov; [injection Hc; lia|done].
  - destruct H as (Hok & Hv & Hf). split; [done|]. split; [done|].
    change (cand_freq (best_cand b')) with (best_freq b') in Hf. rewrite Hf. split; [lia|].
    intros k n _ _ Hck. specialize (Hpos k n Hck). lia.
Qed.

(** SET_PLLDIV on any PLL, for a device that is no SD/MMC host, when the clock
    runs and some PLL setting qualifies: the answer is the frequency the
    hardware then produces, given by a setting inside the VCO window, and no
    candidate of the search is nearer to the request.  On PLLs C and G a nearer
    frequency above the request is taken. *)
Lemma set_plldiv_nearest dev PLL_NO o unit freq bf c k0 n0 :
  0 <= dev -> has_divisor dev PLL_NO o -> is_sdmmc dev = false -> clk_ok c -> clock_running c dev = true ->
  unit_base unit = Some bf -> u64 (u64 freq * bf) < 2 ^ 31 ->
  cand_ok k0 -> vd_ok (over_ok PLL_NO) (cVD k0) ->
  cost (over_ok PLL_NO) (u64 (u64 freq * bf)) k0 = Some n0 ->
  wp (auto_pll_divisor dev SET_PLLDIV unit freq)
    (fun r c' =>
       let t := u64 (u64 freq * bf) in
       hw_freq dev (mem (chw c')) PLL_NO o = r /\
       (exists k, cand_ok k /\ vd_ok (over_ok PLL_NO) (cVD k) /\ cand_freq k = r) /\
       (over_ok PLL_NO = false -> r <= t) /\
       (forall k n, cand_ok k -> vd_ok (over_ok PLL_NO) (cVD k) ->
          cost (over_ok PLL_NO) t k = Some n -> Z.abs (r - t) <= n)) c.
Proof.
  intros Hdev Hhas Hsd Hok Hrun Hu Ht Hk0 Hv0 Hc0.
  eapply wp_mono;
    [|exact (wp_set_pll_divisor dev PLL_NO o Hdev Hhas unit freq bf c Hok Hrun Hu)].
  pose proof (u64_bound (u64 freq * bf)). generalize dependent (u64 (u64 freq * bf)).
  intros t Ht Hc0 Ht0. pose proof (plldiv_best_range PLL_NO t) as Hrange. cbv zeta in *.
  destruct (search_best_spec _ _ t _ k0 n0 (divisor_search_good (over_ok PLL_NO) t _)
    (vd_ok_byte _) ltac:(lia) Hk0 Hv0 Hc0) as (Hkb & Hvb & Hle & Hbest).
  fold (plldiv_best PLL_NO t) in Hkb, Hvb, Hle, Hbest.
  generalize dependent (plldiv_best PLL_NO t). intros b (HF & HR & HQ & HD) Hkb Hvb Hle Hbest.
  intros r c' (_ & _ & -> & Hw & Hb & _).
  pose proof (cand_freq_bound (best_cand b) Hkb (vd_ok_byte _ _ Hvb)) as Hbd.
  change (cand_freq (best_cand b)) with (best_freq b) in Hbd.
  rewrite u32_small, s32_small by lia. split; [|split; [by exists (best_cand b)|auto]].
  unfold hw_freq. rewrite Hw, Hb. apply out_freq_best; auto. by apply plldiv_eff_div.
Qed.

(** [C5] SET_PLLDIV on a device that is no SD/MMC host and whose PLL is not C or
    G, when the clock runs and some setting inside the VCO window gives at most
    the request, which is below 2^31 Hz: the answer is the highest frequency not
    above the request that a PLL setting inside the window and a divisor of 1 to
    32 give, and it is the frequency the hardware then produces. *)
Theorem set_plldiv_optimal dev PLL_NO o unit freq bf c k0 :
  0 <= dev -> has_divisor dev PLL_NO o -> is_sdmmc dev = false -> over_ok PLL_NO = false ->
  clk_ok c -> clock_running c dev = true ->
  unit_base unit = Some bf -> u64 (u64 freq * bf) < 2 ^ 31 ->
  cand_ok k0 -> 1 <= cVD k0 <= 32 -> cand_freq k0 <= u64 (u64 freq * bf) ->
  wp (auto_pll_divisor dev SET_PLLDIV unit freq)
    (fun r c' =>
       let t := u64 (u64 freq * bf) in
       hw_freq dev (mem (chw c')) PLL_NO o = r /\ r <= t /\
       (exists k, cand_ok k /\ 1 <= cVD k <= 32 /\ cand_freq k = r) /\
       (forall k, cand_ok k -> 1 <= cVD k <= 32 -> cand_freq k <= t -> cand_freq k <= r)) c.
Proof.
  intros Hdev Hhas Hsd Hov Hok Hrun Hu Ht Hk0 Hv0 Hc0.
  assert (forall k, 1 <= cVD k <= 32 -> vd_ok (over_ok PLL_NO) (cVD k)) as Hvd
    by (intros k Hk; rewrite Hov; by split).
  assert (forall k, cand_freq k <= u64 (u64 freq * bf) ->
    cost (over_ok PLL_NO) (u64 (u64 freq * bf)) k = Some (u64 (u64 freq * bf) - cand_freq k)) as Hcost
    by (intros k Hk; unfold cost; by rewrite (proj2 (Z.leb_le _ _) Hk)).
  eapply wp_mono; [|exact (set_plldiv_nearest dev PLL_NO o unit freq bf c k0 _ Hdev Hhas Hsd Hok Hrun Hu Ht Hk0
    (Hvd _ Hv0) (Hcost _ Hc0))].
  intros r c' (Hhw & (k & Hk & Hv & Hf) & Hle & Hbest). specialize (Hle Hov).
  split; [done|]. split; [done|]. split.
  - exists k. split; [done|]. split; [by destruct Hv|done].
  - intros k' Hk' Hv' Hc'. specialize (Hbest k' _ Hk' (Hvd _ Hv') (Hcost _ Hc')). lia.
Qed.

(** ** The order of the register writes *)

Definition apply_event (m : gmap Z Z) (e : event) : gmap Z Z :=
  match e with W8 a v => store8 a v m | W32 a v => store32 a v m end.

(** The registers before, between and after a sequence of writes. *)
Fixpoint replay (m : gmap Z Z) (evs : list event) : list (gmap Z Z) :=
  m :: match evs with [] => [] | e :: evs' => replay (apply_event m e) evs' end.

Lemma eff_div_bound dev byte : 1 <= eff_div dev byte.
Proof.
  unfold eff_div. pose proof (land_mask_bound byte 5 ltac:(lia)) as H.
  change (2 ^ 5 - 1) with 0x1F in H. repeat case_match; bool_to_prop; lia.
Qed.

Lemma out_freq_antitone dev w b b' : eff_div dev b <= eff_div dev b' -> out_freq dev w b' <= out_freq dev w b.
Proof.
  intros Hb. pose proof (eff_div_bound dev b). unfold out_freq.
  pose proof (GET_DIVF_bound w). pose proof (divider_bound w).
  apply Z.div_le_compat_l; unfold SRC_FREQ, base; nia.
Qed.

Lemma u8_u32 v : u8 (u32 v) = u8 v.
Proof.
  unfold u8, u32, wrap. change (2 ^ 32) with (2 ^ 8 * 2 ^ 24).
  rewrite Z.rem_mul_r by lia. rewrite Z.mul_comm, Z.mod_add by lia. apply Z.mod_mod. lia.
Qed.

(** The PLL word and the divisor byte of a device. *)
Abbreviation view PLL_NO o m := (word_at m (PMC_PLL + 4 * PLL_NO), byte_at m (PMC_BASE + o)).

Section WriteOrder.
Context (dev PLL_NO o : Z) (Hhas : has_divisor dev PLL_NO o).

(** What each kind of write does to the two registers of a device. *)
Lemma view_select m v : view PLL_NO o (apply_event m (W8 (PMC_BASE + o + 2) v)) = view PLL_NO o m.
Proof.
  pose proof (has_divisor_range _ _ _ Hhas) as (Hp & Ho & _). simpl.
  by rewrite word_at_store8_ne, byte_at_store8_ne by addr_lia.
Qed.

Lemma view_pll m v :
  view PLL_NO o (apply_event m (W32 (PMC_PLL + 4 * PLL_NO) (u32 v))) = (u32 v, (view PLL_NO o m).2).
Proof.
  pose proof (has_divisor_range _ _ _ Hhas) as (Hp & Ho & _). simpl.
  rewrite word_at_store32, byte_at_store32_ne by addr_lia. f_equal. apply u32_small, u32_bound.
Qed.

Lemma view_div m d :
  1 <= d <= 32 ->
  view PLL_NO o (apply_event m (W32 (PMC_BASE + o) (u32 (divisor_word dev d)))) =
  ((view PLL_NO o m).1, divisor_byte false d).
Proof.
  intros Hd. pose proof (has_divisor_range _ _ _ Hhas) as (Hp & Ho & _). simpl.
  by rewrite word_at_store32_ne, byte_at_store32, u8_u32, divisor_word_byte by (done || addr_lia).
Qed.
End WriteOrder.

Definition view_freq (dev : Z) (v : Z * Z) : Z := out_freq dev v.1 v.2.

(** [C8] SET_PLLDIV never drives a device faster than both the old and the
    new frequency while it reprogrammes it: the divisor is raised before the
    PLL changes and lowered after, so every register state on the way gives at
    most the larger of the two, for an old divisor field of 1 to 31. *)
Theorem set_plldiv_no_overshoot dev PLL_NO o unit freq bf c :
  0 <= dev -> has_divisor dev PLL_NO o -> clk_ok c -> clock_running c dev = true ->
  unit_base unit = Some bf -> 1 <= byte_at (mem (chw c)) (PMC_BASE + o) <= 31 ->
  wp (auto_pll_divisor dev SET_PLLDIV unit freq)
    (fun r c' => exists evs, trace (chw c') = trace (chw c) ++ evs /\
       Forall (fun m => hw_freq dev m PLL_NO o <=
           Z.max (hw_freq dev (mem (chw c)) PLL_NO o) (hw_freq dev (mem (chw c')) PLL_NO o))
         (replay (mem (chw c)) evs)) c.
Proof.
  intros Hdev Hhas Hok Hrun Hu Hold.
  eapply wp_mono;
    [|exact (wp_set_pll_divisor dev PLL_NO o Hdev Hhas unit freq bf c Hok Hrun Hu)].
  pose proof (plldiv_best_range PLL_NO (u64 (u64 freq * bf))) as Hrange. cbv zeta in *.
  generalize dependent (plldiv_best PLL_NO (u64 (u64 freq * bf))).
  intros b (HF & HR & HQ & HD) r c' (_ & _ & _ & Hw & Hb & Ht).
  eexists. split; [exact Ht|]. unfold plldiv_events.
  set (m0 := mem (chw c)) in *. set (old := byte_at m0 (PMC_BASE + o)) in *.
  assert (Hnew : hw_freq dev (mem (chw c')) PLL_NO o = out_freq dev (u32 (pll_word b)) (divisor_byte false (div b))).
  { unfold hw_freq. rewrite Hw, Hb. destruct (Z.eqb_spec old (div b)) as [E|]; [|done].
    unfold out_freq. by rewrite E, eff_div_raw_sd, eff_div_byte_sd by lia. }
  rewrite Hnew. clear Hnew Hw Hb Ht r c'.
  pose proof (eff_div_raw_sd dev old ltac:(lia)) as Eold. pose proof (eff_div_byte_sd dev (div b) HD) as Ediv.
  assert (1 <= sd_factor dev) by (unfold sd_factor; case_match; lia).
  set (w0 := word_at m0 (PMC_PLL + 4 * PLL_NO)).
  assert (Hlow : old <= div b -> out_freq dev w0 (divisor_byte false (div b)) <= out_freq dev w0 old)
    by (intros; apply out_freq_antitone; nia).
  assert (Hhigh : div b <= old ->
    out_freq dev (u32 (pll_word b)) old <= out_freq dev (u32 (pll_word b)) (divisor_byte false (div b)))
    by (intros; apply out_freq_antitone; nia).
  assert (Hview : forall m, hw_freq dev m PLL_NO o = view_freq dev (view PLL_NO o m)) by done.
  destruct (Z.ltb_spec old (div b)), (Z.ltb_spec (div b) old); [lia| | |];
    cbn [app replay]; repeat apply Forall_cons_2; try apply Forall_nil_2;
    rewrite !Hview;
    repeat first [rewrite (view_select dev PLL_NO o Hhas)|rewrite (view_pll dev PLL_NO o Hhas)
      |rewrite (view_div dev PLL_NO o Hhas) by done];
    unfold view_freq; cbn [fst snd]; fold old w0; lia.
Qed.

(** ** Requests the hardware cannot meet *)

Lemma cand_freq_low k : cand_ok k -> 1 <= cVD k <= 32 -> 3093750 <= cand_freq k.
Proof.
  destruct k as [dr dq vd df]. unfold cand_ok, cand_freq. cbn [cDR cDQ cVD cDF].
  intros (Hr & Hq & Hf & Hw) Hv. change (1600 / SRC_FREQ) with 66 in Hw.
  change (800 / SRC_FREQ) with 33 in Hw. rewrite pll_freq_eq by lia.
  assert (1 <= 2 ^ dq <= 8).
  { maxes. change 8 with (2 ^ 3). pose proof (Z.pow_pos_nonneg 2 dq).
    pose proof (Z.pow_le_mono_r 2 dq 3). lia. }
  assert (33 * (dr + 1) <= 2 * (df + 1)).
  { assert (dr = 0 \/ dr = 1) as [->| ->] by (maxes; lia); dlia. }
  assert (dr <= 1) by (maxes; lia).
  apply Z.div_le_lower_bound; [nia|].
  assert (vd * (dr + 1) * 2 ^ dq <= 256 * (dr + 1)) by nia. nia.
Qed.

Lemma plldiv_best_below PLL_NO t :
  over_ok PLL_NO = false -> t < 3093750 -> plldiv_best PLL_NO t = best0.
Proof.
  intros Ho Ht. unfold plldiv_best. rewrite Ho.
  pose proof (divisor_search_good false t false) as H.
  assert (Hno : forall k, cand_ok k -> vd_ok false (cVD k) -> t < cand_freq k).
  { intros k Hk [Hv _]. pose proof (cand_freq_low k Hk Hv). lia. }
  destruct (pll_divisor_search _ _ _) as [b|b]; cbn [good found] in *.
  - destruct H as [[->|(Hok & Hv & Hc & _)] _]; [done|]. unfold cost in Hc.
    specialize (Hno _ Hok Hv). by rewrite (proj2 (Z.leb_gt _ _)) in Hc.
  - destruct H as (Hok & Hv & Hf). specialize (Hno _ Hok Hv). lia.
Qed.

(** A request below every frequency of the search space (under 3.09 MHz,
    on a PLL other than C and G) is not refused: SET_PLLDIV keeps the initial
    values of its search variables and sets 24 MHz, above the request, with a
    feedback divider outside the window its own loops enforce. *)
Theorem set_plldiv_below_range dev PLL_NO o unit freq bf c :
  0 <= dev -> has_divisor dev PLL_NO o -> is_sdmmc dev = false -> clk_ok c -> clock_running c dev = true ->
  unit_base unit = Some bf -> over_ok PLL_NO = false -> u64 (u64 freq * bf) < 3093750 ->
  wp (auto_pll_divisor dev SET_PLLDIV unit freq)
    (fun r c' => r = 24000000 /\ hw_freq dev (mem (chw c')) PLL_NO o = 24000000 /\
       word_at (mem (chw c')) (PMC_PLL + 4 * PLL_NO) = 0x10101) c.
Proof.
  intros Hdev Hhas Hsd Hok Hrun Hu Ho Ht.
  eapply wp_mono;
    [|exact (wp_set_pll_divisor dev PLL_NO o Hdev Hhas unit freq bf c Hok Hrun Hu)].
  rewrite plldiv_best_below by done. cbv zeta. intros r c' (_ & _ & -> & Hw & Hb & _).
  split; [done|]. split; [|by rewrite Hw].
  unfold hw_freq. rewrite Hw, Hb. apply (out_freq_best dev best0); simpl; maxes; try lia.
  by apply (plldiv_eff_div dev _ best0).
Qed.

(** The order of the writes protects only a device whose divisor field is
    not 0: from a field of 0, which divides by 32, SET_PLLDIV takes the old
    divisor for the smaller one and lowers it before it lowers the PLL.  The
    serial flash controller going from 49.5 MHz to 50 MHz passes 528 MHz. *)
Theorem set_plldiv_overshoot_from_32 :
  match auto_pll_divisor DEV_SF SET_PLLDIV 2 50 boot with
  | Ok (r, c') => r = 50000000 /\
      map (fun m => hw_freq DEV_SF m 1 0x314) (replay (mem (chw boot)) (trace (chw c'))) =
      [49500000; 49500000; 528000000; 50000000]
  | Fault _ => False
  end.
Proof. vm_compute. by split. Qed.

(** ** SET_PLL: the PLL alone, under the divisor that is in the register *)

Definition speed_best (PLL_NO t VD : Z) : pll_best :=
  found (pll_speed_search (PLL_NO =? 2) t VD).

Lemma speed_best_range PLL_NO t VD :
  0 <= VD < 256 ->
  let b := speed_best PLL_NO t VD in
  0 <= DIVF b <= MAX_DF /\ 0 <= DIVR b <= MAX_DR /\ 0 <= DIVQ b <= MAX_DQ.
Proof.
  intros HVD. unfold speed_best. pose proof (speed_search_good (PLL_NO =? 2) t VD HVD) as H.
  destruct (pll_speed_search _ _ _) as [b|b]; cbn [good found] in *.
  - destruct H as [[->|((? & ? & ? & _) & _)] _]; [simpl; maxes; lia|auto].
  - destruct H as ((? & ? & ? & _) & _). auto.
Qed.

Lemma wp_set_pll_speed dev PLL_NO o unit freq bf c :
  has_divisor dev PLL_NO o -> clk_ok c -> unit_base unit = Some bf ->
  let VD := byte_at (mem (chw c)) (PMC_BASE + o) in
  let b := speed_best PLL_NO (u64 (u64 freq * bf)) VD in
  wp (set_pll_speed dev unit freq)
    (fun r c' => clk_ok c' /\ pmc_frame c c' /\
       r = s32 (u32 (pll_freq (DIVF b) (DIVR b) (DIVQ b) VD)) /\
       word_at (mem (chw c')) (PMC_PLL + 4 * PLL_NO) = u32 (pll_word b) /\
       byte_at (mem (chw c')) (PMC_BASE + o) = VD) c.
Proof.
  intros Hhas Hok Hu VD b. pose proof (has_divisor_range _ _ _ Hhas) as (Hp & Ho & _).
  unfold set_pll_speed. rewrite (proj1 Hhas), Hu.
  rewrite (proj2 (Z.eqb_neq PLL_NO (-1))), (proj2 (Z.eqb_neq PLL_NO (-2))) by lia.
  apply wp_bind, wp_ret, (wp_select dev PLL_NO o Hhas); [done|]. intros c1 Hok1 Hf1 Hw1 Hb1 _.
  apply wp_bind, wp_rd8. rewrite Hb1. fold VD. cbv zeta.
  fold (speed_best PLL_NO (u64 (u64 freq * bf)) VD). fold b.
  apply wp_bind, wp_busy; [done|]. intros c2 Hok2 Hs2. pose proof (clk_same_frame _ _ Hs2) as Hf2.
  destruct Hs2 as [[Hm2 _] _].
  apply wp_bind. eapply wp_mono; [intros ? c' Hc'; apply wp_bind; exact Hc'|].
  apply wp_write_busy; [done|unfold in_freq_area; addr_lia..|]. intros c4 Hok4 Hf4 Hm4 _.
  apply wp_ret. split; [done|]. split; [by do 2 (etransitivity; [eassumption|])|]. split.
  { do 2 f_equal. unfold pll_freq. f_equal. lia. }
  rewrite Hm4. split; [by rewrite word_at_store32|].
  by rewrite byte_at_store32_ne, Hm2, Hb1 by addr_lia.
Qed.

(** SET_PLL, for a device that is no SD/MMC host and whose divisor field is 1 to
    31, when some PLL
    setting qualifies: it answers the frequency the hardware then produces,
    leaves the divisor alone, stays inside the VCO window and, except on PLL
    C, not above the request, and no PLL setting is nearer to the request. *)
Theorem set_pll_optimal dev PLL_NO o unit freq bf c k0 n0 :
  has_divisor dev PLL_NO o -> is_sdmmc dev = false -> clk_ok c -> unit_base unit = Some bf ->
  u64 (u64 freq * bf) < 2 ^ 31 -> 1 <= byte_at (mem (chw c)) (PMC_BASE + o) <= 31 ->
  cand_ok k0 -> cVD k0 = byte_at (mem (chw c)) (PMC_BASE + o) ->
  cost (PLL_NO =? 2) (u64 (u64 freq * bf)) k0 = Some n0 ->
  wp (auto_pll_divisor dev SET_PLL unit freq)
    (fun r c' =>
       let t := u64 (u64 freq * bf) in
       let VD := byte_at (mem (chw c)) (PMC_BASE + o) in
       byte_at (mem (chw c')) (PMC_BASE + o) = VD /\ hw_freq dev (mem (chw c')) PLL_NO o = r /\
       (exists k, cand_ok k /\ cVD k = VD /\ cand_freq k = r) /\
       (PLL_NO <> 2 -> r <= t) /\
       (forall k n, cand_ok k -> cVD k = VD -> cost (PLL_NO =? 2) t k = Some n ->
          Z.abs (r - t) <= n)) c.
Proof.
  intros Hhas Hsd Hok Hu Ht HVD Hk0 Hv0 Hc0.
  eapply wp_mono; [|exact (wp_set_pll_speed dev PLL_NO o unit freq bf c Hhas Hok Hu)].
  pose proof (u64_bound (u64 freq * bf)). generalize dependent (u64 (u64 freq * bf)).
  intros t Ht Hc0 Ht0. cbv zeta. set (VD := byte_at (mem (chw c)) (PMC_BASE + o)) in *.
  pose proof (speed_best_range PLL_NO t VD ltac:(lia)) as Hrange. cbv zeta in *.
  pose proof (speed_search_good (PLL_NO =? 2) t VD ltac:(lia)) as Hgood.
  destruct (search_best_spec (PLL_NO =? 2) (eq VD) t (pll_speed_search (PLL_NO =? 2) t VD) k0 n0)
    as (Hkb & Hvb & Hle & Hbest); [|intros; lia|lia|done|done|done|].
  { destruct (pll_speed_search _ _ _); [|done]. destruct Hgood as [Hs Ho].
    split; [done|]. intros k n Hk. by apply Ho. }
  fold (speed_best PLL_NO t VD) in Hkb, Hvb, Hle, Hbest.
  generalize dependent (speed_best PLL_NO t VD). intros b (HF & HR & HQ) Hkb Hvb Hle Hbest.
  intros r c' (_ & _ & -> & Hw & Hb).
  assert (Hf : pll_freq (DIVF b) (DIVR b) (DIVQ b) VD = best_freq b) by (by rewrite Hvb). rewrite Hf.
  pose proof (cand_freq_bound (best_cand b) Hkb ltac:(simpl; lia)) as Hbd.
  change (cand_freq (best_cand b)) with (best_freq b) in Hbd.
  rewrite u32_small, s32_small by lia. split; [done|]. split; [|split].
  - unfold hw_freq. rewrite Hw, Hb. apply out_freq_best; try lia.
    rewrite <- Hvb. apply eff_div_raw; [done|lia].
  - exists (best_cand b). auto.
  - split; [|eauto]. intros Hp. apply Hle. by apply Z.eqb_neq.
Qed.

(** ** [manu_pll_divisor]: explicit parameters *)

Definition manu_args_ok (dev DIVF DIVR DIVQ dev_div : Z) : bool :=
  (0 <=? DIVF) && (DIVF <=? MAX_DF) && (0 <=? DIVR) && (DIVR <=? MAX_DR) &&
  (0 <=? DIVQ) && (DIVQ <=? MAX_DQ) &&
  (800 / SRC_FREQ <=? (2 * (DIVF + 1)) / (DIVR + 1)) &&
  ((2 * (DIVF + 1)) / (DIVR + 1) <=? 1600 / SRC_FREQ) &&
  (dev_div <=? (if is_sdmmc dev then 63 else 31)).

Lemma manu_args_rejected dev DIVF DIVR DIVQ dev_div c :
  manu_args_ok dev DIVF DIVR DIVQ dev_div = false ->
  manu_pll_divisor dev DIVF DIVR DIVQ dev_div c = Ok (-1, c).
Proof.
  unfold manu_args_ok, manu_pll_divisor. intros H.
  repeat match goal with
  | |- context [?a <? ?b] => destruct (Z.ltb_spec a b); [done|]; cbn [orb]
  end.
  all: repeat match goal with H : context [?a <=? ?b] |- _ =>
    rewrite (proj2 (Z.leb_le a b)) in H by lia end; done.
Qed.

Lemma manu_freq_khz n d :
  0 <= n -> 0 < d -> (1000 * n) / d - 1000 < 1000 * (n / d) <= (1000 * n) / d.
Proof.
  intros Hn Hd. pose proof (Z.div_mod n d ltac:(lia)). pose proof (Z.mod_pos_bound n d Hd).
  split.
  - enough ((1000 * n) / d < 1000 * (n / d) + 1000) by lia. apply Z.div_lt_upper_bound; nia.
  - apply Z.div_le_lower_bound; nia.
Qed.

(** The answer of [manu_pll_divisor] against the frequency in Hz. *)
Lemma manu_freq_answer F R Q d :
  cand_ok (mk_cand R Q d F) -> 1 <= d <= 31 ->
  let r := s32 (u32 (u32 ((1000 * SRC_FREQ * 2 * (F + 1)) / u32 ((R + 1) * Z.shiftl 1 Q * d * 1))
                     * 1000)) in
  r <= pll_freq F R Q d < r + 1000.
Proof.
  intros Hok Hd. pose proof (cand_freq_bound _ Hok ltac:(simpl; lia)) as Hmax.
  unfold cand_freq in Hmax. destruct Hok as (HR & HQ & HF & _). cbn [cDR cDQ cVD cDF] in *.
  rewrite pll_freq_eq in * by lia. rewrite Z.mul_1_r, Z.shiftl_1_l. maxes.
  assert (1 <= 2 ^ Q <= 8).
  { change 8 with (2 ^ 3). pose proof (Z.pow_pos_nonneg 2 Q). pose proof (Z.pow_le_mono_r 2 Q 3). lia. }
  set (D := d * (R + 1) * 2 ^ Q) in *. replace ((R + 1) * 2 ^ Q * d) with D by (unfold D; lia).
  assert (1 <= D <= 496) by (unfold D; nia).
  replace (1000 * SRC_FREQ * 2 * (F + 1)) with (48000 * (F + 1)) by (unfold SRC_FREQ; lia).
  replace (48000000 * (F + 1)) with (1000 * (48000 * (F + 1))) in * by lia.
  assert (0 <= 48000 * (F + 1) / D) by (apply Z.div_pos; lia).
  pose proof (manu_freq_khz (48000 * (F + 1)) D ltac:(lia) ltac:(lia)) as Hk.
  rewrite (u32_small D), (u32_small (_ / _)), u32_small, s32_small by lia. lia.
Qed.

(** The gate is open: nothing to enable. *)
Lemma wp_enable_if_closed {A} dev (k : M clk A) Q c :
  0 <= dev -> clk_ok c -> clock_running c dev = true -> wp k Q c ->
  wp (mbind (fun _ => k) (if dev <? 128 then
        mbind (fun v => if negb (test_bit v (gate_bit dev))
                        then mbind (fun _ => mret tt) (enable_dev_clk dev) else mret tt)
          (on_hw (read32 (gate_addr dev))) else mret tt)) Q c.
Proof.
  intros Hdev Hok Hrun Hk. apply wp_bind. unfold clock_running in Hrun.
  destruct (Z.ltb_spec dev 128); [|by apply wp_ret].
  rewrite (proj2 (Z.leb_gt 128 dev)) in Hrun by lia. simpl in Hrun.
  apply wp_bind, wp_rd32; [done|destruct (gate_addr_status dev); [done|lia]|].
  rewrite test_bit_testbit by apply gate_bit_bound. fold (gate_word c dev) (gate_on c dev).
  rewrite Hrun. by apply wp_ret.
Qed.

(** [manu_pll_divisor] with an explicit divisor of 1 to 31, on a device
    with a divisor that is no SD/MMC host and whose clock runs: parameters
    outside their ranges or the VCO window are refused with nothing touched;
    otherwise the hardware produces exactly the frequency of the parameters,
    and the answer is that frequency rounded down to a kHz. *)
Theorem manu_pll_divisor_correct dev PLL_NO o F R Q d c :
  0 <= dev -> has_divisor dev PLL_NO o -> clk_ok c -> clock_running c dev = true ->
  is_sdmmc dev = false -> 1 <= d ->
  if manu_args_ok dev F R Q d then
    wp (manu_pll_divisor dev F R Q d)
      (fun r c' => let f := hw_freq dev (mem (chw c')) PLL_NO o in
         f = pll_freq F R Q d /\ r <= f < r + 1000) c
  else manu_pll_divisor dev F R Q d c = Ok (-1, c).
Proof.
  intros Hdev Hhas Hok Hrun Hsd Hd.
  destruct (manu_args_ok dev F R Q d) eqn:Ha; [|by apply manu_args_rejected].
  pose proof (has_divisor_range _ _ _ Hhas) as (Hp & Ho & _).
  unfold manu_args_ok in Ha. rewrite Hsd in Ha. bool_to_prop.
  unfold manu_pll_divisor. rewrite (proj1 Hhas), Hsd.
  repeat match goal with |- context [?a <? ?b] =>
    lazymatch a with byte_at _ _ => fail | _ => rewrite (proj2 (Z.ltb_ge a b)) by lia end end.
  cbn [orb andb]. rewrite (proj2 (Z.eqb_neq PLL_NO (-1))) by lia.
  assert (Hland : Z.land d 0x1F = d).
  { apply Z.eqb_eq, (finite_check (fun d => Z.land d 0x1F =? d) 1 31); [by vm_compute|lia]. }
  rewrite Hland. rewrite (proj2 (Z.eqb_neq d 32)) by lia.
  apply wp_bind, wp_ret, wp_bind, wp_rd8. cbv zeta. set (old := byte_at _ _).
  apply wp_enable_if_closed; [done..|].
  apply wp_bind, wp_busy; [done|]. intros c2 Hok2 [[Hm2 _] _].
  apply (wp_div_write dev PLL_NO o Hhas); [done|]. intros c3 Hok3 _ Hw3 Hb3 _.
  apply wp_bind. eapply wp_mono; [intros ? c' Hc'; apply wp_bind; exact Hc'|].
  apply wp_write_busy; [done|unfold in_freq_area; addr_lia..|]. intros c4 Hok4 _ Hm4 _.
  apply (wp_div_write dev PLL_NO o Hhas); [done|]. intros c5 Hok5 _ Hw5 Hb5 _. apply wp_ret.
  rewrite Hm4, byte_at_store32_ne, Hb3, Hm2, (u32_small d), Z.add_0_l, (u8_small d) in Hb5 by addr_lia.
  fold old in Hb5. rewrite Hm4, word_at_store32 in Hw5.
  assert (Hbyte : byte_at (mem (chw c5)) (PMC_BASE + o) = d).
  { rewrite Hb5. destruct (Z.ltb_spec d old), (Z.ltb_spec old d); lia. }
  pose (b := mk_best F R Q d 0).
  assert (Hf : hw_freq dev (mem (chw c5)) PLL_NO o = best_freq b).
  { unfold hw_freq. rewrite Hw5, Hbyte. apply (out_freq_best dev b); simpl; try lia.
    apply eff_div_raw; [done|lia]. }
  rewrite Hf. split; [done|]. apply manu_freq_answer; [|lia].
  repeat split; cbn [cDR cDQ cVD cDF]; lia.
Qed.

(** [manu_pll_divisor] does not look at the "no divisor" answer of
    [calc_pll_num]: for such a device (here UART0) it writes the first word of
    the PMC block and the word 8 bytes below the PLL registers. *)
Theorem manu_pll_no_divisor_stray_writes :
  match manu_pll_divisor DEV_UART0 32 0 0 4 boot with
  | Ok (r, c') => calc_pll_num DEV_UART0 = (-2, Some 0) /\ r = 396000000 /\
      trace (chw c') = [W32 PMC_BASE 4; W32 (PMC_PLL - 8) 0x200000]
  | Fault _ => False
  end.
Proof. vm_compute. auto. Qed.

(** The documented "0 means not changed" of the divisor argument is not
    implemented: with 0, [manu_pll_divisor] divides by 0, answers 0 and
    overwrites the divisor field (16 before the call) with 0. *)
Theorem manu_pll_zero_divisor_overwrites :
  match manu_pll_divisor DEV_I2C0 32 0 0 0 boot with
  | Ok (r, c') => r = 0 /\ byte_at (mem (chw boot)) (PMC_BASE + 0x3A0) = 16 /\
      byte_at (mem (chw c')) (PMC_BASE + 0x3A0) = 0
  | Fault _ => False
  end.
Proof. vm_compute. auto. Qed.

(** ** Witnesses: I2C0 on the registers after boot *)

Lemma i2c0_has_divisor : has_divisor DEV_I2C0 1 0x3A0.
Proof. by split. Qed.

Lemma sample_cand_ok : cand_ok (mk_cand 0 0 16 32).
Proof. repeat split; by vm_compute. Qed.

Lemma set_div_best_witness :
  wp (auto_pll_divisor DEV_I2C0 SET_DIV 2 100)
    (fun r c' =>
       (r = -1 /\ forall i, div_allowed 1 i -> target_hz 2 100 < freq_with boot 1 i) \/
       (0 <= r <= target_hz 2 100 /\ hw_freq DEV_I2C0 (mem (chw c')) 1 0x3A0 = r /\
        (exists d, div_allowed 1 d /\ freq_with boot 1 d = r) /\
        forall i, div_allowed 1 i -> freq_with boot 1 i <= target_hz 2 100 ->
          freq_with boot 1 i <= r)) boot.
Proof.
  apply (set_div_best DEV_I2C0 1 0x3A0 2 100 boot).
  - by vm_compute.
  - apply i2c0_has_divisor.
  - apply boot_ok.
  - reflexivity.
  - by vm_compute.
  - by vm_compute.
Defined.

Lemma set_div_get_freq_roundtrip_witness :
  wp (r ← auto_pll_divisor DEV_I2C0 SET_DIV 2 100;
      g ← auto_pll_divisor DEV_I2C0 GET_FREQ 0 0;
      mret (r, g)) (fun rg _ => rg = (99000000, 99000000)) boot.
Proof.
  apply (set_div_get_freq_roundtrip DEV_I2C0 1 0x3A0 2 100 boot false 16 99000000).
  - by vm_compute.
  - apply i2c0_has_divisor.
  - apply boot_ok.
  - by vm_compute.
  - by vm_compute.
  - lia.
Defined.

Lemma get_freq_zero_after_div32_witness :
  wp (r ← auto_pll_divisor DEV_I2C0 SET_DIV 2 50;
      g ← auto_pll_divisor DEV_I2C0 GET_FREQ 0 0;
      mret (r, g)) (fun rg _ => rg = (49500000, 0)) boot.
Proof.
  apply (get_freq_zero_after_div32 DEV_I2C0 1 0x3A0 2 50 boot false 49500000).
  - by vm_compute.
  - apply i2c0_has_divisor.
  - apply boot_ok.
  - by vm_compute.
  - by vm_compute.
Defined.

Lemma set_plldiv_optimal_witness :
  wp (auto_pll_divisor DEV_I2C0 SET_PLLDIV 2 100)
    (fun r c' =>
       let t := u64 (u64 100 * 1000000) in
       hw_freq DEV_I2C0 (mem (chw c')) 1 0x3A0 = r /\ r <= t /\
       (exists k, cand_ok k /\ 1 <= cVD k <= 32 /\ cand_freq k = r) /\
       (forall k, cand_ok k -> 1 <= cVD k <= 32 -> cand_freq k <= t -> cand_freq k <= r)) boot.
Proof.
  apply (set_plldiv_optimal DEV_I2C0 1 0x3A0 2 100 1000000 boot (mk_cand 0 0 16 32)).
  - by vm_compute.
  - apply i2c0_has_divisor.
  - reflexivity.
  - reflexivity.
  - apply boot_ok.
  - by vm_compute.
  - reflexivity.
  - by vm_compute.
  - apply sample_cand_ok.
  - simpl. lia.
  - by vm_compute.
Defined.

Lemma set_plldiv_no_overshoot_witness :
  wp (auto_pll_divisor DEV_I2C0 SET_PLLDIV 2 100)
    (fun r c' => exists evs, trace (chw c') = trace (chw boot) ++ evs /\
       Forall (fun m => hw_freq DEV_I2C0 m 1 0x3A0 <=
           Z.max (hw_freq DEV_I2C0 (mem (chw boot)) 1 0x3A0) (hw_freq DEV_I2C0 (mem (chw c')) 1 0x3A0))
         (replay (mem (chw boot)) evs)) boot.
Proof.
  apply (set_plldiv_no_overshoot DEV_I2C0 1 0x3A0 2 100 1000000 boot).
  - by vm_compute.
  - apply i2c0_has_divisor.
  - apply boot_ok.
  - by vm_compute.
  - reflexivity.
  - by vm_compute.
Defined.

Lemma set_plldiv_below_range_witness :
  wp (auto_pll_divisor DEV_I2C0 SET_PLLDIV 2 1)
    (fun r c' => r = 24000000 /\ hw_freq DEV_I2C0 (mem (chw c')) 1 0x3A0 = 24000000 /\
       word_at (mem (chw c')) (PMC_PLL + 4 * 1) = 0x10101) boot.
Proof.
  apply (set_plldiv_below_range DEV_I2C0 1 0x3A0 2 1 1000000 boot).
  - by vm_compute.
  - apply i2c0_has_divisor.
  - reflexivity.
  - apply boot_ok.
  - by vm_compute.
  - reflexivity.
  - reflexivity.
  - by vm_compute.
Defined.

Lemma set_pll_optimal_witness :
  wp (auto_pll_divisor DEV_I2C0 SET_PLL 2 100)
    (fun r c' =>
       let t := u64 (u64 100 * 1000000) in
       let VD := byte_at (mem (chw boot)) (PMC_BASE + 0x3A0) in
       byte_at (mem (chw c')) (PMC_BASE + 0x3A0) = VD /\ hw_freq DEV_I2C0 (mem (chw c')) 1 0x3A0 = r /\
       (exists k, cand_ok k /\ cVD k = VD /\ cand_freq k = r) /\
       (1 <> 2 -> r <= t) /\
       (forall k n, cand_ok k -> cVD k = VD -> cost (1 =? 2) t k = Some n ->
          Z.abs (r - t) <= n)) boot.
Proof.
  apply (set_pll_optimal DEV_I2C0 1 0x3A0 2 100 1000000 boot (mk_cand 0 0 16 32) 1000000).
  - apply i2c0_has_divisor.
  - reflexivity.
  - apply boot_ok.
  - reflexivity.
  - by vm_compute.
  - by vm_compute.
  - apply sample_cand_ok.
  - by vm_compute.
  - reflexivity.
Defined.

Lemma manu_pll_divisor_correct_witness :
  wp (manu_pll_divisor DEV_I2C0 32 0 0 7)
    (fun r c' => let f := hw_freq DEV_I2C0 (mem (chw c')) 1 0x3A0 in
       f = pll_freq 32 0 0 7 /\ r <= f < r + 1000) boot.
Proof.
  apply (manu_pll_divisor_correct DEV_I2C0 1 0x3A0 32 0 0 7 boot).
  - by vm_compute.
  - apply i2c0_has_divisor.
  - apply boot_ok.
  - by vm_compute.
  - reflexivity.
  - lia.
Defined.
