(* ===== verification/Env.v ===== *)
(** * The boot environment: CRC and variable list

    The part of [drivers/mtd/wmt_env.c] that works on the copy of the u-boot
    environment in memory: the table-driven CRC of [env_crc32], the string
    matching of [envmatch], and the search, delete and append loops of
    [wmt_getsyspara] and [wmt_setsyspara].

    The environment data is an array of bytes holding [name=value] strings,
    each closed by a NUL, the last one by two.  The loops run in the monad
    [M (list Z)] whose state is that array; an index outside the array is the
    fault [Undefined].  The abstract environment is the ordered list of
    (name, value) pairs; [Rep] relates the two, and the second half of the
    file proves that every loop implements its operation on that list. *)

From Stdlib Require Import Ascii String.
From S2P Require Import Prelude.
From stdpp Require Import list strings.
#[local] Open Scope Z_scope.

(** ** Bytes and strings *)

Definition ch (a : Ascii.ascii) : Z := Z.of_nat (Ascii.nat_of_ascii a).
Definition EQ : Z := ch "="%char.
Definition bytes (s : string) : list Z := ch <$> String.list_ascii_of_string s.

(** [a[i]] and [a[i] = v] on an array in memory. *)
Definition at_ (a : list Z) (i : Z) : option Z :=
  if 0 <=? i then a !! Z.to_nat i else None.

Definition peek (i : Z) : M (list Z) Z := fun d =>
  match at_ d i with Some c => Ok (c, d) | None => Fault Undefined end.

Definition poke (i v : Z) : M (list Z) unit := fun d =>
  match at_ d i with
  | Some _ => Ok (tt, <[Z.to_nat i := v]> d)
  | None => Fault Undefined
  end.

(** ** CRC *)

Definition sf_crc_table : list Z :=
  [0x00000000; 0x77073096; 0xee0e612c; 0x990951ba; 0x076dc419;
   0x706af48f; 0xe963a535; 0x9e6495a3; 0x0edb8832; 0x79dcb8a4;
   0xe0d5e91e; 0x97d2d988; 0x09b64c2b; 0x7eb17cbd; 0xe7b82d07;
   0x90bf1d91; 0x1db71064; 0x6ab020f2; 0xf3b97148; 0x84be41de;
   0x1adad47d; 0x6ddde4eb; 0xf4d4b551; 0x83d385c7; 0x136c9856;
   0x646ba8c0; 0xfd62f97a; 0x8a65c9ec; 0x14015c4f; 0x63066cd9;
   0xfa0f3d63; 0x8d080df5; 0x3b6e20c8; 0x4c69105e; 0xd56041e4;
   0xa2677172; 0x3c03e4d1; 0x4b04d447; 0xd20d85fd; 0xa50ab56b;
   0x35b5a8fa; 0x42b2986c; 0xdbbbc9d6; 0xacbcf940; 0x32d86ce3;
   0x45df5c75; 0xdcd60dcf; 0xabd13d59; 0x26d930ac; 0x51de003a;
   0xc8d75180; 0xbfd06116; 0x21b4f4b5; 0x56b3c423; 0xcfba9599;
   0xb8bda50f; 0x2802b89e; 0x5f058808; 0xc60cd9b2; 0xb10be924;
   0x2f6f7c87; 0x58684c11; 0xc1611dab; 0xb6662d3d; 0x76dc4190;
   0x01db7106; 0x98d220bc; 0xefd5102a; 0x71b18589; 0x06b6b51f;
   0x9fbfe4a5; 0xe8b8d433; 0x7807c9a2; 0x0f00f934; 0x9609a88e;
   0xe10e9818; 0x7f6a0dbb; 0x086d3d2d; 0x91646c97; 0xe6635c01;
   0x6b6b51f4; 0x1c6c6162; 0x856530d8; 0xf262004e; 0x6c0695ed;
   0x1b01a57b; 0x8208f4c1; 0xf50fc457; 0x65b0d9c6; 0x12b7e950;
   0x8bbeb8ea; 0xfcb9887c; 0x62dd1ddf; 0x15da2d49; 0x8cd37cf3;
   0xfbd44c65; 0x4db26158; 0x3ab551ce; 0xa3bc0074; 0xd4bb30e2;
   0x4adfa541; 0x3dd895d7; 0xa4d1c46d; 0xd3d6f4fb; 0x4369e96a;
   0x346ed9fc; 0xad678846; 0xda60b8d0; 0x44042d73; 0x33031de5;
   0xaa0a4c5f; 0xdd0d7cc9; 0x5005713c; 0x270241aa; 0xbe0b1010;
   0xc90c2086; 0x5768b525; 0x206f85b3; 0xb966d409; 0xce61e49f;
   0x5edef90e; 0x29d9c998; 0xb0d09822; 0xc7d7a8b4; 0x59b33d17;
   0x2eb40d81; 0xb7bd5c3b; 0xc0ba6cad; 0xedb88320; 0x9abfb3b6;
   0x03b6e20c; 0x74b1d29a; 0xead54739; 0x9dd277af; 0x04db2615;
   0x73dc1683; 0xe3630b12; 0x94643b84; 0x0d6d6a3e; 0x7a6a5aa8;
   0xe40ecf0b; 0x9309ff9d; 0x0a00ae27; 0x7d079eb1; 0xf00f9344;
   0x8708a3d2; 0x1e01f268; 0x6906c2fe; 0xf762575d; 0x806567cb;
   0x196c3671; 0x6e6b06e7; 0xfed41b76; 0x89d32be0; 0x10da7a5a;
   0x67dd4acc; 0xf9b9df6f; 0x8ebeeff9; 0x17b7be43; 0x60b08ed5;
   0xd6d6a3e8; 0xa1d1937e; 0x38d8c2c4; 0x4fdff252; 0xd1bb67f1;
   0xa6bc5767; 0x3fb506dd; 0x48b2364b; 0xd80d2bda; 0xaf0a1b4c;
   0x36034af6; 0x41047a60; 0xdf60efc3; 0xa867df55; 0x316e8eef;
   0x4669be79; 0xcb61b38c; 0xbc66831a; 0x256fd2a0; 0x5268e236;
   0xcc0c7795; 0xbb0b4703; 0x220216b9; 0x5505262f; 0xc5ba3bbe;
   0xb2bd0b28; 0x2bb45a92; 0x5cb36a04; 0xc2d7ffa7; 0xb5d0cf31;
   0x2cd99e8b; 0x5bdeae1d; 0x9b64c2b0; 0xec63f226; 0x756aa39c;
   0x026d930a; 0x9c0906a9; 0xeb0e363f; 0x72076785; 0x05005713;
   0x95bf4a82; 0xe2b87a14; 0x7bb12bae; 0x0cb61b38; 0x92d28e9b;
   0xe5d5be0d; 0x7cdcefb7; 0x0bdbdf21; 0x86d3d2d4; 0xf1d4e242;
   0x68ddb3f8; 0x1fda836e; 0x81be16cd; 0xf6b9265b; 0x6fb077e1;
   0x18b74777; 0x88085ae6; 0xff0f6a70; 0x66063bca; 0x11010b5c;
   0x8f659eff; 0xf862ae69; 0x616bffd3; 0x166ccf45; 0xa00ae278;
   0xd70dd2ee; 0x4e048354; 0x3903b3c2; 0xa7672661; 0xd06016f7;
   0x4969474d; 0x3e6e77db; 0xaed16a4a; 0xd9d65adc; 0x40df0b66;
   0x37d83bf0; 0xa9bcae53; 0xdebb9ec5; 0x47b2cf7f; 0x30b5ffe9;
   0xbdbdf21c; 0xcabac28a; 0x53b39330; 0x24b4a3a6; 0xbad03605;
   0xcdd70693; 0x54de5729; 0x23d967bf; 0xb3667a2e; 0xc4614ab8;
   0x5d681b02; 0x2a6f2b94; 0xb40bbe37; 0xc30c8ea1; 0x5a05df1b;
   0x2d02ef8d].

(** [*buf++]: the state is the rest of the buffer. *)
Definition next_byte : M (list Z) Z := fun b =>
  match b with c :: b' => Ok (c, b') | [] => Fault Undefined end.

Definition sf_crc_entry (i : Z) : Z := default 0 (sf_crc_table !! Z.to_nat i).

Definition DO1 (crc : Z) : M (list Z) Z :=
  c ← next_byte;
  mret (Z.lxor (sf_crc_entry (Z.land (Z.lxor crc c) 0xff)) (Z.shiftr crc 8)).
Definition DO2 (crc : Z) : M (list Z) Z := mbind DO1 (DO1 crc).
Definition DO4 (crc : Z) : M (list Z) Z := mbind DO2 (DO2 crc).
Definition DO8 (crc : Z) : M (list Z) Z := mbind DO4 (DO4 crc).

(** [while (len >= 8) { DO8(buf); len -= 8; }] and the loop over the rest. *)
Definition crc_step8 (x : Z * Z) : M (list Z) (Z * Z + Z * Z) :=
  let '(crc, len) := x in
  if 8 <=? len then crc' ← DO8 crc; mret (inl (crc', len - 8))
  else mret (inr (crc, len)).
Definition crc_step1 (x : Z * Z) : M (list Z) (Z * Z + Z) :=
  let '(crc, len) := x in
  if len =? 0 then mret (inr crc)
  else crc' ← DO1 crc; mret (inl (crc', len - 1)).

Definition crc32_len (len : Z) : M (list Z) Z :=
  let crc := Z.lxor 0 0xffffffff in
  '(crc, len) ← loop (S (Z.to_nat (len / 8))) crc_step8 (crc, len);
  crc ← loop 9 crc_step1 (crc, len);
  mret (Z.lxor crc 0xffffffff).

(** [env_crc32(buf)], given [ENV_MAX_SIZE] and the boot strap register. *)
Definition env_crc32 (ENV_MAX_SIZE strap : Z) (buf : list Z) : result Z :=
  let len := if Z.land strap 6 =? 2 then u32 (ENV_MAX_SIZE - 4)
             else u32 (ENV_MAX_SIZE - 5) in
  match crc32_len len buf with
  | Ok (crc, _) => Ok crc
  | Fault f => Fault f
  end.

(** ** The variable list in memory *)

Definition baudrate_table : list Z := [9600; 19200; 38400; 57600; 115200].

(** [lib/vsprintf.c], base 10: digits are read as long as there are any
    (a hexadecimal letter is a digit too large for the base, which ends the
    loop as any other character does); the result is truncated to 32 bits. *)
Fixpoint strtoull10 (result : Z) (cp : list Z) : Z :=
  match cp with
  | c :: cp' =>
      if (ch "0"%char <=? c) && (c <=? ch "9"%char)
      then strtoull10 (u64 (result * 10 + (c - ch "0"%char))) cp'
      else result
  | [] => result
  end.
Definition simple_strtoul10 (cp : list Z) : Z := u32 (strtoull10 0 cp).

(** [envmatch(s1, i2)]: [s1] with its terminator; running past the terminator
    of [s1] is the fault [Undefined]. *)
Fixpoint envmatch (s1 : list Z) (i2 : Z) : M (list Z) Z :=
  match s1 with
  | [] => fail_with Undefined
  | c :: s1' =>
      e ← peek i2;
      if c =? e then
        if c =? EQ then mret (i2 + 1) else envmatch s1' (i2 + 1)
      else if (c =? 0) && (e =? EQ) then mret (i2 + 1)
      else mret (-1)
  end.

(** [for (nxt = j; env_get_char(nxt) != '\0'; ++nxt);] *)
Definition scan_nul (j : Z) : M (list Z) Z :=
  d ← get;
  loop (S (length d)) (fun nxt =>
    c ← peek nxt;
    mret (if c =? 0 then inr nxt else inl (nxt + 1))) j.

(** The search of [wmt_setsyspara]: the start of the string that matched, its
    end, and the index of the value ([-1]: no match).  [nxt] is [None] until
    the first string has been scanned. *)
Definition find_body (varname : list Z) (x : Z * option Z * Z) :
    M (list Z) (Z * option Z * Z + Z * option Z * Z) :=
  let '(env, nxt, oldval) := x in
  c ← peek env;
  if c =? 0 then mret (inr x)
  else
    nxt ← scan_nul env;
    oldval ← envmatch (varname ++ [0]) env;
    mret (if 0 <=? oldval then inr (env, Some nxt, oldval)
          else inl (nxt + 1, Some nxt, oldval)).

Definition find_var (varname : list Z) : M (list Z) (Z * option Z * Z) :=
  d ← get;
  loop (S (length d)) (find_body varname) (0, None, -1).

(** The baud rate test on an existing variable: [None] for a rate outside
    the table; a null [varval] is dereferenced. *)
Definition baudrate_ok (varname : list Z) (varval : option (list Z)) : M (list Z) bool :=
  if bool_decide (varname = bytes "baudrate") then
    v ← initialised varval;
    mret (existsb (Z.eqb (s32 (simple_strtoul10 v))) baudrate_table)
  else mret true.

Definition move_body (x : Z * Z) : M (list Z) (Z * Z + Z) :=
  let '(env, nxt) := x in
  c ← peek nxt;
  poke env c;;
  if c =? 0 then
    c2 ← peek (nxt + 1);
    mret (if c2 =? 0 then inr env else inl (env + 1, nxt + 1))
  else mret (inl (env + 1, nxt + 1)).

Definition delete_var (env nxt : Z) : M (list Z) unit :=
  c ← peek (nxt + 1);
  env ← (if c =? 0 then
           if 0 <? env then mret (env - 1) else poke env 0;; mret env
         else
           d ← get;
           loop (S (length d)) move_body (env, nxt + 1));
  poke (env + 1) 0.

(** [for (env = env_data; *env || *(env+1); ++env);] and the step past the
    last terminator. *)
Definition end_body (env : Z) : M (list Z) (Z + Z) :=
  c ← peek env;
  if c =? 0 then
    c2 ← peek (env + 1);
    mret (if c2 =? 0 then inr env else inl (env + 1))
  else mret (inl (env + 1)).

Definition append_at : M (list Z) Z :=
  d ← get;
  env ← loop (S (length d)) end_body 0;
  mret (if 0 <? env then env + 1 else env).

(** The loop that copies a string to [env] up to and with its NUL, answering
    the index of the NUL. *)
Fixpoint put_str (env : Z) (s : list Z) : M (list Z) Z :=
  match s with
  | [] => poke env 0;; mret env
  | c :: s' => poke env c;; put_str (env + 1) s'
  end.

Definition append_var (env : Z) (varname varval : list Z) : M (list Z) unit :=
  env ← put_str env varname;
  poke env EQ;;
  env ← put_str (env + 1) varval;
  poke (env + 1) 0.

(** What [wmt_setsyspara] does to the data, up to the call of [env_update]:
    [inl rcode] when it leaves without writing the flash, [inr tt] when
    [env_update] follows. *)
Definition edit_data (ENV_MAX_SIZE : Z) (varname : list Z) (varval : option (list Z)) :
    M (list Z) (Z + unit) :=
  '(env, nxt, oldval) ← find_var varname;
  go ← (if 0 <=? oldval then
          ok ← baudrate_ok varname varval;
          if (ok : bool) then
            nxt ← initialised nxt; delete_var env nxt;; mret true
          else mret false
        else mret true);
  if (go : bool) then
    match varval with
    | None | Some [] => mret (if oldval <? 0 then inl 1 else inr tt)
    | Some v =>
        env ← append_at;
        let len := Z.of_nat (length varname) + 2 + Z.of_nat (length v) in
        if ENV_MAX_SIZE - env <? len then mret (inl 1)
        else append_var env varname v;; mret (inr tt)
    end
  else mret (inl 1).

(** The copy loop of [wmt_getsyspara] into the caller's array. *)
Definition copy_body (nxt : Z) (x : list Z * Z * Z) :
    M (list Z) (list Z * Z * Z + list Z * Z) :=
  let '(varval, i, k) := x in
  if k <? nxt then
    c ← peek k;
    match poke i c varval with
    | Ok (_, varval') => mret (inl (varval', i + 1, k + 1))
    | Fault f => fail_with f
    end
  else mret (inr (varval, i)).

(** [wmt_getsyspara] on the data: the array filled, [*varlen] and the return
    code. *)
Definition get_data (varname : list Z) (varval : list Z) (varlen : Z) :
    M (list Z) (list Z * Z * Z) :=
  '(_, nxt, k) ← find_var varname;
  d ← get;
  '(varval, i) ← (if 0 <=? k then
                    nxt ← initialised nxt;
                    loop (S (length d)) (copy_body nxt) (varval, 0, k)
                  else mret (varval, 0));
  match poke i 0 varval with
  | Fault f => fail_with f
  | Ok (_, varval) =>
      if varlen <? i then mret (varval, i, 1)
      else mret (varval, varlen, if k <? 0 then 1 else 0)
  end.

(** ** The CRC is the CRC-32 of IEEE 802.3

    The reference shifts one bit at a time with the reflected polynomial. *)

Definition crc_bit (x : Z) : Z :=
  Z.lxor (Z.shiftr x 1) (if Z.odd x then 0xedb88320 else 0).
Definition crc_byte (crc c : Z) : Z := Nat.iter 8 crc_bit (Z.lxor crc c).
Definition crc32_ref (buf : list Z) : Z :=
  Z.lxor (foldl crc_byte 0xffffffff buf) 0xffffffff.

Definition is_byte (c : Z) : Prop := 0 <= c < 256.

(** One table step, as a function. *)
Definition crc1 (crc c : Z) : Z :=
  Z.lxor (sf_crc_entry (Z.land (Z.lxor crc c) 0xff)) (Z.shiftr crc 8).

Lemma odd_lxor a b : Z.odd (Z.lxor a b) = xorb (Z.odd a) (Z.odd b).
Proof. by rewrite <- !Z.bit0_odd, Z.lxor_spec. Qed.

Lemma odd_shiftl b k : 0 < k -> Z.odd (Z.shiftl b k) = false.
Proof. intros. rewrite <- Z.bit0_odd. apply Z.shiftl_spec_low. lia. Qed.

Lemma crc_bit_shift a b k :
  0 < k -> crc_bit (Z.lxor a (Z.shiftl b k)) = Z.lxor (crc_bit a) (Z.shiftl b (k - 1)).
Proof.
  intros Hk. unfold crc_bit. rewrite odd_lxor, odd_shiftl, xorb_false_r, Z.shiftr_lxor by done.
  rewrite Z.shiftr_shiftl_l by lia. rewrite !Z.lxor_assoc. f_equal. apply Z.lxor_comm.
Qed.

Lemma crc_bits_shift n a b k :
  Z.of_nat n <= k ->
  Nat.iter n crc_bit (Z.lxor a (Z.shiftl b k))
  = Z.lxor (Nat.iter n crc_bit a) (Z.shiftl b (k - Z.of_nat n)).
Proof.
  induction n as [|n IH]; intros Hk.
  - by rewrite Z.sub_0_r.
  - cbn [Nat.iter nat_rect]. unfold Nat.iter in IH. rewrite IH, crc_bit_shift by lia.
    do 2 f_equal. lia.
Qed.

Lemma split_byte x : x = Z.lxor (Z.land x 0xff) (Z.shiftl (Z.shiftr x 8) 8).
Proof.
  apply Z.bits_inj'. intros n Hn.
  rewrite Z.lxor_spec, Z.land_spec.
  change 0xff with (Z.ones 8). rewrite Z.testbit_ones_nonneg by lia.
  destruct (Z.ltb_spec n 8).
  - rewrite Z.shiftl_spec_low by lia. by destruct (Z.testbit x n).
  - rewrite Z.shiftl_spec, Z.shiftr_spec by lia. replace (n - 8 + 8) with n by lia.
    by destruct (Z.testbit x n).
Qed.

Lemma sf_crc_table_ref i : 0 <= i < 256 -> sf_crc_entry i = Nat.iter 8 crc_bit i.
Proof.
  intros Hi.
  assert (forallb (fun i => sf_crc_entry i =? Nat.iter 8 crc_bit i) (seqZ 0 256) = true) as H
    by (vm_compute; reflexivity).
  rewrite forallb_forall in H. apply Z.eqb_eq, H.
  rewrite <- list_elem_of_In, elem_of_seqZ. lia.
Qed.

Lemma crc1_ref crc c : is_byte c -> crc1 crc c = crc_byte crc c.
Proof.
  intros Hc. unfold crc1, crc_byte. rewrite (split_byte (Z.lxor crc c)) at 2.
  rewrite crc_bits_shift, Z.shiftl_0_r by done.
  rewrite Z.shiftr_lxor, (Z.shiftr_div_pow2 c), (Z.div_small c), Z.lxor_0_r by done.
  f_equal. apply sf_crc_table_ref. change 0xff with (Z.ones 8).
  rewrite Z.land_ones by done. by apply Z.mod_pos_bound.
Qed.

Lemma DO1_run crc c b : DO1 crc (c :: b) = Ok (crc1 crc c, b).
Proof. done. Qed.

Lemma DO8_run crc c1 c2 c3 c4 c5 c6 c7 c8 b :
  DO8 crc ([c1; c2; c3; c4; c5; c6; c7; c8] ++ b)
  = Ok (foldl crc1 crc [c1; c2; c3; c4; c5; c6; c7; c8], b).
Proof.
  simpl. unfold DO8, DO4, DO2.
  repeat (unfold mbind at 1, M_bind at 1; cbv beta; rewrite ?DO1_run).
  done.
Qed.

Lemma crc_loop8 n crc buf :
  (Z.to_nat (8 * Z.of_nat n) <= length buf)%nat -> forall r, 0 <= r < 8 ->
  loop (S n) crc_step8 (crc, 8 * Z.of_nat n + r) buf
  = Ok ((foldl crc1 crc (take (8 * n) buf), r), drop (8 * n) buf).
Proof.
  revert crc buf. induction n as [|n IH]; intros crc buf Hl r Hr.
  - apply loop_exit. unfold crc_step8. by case_bool; [lia|].
  - do 8 (destruct buf as [|? buf]; [simpl in Hl; lia|]).
    rewrite (loop_next _ _ _ _ (foldl crc1 crc [z; z0; z1; z2; z3; z4; z5; z6],
      8 * Z.of_nat n + r) buf).
    + rewrite IH by (simpl in Hl; lia).
      replace (8 * S n)%nat with (8 + 8 * n)%nat by lia. done.
    + unfold crc_step8. case_bool; [|lia].
      replace (8 * Z.of_nat (S n) + r - 8) with (8 * Z.of_nat n + r) by lia.
      erewrite bind_ok by apply (DO8_run crc z z0 z1 z2 z3 z4 z5 z6 buf). done.
Qed.

Lemma crc_loop1 n m crc buf :
  (n < m)%nat -> (n <= length buf)%nat ->
  loop m crc_step1 (crc, Z.of_nat n) buf = Ok (foldl crc1 crc (take n buf), drop n buf).
Proof.
  revert m crc buf. induction n as [|n IH]; intros [|m] crc buf Hm Hl; try lia.
  - by apply loop_exit.
  - destruct buf as [|c buf]; [simpl in Hl; lia|].
    rewrite (loop_next _ _ _ _ (crc1 crc c, Z.of_nat n) buf).
    + apply IH; simpl in Hl; lia.
    + unfold crc_step1. case_bool; [lia|].
      replace (Z.of_nat (S n) - 1) with (Z.of_nat n) by lia. done.
Qed.

Lemma crc32_len_run len buf :
  0 <= len <= Z.of_nat (length buf) ->
  crc32_len len buf =
  Ok (Z.lxor (foldl crc1 0xffffffff (take (Z.to_nat len) buf)) 0xffffffff, drop (Z.to_nat len) buf).
Proof.
  intros Hl.
  assert (exists n r : nat, len = 8 * Z.of_nat n + Z.of_nat r /\ (r < 8)%nat) as (n & r & -> & Hr).
  { exists (Z.to_nat (len / 8)), (Z.to_nat (len mod 8)). dlia. }
  unfold crc32_len. replace (Z.to_nat ((8 * Z.of_nat n + Z.of_nat r) / 8)) with n by dlia.
  rewrite (bind_ok _ _ _ _ _ (crc_loop8 n _ buf ltac:(lia) (Z.of_nat r) ltac:(lia))).
  assert (r <= length (drop (8 * n) buf))%nat by (rewrite length_drop; lia).
  rewrite (bind_ok _ _ _ _ _ (crc_loop1 r 9 _ _ ltac:(lia) ltac:(done))).
  replace (Z.to_nat (8 * Z.of_nat n + Z.of_nat r)) with (8 * n + r)%nat by lia.
  by rewrite <- drop_drop, <- take_take_drop, foldl_app.
Qed.

Lemma foldl_crc1_ref buf crc :
  Forall is_byte buf -> foldl crc1 crc buf = foldl crc_byte crc buf.
Proof.
  intros H. revert crc. induction H as [|c buf Hc _ IH]; intros crc; simpl; [done|].
  by rewrite crc1_ref, IH.
Qed.

Lemma lxor_bound w a b :
  0 <= w -> 0 <= a < 2 ^ w -> 0 <= b < 2 ^ w -> 0 <= Z.lxor a b < 2 ^ w.
Proof.
  intros Hw Ha Hb. assert (0 <= Z.lxor a b) by (apply Z.lxor_nonneg; lia).
  split; [done|]. apply bits_bound; [done..|]. intros m Hm.
  by rewrite Z.lxor_spec, !(bits_above w) by lia.
Qed.

Lemma crc1_bound crc c : 0 <= crc < 2 ^ 32 -> 0 <= crc1 crc c < 2 ^ 32.
Proof.
  intros H. unfold crc1. apply lxor_bound; [done| |].
  - unfold sf_crc_entry. destruct (sf_crc_table !! _) as [e|] eqn:E; [|done].
    assert (forallb (fun e => (0 <=? e) && (e <? 2 ^ 32)) sf_crc_table = true) as Hf
      by (vm_compute; reflexivity).
    rewrite forallb_forall in Hf. apply list_elem_of_lookup_2, list_elem_of_In, Hf in E.
    simpl. bool_to_prop. lia.
  - rewrite Z.shiftr_div_pow2 by done. dlia.
Qed.

Lemma foldl_crc1_bound buf crc : 0 <= crc < 2 ^ 32 -> 0 <= foldl crc1 crc buf < 2 ^ 32.
Proof.
  revert crc. induction buf as [|c buf IH]; intros crc H; simpl; [done|].
  by apply IH, crc1_bound.
Qed.

(** The number of bytes covered by the CRC. *)
Definition crc_len (size strap : Z) : Z := size - if Z.land strap 6 =? 2 then 4 else 5.

Lemma env_crc32_run size strap buf :
  5 <= size < 2 ^ 32 -> crc_len size strap <= Z.of_nat (length buf) ->
  exists crc, env_crc32 size strap buf = Ok crc /\ 0 <= crc < 2 ^ 32 /\
  crc = Z.lxor (foldl crc1 0xffffffff (take (Z.to_nat (crc_len size strap)) buf)) 0xffffffff.
Proof.
  unfold env_crc32, crc_len. intros Hs Hl. eexists. split; [|split; [|reflexivity]].
  - assert ((if Z.land strap 6 =? 2 then u32 (size - 4) else u32 (size - 5))
            = size - if Z.land strap 6 =? 2 then 4 else 5) as ->
      by (case_bool; apply u32_small; lia).
    rewrite crc32_len_run; [done|]. revert Hl. case_bool; lia.
  - apply lxor_bound; [done| |done]. by apply foldl_crc1_bound.
Qed.

(** The CRC depends on the bytes it covers only. *)
Lemma env_crc32_take size strap b1 b2 :
  5 <= size < 2 ^ 32 ->
  crc_len size strap <= Z.of_nat (length b1) -> crc_len size strap <= Z.of_nat (length b2) ->
  take (Z.to_nat (crc_len size strap)) b1 = take (Z.to_nat (crc_len size strap)) b2 ->
  env_crc32 size strap b1 = env_crc32 size strap b2.
Proof.
  intros Hs H1 H2 Ht.
  destruct (env_crc32_run size strap b1) as (c1 & -> & _ & ->); [done..|].
  destruct (env_crc32_run size strap b2) as (c2 & -> & _ & ->); [done..|].
  by rewrite Ht.
Qed.

(** [C24] [env_crc32], with its eightfold unrolled loop and its table of 256
    words, computes the CRC-32 of IEEE 802.3 (reflected polynomial
    0xEDB88320) of the first [ENV_MAX_SIZE - 5] bytes of the buffer, of
    [ENV_MAX_SIZE - 4] when the strap register says NAND boot. *)
Theorem env_crc32_is_crc32 (ENV_MAX_SIZE strap : Z) (buf : list Z)
    (Hsize : 5 <= ENV_MAX_SIZE < 2 ^ 32)
    (Hlen : crc_len ENV_MAX_SIZE strap <= Z.of_nat (length buf))
    (Hbytes : Forall is_byte buf) :
  env_crc32 ENV_MAX_SIZE strap buf
  = Ok (crc32_ref (take (Z.to_nat (crc_len ENV_MAX_SIZE strap)) buf)).
Proof.
  destruct (env_crc32_run ENV_MAX_SIZE strap buf) as (crc & -> & _ & ->); [done..|].
  unfold crc32_ref. by rewrite foldl_crc1_ref by by apply Forall_take.
Qed.

Lemma env_crc32_is_crc32_witness :
  env_crc32 14 0 (bytes "123456789") = Ok 0xcbf43926 /\
  crc32_ref (bytes "123456789") = 0xcbf43926.
Proof.
  split; [|vm_compute; reflexivity].
  rewrite (env_crc32_is_crc32 14 0 (bytes "123456789")).
  - vm_compute. reflexivity.
  - lia.
  - vm_compute. discriminate.
  - apply (bool_decide_unpack (Forall _ _)). vm_compute. exact I.
Defined.

(** ** Reading and writing the array *)

Abbreviation len l := (Z.of_nat (length l)).

Lemma at_app A c B : at_ (A ++ c :: B) (len A) = Some c.
Proof. unfold at_. case_bool; [|lia]. by rewrite Nat2Z.id, list_lookup_middle. Qed.

Lemma at_bound d i c : at_ d i = Some c -> 0 <= i < len d.
Proof.
  unfold at_. case_bool; [|done]. intros E%lookup_lt_Some. lia.
Qed.

Lemma at_None d i : at_ d i = None <-> ~ 0 <= i < len d.
Proof.
  unfold at_. case_bool; [rewrite lookup_ge_None|]; split; (done || lia).
Qed.

Lemma peek_app A c B i : i = len A -> peek i (A ++ c :: B) = Ok (c, A ++ c :: B).
Proof. intros ->. unfold peek. by rewrite at_app. Qed.

Lemma poke_app A c v B i : i = len A -> poke i v (A ++ c :: B) = Ok (tt, A ++ v :: B).
Proof.
  intros ->. unfold poke. rewrite at_app, Nat2Z.id.
  rewrite insert_app_r_alt, Nat.sub_diag; done.
Qed.

(** ** The abstract environment *)

Abbreviation var := (list Z * list Z)%type.
Abbreviation env_list := (list var).

Definition text (x : var) : list Z := x.1 ++ EQ :: x.2.
Definition flat (E : env_list) : list Z := concat (map (fun x => text x ++ [0]) E).

(** A name has neither NUL nor ['='], a value no NUL. *)
Definition name_ok (n : list Z) : Prop := Forall (fun c => c <> 0 /\ c <> EQ) n.
Definition val_ok (v : list Z) : Prop := Forall (fun c => c <> 0) v.
Definition var_ok (x : var) : Prop := name_ok x.1 /\ val_ok x.2.

(** The array holds the variables [E]: each string with its NUL, then the
    closing NUL (two of them when there is no variable). *)
Definition Rep (d : list Z) (E : env_list) : Prop :=
  Forall var_ok E /\
  exists junk, d = flat E ++ 0 :: junk /\ (E = [] -> exists j, junk = 0 :: j).

Fixpoint lookup_var (n : list Z) (E : env_list) : option (list Z) :=
  match E with
  | [] => None
  | (k, v) :: E' => if decide (k = n) then Some v else lookup_var n E'
  end.

Fixpoint remove_var (n : list Z) (E : env_list) : env_list :=
  match E with
  | [] => []
  | (k, v) :: E' => if decide (k = n) then E' else (k, v) :: remove_var n E'
  end.

(** What setting [n] to [v] means: the old definition goes, the new one is
    last. *)
Definition set_var (n v : list Z) (E : env_list) : env_list := remove_var n E ++ [(n, v)].

Lemma text_val_ok x : var_ok x -> val_ok (text x).
Proof.
  intros [Hn Hv]. apply Forall_app. split.
  - eapply Forall_impl; [done|]. by intros c [? ?].
  - by apply Forall_cons_2.
Qed.

Lemma flat_cons x E : flat (x :: E) = text x ++ 0 :: flat E.
Proof. unfold flat. simpl. by rewrite <- app_assoc. Qed.

Lemma flat_app E1 E2 : flat (E1 ++ E2) = flat E1 ++ flat E2.
Proof. unfold flat. by rewrite map_app, concat_app. Qed.

Lemma text_cons x : exists c t, text x = c :: t /\ (var_ok x -> c <> 0).
Proof.
  destruct x as [[|c n] v]; simpl; [by exists EQ, v|].
  exists c, (n ++ EQ :: v). split; [done|]. intros [H _]. by apply Forall_cons_1 in H as [[? _] _].
Qed.

(** The first character of the flat text of a list followed by a NUL. *)
Lemma flat_head E R : exists c t, flat E ++ 0 :: R = c :: t /\
  (Forall var_ok E -> (c = 0 <-> E = [])).
Proof.
  destruct E as [|x E]; [by exists 0, R|].
  destruct (text_cons x) as (c & t & Ht & Hc). rewrite flat_cons, Ht.
  exists c, (t ++ 0 :: flat E ++ 0 :: R). split; [simpl; by rewrite <- app_assoc|].
  intros [H _]%Forall_cons_1. split; [intros ->; by destruct Hc|done].
Qed.

Lemma lookup_split n E v :
  lookup_var n E = Some v ->
  exists E1 E2, E = E1 ++ (n, v) :: E2 /\ lookup_var n E1 = None /\ remove_var n E = E1 ++ E2.
Proof.
  induction E as [|[k w] E IH]; simpl; [done|]. case_decide as Hk.
  - intros [= ->]. subst k. by exists [], E.
  - intros (E1 & E2 & -> & H1 & H2)%IH. exists ((k, w) :: E1), E2. simpl.
    rewrite decide_False by done. by rewrite H2.
Qed.

Lemma remove_absent n E : lookup_var n E = None -> remove_var n E = E.
Proof.
  induction E as [|[k w] E IH]; simpl; [done|]. case_decide; [done|].
  intros H1. by rewrite IH.
Qed.

Lemma lookup_app n E1 E2 :
  lookup_var n (E1 ++ E2)
  = match lookup_var n E1 with Some v => Some v | None => lookup_var n E2 end.
Proof.
  induction E1 as [|[k w] E IH]; simpl; [done|]. by case_decide.
Qed.

Lemma lookup_remove_ne n m E : n <> m -> lookup_var m (remove_var n E) = lookup_var m E.
Proof.
  intros Hn. induction E as [|[k w] E IH]; simpl; [done|].
  repeat case_decide; simplify_eq; simpl; rewrite ?decide_True, ?decide_False by done; done.
Qed.

Lemma lookup_set_ne n m v E : n <> m -> lookup_var m (set_var n v E) = lookup_var m E.
Proof.
  intros Hn. unfold set_var. rewrite lookup_app, lookup_remove_ne by done. simpl.
  rewrite decide_False by done. by destruct (lookup_var m E).
Qed.

(** Without duplicate names the variable set is the one found. *)
Definition names (E : env_list) : list (list Z) := fst <$> E.

Lemma lookup_not_in n E : n ∉ names E -> lookup_var n E = None.
Proof.
  induction E as [|[k w] E IH]; simpl; [done|].
  intros [? ?]%not_elem_of_cons. rewrite decide_False by done. by apply IH.
Qed.

Lemma lookup_in n E : lookup_var n E = None -> n ∉ names E.
Proof.
  induction E as [|[k w] E IH]; simpl; [intros _; apply not_elem_of_nil|].
  case_decide; [done|]. intros. apply not_elem_of_cons. split; [done|by apply IH].
Qed.

Lemma names_remove n E : NoDup (names E) -> NoDup (names (remove_var n E)) /\
  (n ∉ names (remove_var n E)) /\ (forall m, m ∈ names (remove_var n E) -> m ∈ names E).
Proof.
  induction E as [|[k w] E IH]; simpl; intros H.
  - split_and!; [done|apply not_elem_of_nil|done].
  - apply NoDup_cons in H as [H1 H2]. destruct (IH H2) as (H3 & H4 & H5).
    case_decide as Hk.
    + subst k. split_and!; [done..|]. intros. by right.
    + simpl. split_and!.
      * apply NoDup_cons. split; [|done]. intros ?. by apply H1, H5.
      * apply not_elem_of_cons. by split.
      * intros m [->|Hm]%elem_of_cons; [by left|right; by apply H5].
Qed.

Lemma set_var_unique n v E : NoDup (names E) ->
  NoDup (names (set_var n v E)) /\ lookup_var n (set_var n v E) = Some v.
Proof.
  intros H. destruct (names_remove n E H) as (H1 & H2 & _). unfold set_var. split.
  - unfold names. rewrite fmap_app. apply NoDup_app. split_and!; [done| |].
    + intros m Hm. apply not_elem_of_cons. split; [|apply not_elem_of_nil].
      intros ->. by destruct H2.
    + apply NoDup_singleton.
  - rewrite lookup_app, (lookup_not_in _ _ H2). simpl. by rewrite decide_True.
Qed.

(** ** The loops, on the strings they walk over *)

#[local] Arguments Z.eqb : simpl never.
#[local] Arguments loop : simpl never.

(** Move the head of the rest into the prefix, where the index points. *)
Lemma shift1 (A : list Z) c B : A ++ c :: B = (A ++ [c]) ++ B.
Proof. by rewrite <- app_assoc. Qed.

Lemma len_app (A B : list Z) : len (A ++ B) = len A + len B.
Proof. rewrite length_app. lia. Qed.
Lemma len_cons (c : Z) B : len (c :: B) = 1 + len B.
Proof. simpl. lia. Qed.
Lemma len_nil : len (@nil Z) = 0.
Proof. done. Qed.

(** Length arithmetic. *)
Ltac llia := repeat rewrite len_app, ?len_cons, ?len_nil in *;
  rewrite ?len_app, ?len_cons, ?len_nil, ?length_app in *; cbn [length] in *; lia.

(** Run the next read or write of a computation in the array. *)
Ltac run_peek := erewrite bind_ok by (apply peek_app; llia).
Ltac run_poke := erewrite bind_ok by (apply poke_app; llia).

Lemma scan_loop fuel A e B :
  val_ok e -> (length e < fuel)%nat ->
  loop fuel (fun nxt => c ← peek nxt; mret (if c =? 0 then inr nxt else inl (nxt + 1)))
    (len A) (A ++ e ++ 0 :: B) = Ok (len A + len e, A ++ e ++ 0 :: B).
Proof.
  intros He. revert fuel A. induction He as [|c e Hc He IH]; intros [|fuel] A Hf; simpl in Hf; try lia.
  - erewrite loop_exit; [|run_peek; done]. by rewrite Z.add_0_r.
  - erewrite loop_next; cycle 1.
    { simpl. run_peek. apply Z.eqb_neq in Hc. by rewrite Hc. }
    simpl. rewrite shift1. replace (len A + 1) with (len (A ++ [c])) by llia.
    rewrite IH by lia. do 2 f_equal. llia.
Qed.

Lemma scan_nul_run A e B i :
  val_ok e -> i = len A -> scan_nul i (A ++ e ++ 0 :: B) = Ok (len A + len e, A ++ e ++ 0 :: B).
Proof.
  intros He ->. unfold scan_nul. erewrite bind_ok by done. apply scan_loop; [done|llia].
Qed.

Lemma envmatch_run n k v A B i :
  name_ok n -> name_ok k -> i = len A ->
  envmatch (n ++ [0]) i (A ++ text (k, v) ++ 0 :: B)
  = Ok (if decide (k = n) then len A + len k + 1 else -1, A ++ text (k, v) ++ 0 :: B).
Proof.
  intros Hn. revert k A i. induction Hn as [|c n [Hc0 HcE] Hn IH]; intros k A i Hk ->.
  - destruct Hk as [|c' k [H0 HE] Hk]; simpl; run_peek.
    + by rewrite Z.add_0_r.
    + destruct (Z.eqb_spec 0 c'); [done|]. simpl. apply Z.eqb_neq in HE. by rewrite HE.
  - destruct Hk as [|c' k [H0 HE] Hk]; simpl; run_peek.
    + apply Z.eqb_neq in HcE, Hc0. by rewrite HcE, Hc0.
    + destruct (Z.eqb_spec c c') as [<-|Hcc].
      * apply Z.eqb_neq in HcE. rewrite HcE, (shift1 A c).
        pose proof (IH k (A ++ [c]) (len A + 1) Hk ltac:(llia)) as H1.
        unfold text in H1. simpl in H1. rewrite H1.
        do 2 f_equal. destruct (decide (k = n)) as [->|].
        -- rewrite decide_True by done. llia.
        -- rewrite decide_False by congruence. done.
      * apply Z.eqb_neq in Hc0. rewrite Hc0, decide_False by congruence. done.
Qed.

Lemma find_body_run n k v A B nx :
  name_ok n -> var_ok (k, v) ->
  find_body n (len A, nx, -1) (A ++ text (k, v) ++ 0 :: B)
  = Ok (if decide (k = n) then inr (len A, Some (len A + len (text (k, v))), len A + len n + 1)
        else inl (len (A ++ text (k, v) ++ [0]), Some (len A + len (text (k, v))), -1),
        A ++ text (k, v) ++ 0 :: B).
Proof.
  intros Hn Hx. unfold find_body. destruct (text_cons (k, v)) as (c & t & Ht & Hc).
  erewrite bind_ok; cycle 1.
  { rewrite Ht. simpl. by apply peek_app. }
  specialize (Hc Hx). apply Z.eqb_neq in Hc. rewrite Hc.
  change (A ++ c :: t ++ 0 :: B) with (A ++ (c :: t) ++ 0 :: B). rewrite <- Ht.
  erewrite bind_ok by (apply scan_nul_run; [by apply text_val_ok|done]).
  erewrite bind_ok by (apply envmatch_run; [done|apply Hx|done]).
  destruct (decide (k = n)) as [->|].
  - destruct (Z.leb_spec 0 (len A + len n + 1)); [done|lia].
  - replace (len (A ++ text (k, v) ++ [0])) with (len A + len (text (k, v)) + 1) by llia. done.
Qed.

Lemma flat_cons_app x E A R :
  A ++ flat (x :: E) ++ 0 :: R = A ++ text x ++ 0 :: flat E ++ 0 :: R.
Proof. by rewrite flat_cons, <- app_assoc. Qed.

Lemma find_loop_absent n E fuel A R nx :
  name_ok n -> Forall var_ok E -> lookup_var n E = None -> (length E < fuel)%nat ->
  exists nx', loop fuel (find_body n) (len A, nx, -1) (A ++ flat E ++ 0 :: R)
  = Ok ((len A + len (flat E), nx', -1), A ++ flat E ++ 0 :: R).
Proof.
  intros Hn HE. revert fuel A nx.
  induction HE as [|[k v] E Hx HE IH]; intros [|fuel] A nx Hl Hf; simpl in Hf; try lia.
  - exists nx. erewrite loop_exit; [|unfold find_body; run_peek; done].
    simpl. by rewrite Z.add_0_r.
  - simpl in Hl. case_decide as Hk; [done|]. rewrite flat_cons, <- app_assoc. simpl.
    destruct (IH fuel (A ++ text (k, v) ++ [0]) (Some (len A + len (text (k, v)))) Hl ltac:(lia))
      as [nx' Hnx]. exists nx'. erewrite loop_next; cycle 1.
    { rewrite find_body_run, decide_False by done. done. }
    rewrite <- !app_assoc in Hnx. simpl in Hnx. rewrite Hnx. do 3 f_equal. f_equal. llia.
Qed.

Lemma find_loop_present n v E1 E2 fuel A R nx :
  name_ok n -> Forall var_ok (E1 ++ (n, v) :: E2) -> lookup_var n E1 = None ->
  (length E1 < fuel)%nat ->
  loop fuel (find_body n) (len A, nx, -1) (A ++ flat (E1 ++ (n, v) :: E2) ++ 0 :: R)
  = Ok ((len A + len (flat E1), Some (len A + len (flat E1) + len (text (n, v))),
         len A + len (flat E1) + len n + 1), A ++ flat (E1 ++ (n, v) :: E2) ++ 0 :: R).
Proof.
  intros Hn. revert fuel A nx.
  induction E1 as [|[k w] E1 IH]; intros [|fuel] A nx HE Hl Hf; simpl in Hf; try lia;
    apply Forall_cons in HE as [Hx HE]; cbn [app]; rewrite flat_cons_app.
  - erewrite loop_exit; cycle 1.
    { rewrite find_body_run, decide_True by done. done. }
    cbn [flat map concat]. by rewrite len_nil, !Z.add_0_r.
  - simpl in Hl. case_decide as Hk; [done|]. erewrite loop_next; cycle 1.
    { rewrite find_body_run, decide_False by done. done. }
    pose proof (IH fuel (A ++ text (k, w) ++ [0]) (Some (len A + len (text (k, w)))) HE Hl ltac:(lia)) as H1.
    rewrite <- !app_assoc in H1. simpl in H1. rewrite H1.
    assert (len (flat ((k, w) :: E1)) = len (text (k, w)) + 1 + len (flat E1)) as ->
      by (rewrite flat_cons; llia).
    do 3 f_equal; [f_equal; [|f_equal]|]; llia.
Qed.

Lemma flat_length E : (length E <= length (flat E))%nat.
Proof.
  induction E as [|x E IH]; [simpl; lia|]. rewrite flat_cons, length_app. simpl. lia.
Qed.

Lemma find_var_absent n E R :
  name_ok n -> Forall var_ok E -> lookup_var n E = None ->
  exists nx, find_var n (flat E ++ 0 :: R) = Ok ((len (flat E), nx, -1), flat E ++ 0 :: R).
Proof.
  intros Hn HE Hl. pose proof (flat_length E).
  destruct (find_loop_absent n E (S (length (flat E ++ 0 :: R))) [] R None Hn HE Hl) as [nx Hx];
    [rewrite length_app; simpl; lia|].
  exists nx. unfold find_var. erewrite bind_ok by done. exact Hx.
Qed.

Lemma find_var_present n v E1 E2 R :
  name_ok n -> Forall var_ok (E1 ++ (n, v) :: E2) -> lookup_var n E1 = None ->
  find_var n (flat (E1 ++ (n, v) :: E2) ++ 0 :: R)
  = Ok ((len (flat E1), Some (len (flat E1) + len (text (n, v))), len (flat E1) + len n + 1),
        flat (E1 ++ (n, v) :: E2) ++ 0 :: R).
Proof.
  intros Hn HE Hl. pose proof (flat_length E1).
  unfold find_var. erewrite bind_ok by done.
  apply (find_loop_present n v E1 E2 _ [] R None Hn HE Hl).
  rewrite flat_app, !length_app. lia.
Qed.

(** *** Deleting a string: the text behind it moves down over a gap *)

Lemma move_char fuel A x X c Y :
  c <> 0 ->
  loop (S fuel) move_body (len A, len A + len (x :: X)) (A ++ x :: X ++ c :: Y)
  = loop fuel move_body (len (A ++ [c]), len (A ++ [c]) + len (X ++ [c]))
      ((A ++ [c]) ++ (X ++ [c]) ++ Y).
Proof.
  intros Hc. erewrite loop_next; cycle 1.
  { unfold move_body. replace (A ++ x :: X ++ c :: Y) with ((A ++ x :: X) ++ c :: Y)
      by (by rewrite <- app_assoc).
    run_peek. rewrite <- app_assoc. simpl. run_poke.
    apply Z.eqb_neq in Hc. rewrite Hc. done. }
  rewrite <- !app_assoc. simpl. do 2 f_equal; llia.
Qed.

Lemma move_text e fuel A X Y :
  val_ok e -> X <> [] ->
  exists G, length G = length X /\
  loop (length e + fuel) move_body (len A, len A + len X) (A ++ X ++ e ++ Y)
  = loop fuel move_body (len (A ++ e), len (A ++ e) + len G) ((A ++ e) ++ G ++ Y).
Proof.
  intros He. revert A X. induction He as [|c e Hc He IH]; intros A X HX.
  - exists X. by rewrite app_nil_r.
  - destruct X as [|x X]; [done|]. simpl plus.
    destruct (IH (A ++ [c]) (X ++ [c])) as (G & HG & Heq); [by destruct X|].
    exists G. split; [rewrite HG, length_app; simpl; lia|].
    rewrite <- app_comm_cons, <- app_comm_cons, move_char by done.
    rewrite Heq. rewrite <- (shift1 A c e). done.
Qed.

Lemma move_nul fuel A x X c Y :
  loop (S fuel) move_body (len A, len A + len (x :: X)) (A ++ x :: X ++ 0 :: c :: Y)
  = if c =? 0 then Ok (len A, A ++ 0 :: X ++ 0 :: c :: Y)
    else loop fuel move_body (len (A ++ [0]), len (A ++ [0]) + len (X ++ [0]))
           ((A ++ [0]) ++ (X ++ [0]) ++ c :: Y).
Proof.
  assert (move_body (len A, len A + len (x :: X)) (A ++ x :: X ++ 0 :: c :: Y)
    = Ok (if c =? 0 then inr (len A) else inl (len A + 1, len A + len (x :: X) + 1),
          A ++ 0 :: X ++ 0 :: c :: Y)) as H.
  { unfold move_body. replace (A ++ x :: X ++ 0 :: c :: Y) with ((A ++ x :: X) ++ 0 :: c :: Y)
      by (by rewrite <- app_assoc).
    run_peek. rewrite <- app_assoc. simpl. run_poke.
    replace (A ++ 0 :: X ++ 0 :: c :: Y) with ((A ++ 0 :: X ++ [0]) ++ c :: Y)
      by (by rewrite <- !app_assoc, app_comm_cons, <- app_assoc).
    run_peek. done. }
  destruct (c =? 0).
  - by erewrite loop_exit by exact H.
  - erewrite loop_next by exact H. rewrite <- !app_assoc. simpl. do 2 f_equal; llia.
Qed.

Lemma move_flat E fuel A X R :
  Forall var_ok E -> E <> [] -> X <> [] -> (length (flat E) <= fuel)%nat ->
  exists G, length G = length X /\
  loop fuel move_body (len A, len A + len X) (A ++ X ++ flat E ++ 0 :: R)
  = Ok (len A + len (flat E) - 1, A ++ flat E ++ G ++ 0 :: R).
Proof.
  intros HE. revert fuel A X. induction HE as [|x E Hx HE IH]; intros fuel A X HE0 HX Hf; [done|].
  rewrite flat_cons, length_app in Hf. simpl in Hf.
  replace fuel with (length (text x) + S (fuel - length (text x) - 1))%nat by lia.
  rewrite flat_cons, <- app_assoc.
  destruct (move_text (text x) (S (fuel - length (text x) - 1)) A X ((0 :: flat E) ++ 0 :: R))
    as (G & HG & ->); [by apply text_val_ok|done|].
  destruct G as [|g G]; [by destruct X|]. simpl app at 1.
  destruct (flat_head E R) as (c & t & Hct & Hc). specialize (Hc HE).
  simpl app. rewrite Hct, move_nul.
  destruct (Z.eqb_spec c 0) as [->|Hc0].
  - apply proj1 in Hc. specialize (Hc eq_refl). subst E. simpl in Hct. simplify_eq.
    exists (G ++ [0]). split; [rewrite <- HG, length_app; simpl; lia|].
    rewrite <- !app_assoc. simpl. do 2 f_equal. change (flat []) with (@nil Z). llia.
  - rewrite <- Hct.
    destruct (IH (fuel - length (text x) - 1)%nat ((A ++ text x) ++ [0]) (G ++ [0])) as (G' & HG' & Heq).
    + intros ->. by apply Hc0, Hc.
    + by destruct G.
    + lia.
    + exists G'. split; [rewrite HG', <- HG, length_app; simpl; lia|].
      rewrite Heq. rewrite <- !app_assoc. simpl. do 2 f_equal. llia.
Qed.

Lemma delete_last x E1 R :
  exists R', delete_var (len (flat E1)) (len (flat E1) + len (text x))
               (flat E1 ++ text x ++ 0 :: 0 :: R) = Ok (tt, flat E1 ++ 0 :: R') /\
    (E1 = [] -> exists j, R' = 0 :: j).
Proof.
  unfold delete_var. destruct (text_cons x) as (c & t & -> & _).
  erewrite bind_ok; cycle 1.
  { replace (flat E1 ++ (c :: t) ++ 0 :: 0 :: R) with ((flat E1 ++ (c :: t) ++ [0]) ++ 0 :: R)
      by (by rewrite <- !app_assoc).
    apply peek_app. llia. }
  rewrite Z.eqb_refl, <- !app_assoc. simpl.
  destruct (Z.ltb_spec 0 (len (flat E1))) as [Hl|Hl].
  - erewrite bind_ok by done. exists (t ++ 0 :: 0 :: R). split.
    + apply poke_app. lia.
    + by intros ->.
  - destruct (flat E1) as [|] eqn:HE; [|simpl in Hl; lia]. simpl.
    assert (exists h r, t ++ 0 :: 0 :: R = h :: r) as (h & r & Hr) by (destruct t; simpl; eauto).
    rewrite Hr. exists (0 :: r). split; [|eauto]. done.
Qed.

Lemma delete_middle x E1 E2 R :
  Forall var_ok E2 -> E2 <> [] ->
  exists R', delete_var (len (flat E1)) (len (flat E1) + len (text x))
               (flat E1 ++ text x ++ 0 :: flat E2 ++ 0 :: R)
             = Ok (tt, flat E1 ++ flat E2 ++ 0 :: R').
Proof.
  intros HE2 Hne. unfold delete_var. set (d := flat E1 ++ _).
  assert (d = flat E1 ++ (text x ++ [0]) ++ flat E2 ++ 0 :: R) as Hd
    by (by rewrite <- app_assoc).
  destruct (flat_head E2 R) as (c & t & Hct & Hc). specialize (Hc HE2).
  erewrite bind_ok; cycle 1.
  { replace d with ((flat E1 ++ text x ++ [0]) ++ c :: t) by (rewrite Hd, Hct; by rewrite <- !app_assoc).
    apply peek_app. llia. }
  replace ((flat E1 ++ text x ++ [0]) ++ c :: t) with d by (rewrite Hd, Hct; by rewrite <- !app_assoc).
  destruct (Z.eqb_spec c 0) as [Hc0|_]; [by destruct Hne; apply Hc|].
  destruct (move_flat E2 (S (length d)) (flat E1) (text x ++ [0]) R) as (G & HG & Hm);
    [done..|by destruct (text x)|rewrite Hd, !length_app; lia|].
  rewrite len_app, <- Hd, Z.add_assoc in Hm.
  destruct G as [|g G]; [by destruct (text x)|]. simpl in Hm.
  exists (G ++ 0 :: R). erewrite bind_ok; [|erewrite bind_ok by done; exact Hm].
  rewrite app_assoc. rewrite app_assoc. apply poke_app. llia.
Qed.

Lemma delete_run n v E1 E2 R :
  Forall var_ok (E1 ++ (n, v) :: E2) ->
  exists R', delete_var (len (flat E1)) (len (flat E1) + len (text (n, v)))
               (flat (E1 ++ (n, v) :: E2) ++ 0 :: R) = Ok (tt, flat (E1 ++ E2) ++ 0 :: R') /\
    (E1 ++ E2 = [] -> exists j, R' = 0 :: j).
Proof.
  intros [HE1 [Hx HE2]%Forall_cons]%Forall_app.
  rewrite !flat_app, <- !app_assoc, flat_cons_app.
  destruct E2 as [|y E2].
  - rewrite !app_nil_r. apply delete_last.
  - destruct (delete_middle (n, v) E1 (y :: E2) R HE2) as [R' ->]; [done|].
    exists R'. split; [by rewrite <- app_assoc|]. by destruct E1.
Qed.

(** *** Appending a string *)

Lemma end_text e fuel A Y :
  val_ok e ->
  loop (length e + fuel) end_body (len A) (A ++ e ++ Y)
  = loop fuel end_body (len (A ++ e)) ((A ++ e) ++ Y).
Proof.
  intros He. revert A. induction He as [|c e Hc He IH]; intros A.
  - by rewrite app_nil_r.
  - simpl plus. erewrite loop_next; cycle 1.
    { unfold end_body. simpl. run_peek. apply Z.eqb_neq in Hc. rewrite Hc. done. }
    replace (len A + 1) with (len (A ++ [c])) by llia.
    rewrite (shift1 A c (e ++ Y)), IH, <- (shift1 A c e). done.
Qed.

Lemma end_nul fuel A c Y :
  loop (S fuel) end_body (len A) (A ++ 0 :: c :: Y)
  = if c =? 0 then Ok (len A, A ++ 0 :: c :: Y)
    else loop fuel end_body (len (A ++ [0])) ((A ++ [0]) ++ c :: Y).
Proof.
  assert (end_body (len A) (A ++ 0 :: c :: Y)
    = Ok (if c =? 0 then inr (len A) else inl (len A + 1), A ++ 0 :: c :: Y)) as H.
  { unfold end_body. run_peek. rewrite Z.eqb_refl, (shift1 A 0 (c :: Y)).
    run_peek. done. }
  destruct (c =? 0).
  - by erewrite loop_exit by exact H.
  - erewrite loop_next by exact H. rewrite (shift1 A 0 (c :: Y)). f_equal. llia.
Qed.

Lemma end_flat E fuel A R :
  Forall var_ok E -> E <> [] -> (length (flat E) <= fuel)%nat ->
  loop fuel end_body (len A) (A ++ flat E ++ 0 :: R)
  = Ok (len A + len (flat E) - 1, A ++ flat E ++ 0 :: R).
Proof.
  intros HE. revert fuel A. induction HE as [|x E Hx HE IH]; intros fuel A HE0 Hf; [done|].
  rewrite flat_cons, length_app in Hf. simpl in Hf.
  replace fuel with (length (text x) + S (fuel - length (text x) - 1))%nat by lia.
  rewrite flat_cons_app, end_text by (by apply text_val_ok).
  destruct (flat_head E R) as (c & t & Hct & Hc). specialize (Hc HE).
  rewrite Hct, end_nul. destruct (Z.eqb_spec c 0) as [Hc0|Hc0].
  - apply Hc in Hc0 as ->. rewrite <- Hct, flat_cons, <- app_assoc.
    change (flat []) with (@nil Z). do 2 f_equal. llia.
  - rewrite <- Hct, IH; [|intros ->; by apply Hc0, Hc|lia].
    rewrite <- !app_assoc, flat_cons. do 2 f_equal. llia.
Qed.

Lemma append_at_run E R :
  Forall var_ok E -> (E = [] -> exists j, R = 0 :: j) ->
  append_at (flat E ++ 0 :: R) = Ok (len (flat E), flat E ++ 0 :: R).
Proof.
  intros HE HR. unfold append_at. erewrite bind_ok by done.
  destruct (decide (E = [])) as [->|Hne].
  - destruct HR as [j ->]; [done|]. done.
  - erewrite bind_ok; cycle 1.
    { apply (end_flat E _ [] R HE Hne). rewrite length_app. lia. }
    simpl. assert (2 <= len (flat E)).
    { destruct E as [|x E]; [done|]. rewrite flat_cons.
      destruct (text_cons x) as (c & t & -> & _). llia. }
    unfold mret, M_ret. case_bool; [|lia]. do 2 f_equal. lia.
Qed.

(** Writing [s] and its NUL over the same number of bytes. *)
Lemma put_str_run s A B C :
  length B = S (length s) ->
  put_str (len A) s (A ++ B ++ C) = Ok (len (A ++ s), (A ++ s) ++ 0 :: C).
Proof.
  revert A B. induction s as [|c s IH]; intros A B HB; destruct B as [|b B]; simpl in HB; try lia.
  - destruct B; [|simpl in HB; lia]. simpl. run_poke. by rewrite app_nil_r.
  - simpl. run_poke. replace (len A + 1) with (len (A ++ [c])) by llia.
    rewrite (shift1 A c (B ++ C)), IH by lia. by rewrite <- (shift1 A c s).
Qed.

Lemma append_run n v A B C :
  length B = (length n + length v + 3)%nat ->
  append_var (len A) n v (A ++ B ++ C) = Ok (tt, A ++ text (n, v) ++ 0 :: 0 :: C).
Proof.
  intros HB. unfold append_var.
  assert (exists B1 B2 b, B = B1 ++ B2 ++ [b] /\ length B1 = S (length n)
    /\ length B2 = S (length v)) as (B1 & B2 & b & -> & H1 & H2).
  { exists (take (S (length n)) B), (take (S (length v)) (drop (S (length n)) B)).
    destruct (drop (S (length v)) (drop (S (length n)) B)) as [|b l] eqn:Hd.
    - apply (f_equal length) in Hd. rewrite !length_drop in Hd. simpl in Hd. lia.
    - assert (l = []) as ->.
      { apply (f_equal length) in Hd. rewrite !length_drop in Hd. destruct l; simpl in *; [done|lia]. }
      exists b. rewrite <- Hd, !take_drop, !length_take, length_drop. split_and!; [done|lia..]. }
  rewrite <- !app_assoc. erewrite bind_ok by (by apply put_str_run).
  run_poke. rewrite (shift1 (A ++ n) EQ).
  replace (len (A ++ n) + 1) with (len ((A ++ n) ++ [EQ])) by llia. erewrite bind_ok by (by apply put_str_run).
  rewrite (shift1 _ 0 ([b] ++ C)). simpl. rewrite poke_app by llia.
  unfold text. by rewrite <- !app_assoc.
Qed.

(** *** No loop changes the length of the array *)

Definition keeps_len {A} (m : M (list Z) A) : Prop :=
  forall d a d', m d = Ok (a, d') -> length d' = length d.

Lemma keeps_ret {A} (a : A) : keeps_len (mret a).
Proof. by intros d b d' [= _ <-]. Qed.
Lemma keeps_fail {A} f : keeps_len (A := A) (fail_with f).
Proof. by intros d b d' [=]. Qed.
Lemma keeps_get : keeps_len get.
Proof. by intros d b d' [= _ <-]. Qed.
Lemma keeps_peek i : keeps_len (peek i).
Proof. intros d b d'. unfold peek. destruct (at_ d i); by intros [= _ <-]. Qed.
Lemma keeps_poke i v : keeps_len (poke i v).
Proof.
  intros d b d'. unfold poke. destruct (at_ d i); [|done]. intros [= _ <-]. apply length_insert.
Qed.
Lemma keeps_bind {A B} (m : M (list Z) A) (k : A -> M (list Z) B) :
  keeps_len m -> (forall a, keeps_len (k a)) -> keeps_len (mbind k m).
Proof.
  intros Hm Hk d b d' (a & d1 & H1 & H2)%bind_inv.
  by rewrite (Hk _ _ _ _ H2), (Hm _ _ _ H1).
Qed.
Lemma keeps_loop {A R} fuel (body : A -> M (list Z) (A + R)) a :
  (forall a, keeps_len (body a)) -> keeps_len (loop fuel body a).
Proof.
  intros Hb. revert a. induction fuel as [|n IH]; intros a; [apply keeps_fail|].
  apply (keeps_bind (body a)); [apply Hb|]. intros [a'|r]; [apply IH|apply keeps_ret].
Qed.
Lemma keeps_initialised {A} (o : option A) : keeps_len (initialised o).
Proof. destruct o; [apply keeps_ret|apply keeps_fail]. Qed.

Create HintDb keeps.
#[export] Hint Resolve keeps_ret keeps_fail keeps_get keeps_peek keeps_poke
  keeps_initialised : keeps.

(** Walk through a computation; the leaves are hints. *)
Ltac keeps_walk :=
  repeat match goal with
  | |- keeps_len (match ?x with _ => _ end) => destruct x
  | |- keeps_len (mbind _ _) => apply keeps_bind; [|intros ?]
  | |- keeps_len (loop _ _ _) => apply keeps_loop; intros ?
  | |- keeps_len _ => solve [auto with keeps]
  end.

Lemma keeps_envmatch s i : keeps_len (envmatch s i).
Proof. revert i. induction s as [|c s IH]; intros i; simpl; keeps_walk; apply IH. Qed.
Lemma keeps_put_str s i : keeps_len (put_str i s).
Proof. revert i. induction s as [|c s IH]; intros i; simpl; keeps_walk; apply IH. Qed.
#[export] Hint Resolve keeps_envmatch keeps_put_str : keeps.

Lemma keeps_edit size n v : keeps_len (edit_data size n v).
Proof.
  unfold edit_data, find_var, find_body, scan_nul, baudrate_ok, delete_var, move_body,
    append_at, end_body, append_var.
  keeps_walk.
Qed.

(** *** The whole edit *)

(** The test on the baud rate passes. *)
Definition baud_free (n : list Z) (v : option (list Z)) (E : env_list) : Prop :=
  lookup_var n E = None \/ n <> bytes "baudrate" \/
  exists s, v = Some s /\ In (s32 (simple_strtoul10 s)) baudrate_table.

Lemma baudrate_ok_free n v E w d :
  baud_free n v E -> lookup_var n E = Some w -> baudrate_ok n v d = Ok (true, d).
Proof.
  intros Hb Hl. unfold baudrate_ok. destruct Hb as [?|[Hn|(s & -> & Hs)]]; [congruence| |].
  - by rewrite bool_decide_false by done.
  - case_bool_decide; [|done]. erewrite bind_ok by done. unfold mret, M_ret.
    assert (existsb (Z.eqb (s32 (simple_strtoul10 s))) baudrate_table = true) as ->; [|done].
    apply existsb_exists. eexists. split; [done|]. apply Z.eqb_refl.
Qed.

(** The last part of [edit_data], after the old definition has gone. *)
Definition edit_tail (size : Z) (n : list Z) (v : option (list Z)) (oldval : Z) :
    M (list Z) (Z + unit) :=
  match v with
  | None | Some [] => mret (if oldval <? 0 then inl 1 else inr tt)
  | Some v =>
      env ← append_at;
      let len := Z.of_nat (length n) + 2 + Z.of_nat (length v) in
      if size - env <? len then mret (inl 1)
      else append_var env n v;; mret (inr tt)
  end.

Lemma edit_split size n v E d :
  Rep d E -> name_ok n -> baud_free n v E ->
  exists d1 o, edit_data size n v d = edit_tail size n v o d1 /\
    Rep d1 (remove_var n E) /\ length d1 = length d /\
    (o < 0 <-> lookup_var n E = None) /\ (lookup_var n E = None -> d1 = d).
Proof.
  intros [HE (R & -> & HR)] Hn Hb. unfold edit_data.
  destruct (lookup_var n E) as [w|] eqn:Hl.
  - destruct (lookup_split _ _ _ Hl) as (E1 & E2 & -> & H1 & ->).
    erewrite bind_ok by (by apply find_var_present). cbv beta iota.
    destruct (Z.leb_spec 0 (len (flat E1) + len n + 1)); [|lia].
    destruct (delete_run n w E1 E2 R HE) as (R' & Hd & HR').
    exists (flat (E1 ++ E2) ++ 0 :: R'). eexists. split_and!.
    + erewrite bind_ok; cycle 1.
      { erewrite bind_ok by (by eapply baudrate_ok_free). cbv beta iota.
        erewrite bind_ok by done. erewrite bind_ok by exact Hd. done. }
      reflexivity.
    + split; [|eauto]. apply Forall_app in HE as [? [? ?]%Forall_cons]. by apply Forall_app.
    + assert (keeps_len (delete_var (len (flat E1)) (len (flat E1) + len (text (n, w))))) as Hk
        by (unfold delete_var, move_body; keeps_walk).
      by apply Hk in Hd.
    + split; [lia|done].
    + done.
  - destruct (find_var_absent n E R Hn HE Hl) as [nx Hf]. erewrite bind_ok by exact Hf.
    exists (flat E ++ 0 :: R), (-1). rewrite (remove_absent _ _ Hl).
    split_and!; [erewrite bind_ok by done; reflexivity| |done|done|done].
    split; [done|]. eauto.
Qed.

(** The number of bytes in use before the closing NUL. *)
Definition used (E : env_list) : Z := len (flat E).

Lemma edit_tail_set size n v o d E :
  Rep d E -> name_ok n -> val_ok v -> v <> [] -> len d <= size ->
  used E + len n + len v + 3 <= len d ->
  exists d', edit_tail size n (Some v) o d = Ok (inr tt, d') /\ Rep d' (E ++ [(n, v)]).
Proof.
  intros [HE (R & -> & HR)] Hn Hv Hne Hs Hu. unfold used in Hu.
  unfold edit_tail. destruct v as [|c v]; [done|].
  erewrite bind_ok by (by apply append_at_run).
  case_bool; [lia|].
  assert (exists B C, 0 :: R = B ++ C /\ length B = (length n + length (c :: v) + 3)%nat)
    as (B & C & HBC & HB).
  { exists (take (length n + length (c :: v) + 3) (0 :: R)), (drop (length n + length (c :: v) + 3) (0 :: R)).
    rewrite take_drop, length_take. split; [done|]. rewrite len_app in Hu. lia. }
  rewrite HBC. erewrite bind_ok by (by apply append_run).
  eexists. split; [done|]. split.
  - apply Forall_app. split; [done|]. by apply Forall_singleton.
  - exists C. split; [|by destruct E].
    by rewrite flat_app, flat_cons, <- !app_assoc.
Qed.

Lemma remove_ok n E : Forall var_ok E -> Forall var_ok (remove_var n E).
Proof.
  induction 1 as [|[k v] E Hx HE IH]; simpl; [done|]. case_decide; [done|].
  by apply Forall_cons.
Qed.

(** Setting a variable, when the new list fits. *)
Lemma edit_set size n v E d :
  Rep d E -> name_ok n -> val_ok v -> v <> [] -> baud_free n (Some v) E -> len d <= size ->
  used (remove_var n E) + len n + len v + 3 <= len d ->
  exists d', edit_data size n (Some v) d = Ok (inr tt, d') /\ Rep d' (set_var n v E) /\
    length d' = length d.
Proof.
  intros HR Hn Hv Hne Hb Hs Hu.
  destruct (edit_split size n (Some v) E d HR Hn Hb) as (d1 & o & He & HR1 & Hl & _ & _).
  destruct (edit_tail_set size n v o d1 (remove_var n E)) as (d' & Ht & HR'); [done..|lia|lia|].
  exists d'. rewrite He. split_and!; [done|done|].
  apply (keeps_edit size n (Some v) d (inr tt)). by rewrite He.
Qed.

(** Deleting one. *)
Lemma edit_delete size n v E d :
  Rep d E -> name_ok n -> v = None \/ v = Some [] -> baud_free n v E ->
  exists d', edit_data size n v d
    = Ok (match lookup_var n E with Some _ => inr tt | None => inl 1 end, d') /\
    Rep d' (remove_var n E) /\ length d' = length d.
Proof.
  intros HR Hn Hv Hb.
  destruct (edit_split size n v E d HR Hn Hb) as (d1 & o & -> & HR1 & Hl & Ho & _).
  exists d1. split_and!; [|done..].
  assert (edit_tail size n v o d1 = Ok (if o <? 0 then inl 1 else inr tt, d1)) as ->
    by (by destruct Hv as [-> | ->]).
  do 2 f_equal. destruct (lookup_var n E); case_bool; try done.
  - by pose proof (proj1 Ho ltac:(lia)).
  - pose proof (proj2 Ho eq_refl). lia.
Qed.

(** The test for room fails: the old definition has already gone. *)
Lemma edit_full size n v E d :
  Rep d E -> name_ok n -> v <> [] -> baud_free n (Some v) E ->
  size - used (remove_var n E) < len n + 2 + len v ->
  exists d', edit_data size n (Some v) d = Ok (inl 1, d') /\ Rep d' (remove_var n E) /\
    length d' = length d.
Proof.
  intros HR Hn Hne Hb Hs.
  destruct (edit_split size n (Some v) E d HR Hn Hb) as (d1 & o & -> & HR1 & Hl & _ & _).
  exists d1. split_and!; [|done..]. unfold edit_tail. destruct v as [|c v]; [done|].
  destruct HR1 as [HE (R & -> & Hj)]. erewrite bind_ok by (by apply append_at_run).
  unfold used in Hs. case_bool; [done|lia].
Qed.

(** A write past the end of the array. *)
Lemma poke_out i v d : len d <= i -> poke i v d = Fault Undefined.
Proof. intros Hi. unfold poke. rewrite (proj2 (at_None d i)); [done|lia]. Qed.

Lemma poke_undefined i v d f : poke i v d = Fault f -> f = Undefined.
Proof. unfold poke. destruct (at_ d i); by intros [=]. Qed.

Lemma put_str_out s i d :
  0 <= i -> len d <= i + len s -> put_str i s d = Fault Undefined.
Proof.
  revert i d. induction s as [|c s IH]; intros i d Hi Hd; simpl.
  - apply bind_fault, poke_out. rewrite len_nil in Hd. lia.
  - destruct (poke i c d) as [[[] d1]|f] eqn:Hp.
    + erewrite bind_ok by exact Hp. apply keeps_poke in Hp. apply IH; [lia|].
      rewrite Hp. rewrite len_cons in Hd. lia.
    + erewrite bind_fault by exact Hp. by apply poke_undefined in Hp as ->.
Qed.

Lemma put_str_ok_at s i d r d1 :
  put_str i s d = Ok (r, d1) -> r = i + len s /\ length d1 = length d.
Proof.
  intros H. split; [|by apply keeps_put_str in H]. revert i d H.
  induction s as [|c s IH]; intros i d; simpl.
  - intros (u & d2 & _ & [= <- _])%bind_inv. lia.
  - intros (u & d2 & _ & H%IH)%bind_inv. lia.
Qed.

Lemma put_str_undefined s i d f : put_str i s d = Fault f -> f = Undefined.
Proof.
  revert i d. induction s as [|c s IH]; intros i d; simpl; unfold mbind, M_bind.
  - destruct (poke i 0 d) as [[[] d1]|g] eqn:Hp; [done|]. intros [= ->]. by eapply poke_undefined.
  - destruct (poke i c d) as [[[] d1]|g] eqn:Hp; [apply IH|]. intros [= ->]. by eapply poke_undefined.
Qed.

Lemma append_out n v i d :
  0 <= i -> len d < i + len n + len v + 3 -> append_var i n v d = Fault Undefined.
Proof.
  intros Hi Hd. unfold append_var.
  destruct (put_str i n d) as [[r d1]|f] eqn:Hp; cycle 1.
  { erewrite bind_fault by exact Hp. by rewrite (put_str_undefined _ _ _ _ Hp). }
  erewrite bind_ok by exact Hp. apply put_str_ok_at in Hp as [-> Hl1].
  destruct (poke (i + len n) EQ d1) as [[[] d2]|f] eqn:Hp2; cycle 1.
  { erewrite bind_fault by exact Hp2. by apply poke_undefined in Hp2 as ->. }
  erewrite bind_ok by exact Hp2. apply keeps_poke in Hp2.
  destruct (put_str (i + len n + 1) v d2) as [[r d3]|f] eqn:Hp3; cycle 1.
  { erewrite bind_fault by exact Hp3. by rewrite (put_str_undefined _ _ _ _ Hp3). }
  erewrite bind_ok by exact Hp3. apply put_str_ok_at in Hp3 as [-> Hl3].
  apply poke_out. lia.
Qed.

(** The test for room passes, the string and its two NULs do not fit. *)
Lemma edit_out_of_bounds size n v E d :
  Rep d E -> name_ok n -> v <> [] -> baud_free n (Some v) E ->
  len n + 2 + len v <= size - used (remove_var n E) ->
  len d < used (remove_var n E) + len n + len v + 3 ->
  edit_data size n (Some v) d = Fault Undefined.
Proof.
  intros HR Hn Hne Hb Hs Hd.
  destruct (edit_split size n (Some v) E d HR Hn Hb) as (d1 & o & -> & HR1 & Hl & _ & _).
  unfold edit_tail. destruct v as [|c v]; [done|].
  destruct HR1 as [HE (R & -> & Hj)]. erewrite bind_ok by (by apply append_at_run).
  unfold used in *. case_bool; [lia|]. apply bind_fault, append_out; lia.
Qed.

(** *** Reading a variable *)

Lemma copy_run v fuel A B P Q T :
  length Q = length v -> (length v < fuel)%nat ->
  loop fuel (copy_body (len A + len v)) (P ++ Q ++ T, len P, len A) (A ++ v ++ B)
  = Ok ((P ++ v ++ T, len P + len v), A ++ v ++ B).
Proof.
  revert fuel A P Q. induction v as [|c v IH]; intros [|fuel] A P [|q Q] HQ Hf;
    simpl in HQ, Hf; try lia.
  - erewrite loop_exit; cycle 1.
    { unfold copy_body. case_bool; [rewrite len_nil in *; lia|done]. }
    by rewrite Z.add_0_r.
  - erewrite loop_next; cycle 1.
    { unfold copy_body. case_bool; [|rewrite len_cons in *; lia]. simpl. run_peek.
      rewrite poke_app by done. done. }
    replace (len P + 1) with (len (P ++ [c])) by llia.
    replace (len A + 1) with (len (A ++ [c])) by llia.
    replace (len A + len (c :: v)) with (len (A ++ [c]) + len v) by llia.
    simpl. rewrite (shift1 A c (v ++ B)), (shift1 P c (Q ++ T)), IH by lia.
    rewrite <- (shift1 P c (v ++ T)). do 3 f_equal. llia.
Qed.

Lemma copy_out v fuel A B W i :
  0 <= i <= len W -> len W < i + len v -> (length v < fuel)%nat ->
  loop fuel (copy_body (len A + len v)) (W, i, len A) (A ++ v ++ B) = Fault Undefined.
Proof.
  revert fuel A W i. induction v as [|c v IH]; intros [|fuel] A W i Hi Hl Hf; simpl in Hf;
    rewrite ?len_nil, ?len_cons in *; try lia.
  destruct (poke i c W) as [[[] W']|f] eqn:Hp.
  - erewrite loop_next; cycle 1.
    { unfold copy_body. case_bool; [|lia]. simpl. run_peek. rewrite Hp. done. }
    destruct (decide (i < len W)); cycle 1.
    { rewrite poke_out in Hp by lia. done. }
    apply keeps_poke in Hp. simpl. rewrite (shift1 A c (v ++ B)).
    replace (len A + 1) with (len (A ++ [c])) by llia.
    replace (len A + (1 + len v)) with (len (A ++ [c]) + len v) by llia.
    apply IH; lia.
  - apply loop_fault. unfold copy_body. case_bool; [|lia]. simpl. run_peek. rewrite Hp.
    by apply poke_undefined in Hp as ->.
Qed.

Lemma len_text n v : len (text (n, v)) = len n + 1 + len v.
Proof. unfold text. simpl. llia. Qed.

Lemma value_at E1 n v E2 R :
  exists B, flat (E1 ++ (n, v) :: E2) ++ 0 :: R = (flat E1 ++ n ++ [EQ]) ++ v ++ B.
Proof.
  exists (0 :: flat E2 ++ 0 :: R). rewrite flat_app, <- app_assoc, flat_cons_app.
  unfold text. by rewrite <- !app_assoc.
Qed.

Lemma get_present n v E d W L :
  Rep d E -> name_ok n -> lookup_var n E = Some v -> len v < len W ->
  get_data n W L d
  = Ok ((v ++ 0 :: drop (S (length v)) W, if L <? len v then len v else L,
         if L <? len v then 1 else 0), d).
Proof.
  intros [HE (R & -> & HR)] Hn Hl HW. unfold get_data.
  destruct (lookup_split _ _ _ Hl) as (E1 & E2 & -> & H1 & _).
  erewrite bind_ok by (by apply find_var_present). cbv beta iota.
  erewrite bind_ok by done.
  destruct (Z.leb_spec 0 (len (flat E1) + len n + 1)); [|lia].
  destruct (value_at E1 n v E2 R) as [B HB].
  assert (exists Q w T, W = Q ++ w :: T /\ length Q = length v) as (Q & w & T & -> & HQ).
  { destruct (lookup_lt_is_Some_2 W (length v)) as [w Hw]; [lia|].
    exists (take (length v) W), w, (drop (S (length v)) W).
    rewrite take_drop_middle, length_take by done. split; [done|lia]. }
  replace (drop (S (length v)) (Q ++ w :: T)) with T
    by (rewrite (shift1 Q w T), drop_app_length'; [done|rewrite length_app; simpl; lia]).
  erewrite bind_ok; cycle 1.
  { erewrite bind_ok by done. rewrite HB.
    replace (len (flat E1) + len (text (n, v)))
      with (len (flat E1 ++ n ++ [EQ]) + len v) by (rewrite len_text; llia).
    replace (len (flat E1) + len n + 1) with (len (flat E1 ++ n ++ [EQ])) by llia.
    apply (copy_run v _ _ B []); [done|rewrite !length_app; lia]. }
  rewrite <- HB. simpl. rewrite poke_app by llia. cbv beta iota.
  case_bool; unfold mret, M_ret.
  - by case_bool; [|lia].
  - case_bool; [lia|]. by case_bool; [lia|].
Qed.

Lemma get_absent n E d w W L :
  Rep d E -> name_ok n -> lookup_var n E = None -> 0 <= L ->
  get_data n (w :: W) L d = Ok ((0 :: W, L, 1), d).
Proof.
  intros [HE (R & -> & HR)] Hn Hl HL. unfold get_data.
  destruct (find_var_absent n E R Hn HE Hl) as [nx Hf]. erewrite bind_ok by exact Hf.
  cbv beta iota. do 2 (erewrite bind_ok by done; cbv beta iota). simpl.
  by case_bool; [lia|].
Qed.

(** The value does not fit in the caller's array. *)
Lemma get_overrun n v E d W L :
  Rep d E -> name_ok n -> lookup_var n E = Some v -> len W <= len v ->
  get_data n W L d = Fault Undefined.
Proof.
  intros [HE (R & -> & HR)] Hn Hl HW. unfold get_data.
  destruct (lookup_split _ _ _ Hl) as (E1 & E2 & -> & H1 & _).
  erewrite bind_ok by (by apply find_var_present). cbv beta iota.
  erewrite bind_ok by done.
  destruct (Z.leb_spec 0 (len (flat E1) + len n + 1)); [|lia].
  destruct (value_at E1 n v E2 R) as [B HB]. rewrite HB.
  replace (len (flat E1) + len (text (n, v)))
    with (len (flat E1 ++ n ++ [EQ]) + len v) by (rewrite len_text; llia).
  replace (len (flat E1) + len n + 1) with (len (flat E1 ++ n ++ [EQ])) by llia.
  destruct (decide (len W = len v)) as [He|He].
  - erewrite bind_ok; cycle 1.
    { erewrite bind_ok by done. rewrite <- (app_nil_r W).
      apply (copy_run v _ _ B [] W []); [lia|rewrite !length_app; lia]. }
    cbv beta iota. rewrite poke_out; [done|]. simpl. rewrite app_nil_r. lia.
  - apply bind_fault. erewrite bind_ok by done.
    apply copy_out; [lia|lia|rewrite !length_app; lia].
Qed.
