(* ===== verification/EnvFlash.v ===== *)
(** * The boot environment: flash copies, start-up and update

    The rest of [drivers/mtd/wmt_env.c]: [env_init] and the two functions that
    read the environment from flash, [env_update], and the exported
    [wmt_getsyspara] and [wmt_setsyspara].

    The flash is reached through the class [FlashOps]: the MTD devices
    ([mtd->read], [->write], [->erase], [->block_isbad] and the registry behind
    [get_mtd_device_nm]) and the three functions of the serial flash driver
    used before MTD is up.  What the environment code relies on is stated by
    [FlashSpec] in [EnvStore].

    The driver's state is the record [est]: [world] holds what is outside the
    file (strap register, flash, allocator, semaphore), [statics] its static
    variables, [env_ptr] the buffer that both [env_ptr] and [env_ptr_nand]
    point to.  [mtd_table] has two entries, and an index outside it is the
    fault [Undefined], as is a null [mtd_info] that is dereferenced.  Every
    state the flash goes through is appended to [flash_log]; the crash theorems
    quantify over it. *)

From Stdlib Require Import Ascii String.
From S2P Require Import Prelude Env.
From stdpp Require Import list strings.
#[local] Open Scope Z_scope.

(** ** The flash below *)

Class FlashOps (F : Type) := {
  get_mtd_device_nm : F -> string -> option nat;
  mtd_index : F -> nat -> Z;
  mtd_size : F -> nat -> Z;
  mtd_erasesize : F -> nat -> Z;
  mtd_block_isbad : F -> nat -> Z -> bool;
  (** error code and the bytes put in the caller's buffer *)
  mtd_read : F -> nat -> Z -> Z -> Z * list Z;
  mtd_write : F -> nat -> Z -> list Z -> Z * F;
  mtd_erase : F -> nat -> Z -> Z -> Z * F;
  (** [ioremap] of the boot flash succeeds; reading through the mapping *)
  ioremap_ok : F -> bool;
  memcpy_fromio : F -> Z -> Z -> list Z;
  spi_flash_sector_erase : F -> Z -> Z * F;
  spi_flash_sector_write : F -> Z -> list Z -> F;
}.

(** ** State *)

Record world F := mkWorld {
  strap : Z;              (** [GPIO_BASE_ADDR + 0x100] *)
  flash : F;
  flash_log : list F;     (** every flash state so far, newest first *)
  kmem : option (list Z); (** what the next [kmalloc] returns *)
  env_lock : Z;           (** count of [s_wmt_env_lock] *)
  signals : list bool;    (** whether the next waits are interrupted *)
}.

Record statics := mkStatics {
  ENV_MAX_SIZE : Z;
  env_valid : Z;
  env_invalid : Z;
  nand_block : Z;
  env_valid_offs : Z;
  env_invalid_offs : Z;
  mtd_init : Z;
  readed : bool;
  mtd_table : list (option nat);
}.

Record est F := mkEst {
  wld : world F;
  env_ptr : option (list Z);
  st : statics;
}.
Arguments mkWorld {F}.
Arguments strap {F}.
Arguments flash {F}.
Arguments flash_log {F}.
Arguments kmem {F}.
Arguments env_lock {F}.
Arguments signals {F}.
Arguments mkEst {F}.
Arguments wld {F}.
Arguments env_ptr {F}.
Arguments st {F}.

Definition NOR_ENV_MAX_SIZE : Z := 64 * 1024.
Definition ENV_INVALID : Z := 0xFF.
Definition NAND_ENV_BLK_LENGTH : Z := 9.
Definition MAX_MTD_DEVICES : Z := 32.
Definition SPI_FLASH_TYPE : Z := 0.
Definition NAND_FLASH_TYPE : Z := 2.
Definition NOR_FLASH_TYPE : Z := 4.
Definition EMMC_FLASH_TYPE : Z := 6.

Definition SF_UBOOT_ENV1 : string := "u-boot env. cfg. 1-SF".
Definition SF_UBOOT_ENV2 : string := "u-boot env. cfg. 2-SF".
Definition NAND_UBOOT_ENV1 : string := "u-boot env. cfg. 1-NAND".
Definition NAND_UBOOT_ENV2 : string := "u-boot env. cfg. 2-NAND".
Definition NOR_UBOOT_ENV1 : string := "u-boot env. cfg. 1-NOR".
Definition NOR_UBOOT_ENV2 : string := "u-boot env. cfg. 2-NOR".
Definition EMMC_UBOOT_ENV1 : string := "u-boot env. cfg. 1-EMMC".
Definition EMMC_UBOOT_ENV2 : string := "u-boot env. cfg. 2-EMMC".

(** [boot_partitions] of [drivers/mtd/devices/wmt_sf.c]: name and offset. *)
Definition boot_partitions : list (string * Z) :=
  [("filesystem-SF", 0x00000000);
   ("kernel-SF", 0x00D00000);
   ("u-boot-SF", 0x00F80000);
   ("u-boot env. cfg. 1-SF", 0x00FD0000);
   ("u-boot env. cfg. 2-SF", 0x00FE0000);
   ("w-load-SF", 0x00FF0000)]%string.

Definition set_size x s := mkStatics x (env_valid s) (env_invalid s) (nand_block s)
  (env_valid_offs s) (env_invalid_offs s) (mtd_init s) (readed s) (mtd_table s).
Definition set_valid x s := mkStatics (ENV_MAX_SIZE s) x (env_invalid s) (nand_block s)
  (env_valid_offs s) (env_invalid_offs s) (mtd_init s) (readed s) (mtd_table s).
Definition set_invalid x s := mkStatics (ENV_MAX_SIZE s) (env_valid s) x (nand_block s)
  (env_valid_offs s) (env_invalid_offs s) (mtd_init s) (readed s) (mtd_table s).
Definition set_nand_block x s := mkStatics (ENV_MAX_SIZE s) (env_valid s) (env_invalid s) x
  (env_valid_offs s) (env_invalid_offs s) (mtd_init s) (readed s) (mtd_table s).
Definition set_valid_offs x s := mkStatics (ENV_MAX_SIZE s) (env_valid s) (env_invalid s)
  (nand_block s) x (env_invalid_offs s) (mtd_init s) (readed s) (mtd_table s).
Definition set_invalid_offs x s := mkStatics (ENV_MAX_SIZE s) (env_valid s) (env_invalid s)
  (nand_block s) (env_valid_offs s) x (mtd_init s) (readed s) (mtd_table s).
Definition set_mtd_init x s := mkStatics (ENV_MAX_SIZE s) (env_valid s) (env_invalid s)
  (nand_block s) (env_valid_offs s) (env_invalid_offs s) x (readed s) (mtd_table s).
Definition set_readed x s := mkStatics (ENV_MAX_SIZE s) (env_valid s) (env_invalid s)
  (nand_block s) (env_valid_offs s) (env_invalid_offs s) (mtd_init s) x (mtd_table s).
Definition set_mtd_table i x s := mkStatics (ENV_MAX_SIZE s) (env_valid s) (env_invalid s)
  (nand_block s) (env_valid_offs s) (env_invalid_offs s) (mtd_init s) (readed s)
  (<[i := x]> (mtd_table s)).

(** The CRC word of a buffer, and storing one (the machine is little-endian). *)
Definition word_of (b : list Z) : Z :=
  match b with
  | b0 :: b1 :: b2 :: b3 :: _ => b0 + 256 * b1 + 65536 * b2 + 16777216 * b3
  | _ => 0
  end.
Definition le32 (x : Z) : list Z :=
  [x mod 256; x / 256 mod 256; x / 65536 mod 256; x / 16777216 mod 256].

(** Overwriting the start of a buffer. *)
Definition overlay (new old : list Z) : list Z := new ++ drop (length new) old.

Section Driver.
Context {F : Type} `{FlashOps F}.

Abbreviation D := (M (est F)).

(** ** Access to the state *)

Definition static {A} (f : statics -> A) : D A := gets (fun s => f (st s)).
Definition assign (f : statics -> statics) : D unit :=
  modify (fun s => mkEst (wld s) (env_ptr s) (f (st s))).
Definition strapping : D Z := gets (fun s => strap (wld s)).
Definition the_flash : D F := gets (fun s => flash (wld s)).
Definition set_flash (f : F) : D unit := modify (fun s =>
  mkEst (mkWorld (strap (wld s)) f (f :: flash_log (wld s)) (kmem (wld s)) (env_lock (wld s))
           (signals (wld s))) (env_ptr s) (st s)).

(** [*env_ptr]; a null pointer is a fault. *)
Definition buffer : D (list Z) := mbind initialised (gets env_ptr).
Definition set_buffer (b : list Z) : D unit := modify (fun s => mkEst (wld s) (Some b) (st s)).

(** [mtd_table[i]]: two entries, each a device or null. *)
Definition mtd_at (i : Z) : D (option nat) :=
  t ← static mtd_table;
  if (0 <=? i) && (i <? 2) then initialised (t !! Z.to_nat i) else fail_with Undefined.

(** The device [mtd_table[i]] points to, dereferenced. *)
Definition mtd_dev (i : Z) : D nat := mbind initialised (mtd_at i).

Definition dev_read (d : nat) (from len : Z) : D Z :=
  f ← the_flash; b ← buffer;
  let '(err, bytes) := mtd_read f d from len in
  set_buffer (overlay bytes b);; mret err.
Definition dev_write (d : nat) (to : Z) (bytes : list Z) : D Z :=
  f ← the_flash;
  let '(err, f') := mtd_write f d to bytes in
  set_flash f';; mret err.
Definition dev_erase (d : nat) (addr len : Z) : D Z :=
  f ← the_flash;
  let '(err, f') := mtd_erase f d addr len in
  set_flash f';; mret err.

(** [env_ptr->crc], [env_ptr->flags]; [data] starts at 5, at 4 in the layout
    of [env_t_nand]. *)
Definition get_crc : D Z := b ← buffer; mret (word_of b).
Definition set_crc (x : Z) : D unit := b ← buffer; set_buffer (overlay (le32 x) b).
Definition get_flags : D Z := b ← buffer; initialised (b !! 4%nat).
Definition set_flags (x : Z) : D unit := b ← buffer; set_buffer (<[4%nat := x]> b).

(** [env_crc32] of the data at [off]. *)
Definition crc_at (off : nat) : D Z :=
  b ← buffer; size ← static ENV_MAX_SIZE; val ← strapping;
  match env_crc32 size val (drop off b) with
  | Ok crc => mret crc
  | Fault f => fail_with f
  end.

Definition is_nand (val : Z) : bool := Z.land val 6 =? 2.
Definition data_off (val : Z) : nat := if is_nand val then 4%nat else 5%nat.

(** Run a computation on the data array inside the buffer. *)
Definition on_data {A} (m : M (list Z) A) : D A :=
  b ← buffer; val ← strapping;
  match m (drop (data_off val) b) with
  | Ok (a, d) => set_buffer (take (data_off val) b ++ d);; mret a
  | Fault f => fail_with f
  end.

(** ** Reading the environment from flash *)

(** One turn of the loop of [read_env_before_mtd_init]; [inr] returns.
    ([wmt_sfc_init], called once before the loop, programs the serial flash
    controller and touches nothing of this state.) *)
Definition read_before_body (uenv : Z * Z) (offset : option Z * option Z) (i : Z) : D (Z + Z) :=
  let env := if i =? 0 then uenv.1 else uenv.2 in
  t0 ← mtd_at 0;
  if negb (bool_decide (is_Some t0)) && negb (env =? ENV_INVALID) then
    f ← the_flash;
    if negb (ioremap_ok f) then mret (inr 1)
    else
      offs ← initialised (if i =? 0 then offset.1 else offset.2);
      size ← static ENV_MAX_SIZE; b ← buffer;
      set_buffer (overlay (memcpy_fromio f offs size) b);;
      flags ← get_flags;
      if flags =? 1 then
        crc32 ← crc_at 5; crc ← get_crc;
        if crc =? crc32 then
          assign (set_valid env);; assign (set_valid_offs offs);;
          (if env =? uenv.1 then
             assign (set_invalid uenv.2);;
             o ← initialised offset.2; assign (set_invalid_offs o)
           else
             assign (set_invalid uenv.1);;
             o ← initialised offset.1; assign (set_invalid_offs o));;
          assign (set_readed true);;
          mret (inr 0)
        else mret (inl (i + 1))
      else mret (inl (i + 1))
  else if negb (bool_decide (is_Some t0)) || (env =? ENV_INVALID) then mret (inr 1)
  else mret (inl (i + 1)).

Definition read_env_before_mtd_init (uenv : Z * Z) (offset : option Z * option Z) : D Z :=
  r ← static readed;
  if (r : bool) then mret 0
  else loop 3 (fun i => if i <? 2 then read_before_body uenv offset i else mret (inr 1)) 0.

Definition read_after_body (i : Z) : D (Z + Z) :=
  d ← mtd_dev i; size ← static ENV_MAX_SIZE;
  err ← dev_read d 0 size;
  if negb (err =? 0) then mret (inr 1)
  else
    crc32 ← crc_at 5; crc ← get_crc;
    if crc =? crc32 then
      flags ← get_flags;
      if flags =? 1 then
        assign (set_valid i);; assign (set_invalid (if i =? 0 then 1 else 0));;
        mret (inr 0)
      else
        (if flags =? 0 then assign (set_invalid i) else mret tt);;
        v ← static env_valid; n ← static env_invalid;
        mret (if negb (v =? 0xFF) && negb (n =? 0xFF) then inr 0 else inl (i + 1))
    else mret (inl (i + 1)).

(** The end of [read_env_after_mtd_init]: no copy is marked valid. *)
Definition read_after_end : D Z :=
  v ← static env_valid; n ← static env_invalid;
  if (v =? 0xFF) && negb (n =? 0xFF) then
    d ← mtd_dev n; size ← static ENV_MAX_SIZE;
    err ← dev_read d 0 size;
    if negb (err =? 0) then mret 1
    else
      (if n =? 0 then assign (set_valid 0);; assign (set_invalid 1)
       else assign (set_valid 1);; assign (set_invalid 0));;
      mret 0
  else mret 1.

(** The loop over the two copies: [Some rc] is a return from inside it. *)
Definition read_after_turn (i : Z) : D (Z + option Z) :=
  if i <? 2 then
    r ← read_after_body i;
    mret (match r with inl i => inl i | inr rc => inr (Some rc) end)
  else mret (inr None).

Definition read_env_after_mtd_init : D Z :=
  assign (set_valid 0xFF);; assign (set_invalid 0xFF);;
  r ← loop 3 read_after_turn 0;
  match r with Some rc => mret rc | None => read_after_end end.

(** ** [env_init] *)

Definition bootflash_of (val : Z) : Z * string * string :=
  if val =? 0 then (SPI_FLASH_TYPE, SF_UBOOT_ENV1, SF_UBOOT_ENV2)
  else if val =? 1 then (NAND_FLASH_TYPE, NAND_UBOOT_ENV1, NAND_UBOOT_ENV2)
  else if val =? 2 then (NOR_FLASH_TYPE, NOR_UBOOT_ENV1, NOR_UBOOT_ENV2)
  else (EMMC_FLASH_TYPE, EMMC_UBOOT_ENV1, EMMC_UBOOT_ENV2).

(** The scan of [boot_partitions] when no MTD device is registered: env1,
    env2, the two offsets and the count. *)
Definition part_state : Type := Z * Z * option Z * option Z * Z.

Definition scan_part (bootflash i : Z) (x : part_state) : ctl part_state unit :=
  let '(env1, env2, o1, o2, count) := x in
  if bootflash =? SPI_FLASH_TYPE then
    match boot_partitions !! Z.to_nat i with
    | None => Goto tt
    | Some (name, offs) =>
        let '(env1, env2, o1, o2, count) :=
          if bool_decide (SF_UBOOT_ENV1 = name) then (i, env2, Some offs, o2, count + 1)
          else if bool_decide (SF_UBOOT_ENV2 = name) then (env1, i, o1, Some offs, count + 1)
          else x in
        if count =? 2 then Break (env1, env2, o1, o2, count)
        else Next (env1, env2, o1, o2, count)
    end
  else Break x.

Definition scan_partitions (bootflash : Z) : D part_state :=
  match for_each (upto 0 MAX_MTD_DEVICES) (scan_part bootflash)
          (ENV_INVALID, ENV_INVALID, None, None, 0) with
  | inl x => mret x
  | inr _ => fail_with Undefined
  end.

(** Filling [mtd_table] from the registered devices; the message that follows
    dereferences both entries. *)
Definition table_entry (i : nat) (name : string) : D Z :=
  f ← the_flash;
  match get_mtd_device_nm f name with
  | Some d =>
      assign (set_mtd_init 1);; assign (set_mtd_table i (Some d));; mret (mtd_index f d)
  | None => mret ENV_INVALID
  end.

Definition fill_table (boot_str1 boot_str2 : string) : D part_state :=
  env1 ← table_entry 0 boot_str1;
  env2 ← table_entry 1 boot_str2;
  _ ← mtd_dev 0; _ ← mtd_dev 1;
  mret (env1, env2, None, None, 0).

(** The search for the block with the environment on NAND, from [next_blk:];
    the loop variable is [(offs, blk_cnt)]. *)
Definition nand_body (dev : nat) (env : Z) (x : Z * Z) : D (Z * Z + Z) :=
  let '(offs, blk_cnt) := x in
  f ← the_flash;
  let es := mtd_erasesize f dev in
  if (offs <? u32 (NAND_ENV_BLK_LENGTH * es)) && mtd_block_isbad f dev offs then
    let blk_cnt := blk_cnt + 1 in
    mret (inl (if blk_cnt =? NAND_ENV_BLK_LENGTH then (offs, blk_cnt)
               else (u32 (offs + es), blk_cnt)))
  else if NAND_ENV_BLK_LENGTH * 2 <=? blk_cnt then mret (inr 1)
  else
    size ← static ENV_MAX_SIZE;
    err ← dev_read dev offs size;
    if negb (err =? 0) then mret (inr 1)
    else
      crc ← get_crc;
      if (crc =? 0xFFFFFFFF) && (blk_cnt <? NAND_ENV_BLK_LENGTH) then
        let blk_cnt := blk_cnt + 1 in
        mret (inl (if blk_cnt =? NAND_ENV_BLK_LENGTH then 0 else u32 (offs + es), blk_cnt))
      else
        crc32 ← crc_at 4;
        if crc =? crc32 then
          assign (set_valid env);;
          assign (set_nand_block (blk_cnt mod NAND_ENV_BLK_LENGTH));;
          mret (inr 0)
        else
          let blk_cnt := blk_cnt + 1 in
          mret (if blk_cnt <? NAND_ENV_BLK_LENGTH * 2 then
                  inl (if blk_cnt =? NAND_ENV_BLK_LENGTH then 0 else u32 (offs + es), blk_cnt)
                else inr 1).

Definition env_init : D Z :=
  val ← strapping;
  let val := Z.land (Z.shiftr val 1) 3 in
  assign (set_size (64 * 1024));;
  let '(bootflash, boot_str1, boot_str2) := bootflash_of val in
  (if val =? 2 then assign (set_size NOR_ENV_MAX_SIZE) else mret tt);;
  f ← the_flash;
  '(env1, env2, o1, o2, _) ←
    match get_mtd_device_nm f boot_str1 with
    | None => scan_partitions bootflash
    | Some _ => fill_table boot_str1 boot_str2
    end;
  t0 ← mtd_at 0;
  if bootflash =? NAND_FLASH_TYPE then
    match t0 with
    | None => mret 1
    | Some dev =>
        if env1 =? ENV_INVALID then mret 1
        else loop 64 (nand_body dev env1) (0, 0)
    end
  else if (bootflash =? SPI_FLASH_TYPE) || (bootflash =? NOR_FLASH_TYPE) then
    match t0 with
    | None => read_env_before_mtd_init (env1, env2) (o1, o2)
    | Some _ => read_env_after_mtd_init
    end
  else mret 1.

(** ** [env_update] *)

(** The bytes handed to a write of [ENV_MAX_SIZE] bytes. *)
Definition env_image : D (list Z) :=
  b ← buffer; size ← static ENV_MAX_SIZE; mret (take (Z.to_nat size) b).

(** The search for a good block behind the current one; the loop variable is
    [(offs, chk_offs, block_offs[0])], the last [Some] once [i] is 1. *)
Definition block_body (dev : nat) (x : Z * Z * option Z) :
    D (Z * Z * option Z + Z * Z * option Z) :=
  let '(offs, chk_offs, block) := x in
  f ← the_flash;
  let es := mtd_erasesize f dev in
  let size := mtd_size f dev in
  if (chk_offs <? size) && negb (bool_decide (is_Some block)) then
    let next := if size <=? offs + es then 0 else offs + es in
    mret (inl (next, u32 (chk_offs + es),
               if mtd_block_isbad f dev offs then None else Some (u32 offs)))
  else mret (inr x).

Definition env_update_nand : D Z :=
  orig_block ← static nand_block; env_valid ← static env_valid;
  dev ← mtd_dev env_valid;
  f ← the_flash;
  let es := mtd_erasesize f dev in
  let size := mtd_size f dev in
  let offs := u32 ((orig_block + 1) * es) in
  let offs := if size <=? offs then 0 else offs in
  '(_, chk_offs, block) ←
    loop (S (S (S (Z.to_nat (size / es))))) (block_body dev) (offs, 0, None);
  match block with
  | None => mret 1
  | Some block =>
      if size <=? chk_offs then mret 1
      else
        err ← dev_erase dev block es;
        if negb (err =? 0) then mret 1
        else
          image ← env_image;
          err ← dev_write dev block image;
          if negb (err =? 0) then mret 1
          else
            assign (set_nand_block (block / es));;
            err ← dev_erase dev (u32 (orig_block * es)) es;
            mret (if negb (err =? 0) then 1 else 0)
  end.

(** Erasing the copy that is not in use. *)
Definition erase_invalid (bootflash : Z) : D Z :=
  inv ← static env_invalid; t ← mtd_at inv;
  if negb (bool_decide (is_Some t)) && negb (inv =? ENV_INVALID) then
    f ← the_flash;
    if negb (ioremap_ok f) then mret 1
    else if bootflash =? SPI_FLASH_TYPE then
      offs ← static env_invalid_offs;
      let '(ret, f') := spi_flash_sector_erase f offs in
      set_flash f';; mret (if negb (ret =? 0) then 1 else 0)
    else mret 0
  else
    d ← initialised t; f ← the_flash;
    err ← dev_erase d 0 (mtd_size f d);
    mret (if negb (err =? 0) then 1 else 0).

(** Writing the new copy and then marking the old one obsolete. *)
Definition write_copies (bootflash : Z) : D Z :=
  inv ← static env_invalid; t ← mtd_at inv;
  if negb (bool_decide (is_Some t)) && (bootflash =? SPI_FLASH_TYPE)
     && negb (inv =? ENV_INVALID) then
    f ← the_flash; image ← env_image;
    offs ← static env_invalid_offs; voffs ← static env_valid_offs;
    set_flash (spi_flash_sector_write f offs image);;
    f ← the_flash;
    set_flash (spi_flash_sector_write f (voffs + 4) [0]);;
    mret 0
  else
    flags ← get_flags;
    (if flags =? 0 then set_flags 1 else mret tt);;
    d ← initialised t; image ← env_image;
    err ← dev_write d 0 image;
    if negb (err =? 0) then mret 1
    else
      v ← static env_valid; dv ← mtd_dev v;
      err ← dev_write dv 4 [0];
      mret (if negb (err =? 0) then 1 else 0).

Definition swap_copies : D unit :=
  v ← static env_valid; i ← static env_invalid;
  vo ← static env_valid_offs; io ← static env_invalid_offs;
  assign (set_valid i);; assign (set_invalid v);;
  assign (set_valid_offs io);; assign (set_invalid_offs vo).

Definition env_update : D Z :=
  val ← strapping;
  let val := Z.land (Z.shiftr val 1) 3 in
  let bootflash := if val =? 0 then SPI_FLASH_TYPE else if val =? 1 then NAND_FLASH_TYPE
                   else if val =? 2 then NOR_FLASH_TYPE else SPI_FLASH_TYPE in
  crc ← crc_at (if bootflash =? NAND_FLASH_TYPE then 4 else 5);
  set_crc crc;;
  inv ← static env_invalid; _ ← mtd_at inv;
  if bootflash =? NAND_FLASH_TYPE then env_update_nand
  else
    rc ← erase_invalid bootflash;
    if negb (rc =? 0) then mret 1
    else
      rc ← write_copies bootflash;
      if negb (rc =? 0) then mret 1
      else swap_copies;; mret 0.

(** ** The exported functions *)

(** [down_interruptible]: 0 with the semaphore taken, or [-EINTR]; waiting for
    a semaphore nobody releases is [Hang]. *)
Definition down_interruptible : D Z := fun s =>
  let x := wld s in
  let set n sg := mkEst (mkWorld (strap x) (flash x) (flash_log x) (kmem x) n sg) (env_ptr s) (st s) in
  match signals x with
  | true :: sg => Ok (-4, set (env_lock x) sg)
  | sg => if 0 <? env_lock x then Ok (0, set (env_lock x - 1) (tail sg)) else Fault Hang
  end.

Definition up : D unit := modify (fun s =>
  let x := wld s in
  mkEst (mkWorld (strap x) (flash x) (flash_log x) (kmem x) (env_lock x + 1) (signals x))
    (env_ptr s) (st s)).

(** The common start: a buffer, and the environment in it. *)
Definition prepare : D Z :=
  p ← gets env_ptr; mi ← static mtd_init;
  if bool_decide (p = None) || (mi =? 0) then
    ok ← (match p with
          | Some _ => mret true
          | None =>
              m ← gets (fun s => kmem (wld s));
              match m with
              | None => mret false
              | Some b => set_buffer b;; assign (set_nand_block 0);; mret true
              end
          end);
    if (ok : bool) then rc ← env_init; mret (if rc =? 0 then 0 else 1)
    else mret 1
  else mret 0.

(** [wmt_getsyspara(varname, varval, &varlen)]: the return code, the caller's
    array and the final [*varlen]. *)
Definition wmt_getsyspara (varname varval : list Z) (varlen : Z) : D (Z * list Z * Z) :=
  _ ← down_interruptible;
  rc ← prepare;
  r ← (if rc =? 0 then
         '(varval, varlen, rcode) ← on_data (get_data varname varval varlen);
         mret (rcode, varval, varlen)
       else mret (1, varval, varlen));
  up;; mret r.

Definition wmt_setsyspara (varname : list Z) (varval : option (list Z)) : D Z :=
  _ ← down_interruptible;
  rc ← prepare;
  rcode ← (if rc =? 0 then
             size ← static ENV_MAX_SIZE;
             r ← on_data (edit_data size varname varval);
             match r with
             | inl rcode => mret rcode
             | inr _ => rc ← env_update; mret (if rc =? 0 then 0 else 1)
             end
           else mret 1);
  up;; mret rcode.
End Driver.
