(* ===== verification/EnvStore.v ===== *)
(** * The boot environment: theorems

    What [EnvFlash] does, proved against the class [FlashSpec]: which copy a
    boot takes, what [env_update] leaves on the flash and at which points the
    power may fail, what is read back of a variable that was set, before and
    after a reset, and the calls on which the code leaves its arrays.  That the
    chip carries out its erases and writes is the separate hypothesis
    [flash_works].  The last
    part instantiates the class with two partitions of a NOR chip and a board
    that holds one variable, at which the theorems are applied. *)

From Stdlib Require Import Ascii String.
From S2P Require Import Prelude Env EnvFlash.
From stdpp Require Import list strings.
#[local] Open Scope Z_scope.

(** ** What the environment relies on

    [contents f d] are the bytes of device [d].  Reading inside the device
    gives its bytes.  Of an erase and a write only what the chip guarantees even
    when they fail: a device keeps its size, a write touches no byte outside its
    range, and a byte that is not erased can only lose bits.  The answers say
    nothing, since [sf_write] of [drivers/mtd/devices/wmt_sf.c] answers 0 whatever
    happened; that the operations are carried out is the separate hypothesis
    [flash_works], where it is needed.  No operation on one device changes
    another, and none changes the registry. *)

Definition splice (to : nat) (bs c : list Z) : list Z :=
  take to c ++ bs ++ drop (to + length bs) c.

(** A byte after an attempt to program it. *)
Definition programmed (new old : Z) : Prop := old = 0xFF \/ Z.land old new = new.

Class FlashSpec (F : Type) `{FlashOps F} := {
  contents : F -> nat -> list Z;
  size_contents f d : mtd_size f d = len (contents f d);
  read_spec f d from n :
    0 <= from -> 0 <= n -> from + n <= len (contents f d) ->
    mtd_read f d from n = (0, take (Z.to_nat n) (drop (Z.to_nat from) (contents f d)));
  erase_length f d a n : length (contents (mtd_erase f d a n).2 d) = length (contents f d);
  write_touches f d to bs :
    0 <= to -> to + len bs <= len (contents f d) ->
    exists w, Forall2 programmed w (take (length bs) (drop (Z.to_nat to) (contents f d))) /\
      contents (mtd_write f d to bs).2 d = splice (Z.to_nat to) w (contents f d);
  erase_frame f d a n d' : d' <> d ->
    contents (mtd_erase f d a n).2 d' = contents f d';
  write_frame f d to bs d' : d' <> d ->
    contents (mtd_write f d to bs).2 d' = contents f d';
  erase_registry f d a n name :
    get_mtd_device_nm (mtd_erase f d a n).2 name = get_mtd_device_nm f name;
  write_registry f d to bs name :
    get_mtd_device_nm (mtd_write f d to bs).2 name = get_mtd_device_nm f name;
}.

(** ** Which copy a boot takes *)

Inductive copy := Current | Obsolete | Broken.
#[global] Instance copy_eq_dec : EqDecision copy.
Proof. solve_decision. Defined.

(** The image of the environment in the bytes of a device, and its state: the
    CRC word matches and the flag byte is 1 or 0. *)
Definition image_of (c : list Z) : list Z := take (Z.to_nat NOR_ENV_MAX_SIZE) c.
Definition crc_ok (sp : Z) (img : list Z) : bool :=
  match env_crc32 NOR_ENV_MAX_SIZE sp (drop 5 img) with
  | Ok crc => word_of img =? crc
  | Fault _ => false
  end.
Definition classify (sp : Z) (img : list Z) : copy :=
  if crc_ok sp img then
    match img !! 4%nat with
    | Some 1 => Current
    | Some 0 => Obsolete
    | _ => Broken
    end
  else Broken.

(** The first copy marked current; failing that the last obsolete one. *)
Definition choose (k0 k1 : copy) : option nat :=
  match k0, k1 with
  | Current, _ => Some 0%nat
  | _, Current => Some 1%nat
  | _, Obsolete => Some 1%nat
  | Obsolete, _ => Some 0%nat
  | Broken, Broken => None
  end.

(** A buffer as [env_update] writes it: the CRC word stored, flag 0 turned
    into 1. *)
Definition stamped (crc : Z) (b : list Z) : list Z := overlay (le32 crc) b.
Definition marked (b : list Z) : list Z :=
  match b !! 4%nat with Some 0 => <[4%nat := 1]> b | _ => b end.

(** The machine after a reset: no buffer, the statics at their initial values,
    the flash as it was left. *)
Definition boot_with {F} (lk sp : Z) (f : F) (mem : list Z) : est F :=
  mkEst (mkWorld sp f [] (Some mem) lk []) None
    (mkStatics 0 0xFF 0xFF 0 0 0 0 false [None; None]).
Definition boot {F} : Z -> F -> list Z -> est F := boot_with 1.

(** ** Lemmas *)

Lemma nor_size : NOR_ENV_MAX_SIZE = 65536.
Proof. reflexivity. Qed.
#[local] Opaque NOR_ENV_MAX_SIZE.

Lemma word_le32 x r : 0 <= x < 2 ^ 32 -> word_of (le32 x ++ r) = x.
Proof. intros Hx. simpl. dlia. Qed.

Lemma overlay_all new old : length new = length old -> overlay new old = new.
Proof. intros Hl. unfold overlay. rewrite Hl, drop_all. apply app_nil_r. Qed.

Lemma land_6 sp : Z.land (Z.shiftr sp 1) 3 = 0 -> is_nand sp = false.
Proof.
  intros H0. unfold is_nand. apply Z.eqb_neq. intros H2.
  assert (Z.testbit (Z.land (Z.shiftr sp 1) 3) 0 = Z.testbit (Z.land sp 6) 1) as Ht
    by (rewrite !Z.land_spec, Z.shiftr_spec by done; done).
  rewrite H0, H2 in Ht. done.
Qed.

Lemma length_stamped crc b : (4 <= length b)%nat -> length (stamped crc b) = length b.
Proof. intros. unfold stamped, overlay. rewrite length_app, length_drop. simpl. lia. Qed.

Lemma length_marked b : length (marked b) = length b.
Proof.
  unfold marked. destruct (b !! 4%nat) as [[]|]; rewrite ?length_insert; done.
Qed.

(** Reduce the projections of an explicit state. *)
Ltac proj := cbn [wld env_ptr st strap flash flash_log kmem env_lock signals ENV_MAX_SIZE
  env_valid env_invalid nand_block env_valid_offs env_invalid_offs mtd_init readed mtd_table
  set_size set_valid set_invalid set_nand_block set_valid_offs set_invalid_offs set_mtd_init
  set_readed set_mtd_table].

(** Run a step that reads or writes a variable of an explicit state. *)
Ltac estep := erewrite bind_ok by reflexivity; proj.

Section MtdUp.
Context {F : Type} `{FlashSpec F}.
Context (sp : Z) (f : F) (lg : list F) (km : option (list Z)) (lk : Z) (sg : list bool).
Context (nb vo io : Z) (rd : bool) (d0 d1 : nat).

Abbreviation size := (Z.to_nat NOR_ENV_MAX_SIZE).
Abbreviation wd := (mkWorld sp f lg km lk sg).
Abbreviation stt v n := (mkStatics NOR_ENV_MAX_SIZE v n nb vo io 1 rd [Some d0; Some d1]).
Abbreviation state b v n := (mkEst wd (Some b) (stt v n)).

Lemma mtd_dev_run b v n i d :
  [d0; d1] !! Z.to_nat i = Some d -> 0 <= i -> mtd_dev i (state b v n) = Ok (d, state b v n).
Proof.
  intros Hd Hi. apply lookup_lt_Some in Hd as Hl. simpl in Hl.
  assert (i = 0 \/ i = 1) as [-> | ->] by lia; simpl in Hd; by simplify_eq.
Qed.

Lemma dev_read_run b v n d :
  length b = size -> (size <= length (contents f d))%nat ->
  dev_read d 0 NOR_ENV_MAX_SIZE (state b v n)
  = Ok (0, state (image_of (contents f d)) v n).
Proof.
  intros Hb Hc. unfold dev_read. do 2 estep.
  rewrite read_spec by (rewrite ?nor_size in *; lia).
  rewrite drop_0, overlay_all; [done|]. rewrite length_take. lia.
Qed.

Lemma length_image c : (size <= length c)%nat -> length (image_of c) = size.
Proof. intros. unfold image_of. rewrite length_take. lia. Qed.

Lemma crc_at_run b v n :
  is_nand sp = false -> length b = size ->
  exists crc, crc_at 5 (state b v n) = Ok (crc, state b v n) /\
    env_crc32 NOR_ENV_MAX_SIZE sp (drop 5 b) = Ok crc /\ 0 <= crc < 2 ^ 32.
Proof.
  intros Hsp Hb.
  destruct (env_crc32_run NOR_ENV_MAX_SIZE sp (drop 5 b)) as (crc & Hc & Hr & _).
  - rewrite nor_size. lia.
  - unfold crc_len. unfold is_nand in Hsp. rewrite Hsp, length_drop, Hb.
    rewrite nor_size. lia.
  - exists crc. split; [|done]. unfold crc_at. do 3 estep. by rewrite Hc.
Qed.

(** One turn of the loop that reads the copies. *)
Lemma read_after_body_run b n i d :
  is_nand sp = false -> length b = size ->
  [d0; d1] !! Z.to_nat i = Some d -> 0 <= i -> (size <= length (contents f d))%nat ->
  let img := image_of (contents f d) in
  read_after_body i (state b 0xFF n)
  = match classify sp img with
    | Current => Ok (inr 0, state img i (if i =? 0 then 1 else 0))
    | Obsolete => Ok (inl (i + 1), state img 0xFF i)
    | Broken => Ok (inl (i + 1), state img 0xFF n)
    end.
Proof.
  intros Hsp Hb Hd Hi Hc img. unfold read_after_body.
  erewrite bind_ok by by apply mtd_dev_run. estep.
  erewrite bind_ok by by apply dev_read_run.
  change (negb (0 =? 0)) with false. cbv iota. fold img.
  assert (length img = size) as Himg by by apply length_image.
  destruct (crc_at_run img 0xFF n Hsp Himg) as (crc & Hrun & Hcrc & _).
  erewrite bind_ok by exact Hrun. estep.
  unfold classify, crc_ok. rewrite Hcrc.
  destruct (word_of img =? crc); [|done].
  destruct (img !! 4%nat) as [fl|] eqn:Hfl; cycle 1.
  { apply lookup_ge_None in Hfl. rewrite Himg in Hfl. rewrite nor_size in Hfl. lia. }
  erewrite bind_ok; cycle 1.
  { unfold get_flags. estep. by rewrite Hfl. }
  assert (fl = 1 \/ fl = 0 \/ (fl <> 1 /\ fl <> 0)) as [-> | [-> | [H1 H2]]] by lia.
  - done.
  - done.
  - apply Z.eqb_neq in H1 as H1', H2 as H2'. rewrite H1', H2'. do 3 estep.
    destruct fl as [|[]|]; done.
Qed.

Context (Hsp : Z.land (Z.shiftr sp 1) 3 = 0).
Context (Hd0 : (size <= length (contents f d0))%nat).
Context (Hd1 : (size <= length (contents f d1))%nat).
Abbreviation I0 := (image_of (contents f d0)).
Abbreviation I1 := (image_of (contents f d1)).

Lemma read_after_end_run b n d :
  length b = size -> [d0; d1] !! Z.to_nat n = Some d -> 0 <= n ->
  read_after_end (state b 0xFF n)
  = Ok (0, state (image_of (contents f d)) n (if n =? 0 then 1 else 0)).
Proof.
  intros Hb Hd Hn. apply lookup_lt_Some in Hd as Hl. simpl in Hl.
  unfold read_after_end. do 2 estep.
  assert (n = 0 \/ n = 1) as [-> | ->] by lia; simpl in Hd; injection Hd as <-; cbn [Z.eqb Pos.eqb andb negb];
    erewrite bind_ok by (by apply mtd_dev_run); estep;
    by erewrite bind_ok by (by apply dev_read_run).
Qed.

Lemma read_turn_run i s r s' :
  read_after_body i s = Ok (r, s') -> i < 2 ->
  read_after_turn i s = Ok (match r with inl i => inl i | inr rc => inr (Some rc) end, s').
Proof.
  intros Hr Hi. unfold read_after_turn. case_bool; [|lia]. by erewrite bind_ok by exact Hr.
Qed.

(** The whole of [read_env_after_mtd_init]. *)
Lemma read_after_run b v n :
  length b = size ->
  read_env_after_mtd_init (state b v n)
  = match choose (classify sp I0) (classify sp I1) with
    | Some 0%nat => Ok (0, state I0 0 1)
    | Some _ => Ok (0, state I1 1 0)
    | None => Ok (1, state I1 0xFF 0xFF)
    end.
Proof.
  intros Hb. unfold read_env_after_mtd_init. do 2 estep.
  assert (is_nand sp = false) as Hn by by apply land_6.
  pose proof (length_image (contents f d0) Hd0) as Hl0.
  pose proof (length_image (contents f d1) Hd1) as Hl1.
  pose proof (read_after_body_run b 0xFF 0 d0 Hn Hb eq_refl ltac:(done) Hd0) as B0.
  pose proof (fun n => read_after_body_run I0 n 1 d1 Hn Hl0 eq_refl ltac:(done) Hd1) as B1.
  cbv zeta in B0, B1. cbn [Z.eqb Z.add Pos.add] in B0, B1.
  assert (forall x, read_after_turn 2 x = Ok (inr None, x)) as T2 by done.
  assert (forall n, exists r s', loop 2 read_after_turn 1 (state I0 0xFF n) = Ok (r, s') /\
    match classify sp I1 with
    | Current => r = Some 0 /\ s' = state I1 1 0
    | Obsolete => r = None /\ s' = state I1 0xFF 1
    | Broken => r = None /\ s' = state I1 0xFF n
    end) as L1.
  { intros m. specialize (B1 m).
    destruct (classify sp I1); apply read_turn_run in B1; try lia; do 2 eexists;
      (split; [first [eapply loop_exit; exact B1
                     |erewrite loop_next by exact B1; eapply loop_exit; apply T2]|by split]). }
  destruct (classify sp I0); apply read_turn_run in B0; try lia; cbn [choose].
  - erewrite bind_ok by (eapply loop_exit; exact B0). reflexivity.
  - destruct (L1 0) as (r & s' & HL & Hr).
    erewrite bind_ok by (erewrite loop_next by exact B0; exact HL).
    destruct (classify sp I1); destruct Hr as [-> ->]; [reflexivity|by apply read_after_end_run..].
  - destruct (L1 0xFF) as (r & s' & HL & Hr).
    erewrite bind_ok by (erewrite loop_next by exact B0; exact HL).
    destruct (classify sp I1); destruct Hr as [-> ->]; [reflexivity|by apply read_after_end_run|].
    reflexivity.
Qed.

Lemma env_init_run b z v n mi tbl :
  length tbl = 2%nat -> get_mtd_device_nm f SF_UBOOT_ENV1 = Some d0 ->
  get_mtd_device_nm f SF_UBOOT_ENV2 = Some d1 ->
  env_init (mkEst wd (Some b) (mkStatics z v n nb vo io mi rd tbl))
  = read_env_after_mtd_init (state b v n).
Proof.
  intros Ht H1 H2. destruct tbl as [|t0 [|t1 [|]]]; try done.
  unfold env_init. replace (64 * 1024) with NOR_ENV_MAX_SIZE by (by rewrite nor_size).
  estep. rewrite Hsp. estep. cbv beta iota zeta delta [bootflash_of].
  change (0 =? 0) with true. cbv iota. do 2 estep. rewrite H1.
  erewrite bind_ok; cycle 1.
  { unfold fill_table, table_entry. erewrite bind_ok; cycle 1.
    { estep. rewrite H1. do 2 estep. reflexivity. }
    erewrite bind_ok; cycle 1.
    { estep. rewrite H2. do 2 estep. reflexivity. }
    do 2 estep. reflexivity. }
  cbv beta iota. estep. reflexivity.
Qed.

(** *** [env_update] with both partitions registered *)

Definition env_update_result (b : list Z) (v n : Z) (dv dn : nat) : result (Z * est F) :=
  match env_crc32 NOR_ENV_MAX_SIZE sp (drop 5 b) with
  | Fault x => Fault x
  | Ok crc =>
      let b1 := stamped crc b in
      let b2 := marked b1 in
      let '(e0, f1) := mtd_erase f dn 0 (mtd_size f dn) in
      if negb (e0 =? 0) then Ok (1, mkEst (mkWorld sp f1 (f1 :: lg) km lk sg) (Some b1) (stt v n))
      else
        let '(e1, f2) := mtd_write f1 dn 0 b2 in
        if negb (e1 =? 0) then
          Ok (1, mkEst (mkWorld sp f2 (f2 :: f1 :: lg) km lk sg) (Some b2) (stt v n))
        else
          let '(e2, f3) := mtd_write f2 dv 4 [0] in
          let w3 := mkWorld sp f3 (f3 :: f2 :: f1 :: lg) km lk sg in
          if negb (e2 =? 0) then Ok (1, mkEst w3 (Some b2) (stt v n))
          else Ok (0, mkEst w3 (Some b2)
                        (mkStatics NOR_ENV_MAX_SIZE n v nb io vo 1 rd [Some d0; Some d1]))
  end.

Lemma mtd_at_run (s : est F) i :
  mtd_table (st s) = [Some d0; Some d1] -> 0 <= i < 2 ->
  exists d, [d0; d1] !! Z.to_nat i = Some d /\ mtd_at i s = Ok (Some d, s) /\
    mtd_dev i s = Ok (d, s).
Proof.
  destruct s as [w' b' []]. simpl. intros -> Hi.
  assert (i = 0 \/ i = 1) as [-> | ->] by lia; eexists; by split_and!.
Qed.

Definition with_flash (x : world F) (g : F) : world F :=
  mkWorld (strap x) g (g :: flash_log x) (kmem x) (env_lock x) (signals x).

Lemma erase_invalid_run x b v n dn :
  0 <= n < 2 -> [d0; d1] !! Z.to_nat n = Some dn ->
  erase_invalid SPI_FLASH_TYPE (mkEst x b (stt v n))
  = let '(e, g) := mtd_erase (flash x) dn 0 (mtd_size (flash x) dn) in
    Ok (if negb (e =? 0) then 1 else 0, mkEst (with_flash x g) b (stt v n)).
Proof.
  intros Hn Hdn. unfold erase_invalid. estep.
  destruct (mtd_at_run (mkEst x b (stt v n)) n eq_refl Hn) as (dn' & Hdn' & Ha & _).
  rewrite Hdn in Hdn'. injection Hdn' as <-. erewrite bind_ok by exact Ha.
  cbn [bool_decide negb andb decide_rel is_Some_dec decide]. do 2 estep.
  unfold dev_erase. destruct (mtd_erase _ dn 0 _) as [e g] eqn:He.
  erewrite bind_ok; [|estep; rewrite He; estep; reflexivity]. done.
Qed.

Lemma dev_write_run x b t d to bs :
  dev_write d to bs (mkEst x b t)
  = let '(e, g) := mtd_write (flash x) d to bs in Ok (e, mkEst (with_flash x g) b t).
Proof.
  unfold dev_write. estep. by destruct (mtd_write _ d to bs) as [e g].
Qed.

Lemma write_copies_run x b v n dv dn :
  length b = size -> 0 <= v < 2 -> 0 <= n < 2 ->
  [d0; d1] !! Z.to_nat v = Some dv -> [d0; d1] !! Z.to_nat n = Some dn ->
  write_copies SPI_FLASH_TYPE (mkEst x (Some b) (stt v n))
  = let b2 := marked b in
    let '(e1, f2) := mtd_write (flash x) dn 0 b2 in
    let x2 := with_flash x f2 in
    if negb (e1 =? 0) then Ok (1, mkEst x2 (Some b2) (stt v n))
    else
      let '(e2, f3) := mtd_write f2 dv 4 [0] in
      Ok (if negb (e2 =? 0) then 1 else 0, mkEst (with_flash x2 f3) (Some b2) (stt v n)).
Proof.
  intros Hb Hv Hn Hdv Hdn. unfold write_copies. estep.
  destruct (mtd_at_run (mkEst x (Some b) (stt v n)) n eq_refl Hn) as (dn' & Hdn' & Ha & _).
  rewrite Hdn in Hdn'. injection Hdn' as <-. erewrite bind_ok by exact Ha.
  cbn [bool_decide negb andb decide_rel is_Some_dec decide].
  destruct (b !! 4%nat) as [fl|] eqn:Hfl; cycle 1.
  { apply lookup_ge_None in Hfl. rewrite Hb, nor_size in Hfl. lia. }
  erewrite bind_ok; [|unfold get_flags; estep; rewrite Hfl; reflexivity].
  erewrite (bind_ok _ _ _ tt (mkEst x (Some (marked b)) (stt v n))); cycle 1.
  { unfold marked. rewrite Hfl. destruct (Z.eqb_spec fl 0) as [->|]; [reflexivity|].
    by destruct fl. }
  estep. erewrite bind_ok; cycle 1.
  { unfold env_image. do 2 estep. rewrite take_ge by (rewrite length_marked, Hb; lia). reflexivity. }
  cbv zeta. pose proof (dev_write_run x (Some (marked b)) (stt v n) dn 0 (marked b)) as W1.
  destruct (mtd_write (flash x) dn 0 (marked b)) as [e1 f2].
  erewrite bind_ok by exact W1. destruct (negb (e1 =? 0)); [done|]. estep.
  destruct (mtd_at_run (mkEst (with_flash x f2) (Some (marked b)) (stt v n)) v eq_refl Hv)
    as (dv' & Hdv' & _ & Hd).
  rewrite Hdv in Hdv'. injection Hdv' as <-. erewrite bind_ok by exact Hd.
  pose proof (dev_write_run (with_flash x f2) (Some (marked b)) (stt v n) dv 4 [0]) as W2.
  cbn [flash with_flash] in W2. destruct (mtd_write f2 dv 4 [0]) as [e2 f3].
  by erewrite bind_ok by exact W2.
Qed.

Lemma env_update_run b v n dv dn :
  length b = size -> 0 <= v < 2 -> 0 <= n < 2 ->
  [d0; d1] !! Z.to_nat v = Some dv -> [d0; d1] !! Z.to_nat n = Some dn ->
  env_update (state b v n) = env_update_result b v n dv dn.
Proof.
  intros Hb Hv Hn Hdv Hdn. unfold env_update, env_update_result. estep. rewrite Hsp.
  change (0 =? 0) with true. cbv iota.
  change (SPI_FLASH_TYPE =? NAND_FLASH_TYPE) with false. cbv iota.
  destruct (crc_at_run b v n (land_6 _ Hsp) Hb) as (crc & Hrun & -> & _).
  erewrite bind_ok by exact Hrun.
  erewrite bind_ok by (unfold set_crc; estep; reflexivity). fold (stamped crc b). estep.
  assert (length (stamped crc b) = size) as Hl1.
  { rewrite length_stamped; [done|]. rewrite Hb, nor_size. lia. }
  destruct (mtd_at_run (state (stamped crc b) v n) n eq_refl Hn) as (? & _ & Ha & _).
  erewrite bind_ok by exact Ha. cbv zeta.
  pose proof (erase_invalid_run wd (Some (stamped crc b)) v n dn Hn Hdn) as E1.
  cbn [flash] in E1. destruct (mtd_erase f dn 0 (mtd_size f dn)) as [e0 f1].
  erewrite bind_ok by exact E1. destruct (negb (e0 =? 0)); [done|]. cbn [negb Z.eqb].
  pose proof (write_copies_run (with_flash wd f1) _ v n dv dn Hl1 Hv Hn Hdv Hdn) as W1.
  cbv zeta in W1. cbn [flash with_flash] in W1.
  destruct (mtd_write f1 dn 0 (marked (stamped crc b))) as [e1 f2].
  destruct (negb (e1 =? 0)).
  { by erewrite bind_ok by exact W1. }
  destruct (mtd_write f2 dv 4 [0]) as [e2 f3].
  erewrite bind_ok by exact W1. by destruct (negb (e2 =? 0)).
Qed.
End MtdUp.

(** *** A boot, and the copies after an update *)

Lemma on_data_spi {F A} (m : M (list Z) A) (s : est F) b :
  Z.land (Z.shiftr (strap (wld s)) 1) 3 = 0 -> env_ptr s = Some b ->
  on_data m s = match m (drop 5 b) with
                | Ok (a, d) => Ok (a, mkEst (wld s) (Some (take 5 b ++ d)) (st s))
                | Fault x => Fault x
                end.
Proof.
  destruct s as [x p t]. simpl. intros Hs ->. unfold on_data. do 2 estep.
  unfold data_off. rewrite (land_6 _ Hs). by destruct (m (drop 5 b)) as [[a d]|y].
Qed.

Section Boot.
Context {F : Type} `{FlashSpec F}.
Context (sp : Z) (Hsp : Z.land (Z.shiftr sp 1) 3 = 0) (d0 d1 : nat).

Abbreviation size := (Z.to_nat NOR_ENV_MAX_SIZE).
Abbreviation kind g d := (classify sp (image_of (contents g d))).

(** Both partitions are registered and large enough for a copy. *)
Definition mounted (g : F) : Prop :=
  get_mtd_device_nm g SF_UBOOT_ENV1 = Some d0 /\
  get_mtd_device_nm g SF_UBOOT_ENV2 = Some d1 /\
  (size <= length (contents g d0))%nat /\ (size <= length (contents g d1))%nat.

Definition booted (lk : Z) (g : F) (mem b : list Z) (v n : Z) : est F :=
  mkEst (mkWorld sp g [] (Some mem) lk []) (Some b)
    (mkStatics NOR_ENV_MAX_SIZE v n 0 0 0 1 false [Some d0; Some d1]).

Lemma boot_prepare lk g mem :
  mounted g -> length mem = size ->
  prepare (boot_with lk sp g mem)
  = match choose (kind g d0) (kind g d1) with
    | Some 0%nat => Ok (0, booted lk g mem (image_of (contents g d0)) 0 1)
    | Some _ => Ok (0, booted lk g mem (image_of (contents g d1)) 1 0)
    | None => Ok (1, booted lk g mem (image_of (contents g d1)) 0xFF 0xFF)
    end.
Proof.
  intros (H1 & H2 & Hl0 & Hl1) Hm. unfold prepare, boot_with. do 2 estep.
  change (_ || _)%bool with true. cbv iota.
  erewrite bind_ok; [|estep; do 2 estep; reflexivity]. cbv iota. proj.
  pose proof (eq_trans
    (env_init_run sp g [] (Some mem) lk [] 0 0 0 false d0 d1 Hsp mem 0 0xFF 0xFF 0
       [None; None] eq_refl H1 H2)
    (read_after_run sp g [] (Some mem) lk [] 0 0 0 false d0 d1 Hsp Hl0 Hl1 mem 0xFF 0xFF Hm)) as Hi.
  destruct (choose _ _) as [[|]|]; by erewrite bind_ok by exact Hi.
Qed.

Lemma drop_marked crc b :
  (5 <= length b)%nat -> drop 5 (marked (stamped crc b)) = drop 5 b.
Proof.
  intros Hb. assert (drop 5 (stamped crc b) = drop 5 b) as <-.
  { unfold stamped, overlay. simpl. rewrite skipn_skipn. done. }
  unfold marked. destruct (stamped crc b !! 4%nat) as [[]|]; try done.
  apply drop_insert_lt. lia.
Qed.

Lemma classify_written crc b :
  length b = size -> b !! 4%nat = Some 0 \/ b !! 4%nat = Some 1 ->
  env_crc32 NOR_ENV_MAX_SIZE sp (drop 5 b) = Ok crc -> 0 <= crc < 2 ^ 32 ->
  classify sp (marked (stamped crc b)) = Current.
Proof.
  intros Hb Hf Hcrc Hr.
  assert (5 <= length b)%nat by (rewrite Hb, nor_size; lia).
  unfold classify, crc_ok. rewrite drop_marked, Hcrc by done.
  assert (word_of (marked (stamped crc b)) = crc) as ->.
  { unfold marked. destruct (stamped crc b !! 4%nat) as [[]|]; by apply word_le32. }
  rewrite Z.eqb_refl.
  assert (stamped crc b !! 4%nat = b !! 4%nat) as Hs.
  { unfold stamped, overlay. rewrite lookup_app_r, lookup_drop by (simpl; lia). done. }
  unfold marked. rewrite Hs. destruct Hf as [Hf|Hf]; rewrite Hf.
  - rewrite list_lookup_insert_eq; [done|]. rewrite length_stamped; lia.
  - by rewrite Hs, Hf.
Qed.

Lemma classify_zeroed c : (size <= length c)%nat -> classify sp (image_of (splice 4 [0] c)) <> Current.
Proof.
  intros Hc. unfold classify. destruct (crc_ok _ _); [|done].
  assert (image_of (splice 4 [0] c) !! 4%nat = Some 0) as ->; [|done].
  rewrite nor_size in Hc. unfold image_of, splice. rewrite lookup_take_lt by (rewrite nor_size; lia).
  rewrite lookup_app_r; rewrite length_take; [|lia].
  replace (4 - 4 `min` length c)%nat with 0%nat by lia. done.
Qed.

Lemma classify_erased img : img = replicate size 0xFF -> classify sp img = Broken.
Proof.
  intros ->. unfold classify. destruct (crc_ok _ _); [|done].
  assert (replicate size 0xFF !! 4%nat = Some 0xFF) as ->; [|done].
  apply lookup_replicate_2. rewrite nor_size. lia.
Qed.

(** The chip carries out what it is told.  An erase at 0 answers 0 and leaves its
    first 64 KB, the sector that [sf_erase] erases, at 0xFF; a write inside a
    device answers 0; a write at 0 into erased bytes stores what is written; and
    a zero can be written over anything. *)
Record flash_works : Prop := {
  fw_erase (f : F) d :
    (size <= length (contents f d))%nat ->
    (mtd_erase f d 0 (mtd_size f d)).1 = 0 /\
    image_of (contents (mtd_erase f d 0 (mtd_size f d)).2 d) = replicate size 0xFF;
  fw_write (f : F) d to bs : 0 <= to -> to + len bs <= mtd_size f d -> (mtd_write f d to bs).1 = 0;
  fw_erased (f : F) d bs :
    (length bs <= length (contents f d))%nat -> Forall (eq 0xFF) (take (length bs) (contents f d)) ->
    contents (mtd_write f d 0 bs).2 d = splice 0 bs (contents f d);
  fw_zero (f : F) d to : 0 <= to < len (contents f d) ->
    contents (mtd_write f d to [0]).2 d = splice (Z.to_nat to) [0] (contents f d);
}.

(** What a successful update leaves: the three flash states it goes through. *)
Record updated (f f1 f2 f3 : F) (dv dn : nat) (b2 : list Z) : Prop := {
  up_erased : image_of (contents f1 dn) = replicate size 0xFF;
  up_len1 : length (contents f1 dn) = length (contents f dn);
  up_keep1 : contents f1 dv = contents f dv;
  up_new2 : image_of (contents f2 dn) = b2;
  up_len2 : length (contents f2 dn) = length (contents f dn);
  up_keep2 : contents f2 dv = contents f dv;
  up_new3 : contents f3 dn = contents f2 dn;
  up_mark3 : contents f3 dv = splice 4 [0] (contents f dv);
  up_names : forall g name, g = f1 \/ g = f2 \/ g = f3 ->
    get_mtd_device_nm g name = get_mtd_device_nm f name;
}.

Lemma update_flash f dv dn b2 f1 f2 f3 :
  flash_works -> dv <> dn -> length b2 = size ->
  (size <= length (contents f dv))%nat -> (size <= length (contents f dn))%nat ->
  mtd_erase f dn 0 (mtd_size f dn) = (0, f1) -> mtd_write f1 dn 0 b2 = (0, f2) ->
  mtd_write f2 dv 4 [0] = (0, f3) ->
  updated f f1 f2 f3 dv dn b2.
Proof.
  intros Hw Hne Hb Hv Hn H1 H2 H3.
  destruct (fw_erase Hw f dn Hn) as [_ E1]. pose proof (erase_length f dn 0 (mtd_size f dn)) as L1.
  rewrite H1 in E1, L1. cbn [snd] in E1, L1.
  assert (contents f1 dv = contents f dv) as K1.
  { pose proof (erase_frame f dn 0 (mtd_size f dn) dv Hne) as K. by rewrite H1 in K. }
  assert (contents f2 dn = splice 0 b2 (contents f1 dn)) as W2.
  { pose proof (fw_erased Hw f1 dn b2) as W. rewrite H2 in W. apply W.
    - rewrite L1. lia.
    - unfold image_of in E1. rewrite Hb, E1. by apply Forall_replicate. }
  assert (contents f2 dv = contents f dv) as K2.
  { rewrite <- K1. pose proof (write_frame f1 dn 0 b2 dv Hne) as K. by rewrite H2 in K. }
  assert (contents f3 dv = splice 4 [0] (contents f dv)) as W3.
  { rewrite <- K2. pose proof (fw_zero Hw f2 dv 4) as W. rewrite H3 in W. apply W.
    rewrite K2. rewrite nor_size in Hv. lia. }
  split; try done.
  - rewrite W2. unfold image_of, splice. simpl. by rewrite take_app_length'.
  - rewrite W2. unfold splice. simpl. rewrite length_app, length_drop, L1. lia.
  - pose proof (write_frame f2 dv 4 [0] dn ltac:(done)) as K. by rewrite H3 in K.
  - pose proof (fun name => erase_registry f dn 0 (mtd_size f dn) name) as R1.
    pose proof (fun name => write_registry f1 dn 0 b2 name) as R2.
    pose proof (fun name => write_registry f2 dv 4 [0] name) as R3.
    rewrite H1 in R1. rewrite H2 in R2. rewrite H3 in R3. simpl in R1, R2, R3.
    intros g name [-> | [-> | ->]]; congruence.
Qed.

(** A driver that has loaded the environment from copy [v]. *)
Record running (s : est F) (b : list Z) (v : Z) : Prop := {
  run_strap : strap (wld s) = sp;
  run_flash : mounted (flash (wld s));
  run_buf : env_ptr s = Some b;
  run_len : length b = size;
  run_flag : b !! 4%nat = Some 0 \/ b !! 4%nat = Some 1;
  run_copy : v = 0 \/ v = 1;
  run_size : ENV_MAX_SIZE (st s) = NOR_ENV_MAX_SIZE;
  run_valid : env_valid (st s) = v;
  run_invalid : env_invalid (st s) = 1 - v;
  run_init : mtd_init (st s) = 1;
  run_table : mtd_table (st s) = [Some d0; Some d1];
}.

Definition dev_of (v : Z) : nat := if v =? 0 then d0 else d1.

Lemma dev_of_lookup v : v = 0 \/ v = 1 -> [d0; d1] !! Z.to_nat v = Some (dev_of v).
Proof. by intros [-> | ->]. Qed.

Lemma dev_of_ne v : d0 <> d1 -> v = 0 \/ v = 1 -> dev_of v <> dev_of (1 - v).
Proof. intros Hne [-> | ->]; unfold dev_of; simpl; congruence. Qed.

Lemma mounted_len g v : mounted g -> (size <= length (contents g (dev_of v)))%nat.
Proof. intros (_ & _ & ? & ?). unfold dev_of. by destruct (v =? 0). Qed.

(** A successful update, from the state it starts in. *)
Lemma update_inv s b v s' :
  flash_works -> d0 <> d1 -> running s b v -> env_update s = Ok (0, s') ->
  exists crc f1 f2 f3,
    env_crc32 NOR_ENV_MAX_SIZE sp (drop 5 b) = Ok crc /\ 0 <= crc < 2 ^ 32 /\
    updated (flash (wld s)) f1 f2 f3 (dev_of v) (dev_of (1 - v)) (marked (stamped crc b)) /\
    flash_log (wld s') = f3 :: f2 :: f1 :: flash_log (wld s) /\ flash (wld s') = f3 /\
    env_lock (wld s') = env_lock (wld s) /\ signals (wld s') = signals (wld s) /\
    strap (wld s') = sp /\ env_ptr s' = Some (marked (stamped crc b)) /\
    st s' = mkStatics NOR_ENV_MAX_SIZE (1 - v) v (nand_block (st s)) (env_invalid_offs (st s))
              (env_valid_offs (st s)) 1 (readed (st s)) [Some d0; Some d1].
Proof.
  intros Hworks Hne Hrun. destruct s as [[] ? []]. destruct Hrun. simpl in *. subst.
  assert (0 <= v < 2) by lia. assert (0 <= 1 - v < 2) by lia.
  pose proof run_flash0 as (_ & _ & Hl0 & Hl1).
  erewrite (env_update_run _ _ _ _ _ _ _ _ _ _ d0 d1) by (done || (apply dev_of_lookup; lia)).
  unfold env_update_result.
  destruct (env_crc32 _ _ _) as [crc|] eqn:Hcrc; [|done]. cbv zeta.
  destruct (env_crc32_run NOR_ENV_MAX_SIZE sp (drop 5 b)) as (crc' & Hc' & Hr & _).
  { rewrite nor_size. lia. }
  { rewrite length_drop, run_len0. unfold crc_len.
    pose proof (land_6 _ Hsp) as Hn. unfold is_nand in Hn. rewrite Hn, nor_size. lia. }
  rewrite Hcrc in Hc'. injection Hc' as <-.
  destruct (mtd_erase _ _ _ _) as [e0 f1] eqn:He0. destruct (Z.eqb_spec e0 0) as [->|]; [|done].
  cbn [negb]. destruct (mtd_write f1 _ _ _) as [e1 f2] eqn:He1.
  destruct (Z.eqb_spec e1 0) as [->|]; [|done]. cbn [negb].
  destruct (mtd_write f2 _ _ _) as [e2 f3] eqn:He2. destruct (Z.eqb_spec e2 0) as [->|]; [|done].
  intros [= <-]. exists crc, f1, f2, f3. simpl. split_and!; try done; try lia.
  apply update_flash; try done; try (by apply mounted_len); [by apply dev_of_ne|].
  rewrite length_marked, length_stamped; [done|]. rewrite run_len0, nor_size. lia.
Qed.

(** A boot takes the current copy when the other is not one. *)
Lemma boot_takes lk g mem v :
  mounted g -> length mem = size -> v = 0 \/ v = 1 ->
  choose (kind g d0) (kind g d1) = Some (Z.to_nat v) ->
  prepare (boot_with lk sp g mem) = Ok (0, booted lk g mem (image_of (contents g (dev_of v))) v (1 - v)).
Proof.
  intros Hg Hm Hv Hc. rewrite boot_prepare, Hc by done. by destruct Hv as [-> | ->].
Qed.

Lemma choose_current g v :
  v = 0 \/ v = 1 -> kind g (dev_of v) = Current -> kind g (dev_of (1 - v)) <> Current ->
  choose (kind g d0) (kind g d1) = Some (Z.to_nat v).
Proof.
  intros [-> | ->]; unfold dev_of; simpl; intros Hk Hn; rewrite Hk; [done|].
  by destruct (classify sp (image_of (contents g d0))).
Qed.

Lemma choose_other_broken f g v :
  v = 0 \/ v = 1 -> choose (kind f d0) (kind f d1) = Some (Z.to_nat v) ->
  contents g (dev_of v) = contents f (dev_of v) -> kind g (dev_of (1 - v)) = Broken ->
  choose (kind g d0) (kind g d1) = Some (Z.to_nat v).
Proof.
  intros [-> | ->]; unfold dev_of; simpl; intros Hc Hk Hb; rewrite Hk, Hb.
  - by destruct (classify sp (image_of (contents f d0))), (classify sp (image_of (contents f d1))).
  - by destruct (classify sp (image_of (contents f d0))), (classify sp (image_of (contents f d1))).
Qed.

Lemma updated_len f f1 f2 f3 dv dn b2 g :
  updated f f1 f2 f3 dv dn b2 -> (size <= length (contents f dv))%nat ->
  g = f1 \/ g = f2 \/ g = f3 ->
  length (contents g dv) = length (contents f dv) /\
  length (contents g dn) = length (contents f dn).
Proof.
  intros Hu Hs [-> | [-> | ->]].
  - by rewrite (up_keep1 _ _ _ _ _ _ _ Hu), (up_len1 _ _ _ _ _ _ _ Hu).
  - by rewrite (up_keep2 _ _ _ _ _ _ _ Hu), (up_len2 _ _ _ _ _ _ _ Hu).
  - rewrite (up_mark3 _ _ _ _ _ _ _ Hu), (up_new3 _ _ _ _ _ _ _ Hu), (up_len2 _ _ _ _ _ _ _ Hu).
    split; [|done]. unfold splice. rewrite !length_app, length_take, length_drop.
    rewrite nor_size in Hs. cbn [length]. lia.
Qed.

Lemma updated_mounted f f1 f2 f3 v b2 g :
  v = 0 \/ v = 1 -> mounted f ->
  updated f f1 f2 f3 (dev_of v) (dev_of (1 - v)) b2 ->
  g = f1 \/ g = f2 \/ g = f3 -> mounted g.
Proof.
  intros Hv Hm Hu Hg.
  destruct (updated_len _ _ _ _ _ _ _ g Hu (mounted_len _ _ Hm) Hg) as [L0 L1].
  pose proof (mounted_len _ v Hm). pose proof (mounted_len _ (1 - v) Hm).
  destruct Hm as (N0 & N1 & _). unfold mounted.
  rewrite !(up_names _ _ _ _ _ _ _ Hu g) by done. split_and!; [done..| |];
    destruct Hv as [-> | ->]; unfold dev_of in *; simpl in *; lia.
Qed.

(** After each operation a boot takes the old copy or the new one. *)
Lemma updated_choice f f1 f2 f3 v b2 g :
  v = 0 \/ v = 1 -> mounted f -> choose (kind f d0) (kind f d1) = Some (Z.to_nat v) ->
  classify sp b2 = Current ->
  updated f f1 f2 f3 (dev_of v) (dev_of (1 - v)) b2 ->
  g = f1 \/ g = f2 \/ g = f3 ->
  choose (kind g d0) (kind g d1) = Some (Z.to_nat v) /\
    contents g (dev_of v) = contents f (dev_of v) \/
  choose (kind g d0) (kind g d1) = Some (Z.to_nat (1 - v)) /\
    image_of (contents g (dev_of (1 - v))) = b2.
Proof.
  intros Hv Hm Hc Hb Hu [-> | [-> | ->]].
  - left. split; [|apply (up_keep1 _ _ _ _ _ _ _ Hu)].
    apply (choose_other_broken f); [done..|apply (up_keep1 _ _ _ _ _ _ _ Hu)|].
    apply classify_erased, (up_erased _ _ _ _ _ _ _ Hu).
  - pose proof (up_new2 _ _ _ _ _ _ _ Hu) as H2. pose proof (up_keep2 _ _ _ _ _ _ _ Hu) as K2.
    destruct (decide (kind f (dev_of v) = Current)) as [Hk|Hk].
    + destruct Hv as [-> | ->]; unfold dev_of in *; simpl in *.
      * left. split; [|done]. rewrite K2, Hk. reflexivity.
      * right. split; [|done]. rewrite H2, Hb. reflexivity.
    + right. split; [|done]. apply choose_current; [lia|by rewrite H2|].
      replace (1 - (1 - v)) with v by lia. by rewrite K2.
  - right. pose proof (up_new3 _ _ _ _ _ _ _ Hu) as N3. pose proof (up_new2 _ _ _ _ _ _ _ Hu) as N2.
    rewrite N3. split; [|done]. apply choose_current; [lia|by rewrite N3, N2|].
    replace (1 - (1 - v)) with v by lia. rewrite (up_mark3 _ _ _ _ _ _ _ Hu).
    by apply classify_zeroed, mounted_len.
Qed.

(** Every flash state an update goes through, whatever its operations answer:
    after the erase, the write of the copy and the mark. *)
Lemma update_states s b v rc s' new :
  d0 <> d1 -> running s b v -> env_update s = Ok (rc, s') ->
  flash_log (wld s') = new ++ flash_log (wld s) ->
  exists b2 f1 f2 f3, f1 = (mtd_erase (flash (wld s)) (dev_of (1 - v)) 0 (mtd_size (flash (wld s)) (dev_of (1 - v)))).2 /\
    f2 = (mtd_write f1 (dev_of (1 - v)) 0 b2).2 /\ f3 = (mtd_write f2 (dev_of v) 4 [0]).2 /\ length b2 = size /\
    forall g, g ∈ new -> g = f1 \/ g = f2 \/ g = f3.
Proof.
  intros Hne Hrun. destruct s as [[] ? []]. destruct Hrun. simpl in *. subst.
  assert (0 <= v < 2) by lia. assert (0 <= 1 - v < 2) by lia.
  pose proof run_flash0 as (_ & _ & Hl0 & Hl1).
  erewrite (env_update_run _ _ _ _ _ _ _ _ _ _ d0 d1) by (done || (apply dev_of_lookup; lia)).
  unfold env_update_result. destruct (env_crc32 _ _ _) as [crc|] eqn:Hcrc; [|done]. cbv zeta. intros Hup Hlog.
  exists (marked (stamped crc b)). do 3 eexists. do 3 (split; [reflexivity|]).
  split; [by rewrite length_marked, length_stamped; rewrite run_len0, nor_size in *; lia|].
  destruct (mtd_erase _ _ _ _) as [e0 f1]. cbn [snd]. destruct (mtd_write f1 _ _ _) as [e1 f2]. cbn [snd].
  destruct (mtd_write f2 _ _ _) as [e2 f3]. cbn [snd].
  destruct (negb (e0 =? 0)); [|destruct (negb (e1 =? 0)); [|destruct (negb (e2 =? 0))]];
    injection Hup as _ <-; simpl in Hlog.
  - apply (app_inv_tail _ [f1] new) in Hlog. subst new. intros g. rewrite !elem_of_cons, elem_of_nil. tauto.
  - apply (app_inv_tail _ [f2; f1] new) in Hlog. subst new. intros g. rewrite !elem_of_cons, elem_of_nil. tauto.
  - apply (app_inv_tail _ [f3; f2; f1] new) in Hlog. subst new. intros g. rewrite !elem_of_cons, elem_of_nil. tauto.
  - apply (app_inv_tail _ [f3; f2; f1] new) in Hlog. subst new. intros g. rewrite !elem_of_cons, elem_of_nil. tauto.
Qed.

(** What is left of the flash [f] when an update is cut off: both partitions are
    there, and the copy in use is as it was but perhaps for its flag, which can
    only have lost bits. *)
Definition survivor (f g : F) (v : Z) : Prop :=
  mounted g /\
  (contents g (dev_of v) = contents f (dev_of v) \/
   exists x, (forall y, contents f (dev_of v) !! 4%nat = Some y -> programmed x y) /\
     contents g (dev_of v) = splice 4 [x] (contents f (dev_of v))).

(** Where the power can fail in an update of the flash [f]: before it, between
    two operations, inside the erase or the write of the unused copy, which
    leaves anything at all there, or inside the write of the flag of the copy in
    use. *)
Inductive crash_point (f : F) (log : list F) (v : Z) : F -> Prop :=
| crash_before : crash_point f log v f
| crash_between g : g ∈ log -> crash_point f log v g
| crash_in_copy g :
    mounted g -> contents g (dev_of v) = contents f (dev_of v) -> crash_point f log v g
| crash_in_mark g x :
    mounted g -> (forall y, contents f (dev_of v) !! 4%nat = Some y -> programmed x y) ->
    contents g (dev_of v) = splice 4 [x] (contents f (dev_of v)) -> crash_point f log v g.

Lemma mounted_lengths f g :
  mounted f -> (forall nm, get_mtd_device_nm g nm = get_mtd_device_nm f nm) ->
  (forall d, length (contents g d) = length (contents f d)) -> mounted g.
Proof. intros (? & ? & ? & ?) Hn Hl. unfold mounted. by rewrite !Hn, !Hl. Qed.

(** A write keeps the length of every device, whatever it answers. *)
Lemma write_length (f : F) d to bs d' :
  0 <= to -> to + len bs <= len (contents f d) ->
  length (contents (mtd_write f d to bs).2 d') = length (contents f d').
Proof.
  intros Ht Hl. destruct (decide (d' = d)) as [->|]; [|by rewrite write_frame].
  destruct (write_touches f d to bs Ht Hl) as (w & Hw & ->).
  apply Forall2_length in Hw. rewrite length_take, length_drop in Hw. unfold splice.
  rewrite !length_app, length_take, length_drop. lia.
Qed.

(** Whatever the flash answers, each state of an update is a survivor. *)
Lemma update_survives s b v rc s' new g :
  d0 <> d1 -> running s b v -> env_update s = Ok (rc, s') ->
  flash_log (wld s') = new ++ flash_log (wld s) -> g ∈ new -> survivor (flash (wld s)) g v.
Proof.
  intros Hne Hrun Hup Hlog Hg.
  destruct (update_states s b v rc s' new Hne Hrun Hup Hlog) as (b2 & f1 & f2 & f3 & E1 & E2 & E3 & Hb2 & Hin).
  pose proof (run_copy _ _ _ Hrun) as Hv. pose proof (run_flash _ _ _ Hrun) as Hm.
  pose proof (dev_of_ne v Hne Hv) as Hd.
  set (f := flash (wld s)) in *.
  assert (mounted f1 /\ contents f1 (dev_of v) = contents f (dev_of v)) as [M1 K1].
  { subst f1. split; [|by apply erase_frame].
    apply (mounted_lengths f); [done|intros; by rewrite erase_registry|].
    intros d. destruct (decide (d = dev_of (1 - v))) as [->|]; [apply erase_length|by rewrite erase_frame]. }
  assert (0 + len b2 <= len (contents f1 (dev_of (1 - v)))) as L1.
  { pose proof (mounted_len f1 (1 - v) M1). rewrite Hb2. lia. }
  assert (mounted f2 /\ contents f2 (dev_of v) = contents f (dev_of v)) as [M2 K2].
  { subst f2. split; [|by rewrite write_frame].
    apply (mounted_lengths f1); [done|intros; by rewrite write_registry|]. intros d. by apply write_length. }
  assert (4 + len [0] <= len (contents f2 (dev_of v))) as L2.
  { pose proof (mounted_len f2 v M2) as L. rewrite nor_size in L. cbn [length]. lia. }
  destruct (Hin g Hg) as [-> | [-> | ->]]; [by split; auto..|].
  subst f3. split.
  - apply (mounted_lengths f2); [done|intros; by rewrite write_registry|]. intros d. by apply write_length.
  - right. destruct (write_touches f2 (dev_of v) 4 [0] ltac:(lia) L2) as (w & Hw & Hc).
    rewrite K2 in *. change (Z.to_nat 4) with 4%nat in *.
    assert (exists y, contents f (dev_of v) !! 4%nat = Some y) as [y Hy].
    { apply lookup_lt_is_Some. cbn [length] in L2. lia. }
    rewrite (drop_S _ y 4 Hy) in Hw. cbn [length take] in Hw.
    destruct w as [|x [|]]; [by inversion Hw| |by inversion Hw as [|? ? ? ? ? Hw']; inversion Hw'].
    exists x. split; [|done]. intros y' Hy'. rewrite Hy in Hy'. injection Hy' as <-. by inversion Hw.
Qed.

(** Clearing bits of the flag leaves a copy that checks. *)
Lemma classify_flagged c x :
  (size <= length c)%nat -> (forall y, c !! 4%nat = Some y -> programmed x y) ->
  classify sp (image_of c) <> Broken -> classify sp (image_of (splice 4 [x] c)) <> Broken.
Proof.
  intros Hl Hx. rewrite nor_size in Hl.
  destruct c as [|a0 [|a1 [|a2 [|a3 [|y r]]]]]; cbn [length] in Hl; try lia.
  specialize (Hx y eq_refl). unfold image_of.
  destruct (Z.to_nat NOR_ENV_MAX_SIZE) as [|[|[|[|[|k]]]]] eqn:Hk;
    [rewrite nor_size in Hk; done..|].
  unfold splice. cbn [length take drop app Nat.add]. unfold classify, crc_ok, word_of.
  cbn [drop lookup list_lookup]. destruct (env_crc32 _ _ _) as [crc|]; [|done].
  destruct (_ =? crc); [|done].
  destruct Hx as [->|Hx]; [by intros []|]. intros Hy.
  assert (y = 0 \/ y = 1) as [-> | ->] by (destruct y as [|[]|]; (auto || done)).
  - rewrite Z.land_0_l in Hx. by subst x.
  - assert (x = 0 \/ x = 1) as [-> | ->]; [|done..].
    rewrite Z.land_comm in Hx. change 1 with (Z.ones 1) in Hx. rewrite Z.land_ones in Hx by lia.
    pose proof (Z.mod_pos_bound x (2 ^ 1)). lia.
Qed.

Lemma choose_not_broken f v :
  v = 0 \/ v = 1 -> choose (kind f d0) (kind f d1) = Some (Z.to_nat v) -> kind f (dev_of v) <> Broken.
Proof.
  intros [-> | ->]; unfold dev_of; simpl; intros Hc Hk; rewrite Hk in Hc; [|by destruct (kind f d0)].
  by destruct (kind f d1).
Qed.

(** A boot on flash where the copy [v] checks takes it, or the other one, which
    then checks too. *)
Lemma choose_either g v :
  v = 0 \/ v = 1 -> kind g (dev_of v) <> Broken ->
  choose (kind g d0) (kind g d1) = Some (Z.to_nat v) \/
  choose (kind g d0) (kind g d1) = Some (Z.to_nat (1 - v)) /\ kind g (dev_of (1 - v)) <> Broken.
Proof.
  intros [-> | ->]; unfold dev_of; simpl; destruct (kind g d0), (kind g d1); auto; done.
Qed.

Lemma crc_ok_kind img : classify sp img <> Broken -> crc_ok sp img = true.
Proof. unfold classify. by destruct (crc_ok sp img). Qed.

Lemma drop_flagged c x :
  (size <= length c)%nat -> drop 5 (image_of (splice 4 [x] c)) = drop 5 (image_of c).
Proof.
  intros Hl. rewrite nor_size in Hl. unfold image_of.
  destruct c as [|a0 [|a1 [|a2 [|a3 [|y r]]]]]; cbn [length] in Hl; try lia.
  unfold splice. cbn [length take drop app Nat.add].
  by destruct (Z.to_nat NOR_ENV_MAX_SIZE) as [|[|[|[|[|k]]]]].
Qed.

Lemma crash_survives s b v rc s' new g :
  d0 <> d1 -> running s b v -> env_update s = Ok (rc, s') ->
  flash_log (wld s') = new ++ flash_log (wld s) -> crash_point (flash (wld s)) new v g ->
  survivor (flash (wld s)) g v.
Proof.
  intros Hne Hrun Hup Hlog [|g' Hg|g' Hg Hk|g' x Hg Hx Hk]; [|by eapply update_survives| |].
  - split; [by apply (run_flash _ _ _ Hrun)|auto].
  - split; auto.
  - split; eauto.
Qed.

(** When the chip does what it is told, a boot between two operations of an
    update loads the old variables or the new ones. *)
Lemma update_old_or_new s b v s' new g mem :
  flash_works -> d0 <> d1 -> running s b v -> length mem = size ->
  choose (kind (flash (wld s)) d0) (kind (flash (wld s)) d1) = Some (Z.to_nat v) ->
  env_update s = Ok (0, s') -> flash_log (wld s') = new ++ flash_log (wld s) ->
  g = flash (wld s) \/ g ∈ new ->
  exists s'' b'', prepare (boot sp g mem) = Ok (0, s'') /\ env_ptr s'' = Some b'' /\
    (drop 5 b'' = drop 5 (image_of (contents (flash (wld s)) (dev_of v))) \/ drop 5 b'' = drop 5 b).
Proof.
  intros Hw Hne Hrun Hmem Hboot Hup Hnew Hg.
  destruct (update_inv s b v s' Hw Hne Hrun Hup) as (crc & f1 & f2 & f3 & Hcrc & Hr & Hu & Hlog & _).
  pose proof (run_copy _ _ _ Hrun) as Hv. pose proof (run_flash _ _ _ Hrun) as Hm.
  enough (mounted g /\ (choose (kind g d0) (kind g d1) = Some (Z.to_nat v) /\
      contents g (dev_of v) = contents (flash (wld s)) (dev_of v) \/
    choose (kind g d0) (kind g d1) = Some (Z.to_nat (1 - v)) /\
      image_of (contents g (dev_of (1 - v))) = marked (stamped crc b))) as (Hg' & [[Hc Hk]|[Hc Hk]]).
  - do 2 eexists. split; [by apply (boot_takes 1 g mem v)|]. split; [done|]. left. by rewrite Hk.
  - do 2 eexists. split; [apply (boot_takes 1 g mem (1 - v)); (done || lia)|].
    split; [done|]. right. rewrite Hk. apply drop_marked.
    rewrite (run_len _ _ _ Hrun), nor_size. lia.
  - destruct Hg as [->|Hg]; [by auto|].
    rewrite Hlog in Hnew. apply (app_inv_tail _ [f3; f2; f1] new) in Hnew. subst new.
    assert (g = f1 \/ g = f2 \/ g = f3) as Hg'
      by (rewrite !elem_of_cons, elem_of_nil in Hg; tauto).
    split; [by eapply updated_mounted|]. eapply updated_choice; try done.
    by apply classify_written; destruct Hrun.
Qed.

(** [C1] Power failure during an update of the environment in serial flash.  The
    board is running ([running]: both partitions registered and large enough, the
    buffer loaded) and a boot would take copy [v].  Whatever the flash operations
    of [env_update] answer, and at whatever point it is cut off (before it, between
    two of its operations, inside the erase or the write of the unused copy, which
    may leave anything there, or inside the write of the flag of the copy in use),
    the next boot succeeds.  It loads the variables of copy [v], or the unused copy,
    and then only if the CRC of that copy checks: a torn copy is taken only when its
    CRC happens to match.  Of the chip only [FlashSpec] is assumed: reads answer what
    is there, erases and writes stay inside their partition, and a write touches no
    byte outside its range and clears bits only.  When the chip also carries out its
    erases and writes ([flash_works]), a boot between two operations of an update
    that answered 0 loads exactly the old or the new variables. *)
Theorem env_update_crash_safe (s s' : est F) (b mem : list Z) (v rc : Z) (new : list F) (g : F)
    (Hne : d0 <> d1) (Hrun : running s b v) (Hmem : length mem = size)
    (Hboot : choose (kind (flash (wld s)) d0) (kind (flash (wld s)) d1) = Some (Z.to_nat v))
    (Hup : env_update s = Ok (rc, s'))
    (Hnew : flash_log (wld s') = new ++ flash_log (wld s)) :
  (crash_point (flash (wld s)) new v g ->
   exists s'' b'', prepare (boot sp g mem) = Ok (0, s'') /\ env_ptr s'' = Some b'' /\
     (drop 5 b'' = drop 5 (image_of (contents (flash (wld s)) (dev_of v))) \/
      b'' = image_of (contents g (dev_of (1 - v))) /\ crc_ok sp b'' = true)) /\
  (flash_works -> rc = 0 -> g = flash (wld s) \/ g ∈ new ->
   exists s'' b'', prepare (boot sp g mem) = Ok (0, s'') /\ env_ptr s'' = Some b'' /\
     (drop 5 b'' = drop 5 (image_of (contents (flash (wld s)) (dev_of v))) \/
      drop 5 b'' = drop 5 b)).
Proof.
  split; [|intros Hw -> Hg; by eapply (update_old_or_new s b v s' new)].
  intros Hcrash.
  destruct (crash_survives s b v rc s' new g Hne Hrun Hup Hnew Hcrash) as (Hg & Hk).
  pose proof (run_copy _ _ _ Hrun) as Hv. pose proof (mounted_len _ v (run_flash _ _ _ Hrun)) as Hl.
  pose proof (choose_not_broken _ _ Hv Hboot) as Hb.
  assert (kind g (dev_of v) <> Broken /\ drop 5 (image_of (contents g (dev_of v)))
    = drop 5 (image_of (contents (flash (wld s)) (dev_of v)))) as [Hb' Hd].
  { destruct Hk as [->|(x & Hx & ->)]; [done|]. split; [by apply classify_flagged|by apply drop_flagged]. }
  destruct (choose_either g v Hv Hb') as [Hc|[Hc Hn]].
  - do 2 eexists. split; [by apply (boot_takes 1 g mem v)|]. split; [done|]. by left.
  - do 2 eexists. split; [apply (boot_takes 1 g mem (1 - v)); (done || lia)|].
    split; [done|]. right. split; [done|]. by apply crc_ok_kind.
Qed.

(** *** Reading and setting variables *)

(** What [wmt_getsyspara] answers on the variables [E]: the return code, the
    caller's array [W] and [*varlen] (initially [L]); running out of the array
    is a fault. *)
Definition get_result (E : env_list) (n W : list Z) (L : Z) : result (Z * list Z * Z) :=
  match lookup_var n E with
  | Some val =>
      if len val <? len W then
        Ok (if L <? len val then 1 else 0, val ++ 0 :: drop (S (length val)) W,
            if L <? len val then len val else L)
      else Fault Undefined
  | None =>
      match W with
      | [] => Fault Undefined
      | _ :: W' => Ok (1, 0 :: W', L)
      end
  end.

(** The semaphore is free and no signal is pending. *)
Definition idle (s : est F) : Prop := env_lock (wld s) = 1 /\ signals (wld s) = [].

Definition locked (s : est F) : est F :=
  let x := wld s in
  mkEst (mkWorld (strap x) (flash x) (flash_log x) (kmem x) 0 []) (env_ptr s) (st s).

Lemma down_idle s : idle s -> down_interruptible s = Ok (0, locked s).
Proof.
  intros [Hl Hs]. unfold down_interruptible, locked. destruct s as [[] ? ?]. simpl in *. by subst.
Qed.

Lemma up_locked s : idle s -> up (locked s) = Ok (tt, s).
Proof. intros [Hl Hs]. destruct s as [[] ? ?]. simpl in *. by subst. Qed.

Lemma running_locked s b v : running s b v -> running (locked s) b v.
Proof. destruct s as [[] ? []]. by intros []; split. Qed.

Lemma prepare_running s b v : running s b v -> prepare s = Ok (0, s).
Proof.
  destruct s as [[] ? []]. intros []. simpl in *. subst. unfold prepare. do 2 estep.
  by rewrite bool_decide_false.
Qed.

Lemma on_data_run {A} (m : M (list Z) A) s b v :
  running s b v ->
  on_data m s = match m (drop 5 b) with
                | Ok (a, d) => Ok (a, mkEst (wld s) (Some (take 5 b ++ d)) (st s))
                | Fault x => Fault x
                end.
Proof.
  intros []. apply on_data_spi; [by rewrite run_strap0|done].
Qed.

Lemma on_data_booted {A} (m : M (list Z) A) lk g mem b v n :
  on_data m (booted lk g mem b v n)
  = match m (drop 5 b) with
    | Ok (a, d) => Ok (a, booted lk g mem (take 5 b ++ d) v n)
    | Fault x => Fault x
    end.
Proof.
  exact (on_data_spi m (booted lk g mem b v n) b Hsp eq_refl).
Qed.

Lemma get_data_result E n W L d :
  Rep d E -> name_ok n -> 0 <= L ->
  get_data n W L d = match get_result E n W L with
                     | Ok (rc, W', L') => Ok ((W', L', rc), d)
                     | Fault x => Fault x
                     end.
Proof.
  intros HR Hn HL. unfold get_result. destruct (lookup_var n E) as [val|] eqn:Hl.
  - case_bool.
    + by erewrite get_present.
    + by eapply get_overrun.
  - destruct W as [|c W]; [|by eapply get_absent].
    destruct HR as [HE (R & -> & _)]. destruct (find_var_absent n E R Hn HE Hl) as [nx Hf].
    unfold get_data. erewrite bind_ok by exact Hf. done.
Qed.

(** The two calls, from the moment the environment is in the buffer. *)
Lemma get_running s b v E n W L :
  running s b v -> idle s -> Rep (drop 5 b) E -> name_ok n -> 0 <= L ->
  wmt_getsyspara n W L s = match get_result E n W L with
                           | Ok r => Ok (r, s)
                           | Fault x => Fault x
                           end.
Proof.
  intros Hrun Hi HR Hn HL. unfold wmt_getsyspara.
  erewrite bind_ok by by apply down_idle.
  pose proof (running_locked _ _ _ Hrun) as Hrl.
  erewrite bind_ok by by eapply prepare_running. change (0 =? 0) with true. cbv iota.
  pose proof (on_data_run (get_data n W L) _ _ _ Hrl) as Hd.
  rewrite (get_data_result E) in Hd by done.
  destruct (get_result E n W L) as [[[rc W'] L']|x]; cycle 1.
  { by apply bind_fault, bind_fault. }
  rewrite take_drop, <- (run_buf _ _ _ Hrl) in Hd.
  assert (mkEst (wld (locked s)) (env_ptr (locked s)) (st (locked s)) = locked s) as Hs by done.
  rewrite Hs in Hd. erewrite bind_ok; [|by erewrite bind_ok by exact Hd].
  by erewrite bind_ok by by apply up_locked.
Qed.

(** [C14] [wmt_getsyspara] on a loaded environment, all branches: the value of
    the first variable of that name and its NUL are copied, the code is 0, or
    1 with [*varlen] set to the length when that is larger than [*varlen]; an
    unknown name gives code 1 and an empty string; an array without room for
    the value and its NUL is overrun.  The state does not change. *)
Theorem wmt_getsyspara_spec (s : est F) (b : list Z) (v : Z) (E : env_list) (n W : list Z) (L : Z)
    (Hrun : running s b v) (Hidle : idle s) (HR : Rep (drop 5 b) E) (Hn : name_ok n) (HL : 0 <= L) :
  wmt_getsyspara n W L s = match get_result E n W L with
                           | Ok r => Ok (r, s)
                           | Fault x => Fault x
                           end.
Proof. by eapply get_running. Qed.

(** After a reset, on a flash whose copy [v] is the current one. *)
Lemma get_booted g mem v E n W L :
  mounted g -> length mem = size -> v = 0 \/ v = 1 ->
  choose (kind g d0) (kind g d1) = Some (Z.to_nat v) ->
  Rep (drop 5 (image_of (contents g (dev_of v)))) E -> name_ok n -> 0 <= L ->
  exists s', wmt_getsyspara n W L (boot sp g mem) = match get_result E n W L with
                                                    | Ok r => Ok (r, s')
                                                    | Fault x => Fault x
                                                    end.
Proof.
  intros Hg Hm Hv Hc HR Hn HL.
  set (b := image_of (contents g (dev_of v))) in *.
  assert (idle (booted 1 g mem b v (1 - v))) as Hi by done.
  exists (booted 1 g mem b v (1 - v)).
  unfold wmt_getsyspara. erewrite bind_ok by by apply down_idle.
  erewrite bind_ok by (by apply (boot_takes 0 g mem v)). fold b.
  change (0 =? 0) with true. cbv iota.
  pose proof (on_data_booted (get_data n W L) 0 g mem b v (1 - v)) as Hd.
  rewrite (get_data_result E) in Hd by done.
  destruct (get_result E n W L) as [[[rc W'] L']|x]; cycle 1.
  { by apply bind_fault, bind_fault. }
  rewrite take_drop in Hd. erewrite bind_ok; [|by erewrite bind_ok by exact Hd]. done.
Qed.

Lemma update_works f dv dn b2 :
  flash_works -> dv <> dn -> length b2 = size ->
  (size <= length (contents f dv))%nat -> (size <= length (contents f dn))%nat ->
  let '(e0, f1) := mtd_erase f dn 0 (mtd_size f dn) in
  let '(e1, f2) := mtd_write f1 dn 0 b2 in
  let '(e2, f3) := mtd_write f2 dv 4 [0] in
  e0 = 0 /\ e1 = 0 /\ e2 = 0.
Proof.
  intros [He Hw _ _] Hne Hb Hv Hn.
  destruct (mtd_erase f dn 0 (mtd_size f dn)) as [e0 f1] eqn:He0.
  destruct (mtd_write f1 dn 0 b2) as [e1 f2] eqn:He1.
  destruct (mtd_write f2 dv 4 [0]) as [e2 f3] eqn:He2.
  assert (e0 = 0) as -> by (destruct (He f dn Hn) as [E _]; by rewrite He0 in E).
  pose proof (erase_length f dn 0 (mtd_size f dn)) as L1. rewrite He0 in L1. cbn [snd] in L1.
  assert (contents f2 dv = contents f dv) as K2.
  { pose proof (erase_frame f dn 0 (mtd_size f dn) dv Hne) as K. rewrite He0 in K.
    pose proof (write_frame f1 dn 0 b2 dv Hne) as K'. rewrite He1 in K'. simpl in *. congruence. }
  split_and!; [done| |].
  - specialize (Hw f1 dn 0 b2 ltac:(lia)). rewrite He1 in Hw. apply Hw.
    rewrite size_contents, L1. lia.
  - specialize (Hw f2 dv 4 [0] ltac:(lia)). rewrite He2 in Hw. apply Hw.
    rewrite size_contents, K2. rewrite nor_size in Hv. cbn [length]. lia.
Qed.

Lemma update_total s b v :
  d0 <> d1 -> running s b v ->
  exists rc s', env_update s = Ok (rc, s') /\ (rc = 0 \/ rc = 1) /\ (flash_works -> rc = 0) /\
    env_lock (wld s') = env_lock (wld s) /\ signals (wld s') = signals (wld s).
Proof.
  intros Hne Hrun. destruct s as [[? fl ? ? ? ?] ? []]. destruct Hrun. simpl in *. subst.
  pose proof run_flash0 as (_ & _ & Hl0 & Hl1).
  erewrite (env_update_run _ _ _ _ _ _ _ _ _ _ d0 d1)
    by (done || lia || (apply dev_of_lookup; lia)).
  unfold env_update_result.
  destruct (env_crc32_run NOR_ENV_MAX_SIZE sp (drop 5 b)) as (crc & -> & _).
  { rewrite nor_size. lia. }
  { rewrite length_drop, run_len0. unfold crc_len.
    pose proof (land_6 _ Hsp) as Hn. unfold is_nand in Hn. rewrite Hn, nor_size. lia. }
  cbv zeta. pose proof (fun W => update_works fl (dev_of v) (dev_of (1 - v))
    (marked (stamped crc b)) W (dev_of_ne v Hne run_copy0)) as Hworks.
  rewrite length_marked, length_stamped in Hworks by (rewrite run_len0, nor_size; lia).
  destruct (mtd_erase _ _ _ _) as [e0 f1]. destruct (mtd_write f1 _ _ _) as [e1 f2].
  destruct (mtd_write f2 _ _ _) as [e2 f3].
  assert (flash_works -> e0 = 0 /\ e1 = 0 /\ e2 = 0) as Hw
    by (intros W; apply Hworks; [done..|by apply mounted_len|by apply mounted_len]).
  destruct (Z.eqb_spec e0 0), (Z.eqb_spec e1 0), (Z.eqb_spec e2 0); cbn [negb];
    do 2 eexists; (split; [reflexivity|]); split_and!; try reflexivity;
    first [by left|by right|intros W; by destruct (Hw W) as (? & ? & ?)].
Qed.

Lemma classify_flag img : classify sp img = Current -> img !! 4%nat = Some 1.
Proof.
  unfold classify. destruct (crc_ok sp img); [|done].
  by destruct (img !! 4%nat) as [[|[]|]|].
Qed.

(** After a successful update the driver runs on the other copy, which is the
    one a boot takes. *)
Lemma update_running s b v s' :
  flash_works -> d0 <> d1 -> running s b v -> env_update s = Ok (0, s') ->
  exists b', running s' b' (1 - v) /\ drop 5 b' = drop 5 b /\
    choose (kind (flash (wld s')) d0) (kind (flash (wld s')) d1) = Some (Z.to_nat (1 - v)) /\
    image_of (contents (flash (wld s')) (dev_of (1 - v))) = b'.
Proof.
  intros Hw Hne Hrun Hup.
  destruct (update_inv s b v s' Hw Hne Hrun Hup)
    as (crc & f1 & f2 & f3 & Hcrc & Hr & Hu & _ & Hf & _ & _ & Hs & Hp & Hst).
  pose proof (run_copy _ _ _ Hrun) as Hv. pose proof (run_flash _ _ _ Hrun) as Hm.
  pose proof (run_len _ _ _ Hrun) as Hl.
  assert (5 <= length b)%nat by (rewrite Hl, nor_size; lia).
  assert (classify sp (marked (stamped crc b)) = Current) as Hk
    by (by apply classify_written; destruct Hrun).
  exists (marked (stamped crc b)). rewrite Hf. split_and!.
  - split; rewrite ?Hst, ?Hf; try done; try lia.
    + by eapply updated_mounted; eauto.
    + by rewrite length_marked, length_stamped by lia.
    + right. by apply classify_flag.
    + simpl. lia.
  - by apply drop_marked.
  - apply choose_current; [lia| |].
    + by rewrite (up_new3 _ _ _ _ _ _ _ Hu), (up_new2 _ _ _ _ _ _ _ Hu).
    + replace (1 - (1 - v)) with v by lia. rewrite (up_mark3 _ _ _ _ _ _ _ Hu).
      by apply classify_zeroed, mounted_len.
  - by rewrite (up_new3 _ _ _ _ _ _ _ Hu), (up_new2 _ _ _ _ _ _ _ Hu).
Qed.

(** The buffer with new data after its header. *)
Lemma running_data s b v d :
  running s b v -> length d = length (drop 5 b) ->
  running (mkEst (wld s) (Some (take 5 b ++ d)) (st s)) (take 5 b ++ d) v.
Proof.
  intros [] Hd. assert (5 <= length b)%nat by (rewrite run_len0, nor_size; lia).
  split; try done.
  - rewrite length_app, Hd, length_take, length_drop. lia.
  - rewrite lookup_app_l, lookup_take_lt; [done|lia|rewrite length_take; lia].
Qed.

Lemma drop_header (b d : list Z) : (5 <= length b)%nat -> drop 5 (take 5 b ++ d) = d.
Proof. intros. apply drop_app_length'. rewrite length_take. lia. Qed.

(** What a caller of [wmt_setsyspara] can rely on when the data now holds the
    variables [E'] and [env_update] has run. *)
Definition stored (s' : est F) (v : Z) (E' : env_list) : Prop :=
  idle s' /\
  (exists b', running s' b' v /\ Rep (drop 5 b') E') /\
  (forall mem m W L, length mem = size -> name_ok m -> 0 <= L ->
    exists s2, wmt_getsyspara m W L (boot sp (flash (wld s')) mem)
    = match get_result E' m W L with Ok r => Ok (r, s2) | Fault x => Fault x end).

Lemma set_running s b v E' n val d' :
  d0 <> d1 -> running s b v -> idle s -> length d' = length (drop 5 b) -> Rep d' E' ->
  edit_data NOR_ENV_MAX_SIZE n val (drop 5 b) = Ok (inr tt, d') ->
  exists rc s', wmt_setsyspara n val s = Ok (rc, s') /\ (rc = 0 \/ rc = 1) /\
    (flash_works -> rc = 0 /\ stored s' (1 - v) E').
Proof.
  intros Hne Hrun Hi Hd HR He. unfold wmt_setsyspara.
  assert (5 <= length b)%nat by (rewrite (run_len _ _ _ Hrun), nor_size; lia).
  erewrite bind_ok by by apply down_idle.
  pose proof (running_locked _ _ _ Hrun) as Hrl.
  erewrite bind_ok by by eapply prepare_running. change (0 =? 0) with true. cbv iota.
  pose proof (on_data_run (edit_data NOR_ENV_MAX_SIZE n val) _ _ _ Hrl) as Hod.
  rewrite He in Hod. pose proof (running_data _ _ _ d' Hrl Hd) as Hrd.
  destruct (update_total _ _ _ Hne Hrd) as (rc & s1 & Hup & Hrc & Hw & Hlk & Hsg).
  erewrite bind_ok; cycle 1.
  { erewrite bind_ok by reflexivity. rewrite (run_size _ _ _ Hrl).
    erewrite bind_ok by exact Hod. cbv beta iota. erewrite bind_ok by exact Hup. reflexivity. }
  erewrite bind_ok by reflexivity. do 2 eexists. split; [reflexivity|].
  split; [case_bool; auto|]. intros Hwk. specialize (Hw Hwk). subst rc. split; [done|].
  destruct (update_running _ _ _ _ Hwk Hne Hrd Hup) as (b' & Hr' & Hb' & Hc & Hk).
  rewrite drop_header in Hb' by done. simpl in Hlk, Hsg.
  split; [|split].
  - split; simpl; [rewrite Hlk; done|done].
  - exists b'. split; [|by rewrite Hb']. by destruct Hr'; split.
  - intros mem m W L Hmem Hm HL. apply (get_booted _ mem (1 - v) E'); try done.
    + by destruct Hr'.
    + pose proof (run_copy _ _ _ Hrun). lia.
    + simpl. by rewrite Hk, Hb'.
Qed.

(** [C3] Setting a variable.  The board is running from serial flash, the
    semaphore is free, the buffer represents the variables [E], the name and the
    value are well formed and not empty, neither the name nor a variable before it
    is [baudrate], and the new list fits in the data area.  Then [wmt_setsyspara]
    returns 0 or 1.  When the chip carries out its erases and writes
    ([flash_works]; the driver's answer does not tell), it returns 0 and every call
    of [wmt_getsyspara], before or after a reset, answers from the list in which
    the first definition of the name is removed and the new one added at the end.
    In that list the other variables are unchanged; the new value is the one read
    back when no name is defined twice in [E] (a second, older definition of the
    name would hide it), and then no name is defined twice afterwards either. *)
Theorem wmt_setsyspara_stores (s : est F) (b : list Z) (v : Z) (E : env_list) (n val : list Z)
    (Hne : d0 <> d1) (Hrun : running s b v) (Hidle : idle s) (HR : Rep (drop 5 b) E)
    (Hn : name_ok n) (Hval : val_ok val) (Hval0 : val <> []) (Hbaud : baud_free n (Some val) E)
    (Hfit : used (remove_var n E) + len n + len val + 3 <= NOR_ENV_MAX_SIZE - 5) :
  exists rc s', wmt_setsyspara n (Some val) s = Ok (rc, s') /\ (rc = 0 \/ rc = 1) /\
    (flash_works -> rc = 0 /\ stored s' (1 - v) (set_var n val E)) /\
    (forall m, m <> n -> lookup_var m (set_var n val E) = lookup_var m E) /\
    (NoDup (names E) -> lookup_var n (set_var n val E) = Some val /\ NoDup (names (set_var n val E))).
Proof.
  pose proof (run_len _ _ _ Hrun) as Hl.
  assert (len (drop 5 b) = NOR_ENV_MAX_SIZE - 5) as Hd
    by (rewrite length_drop, Hl, nor_size; lia).
  destruct (edit_set NOR_ENV_MAX_SIZE n val E (drop 5 b)) as (d' & He & HR' & Hl'); try done.
  - rewrite Hd, nor_size. lia.
  - lia.
  - destruct (set_running s b v _ n (Some val) d' Hne Hrun Hidle Hl' HR' He) as (rc & s' & ? & ? & ?).
    exists rc, s'. split_and!; try done; [intros; by apply lookup_set_ne|].
    intros HE. by destruct (set_var_unique n val E HE).
Qed.

(** Deleting a variable.  With a null or empty value [wmt_setsyspara] of a
    variable that exists (other than [baudrate]) returns; when the chip carries
    out its writes the code is 0 and the variable's first definition is gone,
    also after a reset. *)
Theorem wmt_setsyspara_deletes (s : est F) (b : list Z) (v : Z) (E : env_list) (n old : list Z)
    (val : option (list Z))
    (Hne : d0 <> d1) (Hrun : running s b v) (Hidle : idle s) (HR : Rep (drop 5 b) E)
    (Hn : name_ok n) (Hval : val = None \/ val = Some []) (Hbaud : n <> bytes "baudrate")
    (Hold : lookup_var n E = Some old) :
  exists rc s', wmt_setsyspara n val s = Ok (rc, s') /\ (rc = 0 \/ rc = 1) /\
    (flash_works -> rc = 0 /\ stored s' (1 - v) (remove_var n E)).
Proof.
  destruct (edit_delete NOR_ENV_MAX_SIZE n val E (drop 5 b)) as (d' & He & HR' & Hl'); try done.
  { right. by left. }
  rewrite Hold in He. by apply (set_running s b v _ n val d').
Qed.

(** [C15] The copy a boot takes.  With both partitions registered the first call
    loads the first copy that has a correct CRC and the flag 1; without one,
    the last that has a correct CRC and the flag 0; without that it fails. *)
Theorem boot_takes_chosen_copy (g : F) (mem : list Z) (Hg : mounted g) (Hmem : length mem = size) :
  prepare (boot sp g mem)
  = match choose (kind g d0) (kind g d1) with
    | Some 0%nat => Ok (0, booted 1 g mem (image_of (contents g d0)) 0 1)
    | Some _ => Ok (0, booted 1 g mem (image_of (contents g d1)) 1 0)
    | None => Ok (1, booted 1 g mem (image_of (contents g d1)) 0xFF 0xFF)
    end.
Proof. by apply boot_prepare. Qed.

(** *** The paths on which the code goes wrong *)

Lemma set_prefix s b v n val :
  running s b v -> idle s ->
  wmt_setsyspara n val s
  = match edit_data NOR_ENV_MAX_SIZE n val (drop 5 b) with
    | Fault x => Fault x
    | Ok (inl rc, d) =>
        Ok (rc, mkEst (wld s) (Some (take 5 b ++ d)) (st s))
    | Ok (inr _, d) =>
        (rc ← env_update; up;; mret (if rc =? 0 then 0 else 1))
          (mkEst (wld (locked s)) (Some (take 5 b ++ d)) (st s))
    end.
Proof.
  intros Hrun Hi. unfold wmt_setsyspara. erewrite bind_ok by by apply down_idle.
  pose proof (running_locked _ _ _ Hrun) as Hrl.
  erewrite bind_ok by by eapply prepare_running. change (0 =? 0) with true. cbv iota.
  pose proof (on_data_run (edit_data NOR_ENV_MAX_SIZE n val) _ _ _ Hrl) as Hod.
  destruct (edit_data NOR_ENV_MAX_SIZE n val (drop 5 b)) as [[[rc|u] d]|x].
  - erewrite bind_ok; cycle 1.
    { erewrite bind_ok by reflexivity. rewrite (run_size _ _ _ Hrl).
      erewrite bind_ok by exact Hod. reflexivity. }
    destruct Hi as [Hl Hs]. destruct s as [[] ? ?]. simpl in *. by subst.
  - unfold mbind at 1, M_bind at 1. erewrite bind_ok by reflexivity.
    rewrite (run_size _ _ _ Hrl). erewrite bind_ok by exact Hod.
    unfold mbind, M_bind. simpl.
    by destruct (env_update _) as [[rc s1]|].
  - apply bind_fault. erewrite bind_ok by reflexivity. rewrite (run_size _ _ _ Hrl).
    by apply bind_fault.
Qed.

(** [C39] The test for room in [wmt_setsyspara] admits strings that do not fit:
    it compares with the size of the whole copy, not of its data, and counts
    one closing NUL of two.  With at most 6 bytes too many the string is
    written past the end of the buffer. *)
Theorem wmt_setsyspara_overruns (s : est F) (b : list Z) (v : Z) (E : env_list) (n val : list Z)
    (Hrun : running s b v) (Hidle : idle s) (HR : Rep (drop 5 b) E)
    (Hn : name_ok n) (Hval0 : val <> []) (Hbaud : baud_free n (Some val) E)
    (Hover : NOR_ENV_MAX_SIZE - 5 < used (remove_var n E) + len n + len val + 3
             <= NOR_ENV_MAX_SIZE - 5 + 6) :
  wmt_setsyspara n (Some val) s = Fault Undefined.
Proof.
  rewrite (set_prefix s b v) by done. erewrite edit_out_of_bounds; try done; [lia|].
  rewrite length_drop, (run_len _ _ _ Hrun), nor_size in *. lia.
Qed.

(** A value that the test does refuse has already lost its old definition in
    memory, while the flash keeps it. *)
Lemma set_refused_forgets s b v E n val :
  running s b v -> idle s -> Rep (drop 5 b) E -> name_ok n -> val <> [] ->
  baud_free n (Some val) E ->
  NOR_ENV_MAX_SIZE - 5 + 6 < used (remove_var n E) + len n + len val + 3 ->
  exists s' b', wmt_setsyspara n (Some val) s = Ok (1, s') /\ flash (wld s') = flash (wld s) /\
    running s' b' v /\ Rep (drop 5 b') (remove_var n E).
Proof.
  intros Hrun Hi HR Hn Hv Hb Hf. rewrite (set_prefix s b v) by done.
  destruct (edit_full NOR_ENV_MAX_SIZE n val E (drop 5 b)) as (d' & -> & HR' & Hl); try done; [lia|].
  do 2 eexists. split; [done|]. split; [done|]. split; [by apply running_data|].
  rewrite drop_header; [done|]. rewrite (run_len _ _ _ Hrun), nor_size. lia.
Qed.

(** Deleting [baudrate] with a null value dereferences it. *)
Lemma delete_baudrate_null s b v E old :
  running s b v -> idle s -> Rep (drop 5 b) E -> lookup_var (bytes "baudrate") E = Some old ->
  wmt_setsyspara (bytes "baudrate") None s = Fault Undefined.
Proof.
  intros Hrun Hi [HE (R & HR & _)] Hl. rewrite (set_prefix s b v), HR by done.
  destruct (lookup_split _ _ _ Hl) as (E1 & E2 & -> & H1 & _).
  assert (name_ok (bytes "baudrate")) as Hn by (by repeat constructor).
  assert (edit_data NOR_ENV_MAX_SIZE (bytes "baudrate") None
    (flat (E1 ++ (bytes "baudrate", old) :: E2) ++ 0 :: R) = Fault Undefined) as ->; [|done].
  unfold edit_data. erewrite bind_ok by (by apply find_var_present). cbv beta iota.
  apply bind_fault. destruct (Z.leb_spec 0 (len (flat E1) + len (bytes "baudrate") + 1)); [|lia].
  apply bind_fault. reflexivity.
Qed.

(** An interrupted wait is not an error to [wmt_getsyspara]: it goes on without
    the semaphore and then releases it, which leaves the count at 2. *)
Lemma get_interrupted s b v E n W L r :
  running s b v -> env_lock (wld s) = 1 -> signals (wld s) = [true] ->
  Rep (drop 5 b) E -> name_ok n -> 0 <= L -> get_result E n W L = Ok r ->
  exists s', wmt_getsyspara n W L s = Ok (r, s') /\ env_lock (wld s') = 2.
Proof.
  intros Hrun Hl Hs HR Hn HL Hr.
  set (s1 := mkEst (mkWorld (strap (wld s)) (flash (wld s)) (flash_log (wld s)) (kmem (wld s)) 1 [])
    (env_ptr s) (st s)).
  assert (running s1 b v) as Hr1 by (by destruct Hrun; split).
  unfold wmt_getsyspara. rewrite (bind_ok _ _ _ (-4) s1).
  2:{ unfold down_interruptible. by rewrite Hs, Hl. }
  erewrite bind_ok by by eapply prepare_running. change (0 =? 0) with true. cbv iota.
  pose proof (on_data_run (get_data n W L) _ _ _ Hr1) as Hd.
  rewrite (get_data_result E), Hr in Hd by done. destruct r as [[rc W'] L'].
  erewrite bind_ok; [|by erewrite bind_ok by exact Hd].
  eexists. split; [reflexivity|]. done.
Qed.

(** A failed start is not remembered.  With no intact copy the first
    [wmt_getsyspara] reports failure, but it leaves [mtd_init] set and the last
    copy read in the buffer, so the next call answers from that copy although
    its CRC was wrong. *)
Theorem failed_init_is_forgotten (g : F) (mem n W : list Z) (L : Z) (E : env_list)
    (Hg : mounted g) (Hmem : length mem = size)
    (Hbroken : kind g d0 = Broken /\ kind g d1 = Broken)
    (HR : Rep (drop 5 (image_of (contents g d1))) E) (Hn : name_ok n) (HL : 0 <= L) :
  exists s', wmt_getsyspara n W L (boot sp g mem) = Ok ((1, W, L), s') /\
    wmt_getsyspara n W L s' = match get_result E n W L with
                              | Ok r => Ok (r, s')
                              | Fault x => Fault x
                              end.
Proof.
  set (b := image_of (contents g d1)) in *.
  exists (booted 1 g mem b 0xFF 0xFF). split.
  - assert (idle (boot sp g mem)) as Hi by done.
    unfold wmt_getsyspara. erewrite bind_ok by by apply down_idle.
    pose proof (boot_prepare 0 g mem Hg Hmem) as Hp.
    destruct Hbroken as [B0 B1]. fold b in Hp. rewrite B0, B1 in Hp. by erewrite bind_ok by exact Hp.
  - unfold wmt_getsyspara. erewrite bind_ok by reflexivity.
    erewrite (bind_ok _ _ _ 0 (booted 0 g mem b 0xFF 0xFF)) by reflexivity.
    change (0 =? 0) with true. cbv iota.
    pose proof (on_data_booted (get_data n W L) 0 g mem b 0xFF 0xFF) as Hd.
    rewrite (get_data_result E) in Hd by done.
    destruct (get_result E n W L) as [[[rc W'] L']|x]; cycle 1.
    { by apply bind_fault, bind_fault. }
    rewrite take_drop in Hd. erewrite bind_ok; [|by erewrite bind_ok by exact Hd]. done.
Qed.
End Boot.

(** ** Before the MTD driver is up *)

Section BeforeMtd.
Context {F : Type} `{FlashOps F}.
Context (sp : Z) (Hsp : Z.land (Z.shiftr sp 1) 3 = 0).
Context (f : F) (lg : list F) (km : option (list Z)) (lk : Z) (sg : list bool) (nb : Z).
Context (Hnone : get_mtd_device_nm f SF_UBOOT_ENV1 = None) (Hmap : ioremap_ok f = true).

Abbreviation size := (Z.to_nat NOR_ENV_MAX_SIZE).
Abbreviation early b z v n vo io r :=
  (mkEst (mkWorld sp f lg km lk sg) (Some b) (mkStatics z v n nb vo io 0 r [None; None])).

(** The two copies, where [boot_partitions] has them. *)
Definition OFFS1 : Z := 0x00FD0000.
Definition OFFS2 : Z := 0x00FE0000.
Abbreviation C1 := (memcpy_fromio f OFFS1 NOR_ENV_MAX_SIZE).
Abbreviation C2 := (memcpy_fromio f OFFS2 NOR_ENV_MAX_SIZE).
Context (Hl1 : length C1 = size) (Hl2 : length C2 = size).

Lemma scan_partitions_run s :
  scan_partitions SPI_FLASH_TYPE s = Ok ((3, 4, Some OFFS1, Some OFFS2, 2), s) :> result (_ * est F).
Proof. unfold scan_partitions. by vm_compute (for_each _ _ _). Qed.

Lemma early_crc_run b z v n vo io r :
  length b = size -> z = NOR_ENV_MAX_SIZE ->
  exists crc, crc_at 5 (early b z v n vo io r) = Ok (crc, early b z v n vo io r) /\
    env_crc32 NOR_ENV_MAX_SIZE sp (drop 5 b) = Ok crc.
Proof.
  intros Hb ->.
  destruct (env_crc32_run NOR_ENV_MAX_SIZE sp (drop 5 b)) as (crc & Hc & Hr & _).
  - rewrite nor_size. lia.
  - unfold crc_len. pose proof (land_6 _ Hsp) as Hn. unfold is_nand in Hn.
    rewrite Hn, length_drop, Hb, nor_size. lia.
  - exists crc. split; [|done]. unfold crc_at. do 3 estep. by rewrite Hc.
Qed.

Lemma read_before_run b v n vo io i :
  length b = size -> i = 0 \/ i = 1 ->
  let o := if i =? 0 then OFFS1 else OFFS2 in
  let o' := if i =? 0 then OFFS2 else OFFS1 in
  let c := memcpy_fromio f o NOR_ENV_MAX_SIZE in
  read_before_body (3, 4) (Some OFFS1, Some OFFS2) i (early b NOR_ENV_MAX_SIZE v n vo io false)
  = match classify sp c with
    | Current => Ok (inr 0, early c NOR_ENV_MAX_SIZE (3 + i) (4 - i) o o' true)
    | _ => Ok (inl (i + 1), early c NOR_ENV_MAX_SIZE v n vo io false)
    end.
Proof.
  intros Hb Hi o o' c. unfold read_before_body.
  assert (length c = size) as Hc by (unfold c, o; by destruct Hi as [-> | ->]).
  estep. replace (negb (bool_decide (is_Some None))) with true by done.
  assert (((if i =? 0 then (3, 4).1 else (3, 4).2) =? ENV_INVALID) = false) as Hinv
    by (by destruct Hi as [-> | ->]).
  rewrite Hinv. cbn [negb andb]. estep. rewrite Hmap. cbn [negb].
  erewrite (bind_ok _ _ _ o (early b NOR_ENV_MAX_SIZE v n vo io false))
    by (unfold o; by destruct Hi as [-> | ->]).
  do 3 estep. fold c. rewrite overlay_all by by rewrite Hc, Hb.
  destruct (c !! 4%nat) as [fl|] eqn:Hfl; cycle 1.
  { apply lookup_ge_None in Hfl. rewrite Hc, nor_size in Hfl. lia. }
  erewrite bind_ok; [|unfold get_flags; estep; rewrite Hfl; reflexivity].
  destruct (early_crc_run c NOR_ENV_MAX_SIZE v n vo io false Hc eq_refl) as (crc & Hrun & Hcrc).
  unfold classify, crc_ok. rewrite Hcrc, Hfl. destruct (Z.eqb_spec fl 1) as [->|Hne].
  - erewrite bind_ok by exact Hrun. estep.
    destruct (word_of c =? crc); [|done].
    by destruct Hi as [-> | ->].
  - destruct (word_of c =? crc); [|done]. destruct fl as [|[]|]; done.
Qed.

(** The whole of [env_init] while no MTD device is registered. *)
Lemma env_init_before b z v n vo io :
  length b = size ->
  env_init (early b z v n vo io false)
  = match classify sp C1, classify sp C2 with
    | Current, _ => Ok (0, early C1 NOR_ENV_MAX_SIZE 3 4 OFFS1 OFFS2 true)
    | _, Current => Ok (0, early C2 NOR_ENV_MAX_SIZE 4 3 OFFS2 OFFS1 true)
    | _, _ => Ok (1, early C2 NOR_ENV_MAX_SIZE v n vo io false)
    end.
Proof.
  intros Hb. unfold env_init.
  replace (64 * 1024) with NOR_ENV_MAX_SIZE by (by rewrite nor_size).
  estep. rewrite Hsp. estep. cbv beta iota zeta delta [bootflash_of].
  change (0 =? 0) with true. cbv iota. do 2 estep. rewrite Hnone.
  erewrite bind_ok by apply scan_partitions_run. cbv beta iota. estep.
  change (SPI_FLASH_TYPE =? NAND_FLASH_TYPE) with false.
  change ((SPI_FLASH_TYPE =? SPI_FLASH_TYPE) || _)%bool with true. cbv iota.
  unfold read_env_before_mtd_init. estep.
  pose proof (read_before_run b v n vo io 0 Hb ltac:(by left)) as B0.
  pose proof (read_before_run C1 v n vo io 1 Hl1 ltac:(by right)) as B1.
  cbv zeta in B0, B1. cbn [Z.eqb Z.add Z.sub Z.opp Z.pos_sub Pos.add Pos.pred_double] in B0, B1.
  destruct (classify sp C1) eqn:K1.
  - by eapply loop_exit.
  - erewrite loop_next by exact B0. destruct (classify sp C2) eqn:K2;
      [by eapply loop_exit|erewrite loop_next by exact B1; by eapply loop_exit..].
  - erewrite loop_next by exact B0. destruct (classify sp C2) eqn:K2;
      [by eapply loop_exit|erewrite loop_next by exact B1; by eapply loop_exit..].
Qed.

(** [mtd_table[env_invalid]] with an index from the partition table. *)
Lemma env_update_bad_index b v n vo io r :
  length b = size -> 2 <= n -> env_update (early b NOR_ENV_MAX_SIZE v n vo io r) = Fault Undefined.
Proof.
  intros Hb Hn. unfold env_update. estep. rewrite Hsp.
  change (0 =? 0) with true. cbv iota.
  change (SPI_FLASH_TYPE =? NAND_FLASH_TYPE) with false. cbv iota.
  destruct (early_crc_run b NOR_ENV_MAX_SIZE v n vo io r Hb eq_refl) as (crc & Hrun & _).
  erewrite bind_ok by exact Hrun.
  erewrite bind_ok by (unfold set_crc; estep; reflexivity). estep.
  apply bind_fault. unfold mtd_at. estep.
  destruct (Z.ltb_spec n 2); [lia|]. by rewrite andb_false_r.
Qed.

(** The copy a call finds before MTD is up. *)
Definition early_copy (c : list Z) : Prop :=
  classify sp C1 = Current /\ c = C1 \/
  classify sp C1 <> Current /\ classify sp C2 = Current /\ c = C2.
End BeforeMtd.

Lemma prepare_before {F : Type} `{FlashOps F} sp (f : F) mem c lk :
  Z.land (Z.shiftr sp 1) 3 = 0 ->
  get_mtd_device_nm f SF_UBOOT_ENV1 = None -> ioremap_ok f = true ->
  length mem = Z.to_nat NOR_ENV_MAX_SIZE ->
  (forall o, length (memcpy_fromio f o NOR_ENV_MAX_SIZE) = Z.to_nat NOR_ENV_MAX_SIZE) ->
  early_copy sp f c ->
  exists v i vo io, 2 <= i /\ length c = Z.to_nat NOR_ENV_MAX_SIZE /\
    prepare (boot_with lk sp f mem)
    = Ok (0, mkEst (mkWorld sp f [] (Some mem) lk []) (Some c)
               (mkStatics NOR_ENV_MAX_SIZE v i 0 vo io 0 true [None; None])).
Proof.
  intros Hsp Hnone Hmap Hmem Hlen Hc.
  pose proof (env_init_before sp Hsp f [] (Some mem) lk [] 0 Hnone Hmap (Hlen _) (Hlen _)
    mem 0 0xFF 0xFF 0 0 Hmem) as Hi.
  assert (forall rc s, env_init (mkEst (mkWorld sp f [] (Some mem) lk []) (Some mem)
      (mkStatics 0 0xFF 0xFF 0 0 0 0 false [None; None])) = Ok (rc, s) ->
    prepare (boot_with lk sp f mem) = Ok (if rc =? 0 then 0 else 1, s)) as Hp.
  { intros rc s Hr. unfold prepare, boot_with.
    do 2 estep. change (_ || _)%bool with true. cbv iota.
    erewrite bind_ok; [|estep; do 2 estep; reflexivity]. cbv iota.
    by erewrite bind_ok by exact Hr. }
  destruct Hc as [[K1 ->]|(K1 & K2 & ->)].
  - exists 3, 4, OFFS1, OFFS2. split; [lia|]. split; [done|].
    rewrite K1 in Hi. apply (Hp _ _ Hi).
  - exists 4, 3, OFFS2, OFFS1. split; [lia|]. split; [done|]. rewrite K2 in Hi.
    destruct (classify sp (memcpy_fromio f OFFS1 _)); [done|apply (Hp _ _ Hi)..].
Qed.

(** Before the MTD driver has registered its devices the two copies are
    read through the mapped flash: [wmt_getsyspara] answers from the first one
    that is intact and current.  A [wmt_setsyspara] that changes a variable
    then uses its position in [boot_partitions], 3 or 4, as an index of
    [mtd_table], which has two entries. *)
Theorem before_mtd_get_only {F : Type} `{FlashOps F} (sp : Z) (f : F) (mem c : list Z)
    (E : env_list) (n W val : list Z) (L : Z)
    (Hsp : Z.land (Z.shiftr sp 1) 3 = 0)
    (Hnone : get_mtd_device_nm f SF_UBOOT_ENV1 = None) (Hmap : ioremap_ok f = true)
    (Hmem : length mem = Z.to_nat NOR_ENV_MAX_SIZE)
    (Hlen : forall o, length (memcpy_fromio f o NOR_ENV_MAX_SIZE) = Z.to_nat NOR_ENV_MAX_SIZE)
    (Hc : early_copy sp f c)
    (HR : Rep (drop 5 c) E) (Hn : name_ok n) (HL : 0 <= L)
    (Hval : val_ok val) (Hval0 : val <> []) (Hbaud : baud_free n (Some val) E)
    (Hfit : used (remove_var n E) + len n + len val + 3 <= NOR_ENV_MAX_SIZE - 5) :
  (exists s', wmt_getsyspara n W L (boot sp f mem) = match get_result E n W L with
                                                     | Ok r => Ok (r, s')
                                                     | Fault x => Fault x
                                                     end) /\
  wmt_setsyspara n (Some val) (boot sp f mem) = Fault Undefined.
Proof.
  split.
  - destruct (prepare_before sp f mem c 0 Hsp Hnone Hmap Hmem Hlen Hc)
      as (v & i & vo & io & Hi & Hl & Hp).
    eexists. unfold wmt_getsyspara. erewrite bind_ok by reflexivity.
    erewrite bind_ok by exact Hp. change (0 =? 0) with true. cbv iota.
    set (s1 := mkEst _ (Some c) _).
    pose proof (on_data_spi (get_data n W L) s1 c Hsp eq_refl) as Hd.
    rewrite (get_data_result E) in Hd by done.
    destruct (get_result E n W L) as [[[rc W'] L']|x]; cycle 1.
    { by apply bind_fault, bind_fault. }
    rewrite take_drop in Hd. erewrite bind_ok; [|by erewrite bind_ok by exact Hd]. reflexivity.
  - destruct (prepare_before sp f mem c 0 Hsp Hnone Hmap Hmem Hlen Hc)
      as (v & i & vo & io & Hi & Hl & Hp).
    unfold wmt_setsyspara. erewrite bind_ok by reflexivity.
    erewrite bind_ok by exact Hp. change (0 =? 0) with true. cbv iota.
    apply bind_fault. estep. set (s1 := mkEst _ (Some c) _).
    pose proof (on_data_spi (edit_data NOR_ENV_MAX_SIZE n (Some val)) s1 c Hsp eq_refl) as Hd.
    assert (len (drop 5 c) = NOR_ENV_MAX_SIZE - 5) as Hdl
      by (rewrite length_drop, Hl, nor_size; lia).
    destruct (edit_set NOR_ENV_MAX_SIZE n val E (drop 5 c)) as (d' & He & _ & Hl');
      [done..|rewrite Hdl, nor_size; lia|lia|].
    rewrite He in Hd. erewrite bind_ok by exact Hd. cbv iota. apply bind_fault.
    apply env_update_bad_index; try done.
    rewrite length_app, Hl', length_take, length_drop, Hl, nor_size. lia.
Qed.

(** ** NAND boot *)

Section Nand.
Context {F : Type} `{FlashOps F}.
Context (sp : Z) (Hsp : Z.land (Z.shiftr sp 1) 3 = 1).
Context (f : F) (lg : list F) (km : option (list Z)) (lk : Z) (sg : list bool).
Context (n vo io : Z) (rd : bool) (d0 d1 : nat).
Context (Hes : 0 < mtd_erasesize f d0) (Hes32 : 32 * mtd_erasesize f d0 < 2 ^ 32).
(** A read never stores more than was asked for. *)
Context (Hread : forall from k, (length (mtd_read f d0 from k).2 <= Z.to_nat k)%nat).

Abbreviation size := (Z.to_nat NOR_ENV_MAX_SIZE).
Abbreviation es := (mtd_erasesize f d0).
Abbreviation nstate b v nb :=
  (mkEst (mkWorld sp f lg km lk sg) (Some b)
     (mkStatics NOR_ENV_MAX_SIZE v n nb vo io 1 rd [Some d0; Some d1])).

Lemma nand_strap : is_nand sp = true.
Proof.
  unfold is_nand. apply Z.eqb_eq. apply Z.bits_inj'. intros k Hk.
  assert (forall i, 0 <= i -> Z.testbit (Z.land (Z.shiftr sp 1) 3) i = Z.testbit 1 i) as Hb
    by (by intros; rewrite Hsp).
  rewrite Z.land_spec. destruct (decide (k = 0)) as [->|]; [apply andb_false_r|].
  specialize (Hb (k - 1) ltac:(lia)). rewrite Z.land_spec, Z.shiftr_spec in Hb by lia.
  replace (k - 1 + 1) with k in Hb by lia.
  assert (k = 1 \/ k = 2 \/ 3 <= k) as [-> | [-> | Hk3]] by lia; [done|done|].
  rewrite (bits_above 3 6), (bits_above 3 2), andb_false_r by lia. done.
Qed.

Lemma overlay_length new old : (length new <= length old)%nat -> length (overlay new old) = length old.
Proof. intros. unfold overlay. rewrite length_app, length_drop. lia. Qed.

Lemma nand_crc_run b v nb :
  length b = size ->
  exists crc, crc_at 4 (nstate b v nb) = Ok (crc, nstate b v nb) /\
    env_crc32 NOR_ENV_MAX_SIZE sp (drop 4 b) = Ok crc.
Proof.
  intros Hb. destruct (env_crc32_run NOR_ENV_MAX_SIZE sp (drop 4 b)) as (crc & Hc & _).
  - rewrite nor_size. lia.
  - unfold crc_len. pose proof nand_strap as Hn. unfold is_nand in Hn.
    rewrite Hn, length_drop, Hb, nor_size. lia.
  - exists crc. split; [|done]. unfold crc_at. do 3 estep. by rewrite Hc.
Qed.

(** A result of the search: an error, or a block whose CRC matches. *)
Definition found_block (rc : Z) (s : est F) : Prop :=
  exists b v nb, s = nstate b v nb /\ length b = size /\ (rc = 0 \/ rc = 1) /\
    (rc = 0 -> env_crc32 NOR_ENV_MAX_SIZE sp (drop 4 b) = Ok (word_of b) /\ 0 <= nb < 9).

(** One turn at [next_blk:], at offset [j * erasesize]: the search ends, or
    the counter grows by one; from 18 on it goes on over bad blocks only. *)
Definition turn_ok (j blk v nb : Z) (r : Z * Z + Z) (s' : est F) : Prop :=
  match r with
  | inr rc => found_block rc s'
  | inl (offs', blk') =>
      blk' = blk + 1 /\ (exists b', s' = nstate b' v nb /\ length b' = size) /\
      exists j', offs' = j' * es /\ 0 <= j' <= blk' /\ (18 <= blk -> j < 9 /\ j' = j + 1)
  end.

Lemma turn_next j blk v nb b (c : bool) :
  length b = size -> 0 <= j <= blk -> blk < 18 ->
  turn_ok j blk v nb (inl (if c then 0 else (j + 1) * es, blk + 1)) (nstate b v nb).
Proof.
  intros Hb Hj Hblk. split; [done|]. split; [by exists b|].
  destruct c; [exists 0|exists (j + 1)]; split_and!; lia.
Qed.

Lemma turn_fail j blk v nb b : length b = size -> turn_ok j blk v nb (inr 1) (nstate b v nb).
Proof. intros Hb. exists b, v, nb. split_and!; try done. by right. Qed.

(** The part of a turn behind the search for a good block. *)
Lemma nand_read_turn env j blk b v nb :
  length b = size -> 0 <= j <= blk -> blk < 18 ->
  exists r s',
    (size ← static ENV_MAX_SIZE;
     err ← dev_read d0 (j * es) size;
     if negb (err =? 0) then mret (inr 1)
     else
       crc ← get_crc;
       if (crc =? 0xFFFFFFFF) && (blk <? NAND_ENV_BLK_LENGTH) then
         mret (inl (if blk + 1 =? NAND_ENV_BLK_LENGTH then 0 else (j + 1) * es, blk + 1))
       else
         crc32 ← crc_at 4;
         if crc =? crc32 then
           assign (set_valid env);;
           assign (set_nand_block (blk mod NAND_ENV_BLK_LENGTH));;
           mret (inr 0)
         else
           mret (if blk + 1 <? 18 then
                   inl (if blk + 1 =? NAND_ENV_BLK_LENGTH then 0 else (j + 1) * es, blk + 1)
                 else inr 1)) (nstate b v nb) = Ok (r, s') /\
    turn_ok j blk v nb r s'.
Proof.
  intros Hb Hj Hblk. estep.
  destruct (mtd_read f d0 (j * es) NOR_ENV_MAX_SIZE) as [err bytes] eqn:Hr.
  pose proof (Hread (j * es) NOR_ENV_MAX_SIZE) as Hlen. rewrite Hr in Hlen. simpl in Hlen.
  set (b1 := overlay bytes b).
  assert (length b1 = size) as Hb1 by (unfold b1; rewrite overlay_length; [done|by rewrite Hb]).
  erewrite bind_ok; [|unfold dev_read; do 2 estep; rewrite Hr; estep; reflexivity]. fold b1.
  destruct (negb (err =? 0)); [do 2 eexists; split; [reflexivity|by apply turn_fail]|].
  estep. destruct (_ && _).
  { do 2 eexists. split; [reflexivity|]. by apply turn_next. }
  destruct (nand_crc_run b1 v nb Hb1) as (crc & Hrun & Hcrc). erewrite bind_ok by exact Hrun.
  destruct (Z.eqb_spec (word_of b1) crc) as [<-|_].
  - do 2 estep. do 2 eexists. split; [reflexivity|]. exists b1, env, (blk mod 9).
    split_and!; try done; [by left|]. intros _. split; [done|]. by apply Z.mod_pos_bound.
  - do 2 eexists. split; [reflexivity|]. destruct (blk + 1 <? 18); [by apply turn_next|by apply turn_fail].
Qed.

Lemma nand_body_run env j blk b v nb :
  length b = size -> 0 <= j <= blk -> blk <= 30 ->
  exists r s', nand_body d0 env (j * es, blk) (nstate b v nb) = Ok (r, s') /\
    turn_ok j blk v nb r s'.
Proof.
  intros Hb Hj Hblk. unfold nand_body. estep.
  assert (u32 (j * es + es) = (j + 1) * es) as -> by (rewrite u32_small; nia).
  assert (u32 (NAND_ENV_BLK_LENGTH * es) = 9 * es) as ->
    by (unfold NAND_ENV_BLK_LENGTH; rewrite u32_small; nia).
  destruct (Z.ltb_spec (j * es) (9 * es)) as [Hlt|Hge]; [destruct (mtd_block_isbad f d0 (j * es))|];
    cbn [andb]; [| |clear Hge].
  { do 2 eexists. split; [reflexivity|].
    assert (j < 9) by nia. unfold NAND_ENV_BLK_LENGTH. case_bool; (split; [done|]);
      (split; [by exists b|]); [exists j|exists (j + 1)]; split_and!; lia. }
  all: change (NAND_ENV_BLK_LENGTH * 2) with 18;
    (destruct (Z.leb_spec 18 blk); [do 2 eexists; split; [reflexivity|by apply turn_fail]|]).
  all: apply nand_read_turn; done || lia.
Qed.

(** The number of turns left. *)
Definition turns_left (j blk : Z) : Z :=
  if blk <? 18 then 28 - blk else Z.max 0 (9 - j) + 1.

Lemma nand_loop_run env fuel : forall j blk b v nb,
  length b = size -> 0 <= j <= blk -> blk <= 18 + j -> blk <= 28 - Z.max 0 (9 - j) \/ blk < 18 ->
  turns_left j blk <= Z.of_nat fuel ->
  exists rc s', loop fuel (nand_body d0 env) (j * es, blk) (nstate b v nb) = Ok (rc, s') /\
    found_block rc s'.
Proof.
  induction fuel as [|fuel IH]; intros j blk b v nb Hb Hj Hjb Hlim Hfuel.
  { unfold turns_left in Hfuel. revert Hfuel. case_bool; lia. }
  destruct (nand_body_run env j blk b v nb Hb Hj ltac:(lia)) as (r & s' & Hrun & Hok).
  destruct r as [[offs' blk']|rc].
  - destruct Hok as (-> & (b' & -> & Hb') & j' & -> & Hj' & H18).
    erewrite loop_next by exact Hrun.
    apply IH; [done|lia| | |]; revert Hfuel; unfold turns_left; repeat case_bool; lia.
  - exists rc, s'. split; [by eapply loop_exit|done].
Qed.
End Nand.

(** [C38] The search for the environment on NAND ends.  For any flash, [env_init]
    with both partitions registered returns, with code 0 only when the CRC of
    the block it has read matches.  It never sets [env_invalid]; from its
    initial value 0xFF a later [env_update] reads [mtd_table[0xFF]]. *)
Theorem nand_env_search_ends {F : Type} `{FlashOps F} (sp : Z) (f : F) (lg : list F)
    (km : option (list Z)) (lk : Z) (sg : list bool) (z v n nb vo io mi : Z) (rd : bool)
    (tbl : list (option nat)) (d0 d1 : nat) (b : list Z)
    (Hsp : Z.land (Z.shiftr sp 1) 3 = 1) (Htbl : length tbl = 2%nat)
    (Hd0 : get_mtd_device_nm f NAND_UBOOT_ENV1 = Some d0)
    (Hd1 : get_mtd_device_nm f NAND_UBOOT_ENV2 = Some d1)
    (Hidx : mtd_index f d0 <> ENV_INVALID)
    (Hes : 0 < mtd_erasesize f d0) (Hes32 : 32 * mtd_erasesize f d0 < 2 ^ 32)
    (Hread : forall from k, (length (mtd_read f d0 from k).2 <= Z.to_nat k)%nat)
    (Hb : length b = Z.to_nat NOR_ENV_MAX_SIZE) :
  exists rc s' b',
    env_init (mkEst (mkWorld sp f lg km lk sg) (Some b) (mkStatics z v n nb vo io mi rd tbl))
      = Ok (rc, s') /\ (rc = 0 \/ rc = 1) /\ env_ptr s' = Some b' /\
    (rc = 0 -> env_crc32 NOR_ENV_MAX_SIZE sp (drop 4 b') = Ok (word_of b') /\
               0 <= nand_block (st s') < NAND_ENV_BLK_LENGTH) /\
    env_invalid (st s') = n /\
    (n = 0xFF -> env_update s' = Fault Undefined).
Proof.
  destruct tbl as [|t0 [|t1 [|]]]; try done.
  destruct (nand_loop_run sp Hsp f lg km lk sg n vo io rd d0 d1 Hes Hes32 Hread
    (mtd_index f d0) 64 0 0 b v nb Hb) as (rc & s' & Hrun & Hf); [lia|lia|lia|unfold turns_left; simpl; lia|].
  destruct Hf as (b' & v' & nb' & -> & Hb' & Hrc & Hok).
  exists rc, (mkEst (mkWorld sp f lg km lk sg) (Some b')
    (mkStatics NOR_ENV_MAX_SIZE v' n nb' vo io 1 rd [Some d0; Some d1])), b'.
  split; [|split_and!; try done].
  - unfold env_init. replace (64 * 1024) with NOR_ENV_MAX_SIZE by (by rewrite nor_size).
    estep. rewrite Hsp. estep. cbv beta iota zeta delta [bootflash_of].
    change (1 =? 0) with false. change (1 =? 1) with true. change (1 =? 2) with false. cbv iota.
    do 2 estep. rewrite Hd0.
    erewrite bind_ok; cycle 1.
    { unfold fill_table, table_entry. erewrite bind_ok; cycle 1.
      { estep. rewrite Hd0. do 2 estep. reflexivity. }
      erewrite bind_ok; cycle 1.
      { estep. rewrite Hd1. do 2 estep. reflexivity. }
      do 2 estep. reflexivity. }
    cbv beta iota. estep. change (NAND_FLASH_TYPE =? NAND_FLASH_TYPE) with true. cbv iota.
    apply Z.eqb_neq in Hidx. rewrite Hidx. exact Hrun.
  - intros ->. unfold env_update. estep. rewrite Hsp.
    change (1 =? 0) with false. change (1 =? 1) with true. cbv iota.
    change (NAND_FLASH_TYPE =? NAND_FLASH_TYPE) with true. cbv iota.
    destruct (nand_crc_run sp Hsp f lg km lk sg 0xFF vo io rd d0 d1 b' v' nb' Hb') as (crc & Hc & _).
    erewrite bind_ok by exact Hc. erewrite bind_ok by (unfold set_crc; estep; reflexivity).
    estep. apply bind_fault. reflexivity.
Qed.

(** ** Two partitions of a NOR chip *)

Record nor := mkNor {
  nor_names : list (string * nat);
  part1 : list Z;
  part2 : list Z;
}.

Definition nor_part (f : nor) (d : nat) : list Z :=
  match d with O => part1 f | S O => part2 f | _ => [] end.
Definition nor_set (f : nor) (d : nat) (c : list Z) : nor :=
  match d with
  | O => mkNor (nor_names f) c (part2 f)
  | S O => mkNor (nor_names f) (part1 f) c
  | _ => f
  end.

(** Programming clears bits; an erased byte takes any value. *)
Definition nor_cell (old new : Z) : Z := if old =? 0xFF then new else Z.land old new.
Definition nor_program (to : nat) (bs c : list Z) : list Z :=
  take to c ++ zip_with nor_cell (take (length bs) (drop to c)) bs ++ drop (to + length bs) c.

Definition in_range (c : list Z) (from n : Z) : bool :=
  (0 <=? from) && (0 <=? n) && (from + n <=? len c).

Fixpoint nor_device (name : string) (l : list (string * nat)) : option nat :=
  match l with
  | [] => None
  | (k, d) :: l' => if bool_decide (k = name) then Some d else nor_device name l'
  end.

(** The partition at an address of the mapped chip. *)
Definition nor_at (o : Z) : nat := if o <? OFFS2 then 0%nat else 1%nat.

#[global] Instance nor_ops : FlashOps nor := {
  get_mtd_device_nm f name :=
    nor_device name (nor_names f);
  mtd_index f d := Z.of_nat d;
  mtd_size f d := len (nor_part f d);
  mtd_erasesize f d := 65536;
  mtd_block_isbad f d offs := false;
  mtd_read f d from n :=
    if in_range (nor_part f d) from n
    then (0, take (Z.to_nat n) (drop (Z.to_nat from) (nor_part f d))) else (-22, []);
  mtd_write f d to bs :=
    if in_range (nor_part f d) to (len bs)
    then (0, nor_set f d (nor_program (Z.to_nat to) bs (nor_part f d))) else (-22, f);
  mtd_erase f d addr n :=
    if in_range (nor_part f d) addr n
    then (0, nor_set f d (take (Z.to_nat addr) (nor_part f d) ++ replicate (Z.to_nat n) 0xFF
                          ++ drop (Z.to_nat (addr + n)) (nor_part f d)))
    else (-22, f);
  ioremap_ok f := true;
  memcpy_fromio f o n := take (Z.to_nat n) (nor_part f (nor_at o));
  spi_flash_sector_erase f o := (0, nor_set f (nor_at o) (replicate (Z.to_nat 65536) 0xFF));
  spi_flash_sector_write f o bs :=
    nor_set f (nor_at o) (nor_program (Z.to_nat (o mod 65536)) bs (nor_part f (nor_at o)));
}.

Lemma nor_part_set f d c d' :
  (d < 2)%nat -> nor_part (nor_set f d c) d' = if decide (d' = d) then c else nor_part f d'.
Proof.
  intros Hd. destruct d as [|[|]]; [| |lia]; destruct d' as [|[|]]; done.
Qed.

Lemma nor_range_dev f d from n : in_range (nor_part f d) from n = true -> n <> 0 -> (d < 2)%nat.
Proof.
  unfold in_range. intros Hr Hn. bool_to_prop.
  destruct d as [|[|]]; [lia|lia|]. simpl in *. lia.
Qed.

Lemma in_range_intro c from n : 0 <= from -> 0 <= n -> from + n <= len c -> in_range c from n = true.
Proof. intros. unfold in_range. rewrite !andb_true_iff, !Z.leb_le. lia. Qed.

Lemma program_erased bs c :
  (length bs <= length c)%nat -> Forall (eq 0xFF) (take (length bs) c) ->
  nor_program 0 bs c = splice 0 bs c.
Proof.
  intros Hl Hc. unfold nor_program, splice. simpl. f_equal. rewrite drop_0.
  revert c Hl Hc. induction bs as [|x bs IH]; intros [|y c] Hl Hc; simpl in *; try lia; try done.
  apply Forall_cons in Hc as [<- Hc]. f_equal. apply IH; [lia|done].
Qed.

Lemma program_zero to c :
  (to < length c)%nat -> nor_program to [0] c = splice to [0] c.
Proof.
  intros Hl. unfold nor_program, splice. f_equal. f_equal.
  destruct (drop to c) as [|y r] eqn:Hd.
  - apply (f_equal length) in Hd. rewrite length_drop in Hd. simpl in Hd. lia.
  - simpl. unfold nor_cell. by destruct (y =? 0xFF); rewrite ?Z.land_0_r.
Qed.

Lemma programmed_cells old bs :
  length old = length bs -> Forall2 programmed (zip_with nor_cell old bs) old.
Proof.
  revert bs. induction old as [|y old IH]; intros [|x bs] Hl; try done. injection Hl as Hl.
  constructor; [|by apply IH]. unfold programmed, nor_cell. destruct (Z.eqb_spec y 0xFF); [by left|right].
  by rewrite Z.land_assoc, Z.land_diag.
Qed.

Lemma program_splice to bs c :
  (to + length bs <= length c)%nat ->
  nor_program to bs c = splice to (zip_with nor_cell (take (length bs) (drop to c)) bs) c.
Proof.
  intros Hl. unfold nor_program, splice. rewrite length_zip_with, length_take, length_drop.
  by replace (Nat.min (Nat.min _ _) _) with (length bs) by lia.
Qed.

#[global] Program Instance nor_spec : FlashSpec nor := { contents := nor_part }.
Next Obligation. done. Qed.
Next Obligation.
  intros f d from n H1 H2 H3. simpl. by rewrite in_range_intro.
Qed.
Next Obligation.
  intros f d a n. simpl. destruct (in_range _ _ _) eqn:Hr; [|done]. unfold in_range in Hr. bool_to_prop.
  destruct d as [|[|]]; [| |done]; simpl in *;
    rewrite !length_app, length_take, length_replicate, length_drop; lia.
Qed.
Next Obligation.
  intros f d to bs Ht Hl. simpl. rewrite in_range_intro by lia.
  exists (zip_with nor_cell (take (length bs) (drop (Z.to_nat to) (nor_part f d))) bs). split.
  - apply programmed_cells. rewrite length_take, length_drop. lia.
  - destruct d as [|[|]]; simpl in *; [apply program_splice; lia..|].
    destruct bs; [|simpl in Hl; lia]. simpl. unfold splice. by rewrite take_nil, drop_nil.
Qed.
Next Obligation.
  intros f d a n d' Hne. simpl. destruct (in_range _ _ _); [|done]. simpl.
  destruct d as [|[|]]; destruct d' as [|[|]]; done.
Qed.
Next Obligation.
  intros f d to bs d' Hne. simpl. destruct (in_range _ _ _); [|done]. simpl.
  destruct d as [|[|]]; destruct d' as [|[|]]; done.
Qed.
Next Obligation.
  intros f d a n name. simpl. destruct (in_range _ _ _); [|done]. by destruct d as [|[|]].
Qed.
Next Obligation.
  intros f d to bs name. simpl. destruct (in_range _ _ _); [|done]. by destruct d as [|[|]].
Qed.

(** ** A concrete board

    The first partition holds one variable, [bootdelay=3]; the second is
    blank. *)

Abbreviation full := (Z.to_nat NOR_ENV_MAX_SIZE).
Definition E0 : env_list := [(bytes "bootdelay", bytes "3")].
Definition img0 : list Z :=
  [0; 0; 0; 0; 1] ++ flat E0 ++ replicate (full - 5 - length (flat E0)) 0.
Definition crc0 : Z :=
  match env_crc32 NOR_ENV_MAX_SIZE 0 (drop 5 img0) with Ok c => c | Fault _ => 0 end.
Definition copy0 : list Z := marked (stamped crc0 img0).
Definition blank : list Z := replicate full 0xFF.
Definition sf_names : list (string * nat) := [(SF_UBOOT_ENV1, 0%nat); (SF_UBOOT_ENV2, 1%nat)].
Definition chip : nor := mkNor sf_names copy0 blank.
Definition ram : list Z := replicate full 0.
Definition board : est nor := booted 0 0 1 1 chip ram copy0 0 1.

Lemma full_size : (100 <= full)%nat.
Proof. rewrite nor_size. lia. Qed.

Lemma img0_length : length img0 = full.
Proof.
  pose proof full_size. unfold img0. rewrite !length_app, length_replicate.
  change (length (flat E0)) with 12%nat. cbn [length]. lia.
Qed.

Lemma crc0_run :
  env_crc32 NOR_ENV_MAX_SIZE 0 (drop 5 img0) = Ok crc0 /\ 0 <= crc0 < 2 ^ 32.
Proof.
  unfold crc0. destruct (env_crc32_run NOR_ENV_MAX_SIZE 0 (drop 5 img0)) as (c & -> & Hc & _).
  - rewrite nor_size. lia.
  - rewrite length_drop, img0_length, nor_size. unfold crc_len. change (Z.land 0 6 =? 2) with false. lia.
  - done.
Qed.

Lemma copy0_length : length copy0 = full.
Proof.
  unfold copy0. rewrite length_marked, length_stamped; rewrite img0_length; [done|].
  pose proof full_size. lia.
Qed.

Lemma copy0_current : classify 0 copy0 = Current.
Proof.
  destruct crc0_run. unfold copy0. apply classify_written; [apply img0_length|by right|done..].
Qed.

Lemma copy0_rep : Rep (drop 5 copy0) E0.
Proof.
  pose proof full_size. unfold copy0. rewrite drop_marked by (rewrite img0_length; lia).
  split; [by repeat constructor|].
  exists (replicate (full - 5 - length (flat E0) - 1) 0). split; [|done].
  unfold img0. change (drop 5 ([0; 0; 0; 0; 1] ++ ?x)) with x.
  apply (f_equal (app (flat E0))).
  change (length (flat E0)) with 12%nat.
  by replace (full - 5 - 12)%nat with (S (full - 5 - 12 - 1)) by lia.
Qed.

Lemma image_full c : length c = full -> image_of c = c.
Proof. intros. unfold image_of. apply take_ge. lia. Qed.

Lemma chip_mounted : mounted 0 1 chip.
Proof.
  split_and!; [by vm_compute|by vm_compute| |].
  - change (full <= length copy0)%nat. by rewrite copy0_length.
  - change (full <= length blank)%nat. unfold blank. by rewrite length_replicate.
Qed.

Lemma board_running : running 0 0 1 board copy0 0.
Proof.
  split; [reflexivity|apply chip_mounted|reflexivity|apply copy0_length| |by left|reflexivity..].
  right. apply (classify_flag 0), copy0_current.
Qed.

Lemma chip_choice :
  choose (classify 0 (image_of (contents chip 0))) (classify 0 (image_of (contents chip 1)))
  = Some (Z.to_nat 0).
Proof.
  change (contents chip 0) with copy0. rewrite image_full by apply copy0_length.
  by rewrite copy0_current.
Qed.

Lemma nor_works f d to bs : in_range (nor_part f d) to (len bs) = true -> (mtd_write f d to bs).1 = 0.
Proof. intros Hr. simpl. by rewrite Hr. Qed.

Lemma wmt_getsyspara_spec_witness :
  wmt_getsyspara (bytes "bootdelay") [7; 7; 7; 7] 4 board
  = Ok ((0, bytes "3" ++ [0; 7; 7], 4), board).
Proof.
  apply (wmt_getsyspara_spec 0 eq_refl 0 1 board copy0 0 E0 (bytes "bootdelay") [7; 7; 7; 7] 4).
  - apply board_running.
  - split; reflexivity.
  - apply copy0_rep.
  - by repeat constructor.
  - lia.
Defined.

Lemma nor_flash_works : flash_works (F := nor).
Proof.
  split.
  - intros f d Hl. simpl in *. rewrite in_range_intro by lia. split; [done|]. cbn [snd].
    rewrite nor_part_set by (destruct d as [|[|]]; [lia|lia|pose proof full_size; cbn [nor_part length] in Hl; lia]).
    rewrite decide_True by done. unfold image_of. simpl.
    rewrite Nat2Z.id, take_app_le by (rewrite length_replicate; lia). rewrite take_replicate.
    f_equal. lia.
  - intros f d to bs H1 H2. simpl in *. by rewrite in_range_intro by lia.
  - intros f d bs Hl Hc. simpl in *. rewrite in_range_intro by lia.
    change (Z.to_nat 0) with 0%nat. cbn [snd]. rewrite (program_erased bs) by done.
    destruct d as [|[|]]; [done|done|]. simpl in *. by destruct bs; [|simpl in Hl; lia].
  - intros f d to Hr. simpl in *. rewrite in_range_intro by (simpl; lia).
    cbn [snd]. rewrite (program_zero (Z.to_nat to)) by lia.
    destruct d as [|[|]]; [done|done|]. simpl in Hr. lia.
Qed.

Lemma E0_fits (n val : list Z) : used (remove_var n E0) <= 12 /\
  (len n + len val <= 60000 -> used (remove_var n E0) + len n + len val + 3 <= NOR_ENV_MAX_SIZE - 5).
Proof.
  assert (used (remove_var n E0) <= 12) as Hu by (simpl; by case_decide).
  split; [done|]. rewrite nor_size. lia.
Qed.

Lemma wmt_setsyspara_stores_witness :
  exists s', wmt_setsyspara (bytes "bootdelay") (Some (bytes "10")) board = Ok (0, s') /\
    stored 0 0 1 s' 1 [(bytes "bootdelay", bytes "10")] /\
    lookup_var (bytes "bootdelay") (set_var (bytes "bootdelay") (bytes "10") E0) = Some (bytes "10").
Proof.
  destruct (wmt_setsyspara_stores 0 eq_refl 0 1 board copy0 0 E0 (bytes "bootdelay") (bytes "10"))
    as (rc & s' & Hset & _ & Hst & _ & Hback).
  - done.
  - apply board_running.
  - split; reflexivity.
  - apply copy0_rep.
  - by repeat constructor.
  - by repeat constructor.
  - done.
  - right. by left.
  - by apply E0_fits.
  - destruct (Hst nor_flash_works) as [-> Hst']. exists s'. split; [exact Hset|]. split; [exact Hst'|].
    apply Hback. apply NoDup_singleton.
Defined.

Lemma wmt_setsyspara_deletes_witness :
  exists s', wmt_setsyspara (bytes "bootdelay") None board = Ok (0, s') /\ stored 0 0 1 s' 1 [].
Proof.
  destruct (wmt_setsyspara_deletes 0 eq_refl 0 1 board copy0 0 E0 (bytes "bootdelay") (bytes "3") None)
    as (rc & s' & Hset & _ & Hst).
  - done.
  - apply board_running.
  - split; reflexivity.
  - apply copy0_rep.
  - by repeat constructor.
  - by left.
  - done.
  - done.
  - destruct (Hst nor_flash_works) as [-> Hst']. exists s'. split; [exact Hset|exact Hst'].
Defined.

Lemma board_update : exists s', env_update board = Ok (0, s') /\
  exists g new, flash_log (wld s') = g :: new ++ flash_log (wld board).
Proof.
  destruct (update_total 0 eq_refl 0 1 board copy0 0) as (rc & s' & Hup & _ & Hw & _);
    [done|apply board_running|].
  specialize (Hw nor_flash_works). subst rc. exists s'. split; [done|].
  destruct (update_inv 0 eq_refl 0 1 board copy0 0 s') as (? & f1 & f2 & f3 & _ & _ & _ & -> & _);
    [apply nor_flash_works|done|apply board_running|done|]. by exists f3, [f2; f1].
Qed.

(** The chip with the second copy half written. *)
Definition torn_chip : nor := mkNor sf_names copy0 (take 100 copy0 ++ replicate (full - 100) 0xFF).

Lemma torn_chip_mounted : mounted 0 1 torn_chip.
Proof.
  split_and!; [by vm_compute|by vm_compute| |].
  - change (full <= length copy0)%nat. by rewrite copy0_length.
  - change (full <= length (take 100 copy0 ++ replicate (full - 100) 0xFF%Z))%nat.
    rewrite length_app, length_take, length_replicate, copy0_length. lia.
Qed.

Lemma env_update_crash_safe_witness :
  (exists s'' b'', prepare (boot 0 torn_chip ram) = Ok (0, s'') /\ env_ptr s'' = Some b'' /\
    (drop 5 b'' = drop 5 (image_of (contents chip 0)) \/
     b'' = image_of (contents torn_chip 1) /\ crc_ok 0 b'' = true)) /\
  exists s' g new, env_update board = Ok (0, s') /\ flash_log (wld s') = g :: new /\
  exists s'' b'', prepare (boot 0 g ram) = Ok (0, s'') /\ env_ptr s'' = Some b'' /\
    (drop 5 b'' = drop 5 (image_of (contents chip 0)) \/ drop 5 b'' = drop 5 copy0).
Proof.
  destruct board_update as (s' & Hup & g & new & Hlog). split.
  - apply (env_update_crash_safe 0 eq_refl 0 1 board s' copy0 ram 0 0 (g :: new) torn_chip).
    + done.
    + apply board_running.
    + unfold ram. apply length_replicate.
    + apply chip_choice.
    + exact Hup.
    + exact Hlog.
    + apply crash_in_copy; [apply torn_chip_mounted|exact (eq_refl copy0)].
  - exists s', g, (new ++ []). split; [exact Hup|]. split; [exact Hlog|].
    apply (env_update_crash_safe 0 eq_refl 0 1 board s' copy0 ram 0 0 (g :: new) g).
    + done.
    + apply board_running.
    + unfold ram. apply length_replicate.
    + apply chip_choice.
    + exact Hup.
    + exact Hlog.
    + apply nor_flash_works.
    + reflexivity.
    + right. by left.
Defined.

(** A value that fills the data area to the last byte but one. *)
Definition long_val : list Z := replicate (full - 24) 65.

Lemma long_val_ok : len long_val = NOR_ENV_MAX_SIZE - 24 /\ long_val <> [].
Proof.
  pose proof full_size. unfold long_val. rewrite length_replicate. split; [lia|].
  by replace (full - 24)%nat with (S (full - 25)) by lia.
Qed.

Lemma wmt_setsyspara_overruns_witness :
  wmt_setsyspara (bytes "bootargs") (Some (drop 1 long_val)) board = Fault Undefined.
Proof.
  destruct long_val_ok as [Hl Hne].
  apply (wmt_setsyspara_overruns 0 eq_refl 0 1 board copy0 0 E0).
  - apply board_running.
  - split; reflexivity.
  - apply copy0_rep.
  - by repeat constructor.
  - intros Hd. apply (f_equal length) in Hd. rewrite length_drop in Hd. simpl in Hd.
    rewrite nor_size in Hl. lia.
  - by left.
  - change (used (remove_var (bytes "bootargs") E0)) with 12. rewrite length_drop.
    change (len (bytes "bootargs")) with 8. rewrite nor_size in *. lia.
Defined.

Lemma ram_length : length ram = full.
Proof. apply length_replicate. Qed.

Lemma boot_takes_chosen_copy_witness :
  prepare (boot 0 chip ram) = Ok (0, booted 0 0 1 1 chip ram copy0 0 1).
Proof.
  rewrite (boot_takes_chosen_copy 0 eq_refl 0 1 chip ram).
  - rewrite chip_choice. change (contents chip 0) with copy0.
    rewrite image_full by apply copy0_length. reflexivity.
  - apply chip_mounted.
  - apply ram_length.
Defined.

(** A copy with a flag that is neither 0 nor 1. *)
Definition bad_copy : list Z := [0; 0; 0; 0; 0x7F] ++ drop 5 copy0.

Lemma bad_copy_length : length bad_copy = full.
Proof.
  pose proof full_size. unfold bad_copy. rewrite length_app, length_drop, copy0_length.
  cbn [length]. lia.
Qed.

Lemma bad_copy_broken : classify 0 bad_copy = Broken.
Proof. unfold classify. by destruct (crc_ok 0 bad_copy). Qed.

Lemma failed_init_is_forgotten_witness :
  let g := mkNor sf_names bad_copy bad_copy in
  exists s', wmt_getsyspara (bytes "bootdelay") [7; 7; 7; 7] 4 (boot 0 g ram)
      = Ok ((1, [7; 7; 7; 7], 4), s') /\
    wmt_getsyspara (bytes "bootdelay") [7; 7; 7; 7] 4 s'
      = Ok ((0, bytes "3" ++ [0; 7; 7], 4), s').
Proof.
  intros g.
  apply (failed_init_is_forgotten 0 eq_refl 0 1 g ram (bytes "bootdelay") [7; 7; 7; 7] 4 E0).
  - split_and!; [by vm_compute|by vm_compute| |];
      change (full <= length bad_copy)%nat; by rewrite bad_copy_length.
  - apply ram_length.
  - change (contents g 0) with bad_copy. change (contents g 1) with bad_copy.
    rewrite image_full by apply bad_copy_length. split; apply bad_copy_broken.
  - change (contents g 1) with bad_copy. rewrite image_full by apply bad_copy_length.
    apply copy0_rep.
  - by repeat constructor.
  - lia.
Defined.

Lemma before_mtd_get_only_witness :
  let g := mkNor [] copy0 blank in
  (exists s', wmt_getsyspara (bytes "bootdelay") [7; 7; 7; 7] 4 (boot 0 g ram)
      = Ok ((0, bytes "3" ++ [0; 7; 7], 4), s')) /\
  wmt_setsyspara (bytes "bootdelay") (Some (bytes "10")) (boot 0 g ram) = Fault Undefined.
Proof.
  intros g.
  apply (before_mtd_get_only 0 g ram copy0 E0 (bytes "bootdelay") [7; 7; 7; 7] (bytes "10") 4).
  - reflexivity.
  - reflexivity.
  - reflexivity.
  - apply ram_length.
  - intros o. change (length (image_of (nor_part g (nor_at o))) = full). unfold image_of.
    rewrite length_take. unfold nor_at. destruct (o <? OFFS2).
    + change (nor_part g 0) with copy0. rewrite copy0_length. lia.
    + change (nor_part g 1) with blank. unfold blank. rewrite length_replicate. lia.
  - left. change (memcpy_fromio g OFFS1 NOR_ENV_MAX_SIZE) with (image_of copy0).
    rewrite image_full by apply copy0_length. split; [apply copy0_current|reflexivity].
  - apply copy0_rep.
  - by repeat constructor.
  - lia.
  - by repeat constructor.
  - discriminate.
  - right. left. discriminate.
  - apply E0_fits. vm_compute. discriminate.
Defined.

Lemma nand_env_search_ends_witness :
  let g := mkNor [(NAND_UBOOT_ENV1, 0%nat); (NAND_UBOOT_ENV2, 1%nat)] copy0 blank in
  exists rc s', env_init (mkEst (mkWorld 2 g [] None 1 []) (Some ram)
                    (mkStatics 0 0xFF 0xFF 0 0 0 0 false [None; None])) = Ok (rc, s') /\
    (rc = 0 \/ rc = 1) /\ env_update s' = Fault Undefined.
Proof.
  intros g.
  destruct (nand_env_search_ends 2 g [] None 1 [] 0 0xFF 0xFF 0 0 0 0 false [None; None] 0 1 ram)
    as (rc & s' & b' & Hi & Hrc & _ & _ & _ & Hu).
  - reflexivity.
  - reflexivity.
  - vm_compute. reflexivity.
  - vm_compute. reflexivity.
  - discriminate.
  - reflexivity.
  - reflexivity.
  - intros from k. simpl. destruct (in_range _ _ _); simpl; [|lia]. rewrite length_take. lia.
  - apply ram_length.
  - exists rc, s'. split; [exact Hi|]. split; [exact Hrc|]. by apply Hu.
Defined.
