(* ===== verification/MemBlock.v ===== *)
(** * The memory block driver

    [drivers/video/wmt/memblock.c], as configured in [Android_defconfig]
    ([CONFIG_WMT_MB_RESERVE_FROM_IO], no dynamic areas): physically contiguous
    blocks for the video engines, allocated first-fit from a few areas reserved
    at start-up, shared between tasks by reference counts.

    The linked lists of the C code are lists here: the host has areas
    ([mb_area_struct]), an area its blocks ([mb_struct]) in address order, a
    block its users ([mb_user]: the creator, [get]s and mappings).  Pointer
    equality is equality of the [_id] fields, which come from one counter; the
    parent pointers ([mbu->mb], [mb->mba]) are the nesting.  [unsigned long]
    arithmetic is written out with [u32].

    What the kernel decides is an input held in the state: whether the next
    slab allocations succeed, what the next attempts to reserve and map a
    region give, whether the next [io_remap_pfn_range] works.  The spin locks
    make each exported function atomic and are not modelled; neither are the
    messages and the [/proc] file. *)

From S2P Require Import Prelude.
From stdpp Require Import list.
#[local] Open Scope Z_scope.

Definition PAGE_SHIFT : Z := 12.
Definition PAGE_SIZE : Z := Z.shiftl 1 PAGE_SHIFT.
Definition PAGE_ALIGN (x : Z) : Z := Z.land (u32 (x + (PAGE_SIZE - 1))) (Z.lnot (PAGE_SIZE - 1)).
Definition PAGE_KB (a : Z) : Z := u32 (a * (PAGE_SIZE / 1024)).

Definition MB_DEF_TGID : Z := 0.
Definition TASK_COMM_LEN : nat := 16.
Definition MBA_MAX_ORDER : Z := 20.
Definition MBAFLAG_STATIC : Z := 0x80000000.

Definition MBFIND_VIRT : Z := 0.
Definition MBFIND_PHYS : Z := 1.

Definition MBUFIND_USER : Z := 0x01.
Definition MBUFIND_VIRT : Z := 0x02.
Definition MBUFIND_PHYS : Z := 0x04.
Definition MBUFIND_ALL : Z := 0x10.
Definition MBUFIND_CREATOR : Z := 0x20.
Definition MBUFIND_MMAP : Z := 0x40.
Definition MBUFIND_GETPUT : Z := 0x80.
Definition MBUFIND_ADDRMASK : Z := Z.lor (Z.lor MBUFIND_USER MBUFIND_VIRT) MBUFIND_PHYS.

Definition EPERM : Z := 1.
Definition EAGAIN : Z := 11.
Definition ENOMEM : Z := 12.
Definition EFAULT : Z := 14.
Definition EINVAL : Z := 22.
Definition ENOTTY : Z := 25.

(** ** Data *)

Record mb_user := MkMbu {
  mbu_id : nat;
  mbu_tgid : Z;
  mbu_addr : Z;
  mbu_size : Z;
  the_user : list Z;
}.

Record mb_struct := MkMb {
  mb_id : nat;
  mb_pfn_start : Z;
  mb_pfn_end : Z;
  mb_phys : Z;
  mb_virt : Z;
  mb_size : Z;
  mb_count : Z;
  mb_creator : option nat;
  mbu_list : list mb_user;
}.

Record mb_area_struct := MkMba {
  mba_id : nat;
  mba_flags : Z;
  mba_tgid : Z;
  mba_phys : Z;
  mba_virt : Z;
  mba_pages : Z;
  mba_pfn_start : Z;
  mba_pfn_end : Z;
  nr_mb : Z;
  mba_free : Z;
  mba_max : Z;
  mb_list : list mb_struct;
}.

Record mba_host_struct := MkHost {
  mba_list : list mb_area_struct;
  nr_mba : Z;
  tot_pages : Z;
  tot_static_pages : Z;
  tot_free_pages : Z;
  max_available_pages : Z;
}.

Record mb_task_info := MkMbti { ti_tgid : Z; ti_count : Z }.

Record mbs := MkMbs {
  wmt_mbah : mba_host_struct;
  wmt_mbti : list mb_task_info;
  next_id : nat;
  slab : list bool;            (** the next [kmem_cache_alloc]s; then success *)
  regions : list (option Z);   (** the next reservations: where they are mapped *)
  remaps : list bool;          (** the next [io_remap_pfn_range]s; then success *)
  num_physpages : Z;
}.

Definition set_host (h : mba_host_struct) (s : mbs) : mbs :=
  MkMbs h (wmt_mbti s) (next_id s) (slab s) (regions s) (remaps s) (num_physpages s).
Definition set_tasks (t : list mb_task_info) (s : mbs) : mbs :=
  MkMbs (wmt_mbah s) t (next_id s) (slab s) (regions s) (remaps s) (num_physpages s).

Abbreviation D := (M mbs).

(** A slab object; [None]: out of memory. *)
Definition kmem_cache_alloc : D (option nat) := fun s =>
  let s' := MkMbs (wmt_mbah s) (wmt_mbti s) (S (next_id s)) (tail (slab s)) (regions s)
              (remaps s) (num_physpages s) in
  Ok (match slab s with false :: _ => None | _ => Some (next_id s) end, s').

(** [request_mem_region] and [ioremap] of [mb_alloc_pages]. *)
Definition map_region : D (option Z) := fun s =>
  let s' := MkMbs (wmt_mbah s) (wmt_mbti s) (next_id s) (slab s) (tail (regions s))
              (remaps s) (num_physpages s) in
  Ok (match regions s with r :: _ => r | [] => None end, s').

Definition io_remap_pfn_range : D bool := fun s =>
  let s' := MkMbs (wmt_mbah s) (wmt_mbti s) (next_id s) (slab s) (regions s)
              (tail (remaps s)) (num_physpages s) in
  Ok (match remaps s with r :: _ => r | [] => true end, s').

(** Updates through a pointer. *)
Definition upd_mba (a' : mb_area_struct) (l : list mb_area_struct) : list mb_area_struct :=
  (fun a => if Nat.eqb (mba_id a) (mba_id a') then a' else a) <$> l.
Definition upd_mb (m' : mb_struct) (l : list mb_struct) : list mb_struct :=
  (fun m => if Nat.eqb (mb_id m) (mb_id m') then m' else m) <$> l.

Definition with_blocks (l : list mb_struct) (a : mb_area_struct) : mb_area_struct :=
  MkMba (mba_id a) (mba_flags a) (mba_tgid a) (mba_phys a) (mba_virt a) (mba_pages a)
    (mba_pfn_start a) (mba_pfn_end a) (nr_mb a) (mba_free a) (mba_max a) l.
Definition with_users (c : Z) (cr : option nat) (l : list mb_user) (m : mb_struct) : mb_struct :=
  MkMb (mb_id m) (mb_pfn_start m) (mb_pfn_end m) (mb_phys m) (mb_virt m) (mb_size m) c cr l.
Definition with_areas (l : list mb_area_struct) (h : mba_host_struct) : mba_host_struct :=
  MkHost l (nr_mba h) (tot_pages h) (tot_static_pages h) (tot_free_pages h)
    (max_available_pages h).

(** [*mb = m'] for a block of the area [a]. *)
Definition store_mb (a : mb_area_struct) (m' : mb_struct) : D unit := modify (fun s =>
  let h := wmt_mbah s in
  set_host (with_areas (upd_mba (with_blocks (upd_mb m' (mb_list a)) a) (mba_list h)) h) s).

(** Unsigned difference. *)
Definition usub (a b : Z) : Z := u32 (a - b).

(** ** Areas *)

(** [get_order]: the shifts it counts are the binary logarithm. *)
Definition get_order (size : Z) : Z := Z.log2 (Z.shiftr (u32 (size - 1)) (PAGE_SHIFT - 1)).

(** The region below the end of the memory, rounded up to a power of two;
    answers (virtual, physical) or [None]. *)
Definition mb_alloc_pages (nr_pages : Z) : D (option (Z * Z)) :=
  np ← gets num_physpages;
  let order := get_order (u32 (Z.shiftl np PAGE_SHIFT)) in
  let addr := u32 (Z.shiftl (Z.shiftl 1 order - nr_pages) PAGE_SHIFT) in
  if nr_pages =? 0 then mret None
  else
    virt ← map_region;
    mret (match virt with Some virt => Some (virt, addr) | None => None end).

(** [max] over the areas of a host. *)
Definition areas_max (l : list mb_area_struct) : Z := foldl (fun m a => Z.max m (mba_max a)) 0 l.

Definition mb_alloc_mba (pages : Z) : D (option mb_area_struct) :=
  if pages =? 0 then mret None
  else
    id ← kmem_cache_alloc;
    match id with
    | None => mret None
    | Some id =>
        r ← mb_alloc_pages pages;
        match r with
        | None => mret None
        | Some (virt, phys) =>
            let start := Z.shiftr phys PAGE_SHIFT in
            let mba := MkMba id 0 0 phys virt pages start (u32 (start + pages)) 0 pages pages [] in
            modify (fun s =>
              let h := wmt_mbah s in
              set_host (MkHost (mba_list h ++ [mba]) (nr_mba h + 1) (u32 (tot_pages h + pages))
                          (tot_static_pages h) (u32 (tot_free_pages h + pages))
                          (Z.max (max_available_pages h) pages)) s);;
            mret (Some mba)
        end
    end.

Definition is_static (a : mb_area_struct) : bool := negb (Z.land (mba_flags a) MBAFLAG_STATIC =? 0).

Definition mb_free_mba (a : mb_area_struct) : D Z :=
  if negb (nr_mb a =? 0) then mret (- EFAULT)
  else
    h ← gets wmt_mbah;
    if negb (existsb (fun e => Nat.eqb (mba_id e) (mba_id a)) (mba_list h)) then mret (- EFAULT)
    else if is_static a then mret 0
    else
      let l := filter (fun e => mba_id e <> mba_id a) (mba_list h) in
      modify (set_host (MkHost l (nr_mba h - 1) (usub (tot_pages h) (mba_pages a))
                          (tot_static_pages h) (usub (tot_free_pages h) (mba_free a))
                          (areas_max l)));;
      mret 0.

(** ** Blocks *)

(** The search for a zone of [pages] free pages: its bounds and the entry it
    ends at ([None]: the list head). *)
Fixpoint find_zone (pages zs ze : Z) (next : option nat) (idx : nat) (l : list mb_struct) :
    Z * Z * option nat :=
  match l with
  | [] => (zs, ze, next)
  | entry :: l' =>
      let ze := mb_pfn_start entry in
      if pages <=? usub ze zs then (zs, ze, Some idx)
      else find_zone pages (mb_pfn_end entry) ze (Some idx) (S idx) l'
  end.

(** [list_add_tail(new, next)]: before the entry [next], at the end for the
    head. *)
Definition list_add_tail {A} (x : A) (next : option nat) (l : list A) : list A :=
  match next with
  | None => l ++ [x]
  | Some i => take i l ++ x :: drop i l
  end.

(** Walk over the zones between the blocks: where the last one starts, the
    largest so far and their sum. *)
Fixpoint gaps (zs mx tot : Z) (l : list mb_struct) : Z * Z * Z :=
  match l with
  | [] => (zs, mx, tot)
  | entry :: l' =>
      gaps (mb_pfn_end entry) (Z.max (usub (mb_pfn_start entry) zs) mx)
        (u32 (tot + usub (mb_pfn_start entry) zs)) l'
  end.

(** [max_available_pages] and [tot_free_pages] recomputed from the blocks. *)
Definition recount (a : mb_area_struct) (l : list mb_struct) : Z * Z :=
  let '(zs, mx, tot) := gaps (mba_pfn_start a) 0 0 l in
  (Z.max (usub (mba_pfn_end a) zs) mx, u32 (tot + usub (mba_pfn_end a) zs)).

Definition mb_alloc_mb (a : mb_area_struct) (size : Z) : D (option mb_struct) :=
  if size =? 0 then mret None
  else
    let size := PAGE_ALIGN size in
    let pages := Z.shiftr size PAGE_SHIFT in
    if mba_max a <? pages then mret None
    else
      let '(zs, ze, next) :=
        find_zone pages (mba_pfn_start a) (mba_pfn_start a) None 0 (mb_list a) in
      let '(ze, next) := if ze <=? zs then (mba_pfn_end a, None) else (ze, next) in
      if usub ze zs <? pages then mret None
      else
        id ← kmem_cache_alloc;
        match id with
        | None => mret None
        | Some id =>
            let phys := u32 (mba_phys a + Z.shiftl (usub zs (mba_pfn_start a)) PAGE_SHIFT) in
            let mb := MkMb id zs (u32 (zs + pages)) phys
                        (u32 (mba_virt a + usub phys (mba_phys a))) size 0 None [] in
            let l := list_add_tail mb next (mb_list a) in
            let a' := MkMba (mba_id a) (mba_flags a) (mba_tgid a) (mba_phys a) (mba_virt a)
                        (mba_pages a) (mba_pfn_start a) (mba_pfn_end a) (nr_mb a + 1)
                        (usub (mba_free a) pages) (recount a l).1 l in
            h ← gets wmt_mbah;
            let al := upd_mba a' (mba_list h) in
            modify (set_host (MkHost al (nr_mba h) (tot_pages h) (tot_static_pages h)
                                (usub (tot_free_pages h) pages) (areas_max al)));;
            mret (Some mb)
        end.

(** [mb_free_mb(mb)], [a] being [mb->mba]. *)
Definition mb_free_mb (a : mb_area_struct) (m : mb_struct) : D Z :=
  if negb (mb_count m =? 0) then mret (- EINVAL)
  else if negb (existsb (fun e => Nat.eqb (mb_id e) (mb_id m)) (mb_list a)) then mret (- EFAULT)
  else
    let l := filter (fun e => mb_id e <> mb_id m) (mb_list a) in
    let a1 := MkMba (mba_id a) (mba_flags a) (mba_tgid a) (mba_phys a) (mba_virt a) (mba_pages a)
                (mba_pfn_start a) (mba_pfn_end a) (nr_mb a - 1) (mba_free a) (mba_max a) l in
    modify (fun s => let h := wmt_mbah s in
              set_host (with_areas (upd_mba a1 (mba_list h)) h) s);;
    if (nr_mb a1 =? 0) && negb (is_static a1) then mb_free_mba a1
    else
      let '(mx, tot) := recount a1 l in
      let a2 := MkMba (mba_id a) (mba_flags a) (mba_tgid a) (mba_phys a) (mba_virt a)
                  (mba_pages a) (mba_pfn_start a) (mba_pfn_end a) (nr_mb a1) tot mx l in
      modify (fun s => let h := wmt_mbah s in
        set_host (MkHost (upd_mba a2 (mba_list h)) (nr_mba h) (tot_pages h) (tot_static_pages h)
                    (u32 (usub (tot_free_pages h) (mba_free a1) + tot))
                    (Z.max (max_available_pages h) mx)) s);;
      mret 0.

(** ** Searching *)

(** The first area, and the first block of it, that satisfy a test. *)
Fixpoint find_map {A B} (f : A -> option B) (l : list A) : option B :=
  match l with
  | [] => None
  | x :: l' => match f x with Some y => Some y | None => find_map f l' end
  end.

(** [addr] lies outside the area. *)
Definition out_of_mba (phys : bool) (addr : Z) (a : mb_area_struct) : bool :=
  let saddr := if phys then mba_phys a else mba_virt a in
  let eaddr := u32 (saddr + u32 (mba_pages a * PAGE_SIZE)) in
  (addr <? saddr) || (eaddr <? addr).

Definition mb_find_mb (h : mba_host_struct) (addr type : Z) : option (mb_area_struct * mb_struct) :=
  if (addr =? 0) || negb ((type =? MBFIND_PHYS) || (type =? MBFIND_VIRT)) then None
  else
    let phys := type =? MBFIND_PHYS in
    find_map (fun a =>
      if out_of_mba phys addr a then None
      else find_map (fun m =>
        let mbaddr := if phys then mb_phys m else mb_virt m in
        if (mbaddr <=? addr) && (addr <? u32 (mbaddr + mb_size m)) then Some (a, m) else None)
        (mb_list a)) (mba_list h).

Definition flag (st f : Z) : bool := negb (Z.land st f =? 0).

(** One user in the innermost loop of [mb_find_mbu]: [Some] leaves the search,
    with the user found or (no creator left) with none. *)
Definition match_mbu (addr tgid st : Z) (m : mb_struct) (u : mb_user) : option (option mb_user) :=
  if negb (mbu_tgid u =? tgid) && negb (tgid =? MB_DEF_TGID) then None
  else if flag st MBUFIND_USER && negb (addr =? mbu_addr u) then None
  else if flag st MBUFIND_ALL then Some (Some u)
  else if flag st MBUFIND_CREATOR then
    Some (match mb_creator m with
          | None => None
          | Some c => find_map (fun v => if Nat.eqb (mbu_id v) c then Some v else None) (mbu_list m)
          end)
  else if flag st MBUFIND_MMAP && negb (mbu_size u =? 0) then Some (Some u)
  else if flag st MBUFIND_GETPUT && negb (mbu_addr u =? 0) && (mbu_size u =? 0)
  then Some (Some u)
  else None.

Definition mb_find_mbu (h : mba_host_struct) (addr tgid st : Z) :
    option (mb_area_struct * mb_struct * mb_user) :=
  if (addr =? 0) || negb (flag st MBUFIND_ADDRMASK) then None
  else
    match find_map (fun a =>
      if flag st (Z.lor MBUFIND_VIRT MBUFIND_PHYS) && out_of_mba (flag st MBUFIND_PHYS) addr a
      then None
      else find_map (fun m =>
        if flag st MBUFIND_PHYS && negb (addr =? mb_phys m) then None
        else if flag st MBUFIND_VIRT && negb (addr =? mb_virt m) then None
        else find_map (fun u =>
          match match_mbu addr tgid st m u with
          | Some r => Some (a, m, r)
          | None => None
          end) (mbu_list m)) (mb_list a)) (mba_list h) with
    | Some (a, m, Some u) => Some (a, m, u)
    | _ => None
    end.

Definition mb_update_mbah : D unit := modify (fun s =>
  let h := wmt_mbah s in
  let '(mx, free) := foldl (fun '(mx, free) a =>
    let '(amx, afree) := recount a (mb_list a) in (Z.max mx amx, u32 (free + afree)))
    (0, 0) (mba_list h) in
  set_host (MkHost (mba_list h) (nr_mba h) (tot_pages h) (tot_static_pages h) free mx) s).

(** ** The kernel interface *)

(** [__va] and [__pa] of the linear mapping, for addresses outside all
    blocks. *)
Definition PAGE_OFFSET : Z := 0xC0000000.
Definition va (phys : Z) : Z := u32 (phys + PAGE_OFFSET).
Definition pa (virt : Z) : Z := u32 (virt - PAGE_OFFSET).

Definition mb_do_phys_to_virt (h : mba_host_struct) (phys : Z) : Z :=
  match mb_find_mb h phys MBFIND_PHYS with
  | Some (_, m) => u32 (mb_virt m + usub phys (mb_phys m))
  | None => va phys
  end.

Definition mb_do_virt_to_phys (h : mba_host_struct) (virt : Z) : Z :=
  match mb_find_mb h virt MBFIND_VIRT with
  | Some (_, m) => u32 (mb_phys m + usub virt (mb_virt m))
  | None => pa virt
  end.

Definition mb_do_user_to_phys (h : mba_host_struct) (user tgid : Z) : Z :=
  match mb_find_mbu h user tgid (Z.lor MBUFIND_USER MBUFIND_ALL) with
  | Some (_, m, _) => mb_phys m
  | None => 0
  end.

Definition mb_do_user_to_virt (h : mba_host_struct) (user tgid : Z) : Z :=
  match mb_find_mbu h user tgid (Z.lor MBUFIND_USER MBUFIND_ALL) with
  | Some (_, m, _) => mb_virt m
  | None => 0
  end.

Definition mb_do_counter (h : mba_host_struct) (addr : Z) : Z :=
  if addr =? 0 then - EINVAL
  else match mb_find_mb h addr MBFIND_PHYS with
       | Some (_, m) => mb_count m
       | None => -1
       end.

(** The name kept for messages. *)
Definition user_name (name : list Z) : list Z := take TASK_COMM_LEN name.

Definition mb_do_alloc (size tgid : Z) (name : option (list Z)) : D Z :=
  match name with
  | None => mret 0
  | Some name =>
      let size := PAGE_ALIGN size in
      let pages := Z.shiftr size PAGE_SHIFT in
      if pages =? 0 then mret 0
      else
        id ← kmem_cache_alloc;
        match id with
        | None => mret 0
        | Some id =>
            h ← gets wmt_mbah;
            if max_available_pages h <? pages then mret 0
            else
              match find_map (fun a => if pages <=? mba_max a then Some a else None) (mba_list h) with
              | None => mret 0
              | Some a =>
                  r ← mb_alloc_mb a size;
                  match r with
                  | None => mret 0
                  | Some m =>
                      let u := MkMbu id tgid 0 (mb_size m) (user_name name) in
                      h ← gets wmt_mbah;
                      a ← initialised (find_map (fun e =>
                             if Nat.eqb (mba_id e) (mba_id a) then Some e else None) (mba_list h));
                      store_mb a (with_users (mb_count m + 1) (Some id) (mbu_list m ++ [u]) m);;
                      mret (mb_phys m)
                  end
              end
        end
  end.

(** [list_del(&mbu->mbu_list)]. *)
Definition del_mbu (u : mb_user) (l : list mb_user) : list mb_user :=
  filter (fun v => mbu_id v <> mbu_id u) l.

(** [list_del] and [atomic_dec]; [cr] is the creator afterwards. *)
Definition drop_user (a : mb_area_struct) (m : mb_struct) (u : mb_user) (cr : option nat) :
    D (mb_area_struct * mb_struct) :=
  let m' := with_users (mb_count m - 1) cr (del_mbu u (mbu_list m)) m in
  store_mb a m';;
  mret (with_blocks (upd_mb m' (mb_list a)) a, m').

(** [list_add_tail] and [atomic_inc]. *)
Definition add_user (a : mb_area_struct) (m : mb_struct) (u : mb_user) : D unit :=
  store_mb a (with_users (mb_count m + 1) (mb_creator m) (mbu_list m ++ [u]) m).

Definition mb_do_free (addr tgid : Z) (name : option (list Z)) : D Z :=
  if (addr =? 0) || bool_decide (name = None) then mret (- EINVAL)
  else
    h ← gets wmt_mbah;
    match mb_find_mbu h addr tgid (Z.lor MBUFIND_PHYS MBUFIND_CREATOR) with
    | None => mret (- EINVAL)
    | Some (a, m, u) =>
        '(a, m) ← drop_user a m u None;
        if negb (mb_count m =? 0) then mret 0
        else mb_free_mb a m
    end.

Definition mb_do_get (addr tgid : Z) (name : option (list Z)) : D Z :=
  match name with
  | None => mret (- EINVAL)
  | Some name =>
      if addr =? 0 then mret (- EINVAL)
      else
        id ← kmem_cache_alloc;
        match id with
        | None => mret (- ENOMEM)
        | Some id =>
            h ← gets wmt_mbah;
            match (if negb (tgid =? MB_DEF_TGID) then
                     match mb_find_mbu h addr tgid (Z.lor MBUFIND_USER MBUFIND_MMAP) with
                     | Some (a, m, _) => Some (a, m)
                     | None => None
                     end
                   else mb_find_mb h addr MBFIND_PHYS) with
            | None => mret (- EFAULT)
            | Some (a, m) => add_user a m (MkMbu id tgid addr 0 (user_name name));; mret 0
            end
        end
  end.

(** The end of [mb_do_put] and of [MBIO_PUT_BY_PHYS]. *)
Definition put_mbu (r : option (mb_area_struct * mb_struct * mb_user)) : D Z :=
  match r with
  | None => mret (- EINVAL)
  | Some (a, m, u) =>
      if mb_count m =? 0 then mret (- EPERM)
      else
        '(a, m) ← drop_user a m u (mb_creator m);
        (if mb_count m =? 0 then _ ← mb_free_mb a m; mret tt else mret tt);;
        mret 0
  end.

Definition mb_do_put (addr tgid : Z) (name : option (list Z)) : D Z :=
  if (addr =? 0) || bool_decide (name = None) then mret (- EINVAL)
  else
    h ← gets wmt_mbah;
    put_mbu (mb_find_mbu h addr tgid
      (Z.lor (if tgid =? MB_DEF_TGID then MBUFIND_PHYS else MBUFIND_USER) MBUFIND_GETPUT)).

(** ** The device file *)

(** The first element that satisfies a test, changed or taken out. *)
Fixpoint upd_first {A} (p : A -> bool) (f : A -> A) (l : list A) : list A :=
  match l with
  | [] => []
  | x :: l' => if p x then f x :: l' else x :: upd_first p f l'
  end.
Fixpoint del_first {A} (p : A -> bool) (l : list A) : list A :=
  match l with
  | [] => []
  | x :: l' => if p x then l' else x :: del_first p l'
  end.

Definition of_task (tgid : Z) (x : mb_task_info) : bool := ti_tgid x =? tgid.

(** [mb_open] by task [tgid]; [private_data]: the file already has one. *)
Definition mb_open (private_data : bool) (tgid : Z) : D Z :=
  if private_data then mret (- EFAULT)
  else
    t ← gets wmt_mbti;
    if existsb (of_task tgid) t then
      modify (set_tasks (upd_first (of_task tgid) (fun x => MkMbti (ti_tgid x) (ti_count x + 1)) t));;
      mret 0
    else
      id ← kmem_cache_alloc;
      match id with
      | None => mret (- EFAULT)
      | Some _ => modify (fun s => set_tasks (wmt_mbti s ++ [MkMbti tgid 1]) s);; mret 0
      end.

(** All users of all blocks. *)
Definition total_users (h : mba_host_struct) : nat :=
  length (a ← mba_list h; m ← mb_list a; mbu_list m).

(** One pass of the scan from [RESCAN_MBA:] or [RESCAN_MBU:]: the first user of
    the task is taken off its block, and the block recycled with its last
    user. *)
Definition release_body (tgid : Z) (_ : unit) : D (unit + unit) :=
  h ← gets wmt_mbah;
  match find_map (fun a => find_map (fun m => find_map (fun u =>
          if mbu_tgid u =? tgid then Some (a, m, u) else None) (mbu_list m)) (mb_list a))
          (mba_list h) with
  | None => mret (inr tt)
  | Some (a, m, u) =>
      let cr := if bool_decide (mb_creator m = Some (mbu_id u)) then None else mb_creator m in
      '(a, m) ← drop_user a m u cr;
      (if mb_count m =? 0 then _ ← mb_free_mb a m; mret tt else mret tt);;
      mret (inl tt)
  end.

(** [mb_release], [priv] being the task of [filp->private_data]. *)
Definition mb_release (priv : option Z) : D Z :=
  match priv with
  | None => mret (- EFAULT)
  | Some tgid =>
      t ← gets wmt_mbti;
      match find_map (fun x => if of_task tgid x then Some x else None) t with
      | None => mret 0
      | Some x =>
          modify (set_tasks (upd_first (of_task tgid) (fun y => MkMbti (ti_tgid y) (ti_count y - 1)) t));;
          if negb (ti_count x - 1 =? 0) then mret 0
          else
            h ← gets wmt_mbah;
            loop (S (total_users h)) (release_body tgid) tt;;
            mb_update_mbah;;
            modify (fun s => set_tasks (del_first (of_task tgid) (wmt_mbti s)) s);;
            mret 0
      end
  end.

(** The commands of [com-mb.h], other numbers of their type, and commands of
    another type. *)
Inductive mb_cmd :=
| MBIO_MALLOC | MBIO_FREE | MBIO_UNMAP | MBIO_MBSIZE | MBIO_MAX_AVAILABLE_SIZE
| MBIO_GET | MBIO_PUT | MBIO_USER_TO_VIRT | MBIO_USER_TO_PHYS | MBIO_PREFETCH
| MBIO_STATIC_SIZE | MBIO_MB_USER_COUNT | MBIO_FORCE_RESET | MBIO_GET_BY_PHYS
| MBIO_PUT_BY_PHYS | MBIO_FSCREENINFO | MBIO_other | MBIO_foreign.

(** [MBIO_MALLOC]: the return code and what is written back to the caller. *)
Definition ioctl_malloc (value tgid : Z) (name : list Z) : D (Z * list Z) :=
  phys ← mb_do_alloc value tgid (Some name);
  mret (if phys =? 0 then (- EFAULT, []) else (0, [phys])).

(** [MBIO_FREE]: a mapping at that address is taken off first. *)
Definition ioctl_free (value tgid : Z) (name : list Z) : D (Z * list Z) :=
  h ← gets wmt_mbah;
  '(value, size) ←
    match mb_find_mbu h value tgid (Z.lor MBUFIND_USER MBUFIND_MMAP) with
    | Some (a, m, u) =>
        _ ← drop_user a m u (mb_creator m);
        mret (mb_phys m, mbu_size u)
    | None => mret (value, value)
    end;
  ret ← mb_do_free value tgid (Some name);
  mret (ret, [size]).

(** [MBIO_UNMAP]: the count goes down, the block stays. *)
Definition ioctl_unmap (value tgid : Z) : D (Z * list Z) :=
  h ← gets wmt_mbah;
  match mb_find_mbu h value tgid (Z.lor MBUFIND_USER MBUFIND_MMAP) with
  | None => mret (- EFAULT, [])
  | Some (a, m, u) =>
      _ ← drop_user a m u (mb_creator m);
      mret (0, [mbu_size u])
  end.

Definition ioctl_mbsize (value : Z) : D (Z * list Z) :=
  h ← gets wmt_mbah;
  mret (match mb_find_mb h value MBFIND_PHYS with
        | None => (- EFAULT, [])
        | Some (_, m) => (0, [mb_size m])
        end).

Definition ioctl_user_count (value : Z) : D (Z * list Z) :=
  h ← gets wmt_mbah;
  mret (0, [match mb_find_mb h value MBFIND_PHYS with None => 0 | Some (_, m) => mb_count m end]).

(** One pass of [MBIO_FORCE_RESET].  The innermost loop deletes the entry its
    cursor stands on: with a user on the list the next step follows a pointer
    that [list_del] has poisoned. *)
Definition reset_body (_ : unit) : D (unit + unit) :=
  h ← gets wmt_mbah;
  match find_map (fun a => find_map (fun m => Some (a, m)) (mb_list a)) (mba_list h) with
  | None => mret (inr tt)
  | Some (a, m) =>
      match mbu_list m with
      | _ :: _ => fail_with Undefined
      | [] =>
          let m' := with_users 0 None [] m in
          store_mb a m';;
          _ ← mb_free_mb (with_blocks (upd_mb m' (mb_list a)) a) m';
          mret (inl tt)
      end
  end.

Definition total_blocks (h : mba_host_struct) : nat := length (a ← mba_list h; mb_list a).

Definition ioctl_force_reset : D (Z * list Z) :=
  h ← gets wmt_mbah;
  loop (S (total_blocks h)) reset_body tt;;
  mb_update_mbah;;
  mret (0, []).

Definition ioctl_get_by_phys (value tgid : Z) (name : list Z) : D (Z * list Z) :=
  if (value =? 0) || (tgid =? MB_DEF_TGID) then mret (- EINVAL, [])
  else
    id ← kmem_cache_alloc;
    match id with
    | None => mret (- ENOMEM, [])
    | Some id =>
        h ← gets wmt_mbah;
        match mb_find_mb h value MBFIND_PHYS with
        | None => mret (- EFAULT, [])
        | Some (a, m) => add_user a m (MkMbu id tgid value 0 (user_name name));; mret (0, [])
        end
    end.

Definition ioctl_put_by_phys (value tgid : Z) : D (Z * list Z) :=
  if (value =? 0) || (tgid =? MB_DEF_TGID) then mret (- EINVAL, [])
  else
    h ← gets wmt_mbah;
    rc ← put_mbu (mb_find_mbu h value tgid (Z.lor MBUFIND_PHYS MBUFIND_GETPUT));
    mret (rc, []).

(** [MBIO_FSCREENINFO]: start of the first area and the size reserved. *)
Definition ioctl_fscreeninfo : D (Z * list Z) :=
  h ← gets wmt_mbah;
  mret (match mba_list h with
        | [] => (- EFAULT, [])
        | a :: _ => (0, [mba_phys a; u32 (tot_static_pages h * PAGE_SIZE)])
        end).

(** [mb_ioctl] by the task [priv] (the one that opened the file), with the
    argument [value] already fetched; what is stored through [arg] is the
    list. *)
Definition mb_ioctl (priv : option Z) (name : list Z) (cmd : mb_cmd) (value : Z) : D (Z * list Z) :=
  match cmd with
  | MBIO_foreign => mret (- ENOTTY, [])
  | _ =>
      match priv with
      | None => mret (- EFAULT, [])
      | Some tgid =>
          h ← gets wmt_mbah;
          match cmd with
          | MBIO_MALLOC => ioctl_malloc value tgid name
          | MBIO_FREE => ioctl_free value tgid name
          | MBIO_UNMAP => ioctl_unmap value tgid
          | MBIO_MBSIZE => ioctl_mbsize value
          | MBIO_MAX_AVAILABLE_SIZE => mret (0, [u32 (max_available_pages h * PAGE_SIZE)])
          | MBIO_GET => rc ← mb_do_get value tgid (Some name); mret (rc, [])
          | MBIO_PUT => rc ← mb_do_put value tgid (Some name); mret (rc, [])
          | MBIO_USER_TO_VIRT => mret (0, [mb_do_user_to_virt h value tgid])
          | MBIO_USER_TO_PHYS => mret (0, [mb_do_user_to_phys h value tgid])
          | MBIO_PREFETCH => mret (- ENOTTY, [])
          | MBIO_STATIC_SIZE => mret (0, [u32 (tot_static_pages h * PAGE_SIZE)])
          | MBIO_MB_USER_COUNT => ioctl_user_count value
          | MBIO_FORCE_RESET => ioctl_force_reset
          | MBIO_GET_BY_PHYS => ioctl_get_by_phys value tgid name
          | MBIO_PUT_BY_PHYS => ioctl_put_by_phys value tgid
          | MBIO_FSCREENINFO => ioctl_fscreeninfo
          | MBIO_other | MBIO_foreign => mret (- ENOTTY, [])
          end
      end
  end.

(** What a mapping gives access to: a physical range. *)
Definition range : Type := Z * Z.

(** The first part of [mb_mmap]: a page offset inside the reserved size is an
    offset into the first area. *)
Definition mmap_io (vm_start vm_end vm_pgoff : Z) (h : mba_host_struct) : D (Z * option range) :=
  let off := u32 (Z.shiftl vm_pgoff PAGE_SHIFT) in
  if u32 (Z.shiftl (tot_static_pages h) PAGE_SHIFT) <? u32 (vm_end - vm_start + off)
  then mret (- EINVAL, None)
  else
    a ← initialised (head (mba_list h));
    ok ← io_remap_pfn_range;
    mret (if (ok : bool) then
            (0, Some (Z.shiftl (vm_pgoff + Z.shiftr (mba_phys a) PAGE_SHIFT) PAGE_SHIFT,
                      usub vm_end vm_start))
          else (- EAGAIN, None)).

Definition mb_mmap (priv : option Z) (name : list Z) (vm_start vm_end vm_pgoff : Z) :
    D (Z * option range) :=
  match priv with
  | None => mret (- EFAULT, None)
  | Some tgid =>
      let off := u32 (Z.shiftl vm_pgoff PAGE_SHIFT) in
      h ← gets wmt_mbah;
      if vm_pgoff <=? tot_static_pages h then mmap_io vm_start vm_end vm_pgoff h
      else
        id ← kmem_cache_alloc;
        match id with
        | None => mret (- ENOMEM, None)
        | Some id =>
            match mb_find_mb h off MBFIND_PHYS with
            | None => mret (- EINVAL, None)
            | Some (a, m) =>
                if PAGE_ALIGN (mb_phys m + mb_size m) <? u32 (vm_end - vm_start + off)
                then mret (- EINVAL, None)
                else
                  ok ← io_remap_pfn_range;
                  if negb (ok : bool) then mret (- EAGAIN, None)
                  else
                    let size := usub vm_end vm_start in
                    add_user a m (MkMbu id tgid vm_start size (user_name name));;
                    mret (0, Some (Z.shiftl vm_pgoff PAGE_SHIFT, size))
            end
        end
  end.

(** ** Start-up *)

(** [mba->flags |= MBAFLAG_STATIC] and the account of static pages. *)
Definition mark_static (a : mb_area_struct) : D mb_area_struct :=
  let a' := MkMba (mba_id a) (Z.lor (mba_flags a) MBAFLAG_STATIC) MB_DEF_TGID (mba_phys a)
              (mba_virt a) (mba_pages a) (mba_pfn_start a) (mba_pfn_end a) (nr_mb a)
              (mba_free a) (mba_max a) (mb_list a) in
  modify (fun s => let h := wmt_mbah s in
    set_host (MkHost (upd_mba a' (mba_list h)) (nr_mba h) (tot_pages h)
                (u32 (tot_static_pages h + mba_pages a)) (tot_free_pages h)
                (max_available_pages h)) s);;
  mret a'.

(** [MB_COMBIND_MBA(h, t)]. *)
Definition combine_mba (x t : mb_area_struct) : D mb_area_struct :=
  let x' := MkMba (mba_id x) (mba_flags x) (mba_tgid x) (mba_phys x) (mba_virt x)
              (u32 (mba_pages x + mba_pages t)) (mba_pfn_start x) (mba_pfn_end t) (nr_mb x)
              (u32 (mba_free x + mba_free t)) (u32 (mba_max x + mba_max t)) (mb_list x) in
  modify (fun s => let h := wmt_mbah s in
    let l := filter (fun e => mba_id e <> mba_id t) (upd_mba x' (mba_list h)) in
    set_host (MkHost l (nr_mba h - 1) (tot_pages h) (tot_static_pages h) (tot_free_pages h)
                (max_available_pages h)) s);;
  mret x'.

(** One turn of the loop of [mb_probe]; [bind] is the last area. *)
Definition probe_body (MB_TOTAL_SIZE : Z) (bind : option mb_area_struct) :
    D (option mb_area_struct + unit) :=
  h ← gets wmt_mbah;
  if PAGE_KB (tot_static_pages h) <? MB_TOTAL_SIZE then
    let pages := s32 (Z.shiftr (u32 (MB_TOTAL_SIZE * 1024 - tot_static_pages h * PAGE_SIZE)) PAGE_SHIFT) in
    let pages := Z.min pages (Z.shiftl 1 MBA_MAX_ORDER) in
    r ← mb_alloc_mba pages;
    match r with
    | None => mret (inl bind)
    | Some a =>
        a ← mark_static a;
        match bind with
        | None => mret (inl (Some a))
        | Some b =>
            if mba_pfn_start b =? mba_pfn_end a then
              x ← combine_mba a b; mret (inl (Some x))
            else if mba_pfn_end b =? mba_pfn_start a then
              x ← combine_mba b a; mret (inl (Some x))
            else mret (inl (Some a))
        end
    end
  else mret (inr tt).

(** The part of [mb_probe] behind the creation of the slab caches, with at
    most [tries] turns of its loop. *)
Definition mb_probe (tries : nat) (MB_TOTAL_SIZE : Z) : D Z :=
  loop tries (probe_body MB_TOTAL_SIZE) None;;
  mb_update_mbah;;
  mret 0.
