(* ===== verification/MemBlockSafe.v ===== *)
(** * The memory block driver: theorems

    The invariant [state_ok] of the block lists, that every call keeps it and
    returns, and what allocation, release and the address translations do.
    [chain] is the heart of the invariant: the blocks of an area follow each
    other inside it without overlap, so that the free zones are the gaps
    between them; [gap_max] and [gap_total] are what the counters of the area
    must be. *)

From S2P Require Import Prelude MemBlock.
From stdpp Require Import list.
#[local] Open Scope Z_scope.

(** ** Specification of the lists *)

Definition blk_pages (m : mb_struct) : Z := mb_pfn_end m - mb_pfn_start m.

(** The blocks lie in [zs, hi), in order and apart. *)
Fixpoint chain (zs hi : Z) (l : list mb_struct) : Prop :=
  match l with
  | [] => zs <= hi
  | m :: l' => zs <= mb_pfn_start m /\ mb_pfn_start m < mb_pfn_end m /\ chain (mb_pfn_end m) hi l'
  end.

Fixpoint gap_max (zs hi : Z) (l : list mb_struct) : Z :=
  match l with
  | [] => hi - zs
  | m :: l' => Z.max (mb_pfn_start m - zs) (gap_max (mb_pfn_end m) hi l')
  end.

Fixpoint gap_total (zs hi : Z) (l : list mb_struct) : Z :=
  match l with
  | [] => hi - zs
  | m :: l' => (mb_pfn_start m - zs) + gap_total (mb_pfn_end m) hi l'
  end.

(** The users of a block: counted, told apart by their ids, the creator among
    them, with no address of its own. *)
Definition users_ok (m : mb_struct) : Prop :=
  mb_count m = Z.of_nat (length (mbu_list m)) /\
  NoDup (mbu_id <$> mbu_list m) /\
  (forall c, mb_creator m = Some c -> exists u, u ∈ mbu_list m /\ mbu_id u = c /\ mbu_addr u = 0).

Definition mb_wf (a : mb_area_struct) (m : mb_struct) : Prop :=
  mb_size m = blk_pages m * 4096 /\ mb_phys m = mb_pfn_start m * 4096 /\
  mb_virt m = mba_virt a + (mb_phys m - mba_phys a) /\ users_ok m.

Record mba_wf (a : mb_area_struct) : Prop := {
  wf_start : 0 < mba_pfn_start a;
  wf_end : mba_pfn_end a = mba_pfn_start a + mba_pages a;
  wf_pages : 0 < mba_pages a;
  wf_limit : mba_pfn_end a < 2 ^ 20;
  wf_phys : mba_phys a = mba_pfn_start a * 4096;
  wf_virt : 0 < mba_virt a /\ mba_virt a + mba_pages a * 4096 < 2 ^ 32;
  wf_static : is_static a = true;
  wf_chain : chain (mba_pfn_start a) (mba_pfn_end a) (mb_list a);
  wf_blocks : Forall (mb_wf a) (mb_list a);
  wf_ids : NoDup (mb_id <$> mb_list a);
  wf_nr : nr_mb a = Z.of_nat (length (mb_list a));
  wf_free : mba_free a = gap_total (mba_pfn_start a) (mba_pfn_end a) (mb_list a);
  wf_max : mba_max a = gap_max (mba_pfn_start a) (mba_pfn_end a) (mb_list a);
}.

(** Two areas share no address. *)
Definition apart (a b : mb_area_struct) : Prop :=
  (mba_pfn_end a <= mba_pfn_start b \/ mba_pfn_end b <= mba_pfn_start a) /\
  (mba_virt a + mba_pages a * 4096 <= mba_virt b \/ mba_virt b + mba_pages b * 4096 <= mba_virt a).

Definition sum_pages (l : list mb_area_struct) : Z := foldr (fun a s => mba_pages a + s) 0 l.
Definition sum_free (l : list mb_area_struct) : Z := foldr (fun a s => mba_free a + s) 0 l.

Record host_ok (h : mba_host_struct) : Prop := {
  ok_areas : Forall mba_wf (mba_list h);
  ok_ids : NoDup (mba_id <$> mba_list h);
  ok_apart : forall a b, a ∈ mba_list h -> b ∈ mba_list h -> mba_id a <> mba_id b -> apart a b;
  ok_sum : sum_pages (mba_list h) < 2 ^ 20;
  ok_nr : nr_mba h = Z.of_nat (length (mba_list h));
  ok_static : tot_static_pages h = sum_pages (mba_list h);
  ok_free : tot_free_pages h = sum_free (mba_list h);
  ok_max : max_available_pages h = areas_max (mba_list h);
}.

(** Every object's id has been handed out. *)
Definition ids_below (k : nat) (h : mba_host_struct) : Prop :=
  forall a m, a ∈ mba_list h -> m ∈ mb_list a ->
    (mb_id m < k)%nat /\ forall u, u ∈ mbu_list m -> (mbu_id u < k)%nat.

Definition state_ok (s : mbs) : Prop := host_ok (wmt_mbah s) /\ ids_below (next_id s) (wmt_mbah s).

(** ** Arithmetic *)

Lemma page_size : PAGE_SIZE = 4096.
Proof. reflexivity. Qed.

Lemma usub_small a b : b <= a -> a - b < 2 ^ 32 -> usub a b = a - b.
Proof. intros. unfold usub. apply u32_small. lia. Qed.

Lemma shl12 x : Z.shiftl x PAGE_SHIFT = x * 4096.
Proof. unfold PAGE_SHIFT. by rewrite Z.shiftl_mul_pow2. Qed.

Lemma shr12 x : Z.shiftr x PAGE_SHIFT = x / 4096.
Proof. unfold PAGE_SHIFT. by rewrite Z.shiftr_div_pow2. Qed.

Lemma page_align x : PAGE_ALIGN x = u32 (x + 4095) / 4096 * 4096.
Proof.
  unfold PAGE_ALIGN. rewrite page_size. change (4096 - 1) with (Z.ones 12).
  rewrite <- Z.ldiff_land, Z.ldiff_ones_r by done.
  rewrite Z.shiftl_mul_pow2, Z.shiftr_div_pow2 by done. done.
Qed.

(** A size and the pages it takes. *)
Definition pages_of (size : Z) : Z := u32 (size + 4095) / 4096.

Lemma pages_of_bound size : 0 <= pages_of size < 2 ^ 20.
Proof. unfold pages_of. pose proof (u32_bound (size + 4095)). dlia. Qed.

Lemma align_pages size : PAGE_ALIGN size = pages_of size * 4096.
Proof. apply page_align. Qed.

Lemma align_twice size : PAGE_ALIGN (PAGE_ALIGN size) = PAGE_ALIGN size.
Proof.
  rewrite !align_pages. pose proof (pages_of_bound size). unfold pages_of at 1.
  rewrite u32_small by lia. f_equal. dlia.
Qed.

Lemma align_shift size : Z.shiftr (PAGE_ALIGN size) PAGE_SHIFT = pages_of size.
Proof. rewrite shr12, align_pages. by rewrite Z.div_mul. Qed.

Lemma pages_of_align size : pages_of (PAGE_ALIGN size) = pages_of size.
Proof. by rewrite <- align_shift, align_twice, align_shift. Qed.

(** ** Gaps *)

Lemma chain_le zs hi l : chain zs hi l -> zs <= hi.
Proof.
  revert zs. induction l as [|m l IH]; intros zs; simpl; [done|].
  intros (H1 & H2 & H3%IH). lia.
Qed.

Lemma gap_max_bounds zs hi l : chain zs hi l -> 0 <= gap_max zs hi l <= hi - zs.
Proof.
  revert zs. induction l as [|m l IH]; intros zs; simpl; [lia|].
  intros (H1 & H2 & H3). pose proof (chain_le _ _ _ H3). apply IH in H3. lia.
Qed.

Lemma gap_total_bounds zs hi l : chain zs hi l -> 0 <= gap_total zs hi l <= hi - zs.
Proof.
  revert zs. induction l as [|m l IH]; intros zs; simpl; [lia|].
  intros (H1 & H2 & H3). pose proof (chain_le _ _ _ H3). apply IH in H3. lia.
Qed.

Lemma gaps_run zs hi mx tot l :
  chain zs hi l -> 0 <= zs -> hi < 2 ^ 20 -> 0 <= mx -> 0 <= tot -> tot + (hi - zs) < 2 ^ 20 ->
  let '(zs', mx', tot') := gaps zs mx tot l in
  Z.max (hi - zs') mx' = Z.max (gap_max zs hi l) mx /\ tot' + (hi - zs') = tot + gap_total zs hi l /\
  0 <= tot' /\ zs <= zs' <= hi.
Proof.
  revert zs mx tot. induction l as [|m l IH]; intros zs mx tot Hc Hz Hh Hm Ht Hs; simpl in *.
  - lia.
  - destruct Hc as (H1 & H2 & H3). pose proof (chain_le _ _ _ H3).
    rewrite usub_small by lia. rewrite u32_small by lia.
    specialize (IH (mb_pfn_end m) (Z.max (mb_pfn_start m - zs) mx)
      (tot + (mb_pfn_start m - zs)) H3 ltac:(lia) Hh ltac:(lia) ltac:(lia) ltac:(lia)).
    destruct (gaps _ _ _ l) as [[zs' mx'] tot']. lia.
Qed.

Lemma recount_run a l :
  0 < mba_pfn_start a -> mba_pfn_end a < 2 ^ 20 ->
  chain (mba_pfn_start a) (mba_pfn_end a) l ->
  recount a l = (gap_max (mba_pfn_start a) (mba_pfn_end a) l,
                 gap_total (mba_pfn_start a) (mba_pfn_end a) l).
Proof.
  intros Hs Hh Hc. unfold recount.
  pose proof (gaps_run _ _ 0 0 _ Hc ltac:(lia) Hh ltac:(lia) ltac:(lia)) as Hg.
  pose proof (gap_max_bounds _ _ _ Hc). pose proof (gap_total_bounds _ _ _ Hc).
  destruct (gaps _ _ _ l) as [[zs' mx'] tot']. destruct Hg as (H1 & H2 & H3 & H4); [lia|].
  rewrite usub_small by lia. rewrite u32_small by lia. f_equal; lia.
Qed.

(** Where the zone behind the blocks [l] starts. *)
Definition end_of (zs : Z) (l : list mb_struct) : Z := foldl (fun _ m => mb_pfn_end m) zs l.

(** Where the zone before the blocks [l] ends. *)
Definition start_of (hi : Z) (l : list mb_struct) : Z :=
  match l with [] => hi | m :: _ => mb_pfn_start m end.

Lemma chain_app zs hi l1 l2 :
  chain zs hi (l1 ++ l2) <-> chain zs (end_of zs l1) l1 /\ chain (end_of zs l1) hi l2.
Proof.
  revert zs. induction l1 as [|m l1 IH]; intros zs; simpl; [split; [intros; split; [lia|done]|tauto]|].
  rewrite IH. unfold end_of. simpl. tauto.
Qed.

Lemma chain_weaken zs zs' hi l : chain zs hi l -> zs' <= zs -> chain zs' hi l.
Proof. destruct l as [|m l]; simpl; [lia|]. intros (? & ? & ?) ?. split_and!; (lia || done). Qed.

Lemma chain_shift zs zs' hi l : chain zs hi l -> zs' <= start_of hi l -> chain zs' hi l.
Proof. destruct l as [|m l]; simpl; [lia|]. intros (? & ? & ?) ?. split_and!; (lia || done). Qed.

Lemma chain_start_of zs hi l : chain zs hi l -> zs <= start_of hi l <= hi.
Proof.
  destruct l as [|m l]; simpl; [lia|]. intros (? & ? & H3%chain_le). lia.
Qed.

Lemma gap_total_app zs hi l1 l2 :
  gap_total zs hi (l1 ++ l2) = gap_total zs (end_of zs l1) l1 + gap_total (end_of zs l1) hi l2.
Proof.
  revert zs. induction l1 as [|m l1 IH]; intros zs; simpl; [lia|].
  rewrite IH. unfold end_of. simpl. lia.
Qed.

Lemma gap_total_shift zs zs' hi l : gap_total zs' hi l = gap_total zs hi l - (zs' - zs).
Proof. destruct l; simpl; lia. Qed.

Lemma gap_max_app zs hi l1 l2 :
  chain zs hi (l1 ++ l2) ->
  gap_max zs hi (l1 ++ l2) = Z.max (gap_max zs (end_of zs l1) l1) (gap_max (end_of zs l1) hi l2).
Proof.
  revert zs. induction l1 as [|m l1 IH]; intros zs; simpl.
  - intros Hc%gap_max_bounds. lia.
  - intros (H1 & H2 & H3). rewrite IH by done. unfold end_of. simpl. lia.
Qed.

(** Taking away free pages at the front makes the largest zone smaller, by
    those pages at most. *)
Lemma gap_max_shift zs zs' hi l :
  zs <= zs' <= start_of hi l -> chain zs hi l ->
  gap_max zs' hi l <= gap_max zs hi l <= gap_max zs' hi l + (zs' - zs).
Proof. destruct l as [|m l]; simpl; [lia|]. intros Hz (H1 & H2 & H3%gap_max_bounds). lia. Qed.

(** All the zones between the blocks are smaller than [pages]. *)
Fixpoint small_gaps (pages zs : Z) (l : list mb_struct) : Prop :=
  match l with
  | [] => True
  | m :: l' => mb_pfn_start m - zs < pages /\ small_gaps pages (mb_pfn_end m) l'
  end.

Lemma small_gap_max pages zs hi l :
  chain zs hi l -> small_gaps pages zs l -> pages <= gap_max zs hi l -> pages <= hi - end_of zs l.
Proof.
  revert zs. induction l as [|m l IH]; intros zs; simpl; [done|].
  intros (H1 & H2 & H3) [H4 H5] H6. apply (IH _ H3 H5). lia.
Qed.

Lemma end_of_cons zs m l : end_of zs (m :: l) = end_of (mb_pfn_end m) l.
Proof. done. Qed.

Lemma find_zone_run pages zs ze nx idx l hi :
  chain zs hi l -> 0 <= zs -> hi < 2 ^ 20 ->
  (exists l1 m l2, l = l1 ++ m :: l2 /\ small_gaps pages zs l1 /\
     pages <= mb_pfn_start m - end_of zs l1 /\
     find_zone pages zs ze nx idx l
     = (end_of zs l1, mb_pfn_start m, Some (idx + length l1)%nat)) \/
  (small_gaps pages zs l /\ exists ze' nx', find_zone pages zs ze nx idx l = (end_of zs l, ze', nx') /\
     (l = [] -> ze' = ze) /\ (l <> [] -> ze' < end_of zs l)).
Proof.
  revert zs ze nx idx. induction l as [|m l IH]; intros zs ze nx idx Hc Hz Hh.
  - right. split; [done|]. by exists ze, nx.
  - simpl in Hc. destruct Hc as (H1 & H2 & H3). pose proof (chain_le _ _ _ H3).
    cbn [find_zone]. rewrite usub_small by lia.
    destruct (Z.leb_spec pages (mb_pfn_start m - zs)) as [Hp|Hp].
    + left. exists [], m, l. split_and!; [done|done|done|]. simpl. by rewrite Nat.add_0_r.
    + destruct (IH (mb_pfn_end m) (mb_pfn_start m) (Some idx) (S idx) H3 ltac:(lia) Hh)
        as [(l1 & x & l2 & -> & Hs & Hg & Hf)|[Hs (ze' & nx' & Hf & He & Hne)]].
      * left. exists (m :: l1), x, l2. rewrite Hf. split_and!; [done|done|done|].
        simpl length. by replace (S idx + length l1)%nat with (idx + S (length l1))%nat by lia.
      * right. split; [done|]. exists ze', nx'. split; [done|]. split; [done|]. intros _.
        rewrite end_of_cons. destruct l as [|y l]; [rewrite He by done; simpl; lia|by apply Hne].
Qed.

(** The zone taken by [mb_alloc_mb]: the first that is large enough. *)
Definition zone_of (a : mb_area_struct) (pages : Z) : Z * Z * option nat :=
  let '(zs, ze, next) :=
    find_zone pages (mba_pfn_start a) (mba_pfn_start a) None 0 (mb_list a) in
  let '(ze, next) := if ze <=? zs then (mba_pfn_end a, None) else (ze, next) in
  (zs, ze, next).

Lemma zone_of_run a pages :
  0 < mba_pfn_start a -> mba_pfn_end a < 2 ^ 20 ->
  chain (mba_pfn_start a) (mba_pfn_end a) (mb_list a) -> 0 < pages ->
  pages <= gap_max (mba_pfn_start a) (mba_pfn_end a) (mb_list a) ->
  exists l1 l2 next, mb_list a = l1 ++ l2 /\
    zone_of a pages = (end_of (mba_pfn_start a) l1, start_of (mba_pfn_end a) l2, next) /\
    small_gaps pages (mba_pfn_start a) l1 /\
    pages <= start_of (mba_pfn_end a) l2 - end_of (mba_pfn_start a) l1 /\
    forall x, list_add_tail x next (mb_list a) = l1 ++ x :: l2.
Proof.
  intros Hs Hh Hc Hp Hg. unfold zone_of.
  destruct (find_zone_run pages (mba_pfn_start a) (mba_pfn_start a) None 0 (mb_list a)
    (mba_pfn_end a) Hc ltac:(lia) Hh)
    as [(l1 & m & l2 & Hl & Hsm & Hz & ->)|[Hsm (ze' & nx' & -> & He & Hne)]].
  - exists l1, (m :: l2). destruct (Z.leb_spec (mb_pfn_start m) (end_of (mba_pfn_start a) l1)); [lia|].
    eexists. split_and!; [done|done|done|done|]. intros x. simpl. rewrite Hl.
    by rewrite take_app_length', drop_app_length'.
  - exists (mb_list a), []. pose proof (small_gap_max _ _ _ _ Hc Hsm Hg).
    destruct (Z.leb_spec ze' (end_of (mba_pfn_start a) (mb_list a))) as [Hle|Hlt].
    + eexists. split_and!; [by rewrite app_nil_r|done|done|done|]. done.
    + destruct (mb_list a) as [|y l] eqn:Hl; [rewrite He in Hlt by done; simpl in Hlt; lia|].
      specialize (Hne ltac:(done)). lia.
Qed.

(** ** Areas and hosts with their counters *)

(** The area [a] with the blocks [l] and the counters they call for, and the
    host with the areas [l]. *)
Definition area_with (a : mb_area_struct) (l : list mb_struct) : mb_area_struct :=
  MkMba (mba_id a) (mba_flags a) (mba_tgid a) (mba_phys a) (mba_virt a) (mba_pages a)
    (mba_pfn_start a) (mba_pfn_end a) (Z.of_nat (length l))
    (gap_total (mba_pfn_start a) (mba_pfn_end a) l) (gap_max (mba_pfn_start a) (mba_pfn_end a) l) l.

Definition host_with (h : mba_host_struct) (l : list mb_area_struct) : mba_host_struct :=
  MkHost l (nr_mba h) (tot_pages h) (tot_static_pages h) (sum_free l) (areas_max l).

Lemma area_with_id a : mba_wf a -> area_with a (mb_list a) = a.
Proof. intros []. unfold area_with. rewrite <- wf_nr0, <- wf_free0, <- wf_max0. by destruct a. Qed.

Lemma host_with_id h : host_ok h -> host_with h (mba_list h) = h.
Proof. intros []. unfold host_with. rewrite <- ok_free0, <- ok_max0. by destruct h. Qed.

(** The blocks of an area. *)
Record blocks_ok (a : mb_area_struct) (l : list mb_struct) : Prop := {
  bk_chain : chain (mba_pfn_start a) (mba_pfn_end a) l;
  bk_wf : Forall (mb_wf a) l;
  bk_ids : NoDup (mb_id <$> l);
}.

Lemma mba_blocks a : mba_wf a -> blocks_ok a (mb_list a).
Proof. by intros []. Qed.

Lemma area_with_wf a l : mba_wf a -> blocks_ok a l -> mba_wf (area_with a l).
Proof. intros [] []. by split. Qed.

Lemma sum_free_app l1 l2 : sum_free (l1 ++ l2) = sum_free l1 + sum_free l2.
Proof. induction l1 as [|a l1 IH]; simpl; lia. Qed.
Lemma sum_pages_app l1 l2 : sum_pages (l1 ++ l2) = sum_pages l1 + sum_pages l2.
Proof. induction l1 as [|a l1 IH]; simpl; lia. Qed.

Lemma sum_free_bounds l : Forall mba_wf l -> 0 <= sum_free l <= sum_pages l.
Proof.
  induction 1 as [|a l Ha _ IH]; simpl; [lia|]. destruct Ha.
  pose proof (gap_total_bounds _ _ _ wf_chain0). lia.
Qed.

Lemma areas_max_foldl l m : 0 <= m -> foldl (fun m a => Z.max m (mba_max a)) m l = Z.max m (areas_max l).
Proof.
  unfold areas_max. revert m. induction l as [|a l IH]; intros m Hm; simpl; [lia|].
  rewrite IH by lia. rewrite (IH (Z.max 0 (mba_max a))) by lia. lia.
Qed.

Lemma areas_max_nonneg l : 0 <= areas_max l.
Proof.
  unfold areas_max. assert (forall m, 0 <= m -> 0 <= foldl (fun m a => Z.max m (mba_max a)) m l) as H;
    [|by apply H].
  induction l as [|a l IH]; intros m Hm; simpl; [done|]. apply IH. lia.
Qed.

Lemma areas_max_cons a l : areas_max (a :: l) = Z.max (Z.max 0 (mba_max a)) (areas_max l).
Proof. unfold areas_max at 1. simpl. by rewrite areas_max_foldl by lia. Qed.

Lemma areas_max_app l1 l2 : areas_max (l1 ++ l2) = Z.max (areas_max l1) (areas_max l2).
Proof.
  induction l1 as [|a l1 IH].
  - pose proof (areas_max_nonneg l2). change (areas_max []) with 0. simpl. lia.
  - simpl. rewrite !areas_max_cons, IH. lia.
Qed.

Lemma areas_max_elem l a : a ∈ l -> mba_max a <= areas_max l.
Proof.
  intros (l1 & l2 & ->)%list_elem_of_split. rewrite areas_max_app, areas_max_cons. lia.
Qed.

(** *** Updates through pointers, on split lists *)

Section ById.
Context {A : Type} (id : A -> nat).

Lemma nodup_split x l1 l2 :
  NoDup (id <$> l1 ++ x :: l2) ->
  Forall (fun y => id y <> id x) l1 /\ Forall (fun y => id y <> id x) l2.
Proof.
  rewrite fmap_app, fmap_cons. intros (_ & H1 & [H2 _]%NoDup_cons)%NoDup_app.
  split; apply Forall_forall; intros y Hy He.
  - apply (H1 (id y)); [by apply list_elem_of_fmap_2|]. rewrite He. by left.
  - apply H2. rewrite <- He. by apply list_elem_of_fmap_2.
Qed.

Lemma nodup_eq x y l : NoDup (id <$> l) -> x ∈ l -> y ∈ l -> id y = id x -> y = x.
Proof.
  intros Hn (l1 & l2 & ->)%list_elem_of_split Hy He. apply nodup_split in Hn as [H1 H2].
  rewrite Forall_forall in H1, H2. apply elem_of_app in Hy as [Hy|[->|Hy]%elem_of_cons]; [|done|].
  - by destruct (H1 y Hy).
  - by destruct (H2 y Hy).
Qed.

Lemma upd_other x' n l :
  Forall (fun y => id y <> n) l -> (fun y => if Nat.eqb (id y) n then x' else y) <$> l = l.
Proof.
  induction 1 as [|y l Hy _ IH]; [done|]. rewrite fmap_cons, IH.
  destruct (Nat.eqb_spec (id y) n); [by destruct Hy|done].
Qed.

Lemma upd_split x x' l1 l2 :
  NoDup (id <$> l1 ++ x :: l2) ->
  (fun y => if Nat.eqb (id y) (id x) then x' else y) <$> (l1 ++ x :: l2) = l1 ++ x' :: l2.
Proof.
  intros [H1 H2]%nodup_split. rewrite fmap_app, fmap_cons, Nat.eqb_refl.
  by rewrite !upd_other.
Qed.

Lemma filter_split x l1 l2 :
  NoDup (id <$> l1 ++ x :: l2) -> filter (fun y => id y <> id x) (l1 ++ x :: l2) = l1 ++ l2.
Proof.
  intros [H1 H2]%nodup_split. rewrite filter_app, filter_cons_False by naive_solver.
  assert (forall l, Forall (fun y => id y <> id x) l -> filter (fun y => id y <> id x) l = l) as Hf.
  { induction 1 as [|y l Hy _ IH]; [done|]. by rewrite filter_cons_True, IH. }
  by rewrite !Hf.
Qed.

Lemma exists_split x l1 l2 : existsb (fun y => Nat.eqb (id y) (id x)) (l1 ++ x :: l2) = true.
Proof.
  apply existsb_exists. exists x. split; [|apply Nat.eqb_refl].
  apply list_elem_of_In, elem_of_app. right. by left.
Qed.

Lemma nodup_replace x x' l1 l2 :
  id x' = id x -> NoDup (id <$> l1 ++ x :: l2) -> NoDup (id <$> l1 ++ x' :: l2).
Proof. intros He. by rewrite !fmap_app, !fmap_cons, He. Qed.

Lemma nodup_remove x l1 l2 : NoDup (id <$> l1 ++ x :: l2) -> NoDup (id <$> l1 ++ l2).
Proof.
  rewrite !fmap_app, fmap_cons. intros (H1 & H2 & [H3 H4]%NoDup_cons)%NoDup_app.
  apply NoDup_app. split_and!; [done| |done]. intros y Hy Hy'. apply (H2 y Hy). by right.
Qed.

Lemma nodup_insert x l1 l2 :
  NoDup (id <$> l1 ++ l2) -> (forall y, y ∈ l1 ++ l2 -> id y <> id x) -> NoDup (id <$> l1 ++ x :: l2).
Proof.
  intros Hn Hx. rewrite fmap_app, fmap_cons, <- Permutation_middle, NoDup_cons, <- fmap_app.
  split; [|done]. intros (y & He & Hy)%list_elem_of_fmap. by apply (Hx y Hy).
Qed.
End ById.

(** The host with new blocks in one area. *)
Definition put_blocks (h : mba_host_struct) (l1 : list mb_area_struct) (a : mb_area_struct)
    (l2 : list mb_area_struct) (bl : list mb_struct) : mba_host_struct :=
  host_with h (l1 ++ area_with a bl :: l2).

Lemma elem_replace {A} (x y z : A) l1 l2 :
  y ∈ l1 ++ x :: l2 -> y = x \/ y ∈ l1 ++ z :: l2 /\ y ∈ l1 ++ l2.
Proof. rewrite !elem_of_app, !elem_of_cons. tauto. Qed.

Lemma put_blocks_ok h l1 a l2 bl :
  host_ok h -> mba_list h = l1 ++ a :: l2 -> blocks_ok a bl -> host_ok (put_blocks h l1 a l2 bl).
Proof.
  intros [] Hl Hb. rewrite Hl in *.
  apply Forall_app in ok_areas0 as [Ha1 [Ha Ha2]%Forall_cons].
  split; simpl; try done.
  - apply Forall_app. split; [done|]. apply Forall_cons. split; [by apply area_with_wf|done].
  - by apply (nodup_replace mba_id a).
  - assert (forall x, x ∈ l1 ++ area_with a bl :: l2 -> exists y, y ∈ l1 ++ a :: l2 /\
      mba_id y = mba_id x /\ forall z, apart y z <-> apart x z) as Hx.
    { intros x [->|[Hx _]]%(elem_replace _ _ a); [exists a|by exists x].
      split_and!; [apply elem_of_app; right; by left|done|reflexivity]. }
    intros x y Hxi Hyi Hne.
    destruct (Hx x Hxi) as (x' & Hx' & Ix & Px). destruct (Hx y Hyi) as (y' & Hy' & Iy & Py).
    apply Px. assert (apart y' x') as Hap by (apply ok_apart0; [done..|congruence]).
    apply Py in Hap. unfold apart in *. destruct Hap as [[?|?] [?|?]]; split; auto.
  - by rewrite sum_pages_app in *.
  - by rewrite length_app in *.
  - by rewrite sum_pages_app in *.
Qed.

Lemma put_blocks_id h l1 a l2 :
  host_ok h -> mba_list h = l1 ++ a :: l2 -> put_blocks h l1 a l2 (mb_list a) = h.
Proof.
  intros Hh Hl. unfold put_blocks. rewrite area_with_id.
  - rewrite <- Hl. by apply host_with_id.
  - destruct Hh. rewrite Hl in *. by apply Forall_app in ok_areas0 as [_ [? _]%Forall_cons].
Qed.

Lemma ids_below_put k h l1 a l2 bl :
  ids_below k h -> mba_list h = l1 ++ a :: l2 ->
  (forall m, m ∈ bl -> (mb_id m < k)%nat /\ forall u, u ∈ mbu_list m -> (mbu_id u < k)%nat) ->
  ids_below k (put_blocks h l1 a l2 bl).
Proof.
  intros Hk Hl Hb x m Hx Hm. simpl in Hx.
  apply (elem_replace _ _ a) in Hx as [->|[Hx _]]; [by apply Hb|].
  apply (Hk x); [by rewrite Hl|done].
Qed.

Lemma ids_below_mono k k' h : ids_below k h -> (k <= k')%nat -> ids_below k' h.
Proof.
  intros Hk Hle a m Ha Hm. destruct (Hk a m Ha Hm) as [H1 H2]. split; [lia|].
  intros u Hu. specialize (H2 u Hu). lia.
Qed.

(** ** A block and where it is *)

Record place := MkPlace {
  pl_before : list mb_area_struct;
  pl_area : mb_area_struct;
  pl_after : list mb_area_struct;
  pl_left : list mb_struct;
  pl_block : mb_struct;
  pl_right : list mb_struct;
}.

Definition at_place (h : mba_host_struct) (p : place) : Prop :=
  mba_list h = pl_before p ++ pl_area p :: pl_after p /\
  mb_list (pl_area p) = pl_left p ++ pl_block p :: pl_right p.

(** The host with other blocks in the area of [p]; with another state of the
    block there; without it. *)
Definition put_at (h : mba_host_struct) (p : place) (bl : list mb_struct) : mba_host_struct :=
  put_blocks h (pl_before p) (pl_area p) (pl_after p) bl.
Definition set_at (h : mba_host_struct) (p : place) (m : mb_struct) : mba_host_struct :=
  put_at h p (pl_left p ++ m :: pl_right p).
Definition del_at (h : mba_host_struct) (p : place) : mba_host_struct :=
  put_at h p (pl_left p ++ pl_right p).

(** The place itself after that change. *)
Definition place_with (p : place) (m : mb_struct) : place :=
  MkPlace (pl_before p) (area_with (pl_area p) (pl_left p ++ m :: pl_right p)) (pl_after p)
    (pl_left p) m (pl_right p).

Lemma place_exists h a m :
  a ∈ mba_list h -> m ∈ mb_list a -> exists p, at_place h p /\ pl_area p = a /\ pl_block p = m.
Proof.
  intros (l1 & l2 & H1)%list_elem_of_split (b1 & b2 & H2)%list_elem_of_split.
  by exists (MkPlace l1 a l2 b1 m b2).
Qed.

Lemma at_place_set h p m : at_place (set_at h p m) (place_with p m).
Proof. done. Qed.

Lemma area_place h p : host_ok h -> at_place h p -> mba_wf (pl_area p).
Proof.
  intros [] [H1 _]. rewrite H1 in *. by apply Forall_app in ok_areas0 as [_ [? _]%Forall_cons].
Qed.

Lemma block_place h p : host_ok h -> at_place h p -> mb_wf (pl_area p) (pl_block p).
Proof.
  intros Hh Hp. destruct (area_place h p Hh Hp). destruct Hp as [_ H2]. rewrite H2 in *.
  by apply Forall_app in wf_blocks0 as [_ [? _]%Forall_cons].
Qed.

Lemma elem_place h p : at_place h p -> pl_area p ∈ mba_list h /\ pl_block p ∈ mb_list (pl_area p).
Proof. intros [-> ->]. split; apply elem_of_app; right; by left. Qed.

(** Two states of a block at the same address. *)
Definition same_block (m m' : mb_struct) : Prop :=
  mb_id m' = mb_id m /\ mb_pfn_start m' = mb_pfn_start m /\ mb_pfn_end m' = mb_pfn_end m /\
  mb_phys m' = mb_phys m /\ mb_virt m' = mb_virt m /\ mb_size m' = mb_size m.

Lemma with_users_same c cr l m : same_block m (with_users c cr l m).
Proof. done. Qed.

Lemma gaps_same zs hi b1 m m' b2 :
  same_block m m' ->
  (chain zs hi (b1 ++ m :: b2) -> chain zs hi (b1 ++ m' :: b2)) /\
  gap_max zs hi (b1 ++ m' :: b2) = gap_max zs hi (b1 ++ m :: b2) /\
  gap_total zs hi (b1 ++ m' :: b2) = gap_total zs hi (b1 ++ m :: b2).
Proof.
  intros (_ & Hs & He & _). revert zs. induction b1 as [|x b1 IH]; intros zs; simpl.
  - by rewrite Hs, He.
  - destruct (IH (mb_pfn_end x)) as (H1 & -> & ->). tauto.
Qed.

Lemma blocks_ok_set h p m' :
  host_ok h -> at_place h p -> same_block (pl_block p) m' -> users_ok m' ->
  blocks_ok (pl_area p) (pl_left p ++ m' :: pl_right p).
Proof.
  intros Hh Hp Hs Hu. pose proof (block_place h p Hh Hp) as Hw.
  destruct (mba_blocks _ (area_place h p Hh Hp)) as [Hc Hb Hi]. destruct Hp as [_ H2].
  rewrite H2 in *. apply Forall_app in Hb as [Hb1 [_ Hb2]%Forall_cons]. split.
  - by apply (gaps_same _ _ _ _ _ _ Hs).
  - apply Forall_app. split; [done|]. apply Forall_cons. split; [|done].
    destruct Hw as (W1 & W2 & W3 & _), Hs as (S1 & S2 & S3 & S4 & S5 & S6).
    unfold mb_wf, blk_pages in *. by rewrite S2, S3, S4, S5, S6.
  - apply (nodup_replace mb_id (pl_block p)); [apply Hs|done].
Qed.

Lemma upd_blocks h p m' :
  host_ok h -> at_place h p -> same_block (pl_block p) m' ->
  with_blocks (upd_mb m' (mb_list (pl_area p))) (pl_area p)
  = area_with (pl_area p) (pl_left p ++ m' :: pl_right p).
Proof.
  intros Hh Hp Hs. destruct (area_place h p Hh Hp). destruct Hp as [_ H2]. rewrite H2 in *.
  unfold upd_mb. rewrite (proj1 Hs), upd_split by done. unfold area_with, with_blocks.
  destruct (gaps_same (mba_pfn_start (pl_area p)) (mba_pfn_end (pl_area p)) (pl_left p)
    (pl_block p) m' (pl_right p) Hs) as (_ & -> & ->).
  rewrite wf_nr0, wf_free0, wf_max0, !length_app. done.
Qed.

Lemma upd_areas h p a' :
  host_ok h -> at_place h p -> mba_id a' = mba_id (pl_area p) ->
  upd_mba a' (mba_list h) = pl_before p ++ a' :: pl_after p.
Proof.
  intros [] [H1 _] Hi. rewrite H1 in *. unfold upd_mba. rewrite Hi. by apply upd_split.
Qed.

Lemma put_at_counters h p bl :
  host_ok h -> at_place h p ->
  sum_free (pl_before p ++ area_with (pl_area p) bl :: pl_after p)
  = tot_free_pages h - mba_free (pl_area p)
    + gap_total (mba_pfn_start (pl_area p)) (mba_pfn_end (pl_area p)) bl.
Proof.
  intros [] [H1 _]. rewrite ok_free0, H1, !sum_free_app. simpl. lia.
Qed.

(** A store through a pointer to the block. *)
Lemma store_run s p m' :
  host_ok (wmt_mbah s) -> at_place (wmt_mbah s) p -> same_block (pl_block p) m' ->
  store_mb (pl_area p) m' s = Ok (tt, set_host (set_at (wmt_mbah s) p m') s).
Proof.
  intros Hh Hp Hs. unfold store_mb, modify. rewrite (upd_blocks _ _ _ Hh Hp Hs).
  rewrite (upd_areas _ _ _ Hh Hp) by done. do 3 f_equal. unfold set_at, put_at, put_blocks, host_with.
  rewrite (put_at_counters _ _ _ Hh Hp). destruct (gaps_same (mba_pfn_start (pl_area p))
    (mba_pfn_end (pl_area p)) (pl_left p) (pl_block p) m' (pl_right p) Hs) as (_ & Hm & Ht).
  destruct (area_place _ _ Hh Hp). destruct Hp as [H1 H2]. rewrite H2 in *.
  rewrite Ht, <- wf_free0. unfold with_areas. f_equal; [lia|].
  destruct Hh. rewrite ok_max0, H1, !areas_max_app, !areas_max_cons. simpl.
  by rewrite Hm, <- wf_max0.
Qed.

Lemma set_at_ok h p m' :
  host_ok h -> at_place h p -> same_block (pl_block p) m' -> users_ok m' -> host_ok (set_at h p m').
Proof.
  intros Hh Hp Hs Hu. apply put_blocks_ok; [done|apply Hp|]. by eapply blocks_ok_set.
Qed.

Lemma ids_place k h p :
  ids_below k h -> at_place h p ->
  (forall m, m ∈ pl_left p ++ pl_block p :: pl_right p ->
     (mb_id m < k)%nat /\ forall u, u ∈ mbu_list m -> (mbu_id u < k)%nat).
Proof.
  intros Hk Hp m Hm. apply (Hk (pl_area p)); [by apply (elem_place h)|]. by rewrite (proj2 Hp).
Qed.

Lemma set_at_ids k h p m' :
  ids_below k h -> at_place h p -> same_block (pl_block p) m' ->
  (forall u, u ∈ mbu_list m' -> (mbu_id u < k)%nat) -> ids_below k (set_at h p m').
Proof.
  intros Hk Hp Hs Hu. apply ids_below_put; [done|apply Hp|].
  intros m [->|[Hm _]]%(elem_replace _ _ (pl_block p)); [|by apply (ids_place k h p)].
  rewrite (proj1 Hs). split; [|done]. apply (ids_place k h p Hk Hp).
  apply elem_of_app. right. by left.
Qed.

(** ** Releasing a block *)

Lemma chain_remove zs hi b1 m b2 : chain zs hi (b1 ++ m :: b2) -> chain zs hi (b1 ++ b2).
Proof.
  rewrite !chain_app. simpl. intros (H1 & H2 & H3 & H4). split; [done|].
  eapply chain_weaken; [done|]. lia.
Qed.

Lemma gap_max_remove zs hi b1 m b2 :
  chain zs hi (b1 ++ m :: b2) -> gap_max zs hi (b1 ++ m :: b2) <= gap_max zs hi (b1 ++ b2).
Proof.
  intros Hc. rewrite !gap_max_app by eauto using chain_remove. simpl.
  apply chain_app in Hc as [_ (H1 & H2 & H3)].
  destruct b2 as [|y b2]; simpl in *; [lia|]. destruct H3 as (H4 & H5 & H6%gap_max_bounds). lia.
Qed.

Lemma gap_total_remove zs hi b1 m b2 :
  gap_total zs hi (b1 ++ b2) = gap_total zs hi (b1 ++ m :: b2) + blk_pages m.
Proof.
  rewrite !gap_total_app. simpl. rewrite (gap_total_shift (end_of zs b1) (mb_pfn_end m)). unfold blk_pages. lia.
Qed.

Lemma blocks_ok_del h p :
  host_ok h -> at_place h p -> blocks_ok (pl_area p) (pl_left p ++ pl_right p).
Proof.
  intros Hh Hp. destruct (mba_blocks _ (area_place h p Hh Hp)) as [Hc Hb Hi].
  rewrite (proj2 Hp) in *. apply Forall_app in Hb as [Hb1 [_ Hb2]%Forall_cons]. split.
  - by eapply chain_remove.
  - by apply Forall_app.
  - by eapply nodup_remove.
Qed.

Lemma del_at_ok h p : host_ok h -> at_place h p -> host_ok (del_at h p).
Proof. intros Hh Hp. apply put_blocks_ok; [done|apply Hp|]. by eapply blocks_ok_del. Qed.

Lemma del_at_ids k h p : ids_below k h -> at_place h p -> ids_below k (del_at h p).
Proof.
  intros Hk Hp. apply ids_below_put; [done|apply Hp|]. intros m Hm.
  apply (ids_place k h p Hk Hp). rewrite elem_of_app, elem_of_cons in *. tauto.
Qed.

Lemma free_bounds h p :
  host_ok h -> at_place h p -> 0 <= mba_free (pl_area p) <= tot_free_pages h /\ tot_free_pages h < 2 ^ 20.
Proof.
  intros Hh [H1 _]. destruct Hh. rewrite ok_free0. rewrite H1 in *.
  apply Forall_app in ok_areas0 as [F1 [F2 F3]%Forall_cons].
  apply sum_free_bounds in F1, F3. destruct F2. pose proof (gap_total_bounds _ _ _ wf_chain0).
  rewrite sum_free_app, sum_pages_app in *. simpl in *. lia.
Qed.

Lemma tot_free_bounds h : host_ok h -> 0 <= tot_free_pages h < 2 ^ 20.
Proof. intros []. rewrite ok_free0. apply sum_free_bounds in ok_areas0. lia. Qed.

Lemma set_set_host h h' s : set_host h (set_host h' s) = set_host h s.
Proof. done. Qed.

Lemma upd_areas_again h p a1 a2 :
  host_ok h -> at_place h p -> mba_id a1 = mba_id (pl_area p) -> mba_id a2 = mba_id (pl_area p) ->
  upd_mba a2 (pl_before p ++ a1 :: pl_after p) = pl_before p ++ a2 :: pl_after p.
Proof.
  intros [] [H1 _] I1 I2. rewrite H1 in *. unfold upd_mba. rewrite I2, <- I1. apply upd_split.
  by apply (nodup_replace mba_id (pl_area p)).
Qed.

Lemma free_run s p :
  host_ok (wmt_mbah s) -> at_place (wmt_mbah s) p -> mb_count (pl_block p) = 0 ->
  mb_free_mb (pl_area p) (pl_block p) s = Ok (0, set_host (del_at (wmt_mbah s) p) s).
Proof.
  intros Hh Hp Hc. pose proof (del_at_ok _ _ Hh Hp) as Hd. unfold mb_free_mb.
  rewrite Hc. change (negb (0 =? 0)) with false. cbv iota.
  pose proof (area_place _ _ Hh Hp) as Ha. pose proof (free_bounds _ _ Hh Hp) as Hf.
  pose proof (tot_free_bounds _ Hd) as Hf'. simpl in Hf'. rewrite (put_at_counters _ _ _ Hh Hp) in Hf'.
  pose proof (gap_max_remove _ _ _ _ _ (eq_ind _ (chain _ _) (wf_chain _ Ha) _ (proj2 Hp))) as Hm.
  assert (existsb (fun e => Nat.eqb (mb_id e) (mb_id (pl_block p))) (mb_list (pl_area p)) = true)
    as -> by (rewrite (proj2 Hp); apply exists_split).
  cbn [negb].
  assert (filter (fun e => mb_id e <> mb_id (pl_block p)) (mb_list (pl_area p))
          = pl_left p ++ pl_right p) as ->.
  { rewrite (proj2 Hp). apply filter_split. rewrite <- (proj2 Hp). apply Ha. }
  unfold mbind, M_bind, modify. rewrite (upd_areas _ _ _ Hh Hp) by done.
  unfold is_static. cbn [mba_flags nr_mb]. fold (is_static (pl_area p)).
  rewrite (wf_static _ Ha), andb_false_r.
  rewrite recount_run; [|apply Ha|apply Ha|by apply (blocks_ok_del _ _ Hh Hp)].
  cbn [wmt_mbah set_host with_areas mba_list mba_pfn_start mba_pfn_end nr_mb nr_mba tot_pages
    tot_static_pages tot_free_pages max_available_pages mba_free].
  rewrite (upd_areas_again _ _ _ _ Hh Hp) by done.
  rewrite set_set_host. unfold mret, M_ret. do 3 f_equal. unfold del_at, put_at, put_blocks, host_with.
  assert (area_with (pl_area p) (pl_left p ++ pl_right p) = MkMba (mba_id (pl_area p))
    (mba_flags (pl_area p)) (mba_tgid (pl_area p)) (mba_phys (pl_area p)) (mba_virt (pl_area p))
    (mba_pages (pl_area p)) (mba_pfn_start (pl_area p)) (mba_pfn_end (pl_area p))
    (nr_mb (pl_area p) - 1)
    (gap_total (mba_pfn_start (pl_area p)) (mba_pfn_end (pl_area p)) (pl_left p ++ pl_right p))
    (gap_max (mba_pfn_start (pl_area p)) (mba_pfn_end (pl_area p)) (pl_left p ++ pl_right p))
    (pl_left p ++ pl_right p)) as Hw.
  { unfold area_with. rewrite (wf_nr _ Ha), (proj2 Hp), !length_app. simpl. f_equal. lia. }
  rewrite <- Hw. rewrite (put_at_counters _ _ _ Hh Hp). f_equal.
  - cbn. rewrite usub_small by lia. apply u32_small. lia.
  - cbn. destruct Hh. rewrite ok_max0, (proj1 Hp), !areas_max_app, !areas_max_cons. simpl.
    rewrite (wf_max _ Ha), (proj2 Hp). lia.
Qed.

(** ** Taking a block *)

(** The state behind one more slab allocation, and whether it succeeds. *)
Definition bump (s : mbs) : mbs :=
  MkMbs (wmt_mbah s) (wmt_mbti s) (S (next_id s)) (tail (slab s)) (regions s) (remaps s)
    (num_physpages s).
Definition slab_ready (s : mbs) : bool := match slab s with false :: _ => false | _ => true end.

Lemma slab_run s : kmem_cache_alloc s = Ok (if slab_ready s then Some (next_id s) else None, bump s).
Proof. unfold kmem_cache_alloc, slab_ready, bump. by destruct (slab s) as [|[] ?]. Qed.

(** The block of [pages] pages from frame [zs] on. *)
Definition new_block (a : mb_area_struct) (id : nat) (zs pages : Z) : mb_struct :=
  MkMb id zs (zs + pages) (zs * 4096) (mba_virt a + (zs * 4096 - mba_phys a)) (pages * 4096)
    0 None [].

(** A place between two blocks of an area with room for [pages] pages, and none
    before it. *)
Definition first_fit (a : mb_area_struct) (pages : Z) (b1 b2 : list mb_struct) : Prop :=
  mb_list a = b1 ++ b2 /\ small_gaps pages (mba_pfn_start a) b1 /\
  pages <= start_of (mba_pfn_end a) b2 - end_of (mba_pfn_start a) b1.

Lemma end_of_le zs hi l : chain zs hi l -> zs <= end_of zs l <= hi.
Proof.
  revert zs. induction l as [|m l IH]; intros zs; [simpl; lia|].
  intros (H1 & H2 & H3%IH). rewrite end_of_cons. lia.
Qed.

Section Insert.
Context (a : mb_area_struct) (Ha : mba_wf a) (pages : Z) (b1 b2 : list mb_struct).
Context (Hp : 0 < pages) (Hf : first_fit a pages b1 b2).

#[local] Abbreviation zs := (end_of (mba_pfn_start a) b1).

Lemma fit_bounds : mba_pfn_start a <= zs /\ zs + pages <= start_of (mba_pfn_end a) b2 <= mba_pfn_end a.
Proof.
  destruct Ha, Hf as (Hl & _ & Hr). rewrite Hl in *.
  pose proof (end_of_le _ _ _ (proj1 (proj1 (chain_app _ _ _ _) wf_chain0))).
  apply chain_app in wf_chain0 as [_ H2%chain_start_of]. lia.
Qed.

Lemma chain_insert id :
  chain (mba_pfn_start a) (mba_pfn_end a) (b1 ++ new_block a id zs pages :: b2).
Proof.
  destruct Ha, Hf as (Hl & _ & Hr). rewrite Hl in *.
  apply chain_app in wf_chain0 as [H1 H2]. apply chain_app. split; [done|].
  simpl. split_and!; [lia|lia|]. apply (chain_shift zs); [done|lia].
Qed.

Lemma gap_total_insert id :
  gap_total (mba_pfn_start a) (mba_pfn_end a) (b1 ++ new_block a id zs pages :: b2)
  = mba_free a - pages.
Proof.
  destruct Ha, Hf as (Hl & _ & _). rewrite wf_free0, Hl.
  rewrite (gap_total_remove _ _ b1 (new_block a id zs pages) b2). unfold blk_pages. simpl. lia.
Qed.

Lemma blocks_ok_insert id :
  (forall m, m ∈ mb_list a -> mb_id m <> id) -> blocks_ok a (b1 ++ new_block a id zs pages :: b2).
Proof.
  intros Hid. pose proof (chain_insert id). destruct Ha, Hf as (Hl & _ & _). rewrite Hl in *. split.
  - done.
  - apply Forall_app in wf_blocks0 as [F1 F2]. apply Forall_app. split; [done|].
    apply Forall_cons. split; [|done]. unfold mb_wf, blk_pages, users_ok. simpl.
    split_and!; [lia|done|done|done|apply NoDup_nil_2|done].
  - by apply nodup_insert.
Qed.
End Insert.

Lemma new_block_run a pages zs id :
  mba_wf a -> 0 < pages -> mba_pfn_start a <= zs -> zs + pages <= mba_pfn_end a ->
  MkMb id zs (u32 (zs + pages))
    (u32 (mba_phys a + Z.shiftl (usub zs (mba_pfn_start a)) PAGE_SHIFT))
    (u32 (mba_virt a + usub (u32 (mba_phys a + Z.shiftl (usub zs (mba_pfn_start a)) PAGE_SHIFT))
       (mba_phys a))) (pages * 4096) 0 None []
  = new_block a id zs pages.
Proof.
  intros [] Hp H1 H2. assert (usub zs (mba_pfn_start a) = zs - mba_pfn_start a) as -> by
    (apply usub_small; lia). rewrite shl12.
  assert (u32 (mba_phys a + (zs - mba_pfn_start a) * 4096) = zs * 4096) as ->.
  { rewrite u32_small; lia. }
  rewrite usub_small by lia. rewrite !u32_small by lia. done.
Qed.

Lemma alloc_mb_none s l1 a l2 size :
  mba_max a < pages_of size -> mba_list (wmt_mbah s) = l1 ++ a :: l2 ->
  mb_alloc_mb a size s = Ok (None, s).
Proof.
  intros Hm _. unfold mb_alloc_mb. destruct (Z.eqb_spec size 0); [done|].
  rewrite align_shift. by destruct (Z.ltb_spec (mba_max a) (pages_of size)); [|lia].
Qed.

Lemma alloc_mb_run s l1 a l2 size :
  state_ok s -> mba_list (wmt_mbah s) = l1 ++ a :: l2 ->
  0 < pages_of size <= mba_max a ->
  exists b1 b2, first_fit a (pages_of size) b1 b2 /\
    let m := new_block a (next_id s) (end_of (mba_pfn_start a) b1) (pages_of size) in
    mb_alloc_mb a size s
    = if slab_ready s then Ok (Some m, set_host (put_blocks (wmt_mbah s) l1 a l2 (b1 ++ m :: b2)) (bump s))
      else Ok (None, bump s).
Proof.
  intros [Hh Hk] Hl [Hp Hm]. set (pages := pages_of size) in *.
  assert (mba_wf a) as Ha.
  { destruct Hh. rewrite Hl in *. by apply Forall_app in ok_areas0 as [_ [? _]%Forall_cons]. }
  destruct (zone_of_run a pages) as (b1 & b2 & next & Hb & Hz & Hs & Hr & Hadd); try apply Ha; [lia| |].
  { rewrite <- (wf_max _ Ha). lia. }
  assert (first_fit a pages b1 b2) as Hfit by done.
  exists b1, b2. split; [done|]. set (zs := end_of (mba_pfn_start a) b1) in *.
  pose proof (fit_bounds a Ha pages b1 b2 Hfit) as Hfb. fold zs in Hfb.
  pose proof (chain_insert a Ha pages b1 b2 Hp Hfit (next_id s)) as Hci.
  pose proof (gap_total_insert a Ha pages b1 b2 Hfit (next_id s)) as Hgt.
  fold zs in Hci, Hgt. pose proof (gap_total_bounds _ _ _ Hci) as Hgb.
  intros m. unfold mb_alloc_mb. destruct (Z.eqb_spec size 0) as [->|_]; [done|].
  rewrite align_shift. fold pages. destruct (Z.ltb_spec (mba_max a) pages); [lia|].
  unfold zone_of in Hz. destruct (find_zone _ _ _ _ _ _) as [[zs0 ze0] nx0].
  destruct (if ze0 <=? zs0 then _ else _) as [ze1 nx1]. injection Hz as -> -> ->.
  fold zs. destruct Ha. rewrite usub_small by lia.
  destruct (Z.ltb_spec (start_of (mba_pfn_end a) b2 - zs) pages); [lia|].
  erewrite bind_ok by apply slab_run. destruct (slab_ready s); [|done].
  rewrite align_pages. fold pages. rewrite new_block_run by (done || lia). fold m. rewrite Hadd.
  rewrite recount_run by done. unfold mbind, M_bind, gets, modify, mret, M_ret.
  cbn [fst]. fold m in Hgt, Hgb. rewrite usub_small by lia. rewrite <- Hgt.
  assert (MkMba (mba_id a) (mba_flags a) (mba_tgid a) (mba_phys a) (mba_virt a) (mba_pages a)
    (mba_pfn_start a) (mba_pfn_end a) (nr_mb a + 1)
    (gap_total (mba_pfn_start a) (mba_pfn_end a) (b1 ++ m :: b2))
    (gap_max (mba_pfn_start a) (mba_pfn_end a) (b1 ++ m :: b2)) (b1 ++ m :: b2)
    = area_with a (b1 ++ m :: b2)) as ->.
  { unfold area_with. rewrite wf_nr0, Hb, !length_app. simpl. f_equal. lia. }
  change (wmt_mbah (bump s)) with (wmt_mbah s).
  assert (upd_mba (area_with a (b1 ++ m :: b2)) (mba_list (wmt_mbah s))
          = l1 ++ area_with a (b1 ++ m :: b2) :: l2) as ->.
  { rewrite Hl. apply (upd_split mba_id a). rewrite <- Hl. apply Hh. }
  do 4 f_equal. unfold put_blocks, host_with. pose proof (tot_free_bounds _ Hh) as Htf.
  destruct Hh as [Hfa _ _ _ _ _ Hok _]. rewrite Hok, Hl in *. rewrite !sum_free_app in *. simpl in *.
  apply Forall_app in Hfa as [F1%sum_free_bounds [_ F2%sum_free_bounds]%Forall_cons].
  f_equal. rewrite usub_small; lia.
Qed.

(** ** Searching *)

Lemma find_map_some {A B} (f : A -> option B) l y :
  find_map f l = Some y ->
  exists l1 x l2, l = l1 ++ x :: l2 /\ f x = Some y /\ Forall (fun z => f z = None) l1.
Proof.
  induction l as [|x l IH]; simpl; [done|]. destruct (f x) as [z|] eqn:E.
  - intros [= ->]. by exists [], x, l.
  - intros (l1 & x' & l2 & -> & H1 & H2)%IH. exists (x :: l1), x', l2.
    split_and!; [done|done|by apply Forall_cons].
Qed.

Lemma find_map_in {A B} (f : A -> option B) l y :
  find_map f l = Some y -> exists x, x ∈ l /\ f x = Some y.
Proof.
  intros (l1 & x & l2 & -> & H & _)%find_map_some. exists x. split; [|done].
  apply elem_of_app. right. by left.
Qed.

Lemma find_map_none {A B} (f : A -> option B) l :
  find_map f l = None <-> forall x, x ∈ l -> f x = None.
Proof.
  rewrite <- Forall_forall. induction l as [|x l IH]; simpl; [done|].
  rewrite Forall_cons. destruct (f x); [|tauto]. split; [done|by intros [[=] _]].
Qed.

(** A test that gives one answer only. *)
Lemma find_map_unique {A B} (f : A -> option B) l x y :
  x ∈ l -> f x = Some y -> (forall z w, z ∈ l -> f z = Some w -> w = y) -> find_map f l = Some y.
Proof.
  intros Hx Hy Hz. destruct (find_map f l) as [w|] eqn:E.
  - apply find_map_in in E as (z & Hzl & Hf). f_equal. by apply (Hz z).
  - rewrite find_map_none in E. by rewrite (E x Hx) in Hy.
Qed.

Lemma chain_elem zs hi l m :
  chain zs hi l -> m ∈ l -> zs <= mb_pfn_start m /\ mb_pfn_start m < mb_pfn_end m <= hi.
Proof.
  intros Hc (b1 & b2 & ->)%list_elem_of_split. apply chain_app in Hc as [H1%chain_le (H2 & H3 & H4%chain_le)].
  lia.
Qed.

Lemma chain_pair zs hi l m m' :
  chain zs hi l -> m ∈ l -> m' ∈ l ->
  m = m' \/ mb_pfn_end m <= mb_pfn_start m' \/ mb_pfn_end m' <= mb_pfn_start m.
Proof.
  intros Hc (b1 & b2 & ->)%list_elem_of_split Hm.
  apply chain_app in Hc as [H1 (H2 & H3 & H4)].
  apply elem_of_app in Hm as [Hm|[->|Hm]%elem_of_cons]; [|by left|].
  - pose proof (chain_elem _ _ _ _ H1 Hm). lia.
  - pose proof (chain_elem _ _ _ _ H4 Hm). lia.
Qed.

(** The address of a block in one of the two address spaces, and an address
    inside it. *)
Definition base (phys : bool) (m : mb_struct) : Z := if phys then mb_phys m else mb_virt m.
Definition in_block (h : mba_host_struct) (phys : bool) (addr : Z) (a : mb_area_struct)
    (m : mb_struct) : Prop :=
  a ∈ mba_list h /\ m ∈ mb_list a /\ base phys m <= addr < base phys m + mb_size m.

Lemma area_wf h a : host_ok h -> a ∈ mba_list h -> mba_wf a.
Proof. intros []. rewrite Forall_forall in ok_areas0. by apply ok_areas0. Qed.

Lemma block_wf h a m : host_ok h -> a ∈ mba_list h -> m ∈ mb_list a -> mb_wf a m.
Proof.
  intros Hh Ha Hm. destruct (area_wf h a Hh Ha). rewrite Forall_forall in wf_blocks0.
  by apply wf_blocks0.
Qed.

Lemma block_bounds h a m :
  host_ok h -> a ∈ mba_list h -> m ∈ mb_list a ->
  mba_phys a <= mb_phys m /\ 0 < mb_size m /\
  mb_phys m + mb_size m <= mba_phys a + mba_pages a * 4096 /\
  0 < mba_phys a /\ 0 < mba_virt a /\
  mba_phys a + mba_pages a * 4096 < 2 ^ 32 /\ mba_virt a + mba_pages a * 4096 < 2 ^ 32 /\
  mb_virt m = mba_virt a + (mb_phys m - mba_phys a).
Proof.
  intros Hh Ha Hm. destruct (block_wf h a m Hh Ha Hm) as (W1 & W2 & W3 & _).
  destruct (area_wf h a Hh Ha). pose proof (chain_elem _ _ _ _ wf_chain0 Hm).
  unfold blk_pages in *. lia.
Qed.

Lemma in_block_unique h phys addr a m a' m' :
  host_ok h -> in_block h phys addr a m -> in_block h phys addr a' m' -> a' = a /\ m' = m.
Proof.
  intros Hh (Ha & Hm & Hi) (Ha' & Hm' & Hi').
  pose proof (block_bounds h a m Hh Ha Hm) as B. pose proof (block_bounds h a' m' Hh Ha' Hm') as B'.
  assert (a' = a) as ->.
  { destruct (decide (mba_id a' = mba_id a)) as [E|E].
    - apply (nodup_eq mba_id _ _ (mba_list h)); [apply Hh|done..].
    - pose proof (ok_apart h Hh a' a Ha' Ha E) as [P1 P2].
      destruct (area_wf h a Hh Ha), (area_wf h a' Hh Ha').
      destruct phys; simpl in Hi, Hi'; lia. }
  split; [done|]. destruct (area_wf h a Hh Ha).
  destruct (block_wf h a m Hh Ha Hm) as (W1 & W2 & _), (block_wf h a m' Hh Ha Hm') as (W1' & W2' & _).
  destruct (chain_pair _ _ _ _ _ wf_chain0 Hm Hm') as [->|Hor]; [done|].
  unfold blk_pages in *. destruct phys; simpl in Hi, Hi'; lia.
Qed.

Lemma find_mb_eq h addr (phys : bool) :
  mb_find_mb h addr (if phys then MBFIND_PHYS else MBFIND_VIRT)
  = if addr =? 0 then None
    else find_map (fun a => if out_of_mba phys addr a then None
      else find_map (fun m =>
        if (base phys m <=? addr) && (addr <? u32 (base phys m + mb_size m)) then Some (a, m) else None)
        (mb_list a)) (mba_list h).
Proof. unfold mb_find_mb. by destruct phys, (addr =? 0). Qed.

Lemma in_block_test h phys addr a m :
  host_ok h -> a ∈ mba_list h -> m ∈ mb_list a ->
  (base phys m <=? addr) && (addr <? u32 (base phys m + mb_size m)) = true <->
  in_block h phys addr a m.
Proof.
  intros Hh Ha Hm. pose proof (block_bounds h a m Hh Ha Hm) as B. unfold in_block.
  rewrite u32_small by (destruct phys; simpl; lia).
  rewrite andb_true_iff, Z.leb_le, Z.ltb_lt. tauto.
Qed.

Lemma in_block_area h phys addr a m : host_ok h -> in_block h phys addr a m -> out_of_mba phys addr a = false.
Proof.
  intros Hh (Ha & Hm & Hi). pose proof (block_bounds h a m Hh Ha Hm) as B.
  destruct (area_wf h a Hh Ha). unfold out_of_mba. rewrite page_size.
  rewrite (u32_small (mba_pages a * 4096)) by lia. rewrite u32_small by (destruct phys; lia).
  apply orb_false_iff. rewrite !Z.ltb_ge. destruct phys; simpl in *; lia.
Qed.

Lemma find_mb_in h addr (phys : bool) a m :
  host_ok h -> mb_find_mb h addr (if phys then MBFIND_PHYS else MBFIND_VIRT) = Some (a, m) ->
  in_block h phys addr a m.
Proof.
  intros Hh. rewrite find_mb_eq. case (addr =? 0); [done|].
  intros (a' & Ha & Hf)%find_map_in. destruct (out_of_mba phys addr a'); [done|].
  apply find_map_in in Hf as (m' & Hm & Hf). destruct (_ && _) eqn:E; [|done].
  injection Hf as -> ->. by apply (in_block_test h phys addr a m).
Qed.

Lemma find_mb_complete h addr (phys : bool) a m :
  host_ok h -> in_block h phys addr a m ->
  mb_find_mb h addr (if phys then MBFIND_PHYS else MBFIND_VIRT) = Some (a, m).
Proof.
  intros Hh Hb. pose proof Hb as (Ha & Hm & Hi). pose proof (block_bounds h a m Hh Ha Hm) as B.
  rewrite find_mb_eq.
  assert ((addr =? 0) = false) as -> by (apply Z.eqb_neq; destruct phys; simpl in Hi; lia).
  assert (forall a' w, a' ∈ mba_list h ->
    find_map (fun m => if (base phys m <=? addr) && (addr <? u32 (base phys m + mb_size m))
                       then Some (a', m) else None) (mb_list a') = Some w -> w = (a, m)) as Hu.
  { intros a' w Ha' (m' & Hm' & Hf)%find_map_in. destruct (_ && _) eqn:E; [|done].
    injection Hf as <-. apply (in_block_test h phys addr a' m') in E; [|done..].
    by destruct (in_block_unique h phys addr a m a' m' Hh Hb E) as [-> ->]. }
  apply (find_map_unique _ _ a); [done| |].
  - rewrite (in_block_area h phys addr a m Hh Hb).
    apply (find_map_unique _ _ m); [done| |].
    + by rewrite (proj2 (in_block_test h phys addr a m Hh Ha Hm) Hb).
    + intros m' w Hm' Hf. destruct (_ && _) eqn:E; [|done]. injection Hf as <-.
      apply (in_block_test h phys addr a m') in E; [|done..].
      by destruct (in_block_unique h phys addr a m a m' Hh Hb E) as [_ ->].
  - intros a' w Ha' Hf. destruct (out_of_mba phys addr a'); [done|]. by apply (Hu a').
Qed.
