(* ===== verification/MemBlockCalls.v ===== *)
(** * The memory block driver: what the calls do

    Every exported function and every entry of the file operations keeps the
    invariant of [MemBlockSafe] and returns, on every input the kernel can give
    them ([run_call_safe] and the theorems on the start-up); allocation is
    first-fit and fails only when it must; the reference counts are exact; what
    a task leaves behind is collected when its last file is closed; mappings
    stay inside one block. *)

From S2P Require Import Prelude MemBlock MemBlockSafe.
From stdpp Require Import list.
#[local] Open Scope Z_scope.

(** ** Users found *)

Lemma find_mbu_in h addr tgid st a m u :
  mb_find_mbu h addr tgid st = Some (a, m, u) ->
  addr <> 0 /\ a ∈ mba_list h /\ m ∈ mb_list a /\
  (flag st MBUFIND_PHYS = true -> addr = mb_phys m) /\
  exists v, v ∈ mbu_list m /\ match_mbu addr tgid st m v = Some (Some u).
Proof.
  unfold mb_find_mbu. destruct (Z.eqb_spec addr 0) as [|Hz]; [done|].
  destruct (negb (flag st MBUFIND_ADDRMASK)); [done|]. cbn [orb].
  destruct (find_map _ _) as [[[a' m'] [u'|]]|] eqn:E; [|done..]. intros [= -> -> ->].
  apply find_map_in in E as (x & Hx & E). destruct (_ && _); [done|].
  apply find_map_in in E as (y & Hy & E).
  destruct (flag st MBUFIND_PHYS && _) eqn:Ep; [done|]. destruct (flag st MBUFIND_VIRT && _); [done|].
  apply find_map_in in E as (v & Hv & E). destruct (match_mbu addr tgid st y v) as [r|] eqn:Em; [|done].
  injection E as -> -> ->. split_and!; [done..| |by exists v].
  intros Hp. rewrite Hp in Ep. cbn [andb] in Ep. bool_to_prop. done.
Qed.

(** The three kinds of search. *)
Lemma match_creator addr tgid st m v u :
  flag st MBUFIND_ALL = false -> flag st MBUFIND_CREATOR = true ->
  match_mbu addr tgid st m v = Some (Some u) -> mb_creator m = Some (mbu_id u) /\ u ∈ mbu_list m.
Proof.
  intros H1 H2. unfold match_mbu. rewrite H1, H2. repeat case_match; try done.
  intros [= E]. apply find_map_in in E as (w & Hw & E).
  destruct (Nat.eqb_spec (mbu_id w) n) as [<-|]; [|done]. by injection E as ->.
Qed.

Lemma match_other addr tgid st m v u :
  flag st MBUFIND_ALL = false -> flag st MBUFIND_CREATOR = false ->
  flag st MBUFIND_USER || flag st MBUFIND_GETPUT && negb (flag st MBUFIND_MMAP) = true -> addr <> 0 ->
  match_mbu addr tgid st m v = Some (Some u) ->
  u = v /\ mbu_addr u <> 0 /\ (tgid = MB_DEF_TGID \/ mbu_tgid u = tgid) /\
  (flag st MBUFIND_USER = true -> mbu_addr u = addr).
Proof.
  intros H1 H2 H3 Hz. unfold match_mbu. rewrite H1, H2.
  destruct (_ && negb (tgid =? _)) eqn:Et; [done|].
  destruct (flag st MBUFIND_USER && _) eqn:Eu; [done|].
  intros Hm. assert (v = u /\ (mbu_addr u <> 0 \/ flag st MBUFIND_USER = true)) as [-> Ha].
  { destruct (flag st MBUFIND_USER); [by repeat case_match; simplify_eq; auto|].
    apply andb_true_iff in H3 as [Hg H3%negb_true_iff]. rewrite H3, Hg in Hm. cbn [andb] in Hm.
    destruct (Z.eqb_spec (mbu_addr v) 0); [done|]. repeat case_match; simplify_eq; auto. }
  assert (flag st MBUFIND_USER = true -> mbu_addr u = addr) as Hu.
  { intros E. rewrite E in Eu. cbn [andb] in Eu. bool_to_prop. done. }
  split_and!; [done|destruct Ha as [|Ha%Hu]; congruence| |done].
  destruct (Z.eqb_spec tgid MB_DEF_TGID); [by left|]. right.
  destruct (Z.eqb_spec (mbu_tgid u) tgid); [done|done].
Qed.

(** ** Users come and go *)

Definition minus_user (u : mb_user) (cr : option nat) (m : mb_struct) : mb_struct :=
  with_users (mb_count m - 1) cr (del_mbu u (mbu_list m)) m.
Definition plus_user (u : mb_user) (cr : option nat) (m : mb_struct) : mb_struct :=
  with_users (mb_count m + 1) cr (mbu_list m ++ [u]) m.

(** The creator that is left when [u] goes. *)
Definition creator_left (m : mb_struct) (u : mb_user) (cr : option nat) : Prop :=
  cr = None \/ cr = mb_creator m /\ mb_creator m <> Some (mbu_id u).

Lemma minus_user_ok m u cr :
  users_ok m -> u ∈ mbu_list m -> creator_left m u cr -> users_ok (minus_user u cr m).
Proof.
  intros (Hc & Hn & Hcr) Hu Hl. unfold users_ok. cbn.
  apply list_elem_of_split in Hu as (l1 & l2 & Hs). unfold del_mbu. rewrite Hs in *.
  rewrite filter_split by done. rewrite length_app in *. simpl in *. split_and!.
  - lia.
  - by eapply nodup_remove.
  - intros c ->. destruct Hl as [|[E Hne]]; [done|]. destruct (Hcr c) as (v & Hv & Hi & Ha); [done|].
    exists v. split; [|done]. apply elem_of_app in Hv as [|[->|]%elem_of_cons];
      [apply elem_of_app; by left| |apply elem_of_app; by right]. congruence.
Qed.

Lemma plus_user_ok m u cr :
  users_ok m -> (forall v, v ∈ mbu_list m -> mbu_id v <> mbu_id u) ->
  cr = mb_creator m \/ cr = Some (mbu_id u) /\ mbu_addr u = 0 -> users_ok (plus_user u cr m).
Proof.
  intros (Hc & Hn & Hcr) Hu Hl. unfold users_ok. cbn. rewrite length_app. simpl. split_and!.
  - lia.
  - apply nodup_insert; by rewrite app_nil_r.
  - intros c ->. destruct Hl as [E|[[= ->] E]].
    + destruct (Hcr c) as (v & Hv & Hi); [done|]. exists v. split; [|done]. apply elem_of_app. by left.
    + exists u. split; [|done]. apply elem_of_app. right. by left.
Qed.

Lemma drop_run s p u cr :
  state_ok s -> at_place (wmt_mbah s) p -> u ∈ mbu_list (pl_block p) -> creator_left (pl_block p) u cr ->
  let m' := minus_user u cr (pl_block p) in
  let s' := set_host (set_at (wmt_mbah s) p m') s in
  drop_user (pl_area p) (pl_block p) u cr s = Ok ((pl_area (place_with p m'), m'), s') /\
  state_ok s' /\ at_place (wmt_mbah s') (place_with p m').
Proof.
  intros [Hh Hk] Hp Hu Hl m' s'. assert (same_block (pl_block p) m') as Hs by done.
  destruct (block_place _ _ Hh Hp) as (_ & _ & _ & Huk). split_and!; [|split|done].
  - unfold drop_user. erewrite bind_ok by (by apply store_run). cbv beta.
    rewrite (upd_blocks _ _ _ Hh Hp) by done. done.
  - apply set_at_ok; [done..|]. by apply minus_user_ok.
  - apply set_at_ids; [done..|]. intros v Hv. cbn in Hv.
    apply list_elem_of_filter in Hv as [_ Hv]. eapply (ids_place _ _ p Hk Hp); [|done].
    apply elem_of_app. right. by left.
Qed.

(** A user with a fresh id, the one handed out last, in a state [s1] that has
    not touched the host since. *)
Lemma add_run_later s s1 p u :
  state_ok s -> at_place (wmt_mbah s) p -> mbu_id u = next_id s ->
  wmt_mbah s1 = wmt_mbah s -> next_id s1 = S (next_id s) ->
  let s' := set_host (set_at (wmt_mbah s) p (plus_user u (mb_creator (pl_block p)) (pl_block p))) s1 in
  add_user (pl_area p) (pl_block p) u s1 = Ok (tt, s') /\ state_ok s'.
Proof.
  intros [Hh Hk] Hp Hu Hw Hn s'. destruct (block_place _ _ Hh Hp) as (_ & _ & _ & Huk).
  assert (forall v, v ∈ mbu_list (pl_block p) -> (mbu_id v < next_id s)%nat) as Hf.
  { apply (ids_place _ _ p Hk Hp). apply elem_of_app. right. by left. }
  split; [|split].
  - unfold add_user, s'. rewrite <- Hw in *. by apply (store_run s1 p).
  - apply set_at_ok; [done..|]. apply plus_user_ok; [done| |by left].
    intros v Hv%Hf. lia.
  - apply set_at_ids; [|done..|].
    + eapply ids_below_mono; [done|]. simpl. lia.
    + intros v [Hv%Hf|Hv]%elem_of_app; [simpl; lia|].
      apply list_elem_of_singleton in Hv as ->. simpl. lia.
Qed.

Lemma add_run s p u :
  state_ok s -> at_place (wmt_mbah s) p -> mbu_id u = next_id s ->
  let s' := set_host (set_at (wmt_mbah s) p (plus_user u (mb_creator (pl_block p)) (pl_block p))) (bump s) in
  add_user (pl_area p) (pl_block p) u (bump s) = Ok (tt, s') /\ state_ok s'.
Proof. intros Hs Hp Hu. by apply (add_run_later s (bump s)). Qed.

Lemma bump_ok s : state_ok s -> state_ok (bump s).
Proof. intros [Hh Hk]. split; [done|]. eapply ids_below_mono; [done|]. simpl. lia. Qed.

(** The host when [u] has left the block at [p], and the block with its last
    user. *)
Definition host_minus (h : mba_host_struct) (p : place) (u : mb_user) (cr : option nat) :
    mba_host_struct :=
  if mb_count (pl_block p) =? 1 then del_at h p else set_at h p (minus_user u cr (pl_block p)).

Lemma del_at_set h p m : del_at (set_at h p m) (place_with p m) = del_at h p.
Proof. done. Qed.

Lemma free_last s p m' :
  state_ok s -> at_place (wmt_mbah s) (place_with p m') -> mb_count m' = 0 ->
  let s' := set_host (del_at (wmt_mbah s) (place_with p m')) s in
  mb_free_mb (pl_area (place_with p m')) m' s = Ok (0, s') /\ state_ok s'.
Proof.
  intros [Hh Hk] Hp Hc. split; [by apply (free_run s (place_with p m'))|].
  split; [by apply del_at_ok|by apply del_at_ids].
Qed.

Lemma host_minus_ok s p u cr :
  state_ok s -> at_place (wmt_mbah s) p -> u ∈ mbu_list (pl_block p) -> creator_left (pl_block p) u cr ->
  state_ok (set_host (host_minus (wmt_mbah s) p u cr) s).
Proof.
  intros Hs Hp Hu Hl. unfold host_minus. case (mb_count (pl_block p) =? 1).
  - destruct Hs. split; [by apply del_at_ok|by apply del_at_ids].
  - by apply (drop_run s p u cr).
Qed.

(** ** The calls, one by one *)

Lemma count_pos m u : users_ok m -> u ∈ mbu_list m -> 0 < mb_count m.
Proof.
  intros (-> & _) (l1 & l2 & ->)%list_elem_of_split. rewrite length_app. simpl. lia.
Qed.

Lemma leave_run s p u cr :
  state_ok s -> at_place (wmt_mbah s) p -> u ∈ mbu_list (pl_block p) -> creator_left (pl_block p) u cr ->
  ('(a, m) ← drop_user (pl_area p) (pl_block p) u cr;
   if mb_count m =? 0 then _ ← mb_free_mb a m; mret tt else mret tt) s
  = Ok (tt, set_host (host_minus (wmt_mbah s) p u cr) s).
Proof.
  intros Hs Hp Hu Hl. destruct (drop_run s p u cr Hs Hp Hu Hl) as (Hr & Hs' & Hp').
  erewrite bind_ok by exact Hr. cbv beta iota. cbn [mb_count minus_user with_users].
  unfold host_minus. destruct (Z.eqb_spec (mb_count (pl_block p) - 1) 0) as [E|E].
  - destruct (free_last _ p _ Hs' Hp' E) as [Hf _]. erewrite bind_ok by exact Hf.
    destruct (Z.eqb_spec (mb_count (pl_block p)) 1); [done|lia].
  - by destruct (Z.eqb_spec (mb_count (pl_block p)) 1); [lia|].
Qed.

(** What a search with [find_mbu_in] hands to the calls below. *)
Lemma found_creator s addr tgid a m u :
  state_ok s -> mb_find_mbu (wmt_mbah s) addr tgid (Z.lor MBUFIND_PHYS MBUFIND_CREATOR) = Some (a, m, u) ->
  exists p, at_place (wmt_mbah s) p /\ pl_area p = a /\ pl_block p = m /\ addr = mb_phys m /\
    mb_creator m = Some (mbu_id u) /\ u ∈ mbu_list m.
Proof.
  intros Hs (_ & Ha & Hm & Hp & v & _ & Hv)%find_mbu_in.
  apply match_creator in Hv as [Hc Hu]; [|done..].
  destruct (place_exists _ a m Ha Hm) as (p & H1 & H2 & H3). exists p. split_and!; auto.
Qed.

Lemma found_other s addr tgid st a m u :
  state_ok s -> flag st MBUFIND_ALL = false -> flag st MBUFIND_CREATOR = false ->
  flag st MBUFIND_USER || flag st MBUFIND_GETPUT && negb (flag st MBUFIND_MMAP) = true ->
  mb_find_mbu (wmt_mbah s) addr tgid st = Some (a, m, u) ->
  exists p, at_place (wmt_mbah s) p /\ pl_area p = a /\ pl_block p = m /\ u ∈ mbu_list m /\
    creator_left m u (mb_creator m) /\ (tgid = MB_DEF_TGID \/ mbu_tgid u = tgid).
Proof.
  intros [Hh _] F1 F2 F3 (Hz & Ha & Hm & _ & v & Hv & E)%find_mbu_in.
  apply match_other in E as (-> & H1 & H2 & _); [|done..].
  destruct (place_exists _ a m Ha Hm) as (p & P1 & P2 & P3). exists p. split_and!; try done.
  right. split; [done|]. intros Hc. destruct (block_wf _ a m Hh Ha Hm) as (_ & _ & _ & _ & Hn & Hcr).
  destruct (Hcr _ Hc) as (w & Hw & Hi & Ha0). apply H1. rewrite <- Ha0. f_equal.
  by apply (nodup_eq mbu_id _ _ (mbu_list m)).
Qed.

Lemma do_free_at s p u tgid name :
  state_ok s -> at_place (wmt_mbah s) p -> u ∈ mbu_list (pl_block p) ->
  mb_find_mbu (wmt_mbah s) (mb_phys (pl_block p)) tgid (Z.lor MBUFIND_PHYS MBUFIND_CREATOR)
  = Some (pl_area p, pl_block p, u) ->
  mb_do_free (mb_phys (pl_block p)) tgid (Some name) s
  = Ok (0, set_host (host_minus (wmt_mbah s) p u None) s).
Proof.
  intros Hs Hp Hu E. unfold mb_do_free. destruct (elem_place _ _ Hp) as [Ha Hm].
  pose proof (block_bounds _ _ _ (proj1 Hs) Ha Hm).
  destruct (Z.eqb_spec (mb_phys (pl_block p)) 0); [lia|]. rewrite bool_decide_false by done. cbn [orb].
  erewrite bind_ok by done. cbv beta. rewrite E.
  destruct (drop_run s p u None Hs Hp Hu ltac:(by left)) as (Hr & Hs' & Hp').
  erewrite bind_ok by exact Hr. cbv beta iota. cbn [mb_count minus_user with_users].
  unfold host_minus. destruct (Z.eqb_spec (mb_count (pl_block p) - 1) 0) as [Ez|Ez].
  - cbn [negb]. destruct (free_last _ p _ Hs' Hp' Ez) as [Hf _]. rewrite Hf.
    destruct (Z.eqb_spec (mb_count (pl_block p)) 1); [done|lia].
  - by destruct (Z.eqb_spec (mb_count (pl_block p)) 1); [lia|].
Qed.

Lemma do_free_run s addr tgid name :
  state_ok s ->
  mb_do_free addr tgid name s = Ok (- EINVAL, s) \/
  exists p u, at_place (wmt_mbah s) p /\ addr = mb_phys (pl_block p) /\ u ∈ mbu_list (pl_block p) /\
    mb_creator (pl_block p) = Some (mbu_id u) /\
    mb_do_free addr tgid name s = Ok (0, set_host (host_minus (wmt_mbah s) p u None) s).
Proof.
  intros Hs. destruct name as [name|]; [|left; unfold mb_do_free; by rewrite orb_true_r].
  destruct (mb_find_mbu (wmt_mbah s) addr tgid (Z.lor MBUFIND_PHYS MBUFIND_CREATOR))
    as [[[a m] u]|] eqn:E.
  - right. pose proof E as (p & Hp & <- & <- & -> & Hc & Hu)%found_creator; [|done].
    exists p, u. split_and!; [done..|]. by apply do_free_at.
  - left. unfold mb_do_free. destruct (_ || _); [done|]. erewrite bind_ok by done. cbv beta. by rewrite E.
Qed.

Lemma put_mbu_run s addr tgid st :
  state_ok s -> flag st MBUFIND_ALL = false -> flag st MBUFIND_CREATOR = false ->
  flag st MBUFIND_USER || flag st MBUFIND_GETPUT && negb (flag st MBUFIND_MMAP) = true ->
  put_mbu (mb_find_mbu (wmt_mbah s) addr tgid st) s = Ok (- EINVAL, s) \/
  exists p u, at_place (wmt_mbah s) p /\ u ∈ mbu_list (pl_block p) /\
    creator_left (pl_block p) u (mb_creator (pl_block p)) /\
    put_mbu (mb_find_mbu (wmt_mbah s) addr tgid st) s
    = Ok (0, set_host (host_minus (wmt_mbah s) p u (mb_creator (pl_block p))) s).
Proof.
  intros Hs F1 F2 F3. destruct (mb_find_mbu _ _ _ _) as [[[a m] u]|] eqn:E; [right|by left].
  apply found_other in E as (p & Hp & <- & <- & Hu & Hl & _); [|done..].
  exists p, u. split_and!; [done..|]. unfold put_mbu.
  destruct (block_place _ _ (proj1 Hs) Hp) as (_ & _ & _ & Huk).
  pose proof (count_pos _ _ Huk Hu). destruct (Z.eqb_spec (mb_count (pl_block p)) 0); [lia|].
  pose proof (leave_run s p u _ Hs Hp Hu Hl) as Hr.
  unfold mbind, M_bind in *. by destruct (drop_user _ _ _ _ s) as [[[a m] s1]|];
    [destruct (if mb_count m =? 0 then _ else _) as [[[] s2]|]; simplify_eq|].
Qed.

(** *** Allocation *)

Lemma areas_max_reached l x : 0 < x <= areas_max l -> exists a, a ∈ l /\ x <= mba_max a.
Proof.
  induction l as [|a l IH]; [unfold areas_max; simpl; lia|]. rewrite areas_max_cons. intros Hx.
  destruct (decide (x <= mba_max a)); [exists a; split; [by left|done]|].
  destruct IH as (b & Hb & Hle); [lia|]. exists b. split; [by right|done].
Qed.

(** The zone that [mb_do_alloc] takes: in the first area that has one large
    enough, the first such zone. *)
Record fit (h : mba_host_struct) (pages : Z) (l1 : list mb_area_struct) (a : mb_area_struct)
    (l2 : list mb_area_struct) (b1 b2 : list mb_struct) : Prop := {
  fit_areas : mba_list h = l1 ++ a :: l2;
  fit_before : Forall (fun x => mba_max x < pages) l1;
  fit_max : pages <= mba_max a;
  fit_zone : first_fit a pages b1 b2;
}.

(** The block made there for the task [tgid], its first user with it; [k] is the
    next id. *)
Definition made_user (k : nat) (tgid pages : Z) (name : list Z) : mb_user :=
  MkMbu k tgid 0 (pages * 4096) (user_name name).
Definition made (k : nat) (a : mb_area_struct) (b1 : list mb_struct) (pages tgid : Z)
    (name : list Z) : mb_struct :=
  plus_user (made_user k tgid pages name) (Some k)
    (new_block a (S k) (end_of (mba_pfn_start a) b1) pages).

Lemma find_area h l1 a l2 :
  host_ok h -> mba_list h = l1 ++ a :: l2 ->
  find_map (fun e => if Nat.eqb (mba_id e) (mba_id a) then Some e else None) (mba_list h) = Some a.
Proof.
  intros Hh Hl. assert (a ∈ mba_list h) as Ha by (rewrite Hl; apply elem_of_app; right; by left).
  apply (find_map_unique _ _ a); [done|by rewrite Nat.eqb_refl|].
  intros z w Hz Hf. destruct (Nat.eqb_spec (mba_id z) (mba_id a)) as [E|]; [|done].
  injection Hf as <-. apply (nodup_eq mba_id _ _ (mba_list h)); [apply Hh|done..].
Qed.

(** The block without its user is a block of the host. *)
Lemma insert_ok s l1 a l2 pages b1 b2 :
  state_ok s -> 0 < pages -> fit (wmt_mbah s) pages l1 a l2 b1 b2 ->
  let m := new_block a (next_id s) (end_of (mba_pfn_start a) b1) pages in
  state_ok (set_host (put_blocks (wmt_mbah s) l1 a l2 (b1 ++ m :: b2)) (bump s)).
Proof.
  intros [Hh Hk] Hp [Hl _ _ Hf] m.
  assert (a ∈ mba_list (wmt_mbah s)) as Ha by (rewrite Hl; apply elem_of_app; right; by left).
  pose proof (area_wf _ _ Hh Ha) as Hw. split.
  - apply put_blocks_ok; [done..|]. apply blocks_ok_insert; [done..|].
    intros x Hx. destruct (Hk a x Ha Hx). lia.
  - cbn. apply ids_below_put; [eapply ids_below_mono; [done|lia]|done|].
    intros x [->|[_ Hx]]%(elem_replace _ _ m).
    + split; [simpl; lia|]. intros u Hu. by apply elem_of_nil in Hu.
    + rewrite <- (proj1 Hf) in Hx. destruct (Hk a x Ha Hx) as [H1 H2].
      split; [lia|]. intros u Hu%H2. lia.
Qed.

Lemma pick_area h pages :
  host_ok h -> 0 < pages <= max_available_pages h ->
  exists l1 a l2, mba_list h = l1 ++ a :: l2 /\ Forall (fun x => mba_max x < pages) l1 /\
    pages <= mba_max a /\
    find_map (fun a => if pages <=? mba_max a then Some a else None) (mba_list h) = Some a.
Proof.
  intros Hh Hp. destruct (find_map _ _) as [a|] eqn:Ef.
  - apply find_map_some in Ef as (l1 & x & l2 & Hl & Hx & Hb).
    destruct (Z.leb_spec pages (mba_max x)) as [Hle|]; [|done]. injection Hx as ->.
    exists l1, a, l2. split_and!; [done| |done|done].
    eapply Forall_impl; [exact Hb|]. intros y Hy. cbv beta in Hy.
    by destruct (Z.leb_spec pages (mba_max y)).
  - destruct (areas_max_reached (mba_list h) pages) as (a & Ha & Hle); [by rewrite <- (ok_max _ Hh)|].
    rewrite find_map_none in Ef. specialize (Ef a Ha). cbv beta in Ef.
    by destruct (Z.leb_spec pages (mba_max a)); [|lia].
Qed.

(** The block gets its first user. *)
Lemma first_user s l1 a l2 b1 m b2 u :
  state_ok s -> mba_list (wmt_mbah s) = l1 ++ a :: l2 -> mb_list a = b1 ++ m :: b2 ->
  (mbu_id u < next_id s)%nat -> mbu_addr u = 0 -> mbu_list m = [] ->
  let m' := plus_user u (Some (mbu_id u)) m in
  let s' := set_host (put_blocks (wmt_mbah s) l1 a l2 (b1 ++ m' :: b2)) s in
  (a ← initialised (find_map (fun e => if Nat.eqb (mba_id e) (mba_id a) then Some e else None)
                      (mba_list (wmt_mbah s)));
   store_mb a m') s = Ok (tt, s') /\ state_ok s'.
Proof.
  intros [Hh Hk] Hl Hb Hi Ha Hm m' s'.
  assert (at_place (wmt_mbah s) (MkPlace l1 a l2 b1 m b2)) as Hp by done.
  rewrite (find_area _ l1 a l2 Hh Hl).
  destruct (block_place _ _ Hh Hp) as (_ & _ & _ & Hu).
  split; [|split].
  - erewrite bind_ok by done. by apply (store_run s (MkPlace l1 a l2 b1 m b2)).
  - apply (set_at_ok _ (MkPlace l1 a l2 b1 m b2)); [done..|]. apply plus_user_ok; [done| |by right].
    rewrite Hm. intros v Hv. by apply elem_of_nil in Hv.
  - apply (set_at_ids _ _ (MkPlace l1 a l2 b1 m b2)); [done..|].
    cbn. rewrite Hm. by intros v ->%list_elem_of_singleton.
Qed.

Lemma do_alloc_ok s size tgid name :
  state_ok s -> slab_ready s = true -> 0 < pages_of size <= max_available_pages (wmt_mbah s) ->
  exists l1 a l2 b1 b2, fit (wmt_mbah s) (pages_of size) l1 a l2 b1 b2 /\
    let h' := put_blocks (wmt_mbah s) l1 a l2
                (b1 ++ made (next_id s) a b1 (pages_of size) tgid name :: b2) in
    mb_do_alloc size tgid (Some name) s
    = (if slab_ready (bump s)
       then Ok (end_of (mba_pfn_start a) b1 * 4096, set_host h' (bump (bump s)))
       else Ok (0, bump (bump s))) /\
    state_ok (set_host h' (bump (bump s))).
Proof.
  intros Hs Hr Hm. destruct (pick_area _ _ (proj1 Hs) Hm) as (l1 & a & l2 & Hl & Hb & Hle & Hfm).
  destruct (alloc_mb_run (bump s) l1 a l2 (PAGE_ALIGN size)) as (b1 & b2 & Hf & Hrun);
    [by apply bump_ok|done|rewrite pages_of_align; lia|]. rewrite pages_of_align in *.
  exists l1, a, l2, b1, b2. split; [done|]. set (pages := pages_of size) in *. intros h'.
  assert (fit (wmt_mbah (bump s)) pages l1 a l2 b1 b2) as Hfit by done.
  pose proof (insert_ok (bump s) l1 a l2 pages b1 b2 ltac:(by apply bump_ok) ltac:(lia) Hfit) as Hin.
  cbv zeta in Hrun, Hin. set (m := new_block a _ _ _) in Hrun, Hin.
  destruct (first_user _ l1 (area_with a (b1 ++ m :: b2)) l2 b1 m b2
    (made_user (next_id s) tgid pages name) Hin) as [Hst Hok]; [done|done|simpl; lia|done|done|].
  split; [|exact Hok].
  unfold mb_do_alloc. rewrite align_shift. fold pages. destruct (Z.eqb_spec pages 0); [lia|].
  erewrite bind_ok by apply slab_run. rewrite Hr. erewrite bind_ok by done. cbv beta.
  change (wmt_mbah (bump s)) with (wmt_mbah s).
  destruct (Z.ltb_spec (max_available_pages (wmt_mbah s)) pages); [lia|]. rewrite Hfm.
  unfold mbind at 1, M_bind at 1. rewrite Hrun. destruct (slab_ready (bump s)); [|done].
  erewrite bind_ok by done. cbv beta.
  unfold mbind, M_bind in Hst |- *.
  change (mba_id (area_with a (b1 ++ m :: b2))) with (mba_id a) in Hst.
  destruct (initialised _ _) as [[a1 s1]|]; [|done].
  match type of Hst with store_mb _ ?x _ = _ =>
    match goal with |- context [store_mb _ ?y _] => change y with x end end.
  by rewrite Hst.
Qed.

(** No block is made and nothing is changed. *)
Lemma do_alloc_refused s size tgid name :
  slab_ready s = false \/ max_available_pages (wmt_mbah s) < pages_of size ->
  mb_do_alloc size tgid (Some name) s = Ok (0, if pages_of size =? 0 then s else bump s).
Proof.
  intros Hr. unfold mb_do_alloc. rewrite align_shift.
  destruct (Z.eqb_spec (pages_of size) 0); [done|].
  erewrite bind_ok by apply slab_run. destruct (slab_ready s); [|done].
  destruct Hr as [|Hr]; [done|]. erewrite bind_ok by done. cbv beta.
  by destruct (Z.ltb_spec (max_available_pages (wmt_mbah (bump s))) (pages_of size)); [|simpl in *; lia].
Qed.

Lemma do_alloc_zero s size tgid name :
  pages_of size = 0 -> mb_do_alloc size tgid (Some name) s = Ok (0, s).
Proof. intros Hz. unfold mb_do_alloc. by rewrite align_shift, Hz. Qed.


(** *** References *)

Lemma do_get_run s addr tgid name :
  state_ok s ->
  exists rc s', mb_do_get addr tgid name s = Ok (rc, s') /\ state_ok s' /\
    ((rc <> 0 /\ (s' = s \/ s' = bump s)) \/
     exists p nm, rc = 0 /\ at_place (wmt_mbah s) p /\ name = Some nm /\
       let u := MkMbu (next_id s) tgid addr 0 (user_name nm) in
       s' = set_host (set_at (wmt_mbah s) p (plus_user u (mb_creator (pl_block p)) (pl_block p))) (bump s)).
Proof.
  intros Hs. pose proof (bump_ok s Hs) as Hb. unfold mb_do_get. destruct name as [nm|]; [|by eauto 10].
  destruct (addr =? 0); [by eauto 10|].
  erewrite bind_ok by apply slab_run. destruct (slab_ready s); [|by eauto 10].
  erewrite bind_ok by done. cbv beta. change (wmt_mbah (bump s)) with (wmt_mbah s).
  destruct (if negb (tgid =? MB_DEF_TGID) then _ else _) as [[a m]|] eqn:E; [|by eauto 10].
  assert (exists p, at_place (wmt_mbah s) p /\ pl_area p = a /\ pl_block p = m) as (p & Hp & <- & <-).
  { assert (a ∈ mba_list (wmt_mbah s) /\ m ∈ mb_list a) as [Ha Hm]; [|by apply place_exists].
    destruct (negb (tgid =? MB_DEF_TGID)).
    - destruct (mb_find_mbu _ _ _ _) as [[[a' m'] u']|] eqn:Ef; [|done].
      injection E as <- <-. by apply find_mbu_in in Ef as (_ & Ha & Hm & _).
    - by apply (find_mb_in _ _ true) in E as (Ha & Hm & _); [|apply Hs]. }
  destruct (add_run s p (MkMbu (next_id s) tgid addr 0 (user_name nm)) Hs Hp) as [Hr Hs']; [done|].
  eexists 0, _. split; [by erewrite bind_ok by exact Hr|]. split; [done|].
  right. by exists p, nm.
Qed.

Lemma do_put_run s addr tgid name :
  state_ok s ->
  mb_do_put addr tgid name s = Ok (- EINVAL, s) \/
  exists p u, at_place (wmt_mbah s) p /\ u ∈ mbu_list (pl_block p) /\
    creator_left (pl_block p) u (mb_creator (pl_block p)) /\
    mb_do_put addr tgid name s
    = Ok (0, set_host (host_minus (wmt_mbah s) p u (mb_creator (pl_block p))) s).
Proof.
  intros Hs. unfold mb_do_put. destruct (_ || bool_decide _); [by left|].
  erewrite bind_ok by done. cbv beta. apply put_mbu_run; [done|by case_match..].
Qed.

(** ** The host as its users see it *)

Definition users_of (h : mba_host_struct) : list mb_user :=
  a ← mba_list h; m ← mb_list a; mbu_list m.

Lemma users_of_put h p bl :
  at_place h p ->
  exists U1 U2, users_of h = U1 ++ (mb_list (pl_area p) ≫= mbu_list) ++ U2 /\
    users_of (put_at h p bl) = U1 ++ (bl ≫= mbu_list) ++ U2.
Proof.
  intros [Hl _]. exists (a ← pl_before p; m ← mb_list a; mbu_list m),
    (a ← pl_after p; m ← mb_list a; mbu_list m).
  unfold users_of. rewrite Hl. cbn [mba_list put_at put_blocks host_with].
  by rewrite !bind_app, !bind_cons.
Qed.

(** One user leaves, and nobody else. *)
Lemma users_of_minus h p u cr :
  host_ok h -> at_place h p -> u ∈ mbu_list (pl_block p) ->
  exists x y, users_of h = x ++ u :: y /\ users_of (host_minus h p u cr) = x ++ y.
Proof.
  intros Hh Hp Hu. destruct (block_place h p Hh Hp) as (_ & _ & _ & Hc & Hn & _).
  apply list_elem_of_split in Hu as (l1 & l2 & Hs).
  set (U := pl_left p ≫= mbu_list) in *. set (V := pl_right p ≫= mbu_list) in *.
  unfold host_minus. destruct (Z.eqb_spec (mb_count (pl_block p)) 1) as [E|E].
  - destruct (users_of_put h p (pl_left p ++ pl_right p) Hp) as (U1 & U2 & H1 & H2).
    rewrite (proj2 Hp), bind_app, bind_cons, Hs in H1. rewrite bind_app in H2.
    assert (l1 = [] /\ l2 = []) as [-> ->].
    { rewrite Hc, Hs, length_app in E. destruct l1, l2; simpl in E; [done|lia..]. }
    exists (U1 ++ U), (V ++ U2). unfold del_at. rewrite H1, H2. simpl. by rewrite <- !app_assoc.
  - destruct (users_of_put h p (pl_left p ++ minus_user u cr (pl_block p) :: pl_right p) Hp)
      as (U1 & U2 & H1 & H2).
    rewrite (proj2 Hp), bind_app, bind_cons, Hs in H1. rewrite bind_app, bind_cons in H2.
    cbn [mbu_list minus_user with_users] in H2. unfold del_mbu in H2.
    rewrite Hs in H2, Hn. rewrite filter_split in H2 by done.
    exists (U1 ++ U ++ l1), (l2 ++ V ++ U2). unfold set_at. rewrite H1, H2.
    rewrite <- !app_assoc. by rewrite <- !app_comm_cons.
Qed.

(** ** Closing the last file of a task *)

Lemma update_run s : host_ok (wmt_mbah s) -> mb_update_mbah s = Ok (tt, s).
Proof.
  intros Hh. unfold mb_update_mbah, modify.
  assert (forall l mx tot, Forall mba_wf l -> 0 <= tot -> 0 <= mx -> tot + sum_pages l < 2 ^ 32 ->
    foldl (fun '(mx, free) a => let '(amx, afree) := recount a (mb_list a) in
             (Z.max mx amx, u32 (free + afree))) (mx, tot) l
    = (Z.max mx (areas_max l), tot + sum_free l)) as Hfold.
  { induction l as [|a l IH]; intros mx tot Hf Ht Hm Hs; simpl in *.
    - change (areas_max []) with 0. f_equal; lia.
    - apply Forall_cons in Hf as [Ha Hl]. pose proof (wf_chain _ Ha) as Hc.
      rewrite recount_run by (done || apply Ha).
      rewrite <- (wf_max _ Ha), <- (wf_free _ Ha).
      pose proof (gap_total_bounds _ _ _ Hc) as B1. pose proof (gap_max_bounds _ _ _ Hc) as B2.
      rewrite <- (wf_max _ Ha) in B2. rewrite <- (wf_free _ Ha) in B1.
      pose proof (sum_free_bounds _ Hl). pose proof (wf_end _ Ha).
      rewrite u32_small by lia. rewrite IH by (done || lia). rewrite areas_max_cons. f_equal; lia. }
  pose proof (ok_sum _ Hh). rewrite Hfold by (apply Hh || lia).
  pose proof (areas_max_nonneg (mba_list (wmt_mbah s))). rewrite Z.max_r by lia.
  rewrite <- (ok_max _ Hh). change (0 + ?x) with x. rewrite <- (ok_free _ Hh).
  by destruct s as [[] ? ? ? ? ? ?].
Qed.

(** What is left of a block when the users of the task [tgid] are gone. *)
Definition owned (tgid : Z) (u : mb_user) : bool := mbu_tgid u =? tgid.
Definition creator_of (tgid : Z) (m : mb_struct) (u : mb_user) : bool :=
  owned tgid u && bool_decide (mb_creator m = Some (mbu_id u)).
Definition others (tgid : Z) (l : list mb_user) : list mb_user := filter (fun u => mbu_tgid u <> tgid) l.
Definition keep (tgid : Z) (m : mb_struct) : option mb_struct :=
  if existsb (owned tgid) (mbu_list m) then
    let us := others tgid (mbu_list m) in
    if Nat.eqb (length us) 0 then None
    else Some (with_users (Z.of_nat (length us))
                 (if existsb (creator_of tgid m) (mbu_list m) then None else mb_creator m) us m)
  else Some m.

Definition released (tgid : Z) (h : mba_host_struct) : list (list mb_struct) :=
  (fun a => omap (keep tgid) (mb_list a)) <$> mba_list h.

Lemma others_none tgid l : existsb (owned tgid) l = false -> others tgid l = l.
Proof.
  induction l as [|u l IH]; simpl; [done|].
  intros [H1%Z.eqb_neq H2%IH]%orb_false_iff. unfold others in *. by rewrite filter_cons_True, H2.
Qed.

Lemma others_minus tgid l1 u l2 : mbu_tgid u = tgid -> others tgid (l1 ++ u :: l2) = others tgid (l1 ++ l2).
Proof. intros Hu. unfold others. by rewrite !filter_app, filter_cons_False by naive_solver. Qed.

(** The creator after the user [u] of the task is gone. *)
Definition next_creator (m : mb_struct) (u : mb_user) : option nat :=
  if bool_decide (mb_creator m = Some (mbu_id u)) then None else mb_creator m.

Lemma next_creator_left m u : creator_left m u (next_creator m u).
Proof. unfold next_creator. case_bool_decide; [by left|by right]. Qed.

Lemma creator_minus tgid m l1 u l2 :
  mbu_list m = l1 ++ u :: l2 -> owned tgid u = true ->
  (if existsb (creator_of tgid (minus_user u (next_creator m u) m)) (l1 ++ l2) then None
   else next_creator m u)
  = if existsb (creator_of tgid m) (mbu_list m) then None else mb_creator m.
Proof.
  intros Hl Hu. rewrite Hl, !existsb_app. cbn [existsb]. unfold creator_of at 4. rewrite Hu.
  unfold creator_of, minus_user, next_creator. cbn [mb_creator with_users].
  case_bool_decide as E; cbn [andb orb].
  - rewrite orb_true_r. by destruct (_ || _).
  - reflexivity.
Qed.

Lemma creator_none tgid m l : existsb (owned tgid) l = false -> existsb (creator_of tgid m) l = false.
Proof.
  induction l as [|u l IH]; simpl; [done|]. unfold creator_of at 1.
  intros [-> H2%IH]%orb_false_iff. done.
Qed.

Lemma keep_minus tgid m l1 u l2 :
  users_ok m -> mbu_list m = l1 ++ u :: l2 -> mbu_tgid u = tgid -> mb_count m <> 1 ->
  keep tgid (minus_user u (next_creator m u) m) = keep tgid m.
Proof.
  intros (Hc & Hn & _) Hl Hu Hne. assert (owned tgid u = true) as Ho by (by apply Z.eqb_eq).
  assert (del_mbu u (mbu_list m) = l1 ++ l2) as Hd.
  { unfold del_mbu. rewrite Hl in *. by apply filter_split. }
  unfold keep. change (mbu_list (minus_user u ?c m)) with (del_mbu u (mbu_list m)).
  change (mb_creator (minus_user u ?c m)) with c. rewrite Hd.
  rewrite (creator_minus tgid m l1 u l2) by done.
  assert (existsb (owned tgid) (mbu_list m) = true) as ->.
  { rewrite Hl, existsb_app. cbn [existsb]. rewrite Ho. apply orb_true_r. }
  rewrite Hl, others_minus by done. rewrite <- Hl.
  destruct (existsb (owned tgid) (l1 ++ l2)) eqn:Ex; [done|].
  rewrite (others_none _ _ Ex). destruct (Nat.eqb_spec (length (l1 ++ l2)) 0) as [E|E].
  { exfalso. rewrite Hc, Hl, !length_app in *. simpl in *. lia. }
  f_equal. rewrite <- (creator_minus tgid m l1 u l2) by done. rewrite creator_none by done.
  unfold minus_user. rewrite Hd, Hc, Hl, !length_app. simpl. f_equal. lia.
Qed.

Lemma keep_last tgid m u :
  users_ok m -> u ∈ mbu_list m -> mbu_tgid u = tgid -> mb_count m = 1 -> keep tgid m = None.
Proof.
  intros (Hc & _) Hu Ho H1. rewrite Hc in H1. unfold keep.
  destruct (mbu_list m) as [|v [|? ?]]; simpl in H1; [lia| |lia].
  apply list_elem_of_singleton in Hu as <-. unfold others, owned. cbn [existsb].
  rewrite filter_cons_False by naive_solver. by destruct (Z.eqb_spec (mbu_tgid u) tgid).
Qed.

Lemma released_put tgid h p bl :
  at_place h p -> omap (keep tgid) bl = omap (keep tgid) (mb_list (pl_area p)) ->
  released tgid (put_at h p bl) = released tgid h.
Proof.
  intros [Hl _] Hb. unfold released. cbn [mba_list put_at put_blocks host_with].
  rewrite Hl, !fmap_app, !fmap_cons. cbn [mb_list area_with]. by rewrite Hb.
Qed.

Lemma released_minus tgid h p u :
  host_ok h -> at_place h p -> u ∈ mbu_list (pl_block p) -> mbu_tgid u = tgid ->
  released tgid (host_minus h p u (next_creator (pl_block p) u)) = released tgid h.
Proof.
  intros Hh Hp Hu Ho. destruct (block_place h p Hh Hp) as (_ & _ & _ & Huk).
  unfold host_minus. destruct (Z.eqb_spec (mb_count (pl_block p)) 1) as [E|E].
  - apply released_put; [done|]. rewrite (proj2 Hp), !omap_app. cbn [omap list_omap].
    by rewrite (keep_last tgid _ u).
  - apply list_elem_of_split in Hu as (l1 & l2 & Hs).
    apply released_put; [done|]. rewrite (proj2 Hp), !omap_app. cbn [omap list_omap].
    by rewrite (keep_minus tgid _ l1 u l2).
Qed.


Lemma release_body_run s tgid :
  state_ok s ->
  (release_body tgid tt s = Ok (inr tt, s) /\ forall u, u ∈ users_of (wmt_mbah s) -> mbu_tgid u <> tgid) \/
  exists p u, at_place (wmt_mbah s) p /\ u ∈ mbu_list (pl_block p) /\ mbu_tgid u = tgid /\
    release_body tgid tt s
    = Ok (inl tt, set_host (host_minus (wmt_mbah s) p u (next_creator (pl_block p) u)) s).
Proof.
  intros Hs. unfold release_body. erewrite bind_ok by done. cbv beta.
  destruct (find_map _ _) as [[[a m] u]|] eqn:E.
  - right. apply find_map_in in E as (a' & Ha & E). apply find_map_in in E as (m' & Hm & E).
    apply find_map_in in E as (u' & Hu & E).
    destruct (Z.eqb_spec (mbu_tgid u') tgid) as [Ht|]; [|done]. injection E as -> -> ->.
    destruct (place_exists _ a m Ha Hm) as (p & Hp & <- & <-). exists p, u. split_and!; [done..|].
    pose proof (leave_run s p u _ Hs Hp Hu (next_creator_left _ u)) as Hr.
    fold (next_creator (pl_block p) u). unfold mbind, M_bind in *.
    by destruct (drop_user _ _ _ _ s) as [[[a m] s1]|];
      [destruct (if mb_count m =? 0 then _ else _) as [[[] s2]|]; simplify_eq|].
  - left. split; [done|]. intros u (a & Hu & Ha)%list_elem_of_bind Ht.
    apply list_elem_of_bind in Hu as (m & Hu & Hm).
    rewrite find_map_none in E. specialize (E a Ha). cbv beta in E.
    rewrite find_map_none in E. specialize (E m Hm). cbv beta in E.
    rewrite find_map_none in E. specialize (E u Hu). cbv beta in E.
    by destruct (Z.eqb_spec (mbu_tgid u) tgid).
Qed.

(** The scan ends, whatever its users: each turn takes one away. *)
Lemma release_loop_run n s tgid :
  state_ok s -> (total_users (wmt_mbah s) < n)%nat ->
  exists h', loop n (release_body tgid) tt s = Ok (tt, set_host h' s) /\ state_ok (set_host h' s) /\
    released tgid h' = released tgid (wmt_mbah s) /\ forall u, u ∈ users_of h' -> mbu_tgid u <> tgid.
Proof.
  revert s. induction n as [|n IH]; intros s Hs Hn; [lia|].
  destruct (release_body_run s tgid Hs) as [[Hr Hu]|(p & u & Hp & Hu & Ht & Hr)].
  - exists (wmt_mbah s). erewrite loop_exit by exact Hr. by destruct s.
  - destruct (users_of_minus _ p u (next_creator (pl_block p) u) (proj1 Hs) Hp Hu) as (x & y & H1 & H2).
    destruct (IH (set_host (host_minus (wmt_mbah s) p u (next_creator (pl_block p) u)) s))
      as (h' & Hl & Hs' & Hrel & Hnone).
    { apply host_minus_ok; [done..|apply next_creator_left]. }
    { change (length (users_of (host_minus (wmt_mbah s) p u (next_creator (pl_block p) u))) < n)%nat.
      change (length (users_of (wmt_mbah s)) < S n)%nat in Hn.
      rewrite H2. rewrite H1 in Hn. rewrite !length_app in *. simpl in *. lia. }
    exists h'. erewrite loop_next by exact Hr. split_and!; [done..| |done].
    rewrite Hrel. by apply released_minus; [apply Hs|..].
Qed.

Lemma released_clean tgid h :
  (forall u, u ∈ users_of h -> mbu_tgid u <> tgid) -> released tgid h = mb_list <$> mba_list h.
Proof.
  intros Hu. unfold released. apply list_fmap_ext. intros i a Ha%list_elem_of_lookup_2.
  assert (forall m, m ∈ mb_list a -> keep tgid m = Some m) as Hk.
  { intros m Hm. unfold keep. destruct (existsb _ _) eqn:E; [|done].
    apply existsb_exists in E as (u & Hin & Ho%Z.eqb_eq). destruct (Hu u); [|done].
    apply list_elem_of_bind. exists a. split; [|done]. apply list_elem_of_bind. exists m.
    split; [by apply list_elem_of_In|done]. }
  induction (mb_list a) as [|m l IH]; [done|]. cbn [omap list_omap]. rewrite Hk by (by left).
  f_equal. apply IH. intros x Hx. apply Hk. by right.
Qed.

Lemma del_upd_first {A} (q : A -> bool) f l :
  (forall x, q (f x) = q x) -> del_first q (upd_first q f l) = del_first q l.
Proof.
  intros Hq. induction l as [|x l IH]; simpl; [done|]. destruct (q x) eqn:E; simpl.
  - by rewrite Hq, E.
  - by rewrite E, IH.
Qed.

(** [C12] Closing the last file of a task ends, and leaves of every block exactly
    what [keep] says: the references of the task are gone, the blocks that had
    no others are recycled, everybody else's references and blocks are as they
    were, and the task is forgotten. *)
Theorem mb_release_collects s tgid x :
  state_ok s ->
  find_map (fun y => if of_task tgid y then Some y else None) (wmt_mbti s) = Some x ->
  ti_count x = 1 ->
  exists s', mb_release (Some tgid) s = Ok (0, s') /\ state_ok s' /\
    mb_list <$> mba_list (wmt_mbah s') = released tgid (wmt_mbah s) /\
    (forall u, u ∈ users_of (wmt_mbah s') -> mbu_tgid u <> tgid) /\
    wmt_mbti s' = del_first (of_task tgid) (wmt_mbti s).
Proof.
  intros Hs Hx H1. unfold mb_release. erewrite bind_ok by done. cbv beta. rewrite Hx.
  erewrite bind_ok by done. cbv beta. rewrite H1. change (negb (1 - 1 =? 0)) with false. cbv iota.
  erewrite bind_ok by done. cbv beta.
  set (t := upd_first _ _ _). assert (state_ok (set_tasks t s)) as Ht by done.
  destruct (release_loop_run (S (total_users (wmt_mbah (set_tasks t s)))) _ tgid Ht ltac:(lia))
    as (h' & Hl & Hs' & Hr & Hu).
  erewrite bind_ok by exact Hl. cbv beta.
  erewrite bind_ok by (apply update_run, Hs'). cbv beta.
  eexists. split; [reflexivity|]. split; [exact Hs'|]. split; [|split; [done|]].
  - by rewrite <- (released_clean tgid).
  - apply del_upd_first. done.
Qed.

(** ** The file operations *)

(** Every call of the driver keeps the invariant and returns. *)
Definition safe {A} (c : D A) (s : mbs) : Prop := exists r s', c s = Ok (r, s') /\ state_ok s' /\
  wmt_mbti s' = wmt_mbti s.

Lemma safe_ret {A} (r : A) s : state_ok s -> safe (mret r) s.
Proof. intros Hs. by exists r, s. Qed.

Lemma safe_bind {A B} (c : D A) (k : A -> D B) s :
  safe c s -> (forall r s', state_ok s' -> wmt_mbti s' = wmt_mbti s -> safe (k r) s') -> safe (mbind k c) s.
Proof.
  intros (r & s' & Hr & Hs & Ht) Hk. destruct (Hk r s' Hs Ht) as (r' & s2 & Hr' & Hs2 & Ht2).
  exists r', s2. split_and!; [|done|congruence]. by erewrite bind_ok.
Qed.

Lemma safe_alloc s size tgid name : state_ok s -> safe (mb_do_alloc size tgid name) s.
Proof.
  intros Hs. destruct name as [name|]; [|by apply safe_ret].
  destruct (decide (pages_of size = 0)) as [|Hz]; [by eexists _, _; split; [by apply do_alloc_zero|]|].
  pose proof (pages_of_bound size). pose proof (bump_ok s Hs) as Hb.
  destruct (slab_ready s) eqn:Er; [destruct (decide (max_available_pages (wmt_mbah s) < pages_of size)) as [|Hle]|].
  - eexists _, _. split; [by apply do_alloc_refused; right|]. by case_match.
  - destruct (do_alloc_ok s size tgid name Hs Er ltac:(lia)) as (l1 & a & l2 & b1 & b2 & _ & Hr & Ho).
    unfold safe. rewrite Hr. destruct (slab_ready (bump s)); [by eauto 10|].
    eexists _, _. split; [done|]. split; [by apply bump_ok|done].
  - eexists _, _. split; [by apply do_alloc_refused; left|]. by case_match.
Qed.

Lemma safe_free s addr tgid name : state_ok s -> safe (mb_do_free addr tgid name) s.
Proof.
  intros Hs. destruct (do_free_run s addr tgid name Hs) as [Hr|(p & u & Hp & _ & Hu & _ & Hr)].
  - by eexists _, _.
  - eexists _, _. split; [done|]. split; [|done]. apply host_minus_ok; [done..|by left].
Qed.

Lemma safe_get s addr tgid name : state_ok s -> safe (mb_do_get addr tgid name) s.
Proof.
  intros Hs. destruct (do_get_run s addr tgid name Hs) as (rc & s' & Hr & Hs' & Hc).
  exists rc, s'. split_and!; [done..|].
  by destruct Hc as [[_ [->| ->]]|(p & nm & _ & _ & _ & ->)].
Qed.

Lemma safe_leave s addr tgid st :
  state_ok s -> flag st MBUFIND_ALL = false -> flag st MBUFIND_CREATOR = false ->
  flag st MBUFIND_USER || flag st MBUFIND_GETPUT && negb (flag st MBUFIND_MMAP) = true ->
  safe (put_mbu (mb_find_mbu (wmt_mbah s) addr tgid st)) s.
Proof.
  intros Hs F1 F2 F3. destruct (put_mbu_run s addr tgid st Hs F1 F2 F3) as [Hr|(p & u & Hp & Hu & Hl & Hr)].
  - by eexists _, _.
  - eexists _, _. split; [done|]. split; [|done]. by apply host_minus_ok.
Qed.

(** A user of the task found in a search is taken off. *)
Lemma safe_drop s addr tgid a m u :
  state_ok s -> mb_find_mbu (wmt_mbah s) addr tgid (Z.lor MBUFIND_USER MBUFIND_MMAP) = Some (a, m, u) ->
  safe (drop_user a m u (mb_creator m)) s.
Proof.
  intros Hs E. apply found_other in E as (p & Hp & <- & <- & Hu & Hl & _); [|done..].
  destruct (drop_run s p u _ Hs Hp Hu Hl) as (Hr & Hs' & _). by eexists _, _.
Qed.

Lemma safe_slab {B} (k : option nat -> D B) s :
  state_ok s -> (slab_ready s = true -> safe (k (Some (next_id s))) (bump s)) ->
  safe (k None) (bump s) -> safe (mbind k kmem_cache_alloc) s.
Proof.
  intros Hs H1 H2. assert (forall r, safe (k r) (bump s) -> kmem_cache_alloc s = Ok (r, bump s) ->
    safe (mbind k kmem_cache_alloc) s) as Hk.
  { intros r (x & s' & Hx & Hs' & Ht) Hr. exists x, s'. split_and!; [|done|done].
    by erewrite bind_ok. }
  pose proof (slab_run s) as Hr. destruct (slab_ready s); [by apply (Hk _ (H1 eq_refl))|by apply (Hk _ H2)].
Qed.

Lemma safe_gets {A B} (f : mbs -> A) (k : A -> D B) s : safe (k (f s)) s -> safe (mbind k (gets f)) s.
Proof. done. Qed.

(** Searches give blocks of the host. *)
Lemma find_mb_place s addr a m :
  state_ok s -> mb_find_mb (wmt_mbah s) addr MBFIND_PHYS = Some (a, m) ->
  exists p, at_place (wmt_mbah s) p /\ pl_area p = a /\ pl_block p = m /\
    mb_phys m <= addr < mb_phys m + mb_size m.
Proof.
  intros [Hh _] (Ha & Hm & Hi)%(find_mb_in _ _ true); [|done].
  destruct (place_exists _ a m Ha Hm) as (p & H1 & H2 & H3). by exists p.
Qed.

Lemma safe_add s p u :
  state_ok s -> at_place (wmt_mbah s) p -> mbu_id u = next_id s ->
  safe (add_user (pl_area p) (pl_block p) u) (bump s).
Proof. intros Hs Hp Hu. destruct (add_run s p u Hs Hp Hu) as [Hr Hs']. by eexists _, _. Qed.

Lemma safe_get_by_phys s value tgid name : state_ok s -> safe (ioctl_get_by_phys value tgid name) s.
Proof.
  intros Hs. pose proof (bump_ok s Hs) as Hb. unfold ioctl_get_by_phys.
  destruct (_ || _); [by apply safe_ret|].
  apply safe_slab; [done| |by apply safe_ret]. intros _. apply safe_gets.
  change (wmt_mbah (bump s)) with (wmt_mbah s).
  destruct (mb_find_mb _ _ _) as [[a m]|] eqn:E; [|by apply safe_ret].
  destruct (find_mb_place s value a m Hs E) as (p & Hp & <- & <- & _).
  apply safe_bind; [by apply safe_add|]. intros. by apply safe_ret.
Qed.

Lemma safe_ioctl_free s value tgid name : state_ok s -> safe (ioctl_free value tgid name) s.
Proof.
  intros Hs. unfold ioctl_free. apply safe_gets. apply safe_bind.
  - destruct (mb_find_mbu _ _ _ _) as [[[a m] u]|] eqn:E; [|by apply safe_ret].
    apply safe_bind; [by eapply safe_drop|]. intros. by apply safe_ret.
  - intros [v sz] s' Hs' _. apply safe_bind; [by apply safe_free|]. intros. by apply safe_ret.
Qed.

Lemma safe_ioctl_unmap s value tgid : state_ok s -> safe (ioctl_unmap value tgid) s.
Proof.
  intros Hs. unfold ioctl_unmap. apply safe_gets.
  destruct (mb_find_mbu _ _ _ _) as [[[a m] u]|] eqn:E; [|by apply safe_ret].
  apply safe_bind; [by eapply safe_drop|]. intros. by apply safe_ret.
Qed.

(** *** Mappings *)

(** What the memory manager passes to [mmap]. *)
Definition vma_ok (vm_start vm_end vm_pgoff : Z) : Prop :=
  0 <= vm_start < vm_end /\ vm_end < 2 ^ 32 /\ 0 <= vm_pgoff.

Lemma remap_run s : exists r s', io_remap_pfn_range s = Ok (r, s') /\ wmt_mbah s' = wmt_mbah s /\
  next_id s' = next_id s /\ wmt_mbti s' = wmt_mbti s.
Proof. by eexists _, _. Qed.

Lemma same_host_ok s s' : state_ok s -> wmt_mbah s' = wmt_mbah s -> next_id s' = next_id s -> state_ok s'.
Proof. unfold state_ok. by intros Hs -> ->. Qed.

Lemma safe_mmap_io s vm_start vm_end vm_pgoff :
  state_ok s -> vma_ok vm_start vm_end vm_pgoff -> vm_pgoff <= tot_static_pages (wmt_mbah s) ->
  safe (mmap_io vm_start vm_end vm_pgoff (wmt_mbah s)) s.
Proof.
  intros Hs (Hv & He & Ho) Hst. unfold mmap_io.
  destruct (_ <? _) eqn:E; [by apply safe_ret|].
  destruct (mba_list (wmt_mbah s)) as [|a l] eqn:El.
  - exfalso. apply Z.ltb_ge in E. rewrite (ok_static _ (proj1 Hs)), El in *. simpl in *.
    assert (vm_pgoff = 0) as -> by lia. rewrite Z.shiftl_0_l in E. change (u32 0) with 0 in E.
    rewrite u32_small in E by lia. lia.
  - apply safe_bind; [by apply safe_ret|]. intros a' s1 Hs1 Ht1.
    destruct (remap_run s1) as (r & s' & Hr & H1 & H2 & H3).
    apply safe_bind; [exists r, s'; split_and!; [done| |done]; by eapply same_host_ok|].
    intros. by apply safe_ret.
Qed.

(** A mapping by address: refused, or inside the block that is found, which gets
    one more user. *)
Lemma mmap_run s tgid name vm_start vm_end vm_pgoff :
  state_ok s -> vma_ok vm_start vm_end vm_pgoff -> tot_static_pages (wmt_mbah s) < vm_pgoff ->
  let off := u32 (Z.shiftl vm_pgoff PAGE_SHIFT) in
  let size := vm_end - vm_start in
  exists rc r s', mb_mmap (Some tgid) name vm_start vm_end vm_pgoff s = Ok ((rc, r), s') /\
    state_ok s' /\ wmt_mbti s' = wmt_mbti s /\
    (rc <> 0 /\ r = None /\ wmt_mbah s' = wmt_mbah s \/
     exists p, rc = 0 /\ r = Some (Z.shiftl vm_pgoff PAGE_SHIFT, size) /\ at_place (wmt_mbah s) p /\
       mb_phys (pl_block p) <= off < mb_phys (pl_block p) + mb_size (pl_block p) /\
       u32 (size + off) <= mb_phys (pl_block p) + mb_size (pl_block p) /\
       wmt_mbah s' = set_at (wmt_mbah s) p (plus_user (MkMbu (next_id s) tgid vm_start size (user_name name))
                       (mb_creator (pl_block p)) (pl_block p))).
Proof.
  intros Hs (Hv & He & Ho) Hst off size. pose proof (bump_ok s Hs) as Hb. unfold mb_mmap. fold off.
  erewrite bind_ok by done. cbv beta. destruct (Z.leb_spec vm_pgoff (tot_static_pages (wmt_mbah s))); [lia|].
  erewrite bind_ok by apply slab_run. destruct (slab_ready s); [|by eauto 10].
  destruct (mb_find_mb _ _ _) as [[a m]|] eqn:E; [|by eauto 10].
  destruct (find_mb_place s off a m Hs E) as (p & Hp & <- & <- & Hi1 & Hi2).
  fold size. destruct (Z.ltb_spec (PAGE_ALIGN (mb_phys (pl_block p) + mb_size (pl_block p))) (u32 (size + off)))
    as [|Hle]; [by eauto 10|].
  destruct (remap_run (bump s)) as (r & s1 & Hr & H1 & H2 & H3). erewrite bind_ok by exact Hr. cbv beta.
  destruct r; cbn [negb].
  2: { exists (- EAGAIN), None, s1. split_and!; [done|by eapply same_host_ok|done|by left]. }
  rewrite usub_small by (unfold size in *; lia). fold size.
  destruct (add_run_later s s1 p (MkMbu (next_id s) tgid vm_start size (user_name name)) Hs Hp)
    as [Ha Hs']; [done..|].
  erewrite bind_ok by exact Ha. eexists _, _, _. split; [done|]. split_and!; [done..|]. right.
  exists p. split_and!; try done. etransitivity; [exact Hle|].
  destruct (elem_place _ _ Hp) as [Hae Hme].
  pose proof (block_bounds _ _ _ (proj1 Hs) Hae Hme) as B. destruct (block_place _ _ (proj1 Hs) Hp) as (W1 & W2 & _).
  rewrite page_align, W1, W2. rewrite <- Z.mul_add_distr_r.
  unfold blk_pages in *. replace (mb_pfn_start (pl_block p) + (mb_pfn_end (pl_block p) - mb_pfn_start (pl_block p)))
    with (mb_pfn_end (pl_block p)) by lia.
  rewrite W1, W2 in B. pose proof (wf_limit _ (area_place _ _ (proj1 Hs) Hp)).
  rewrite u32_small by lia. dlia.
Qed.

(** *** The forced reset *)

Definition blocks_of (h : mba_host_struct) : list mb_struct := a ← mba_list h; mb_list a.

Lemma blocks_of_put h p bl :
  at_place h p ->
  exists B1 B2, blocks_of h = B1 ++ (pl_left p ++ pl_block p :: pl_right p) ++ B2 /\
    blocks_of (put_at h p bl) = B1 ++ bl ++ B2.
Proof.
  intros [Hl Hb]. exists (a ← pl_before p; mb_list a), (a ← pl_after p; mb_list a).
  unfold blocks_of. rewrite Hl, <- Hb. cbn [mba_list put_at put_blocks host_with].
  by rewrite !bind_app, !bind_cons.
Qed.

Lemma users_of_del h p : at_place h p -> mbu_list (pl_block p) = [] -> users_of (del_at h p) = users_of h.
Proof.
  intros Hp Hm. destruct (users_of_put h p (pl_left p ++ pl_right p) Hp) as (U1 & U2 & H1 & H2).
  unfold del_at. rewrite H1, H2, (proj2 Hp), !bind_app, bind_cons, Hm. done.
Qed.

Lemma no_users m : users_ok m -> mbu_list m = [] -> with_users 0 None [] m = m.
Proof.
  intros (Hc & _ & Hcr) Hm. rewrite Hm in *. destruct (mb_creator m) as [c|] eqn:E.
  - destruct (Hcr c eq_refl) as (u & Hu & _). by apply elem_of_nil in Hu.
  - destruct m. simpl in *. by subst.
Qed.

Lemma reset_body_run s :
  state_ok s ->
  (blocks_of (wmt_mbah s) = [] /\ reset_body tt s = Ok (inr tt, s)) \/
  exists p, at_place (wmt_mbah s) p /\
    reset_body tt s = match mbu_list (pl_block p) with
                      | [] => Ok (inl tt, set_host (del_at (wmt_mbah s) p) s)
                      | _ => Fault Undefined
                      end.
Proof.
  intros [Hh Hk]. unfold reset_body. erewrite bind_ok by done. cbv beta.
  destruct (find_map _ _) as [[a m]|] eqn:E.
  - right. apply find_map_in in E as (a' & Ha & E). apply find_map_in in E as (m' & Hm & E).
    injection E as -> ->. destruct (place_exists _ a m Ha Hm) as (p & Hp & <- & <-). exists p.
    split; [done|]. destruct (mbu_list (pl_block p)) as [|u us] eqn:Em; [|done].
    destruct (block_place _ _ Hh Hp) as (_ & _ & _ & Hu). rewrite no_users by done.
    erewrite bind_ok by (by apply store_run). cbv beta.
    assert (set_at (wmt_mbah s) p (pl_block p) = wmt_mbah s) as Hsa.
    { unfold set_at, put_at. rewrite <- (proj2 Hp). by apply put_blocks_id, Hp. }
    rewrite Hsa. erewrite upd_blocks by done. rewrite <- (proj2 Hp).
    rewrite area_with_id by (by eapply area_place).
    erewrite bind_ok; [done|]. destruct s. apply free_run; [done..|]. rewrite (proj1 Hu), Em. done.
  - left. split; [|done]. rewrite find_map_none in E. destruct (blocks_of (wmt_mbah s)) as [|m l] eqn:Eb; [done|].
    assert (m ∈ blocks_of (wmt_mbah s)) as Hm by (rewrite Eb; by left).
    apply list_elem_of_bind in Hm as (a & Hm & Ha). specialize (E a Ha). cbv beta in E.
    rewrite find_map_none in E. by specialize (E m Hm).
Qed.

Lemma reset_loop_run n s :
  state_ok s -> (total_blocks (wmt_mbah s) < n)%nat ->
  if decide (users_of (wmt_mbah s) = []) then
    exists h', loop n reset_body tt s = Ok (tt, set_host h' s) /\ state_ok (set_host h' s) /\ blocks_of h' = []
  else loop n reset_body tt s = Fault Undefined.
Proof.
  revert s. induction n as [|n IH]; intros s Hs Hn; [lia|].
  destruct (reset_body_run s Hs) as [[Hb Hr]|(p & Hp & Hr)].
  - rewrite decide_True.
    + exists (wmt_mbah s). erewrite loop_exit by exact Hr. by destruct s.
    + destruct (users_of (wmt_mbah s)) as [|u l] eqn:E; [done|].
      assert (u ∈ users_of (wmt_mbah s)) as Hu by (rewrite E; by left).
      apply list_elem_of_bind in Hu as (a & Hu & Ha). apply list_elem_of_bind in Hu as (m & Hu & Hm).
      assert (m ∈ blocks_of (wmt_mbah s)) as Hx by (apply list_elem_of_bind; by exists a).
      rewrite Hb in Hx. by apply elem_of_nil in Hx.
  - destruct (mbu_list (pl_block p)) as [|u us] eqn:Em.
    + specialize (IH (set_host (del_at (wmt_mbah s) p) s)). erewrite loop_next by exact Hr.
      cbn [wmt_mbah set_host] in IH. rewrite (users_of_del _ _ Hp Em) in IH. apply IH.
      * destruct Hs. split; [by apply del_at_ok|by apply del_at_ids].
      * destruct (blocks_of_put (wmt_mbah s) p (pl_left p ++ pl_right p) Hp) as (B1 & B2 & H1 & H2).
        change (length (blocks_of (del_at (wmt_mbah s) p)) < n)%nat.
        change (length (blocks_of (wmt_mbah s)) < S n)%nat in Hn. unfold del_at. rewrite H2.
        rewrite H1 in Hn. rewrite !length_app in *. simpl in *. lia.
    + rewrite decide_False.
      * by erewrite loop_fault by exact Hr.
      * intros E. assert (u ∈ users_of (wmt_mbah s)) as Hu.
        { destruct (elem_place _ _ Hp) as [Ha Hm]. apply list_elem_of_bind. exists (pl_area p).
          split; [|done]. apply list_elem_of_bind. exists (pl_block p). rewrite Em. split; [by left|done]. }
        rewrite E in Hu. by apply elem_of_nil in Hu.
Qed.

(** [MBIO_FORCE_RESET] follows a deleted list entry as soon as any block has
    a user: its innermost loop takes the entry under its cursor off the list.
    Without users it recycles all blocks. *)
Theorem force_reset_needs_no_users s tgid name value :
  state_ok s ->
  if decide (users_of (wmt_mbah s) = []) then
    exists s', mb_ioctl (Some tgid) name MBIO_FORCE_RESET value s = Ok ((0, []), s') /\ state_ok s' /\
      blocks_of (wmt_mbah s') = []
  else mb_ioctl (Some tgid) name MBIO_FORCE_RESET value s = Fault Undefined.
Proof.
  intros Hs. change (mb_ioctl (Some tgid) name MBIO_FORCE_RESET value s) with (ioctl_force_reset s).
  unfold ioctl_force_reset. erewrite bind_ok by done. cbv beta.
  pose proof (reset_loop_run (S (total_blocks (wmt_mbah s))) s Hs ltac:(lia)) as Hl.
  destruct (decide _).
  - destruct Hl as (h' & Hl & Hs' & Hb). eexists. erewrite bind_ok by exact Hl. cbv beta.
    erewrite bind_ok by (apply update_run, Hs'). done.
  - by erewrite bind_fault by exact Hl.
Qed.

Lemma safe_reset s : state_ok s -> users_of (wmt_mbah s) = [] -> safe ioctl_force_reset s.
Proof.
  intros Hs Hu. unfold ioctl_force_reset. apply safe_gets.
  pose proof (reset_loop_run (S (total_blocks (wmt_mbah s))) s Hs ltac:(lia)) as Hl.
  rewrite decide_True in Hl by done. destruct Hl as (h' & Hl & Hs' & _).
  apply safe_bind; [by eexists _, _|]. intros r s1 Hs1 _.
  apply safe_bind; [|intros; by apply safe_ret]. exists tt, s1. split; [by apply update_run, Hs1|done].
Qed.

(** ** The tasks *)

Definition tasks_ok (t : list mb_task_info) : Prop :=
  NoDup (ti_tgid <$> t) /\ Forall (fun x => 0 < ti_count x) t.

Lemma first_split {A} (q : A -> bool) (f : A -> A) l x :
  find_map (fun y => if q y then Some y else None) l = Some x ->
  exists l1 l2, l = l1 ++ x :: l2 /\ q x = true /\ upd_first q f l = l1 ++ f x :: l2 /\
    del_first q l = l1 ++ l2.
Proof.
  induction l as [|y l IH]; simpl; [done|]. destruct (q y) eqn:E.
  - intros [= ->]. by exists [], l.
  - intros (l1 & l2 & -> & H1 & H2 & H3)%IH. exists (y :: l1), l2.
    split_and!; [done|done|by rewrite H2|by rewrite H3].
Qed.

Lemma tasks_ok_replace t1 x y t2 :
  tasks_ok (t1 ++ x :: t2) -> ti_tgid y = ti_tgid x -> 0 < ti_count y -> tasks_ok (t1 ++ y :: t2).
Proof.
  intros [Hn [F1 [_ F2]%Forall_cons]%Forall_app] Ht Hc. split.
  - rewrite !fmap_app, !fmap_cons in *. by rewrite Ht.
  - apply Forall_app. split; [done|]. by apply Forall_cons.
Qed.

Lemma tasks_ok_remove t1 x t2 : tasks_ok (t1 ++ x :: t2) -> tasks_ok (t1 ++ t2).
Proof.
  intros [Hn [F1 [_ F2]%Forall_cons]%Forall_app]. split; [|by apply Forall_app].
  rewrite !fmap_app, fmap_cons in *. apply NoDup_app in Hn as (H1 & H2 & [_ H3]%NoDup_cons).
  apply NoDup_app. split_and!; [done| |done]. intros y Hy Hy'. apply (H2 y Hy). by right.
Qed.

Definition driver_ok (s : mbs) : Prop := state_ok s /\ tasks_ok (wmt_mbti s).

Lemma open_ok s private_data tgid :
  driver_ok s -> exists rc s', mb_open private_data tgid s = Ok (rc, s') /\ driver_ok s'.
Proof.
  intros [Hs Ht]. unfold mb_open. destruct private_data; [by eexists _, _|].
  erewrite bind_ok by done. cbv beta. destruct (existsb (of_task tgid) (wmt_mbti s)) eqn:E.
  - erewrite bind_ok by done. eexists _, _. split; [done|]. split; [done|].
    destruct (find_map (fun y => if of_task tgid y then Some y else None) (wmt_mbti s)) as [x|] eqn:Ef.
    + destruct (first_split _ (fun x => MkMbti (ti_tgid x) (ti_count x + 1)) _ _ Ef)
        as (l1 & l2 & Hl & Hq & Hu & _).
      cbn [wmt_mbti set_tasks]. rewrite Hu. rewrite Hl in Ht.
      pose proof Ht as [_ [_ [Hc _]%Forall_cons]%Forall_app].
      eapply tasks_ok_replace; [done|done|simpl; lia].
    + exfalso. rewrite find_map_none in Ef. apply existsb_exists in E as (x & Hx%list_elem_of_In & Hq).
      specialize (Ef x Hx). cbv beta in Ef. by rewrite Hq in Ef.
  - erewrite bind_ok by apply slab_run. pose proof (bump_ok s Hs).
    destruct (slab_ready s); [|by eexists _, _]. erewrite bind_ok by done.
    eexists _, _. split; [done|]. split; [done|]. destruct Ht as [Hn Hf]. split.
    + cbn [wmt_mbti set_tasks bump]. rewrite fmap_app. apply NoDup_app. split_and!; [done| |apply NoDup_singleton].
      intros t (x & -> & Hx)%list_elem_of_fmap Hi%list_elem_of_singleton.
      assert (existsb (of_task tgid) (wmt_mbti s) = true) as Ex; [|congruence].
      apply existsb_exists. exists x. split; [by apply list_elem_of_In|]. by apply Z.eqb_eq.
    + cbn [wmt_mbti set_tasks bump]. apply Forall_app. split; [done|]. by apply Forall_singleton.
Qed.

Lemma release_ok s priv :
  driver_ok s -> exists rc s', mb_release priv s = Ok (rc, s') /\ driver_ok s'.
Proof.
  intros [Hs Ht]. unfold mb_release. destruct priv as [tgid|]; [|by eexists _, _].
  erewrite bind_ok by done. cbv beta.
  destruct (find_map _ _) as [x|] eqn:Ef; [|by eexists _, _].
  destruct (first_split _ (fun x => MkMbti (ti_tgid x) (ti_count x - 1)) _ _ Ef)
    as (l1 & l2 & Hl & Hq & Hu & Hd).
  erewrite bind_ok by done. cbv beta. set (t := upd_first _ _ _) in *.
  pose proof Ht as Ht'. rewrite Hl in Ht'. pose proof Ht' as [_ [_ [Hc _]%Forall_cons]%Forall_app].
  destruct (Z.eqb_spec (ti_count x - 1) 0) as [E|E]; cbn [negb].
  - assert (state_ok (set_tasks t s)) as Hst by done. erewrite bind_ok by done. cbv beta.
    destruct (release_loop_run (S (total_users (wmt_mbah (set_tasks t s)))) _ tgid Hst ltac:(lia))
      as (h' & Hlp & Hs' & _ & _).
    erewrite bind_ok by exact Hlp. cbv beta. erewrite bind_ok by (apply update_run, Hs'). cbv beta.
    eexists _, _. split; [reflexivity|]. split; [exact Hs'|].
    change (tasks_ok (del_first (of_task tgid) t)). unfold t. rewrite del_upd_first by done.
    rewrite Hd. by eapply tasks_ok_remove.
  - eexists _, _. split; [done|]. split; [done|]. cbn [wmt_mbti set_tasks]. rewrite Hu.
    eapply tasks_ok_replace; [done|done|simpl; lia].
Qed.

(** ** All the calls *)

Inductive mb_call :=
| Call_alloc (size tgid : Z) (name : option (list Z))
| Call_free (addr tgid : Z) (name : option (list Z))
| Call_get (addr tgid : Z) (name : option (list Z))
| Call_put (addr tgid : Z) (name : option (list Z))
| Call_open (private_data : bool) (tgid : Z)
| Call_release (priv : option Z)
| Call_ioctl (priv : option Z) (name : list Z) (cmd : mb_cmd) (value : Z)
| Call_mmap (priv : option Z) (name : list Z) (vm_start vm_end vm_pgoff : Z).

Definition run_call (c : mb_call) : D Z :=
  match c with
  | Call_alloc size tgid name => mb_do_alloc size tgid name
  | Call_free addr tgid name => mb_do_free addr tgid name
  | Call_get addr tgid name => mb_do_get addr tgid name
  | Call_put addr tgid name => mb_do_put addr tgid name
  | Call_open private_data tgid => mb_open private_data tgid
  | Call_release priv => mb_release priv
  | Call_ioctl priv name cmd value => r ← mb_ioctl priv name cmd value; mret r.1
  | Call_mmap priv name vm_start vm_end vm_pgoff =>
      r ← mb_mmap priv name vm_start vm_end vm_pgoff; mret r.1
  end.

(** The memory manager passes proper areas; the reset is not used while a block
    has a user. *)
Definition call_ok (c : mb_call) (h : mba_host_struct) : Prop :=
  match c with
  | Call_ioctl _ _ MBIO_FORCE_RESET _ => users_of h = []
  | Call_mmap _ _ vm_start vm_end vm_pgoff => vma_ok vm_start vm_end vm_pgoff
  | _ => True
  end.

Lemma safe_driver {A} (c : D A) s :
  driver_ok s -> safe c s -> exists r s', c s = Ok (r, s') /\ driver_ok s'.
Proof. intros [_ Ht] (r & s' & Hr & Hs' & Hti). exists r, s'. split; [done|]. split; [done|by rewrite Hti]. Qed.

Lemma safe_ioctl s priv name cmd value :
  state_ok s -> call_ok (Call_ioctl priv name cmd value) (wmt_mbah s) -> safe (mb_ioctl priv name cmd value) s.
Proof.
  intros Hs Hc. unfold mb_ioctl. destruct priv as [tgid|]; [|by destruct cmd; apply safe_ret].
  destruct cmd; try (by apply safe_ret); apply safe_gets; try (by apply safe_ret).
  - apply safe_bind; [by apply safe_alloc|]. intros. by apply safe_ret.
  - by apply safe_ioctl_free.
  - by apply safe_ioctl_unmap.
  - apply safe_bind; [by apply safe_get|]. intros. by apply safe_ret.
  - unfold mb_do_put. apply safe_bind; [|intros; by apply safe_ret].
    destruct (_ || bool_decide _); [by apply safe_ret|].
    apply safe_gets. apply safe_leave; [done|by case_match..].
  - by apply safe_reset.
  - by apply safe_get_by_phys.
  - unfold ioctl_put_by_phys. destruct (_ || _); [by apply safe_ret|]. apply safe_gets.
    apply safe_bind; [by apply safe_leave|]. intros. by apply safe_ret.
Qed.

Lemma safe_mmap s priv name vm_start vm_end vm_pgoff :
  state_ok s -> vma_ok vm_start vm_end vm_pgoff -> safe (mb_mmap priv name vm_start vm_end vm_pgoff) s.
Proof.
  intros Hs Hv. destruct priv as [tgid|]; [|by apply safe_ret].
  destruct (decide (vm_pgoff <= tot_static_pages (wmt_mbah s))) as [Hle|Hgt].
  - unfold mb_mmap. apply safe_gets. destruct (Z.leb_spec vm_pgoff (tot_static_pages (wmt_mbah s))); [|lia].
    by apply safe_mmap_io.
  - destruct (mmap_run s tgid name vm_start vm_end vm_pgoff Hs Hv ltac:(lia)) as (rc & r & s' & Hr & Hs' & Ht & _).
    by exists (rc, r), s'.
Qed.

Lemma run_call_ok c s :
  driver_ok s -> call_ok c (wmt_mbah s) -> exists rc s', run_call c s = Ok (rc, s') /\ driver_ok s'.
Proof.
  intros Hd Hc. pose proof (proj1 Hd) as Hs. destruct c; cbn [run_call].
  - apply safe_driver; [done|]. by apply safe_alloc.
  - apply safe_driver; [done|]. by apply safe_free.
  - apply safe_driver; [done|]. by apply safe_get.
  - apply safe_driver; [done|]. unfold mb_do_put. destruct (_ || bool_decide _); [by apply safe_ret|].
    apply safe_gets. apply safe_leave; [done|by case_match..].
  - by apply open_ok.
  - by apply release_ok.
  - apply safe_driver; [done|]. apply safe_bind; [by apply safe_ioctl|]. intros. by apply safe_ret.
  - apply safe_driver; [done|]. apply safe_bind; [by apply safe_mmap|]. intros. by apply safe_ret.
Qed.

(** ** Start-up *)

Definition empty_host : mba_host_struct := MkHost [] 0 0 0 0 0.

(** The area that is set up: [pages] pages below the end of the memory, rounded
    up to a power of two. *)
Definition static_area (id : nat) (np virt pages : Z) : mb_area_struct :=
  let start := 2 ^ Z.log2_up np - pages in
  MkMba id MBAFLAG_STATIC MB_DEF_TGID (start * 4096) virt pages start (2 ^ Z.log2_up np) 0 pages pages [].
Definition static_host (a : mb_area_struct) : mba_host_struct :=
  MkHost [a] 1 (mba_pages a) (mba_pages a) (mba_pages a) (mba_pages a).

(** The sizes that fit: fewer pages than the memory has, below the last
    representable frame, and a mapping that does not wrap around. *)
Definition fits (np virt pages : Z) : Prop :=
  0 < np /\ 2 ^ Z.log2_up np < 2 ^ 20 /\ 0 < pages < 2 ^ Z.log2_up np /\
  0 < virt /\ virt + pages * 4096 < 2 ^ 32.

Lemma get_order_run np : 0 < np < 2 ^ 20 -> get_order (u32 (Z.shiftl np PAGE_SHIFT)) = Z.log2_up np.
Proof.
  intros Hn. unfold get_order. rewrite shl12. rewrite (u32_small (np * 4096)) by lia.
  rewrite u32_small by lia. change (PAGE_SHIFT - 1) with 11. rewrite Z.shiftr_div_pow2 by lia.
  replace ((np * 4096 - 1) / 2 ^ 11) with (2 * (np - 1) + 1) by dlia.
  destruct (decide (np = 1)) as [->|]; [done|]. rewrite Z.log2_succ_double by lia.
  rewrite Z.log2_up_eqn by lia. by rewrite Z.sub_1_r.
Qed.

Lemma log2_up_bound np : 0 < np -> 2 ^ Z.log2_up np < 2 ^ 20 -> np < 2 ^ 20.
Proof.
  intros Hn Hb. destruct (decide (np = 1)) as [->|]; [lia|].
  pose proof (Z.log2_up_spec np ltac:(lia)). lia.
Qed.

Lemma static_ok id np virt pages :
  fits np virt pages -> host_ok (static_host (static_area id np virt pages)).
Proof.
  intros (Hn & Hl & Hp & Hv & Hw). split; cbn [mba_list static_host static_area].
  - apply Forall_singleton. split; cbn; try done; lia || apply NoDup_nil_2 || (by apply Forall_nil).
  - apply NoDup_singleton.
  - by intros a b ->%list_elem_of_singleton ->%list_elem_of_singleton.
  - cbn. lia.
  - done.
  - cbn. lia.
  - cbn. lia.
  - unfold areas_max. cbn. lia.
Qed.

(** One failed try changes nothing but the answers still to come. *)
Definition retried (s : mbs) : mbs :=
  MkMbs (wmt_mbah s) (wmt_mbti s) (S (next_id s)) (tail (slab s)) (tail (regions s)) (remaps s)
    (num_physpages s).

Section Probe.
Context (pages : Z) (Hp : 0 < pages < 2 ^ 20).

Lemma alloc_mba_run s :
  slab s = [] -> 0 < num_physpages s < 2 ^ 20 ->
  pages < 2 ^ Z.log2_up (num_physpages s) < 2 ^ 20 -> wmt_mbah s = empty_host ->
  mb_alloc_mba pages s =
  match regions s with
  | Some virt :: _ =>
      let start := 2 ^ Z.log2_up (num_physpages s) - pages in
      let a := MkMba (next_id s) 0 0 (start * 4096) virt pages start
                 (2 ^ Z.log2_up (num_physpages s)) 0 pages pages [] in
      Ok (Some a, set_host (MkHost [a] 1 pages 0 pages pages) (retried s))
  | _ => Ok (None, retried s)
  end.
Proof.
  intros Hs Hn Hl Hw. unfold mb_alloc_mba. destruct (Z.eqb_spec pages 0); [lia|].
  erewrite bind_ok by apply slab_run. unfold slab_ready. rewrite Hs.
  unfold mb_alloc_pages. destruct (Z.eqb_spec pages 0); [lia|].
  unfold mbind, M_bind, gets, map_region, modify, mret, M_ret.
  cbn [num_physpages bump regions]. rewrite get_order_run by done.
  destruct (regions s) as [|[virt|] rs] eqn:Er; [unfold retried, bump; by rewrite Er, ?Hs| |unfold retried, bump; by rewrite Er, ?Hs].
  cbv zeta. rewrite shl12, Z.shiftl_1_l.
  rewrite (u32_small (_ * 4096)) by lia. rewrite shr12, Z.div_mul by lia.
  rewrite u32_small by lia.
  replace (2 ^ Z.log2_up (num_physpages s) - pages + pages) with (2 ^ Z.log2_up (num_physpages s)) by lia.
  cbn [wmt_mbah bump]. rewrite Hw. cbn. rewrite !u32_small by lia. rewrite Z.max_r by lia.
  unfold retried, set_host. cbn. by rewrite Er.
Qed.

(** A turn of the loop while nothing is reserved yet. *)
Lemma probe_body_run s :
  slab s = [] -> 0 < num_physpages s < 2 ^ 20 ->
  pages < 2 ^ Z.log2_up (num_physpages s) < 2 ^ 20 -> wmt_mbah s = empty_host ->
  probe_body (4 * pages) None s =
  match regions s with
  | Some virt :: _ =>
      let a := static_area (next_id s) (num_physpages s) virt pages in
      Ok (inl (Some a), set_host (static_host a) (retried s))
  | _ => Ok (inl None, retried s)
  end.
Proof.
  intros Hs Hn Hl Hw. unfold probe_body. erewrite bind_ok by done. cbv beta. rewrite Hw.
  cbn [tot_static_pages empty_host]. change (PAGE_KB 0) with 0.
  destruct (Z.ltb_spec 0 (4 * pages)); [|lia].
  replace (4 * pages * 1024 - 0 * PAGE_SIZE) with (pages * 4096) by lia.
  rewrite u32_small by lia. rewrite shr12, Z.div_mul by lia. rewrite s32_small by lia.
  change (Z.shiftl 1 MBA_MAX_ORDER) with (2 ^ 20). rewrite Z.min_l by lia.
  unfold mbind at 1, M_bind at 1. rewrite alloc_mba_run by done.
  destruct (regions s) as [|[virt|] rs]; [done| |done]. cbv zeta.
  unfold mark_static, mbind, M_bind, modify, mret, M_ret. cbv beta iota.
  unfold upd_mba. cbn [wmt_mbah set_host mba_list mba_id fmap list_fmap]. rewrite Nat.eqb_refl.
  cbn. rewrite u32_small by lia. done.
Qed.

Lemma probe_done s a bind :
  wmt_mbah s = static_host a -> mba_pages a = pages -> probe_body (4 * pages) bind s = Ok (inr tt, s).
Proof.
  intros Hw Ha. unfold probe_body. erewrite bind_ok by done. cbv beta. rewrite Hw.
  cbn [tot_static_pages static_host]. rewrite Ha. unfold PAGE_KB.
  change (PAGE_SIZE / 1024) with 4. rewrite (Z.mul_comm pages).
  rewrite u32_small by lia. by destruct (Z.ltb_spec (4 * pages) (4 * pages)); [lia|].
Qed.
End Probe.

(** The state after [k] failed tries. *)
Lemma probe_loop_run k s n pages virt rs :
  slab s = [] -> regions s = replicate k None ++ Some virt :: rs ->
  fits (num_physpages s) virt pages -> wmt_mbah s = empty_host -> (k + 1 < n)%nat ->
  exists s' id, loop n (probe_body (4 * pages)) None s = Ok (tt, s') /\
    wmt_mbah s' = static_host (static_area id (num_physpages s) virt pages) /\
    wmt_mbti s' = wmt_mbti s /\ (id < next_id s')%nat.
Proof.
  revert s n. induction k as [|k IH]; intros s n Hs Hr Hf Hw Hn; pose proof Hf as (F1 & F2 & F3 & F4 & F5).
  all: pose proof (log2_up_bound _ F1 F2).
  - destruct n as [|[|n]]; [lia..|]. simpl in Hr.
    erewrite loop_next by (rewrite probe_body_run by (done || lia); rewrite Hr; reflexivity).
    erewrite loop_exit by (eapply probe_done; [lia|done|done]).
    eexists _, _. split_and!; [done..|]. cbn. lia.
  - destruct n as [|n]; [lia|]. simpl in Hr.
    erewrite loop_next by (rewrite probe_body_run by (done || lia); rewrite Hr; reflexivity).
    destruct (IH (retried s) n) as (s' & id & H1 & H2 & H3 & H4).
    + cbn. by rewrite Hs.
    + cbn. by rewrite Hr.
    + done.
    + done.
    + lia.
    + by exists s', id.
Qed.

(** [C37] Start-up: with a size of whole pages the loop of [mb_probe] ends at the
    first reservation that succeeds, however many failed before; what it leaves
    is one static area of that size right below the end of the memory (rounded
    up to a power of two), all of it free, and a state in which every call is
    safe. *)
Theorem mb_probe_reserves k s tries pages virt rs :
  slab s = [] -> regions s = replicate k None ++ Some virt :: rs -> wmt_mbti s = [] ->
  fits (num_physpages s) virt pages -> wmt_mbah s = empty_host -> (k + 1 < tries)%nat ->
  exists s' id, mb_probe tries (4 * pages) s = Ok (0, s') /\ driver_ok s' /\
    wmt_mbah s' = static_host (static_area id (num_physpages s) virt pages).
Proof.
  intros Hs Hr Ht Hf Hw Hn.
  destruct (probe_loop_run k s tries pages virt rs Hs Hr Hf Hw Hn) as (s' & id & Hl & Hh & Hti & Hid).
  assert (state_ok s') as Hs'.
  { split; rewrite Hh; [by apply static_ok|].
    intros a m ->%list_elem_of_singleton Hm. by apply elem_of_nil in Hm. }
  exists s', id. split_and!; [|split; [done|]|done].
  - unfold mb_probe. erewrite bind_ok by exact Hl. cbv beta.
    by erewrite bind_ok by (apply update_run, Hs').
  - rewrite Hti, Ht. split; [apply NoDup_nil_2|by apply Forall_nil].
Qed.

Lemma mb_probe_reserves_witness : exists s' id,
  mb_probe 4 (4 * 16384) (MkMbs empty_host [] 0 [] [None; Some 0xD0000000] [] 131072) = Ok (0, s') /\
  driver_ok s' /\ wmt_mbah s' = static_host (static_area id 131072 0xD0000000 16384).
Proof.
  apply (mb_probe_reserves 1 (MkMbs empty_host [] 0 [] [None; Some 0xD0000000] [] 131072) 4 16384
    0xD0000000 []); [reflexivity..| |reflexivity|lia].
  unfold fits. cbn [num_physpages]. change (Z.log2_up 131072) with 17. lia.
Defined.

(** When no reservation ever succeeds, [mb_probe] never returns: its loop
    has no other way out. *)
Theorem mb_probe_never_gives_up s tries pages :
  0 < pages < 2 ^ Z.log2_up (num_physpages s) -> 0 < num_physpages s ->
  2 ^ Z.log2_up (num_physpages s) < 2 ^ 20 ->
  slab s = [] -> regions s = [] -> wmt_mbah s = empty_host ->
  mb_probe tries (4 * pages) s = Fault Hang.
Proof.
  intros Hp Hn Hl Hs Hr Hw. pose proof (log2_up_bound _ Hn Hl).
  assert (loop tries (probe_body (4 * pages)) None s = Fault Hang) as Hloop.
  { revert s Hp Hn Hl Hs Hr Hw H. induction tries as [|n IH]; intros s Hp Hn Hl Hs Hr Hw Hb; [done|].
    erewrite loop_next by (rewrite probe_body_run by (done || lia); rewrite Hr; reflexivity).
    apply IH; try done; cbn; by rewrite ?Hs, ?Hr. }
  unfold mb_probe. by erewrite bind_fault by exact Hloop.
Qed.

Lemma mb_probe_never_gives_up_witness :
  mb_probe 100 (4 * 16384) (MkMbs empty_host [] 0 [] [] [] 131072) = Fault Hang.
Proof.
  apply (mb_probe_never_gives_up (MkMbs empty_host [] 0 [] [] [] 131072) 100 16384);
    cbn [num_physpages]; try change (Z.log2_up 131072) with 17; (lia || reflexivity).
Defined.

(** ** Any sequence of calls *)

Inductive reachable (s0 : mbs) : mbs -> Prop :=
| reach_start : reachable s0 s0
| reach_call s c rc s' :
    reachable s0 s -> call_ok c (wmt_mbah s) -> run_call c s = Ok (rc, s') -> reachable s0 s'.

Lemma reachable_ok s0 s : driver_ok s0 -> reachable s0 s -> driver_ok s.
Proof.
  intros H0. induction 1 as [|s c rc s' _ IH Hc Hr]; [done|].
  destruct (run_call_ok c s IH Hc) as (rc' & s2 & Hr' & Hs2). rewrite Hr in Hr'. by simplify_eq.
Qed.

(** A board with 512 MB, 64 MB of them for the blocks, for the witnesses. *)
Definition board : mbs :=
  MkMbs (static_host (static_area 0 131072 0xD0000000 16384)) [] 1 [] [] [] 131072.

Lemma board_fits : fits 131072 0xD0000000 16384.
Proof. unfold fits. change (Z.log2_up 131072) with 17. lia. Qed.

Lemma board_ok : driver_ok board.
Proof.
  split; [split|].
  - apply static_ok, board_fits.
  - intros a m ->%list_elem_of_singleton Hm. by apply elem_of_nil in Hm.
  - split; [apply NoDup_nil_2|by apply Forall_nil].
Qed.

(** [C2] Whatever calls came before, and whatever the slab allocator and the
    memory manager answered, the next call of the driver returns (no fault, no
    endless scan) and leaves a consistent state.  [call_ok] excludes two cases,
    before and now: a forced reset while a block has a user, and a mapping with
    an area the memory manager would not pass. *)
Theorem mb_calls_safe s0 s c :
  driver_ok s0 -> reachable s0 s -> call_ok c (wmt_mbah s) ->
  exists rc s', run_call c s = Ok (rc, s') /\ driver_ok s'.
Proof. intros H0 Hr Hc. apply run_call_ok; [by eapply reachable_ok|done]. Qed.

Lemma mb_calls_safe_witness :
  exists rc s', run_call (Call_alloc 10000 7 (Some [65])) board = Ok (rc, s') /\ driver_ok s'.
Proof. apply (mb_calls_safe board); [exact board_ok|apply reach_start|exact I]. Defined.

(** Two intervals that do not meet. *)
Definition disjoint_at (phys : bool) (m1 m2 : mb_struct) : Prop :=
  base phys m1 + mb_size m1 <= base phys m2 \/ base phys m2 + mb_size m2 <= base phys m1.

Lemma blocks_disjoint h phys a1 m1 a2 m2 :
  host_ok h -> a1 ∈ mba_list h -> m1 ∈ mb_list a1 -> a2 ∈ mba_list h -> m2 ∈ mb_list a2 -> m1 <> m2 ->
  disjoint_at phys m1 m2.
Proof.
  intros Hh Ha1 Hm1 Ha2 Hm2 Hne. pose proof (block_bounds h a1 m1 Hh Ha1 Hm1).
  pose proof (block_bounds h a2 m2 Hh Ha2 Hm2). unfold disjoint_at.
  destruct (decide (base phys m1 + mb_size m1 <= base phys m2)); [by left|].
  destruct (decide (base phys m2 + mb_size m2 <= base phys m1)); [by right|]. exfalso. apply Hne.
  destruct (in_block_unique h phys (Z.max (base phys m1) (base phys m2)) a2 m2 a1 m1 Hh); [..|done].
  all: unfold in_block; split_and!; (done || lia).
Qed.

(** [C4] In every state the calls can lead to, two different blocks share no
    address, physical or virtual; each is made of whole pages inside the frames
    of its area; and its count is the number of references that are held. *)
Theorem mb_blocks_apart s0 s a1 m1 a2 m2 :
  driver_ok s0 -> reachable s0 s ->
  a1 ∈ mba_list (wmt_mbah s) -> m1 ∈ mb_list a1 -> a2 ∈ mba_list (wmt_mbah s) -> m2 ∈ mb_list a2 ->
  (m1 <> m2 -> disjoint_at true m1 m2 /\ disjoint_at false m1 m2) /\
  mb_phys m1 = mb_pfn_start m1 * 4096 /\ mb_phys m1 + mb_size m1 = mb_pfn_end m1 * 4096 /\
  mba_pfn_start a1 <= mb_pfn_start m1 /\ mb_pfn_start m1 < mb_pfn_end m1 <= mba_pfn_end a1 /\
  mb_count m1 = Z.of_nat (length (mbu_list m1)).
Proof.
  intros H0 Hr Ha1 Hm1 Ha2 Hm2. destruct (reachable_ok s0 s H0 Hr) as [[Hh _] _].
  destruct (block_wf _ a1 m1 Hh Ha1 Hm1) as (W1 & W2 & _ & Hc & _).
  pose proof (chain_elem _ _ _ _ (wf_chain _ (area_wf _ _ Hh Ha1)) Hm1).
  unfold blk_pages in W1. split; [|split_and!; (done || lia)].
  intros Hne. split; by apply (blocks_disjoint (wmt_mbah s) _ a1 m1 a2 m2).
Qed.


(** Task 7 opens the device and takes three pages. *)
Definition after (c : mb_call) (s : mbs) : mbs :=
  match run_call c s with Ok (_, s') => s' | Fault _ => s end.
Definition opened : mbs := after (Call_open false 7) board.
Definition board2 : mbs := after (Call_alloc 10000 7 (Some [65])) opened.

Lemma reach_after s0 s c :
  driver_ok s0 -> reachable s0 s -> call_ok c (wmt_mbah s) -> reachable s0 (after c s).
Proof.
  intros H0 Hr Hc. destruct (run_call_ok c s) as (rc & s' & Hrun & _); [by eapply reachable_ok|done|].
  unfold after. rewrite Hrun. by eapply reach_call.
Qed.

Lemma board2_reachable : reachable board board2.
Proof. by repeat (apply reach_after; [exact board_ok| |exact I]); apply reach_start. Qed.

Lemma board2_ok : driver_ok board2.
Proof. exact (reachable_ok _ _ board_ok board2_reachable). Qed.

Lemma mb_release_collects_witness : exists s', mb_release (Some 7) board2 = Ok (0, s') /\ state_ok s' /\
  mb_list <$> mba_list (wmt_mbah s') = released 7 (wmt_mbah board2).
Proof.
  destruct (mb_release_collects board2 7 (MkMbti 7 1) (proj1 board2_ok)) as (s' & H1 & H2 & H3 & _);
    [vm_compute; reflexivity|reflexivity|].
  exists s'. split_and!; [exact H1|exact H2|exact H3].
Defined.

Lemma force_reset_needs_no_users_witness :
  mb_ioctl (Some 7) [65] MBIO_FORCE_RESET 0 board2 = Fault Undefined.
Proof.
  pose proof (force_reset_needs_no_users board2 7 [65] 0 (proj1 board2_ok)) as H.
  destruct (decide (users_of (wmt_mbah board2) = [])) as [E|_]; [|exact H].
  vm_compute in E. discriminate E.
Defined.

Lemma mb_blocks_apart_witness : exists a m,
  a ∈ mba_list (wmt_mbah board2) /\ m ∈ mb_list a /\
  mba_pfn_start a <= mb_pfn_start m /\ mb_count m = Z.of_nat (length (mbu_list m)).
Proof.
  exists (hd (static_area 0 1 1 1) (mba_list (wmt_mbah board2))),
    (hd (MkMb 0 0 0 0 0 0 0 None []) (blocks_of (wmt_mbah board2))).
  match goal with |- ?x ∈ _ /\ ?y ∈ _ /\ _ => set (a := x); set (m := y) end.
  assert (a ∈ mba_list (wmt_mbah board2)) as Ha by (vm_compute; left).
  assert (m ∈ mb_list a) as Hm by (vm_compute; left).
  destruct (mb_blocks_apart board board2 a m a m board_ok board2_reachable Ha Hm Ha Hm)
    as (_ & _ & _ & H1 & _ & H2).
  split_and!; [exact Ha|exact Hm|exact H1|exact H2].
Defined.
