(* ===== verification/MemBlockUse.v ===== *)
(** * The memory block driver: what its clients rely on

    Allocation takes the first zone that is large enough and fails only when
    there is none; freeing undoes it; addresses inside blocks translate back and
    forth; a mapping shows one block only, unless its end wraps; and two ways in
    which references can go wrong. *)

From S2P Require Import Prelude MemBlock MemBlockSafe MemBlockCalls.
From stdpp Require Import list.
#[local] Open Scope Z_scope.

(** ** Allocation *)

(** Some free zone has [pages] pages. *)
Definition has_room (h : mba_host_struct) (pages : Z) : Prop :=
  exists a b1 b2, a ∈ mba_list h /\ mb_list a = b1 ++ b2 /\
    pages <= start_of (mba_pfn_end a) b2 - end_of (mba_pfn_start a) b1.

Lemma gap_max_room pages zs hi l :
  chain zs hi l ->
  pages <= gap_max zs hi l <-> exists b1 b2, l = b1 ++ b2 /\ pages <= start_of hi b2 - end_of zs b1.
Proof.
  revert zs. induction l as [|m l IH]; intros zs Hc.
  - simpl. split; [by exists [], []|]. intros (b1 & b2 & [-> ->]%eq_sym%app_nil & Hp). done.
  - destruct Hc as (H1 & H2 & H3). cbn [gap_max]. rewrite Z.max_le_iff, (IH _ H3). split.
    + intros [Hp|(b1 & b2 & -> & Hp)]; [by exists [], (m :: l)|by exists (m :: b1), b2].
    + intros ([|x b1] & b2 & Hl & Hp); simpl in Hl.
      * subst b2. left. done.
      * injection Hl as <- ->. right. by exists b1, b2.
Qed.

Lemma has_room_max h pages :
  host_ok h -> 0 < pages -> has_room h pages <-> pages <= max_available_pages h.
Proof.
  intros Hh Hp. rewrite (ok_max _ Hh). split.
  - intros (a & b1 & b2 & Ha & Hl & Hr). etransitivity; [|by apply areas_max_elem].
    pose proof (area_wf _ _ Hh Ha) as Hw. rewrite (wf_max _ Hw). apply gap_max_room; [apply Hw|].
    by exists b1, b2.
  - intros Hm. destruct (areas_max_reached (mba_list h) pages ltac:(lia)) as (a & Ha & Hle).
    pose proof (area_wf _ _ Hh Ha) as Hw. rewrite (wf_max _ Hw) in Hle.
    apply gap_max_room in Hle as (b1 & b2 & Hl & Hr); [|apply Hw]. by exists a, b1, b2.
Qed.

(** [C7] Allocation is first-fit and complete.  From a well-formed state, if the
    size is not 0 pages, some free zone is large enough and the slab allocator
    delivers the user record and the block record, [mb_do_alloc] answers the start
    of the first such zone of the first area that has one, and the only change is
    the new block there, whose one reference is the caller's.  If the size is 0
    pages, no zone is large enough or either record cannot be allocated, it answers
    0 and no block changes. *)
Theorem mb_do_alloc_first_fit s size tgid name :
  state_ok s ->
  (0 < pages_of size -> has_room (wmt_mbah s) (pages_of size) -> slab_ready s = true -> slab_ready (bump s) = true ->
   exists l1 a l2 b1 b2 s', fit (wmt_mbah s) (pages_of size) l1 a l2 b1 b2 /\
     mb_do_alloc size tgid (Some name) s = Ok (end_of (mba_pfn_start a) b1 * 4096, s') /\
     wmt_mbah s' = put_blocks (wmt_mbah s) l1 a l2
                     (b1 ++ made (next_id s) a b1 (pages_of size) tgid name :: b2)) /\
  (pages_of size = 0 \/ ~ has_room (wmt_mbah s) (pages_of size) \/ slab_ready s = false \/ slab_ready (bump s) = false ->
   exists s', mb_do_alloc size tgid (Some name) s = Ok (0, s') /\ wmt_mbah s' = wmt_mbah s).
Proof.
  intros Hs. pose proof (pages_of_bound size). split.
  - intros Hp Hr H1 H2. apply has_room_max in Hr; [|apply Hs|done].
    destruct (do_alloc_ok s size tgid name Hs H1 ltac:(lia)) as (l1 & a & l2 & b1 & b2 & Hf & Hrun & _).
    rewrite H2 in Hrun. by eexists l1, a, l2, b1, b2, _.
  - intros Hr. destruct (decide (pages_of size = 0)) as [Hz|Hz].
    + exists s. split; [by apply do_alloc_zero|done].
    + destruct (slab_ready s) eqn:H1; [|by eexists; split; [apply do_alloc_refused; by left|by case_match]].
      rewrite has_room_max in Hr; [|apply Hs|lia].
      destruct (Z.ltb_spec (max_available_pages (wmt_mbah s)) (pages_of size)) as [Hlt|Hge].
      * eexists. split; [apply do_alloc_refused; by right|]. by case_match.
      * destruct Hr as [|[|[|H2]]]; [done|lia|done|].
        destruct (do_alloc_ok s size tgid name Hs H1 ltac:(lia)) as (? & ? & ? & ? & ? & _ & Hrun & _).
        rewrite H2 in Hrun. by eexists.
Qed.

Lemma mb_do_alloc_first_fit_witness : exists l1 a l2 b1 b2 s',
  fit (wmt_mbah board2) 1 l1 a l2 b1 b2 /\
  mb_do_alloc 1 9 (Some [66]) board2 = Ok (end_of (mba_pfn_start a) b1 * 4096, s').
Proof.
  assert (has_room (wmt_mbah board2) 1) as Hr.
  { apply has_room_max; [apply board2_ok|lia|vm_compute; discriminate]. }
  destruct (mb_do_alloc_first_fit board2 1 9 [66] (proj1 board2_ok)) as [H _].
  destruct (H ltac:(vm_compute; reflexivity) Hr eq_refl eq_refl) as (l1 & a & l2 & b1 & b2 & s' & H1 & H2 & _).
  exists l1, a, l2, b1, b2, s'. split; [exact H1|exact H2].
Defined.

(** ** Searches that succeed *)

(** The block at an address is the only one. *)
Lemma phys_unique h p a m :
  host_ok h -> at_place h p -> a ∈ mba_list h -> m ∈ mb_list a -> mb_phys m = mb_phys (pl_block p) ->
  a = pl_area p /\ m = pl_block p.
Proof.
  intros Hh Hp Ha Hm He. destruct (elem_place h p Hp) as [Ha' Hm'].
  pose proof (block_bounds h a m Hh Ha Hm). pose proof (block_bounds h _ _ Hh Ha' Hm').
  apply (in_block_unique h true (mb_phys m)); [done|..]; unfold in_block; cbn; split_and!; (done || lia).
Qed.

(** A user of the block, of any kind, leads to its creator. *)
Lemma match_finds_creator addr tgid m u v :
  users_ok m -> mb_creator m = Some (mbu_id u) -> u ∈ mbu_list m ->
  match_mbu addr tgid (Z.lor MBUFIND_PHYS MBUFIND_CREATOR) m v
  = if negb (mbu_tgid v =? tgid) && negb (tgid =? MB_DEF_TGID) then None else Some (Some u).
Proof.
  intros (_ & Hn & _) Hc Hu.
  assert (find_map (fun w => if Nat.eqb (mbu_id w) (mbu_id u) then Some w else None) (mbu_list m) = Some u)
    as Hfu.
  { apply (find_map_unique _ _ u); [done|by rewrite Nat.eqb_refl|]. intros z w Hz Hf.
    destruct (Nat.eqb_spec (mbu_id z) (mbu_id u)); [|done]. injection Hf as <-.
    by apply (nodup_eq mbu_id _ _ (mbu_list m)). }
  unfold match_mbu. rewrite Hc, Hfu. done.
Qed.

Lemma find_creator h p u v tgid :
  host_ok h -> at_place h p -> mb_creator (pl_block p) = Some (mbu_id u) -> u ∈ mbu_list (pl_block p) ->
  v ∈ mbu_list (pl_block p) -> tgid = MB_DEF_TGID \/ mbu_tgid v = tgid ->
  mb_find_mbu h (mb_phys (pl_block p)) tgid (Z.lor MBUFIND_PHYS MBUFIND_CREATOR)
  = Some (pl_area p, pl_block p, u).
Proof.
  intros Hh Hp Hc Hu Hv Ht. destruct (elem_place h p Hp) as [Ha Hm].
  pose proof (block_bounds h _ _ Hh Ha Hm) as B.
  destruct (block_place h p Hh Hp) as (_ & _ & _ & Huk). set (addr := mb_phys (pl_block p)) in *.
  unfold mb_find_mbu. destruct (Z.eqb_spec addr 0); [lia|].
  change (flag (Z.lor MBUFIND_PHYS MBUFIND_CREATOR) MBUFIND_ADDRMASK) with true.
  change (flag (Z.lor MBUFIND_PHYS MBUFIND_CREATOR) (Z.lor MBUFIND_VIRT MBUFIND_PHYS)) with true.
  change (flag (Z.lor MBUFIND_PHYS MBUFIND_CREATOR) MBUFIND_PHYS) with true.
  change (flag (Z.lor MBUFIND_PHYS MBUFIND_CREATOR) MBUFIND_VIRT) with false. cbn [orb negb andb].
  assert (forall x w, match match_mbu addr tgid (Z.lor MBUFIND_PHYS MBUFIND_CREATOR) (pl_block p) x with
            | Some r => Some (pl_area p, pl_block p, r) | None => None end = Some w ->
            w = (pl_area p, pl_block p, Some u)) as Hx.
  { intros x w Hf. rewrite (match_finds_creator _ _ _ u) in Hf by done.
    destruct (_ && _); [done|]. by injection Hf as <-. }
  erewrite (find_map_unique _ (mba_list h) (pl_area p) (pl_area p, pl_block p, Some u)); [done|done| |].
  - rewrite (in_block_area h true addr _ (pl_block p)) by (done || unfold in_block; cbn; split_and!; (done || lia)).
    apply (find_map_unique _ _ (pl_block p)); [done| |].
    + rewrite Z.eqb_refl. cbn [negb]. apply (find_map_unique _ _ v); [done| |].
      * rewrite (match_finds_creator _ _ _ u) by done.
        destruct Ht as [->|Ht]; [by rewrite Z.eqb_refl, andb_false_r|].
        by destruct (Z.eqb_spec (mbu_tgid v) tgid).
      * intros x w _. apply Hx.
    + intros m w Hm' Hf. destruct (Z.eqb_spec addr (mb_phys m)) as [E|]; [|done]. cbn [negb] in Hf.
      destruct (phys_unique h p (pl_area p) m Hh Hp Ha Hm' (eq_sym E)) as [_ ->].
      apply find_map_in in Hf as (x & _ & Hf). by apply Hx in Hf.
  - intros a w Ha' Hf. destruct (out_of_mba _ _ a); [done|]. apply find_map_in in Hf as (m & Hm' & Hf).
    destruct (Z.eqb_spec addr (mb_phys m)) as [E|]; [|done]. cbn [negb] in Hf.
    destruct (phys_unique h p a m Hh Hp Ha' Hm' (eq_sym E)) as [-> ->].
    apply find_map_in in Hf as (x & _ & Hf). by apply Hx in Hf.
Qed.

(** ** Allocation and release *)

(** [C11] Freeing what was allocated gives back the state before, every list and
    every counter of it: allocation followed by [mb_do_free] is the identity on
    the host. *)
Theorem mb_alloc_free_restores s size tgid name name' :
  state_ok s -> slab_ready s = true -> slab_ready (bump s) = true ->
  0 < pages_of size <= max_available_pages (wmt_mbah s) ->
  exists phys s1 s2, mb_do_alloc size tgid (Some name) s = Ok (phys, s1) /\
    phys <> 0 /\ mb_do_counter (wmt_mbah s1) phys = 1 /\
    mb_do_free phys tgid (Some name') s1 = Ok (0, s2) /\ wmt_mbah s2 = wmt_mbah s.
Proof.
  intros Hs H1 H2 Hp.
  destruct (do_alloc_ok s size tgid name Hs H1 Hp) as (l1 & a & l2 & b1 & b2 & Hf & Hrun & Hok).
  rewrite H2 in Hrun. cbv zeta in Hrun. set (m := made _ _ _ _ _ _) in *.
  set (s1 := set_host _ _) in Hrun, Hok.
  set (p := MkPlace l1 (area_with a (b1 ++ m :: b2)) l2 b1 m b2).
  assert (at_place (wmt_mbah s1) p) as Hat by done.
  destruct (elem_place _ _ Hat) as [Hae Hme]. pose proof (block_bounds _ _ _ (proj1 Hok) Hae Hme) as B.
  set (u := made_user (next_id s) tgid (pages_of size) name).
  assert (u ∈ mbu_list m) as Hmu by (change (u ∈ [u]); by left).
  exists (mb_phys m), s1. eexists. split_and!; [exact Hrun|cbn in *; lia| |apply (do_free_at s1 p u)|].
  - unfold mb_do_counter. destruct (Z.eqb_spec (mb_phys m) 0); [cbn in *; lia|].
    rewrite (find_mb_complete _ _ true (pl_area p) m); [done|apply Hok|].
    unfold in_block. split_and!; [done..|cbn; lia|cbn in *; lia].
  - done.
  - done.
  - exact Hmu.
  - apply (find_creator _ p u u); [apply Hok|done|done|exact Hmu..|by right].
  - change (put_blocks (wmt_mbah s) l1 a l2 (b1 ++ b2) = wmt_mbah s).
    rewrite <- (proj1 (fit_zone _ _ _ _ _ _ _ Hf)). apply put_blocks_id; [apply Hs|apply Hf].
Qed.

Lemma mb_alloc_free_restores_witness : exists phys s1 s2,
  mb_do_alloc 5000 9 (Some [66]) board2 = Ok (phys, s1) /\
  mb_do_free phys 9 (Some [67]) s1 = Ok (0, s2) /\ wmt_mbah s2 = wmt_mbah board2.
Proof.
  destruct (mb_alloc_free_restores board2 5000 9 [66] [67] (proj1 board2_ok) eq_refl eq_refl)
    as (phys & s1 & s2 & H1 & _ & _ & H2 & H3); [vm_compute; split; [reflexivity|discriminate]|].
  exists phys, s1, s2. split_and!; [exact H1|exact H2|exact H3].
Defined.

(** The creator's reference can be dropped by any task that has a reference
    of its own, from a [get] or a mapping: the search for [MBUFIND_CREATOR] tests
    the task of the entry it stands on, not the creator's. *)
Theorem free_by_any_holder s p u v tgid name :
  state_ok s -> at_place (wmt_mbah s) p -> mb_creator (pl_block p) = Some (mbu_id u) ->
  u ∈ mbu_list (pl_block p) -> v ∈ mbu_list (pl_block p) -> mbu_tgid v = tgid -> u <> v ->
  exists s' m', mb_do_free (mb_phys (pl_block p)) tgid (Some name) s = Ok (0, s') /\
    m' ∈ blocks_of (wmt_mbah s') /\ same_block (pl_block p) m' /\
    mb_creator m' = None /\ (u ∉ mbu_list m') /\ v ∈ mbu_list m'.
Proof.
  intros Hs Hp Hc Hu Hv Ht Hne. destruct (block_place _ _ (proj1 Hs) Hp) as (_ & _ & _ & Huk).
  eexists _, (minus_user u None (pl_block p)). split_and!.
  - apply (do_free_at s p u); [done..|]. apply (find_creator _ p u v); [apply Hs|done..|by right].
  - cbn [wmt_mbah set_host]. unfold host_minus. destruct (Z.eqb_spec (mb_count (pl_block p)) 1) as [E|E].
    + exfalso. destruct Huk as (Hcount & _). rewrite Hcount in E.
      destruct (mbu_list (pl_block p)) as [|x [|y l]]; simpl in E; [lia| |lia].
      apply list_elem_of_singleton in Hu, Hv. congruence.
    + destruct (blocks_of_put (wmt_mbah s) p
        (pl_left p ++ minus_user u None (pl_block p) :: pl_right p) Hp) as (B1 & B2 & _ & H2).
      unfold set_at. rewrite H2, !elem_of_app, elem_of_cons. tauto.
  - done.
  - done.
  - cbn. unfold del_mbu. rewrite list_elem_of_filter. tauto.
  - cbn. unfold del_mbu. rewrite list_elem_of_filter. split; [|done].
    intros E. apply Hne. destruct Huk as (_ & Hn & _).
    by apply (nodup_eq mbu_id _ _ (mbu_list (pl_block p))).
Qed.

(** Task 8 takes a reference to the block of task 7. *)
Definition board3 : mbs := after (Call_ioctl (Some 8) [66] MBIO_GET_BY_PHYS 0x1C000000) board2.

Lemma board3_reachable : reachable board board3.
Proof. apply reach_after; [exact board_ok|exact board2_reachable|exact I]. Qed.

Lemma board3_ok : driver_ok board3.
Proof. exact (reachable_ok _ _ board_ok board3_reachable). Qed.

Definition area_of (s : mbs) : mb_area_struct := hd (static_area 0 1 1 1) (mba_list (wmt_mbah s)).
Definition block_of (s : mbs) : mb_struct := hd (MkMb 0 0 0 0 0 0 0 None []) (blocks_of (wmt_mbah s)).
Definition place_of (s : mbs) : place := MkPlace [] (area_of s) [] [] (block_of s) [].

Lemma free_by_any_holder_witness : exists s' m',
  mb_do_free 0x1C000000 8 (Some [66]) board3 = Ok (0, s') /\ m' ∈ blocks_of (wmt_mbah s') /\
  mb_creator m' = None.
Proof.
  destruct (free_by_any_holder board3 (place_of board3) (hd (made_user 0 0 0 []) (mbu_list (block_of board3)))
    (List.last (mbu_list (block_of board3)) (made_user 0 0 0 [])) 8 [66] (proj1 board3_ok))
    as (s' & m' & H1 & H2 & _ & H3 & _).
  - vm_compute. split; reflexivity.
  - vm_compute. reflexivity.
  - vm_compute. left.
  - vm_compute. right. left.
  - vm_compute. reflexivity.
  - vm_compute. discriminate.
  - exists s', m'. split_and!; [exact H1|exact H2|exact H3].
Defined.

(** ** Addresses *)

Lemma translate h a m off :
  host_ok h -> a ∈ mba_list h -> m ∈ mb_list a -> 0 <= off < mb_size m ->
  mb_do_phys_to_virt h (mb_phys m + off) = mb_virt m + off /\
  mb_do_virt_to_phys h (mb_virt m + off) = mb_phys m + off.
Proof.
  intros Hh Ha Hm Ho. pose proof (block_bounds h a m Hh Ha Hm) as B.
  unfold mb_do_phys_to_virt, mb_do_virt_to_phys.
  rewrite (find_mb_complete h (mb_phys m + off) true a m), (find_mb_complete h (mb_virt m + off) false a m);
    [|done|by split_and!; [..|simpl; lia|simpl; lia]|done|by split_and!; [..|simpl; lia|simpl; lia]].
  rewrite !usub_small by lia. rewrite !u32_small by lia. split; lia.
Qed.

(** Inside the blocks the two address translations are inverse to each
    other, and the offset into the block is kept. *)
Theorem mb_addresses_roundtrip s a m off :
  state_ok s -> a ∈ mba_list (wmt_mbah s) -> m ∈ mb_list a -> 0 <= off < mb_size m ->
  let h := wmt_mbah s in
  mb_do_phys_to_virt h (mb_phys m + off) = mb_virt m + off /\
  mb_do_virt_to_phys h (mb_do_phys_to_virt h (mb_phys m + off)) = mb_phys m + off /\
  mb_do_phys_to_virt h (mb_do_virt_to_phys h (mb_virt m + off)) = mb_virt m + off.
Proof.
  intros [Hh _] Ha Hm Ho h. destruct (translate h a m off Hh Ha Hm Ho) as [H1 H2].
  by rewrite H1, H2, H1.
Qed.

Lemma mb_addresses_roundtrip_witness :
  mb_do_phys_to_virt (wmt_mbah board2) 0x1C001234 = 0xD0001234 /\
  mb_do_virt_to_phys (wmt_mbah board2) (mb_do_phys_to_virt (wmt_mbah board2) 0x1C001234) = 0x1C001234.
Proof.
  destruct (mb_addresses_roundtrip board2 (area_of board2) (block_of board2) 0x1234 (proj1 board2_ok))
    as (H1 & H2 & _); [vm_compute; left|vm_compute; left|vm_compute; split; [discriminate|reflexivity]|].
  split; [exact H1|exact H2].
Defined.

(** [C23] What a mapping by address shows.  From a well-formed state, for an area
    of user memory ([vma_ok]) and a page offset beyond the static pages, a
    successful [mb_mmap] maps the bytes at [vm_pgoff] pages and gives the block
    whose address range holds that offset one more reference, held by the mapping,
    so that it cannot be recycled under it.  The mapping lies inside that block
    exactly when the end of it, as the code computes it, does not wrap around 2^32:
    the test at the end of the block is made on the wrapped sum. *)
Theorem mb_mmap_inside_block s tgid name vm_start vm_end vm_pgoff range s' :
  state_ok s -> vma_ok vm_start vm_end vm_pgoff -> tot_static_pages (wmt_mbah s) < vm_pgoff ->
  mb_mmap (Some tgid) name vm_start vm_end vm_pgoff s = Ok ((0, range), s') ->
  range = Some (vm_pgoff * 4096, vm_end - vm_start) /\
  exists m m', m ∈ blocks_of (wmt_mbah s) /\ m' ∈ blocks_of (wmt_mbah s') /\ same_block m m' /\
    mb_phys m <= u32 (vm_pgoff * 4096) < mb_phys m + mb_size m /\
    (vm_end - vm_start + vm_pgoff * 4096 < 2 ^ 32 <->
     mb_phys m <= vm_pgoff * 4096 /\ vm_pgoff * 4096 + (vm_end - vm_start) <= mb_phys m + mb_size m) /\
    mb_count m' = mb_count m + 1 /\
    mbu_list m' = mbu_list m ++ [MkMbu (next_id s) tgid vm_start (vm_end - vm_start) (user_name name)].
Proof.
  intros Hs Hv Hst Hr. pose proof Hv as (V1 & V2 & V3).
  destruct (mmap_run s tgid name vm_start vm_end vm_pgoff Hs Hv Hst)
    as (rc & r & s2 & Hrun & _ & _ & Hcase).
  rewrite Hr in Hrun. injection Hrun as <- <- <-.
  destruct Hcase as [(Hn & _)|(p & _ & -> & Hp & Hi & Hle & Hw)]; [done|].
  rewrite shl12 in *. destruct (elem_place _ _ Hp) as [Hae Hme]. pose proof (block_bounds _ _ _ (proj1 Hs) Hae Hme).
  assert (vm_end - vm_start + vm_pgoff * 4096 < 2 ^ 32 <-> mb_phys (pl_block p) <= vm_pgoff * 4096 /\
    vm_pgoff * 4096 + (vm_end - vm_start) <= mb_phys (pl_block p) + mb_size (pl_block p)) as Hiff.
  { split; [|lia]. intros Hlim. rewrite (u32_small (vm_pgoff * 4096)) in * by lia. rewrite u32_small in Hle by lia. lia. }
  split; [done|]. exists (pl_block p). eexists. split_and!; [| |apply with_users_same|lia|lia|apply Hiff..|done|done].
  - destruct (blocks_of_put (wmt_mbah s) p [] Hp) as (B1 & B2 & -> & _).
    rewrite !elem_of_app, elem_of_cons. tauto.
  - rewrite Hw. destruct (blocks_of_put (wmt_mbah s) p (pl_left p ++ plus_user
      (MkMbu (next_id s) tgid vm_start (vm_end - vm_start) (user_name name)) (mb_creator (pl_block p))
      (pl_block p) :: pl_right p) Hp) as (B1 & B2 & _ & H2).
    unfold set_at. rewrite H2, !elem_of_app, elem_of_cons. right. left. right. by left.
Qed.

Lemma mb_mmap_inside_block_witness : exists s',
  mb_mmap (Some 8) [66] 0x40000000 0x40002000 0x1C001 board2
  = Ok ((0, Some (0x1C001 * 4096, 0x2000)), s') /\ exists m', m' ∈ blocks_of (wmt_mbah s') /\ mb_count m' = 2.
Proof.
  eexists. split; [vm_compute; reflexivity|].
  edestruct (mb_mmap_inside_block board2 8 [66] 0x40000000 0x40002000 0x1C001)
    as (_ & m & m' & Hm & Hm' & _ & _ & Hin & Hc & _);
    [exact (proj1 board2_ok)|unfold vma_ok; lia|vm_compute; reflexivity|vm_compute; reflexivity|].
  exists m'. split; [exact Hm'|]. rewrite Hc.
  assert (m = block_of board2) as -> by (vm_compute in Hm |- *; by apply list_elem_of_singleton in Hm).
  vm_compute. reflexivity.
Defined.

(** ** A block nobody can free *)

Lemma free_orphan s p tgid name :
  state_ok s -> at_place (wmt_mbah s) p -> mbu_list (pl_block p) = [] ->
  mb_do_free (mb_phys (pl_block p)) tgid name s = Ok (- EINVAL, s).
Proof.
  intros Hs Hp Hm. destruct (do_free_run s (mb_phys (pl_block p)) tgid name Hs)
    as [Hr|(q & u & Hq & He & Hu & _)]; [done|]. exfalso.
  destruct (elem_place _ _ Hq) as [Ha Hb].
  destruct (phys_unique _ p _ _ (proj1 Hs) Hp Ha Hb (eq_sym He)) as [_ E].
  rewrite E, Hm in Hu. by apply elem_of_nil in Hu.
Qed.

(** [MBIO_UNMAP] of the last reference leaves a block without users behind,
    which no task can free any more: the count goes to 0, the block stays on the
    list, and every later [mb_do_free] of its address is refused. *)
Theorem unmap_orphans_block s value tgid a m u :
  state_ok s ->
  mb_find_mbu (wmt_mbah s) value tgid (Z.lor MBUFIND_USER MBUFIND_MMAP) = Some (a, m, u) ->
  mbu_list m = [u] ->
  exists s' m', ioctl_unmap value tgid s = Ok ((0, [mbu_size u]), s') /\
    m' ∈ blocks_of (wmt_mbah s') /\ same_block m m' /\ mb_count m' = 0 /\
    forall tgid' name, mb_do_free (mb_phys m) tgid' name s' = Ok (- EINVAL, s').
Proof.
  intros Hs E Hm. pose proof E as (p & Hp & <- & <- & Hu & Hl & _)%found_other; [|done..].
  destruct (block_place _ _ (proj1 Hs) Hp) as (_ & _ & _ & Hc & _).
  destruct (drop_run s p u _ Hs Hp Hu Hl) as (Hr & Hs' & Hp').
  set (m' := minus_user u (mb_creator (pl_block p)) (pl_block p)) in *.
  eexists _, m'. split_and!.
  - unfold ioctl_unmap. erewrite bind_ok by done. cbv beta. rewrite E. by erewrite bind_ok by exact Hr.
  - destruct (elem_place _ _ Hp') as [Ha Hb]. apply list_elem_of_bind. by eexists.
  - done.
  - cbn. rewrite Hc, Hm. done.
  - intros tgid' name. apply (free_orphan _ (place_with p m') tgid' name Hs' Hp').
    cbn. rewrite Hm. unfold del_mbu. by rewrite filter_cons_False by naive_solver.
Qed.

(** Task 8 maps the block of task 7, and task 7 frees it. *)
Definition board4 : mbs :=
  after (Call_free 0x1C000000 7 (Some [65]))
    (after (Call_mmap (Some 8) [66] 0x40000000 0x40002000 0x1C001) board2).

Lemma board4_reachable : reachable board board4.
Proof.
  apply reach_after; [exact board_ok| |exact I].
  apply reach_after; [exact board_ok|exact board2_reachable|]. unfold call_ok, vma_ok. lia.
Qed.

Lemma board4_ok : driver_ok board4.
Proof. exact (reachable_ok _ _ board_ok board4_reachable). Qed.

Lemma unmap_orphans_block_witness : exists s',
  ioctl_unmap 0x40000000 8 board4 = Ok ((0, [0x2000]), s') /\
  mb_do_free 0x1C000000 7 (Some [65]) s' = Ok (- EINVAL, s').
Proof.
  destruct (unmap_orphans_block board4 0x40000000 8 (area_of board4) (block_of board4)
    (hd (made_user 0 0 0 []) (mbu_list (block_of board4))) (proj1 board4_ok))
    as (s' & m' & H1 & _ & _ & _ & H2); [vm_compute; reflexivity|vm_compute; reflexivity|].
  exists s'. split; [exact H1|exact (H2 7 (Some [65]))].
Defined.
