(* ===== verification/Prdt.v ===== *)
(** * Physical region tables

    [user_to_prdt] of [drivers/video/wmt/memblock.c]: the video engines read a
    user buffer through a table of (address, size) descriptors, the last one
    marked [EDT].  Three methods build it: a walk over the page tables
    ([__user_to_prdt], the default), and two that ask [get_user_pages].

    The address space of the task is the tree of its memory areas
    ([mm_rb], with [find_vma] of [mm/mmap.c]), the frames its page tables name,
    and [get_user_pages]; frames are mapped linearly ([virt_to_phys] of
    [page_address]).  The table is the caller's array: writing behind its end
    is [Undefined].  Semaphores and messages are not modelled. *)

From S2P Require Import Prelude MemBlock MemBlockSafe.
From stdpp Require Import list.
#[local] Open Scope Z_scope.

(** ** Memory areas of a task *)

Record vm_area := MkVma {
  vm_start : Z;
  vm_end : Z;
  vm_io : bool;          (** [vm_flags & VM_IO] *)
  vm_pgoff : Z;
}.

Inductive vtree :=
| rb_null
| rb_node (left : vtree) (v : vm_area) (right : vtree).

Fixpoint rb_find (addr : Z) (vma : option vm_area) (t : vtree) : option vm_area :=
  match t with
  | rb_null => vma
  | rb_node l v r =>
      if addr <? vm_end v then
        if vm_start v <=? addr then Some v else rb_find addr (Some v) l
      else rb_find addr vma r
  end.

(** What the code asks of the memory manager. *)
Class AddressSpace := {
  mm_rb : vtree;
  pte_at : Z -> Z;                    (** the page table entry of an address *)
  pfn_valid : Z -> bool;
  get_user_pages : Z -> nat -> list Z (** the frames of so many pages, as far as they are there *)
}.

(** ** The table *)

Record prdt_struct := MkPrd { prd_addr : Z; prd_size : Z; prd_reserve : Z; prd_EDT : Z }.

(** The variables of the walk: the table, the index of [next], [prev], and the
    locals that change. *)
Record walk := MkWalk {
  mmap_cache : option vm_area;
  prdt : list prdt_struct;
  next : nat;
  prev : option nat;
  items : Z;
  size : Z;
  offset : Z;
}.

#[local] Abbreviation W := (M walk).

Definition with_table (t : list prdt_struct) (w : walk) : walk :=
  MkWalk (mmap_cache w) t (next w) (prev w) (items w) (size w) (offset w).
Definition with_cache (c : option vm_area) (w : walk) : walk :=
  MkWalk c (prdt w) (next w) (prev w) (items w) (size w) (offset w).
Definition with_offset (o : Z) (w : walk) : walk :=
  MkWalk (mmap_cache w) (prdt w) (next w) (prev w) (items w) (size w) o.
Definition with_size (z : Z) (w : walk) : walk :=
  MkWalk (mmap_cache w) (prdt w) (next w) (prev w) (items w) z (offset w).
Definition with_next (n : nat) (p : option nat) (k : Z) (w : walk) : walk :=
  MkWalk (mmap_cache w) (prdt w) n p k (size w) (offset w).

Definition read_prd (i : nat) : W prdt_struct := t ← gets prdt; initialised (t !! i).
Definition write_prd (i : nat) (f : prdt_struct -> prdt_struct) : W unit :=
  d ← read_prd i; modify (fun w => with_table (<[i := f d]> (prdt w)) w).

Definition set_addr_size (a z : Z) (d : prdt_struct) : prdt_struct :=
  MkPrd a z (prd_reserve d) (prd_EDT d).
Definition set_prd_size (z : Z) (d : prdt_struct) : prdt_struct :=
  MkPrd (prd_addr d) z (prd_reserve d) (prd_EDT d).
Definition set_EDT (e : Z) (d : prdt_struct) : prdt_struct :=
  MkPrd (prd_addr d) (prd_size d) (prd_reserve d) e.
Definition set_reserve_EDT (e : Z) (d : prdt_struct) : prdt_struct :=
  MkPrd (prd_addr d) (prd_size d) 0 e.

Definition PMD_SIZE : Z := Z.shiftl 1 21.
Definition PGDIR_SIZE : Z := Z.shiftl 1 21.
Definition PMD_MASK : Z := Z.lnot (PMD_SIZE - 1).
Definition PGDIR_MASK : Z := Z.lnot (PGDIR_SIZE - 1).

Section Prdt.
Context `{AddressSpace}.

Definition pte_pfn (addr : Z) : Z := Z.shiftr (pte_at addr) PAGE_SHIFT.

Definition find_vma (addr : Z) : W (option vm_area) :=
  c ← gets mmap_cache;
  match c with
  | Some v =>
      if (addr <? vm_end v) && (vm_start v <=? addr) then mret (Some v)
      else
        let r := rb_find addr None mm_rb in
        modify (fun w => match r with Some _ => with_cache r w | None => w end);; mret r
  | None =>
      let r := rb_find addr None mm_rb in
      modify (fun w => match r with Some _ => with_cache r w | None => w end);; mret r
  end.

(** ** The page table walk *)

Inductive exit := Fault_exit | Finished.

(** "Check it could combind with previous one". *)
Definition prd_combine (phys : Z) : W bool :=
  p ← gets prev;
  match p with
  | None => mret false
  | Some p =>
      d ← read_prd p;
      mret ((prd_size d <=? Z.shiftl 1 16 - 2 * PAGE_SIZE) && (u32 (prd_addr d + prd_size d) =? phys))
  end.

Definition prd_extend (chunk : Z) : W bool :=
  p ← gets prev; p ← initialised p;
  write_prd p (fun d => set_prd_size (u16 (prd_size d + chunk)) d);;
  mret false.

(** "create new one"; [true]: it was the last of the table. *)
Definition prd_create (phys chunk : Z) : W bool :=
  w ← get;
  let p := next w in
  write_prd p (set_addr_size (u32 (phys + offset w)) (u16 chunk));;
  modify (with_next (S p) (Some p) (items w - 1));;
  if items w - 1 =? 0 then write_prd p (set_EDT 1);; mret true else mret false.

Definition prd_settle (chunk : Z) : W (option exit) :=
  w ← get;
  let rest := size w - chunk in
  modify (with_size rest);;
  p ← initialised (prev w);
  write_prd p (set_reserve_EDT (if rest =? 0 then 1 else 0));;
  if rest =? 0 then mret (Some Finished) else modify (with_offset 0);; mret None.

(** One page table entry, for the page at [from]; [Some] leaves the loops. *)
Definition pte_step (from : Z) : W (option exit) :=
  let pfn := pte_pfn from in
  let phys := u32 (Z.shiftl pfn PAGE_SHIFT) in
  w ← get;
  if offset w <? PAGE_SIZE then
    if negb (pfn_valid pfn) then mret (Some Fault_exit)
    else
      let chunk := Z.min (size w) (PAGE_SIZE - offset w) in
      combine ← prd_combine phys;
      full ← (if (combine : bool) then prd_extend chunk else prd_create phys chunk);
      if (full : bool) then mret (Some Fault_exit) else prd_settle chunk
  else modify (with_offset (u32 (offset w - PAGE_SIZE)));; mret None.

(** The three nested [do ... while] loops; a normal end hands on [from]. *)
Definition again (from lim : Z) : bool := negb (from =? 0) && (from <? lim).

Definition pte_body (pte_end from : Z) : W (Z + (Z + exit)) :=
  r ← pte_step from;
  mret (match r with
        | Some e => inr (inr e)
        | None =>
            let from := u32 (from + PAGE_SIZE) in
            if again from pte_end then inl from else inr (inl from)
        end).

Definition after_inner (lim : Z) (r : Z + exit) : Z + (Z + exit) :=
  match r with
  | inr e => inr (inr e)
  | inl from => if again from lim then inl from else inr (inl from)
  end.

Definition PTRS_PER_PTE : nat := 512.
Definition PTRS_PER_PGD : nat := 2048.

Definition pmd_body (pmd_end from : Z) : W (Z + (Z + exit)) :=
  let pte_end := Z.min (Z.land (u32 (from + PMD_SIZE)) PMD_MASK) pmd_end in
  r ← loop PTRS_PER_PTE (pte_body pte_end) from;
  mret (after_inner pmd_end r).

Definition pgd_body (end_ from : Z) : W (Z + (Z + exit)) :=
  let pmd_end := Z.min (Z.land (u32 (from + PGDIR_SIZE)) PGDIR_MASK) end_ in
  r ← loop 1 (pmd_body pmd_end) from;
  mret (after_inner end_ r).

(** One turn of [while(size > 0)]. *)
Definition vma_body (user : Z) : W (Z + exit) :=
  z ← gets size;
  if z =? 0 then mret (inr Finished)
  else
    vma ← find_vma user;
    match vma with
    | None => n ← gets next; write_prd n (set_EDT 1);; mret (inr Fault_exit)
    | Some vma =>
        let from := vm_start vma in
        let end_ := PAGE_ALIGN (vm_end vma) in
        modify (with_offset (u32 (user - from)));;
        r ← loop PTRS_PER_PGD (pgd_body end_) from;
        mret (match r with inl from => inl from | inr e => inr e end)
    end.

(** The caches are flushed descriptor by descriptor, up to the marked one. *)
Definition flush_body (a : nat * list (Z * Z)) : W (nat * list (Z * Z) + list (Z * Z)) :=
  let '(idx, done) := a in
  d ← read_prd idx;
  let done := done ++ [(prd_addr d, u32 (prd_addr d + prd_size d))] in
  mret (if prd_EDT d =? 0 then inl (S idx, done) else inr done).

Fixpoint count_areas (t : vtree) : nat :=
  match t with rb_null => O | rb_node l _ r => S (count_areas l + count_areas r) end.

(** The return code and the ranges flushed; [table]: [next] is not null. *)
Definition __user_to_prdt (user : Z) (table : bool) : W (Z * list (Z * Z)) :=
  w ← get;
  if negb table || (items w <? size w / PAGE_SIZE + 2) then mret (- EINVAL, [])
  else
    r ← loop (S (S (count_areas mm_rb))) vma_body user;
    match r with
    | Finished =>
        t ← gets prdt; fl ← loop (S (length t)) flush_body (O, []);
        mret (0, fl)
    | Fault_exit => mret (- EFAULT, [])
    end.
End Prdt.

(** ** Specification of the address space *)

Fixpoint areas (t : vtree) : list vm_area :=
  match t with rb_null => [] | rb_node l v r => areas l ++ v :: areas r end.

(** Areas in the order of their addresses, above [lo]. *)
Fixpoint ordered (lo : Z) (l : list vm_area) : Prop :=
  match l with
  | [] => True
  | v :: l' => lo <= vm_start v /\ vm_start v < vm_end v /\ ordered (vm_end v) l'
  end.

Definition TASK_SIZE : Z := 0xBF000000.

Class AddressSpaceSpec `{AddressSpace} : Prop := {
  areas_ordered : ordered 0 (areas mm_rb);
  areas_pages : Forall (fun v => vm_start v mod 4096 = 0 /\ vm_end v mod 4096 = 0 /\ vm_end v <= TASK_SIZE)
                  (areas mm_rb);
  valid_frames : forall p, pfn_valid p = true -> 0 <= p < 2 ^ 20 - 1;
}.

(** The area [find_vma] promises: the first that ends above the address. *)
Definition first_above (addr : Z) (l : list vm_area) : option vm_area :=
  find_map (fun v => if addr <? vm_end v then Some v else None) l.

Lemma find_map_app {A B} (f : A -> option B) l1 l2 :
  find_map f (l1 ++ l2) = match find_map f l1 with Some y => Some y | None => find_map f l2 end.
Proof. induction l1 as [|x l1 IH]; simpl; [done|]. by destruct (f x). Qed.

Lemma ordered_app lo l1 v l2 :
  ordered lo (l1 ++ v :: l2) ->
  ordered lo l1 /\ Forall (fun x => vm_end x <= vm_start v) l1 /\ ordered (vm_end v) l2 /\
  lo <= vm_start v /\ vm_start v < vm_end v.
Proof.
  revert lo. induction l1 as [|x l1 IH]; intros lo; simpl.
  - intros (H1 & H2 & H3). split_and!; done.
  - intros (H1 & H2 & (I1 & I2 & I3 & I4 & I5)%IH). split_and!; try done; [|lia].
    apply Forall_cons. done.
Qed.

Lemma first_above_none addr l : Forall (fun x => vm_end x <= addr) l -> first_above addr l = None.
Proof.
  intros Hf. apply find_map_none. intros v Hv. rewrite Forall_forall in Hf. specialize (Hf v Hv).
  cbv beta in *. by destruct (Z.ltb_spec addr (vm_end v)); [lia|].
Qed.

Lemma rb_find_first addr t best lo :
  ordered lo (areas t) ->
  rb_find addr best t = match first_above addr (areas t) with Some v => Some v | None => best end.
Proof.
  revert best lo. induction t as [|l IHl v r IHr]; intros best lo Ho; [done|]. simpl in *.
  apply ordered_app in Ho as (H1 & H2 & H3 & H4 & H5).
  unfold first_above in *. rewrite find_map_app. cbn [find_map].
  destruct (Z.ltb_spec addr (vm_end v)) as [Ha|Ha].
  - destruct (Z.leb_spec (vm_start v) addr) as [Hs|Hs].
    + assert (first_above addr (areas l) = None) as Hn.
      { apply first_above_none. eapply Forall_impl; [exact H2|]. simpl. lia. }
      unfold first_above in Hn. by rewrite Hn.
    + rewrite (IHl _ _ H1). by destruct (find_map _ (areas l)).
  - assert (first_above addr (areas l) = None) as Hn.
    { apply first_above_none. eapply Forall_impl; [exact H2|]. simpl. lia. }
    unfold first_above in Hn. rewrite Hn. apply (IHr _ _ H3).
Qed.

Lemma first_above_some addr l lo v :
  ordered lo l -> v ∈ l -> vm_start v <= addr < vm_end v -> first_above addr l = Some v.
Proof.
  intros Ho (l1 & l2 & ->)%list_elem_of_split Hv. apply ordered_app in Ho as (_ & H2 & _).
  unfold first_above. rewrite find_map_app.
  pose proof (first_above_none addr l1) as Hn. unfold first_above in Hn. rewrite Hn.
  - cbn [find_map]. by destruct (Z.ltb_spec addr (vm_end v)); [|lia].
  - eapply Forall_impl; [exact H2|]. simpl. lia.
Qed.

Section PrdtProof.
Context `{AS : AddressSpace} {Spec : AddressSpaceSpec}.

Definition cache_ok (w : walk) : Prop := forall v, mmap_cache w = Some v -> v ∈ areas mm_rb.

(** [find_vma], with its search tree and its cache, answers the first area that
    ends above the address, whatever was looked up before. *)
Lemma find_vma_run addr w :
  cache_ok w ->
  exists c, find_vma addr w = Ok (first_above addr (areas mm_rb), with_cache c w) /\
    forall v, c = Some v -> v ∈ areas mm_rb.
Proof.
  intros Hc. assert (forall r, r = first_above addr (areas mm_rb) -> exists c,
    Ok (r, match r with Some _ => with_cache r w | None => w end)
    = Ok (first_above addr (areas mm_rb), with_cache c w) /\ forall v, c = Some v -> v ∈ areas mm_rb) as Hr.
  { intros r ->. destruct (first_above addr (areas mm_rb)) as [v|] eqn:E.
    - exists (Some v). split; [done|]. intros x [= <-]. apply find_map_in in E as (y & Hy & E).
      destruct (addr <? vm_end y); by simplify_eq.
    - exists (mmap_cache w). split; [by destruct w|done]. }
  assert (rb_find addr None mm_rb = first_above addr (areas mm_rb)) as Hf.
  { rewrite (rb_find_first _ _ _ 0 areas_ordered). by case_match. }
  unfold find_vma, mbind, M_bind, gets, modify, mret, M_ret.
  destruct (mmap_cache w) as [v|] eqn:Ec; [|by apply Hr].
  destruct ((addr <? vm_end v) && (vm_start v <=? addr)) eqn:E; [|by apply Hr].
  exists (Some v). rewrite (first_above_some addr _ 0 v); [|apply areas_ordered|by apply Hc|bool_to_prop; lia].
  split; [|intros x [= <-]; by apply Hc]. do 2 f_equal. destruct w. simpl in *. by subst.
Qed.

(** ** The three loops visit the pages in order *)

Fixpoint pages (n : nat) (from : Z) : M walk (Z + exit) :=
  match n with
  | O => mret (inl from)
  | S n =>
      r ← pte_step from;
      match r with
      | Some e => mret (inr e)
      | None => pages n (from + 4096)
      end
  end.

Lemma pages_end n from w r w' : pages n from w = Ok (inl r, w') -> r = from + Z.of_nat n * 4096.
Proof.
  revert from w. induction n as [|n IH]; intros from w.
  - intros [= <- <-]. lia.
  - cbn [pages]. intros (o & w1 & _ & Hr)%bind_inv. destruct o as [e|]; [done|].
    apply IH in Hr. lia.
Qed.

Lemma pages_app a b from w :
  pages (a + b) from w = (r ← pages a from; match r with inl f => pages b f | inr e => mret (inr e) end) w.
Proof.
  revert from w. induction a as [|a IH]; intros from w; [done|]. cbn [pages Nat.add].
  unfold mbind, M_bind in *. destruct (pte_step from w) as [[[e|] w1]|]; [done| |done]. apply IH.
Qed.

(** A page aligned stretch of addresses of [n] pages. *)
Definition stretch (from lim : Z) (n : nat) : Prop :=
  0 <= from /\ from mod 4096 = 0 /\ lim = from + Z.of_nat n * 4096 /\ lim < 2 ^ 32 /\ (0 < n)%nat.

Lemma pte_body_eq lim from w :
  pte_body lim from w = match pte_step from w with
                        | Ok (Some e, w') => Ok (inr (inr e), w')
                        | Ok (None, w') =>
                            Ok (if again (u32 (from + PAGE_SIZE)) lim then inl (u32 (from + PAGE_SIZE))
                                else inr (inl (u32 (from + PAGE_SIZE))), w')
                        | Fault f => Fault f
                        end.
Proof. unfold pte_body, mbind, M_bind. by destruct (pte_step from w) as [[[e|] w']|]. Qed.

Lemma pte_loop_pages fuel n lim from w :
  stretch from lim n -> (n <= fuel)%nat -> loop fuel (pte_body lim) from w = pages n from w.
Proof.
  revert fuel from w. induction n as [|n IH]; intros fuel from w (Hz & Ha & Hl & Hm & Hn) Hf; [lia|].
  destruct fuel as [|fuel]; [lia|]. cbn [pages loop].
  unfold mbind, M_bind, mret, M_ret. rewrite pte_body_eq. destruct (pte_step from w) as [[[e|] w1]|]; [done| |done].
  rewrite page_size. rewrite u32_small by lia. unfold again.
  destruct (Z.eqb_spec (from + 4096) 0); [lia|]. destruct (Z.ltb_spec (from + 4096) lim) as [Hlt|Hge]; cbn [negb andb].
  - apply IH; [|lia]. split_and!; dlia.
  - assert (n = O) as -> by lia. done.
Qed.

(** The end of the two megabytes that [from] lies in. *)
Definition chunk_end (from : Z) : Z := (from / 2097152 + 1) * 2097152.

Lemma chunk_end_run from :
  0 <= from < 2 ^ 32 - 2097152 -> Z.land (u32 (from + PMD_SIZE)) PMD_MASK = chunk_end from.
Proof.
  intros Hf. unfold PMD_MASK. change PMD_SIZE with 2097152. change (2097152 - 1) with (Z.ones 21).
  rewrite u32_small by lia. rewrite <- Z.ldiff_land, Z.ldiff_ones_r by done.
  rewrite Z.shiftl_mul_pow2, Z.shiftr_div_pow2 by done. unfold chunk_end. dlia.
Qed.

Lemma pmd_loop_pages n lim from w :
  stretch from lim n -> from < 2 ^ 32 - 2097152 -> lim <= chunk_end from ->
  loop 1 (pmd_body lim) from w = pages n from w.
Proof.
  intros Hs Hf Hc. pose proof Hs as (Hz & Ha & Hl & Hm & Hn). cbn [loop]. unfold pmd_body.
  rewrite chunk_end_run by lia. rewrite Z.min_r by lia.
  unfold mbind, M_bind. rewrite (pte_loop_pages _ n) by (done || unfold PTRS_PER_PTE, chunk_end in *; dlia).
  destruct (pages n from w) as [[[f|e] w1]|] eqn:E; [|done|done].
  apply pages_end in E as ->. unfold after_inner, again. rewrite <- Hl.
  destruct (Z.ltb_spec lim lim); [lia|]. by rewrite andb_false_r.
Qed.

Lemma pgd_body_eq lim from w :
  0 <= from < 2 ^ 32 - 2097152 ->
  pgd_body lim from w = match loop 1 (pmd_body (Z.min (chunk_end from) lim)) from w with
                        | Ok (r, w') => Ok (after_inner lim r, w')
                        | Fault f => Fault f
                        end.
Proof.
  intros Hf. unfold pgd_body. change PGDIR_MASK with PMD_MASK. change PGDIR_SIZE with PMD_SIZE.
  rewrite chunk_end_run by done. unfold mbind, M_bind. by destruct (loop 1 _ from w) as [[r w']|].
Qed.

(** All the chunks up to [lim]. *)
Lemma pgd_loop_pages fuel n lim from w :
  stretch from lim n -> lim <= TASK_SIZE ->
  (lim - 1) / 2097152 - from / 2097152 < Z.of_nat fuel ->
  loop fuel (pgd_body lim) from w = pages n from w.
Proof.
  revert n from w. induction fuel as [|fuel IH]; intros n from w Hs Ht Hf;
    pose proof Hs as (Hz & Ha & Hl & Hm & Hn).
  { exfalso. cbn in Hf. dlia. }
  assert (from < 2 ^ 32 - 2097152) as Hfr by (unfold TASK_SIZE in Ht; lia).
  cbn [loop]. unfold mbind, M_bind. rewrite pgd_body_eq by done.
  set (mid := Z.min (chunk_end from) lim).
  set (k := Z.to_nat ((mid - from) / 4096)).
  assert (stretch from mid k /\ (k <= n)%nat) as [Hk Hkn].
  { assert (from < mid <= lim /\ (mid - from) mod 4096 = 0) as [Hmid Hmod].
    { unfold mid, chunk_end. destruct (Z.min_spec (chunk_end from) lim) as [[? Hmin]|[? Hmin]];
        unfold chunk_end in *; rewrite Hmin; dlia. }
    assert (Z.of_nat k = (mid - from) / 4096) as Hkz by (unfold k; rewrite Z2Nat.id; dlia).
    unfold stretch. split_and!; dlia. }
  rewrite (pmd_loop_pages k) by (done || unfold mid; lia).
  replace n with (k + (n - k))%nat by lia. rewrite pages_app. unfold mbind, M_bind.
  destruct (pages k from w) as [[[f|e] w1]|] eqn:E; [|done|done].
  apply pages_end in E as ->. unfold after_inner, again.
  pose proof Hk as (_ & _ & Hk1 & _ & Hk2). rewrite <- Hk1.
  destruct (Z.eqb_spec mid 0); [lia|]. destruct (Z.ltb_spec mid lim) as [Hlt|Hge]; cbn [negb andb].
  - assert (mid = chunk_end from) as Hmc by (unfold mid in *; lia).
    assert (mid mod 4096 = 0) by (rewrite Hmc; unfold chunk_end; dlia).
    apply IH; [split_and!; (done || lia)|done|]. rewrite Hmc. unfold chunk_end in *. dlia.
  - assert (n - k = O)%nat as -> by lia. done.
Qed.

(** ** What a table describes *)

(** The physical address of a byte of the task's memory. *)
Definition phys_of (frame : Z -> Z) (x : Z) : Z := frame (x - x mod 4096) * 4096 + x mod 4096.
#[local] Abbreviation phys_at := (phys_of pte_pfn).
Definition valid_at (x : Z) : bool := pfn_valid (pte_pfn (x - x mod 4096)).

(** The bytes a descriptor names, in order. *)
Definition bytes (d : prdt_struct) : list Z := seqZ (prd_addr d) (prd_size d).

(** The descriptors [P] name the bytes from [user] up to [x]. *)
Definition describes (frame : Z -> Z) (user : Z) (P : list prdt_struct) (x : Z) : Prop :=
  P ≫= bytes = phys_of frame <$> seqZ user (x - user).
#[local] Abbreviation described := (describes pte_pfn).

Lemma seqZ_split a n m : 0 <= n -> 0 <= m -> seqZ a (n + m) = seqZ a n ++ seqZ (a + n) m.
Proof. intros. by apply seqZ_app. Qed.

Lemma phys_run f x c : 0 <= c <= 4096 - x mod 4096 -> phys_of f <$> seqZ x c = seqZ (phys_of f x) c.
Proof.
  intros Hc. apply list_eq_same_length with (length (seqZ x c)); rewrite ?length_fmap, ?length_seqZ; [done..|].
  intros i y z Hi. rewrite list_lookup_fmap. intros (v & Hv & ->)%fmap_Some Hz.
  apply lookup_seqZ in Hv as [-> Hi1]. apply lookup_seqZ in Hz as [-> _].
  unfold phys_of. assert ((x + Z.of_nat i) mod 4096 = x mod 4096 + Z.of_nat i) as Hm.
  { rewrite <- (Z.mod_small (x mod 4096 + Z.of_nat i) 4096) by dlia. by rewrite Zplus_mod_idemp_l. }
  rewrite Hm. replace (x + Z.of_nat i - (x mod 4096 + Z.of_nat i)) with (x - x mod 4096) by lia. lia.
Qed.

Lemma describes_snoc f user P x d c :
  describes f user P x -> user <= x -> 0 <= c <= 4096 - x mod 4096 ->
  prd_addr d = phys_of f x -> prd_size d = c -> describes f user (P ++ [d]) (x + c).
Proof.
  unfold describes. intros HP Hx Hc Ha Hz. rewrite bind_app, HP, bind_singleton. unfold bytes.
  replace (x + c - user) with ((x - user) + c) by lia. rewrite seqZ_split by lia.
  rewrite fmap_app. f_equal. replace (user + (x - user)) with x by lia. by rewrite phys_run, Ha, Hz.
Qed.

Lemma describes_extend f user Q x d d' c :
  describes f user (Q ++ [d]) x -> user <= x -> 0 <= c <= 4096 - x mod 4096 -> 0 <= prd_size d ->
  prd_addr d + prd_size d = phys_of f x -> prd_addr d' = prd_addr d -> prd_size d' = prd_size d + c ->
  describes f user (Q ++ [d']) (x + c).
Proof.
  unfold describes. intros HP Hx Hc Hd He Ha Hz. rewrite bind_app, bind_singleton in *. unfold bytes in *.
  replace (x + c - user) with ((x - user) + c) by lia. rewrite seqZ_split by lia.
  rewrite fmap_app, <- HP, Ha, Hz, seqZ_split by lia. rewrite He, <- app_assoc. do 2 f_equal.
  replace (user + (x - user)) with x by lia. by rewrite phys_run.
Qed.

(** A descriptor of at most [lim] bytes, inside the address space. *)
Definition entry_fits (lim : Z) (d : prdt_struct) : Prop :=
  0 < prd_size d <= lim /\ 0 <= prd_addr d /\ prd_addr d + prd_size d < 2 ^ 32.
#[local] Abbreviation entry_ok := (entry_fits 61440).

(** The descriptors needed up to [x]: one for each page touched at most. *)
Definition pages_upto (user x : Z) : Z := if x =? user then 0 else (x - 1) / 4096 - user / 4096 + 1.

Record inv (user total k : Z) (P rest : list prdt_struct) (x : Z) (w : walk) : Prop := {
  inv_range : user <= x < user + total;
  inv_size : size w = user + total - x;
  inv_table : prdt w = P ++ rest;
  inv_next : next w = length P;
  inv_prev : prev w = match P with [] => None | _ => Some (length P - 1)%nat end;
  inv_items : items w = Z.of_nat (length rest);
  inv_length : Z.of_nat (length (P ++ rest)) = k;
  inv_room : (0 < length rest)%nat;
  inv_bytes : described user P x;
  inv_entries : Forall entry_ok P;
  inv_open : Forall (fun d => prd_EDT d = 0) P;
  inv_start : P = [] -> x = user;
  inv_align : P <> [] -> x mod 4096 = 0;
  inv_count : Z.of_nat (length P) <= pages_upto user x;
  inv_cache : cache_ok w;
}.

(** A finished table: all of the buffer, the last descriptor marked. *)
Record finished (frame : Z -> Z) (lim : Z) (user total k : Z) (Q : list prdt_struct) (d : prdt_struct) (w : walk) : Prop := {
  fin_table : exists rest, prdt w = Q ++ d :: rest /\ Z.of_nat (length (Q ++ d :: rest)) = k;
  fin_bytes : describes frame user (Q ++ [d]) (user + total);
  fin_entries : Forall (entry_fits lim) (Q ++ [d]);
  fin_open : Forall (fun d => prd_EDT d = 0) Q;
  fin_last : prd_EDT d = 1;
  fin_count : Z.of_nat (length (Q ++ [d])) <= pages_upto user (user + total);
}.

Lemma insert_middle {A} (l1 l2 : list A) x y : <[length l1 := y]> (l1 ++ x :: l2) = l1 ++ y :: l2.
Proof. induction l1 as [|z l1 IH]; simpl; [done|]. by rewrite IH. Qed.

Lemma read_prd_run w l1 d l2 i : prdt w = l1 ++ d :: l2 -> i = length l1 -> read_prd i w = Ok (d, w).
Proof.
  intros Ht ->. unfold read_prd, mbind, M_bind, gets. cbv beta iota. rewrite Ht.
  by rewrite list_lookup_middle.
Qed.

Lemma write_prd_run w l1 d l2 i f :
  prdt w = l1 ++ d :: l2 -> i = length l1 ->
  write_prd i f w = Ok (tt, with_table (l1 ++ f d :: l2) w).
Proof.
  intros Ht Hi. unfold write_prd. erewrite bind_ok by (by apply (read_prd_run w l1 d l2)).
  unfold modify. by rewrite Ht, Hi, insert_middle.
Qed.

(** ** One page *)

(** The end of [pte_step] for a page that is described: the last descriptor
    [d] gets its mark. *)
Definition settle (c : Z) (w : walk) (Q : list prdt_struct) (d : prdt_struct) (rest : list prdt_struct)
    (nx : nat) (it : Z) : walk :=
  let z := size w - c in
  MkWalk (mmap_cache w)
    (Q ++ MkPrd (prd_addr d) (prd_size d) 0 (if z =? 0 then 1 else 0) :: rest) nx (Some (length Q)) it z
    (if z =? 0 then offset w else 0).

Section Page.
Context (w : walk) (x : Z) (Ho : offset w = x mod 4096).
#[local] Abbreviation page := (x - x mod 4096).
#[local] Abbreviation c := (Z.min (size w) (4096 - x mod 4096)).
#[local] Abbreviation answer := (if size w - c =? 0 then Some Finished else None).

Lemma frame_run : valid_at x = true -> u32 (Z.shiftl (pte_pfn page) PAGE_SHIFT) = phys_at x - x mod 4096 /\
  0 <= phys_at x - x mod 4096 < 2 ^ 32 - 4096.
Proof.
  intros Hv%valid_frames. rewrite shl12. rewrite u32_small by lia. unfold phys_of. lia.
Qed.

(** The parts of [pte_step] on a table that is split at [next]. *)
Lemma settle_run v Q d rest :
  prdt v = Q ++ d :: rest -> prev v = Some (length Q) -> size v = size w -> mmap_cache v = mmap_cache w ->
  offset v = offset w ->
  prd_settle c v = Ok (answer, settle c w Q d rest (next v) (items v)).
Proof.
  intros Ht Hp Hs Hm Hov. unfold prd_settle. erewrite bind_ok by done. cbv beta. erewrite bind_ok by done.
  rewrite Hp. erewrite bind_ok by done. cbv beta.
  erewrite bind_ok by (by apply (write_prd_run _ Q d rest)). rewrite Hs.
  unfold settle. rewrite <- Hm, <- Hov, <- Hp. by destruct (Z.eqb_spec (size w - c) 0).
Qed.

Lemma create_run P r0 rest phys :
  prdt w = P ++ r0 :: rest -> next w = length P ->
  exists d s', prd_create phys c w = Ok (items w - 1 =? 0, s') /\
    (items w <> 1 -> s' = MkWalk (mmap_cache w) (P ++ d :: rest) (S (length P)) (Some (length P))
                         (items w - 1) (size w) (offset w)) /\
    prd_addr d = u32 (phys + offset w) /\ prd_size d = u16 c.
Proof.
  intros Ht Hn. exists (set_addr_size (u32 (phys + offset w)) (u16 c) r0).
  unfold prd_create. erewrite bind_ok by done. cbv beta. rewrite Hn.
  erewrite bind_ok by (by apply (write_prd_run _ P r0 rest)). cbv beta.
  erewrite bind_ok by done. cbv beta.
  destruct (Z.eqb_spec (items w - 1) 0) as [E|E].
  - erewrite bind_ok by (by eapply (write_prd_run _ P)). eexists. split_and!; [done|lia|done|done].
  - eexists. split_and!; done.
Qed.

Lemma extend_run Q d rest :
  prdt w = Q ++ d :: rest -> prev w = Some (length Q) ->
  prd_extend c w = Ok (false, with_table (Q ++ set_prd_size (u16 (prd_size d + c)) d :: rest) w).
Proof.
  intros Ht Hp. unfold prd_extend. erewrite bind_ok by done. cbv beta. rewrite Hp.
  erewrite bind_ok by done. cbv beta. by erewrite bind_ok by (by apply (write_prd_run _ Q d rest)).
Qed.

Lemma combine_run Q d rest phys :
  prdt w = Q ++ d :: rest -> prev w = Some (length Q) ->
  prd_combine phys w = Ok ((prd_size d <=? 57344) && (u32 (prd_addr d + prd_size d) =? phys), w).
Proof.
  intros Ht Hp. unfold prd_combine. erewrite bind_ok by done. cbv beta. rewrite Hp.
  by erewrite bind_ok by (by apply (read_prd_run w Q d rest)).
Qed.
End Page.

(** A page that is not part of the buffer yet is passed over. *)
Lemma step_skip w from :
  4096 <= offset w < 2 ^ 32 -> pte_step from w = Ok (None, with_offset (offset w - 4096) w).
Proof.
  intros Ho. unfold pte_step. erewrite bind_ok by done. cbv beta. rewrite page_size.
  destruct (Z.ltb_spec (offset w) 4096); [lia|]. erewrite bind_ok by done. by rewrite u32_small by lia.
Qed.

Lemma pages_upto_step user x c :
  user <= x -> 0 < c <= 4096 - x mod 4096 -> (x = user \/ x mod 4096 = 0) ->
  pages_upto user x + 1 = pages_upto user (x + c).
Proof.
  intros Hx Hc Ha. unfold pages_upto. destruct (Z.eqb_spec (x + c) user); [lia|].
  destruct (Z.eqb_spec x user); dlia.
Qed.

Lemma pages_upto_mono user x y : user <= x <= y -> pages_upto user x <= pages_upto user y.
Proof.
  intros Hxy. unfold pages_upto. destruct (Z.eqb_spec x user), (Z.eqb_spec y user); dlia.
Qed.

(** How a step ends. *)
Definition stepped (user total k x' : Z) (r : option exit) (w' : walk) : Prop :=
  match r with
  | Some Fault_exit => False
  | Some Finished => x' = user + total /\ exists Q d, finished pte_pfn 61440 user total k Q d w'
  | None => x' < user + total /\ offset w' = 0 /\ exists P rest, inv user total k P rest x' w'
  end.

(** The last descriptor is [d], and the bytes up to [x + c] are described. *)
Lemma settle_inv user total k Q d rest x w nx :
  let c := Z.min (size w) (4096 - x mod 4096) in
  user <= x -> 0 < c -> size w = user + total - x -> cache_ok w ->
  described user (Q ++ [d]) (x + c) -> Forall entry_ok (Q ++ [d]) -> Forall (fun d => prd_EDT d = 0) Q ->
  Z.of_nat (length (Q ++ d :: rest)) = k -> (0 < length rest)%nat ->
  Z.of_nat (length (Q ++ [d])) <= pages_upto user (x + c) -> nx = S (length Q) ->
  stepped user total k (x + c) (if size w - c =? 0 then Some Finished else None)
    (settle c w Q d rest nx (Z.of_nat (length rest))).
Proof.
  intros c Hx Hc Hs Hca Hd He Ho Hk Hr Hn ->.
  set (d' := fun e => MkPrd (prd_addr d) (prd_size d) 0 e).
  assert (forall e, described user (Q ++ [d' e]) (x + c)) as Hd'.
  { intros e. unfold describes in *. rewrite <- Hd, !bind_app, !bind_singleton. done. }
  assert (forall e, Forall entry_ok (Q ++ [d' e])) as He'.
  { intros e. apply Forall_app in He as [H1 [H2 _]%Forall_cons]. apply Forall_app. split; [done|].
    by apply Forall_singleton. }
  assert (length (Q ++ [d]) = S (length Q)) as Hl by (rewrite length_app; simpl; lia).
  destruct (Z.eqb_spec (size w - c) 0) as [E|E]; simpl.
  - assert (x + c = user + total) as Hxc by lia. split; [done|]. exists Q, (d' 1). split; try done.
    + exists rest. unfold settle. cbn. destruct (Z.eqb_spec (size w - c) 0); [|lia]. split; [done|].
      rewrite length_app in *. simpl in *. lia.
    + by rewrite <- Hxc.
    + rewrite <- Hxc, length_app in *. simpl in *. lia.
  - split; [lia|]. unfold settle. destruct (Z.eqb_spec (size w - c) 0); [lia|]. split; [done|].
    exists (Q ++ [d' 0]), rest. split; cbn; try done; try lia.
    + rewrite <- app_assoc. done.
    + rewrite length_app. simpl. lia.
    + destruct Q; simpl; [done|]. rewrite length_app. simpl. f_equal. lia.
    + rewrite <- app_assoc, !length_app in *. simpl in *. lia.
    + apply Forall_app. split; [done|]. by apply Forall_singleton.
    + intros Hnil. by destruct Q.
    + intros _. subst c. dlia.
    + rewrite length_app in *. simpl in *. lia.
Qed.

(** A descriptor is added for the chunk at [x], or the table is used up. *)
Lemma step_create user total k P rest x w :
  inv user total k P rest x w -> offset w = x mod 4096 -> valid_at x = true ->
  let c := Z.min (size w) (4096 - x mod 4096) in
  exists r w', (full ← prd_create (phys_at x - x mod 4096) c;
                if (full : bool) then mret (Some Fault_exit) else prd_settle c) w = Ok (r, w') /\
    ((r = Some Fault_exit /\ k <= pages_upto user (x + c)) \/ stepped user total k (x + c) r w').
Proof.
  intros [I1 I2 I3 I4 I5 I6 I7 I8 I9 I10 I11 I12 I13 I14 I15] Ho Hv c.
  destruct (frame_run x Hv) as [_ Hfb].
  assert (0 < c <= 4096 - x mod 4096) as Hc by (unfold c; dlia).
  assert (x = user \/ x mod 4096 = 0) as Hal by (destruct P; [left; by apply I12|right; by apply I13]).
  pose proof (pages_upto_step user x c ltac:(lia) Hc Hal) as Hpu.
  destruct rest as [|r0 rest]; [simpl in I8; lia|].
  destruct (create_run w x P r0 rest (phys_at x - x mod 4096) I3 I4) as (d & s' & Hr & Hs' & Hda & Hdz).
  fold c in Hr, Hdz. rewrite Ho in Hda. rewrite Z.sub_add, u32_small in Hda by dlia.
  unfold u16 in Hdz. rewrite wrap_small in Hdz by dlia.
  destruct (Z.eqb_spec (items w - 1) 0) as [E|E].
  - eexists _, s'. split; [by erewrite bind_ok by exact Hr|]. left. split; [done|].
    rewrite I6 in E. rewrite length_app in I7. simpl in *. lia.
  - specialize (Hs' ltac:(lia)). erewrite bind_ok by exact Hr. cbv beta iota.
    pose proof (settle_run w x s' P d rest) as Hset. rewrite Hs' in Hset at 1 2 3 4 5.
    specialize (Hset eq_refl eq_refl eq_refl eq_refl eq_refl). fold c in Hset.
    rewrite Hs' in Hset. cbn [next items] in Hset.
    eexists _, _. split; [rewrite Hs'; exact Hset|]. right.
    replace (items w - 1) with (Z.of_nat (length rest)) by (rewrite I6; simpl; lia).
    apply settle_inv; try done; try lia.
    + apply describes_snoc; (done || lia).
    + apply Forall_app. split; [done|]. apply Forall_singleton. unfold entry_fits. dlia.
    + rewrite length_app in *. simpl in *. lia.
    + rewrite I6 in E. simpl in E. lia.
    + rewrite length_app. simpl. fold c. lia.
Qed.

(** The chunk at [x] continues the last descriptor. *)
Lemma step_extend user total k Q d rest x w :
  inv user total k (Q ++ [d]) rest x w -> offset w = x mod 4096 -> valid_at x = true ->
  (prd_size d <=? 57344) && (u32 (prd_addr d + prd_size d) =? phys_at x - x mod 4096) = true ->
  let c := Z.min (size w) (4096 - x mod 4096) in
  exists r w', (full ← prd_extend c;
                if (full : bool) then mret (Some Fault_exit) else prd_settle c) w = Ok (r, w') /\
    stepped user total k (x + c) r w'.
Proof.
  intros [I1 I2 I3 I4 I5 I6 I7 I8 I9 I10 I11 I12 I13 I14 I15] Ho Hv Hcomb c.
  destruct (frame_run x Hv) as [_ Hfb]. bool_to_prop.
  assert (0 < c <= 4096 - x mod 4096) as Hc by (unfold c; dlia).
  assert (x mod 4096 = 0) as Hal by (apply I13; by destruct Q).
  pose proof (pages_upto_step user x c ltac:(lia) Hc ltac:(by right)) as Hpu.
  apply Forall_app in I10 as [He1 [He2 _]%Forall_cons]. apply Forall_app in I11 as [Ho1 _].
  pose proof He2 as (E1 & E2 & E3). rewrite u32_small in * by lia.
  rewrite <- app_assoc in I3. simpl in I3.
  assert (prev w = Some (length Q)) as Hprev.
  { rewrite I5. destruct Q; simpl; [done|]. rewrite length_app. simpl. f_equal. lia. }
  erewrite bind_ok by (by apply (extend_run w x Q d rest)). cbv beta iota. fold c.
  assert (u16 (prd_size d + c) = prd_size d + c) as -> by (apply wrap_small; dlia).
  eexists _, _. split; [by apply (settle_run w x _ Q (set_prd_size (prd_size d + c) d) rest)|]. cbn [next items with_table].
  rewrite I6. apply settle_inv; try done; try lia.
  - eapply describes_extend; [exact I9|lia..|done|done].
  - apply Forall_app. split; [done|]. apply Forall_singleton. unfold entry_fits. cbn. dlia.
  - rewrite !length_app in *. simpl in *. lia.
  - rewrite !length_app in *. simpl in *. fold c. lia.
  - rewrite I4, length_app. simpl. lia.
Qed.

Lemma step_page user total k P rest x w :
  inv user total k P rest x w -> offset w = x mod 4096 -> valid_at x = true ->
  let c := Z.min (size w) (4096 - x mod 4096) in
  exists r w', pte_step (x - x mod 4096) w = Ok (r, w') /\
    ((r = Some Fault_exit /\ k <= pages_upto user (x + c)) \/ stepped user total k (x + c) r w').
Proof.
  intros Hi Ho Hv c. destruct (frame_run x Hv) as [Hf _].
  assert (forall b, prd_combine (phys_at x - x mod 4096) w = Ok (b, w) -> pte_step (x - x mod 4096) w
    = (full ← (if b then prd_extend c else prd_create (phys_at x - x mod 4096) c);
       if (full : bool) then mret (Some Fault_exit) else prd_settle c) w) as Hstep.
  { intros b Hb. unfold pte_step. rewrite Hf. erewrite bind_ok by done. cbv beta. rewrite Ho, page_size.
    destruct (Z.ltb_spec (x mod 4096) 4096); [|dlia]. unfold valid_at in Hv. rewrite Hv. cbn [negb].
    by erewrite bind_ok by exact Hb. }
  destruct P as [|d Q _] using rev_ind.
  - rewrite (Hstep false) by (unfold prd_combine; erewrite bind_ok by done; by rewrite (inv_prev _ _ _ _ _ _ _ Hi)).
    by apply (step_create user total k [] rest).
  - assert (prdt w = Q ++ d :: rest) as Ht by (rewrite (inv_table _ _ _ _ _ _ _ Hi), <- app_assoc; done).
    assert (prev w = Some (length Q)) as Hp.
    { rewrite (inv_prev _ _ _ _ _ _ _ Hi). destruct Q; simpl; [done|]. rewrite length_app. simpl. f_equal. lia. }
    pose proof (combine_run w Q d rest (phys_at x - x mod 4096) Ht Hp) as Hcr.
    rewrite (Hstep _ Hcr). destruct (_ && _) eqn:E.
    + destruct (step_extend user total k Q d rest x w Hi Ho Hv E) as (r & w' & Hr & Hs). eauto 10.
    + by apply (step_create user total k (Q ++ [d]) rest).
Qed.

(** ** The whole buffer *)

Lemma inv_offset user total k P rest x w o :
  inv user total k P rest x w -> inv user total k P rest x (with_offset o w).
Proof. by intros []. Qed.

Lemma inv_set_cache user total k P rest x w c :
  inv user total k P rest x w -> (forall v, c = Some v -> v ∈ areas mm_rb) ->
  inv user total k P rest x (with_cache c w).
Proof. intros [] Hc. by split. Qed.

(** Why a walk that started well can fail. *)
Definition no_way (user total k : Z) : Prop :=
  k <= pages_upto user (user + total) \/ exists y, user <= y < user + total /\ valid_at y = false.

(** What the loops end with. *)
Definition walked (user total k x' : Z) (r : Z + exit) (w' : walk) : Prop :=
  match r with
  | inl f => f = x' /\ exists P rest, inv user total k P rest x' w'
  | inr Finished => exists Q d, finished pte_pfn 61440 user total k Q d w'
  | inr Fault_exit => no_way user total k
  end.

Lemma pages_skip m from w :
  Z.of_nat m * 4096 <= offset w < 2 ^ 32 ->
  pages m from w = Ok (inl (from + Z.of_nat m * 4096), with_offset (offset w - Z.of_nat m * 4096) w).
Proof.
  revert from w. induction m as [|m IH]; intros from w Hm.
  - cbn [pages]. unfold mret, M_ret. rewrite Z.mul_0_l, Z.add_0_r, Z.sub_0_r. by destruct w.
  - cbn [pages]. erewrite bind_ok by (apply step_skip; lia). cbv beta iota.
    rewrite IH by (cbn; lia). cbn [offset with_offset].
    replace (from + 4096 + Z.of_nat m * 4096) with (from + Z.of_nat (S m) * 4096) by lia.
    by replace (offset w - 4096 - Z.of_nat m * 4096) with (offset w - Z.of_nat (S m) * 4096) by lia.
Qed.

Lemma pages_run n user total k P rest x w :
  inv user total k P rest x w -> offset w = x mod 4096 -> (0 < n)%nat ->
  exists r w', pages n (x - x mod 4096) w = Ok (r, w') /\
    walked user total k (x - x mod 4096 + Z.of_nat n * 4096) r w'.
Proof.
  revert P rest x w. induction n as [|n IH]; intros P rest x w Hi Ho Hn; [lia|]. cbn [pages].
  pose proof (inv_range _ _ _ _ _ _ _ Hi) as Hx. pose proof (inv_size _ _ _ _ _ _ _ Hi) as Hz.
  destruct (valid_at x) eqn:Hv.
  - destruct (step_page user total k P rest x w Hi Ho Hv) as (r & w1 & Hr & Hc).
    set (c := Z.min (size w) (4096 - x mod 4096)) in *.
    erewrite bind_ok by exact Hr. cbv beta.
    destruct Hc as [[-> Hk]|Hs].
    + eexists _, w1. split; [done|]. left.
      pose proof (pages_upto_mono user (x + c) (user + total) ltac:(unfold c in *; dlia)). lia.
    + destruct r as [[]|]; [done|exists (inr Finished), w1; split; [done|apply Hs]|].
      destruct Hs as (Hlt & Ho1 & P1 & rest1 & Hi1).
      assert (x + c = x - x mod 4096 + 4096) as Hxc by (unfold c in *; lia).
      rewrite <- Hxc. destruct n as [|n].
      * cbn [pages]. eexists _, w1. split; [done|]. split; [unfold c in *; lia|]. exists P1, rest1.
        replace (x - x mod 4096 + Z.of_nat 1 * 4096) with (x + c) by lia. done.
      * assert ((x + c) mod 4096 = 0) as Hal by (rewrite Hxc; dlia).
        destruct (IH P1 rest1 (x + c) w1 Hi1 ltac:(congruence) ltac:(lia)) as (r' & w' & Hr' & Hw').
        rewrite Hal, Z.sub_0_r in Hr', Hw'. exists r', w'. split; [done|].
        replace (x - x mod 4096 + Z.of_nat (S (S n)) * 4096) with (x + c + Z.of_nat (S n) * 4096) by lia. done.
  - exists (inr Fault_exit), w. split.
    + assert (pte_step (x - x mod 4096) w = Ok (Some Fault_exit, w)) as Hf.
      { unfold pte_step. erewrite bind_ok by done. cbv beta. rewrite Ho, page_size.
        destruct (Z.ltb_spec (x mod 4096) 4096); [|dlia]. unfold valid_at in Hv. by rewrite Hv. }
      by erewrite bind_ok by exact Hf.
    + right. exists x. done.
Qed.

(** The buffer lies in areas of the task. *)
Definition covered (user total : Z) : Prop :=
  forall y, user <= y < user + total -> exists v, v ∈ areas mm_rb /\ vm_start v <= y < vm_end v.

Lemma area_bounds v : v ∈ areas mm_rb ->
  0 <= vm_start v /\ vm_start v < vm_end v <= TASK_SIZE /\ vm_start v mod 4096 = 0 /\ vm_end v mod 4096 = 0.
Proof.
  intros Hv. pose proof areas_pages as Hp. rewrite Forall_forall in Hp. specialize (Hp v Hv). simpl in Hp.
  apply list_elem_of_split in Hv as (l1 & l2 & Hl). pose proof areas_ordered as Ho. rewrite Hl in Ho.
  apply ordered_app in Ho as (_ & _ & _ & H1 & H2). lia.
Qed.

Lemma area_run user total k P rest x w v :
  inv user total k P rest x w -> v ∈ areas mm_rb -> vm_start v <= x < vm_end v ->
  offset w = x - vm_start v ->
  exists r w', loop PTRS_PER_PGD (pgd_body (PAGE_ALIGN (vm_end v))) (vm_start v) w = Ok (r, w') /\
    walked user total k (vm_end v) r w'.
Proof.
  intros Hi Hv Hx Ho. destruct (area_bounds v Hv) as (B1 & B2 & B3 & B4). unfold TASK_SIZE in B2.
  assert (PAGE_ALIGN (vm_end v) = vm_end v) as -> by (rewrite page_align, u32_small by lia; dlia).
  set (m := Z.to_nat ((x - vm_start v) / 4096)). set (n := Z.to_nat ((vm_end v - (x - x mod 4096)) / 4096)).
  assert (Z.of_nat m * 4096 = x - x mod 4096 - vm_start v) as Hm.
  { unfold m. rewrite Z2Nat.id by dlia. dlia. }
  assert (Z.of_nat n * 4096 = vm_end v - (x - x mod 4096)) as Hn.
  { unfold n. rewrite Z2Nat.id by dlia. dlia. }
  rewrite (pgd_loop_pages _ (m + n)).
  2: { unfold stretch. split_and!; dlia. }
  2: { unfold TASK_SIZE. lia. }
  2: { unfold PTRS_PER_PGD. dlia. }
  rewrite pages_app. erewrite bind_ok by (apply pages_skip; dlia). cbv beta iota.
  rewrite Hm, Ho. replace (vm_start v + (x - x mod 4096 - vm_start v)) with (x - x mod 4096) by lia.
  destruct (pages_run n user total k P rest x
    (with_offset (x - vm_start v - (x - x mod 4096 - vm_start v)) w)) as (r & w' & Hr & Hw).
  { by apply inv_offset. }
  { cbn. lia. }
  { dlia. }
  exists r, w'. split; [done|].
  replace (x - x mod 4096 + Z.of_nat n * 4096) with (vm_end v) in Hw by lia. done.
Qed.

Lemma vma_body_run user total k P rest x w :
  inv user total k P rest x w -> covered user total ->
  exists v r w', v ∈ areas mm_rb /\ x < vm_end v /\
    vma_body x w = Ok (r, w') /\ walked user total k (vm_end v) r w'.
Proof.
  intros Hi Hc. pose proof (inv_range _ _ _ _ _ _ _ Hi) as Hx. pose proof (inv_size _ _ _ _ _ _ _ Hi) as Hz.
  destruct (Hc x Hx) as (v & Hv & Hxv). destruct (area_bounds v Hv) as (B1 & B2 & _ & _). unfold TASK_SIZE in B2.
  destruct (find_vma_run x w (inv_cache _ _ _ _ _ _ _ Hi)) as (ch & Hf & Hch).
  rewrite (first_above_some x _ 0 v areas_ordered Hv Hxv) in Hf.
  destruct (area_run user total k P rest x (with_offset (x - vm_start v) (with_cache ch w)) v) as (r & w' & Hr & Hw);
    [by apply inv_offset, inv_set_cache|done|done|done|].
  exists v, r, w'. split_and!; [done|lia| |done].
  unfold vma_body. erewrite bind_ok by done. cbv beta. destruct (Z.eqb_spec (size w) 0); [lia|].
  erewrite bind_ok by exact Hf. cbv beta iota. rewrite u32_small by lia. erewrite bind_ok by done. cbv beta.
  erewrite bind_ok by exact Hr. by destruct r.
Qed.

(** The areas that are left above an address bound the turns. *)
Definition areas_above (x : Z) : list vm_area := filter (fun v => x < vm_end v) (areas mm_rb).

Lemma areas_above_less x v : v ∈ areas mm_rb -> x < vm_end v ->
  (length (areas_above (vm_end v)) < length (areas_above x))%nat.
Proof.
  unfold areas_above. intros (l1 & l2 & ->)%list_elem_of_split Hx.
  rewrite !filter_app, !length_app, !filter_cons. rewrite decide_False by lia. rewrite decide_True by lia.
  assert (forall l, (length (filter (fun u => (vm_end v < vm_end u)%Z) l) <= length (filter (fun u => (x < vm_end u)%Z) l))%nat) as Hl.
  { intros l. induction l as [|u l IH]; [done|]. rewrite !filter_cons.
    destruct (decide (vm_end v < vm_end u)); [rewrite decide_True by lia|destruct (decide _)]; simpl; lia. }
  pose proof (Hl l1). pose proof (Hl l2). simpl. lia.
Qed.

Lemma vma_loop_run n user total k P rest x w :
  inv user total k P rest x w -> covered user total -> (length (areas_above x) < n)%nat ->
  exists e w', loop n vma_body x w = Ok (e, w') /\
    match e with
    | Finished => exists Q d, finished pte_pfn 61440 user total k Q d w'
    | Fault_exit => no_way user total k
    end.
Proof.
  revert P rest x w. induction n as [|n IH]; intros P rest x w Hi Hc Hn; [lia|].
  destruct (vma_body_run user total k P rest x w Hi Hc) as (v & r & w1 & Hv & Hxv & Hr & Hw).
  cbn [loop]. erewrite bind_ok by exact Hr. cbv beta. destruct r as [f|e].
  - destruct Hw as (-> & P1 & rest1 & Hi1). apply (IH P1 rest1); [done|done|].
    pose proof (areas_above_less x v Hv Hxv). lia.
  - exists e, w1. split; [done|]. by destruct e.
Qed.

Lemma count_areas_length t : count_areas t = length (areas t).
Proof. induction t as [|l IHl v r IHr]; simpl; [done|]. rewrite length_app. simpl. lia. Qed.

(** The range of a descriptor that is flushed. *)
Definition range_of (d : prdt_struct) : Z * Z := (prd_addr d, u32 (prd_addr d + prd_size d)).

Lemma flush_run Q d rest L w acc fuel :
  prdt w = L ++ Q ++ d :: rest -> Forall (fun d => prd_EDT d = 0) Q -> prd_EDT d = 1 ->
  (length Q < fuel)%nat ->
  loop fuel flush_body (length L, acc) w = Ok (acc ++ (range_of <$> (Q ++ [d])), w).
Proof.
  revert L acc fuel. induction Q as [|q Q IH]; intros L acc fuel Ht Ho Hd Hf;
    (destruct fuel as [|fuel]; [simpl in Hf; lia|]); cbn [loop].
  - erewrite bind_ok by (unfold flush_body; erewrite bind_ok by (by apply (read_prd_run w L d rest)); reflexivity).
    cbv beta. by rewrite Hd.
  - apply Forall_cons in Ho as [Hq Ho]. simpl in Ht.
    erewrite bind_ok by (unfold flush_body; erewrite bind_ok by (by apply (read_prd_run w L q (Q ++ d :: rest))); reflexivity).
    cbv beta. rewrite Hq. cbn [Z.eqb].
    specialize (IH (L ++ [q]) (acc ++ [range_of q]) fuel).
    rewrite <- app_assoc in IH. simpl in IH, Hf. rewrite length_app in IH. simpl in IH. rewrite Nat.add_1_r in IH.
    etransitivity; [apply IH; (done || lia)|]. by rewrite <- app_assoc.
Qed.

(** The state [user_to_prdt] is entered in: an unused table. *)
Record fresh (total : Z) (w : walk) : Prop := {
  fresh_next : next w = O;
  fresh_prev : prev w = None;
  fresh_items : items w = Z.of_nat (length (prdt w));
  fresh_size : size w = total;
  fresh_cache : cache_ok w;
}.

Lemma fresh_inv user total w :
  fresh total w -> 0 < total -> (0 < length (prdt w))%nat ->
  inv user total (items w) [] (prdt w) user w.
Proof.
  intros [F1 F2 F3 F4 F5] Ht Hl. split; try done; try lia.
  - unfold describes. by rewrite Z.sub_diag.
  - unfold pages_upto. by rewrite Z.eqb_refl.
Qed.

Lemma __user_to_prdt_run user total w :
  fresh total w -> 0 < total -> covered user total -> total / 4096 + 2 <= items w ->
  exists c fl w', __user_to_prdt user true w = Ok ((c, fl), w') /\
    ((c = 0 /\ exists Q d, finished pte_pfn 61440 user total (items w) Q d w' /\ fl = range_of <$> (Q ++ [d])) \/
     (c = - EFAULT /\ no_way user total (items w))).
Proof.
  intros Hf Ht Hc Hk. pose proof (fresh_items _ _ Hf) as Hit. pose proof (fresh_size _ _ Hf) as Hz.
  destruct (vma_loop_run (S (S (count_areas mm_rb))) user total (items w) [] (prdt w) user w)
    as (e & w1 & Hr & He).
  { apply fresh_inv; (done || dlia). }
  { done. }
  { rewrite count_areas_length. pose proof (length_filter (fun v => (user < vm_end v)%Z) (areas mm_rb)).
    unfold areas_above. lia. }
  assert (__user_to_prdt user true w = (match e with
    | Finished => t ← gets prdt; fl ← loop (S (length t)) flush_body (O, []); mret (0, fl)
    | Fault_exit => mret (- EFAULT, [])
    end) w1) as ->.
  { unfold __user_to_prdt. erewrite bind_ok by done. cbv beta. rewrite Hz, page_size.
    destruct (Z.ltb_spec (items w) (total / 4096 + 2)); [lia|]. cbn [negb orb].
    by erewrite bind_ok by exact Hr. }
  destruct e.
  - eexists _, _, w1. split; [done|]. by right.
  - destruct He as (Q & d & Hfin). pose proof Hfin as [(rest & Hp & Hl) F2 F3 F4 F5 F6].
    eexists _, _, w1. split; [|left; split; [done|by exists Q, d]].
    erewrite bind_ok by done. cbv beta.
    erewrite bind_ok; [done|]. apply (flush_run Q d rest []); try done.
    rewrite Hp, length_app. simpl. lia.
Qed.
End PrdtProof.
