(* ===== verification/PrdtPages.v ===== *)
(** * Tables built from pinned pages

    The other two methods of [user_to_prdt] in [drivers/video/wmt/memblock.c],
    which take the frames of the buffer from [get_user_pages] (all at once,
    [__user_to_prdt1], or page by page, [__user_to_prdt2]), the choice between
    the methods, and [user_to_virt].  [BUG_ON(1)] stores through a null pointer,
    [Undefined]. *)

From stdpp Require Import list.
From S2P Require Import Prelude MemBlock MemBlockSafe Prdt.
#[local] Open Scope Z_scope.

#[local] Abbreviation W := (M walk).

Definition PAGE_MASK : Z := Z.lnot (PAGE_SIZE - 1).

Section Methods.
Context `{AddressSpace}.

(** Memory of the kernel that was mapped into the task. *)
Definition kernel_mapped (v : vm_area) : bool := vm_io v && negb (vm_pgoff v =? 0).

(** What is left of the page of [ptr], or of the buffer. *)
Definition page_part (ptr size : Z) : Z :=
  let pg_size := PAGE_SIZE - Z.land ptr (Z.lnot PAGE_MASK) in
  if size <? pg_size then size else pg_size.

(** Enter the page that holds [ptr], whose frame is [frame]; the new [ptr]. *)
Definition prd_add (frame ptr : Z) (pg_idx : nat) : W Z :=
  w ← get;
  let pg_size := page_part ptr (size w) in
  let phys := u32 (Z.shiftl frame PAGE_SHIFT + Z.land ptr (Z.lnot PAGE_MASK)) in
  d ← read_prd (next w);
  (if negb (u32 (prd_addr d + prd_size d) =? phys) || (65536 <=? prd_size d + pg_size) || (pg_idx =? 0)%nat then
     (if (pg_idx =? 0)%nat then mret tt
      else write_prd (next w) (set_EDT 0);; modify (with_next (S (next w)) (prev w) (items w)));;
     n ← gets next;
     write_prd n (fun _ => MkPrd phys 0 0 0)
   else mret tt);;
  n ← gets next;
  write_prd n (fun d => set_EDT 1 (set_prd_size (u16 (prd_size d + pg_size)) d));;
  modify (with_size (size w - pg_size));;
  mret (u32 (ptr + pg_size)).

(** The pages the loops can take. *)
Definition page_fuel (size : Z) : nat := (Z.to_nat (size / PAGE_SIZE) + 3)%nat.

Definition prdt1_body (pg_user : list Z) (a : Z * nat) : W (Z * nat + unit) :=
  let '(ptr, pg_idx) := a in
  z ← gets size;
  if (0 <? Z.of_nat (length pg_user)) && (0 <? z) then
    frame ← initialised (pg_user !! pg_idx);
    ptr ← prd_add frame ptr pg_idx;
    mret (inl (ptr, S pg_idx))
  else mret (inr tt).

Definition __user_to_prdt1 (user : Z) (table : bool) : W Z :=
  vma ← find_vma user;
  if match vma with Some v => kernel_mapped v | None => false end then fail_with Undefined
  else
    w ← get;
    let nr_pages := u32 (size w + (PAGE_SIZE - 1)) / PAGE_SIZE in
    if negb table || (items w <? size w / PAGE_SIZE + 2) || (2560 <? nr_pages) then mret (- EINVAL)
    else
      let pg_user := get_user_pages user (Z.to_nat nr_pages) in
      loop (page_fuel (size w)) (prdt1_body pg_user) (user, O);;
      n ← gets next;
      write_prd n (set_EDT 1);;
      z ← gets size;
      mret (s32 z).

Definition prdt2_body (a : Z * nat) : W (Z * nat + Z) :=
  let '(ptr, pg_idx) := a in
  z ← gets size;
  if z =? 0 then mret (inr 0)
  else
    match get_user_pages ptr 1 with
    | [frame] => ptr ← prd_add frame ptr pg_idx; mret (inl (ptr, S pg_idx))
    | _ => n ← gets next; write_prd n (set_EDT 1);; mret (inr (- EFAULT))
    end.

Definition __user_to_prdt2 (user : Z) (table : bool) : W Z :=
  vma ← find_vma user;
  if match vma with Some v => kernel_mapped v | None => false end then fail_with Undefined
  else
    w ← get;
    if negb table || (items w <? size w / PAGE_SIZE + 2) then mret (- EINVAL)
    else loop (page_fuel (size w)) prdt2_body (user, O).

(** The table is printed up to its mark. *)
Definition show_body (idx : nat) : W (nat + unit) :=
  d ← read_prd idx; mret (if prd_EDT d =? 0 then inl (S idx) else inr tt).
Definition show_prdt (table : bool) : W unit :=
  if table then t ← gets prdt; loop (S (length t)) show_body O else fail_with Undefined.

Definition user_to_prdt (method level user : Z) (table : bool) : W Z :=
  ret ← (if method =? 1 then __user_to_prdt1 user table
         else if method =? 2 then __user_to_prdt2 user table
         else r ← __user_to_prdt user table; mret (fst r));
  (if 1 <? level then show_prdt table else mret tt);;
  mret ret.

Definition user_to_virt (user : Z) : W Z :=
  vma ← find_vma user;
  mret (match v ← vma; if kernel_mapped v then Some v else None with
        | Some v => va (u32 (Z.shiftl (vm_pgoff v) PAGE_SHIFT + (user - vm_start v)))
        | None =>
            match get_user_pages user 1 with
            | [frame] => u32 (va (Z.shiftl frame PAGE_SHIFT) + Z.land user (Z.lnot PAGE_MASK))
            | _ => 0
            end
        end).
End Methods.

(** ** Specification of [get_user_pages] *)

Fixpoint leading {A} (l : list (option A)) : list A :=
  match l with Some a :: l' => a :: leading l' | _ => [] end.

(** The pages of the task that can be had, by the address of the page: the
    frames are returned in order, up to the first that cannot be had. *)
Class UserPages `{AddressSpace} := {
  user_frame : Z -> option Z;
  pinned : forall addr n, 0 <= addr ->
    get_user_pages addr n
    = leading ((fun i => user_frame (addr - addr mod 4096 + Z.of_nat i * 4096)) <$> seq 0 n);
  user_frame_range : forall a f, user_frame a = Some f -> 0 <= f < 2 ^ 20 - 1;
}.

Lemma page_offset x : Z.land x (Z.lnot PAGE_MASK) = x mod 4096.
Proof.
  unfold PAGE_MASK. rewrite Z.lnot_involutive, page_size. change (4096 - 1) with (Z.ones 12).
  by rewrite Z.land_ones.
Qed.

Lemma page_part_min x z : page_part x z = Z.min z (4096 - x mod 4096).
Proof.
  unfold page_part. cbv zeta. rewrite page_offset, page_size. case_match; bool_to_prop; lia.
Qed.

Section PagesProof.
Context `{AS : AddressSpace} {UP : UserPages}.

Definition frame_at (a : Z) : Z := default 0 (user_frame a).
Definition held (x : Z) : Prop := is_Some (user_frame (x - x mod 4096)).

Lemma held_frame x : held x -> user_frame (x - x mod 4096) = Some (frame_at (x - x mod 4096)) /\
  u32 (Z.shiftl (frame_at (x - x mod 4096)) PAGE_SHIFT + Z.land x (Z.lnot PAGE_MASK)) = phys_of frame_at x /\
  0 <= phys_of frame_at x /\ phys_of frame_at x + (4096 - x mod 4096) < 2 ^ 32.
Proof.
  intros [f Hf]. unfold phys_of, frame_at. rewrite Hf. cbn [from_option id].
  apply user_frame_range in Hf. rewrite shl12, page_offset. pose proof (Z.mod_pos_bound x 4096 eq_refl).
  rewrite u32_small by lia. split_and!; (done || lia).
Qed.

(** The table between two turns: [P] names the bytes up to [x]. *)
Record partial (user total k : Z) (P rest : list prdt_struct) (x : Z) (i : nat) (w : walk) : Prop := {
  par_range : user <= x <= user + total;
  par_size : size w = user + total - x;
  par_table : prdt w = P ++ rest;
  par_next : next w = (length P - 1)%nat;
  par_length : Z.of_nat (length (P ++ rest)) = k;
  par_bytes : describes frame_at user P x;
  par_entries : Forall (entry_fits 65535) P;
  par_marks : forall Q d, P = Q ++ [d] -> Forall (fun d => prd_EDT d = 0) Q /\ prd_EDT d = 1;
  par_count : Z.of_nat (length P) <= pages_upto user x;
  par_pages : Z.of_nat i = pages_upto user x;
  par_align : x = user \/ x mod 4096 = 0 \/ x = user + total;
  par_start : P = [] <-> x = user;
}.

(** The end of a turn, whatever the table became. *)
Definition turned (c : Z) (t : list prdt_struct) (n : nat) (w : walk) : walk :=
  MkWalk (mmap_cache w) t n (prev w) (items w) (size w - c) (offset w).

Section Turn.
Context (w : walk) (x : Z) (Hx : held x).
#[local] Abbreviation c := (Z.min (size w) (4096 - x mod 4096)).
#[local] Abbreviation f := (frame_at (x - x mod 4096)).
Context (Hc : 0 <= c).

Lemma chunk_small : u16 (0 + c) = c.
Proof. apply wrap_small. dlia. Qed.

Lemma add_first r0 rest :
  prdt w = r0 :: rest -> next w = O ->
  prd_add f x 0 w = Ok (u32 (x + c), turned c (MkPrd (phys_of frame_at x) c 0 1 :: rest) 0 w).
Proof.
  intros Ht Hn. unfold prd_add. erewrite bind_ok by done. cbv beta zeta. rewrite page_part_min, Hn.
  erewrite bind_ok by (by apply (read_prd_run w [] r0 rest)). cbv beta.
  rewrite (proj1 (proj2 (held_frame x Hx))). rewrite orb_true_r. cbn [Nat.eqb].
  erewrite bind_ok; [|erewrite bind_ok by done; erewrite bind_ok by done; by apply (write_prd_run _ [] r0 rest)].
  cbv beta. erewrite bind_ok by done. cbv beta.
  erewrite bind_ok by (by apply (write_prd_run _ [] (MkPrd (phys_of frame_at x) 0 0 0) rest)). cbv beta.
  unfold set_EDT, set_prd_size. cbn [prd_addr prd_size prd_reserve]. rewrite chunk_small.
  erewrite bind_ok by done. unfold turned, with_table. cbn. by rewrite Hn.
Qed.

Lemma add_new i Q d r0 rest :
  prdt w = Q ++ d :: r0 :: rest -> next w = length Q ->
  (u32 (prd_addr d + prd_size d) <> phys_of frame_at x \/ 65536 <= prd_size d + c) ->
  prd_add f x (S i) w
  = Ok (u32 (x + c), turned c (Q ++ set_EDT 0 d :: MkPrd (phys_of frame_at x) c 0 1 :: rest) (S (length Q)) w).
Proof.
  intros Ht Hn Hnew. unfold prd_add. erewrite bind_ok by done. cbv beta zeta. rewrite page_part_min, Hn.
  erewrite bind_ok by (by apply (read_prd_run w Q d (r0 :: rest))). cbv beta.
  rewrite (proj1 (proj2 (held_frame x Hx))). cbn [Nat.eqb]. rewrite orb_false_r.
  assert (negb (u32 (prd_addr d + prd_size d) =? phys_of frame_at x) || (65536 <=? prd_size d + c) = true) as ->.
  { destruct Hnew as [Hne|Hge]; [apply Z.eqb_neq in Hne; by rewrite Hne|].
    apply Z.leb_le in Hge. by rewrite Hge, orb_true_r. }
  assert (forall z, Q ++ set_EDT 0 d :: z :: rest = (Q ++ [set_EDT 0 d]) ++ z :: rest) as Ha.
  { intros z. by rewrite <- app_assoc. }
  assert (S (length Q) = length (Q ++ [set_EDT 0 d])) as Hl by (rewrite length_app; simpl; lia).
  erewrite bind_ok.
  2: { erewrite bind_ok by (erewrite bind_ok by (by apply (write_prd_run _ Q d (r0 :: rest))); reflexivity).
       cbv beta. erewrite bind_ok by done. cbv beta.
       apply (write_prd_run _ (Q ++ [set_EDT 0 d]) r0 rest); [apply Ha|apply Hl]. }
  cbv beta. erewrite bind_ok by done. cbv beta.
  erewrite bind_ok by (by apply (write_prd_run _ (Q ++ [set_EDT 0 d]) (MkPrd (phys_of frame_at x) 0 0 0) rest)).
  cbv beta. unfold set_EDT at 1, set_prd_size. cbn [prd_addr prd_size prd_reserve]. rewrite chunk_small.
  erewrite bind_ok by done. unfold turned, with_table. cbn. by rewrite <- app_assoc.
Qed.

Lemma add_more i Q d rest :
  prdt w = Q ++ d :: rest -> next w = length Q -> 0 <= prd_size d ->
  u32 (prd_addr d + prd_size d) = phys_of frame_at x -> prd_size d + c < 65536 ->
  prd_add f x (S i) w
  = Ok (u32 (x + c), turned c (Q ++ MkPrd (prd_addr d) (prd_size d + c) (prd_reserve d) 1 :: rest) (length Q) w).
Proof.
  intros Ht Hn Hz He Hlt. unfold prd_add. erewrite bind_ok by done. cbv beta zeta. rewrite page_part_min, Hn.
  erewrite bind_ok by (by apply (read_prd_run w Q d rest)). cbv beta.
  rewrite (proj1 (proj2 (held_frame x Hx))), He, Z.eqb_refl. cbn [negb orb Nat.eqb].
  destruct (Z.leb_spec 65536 (prd_size d + c)); [lia|]. cbn [orb].
  erewrite bind_ok by done. cbv beta. erewrite bind_ok by done. cbv beta.
  erewrite bind_ok by (by apply (write_prd_run _ Q d rest)). cbv beta.
  erewrite bind_ok by done. unfold set_EDT, set_prd_size. cbn [prd_addr prd_size prd_reserve].
  assert (u16 (prd_size d + c) = prd_size d + c) as -> by (apply wrap_small; lia).
  unfold turned, with_table. cbn. by rewrite Hn.
Qed.
End Turn.

(** The invariant after a turn that leaves [Q] and, as the last, [d]. *)
Lemma partial_turn user total k P rest x i w Q d rest' :
  let c := Z.min (size w) (4096 - x mod 4096) in
  partial user total k P rest x i w -> x < user + total ->
  describes frame_at user (Q ++ [d]) (x + c) -> Forall (entry_fits 65535) (Q ++ [d]) ->
  Forall (fun d => prd_EDT d = 0) Q -> prd_EDT d = 1 ->
  length (Q ++ d :: rest') = length (P ++ rest) -> (length Q <= length P)%nat ->
  partial user total k (Q ++ [d]) rest' (x + c) (S i) (turned c (Q ++ d :: rest') (length Q) w).
Proof.
  intros c [I1 I2 I3 I4 I5 I6 I7 I8 I9 I10 I11 I12] Hx Hd He Ho Hm Hl HQ.
  assert (0 < c <= 4096 - x mod 4096) as Hc by (unfold c; dlia).
  assert (x = user \/ x mod 4096 = 0) as Ha by (destruct I11 as [|[|]]; [by left|by right|lia]).
  pose proof (pages_upto_step user x c ltac:(lia) Hc Ha) as Hp.
  split; cbn; try done.
  - unfold c. lia.
  - lia.
  - by rewrite <- app_assoc.
  - rewrite length_app. simpl. lia.
  - rewrite <- I5, <- Hl, <- app_assoc. done.
  - intros Q' d' [<- [= <-]]%app_inj_tail. done.
  - rewrite length_app. simpl. lia.
  - lia.
  - destruct (decide (size w <= 4096 - x mod 4096)) as [E|E].
    + right. right. unfold c. lia.
    + right. left. unfold c. rewrite Z.min_r by lia. dlia.
  - split; [by destruct Q|lia].
Qed.

Section PrdAdd.
Context (user total k x : Z) (P rest : list prdt_struct) (i : nat) (w : walk).
Context (Hi : partial user total k P rest x i w) (Hx : x < user + total) (Hh : held x).
Context (Hk : pages_upto user (user + total) <= k) (Hu : 0 <= user) (Ht : user + total < 2 ^ 32).
#[local] Abbreviation c := (Z.min (size w) (4096 - x mod 4096)).
#[local] Abbreviation new := (MkPrd (phys_of frame_at x) c 0 1).
#[local] Abbreviation f := (frame_at (x - x mod 4096)).

Lemma chunk_bounds : 0 < c <= 4096 - x mod 4096.
Proof. pose proof (par_range _ _ _ _ _ _ _ _ Hi). rewrite (par_size _ _ _ _ _ _ _ _ Hi). dlia. Qed.

Lemma chunk_next : u32 (x + c) = x + c.
Proof.
  pose proof (par_range _ _ _ _ _ _ _ _ Hi). pose proof chunk_bounds. apply u32_small.
  rewrite (par_size _ _ _ _ _ _ _ _ Hi) in *. lia.
Qed.

Lemma new_fits : entry_fits 65535 new.
Proof.
  destruct (held_frame x Hh) as (_ & _ & H1 & H2). pose proof chunk_bounds. unfold entry_fits.
  cbn [prd_addr prd_size]. dlia.
Qed.

(** There is room for one more descriptor. *)
Lemma room_left : exists r0 rest', rest = r0 :: rest'.
Proof.
  pose proof Hi as [I1 I2 _ _ I5 _ _ _ I9 _ I11 _]. pose proof chunk_bounds as Hc.
  assert (x = user \/ x mod 4096 = 0) as Ha by (destruct I11 as [|[|]]; [by left|by right|lia]).
  pose proof (pages_upto_step user x c ltac:(lia) Hc Ha) as Hp.
  pose proof (pages_upto_mono user (x + c) (user + total) ltac:(lia)) as Hmono.
  destruct rest as [|r0 rest']; [|by eexists _, _]. rewrite app_nil_r in I5. lia.
Qed.

Lemma add_first_run : P = [] -> exists rest' w', prd_add f x i w = Ok (x + c, w') /\
  partial user total k ([] ++ [new]) rest' (x + c) (S i) w'.
Proof.
  intros HP. destruct room_left as (r0 & rest' & Hr). pose proof chunk_bounds as Hc.
  pose proof Hi as [I1 I2 I3 I4 _ I6 _ _ _ I10 _ I12]. rewrite HP, Hr in I3. rewrite HP in I4, I6.
  assert (i = O) as Hi0.
  { assert (x = user) as E by (by apply I12). rewrite E in I10. unfold pages_upto in I10.
    rewrite Z.eqb_refl in I10. lia. }
  exists rest', (turned c (new :: rest') 0 w). split.
  - rewrite Hi0, (add_first w x Hh ltac:(lia) r0 rest') by done. by rewrite chunk_next.
  - apply (partial_turn _ _ _ _ _ _ _ _ [] new rest' Hi); try done.
    + apply describes_snoc; (done || lia).
    + apply Forall_singleton, new_fits.
    + by rewrite HP, Hr.
    + simpl. lia.
Qed.

Lemma add_more_run i' Q d :
  P = Q ++ [d] -> i = S i' -> prd_addr d + prd_size d = phys_of frame_at x -> prd_size d + c < 65536 ->
  exists w', prd_add f x i w = Ok (x + c, w') /\
    partial user total k (Q ++ [MkPrd (prd_addr d) (prd_size d + c) (prd_reserve d) 1]) rest (x + c) (S i) w'.
Proof.
  intros HP Hi' D1 D2. pose proof chunk_bounds as Hc.
  pose proof Hi as [I1 I2 I3 I4 _ I6 I7 I8 _ _ _ _]. rewrite HP in I3, I4, I6, I7.
  destruct (I8 Q d HP) as [Ho Hm]. pose proof I7 as [He1 He2]%Forall_app.
  apply Forall_cons_1 in He2 as [(E1 & E2 & E3) _].
  rewrite <- app_assoc in I3. rewrite length_app in I4. simpl in I3, I4.
  exists (turned c (Q ++ MkPrd (prd_addr d) (prd_size d + c) (prd_reserve d) 1 :: rest) (length Q) w). split.
  - rewrite Hi', (add_more w x Hh ltac:(lia) i' Q d rest), chunk_next; try done; try lia.
    rewrite u32_small by lia. done.
  - apply (partial_turn _ _ _ _ _ _ _ _ Q _ rest Hi); try done.
    + eapply describes_extend; [exact I6|lia..|done|done].
    + apply Forall_app. split; [done|]. apply Forall_singleton. unfold entry_fits. cbn [prd_addr prd_size].
      destruct (held_frame x Hh) as (_ & _ & H1 & H2). lia.
    + by rewrite HP, <- app_assoc, !length_app.
    + rewrite HP, length_app. lia.
Qed.

Lemma add_new_run i' Q d :
  P = Q ++ [d] -> i = S i' -> (prd_addr d + prd_size d <> phys_of frame_at x \/ 65536 <= prd_size d + c) ->
  exists rest' w', prd_add f x i w = Ok (x + c, w') /\
    partial user total k ((Q ++ [set_EDT 0 d]) ++ [new]) rest' (x + c) (S i) w'.
Proof.
  intros HP Hi' D. destruct room_left as (r0 & rest' & Hr). pose proof chunk_bounds as Hc.
  pose proof Hi as [I1 I2 I3 I4 _ I6 I7 I8 _ _ _ _]. rewrite HP, Hr in I3. rewrite HP in I4, I6, I7.
  destruct (I8 Q d HP) as [Ho Hm]. pose proof I7 as [He1 He2]%Forall_app.
  apply Forall_cons_1 in He2 as [He2 _].
  pose proof He2 as (E1 & E2 & E3).
  rewrite <- app_assoc in I3. rewrite length_app in I4. simpl in I3, I4.
  exists rest', (turned c (Q ++ set_EDT 0 d :: new :: rest') (S (length Q)) w). split.
  - rewrite Hi', (add_new w x Hh ltac:(lia) i' Q d r0 rest'), chunk_next; try done; try lia.
    rewrite u32_small by lia. lia.
  - replace (S (length Q)) with (length (Q ++ [set_EDT 0 d])) by (rewrite length_app; simpl; lia).
    replace (Q ++ set_EDT 0 d :: new :: rest') with ((Q ++ [set_EDT 0 d]) ++ new :: rest')
      by (by rewrite <- app_assoc).
    apply (partial_turn _ _ _ _ _ _ _ _ (Q ++ [set_EDT 0 d]) new rest' Hi); try done.
    + apply describes_snoc; try done; try lia.
      unfold describes in *. rewrite bind_app, bind_singleton in *. done.
    + apply Forall_app. split; [|apply Forall_singleton, new_fits]. apply Forall_app. split; [done|].
      by apply Forall_singleton.
    + apply Forall_app. split; [done|]. by apply Forall_singleton.
    + rewrite HP, Hr, !length_app. simpl. lia.
    + rewrite HP, !length_app. simpl. lia.
Qed.

Lemma prd_add_run : exists P' rest' w', prd_add f x i w = Ok (x + c, w') /\
  partial user total k P' rest' (x + c) (S i) w'.
Proof.
  assert (P = [] \/ exists Q d, P = Q ++ [d]) as [HP|(Q & d & HP)].
  { clear. destruct P as [|d Q _] using rev_ind; eauto. }
  - destruct add_first_run as (rest' & w' & H); [done|]. eauto.
  - pose proof Hi as [I1 _ _ _ _ _ _ _ _ I10 _ I12].
    assert (exists i', i = S i') as [i' Ei].
    { assert (x <> user) as Hne by (rewrite <- I12, HP; by destruct Q).
      unfold pages_upto in I10. rewrite <- Z.eqb_neq in Hne. rewrite Hne in I10.
      exists (i - 1)%nat. dlia. }
    destruct (decide (prd_addr d + prd_size d = phys_of frame_at x /\ prd_size d + c < 65536)) as [[D1 D2]|D].
    + destruct (add_more_run i' Q d HP Ei D1 D2) as (w' & H). eauto.
    + destruct (add_new_run i' Q d HP Ei ltac:(lia)) as (rest' & w' & H). eauto.
Qed.
End PrdAdd.

(** ** Whole buffers *)

(** What both methods need of the buffer and of the table. *)
Record buffer_ok (user total k : Z) : Prop := {
  buf_low : 0 <= user;
  buf_size : 0 < total;
  buf_high : user + total < 2 ^ 32;
  buf_room : pages_upto user (user + total) <= k;
}.

Lemma pages_upto_most user total : 0 < total -> pages_upto user (user + total) <= total / 4096 + 2.
Proof. intros Ht. unfold pages_upto. destruct (Z.eqb_spec (user + total) user); dlia. Qed.

(** One turn at [x], not yet at the end. *)
Lemma partial_step user total k P rest x i w :
  buffer_ok user total k -> partial user total k P rest x i w -> x < user + total -> held x ->
  exists x' P' rest' w', prd_add (frame_at (x - x mod 4096)) x i w = Ok (x', w') /\
    x < x' /\ partial user total k P' rest' x' (S i) w'.
Proof.
  intros [B1 B2 B3 B4] Hi Hx Hh.
  destruct (prd_add_run user total k x P rest i w Hi Hx Hh B4 B1 B3) as (P' & rest' & w' & Hr & Hp).
  eexists _, P', rest', w'. split; [exact Hr|]. split; [|done]. pose proof (chunk_bounds user total k x P rest i w Hi Hx). lia.
Qed.

Lemma partial_count user total k P rest x i w :
  partial user total k P rest x i w -> x < user + total -> (Z.of_nat i < pages_upto user (user + total)).
Proof.
  intros Hi Hx. pose proof Hi as [I1 I2 _ _ _ _ _ _ _ I10 I11 _].
  pose proof (chunk_bounds user total k x P rest i w Hi Hx) as Hc.
  assert (x = user \/ x mod 4096 = 0) as Ha by (destruct I11 as [|[|]]; [by left|by right|lia]).
  pose proof (pages_upto_step user x _ ltac:(lia) Hc Ha).
  pose proof (pages_upto_mono user (x + Z.min (size w) (4096 - x mod 4096)) (user + total) ltac:(lia)). lia.
Qed.

(** The [i]-th page is the one that holds [x]. *)
Lemma partial_page user total k P rest x i w :
  partial user total k P rest x i w -> x < user + total ->
  x - x mod 4096 = user - user mod 4096 + Z.of_nat i * 4096.
Proof.
  intros [I1 _ _ _ _ _ _ _ _ I10 I11 _] Hx. rewrite I10. unfold pages_upto.
  destruct (Z.eqb_spec x user) as [->|Hne]; [lia|]. destruct I11 as [|[Ha|]]; [done| |lia]. dlia.
Qed.

Lemma partial_finished user total k P rest i w :
  partial user total k P rest (user + total) i w -> 0 < total ->
  exists Q d, P = Q ++ [d] /\ next w = length Q /\ finished frame_at 65535 user total k Q d w.
Proof.
  intros [I1 I2 I3 I4 I5 I6 I7 I8 I9 I10 I11 I12] Ht.
  assert (P = [] \/ exists Q d, P = Q ++ [d]) as [->|(Q & d & ->)].
  { clear. destruct P as [|d Q _] using rev_ind; eauto. }
  { assert (user + total = user) by (by apply I12). lia. }
  destruct (I8 Q d eq_refl) as [Ho Hm]. exists Q, d. split; [done|]. split.
  { rewrite I4, length_app. simpl. lia. }
  split; try done. exists rest. rewrite <- app_assoc in I3, I5. done.
Qed.

Lemma gup_one x : 0 <= x -> get_user_pages x 1 = match user_frame (x - x mod 4096) with Some f => [f] | None => [] end.
Proof. intros Hx. rewrite pinned by done. simpl. rewrite Z.add_0_r. by destruct (user_frame _). Qed.

Lemma prdt2_loop n user total k P rest x i w :
  buffer_ok user total k -> (forall y, user <= y < user + total -> held y) ->
  partial user total k P rest x i w -> pages_upto user (user + total) - Z.of_nat i < Z.of_nat n ->
  exists P' rest' i' w', loop n prdt2_body (x, i) w = Ok (0, w') /\
    partial user total k P' rest' (user + total) i' w'.
Proof.
  intros Hb Hh. revert P rest x i w. induction n as [|n IH]; intros P rest x i w Hi Hn.
  - exfalso. pose proof (par_pages _ _ _ _ _ _ _ _ Hi) as Hp. pose proof (par_range _ _ _ _ _ _ _ _ Hi) as Hr.
    pose proof (pages_upto_mono user x (user + total) ltac:(lia)). lia.
  - destruct (decide (x = user + total)) as [->|Hne].
    + exists P, rest, i, w. split; [|done]. apply loop_exit. unfold prdt2_body.
      erewrite bind_ok by done. cbv beta. rewrite (par_size _ _ _ _ _ _ _ _ Hi).
      by destruct (Z.eqb_spec (user + total - (user + total)) 0); [|lia].
    + pose proof (par_range _ _ _ _ _ _ _ _ Hi) as Hr.
      destruct (partial_step user total k P rest x i w Hb Hi ltac:(lia) (Hh x ltac:(lia)))
        as (x' & P' & rest' & w' & Hadd & Hlt & Hi').
      rewrite (loop_next n _ _ _ (x', S i) w'); [apply (IH P' rest' x' (S i) w' Hi'); lia|]. unfold prdt2_body.
      erewrite bind_ok by done. cbv beta. rewrite (par_size _ _ _ _ _ _ _ _ Hi).
      destruct (Z.eqb_spec (user + total - x) 0); [lia|]. rewrite gup_one by (destruct Hb; lia).
      rewrite (proj1 (held_frame x (Hh x ltac:(lia)))). by erewrite bind_ok by exact Hadd.
Qed.

(** The frames [get_user_pages] left in the array. *)
Definition pins (user : Z) (L : list Z) : Prop :=
  forall j f, L !! j = Some f -> user_frame (user - user mod 4096 + Z.of_nat j * 4096) = Some f.

Lemma prdt1_loop n user total k L P rest x i w :
  buffer_ok user total k -> pins user L -> (0 < length L)%nat ->
  partial user total k P rest x i w -> pages_upto user (user + total) - Z.of_nat i < Z.of_nat n ->
  (i <= length L)%nat ->
  if pages_upto user (user + total) <=? Z.of_nat (length L) then
    exists P' rest' i' w', loop n (prdt1_body L) (x, i) w = Ok (tt, w') /\
      partial user total k P' rest' (user + total) i' w'
  else loop n (prdt1_body L) (x, i) w = Fault Undefined.
Proof.
  intros Hb HL H0. revert P rest x i w. induction n as [|n IH]; intros P rest x i w Hi Hn Hil.
  - exfalso. pose proof (par_pages _ _ _ _ _ _ _ _ Hi) as Hp. pose proof (par_range _ _ _ _ _ _ _ _ Hi) as Hr.
    pose proof (pages_upto_mono user x (user + total) ltac:(lia)). lia.
  - assert (prdt1_body L (x, i) w = (if 0 <? user + total - x then
      (frame ← initialised (L !! i); (ptr ← prd_add frame x i; mret (inl (ptr, S i))))
      else mret (inr tt)) w) as Hbody.
    { unfold prdt1_body. erewrite bind_ok by done. cbv beta. rewrite (par_size _ _ _ _ _ _ _ _ Hi).
      destruct (Z.ltb_spec 0 (Z.of_nat (length L))); [done|lia]. }
    pose proof (par_range _ _ _ _ _ _ _ _ Hi) as Hr. destruct (decide (x = user + total)) as [->|Hne].
    + rewrite Z.sub_diag in Hbody. pose proof (par_pages _ _ _ _ _ _ _ _ Hi) as Hp.
      destruct (Z.leb_spec (pages_upto user (user + total)) (Z.of_nat (length L))); [|lia].
      exists P, rest, i, w. split; [|done]. by apply loop_exit.
    + assert ((0 <? user + total - x) = true) as Hz by (apply Z.ltb_lt; lia). rewrite Hz in Hbody.
      pose proof (partial_count _ _ _ _ _ _ _ _ Hi ltac:(lia)) as Hcnt.
      destruct (L !! i) as [f|] eqn:Hf.
      * pose proof (HL i f Hf) as Hfr. rewrite <- (partial_page _ _ _ _ _ _ _ _ Hi ltac:(lia)) in Hfr.
        assert (held x) as Hh by (unfold held; rewrite Hfr; by eexists).
        destruct (partial_step user total k P rest x i w Hb Hi ltac:(lia) Hh) as (x' & P' & rest' & w' & Hadd & Hlt & Hi').
        assert (f = frame_at (x - x mod 4096)) as -> by (unfold frame_at; by rewrite Hfr).
        apply lookup_lt_Some in Hf.
        rewrite (loop_next n _ _ _ (x', S i) w'); [apply (IH P' rest' x' (S i) w' Hi'); lia|]. rewrite Hbody.
        erewrite bind_ok by done. cbv beta. by erewrite bind_ok by exact Hadd.
      * apply lookup_ge_None in Hf.
        destruct (Z.leb_spec (pages_upto user (user + total)) (Z.of_nat (length L))); [lia|].
        by apply loop_fault.
Qed.

Lemma leading_lookup {A} (l : list (option A)) j a : leading l !! j = Some a -> l !! j = Some (Some a).
Proof.
  revert j. induction l as [|[b|] l IH]; intros j; simpl; [by rewrite lookup_nil| |by rewrite lookup_nil].
  destruct j as [|j]; simpl; [by intros [= ->]|apply IH].
Qed.

Lemma leading_all {A} (l : list (option A)) : Forall is_Some l -> length (leading l) = length l.
Proof. induction 1 as [|o l [b ->] _ IH]; simpl; [done|]. by rewrite IH. Qed.

Lemma gup_pins user n : 0 <= user -> pins user (get_user_pages user n).
Proof.
  intros Hu j f Hj. rewrite pinned in Hj by done. apply leading_lookup in Hj.
  rewrite list_lookup_fmap in Hj. apply fmap_Some in Hj as (i & Hi & Hf).
  apply lookup_seq in Hi as [-> _]. done.
Qed.

(** As many pages as asked for, when they all hold bytes of the buffer. *)
Lemma gup_length user total n :
  0 <= user -> 0 < total -> (forall y, user <= y < user + total -> held y) ->
  Z.of_nat n <= pages_upto user (user + total) -> length (get_user_pages user n) = n.
Proof.
  intros Hu Ht Hh Hn. rewrite pinned by done. rewrite leading_all; [by rewrite length_fmap, length_seq|].
  apply Forall_fmap, Forall_forall. intros i Hi. apply in_seq in Hi. cbn.
  unfold pages_upto in Hn. destruct (Z.eqb_spec (user + total) user); [lia|].
  set (page := user - user mod 4096 + Z.of_nat i * 4096).
  assert (user <= Z.max user page < user + total) as Hy by (unfold page; dlia).
  specialize (Hh _ Hy). unfold held in Hh.
  replace (Z.max user page - Z.max user page mod 4096) with page in Hh by (unfold page; dlia). done.
Qed.

Lemma fresh_partial user total w c :
  fresh total w -> 0 < total -> partial user total (items w) [] (prdt w) user 0 (with_cache c w).
Proof.
  intros [F1 F2 F3 F4 F5] Ht. split; cbn; try done; try lia.
  - unfold describes. by rewrite Z.sub_diag.
  - intros Q d E. by destruct Q.
  - unfold pages_upto. by rewrite Z.eqb_refl.
  - unfold pages_upto. by rewrite Z.eqb_refl.
Qed.
End PagesProof.

Section Calls.
Context `{AS : AddressSpace} {Spec : AddressSpaceSpec} {UP : UserPages}.

(** The call is not about memory of the kernel that is mapped to the task. *)
Definition plain (user : Z) : Prop :=
  forall v, first_above user (areas mm_rb) = Some v -> kernel_mapped v = false.

Lemma find_vma_plain user w :
  plain user -> cache_ok w ->
  exists c, forall A (m n : M walk A),
    (vma ← find_vma user;
     if match vma with Some v => kernel_mapped v | None => false end then m else n) w = n (with_cache c w).
Proof.
  intros Hp Hc. destruct (find_vma_run user w Hc) as (c & Hf & _). exists c. intros A m n.
  erewrite bind_ok by exact Hf. cbv beta.
  destruct (first_above user (areas mm_rb)) as [v|] eqn:E; [|done]. by rewrite (Hp v E).
Qed.

Lemma page_fuel_enough user total : 0 < total ->
  pages_upto user (user + total) - Z.of_nat 0 < Z.of_nat (page_fuel total).
Proof.
  intros Ht. pose proof (pages_upto_most user total Ht). unfold page_fuel. rewrite page_size.
  assert (0 <= total / 4096) by dlia. lia.
Qed.

Context (user total : Z) (w : walk) (Hf : fresh total w) (Hp : plain user).
Context (Hu : 0 <= user) (Ht : 0 < total) (Hhi : user + total < 2 ^ 32).
Context (Hh : forall y, user <= y < user + total -> held y) (Hit : total / 4096 + 2 <= items w).

Lemma buffer_fits : buffer_ok user total (items w).
Proof. split; try done. pose proof (pages_upto_most user total Ht). lia. Qed.

Lemma guard_passes : (items w <? total / 4096 + 2) = false.
Proof. apply Z.ltb_ge. lia. Qed.

Lemma __user_to_prdt2_run : exists Q d w', __user_to_prdt2 user true w = Ok (0, w') /\
  finished frame_at 65535 user total (items w) Q d w'.
Proof.
  unfold __user_to_prdt2.
  destruct (find_vma_plain user w Hp (fresh_cache _ _ Hf)) as [c Hc]. rewrite Hc.
  erewrite bind_ok by done. cbv beta. cbn [size items with_cache].
  rewrite (fresh_size _ _ Hf), page_size, guard_passes. cbn [negb orb].
  destruct (prdt2_loop _ user total _ _ _ _ _ _ buffer_fits Hh (fresh_partial user total w c Hf Ht)
    (page_fuel_enough user total Ht)) as (P' & rest' & i' & w' & Hr & Hpar).
  destruct (partial_finished _ _ _ _ _ _ _ Hpar Ht) as (Q & d & _ & _ & Hfin). eauto.
Qed.

Lemma __user_to_prdt1_run :
  total <= 2560 * 4096 ->
  if pages_upto user (user + total) =? (total + 4095) / 4096 then
    exists Q d w', __user_to_prdt1 user true w = Ok (0, w') /\
      finished frame_at 65535 user total (items w) Q d w'
  else __user_to_prdt1 user true w = Fault Undefined.
Proof.
  intros Hmax. set (nr := (total + 4095) / 4096).
  assert (0 < nr <= 2560 /\ nr <= pages_upto user (user + total)) as [Hnr Hle].
  { unfold nr, pages_upto. destruct (Z.eqb_spec (user + total) user); dlia. }
  set (L := get_user_pages user (Z.to_nat nr)).
  assert (length L = Z.to_nat nr) as HL by (eapply gup_length; [done|exact Ht|done|lia]).
  assert (exists c, __user_to_prdt1 user true w = (loop (page_fuel total) (prdt1_body L) (user, O);;
    n ← gets next; write_prd n (set_EDT 1);; z ← gets size; mret (s32 z)) (with_cache c w)) as [c ->].
  { unfold __user_to_prdt1. destruct (find_vma_plain user w Hp (fresh_cache _ _ Hf)) as [c Hc].
    exists c. rewrite Hc. erewrite bind_ok by done. cbv beta zeta. cbn [size items with_cache].
    rewrite (fresh_size _ _ Hf), page_size, guard_passes. change (4096 - 1) with 4095.
    rewrite (u32_small (total + 4095)) by lia. fold nr. destruct (Z.ltb_spec 2560 nr); [lia|]. done. }
  pose proof (prdt1_loop _ user total _ L _ _ _ _ _ buffer_fits (gup_pins user _ Hu) ltac:(lia)
    (fresh_partial user total w c Hf Ht) (page_fuel_enough user total Ht) ltac:(lia)) as Hloop.
  rewrite HL, Z2Nat.id in Hloop by lia.
  destruct (Z.leb_spec (pages_upto user (user + total)) nr), (Z.eqb_spec (pages_upto user (user + total)) nr);
    try lia; [|by apply bind_fault].
  destruct Hloop as (P' & rest' & i' & w' & Hr & Hpar).
  destruct (partial_finished _ _ _ _ _ _ _ Hpar Ht) as (Q & d & HP & Hn & Hfin).
  exists Q, d, w'. split; [|done]. erewrite bind_ok by exact Hr. cbv beta. erewrite bind_ok by done. cbv beta.
  destruct (fin_table _ _ _ _ _ _ _ _ Hfin) as (rest & Htab & _).
  erewrite bind_ok by (by apply (write_prd_run _ Q d rest)). cbv beta.
  assert (set_EDT 1 d = d) as -> by (pose proof (fin_last _ _ _ _ _ _ _ _ Hfin); destruct d; simpl in *; by subst).
  assert (with_table (Q ++ d :: rest) w' = w') as -> by (rewrite <- Htab; by destruct w').
  erewrite bind_ok by done. by rewrite (par_size _ _ _ _ _ _ _ _ Hpar), Z.sub_diag.
Qed.
End Calls.

(** ** The calls *)

Section Results.
Context `{AS : AddressSpace}.

Lemma show_run Q d rest L w fuel :
  prdt w = L ++ Q ++ d :: rest -> Forall (fun d => prd_EDT d = 0) Q -> prd_EDT d = 1 -> (length Q < fuel)%nat ->
  loop fuel show_body (length L) w = Ok (tt, w).
Proof.
  revert L fuel. induction Q as [|q Q IH]; intros L fuel Ht Ho Hd Hf; (destruct fuel as [|fuel]; [simpl in Hf; lia|]).
  - apply loop_exit. unfold show_body. erewrite bind_ok by (by apply (read_prd_run w L d rest)). by rewrite Hd.
  - apply Forall_cons_1 in Ho as [Hq Ho]. simpl in Ht, Hf. rewrite (loop_next fuel _ _ _ (length (L ++ [q])) w).
    + apply IH; try done; [by rewrite <- app_assoc|lia].
    + unfold show_body. erewrite bind_ok by (by apply (read_prd_run w L q (Q ++ d :: rest))). rewrite Hq.
      by rewrite length_app, Nat.add_1_r.
Qed.

(** A finished table can be shown. *)
Lemma show_finished {A} f lim user total k Q d w level (r : A) :
  finished f lim user total k Q d w ->
  ((if 1 <? level then show_prdt true else mret tt);; mret r) w = Ok (r, w).
Proof.
  intros [(rest & Ht & _) _ _ Ho Hd _]. erewrite bind_ok; [done|]. destruct (1 <? level); [|done].
  unfold show_prdt. erewrite bind_ok by done. cbv beta. apply (show_run Q d rest []); try done.
  rewrite Ht, length_app. simpl. lia.
Qed.
End Results.

(** ** An address space, for the examples *)

Definition demo_frame (a : Z) : Z := if a <? 0x12000 then 0x100 + a / 4096 else 0x300 - a / 4096.
Definition demo_user_frame (a : Z) : option Z :=
  if (0x10000 <=? a) && (a <? 0x18000) then Some (demo_frame a) else None.

#[local] Instance demo : AddressSpace := {|
  mm_rb := rb_node rb_null (MkVma 0x10000 0x14000 false 0)
             (rb_node rb_null (MkVma 0x14000 0x18000 false 0) (rb_node rb_null (MkVma 0x40000 0x50000 true 0x1C000) rb_null));
  pte_at a := demo_frame a * 4096 + 3;
  pfn_valid p := (0x80 <=? p) && (p <? 0x1000);
  get_user_pages addr n :=
    leading ((fun i => demo_user_frame (addr - addr mod 4096 + Z.of_nat i * 4096)) <$> seq 0 n)
|}.

#[local] Instance demo_spec : AddressSpaceSpec.
Proof.
  split.
  - cbn. lia.
  - cbn. repeat constructor; done.
  - intros p Hp. cbn in Hp. bool_to_prop. lia.
Qed.

#[local] Instance demo_pages : UserPages.
Proof.
  refine {| user_frame := demo_user_frame |}.
  - done.
  - unfold demo_user_frame, demo_frame. intros a f Hf. repeat case_match; simplify_eq; bool_to_prop; dlia.
Defined.

Definition demo_walk (total : Z) (k : nat) : walk :=
  MkWalk None (replicate k (MkPrd 0 0 0 0)) O None (Z.of_nat k) total 0.

Lemma demo_fresh total k : fresh total (demo_walk total k).
Proof. split; cbn; [done|done|by rewrite length_replicate|done|done]. Qed.

Lemma demo_covered user total : 0x10000 <= user -> user + total <= 0x18000 -> covered user total.
Proof.
  intros H1 H2 y Hy. destruct (Z.lt_ge_cases y 0x14000).
  - exists (MkVma 0x10000 0x14000 false 0). split; [|cbn; lia]. by left.
  - exists (MkVma 0x14000 0x18000 false 0). split; [|cbn; lia]. by right; left.
Qed.

Lemma demo_valid y : 0x10000 <= y < 0x18000 -> valid_at y = true.
Proof.
  intros Hy. unfold valid_at, pte_pfn. cbn [pte_at pfn_valid demo]. change PAGE_SHIFT with 12.
  rewrite Z.shiftr_div_pow2 by done. unfold demo_frame. rewrite andb_true_iff, Z.leb_le, Z.ltb_lt.
  destruct (Z.ltb_spec (y - y mod 4096) 0x12000); dlia.
Qed.

Lemma demo_held y : 0x10000 <= y < 0x18000 -> held y.
Proof.
  intros Hy. unfold held. cbn. unfold demo_user_frame.
  destruct (Z.leb_spec 0x10000 (y - y mod 4096)), (Z.ltb_spec (y - y mod 4096) 0x18000); [by eexists|dlia..].
Qed.

Section Theorems.
Context `{AS : AddressSpace} {Spec : AddressSpaceSpec} {UP : UserPages}.

(** [C20] The default method: a buffer of at least one byte inside the task's areas
    whose frames are valid is described completely and exactly, when the table is
    fresh and has room: [size/PAGE_SIZE + 2] descriptors, which the code's guard
    asks for, and more descriptors than the buffer has pages (the guard alone is
    one short, see [prdt_guard_one_short]).  [user_to_prdt] answers 0, the
    descriptors up to the only marked one name, in order, the physical bytes of
    the buffer; each has at most 60 KB, and there are no more of them than pages.
    The table may be printed. *)
Theorem user_to_prdt_describes (user total method level : Z) (w : walk) :
  method <> 1 -> method <> 2 -> fresh total w -> 0 < total -> covered user total ->
  (forall y, user <= y < user + total -> valid_at y = true) ->
  total / 4096 + 2 <= items w -> pages_upto user (user + total) < items w ->
  exists Q d w', user_to_prdt method level user true w = Ok (0, w') /\
    finished pte_pfn 61440 user total (items w) Q d w'.
Proof.
  intros H1 H2 Hf Ht Hc Hv Hit Hk.
  destruct (__user_to_prdt_run user total w Hf Ht Hc Hit) as (c & fl & w' & Hr & [(-> & Q & d & Hfin & _)|(-> & Hno)]).
  - exists Q, d, w'. split; [|done]. unfold user_to_prdt.
    destruct (Z.eqb_spec method 1), (Z.eqb_spec method 2); try done.
    erewrite bind_ok by (by erewrite bind_ok by exact Hr). by apply (show_finished _ _ _ _ _ _ _ _ _ _ Hfin).
  - exfalso. destruct Hno as [Hno|(y & Hy & Hn)]; [lia|]. rewrite Hv in Hn by done. done.
Qed.

(** [C25] The walk over the page tables returns, for a fresh table and a buffer of
    at least one byte inside the task's areas: with [-EINVAL] and no effect exactly
    when the table is smaller than its guard asks; otherwise with 0, a finished
    table and every descriptor flushed, or with [-EFAULT].  The last is possible
    only if a frame of the buffer is not valid or the table has no more descriptors
    than the buffer has pages (with so few the walk may still succeed, when frames
    are adjacent).  A size of 0 is left out: the code then flushes a table it did not
    write. *)
Theorem prdt_walk_answers (user total : Z) (w : walk) :
  fresh total w -> 0 < total -> covered user total ->
  if items w <? total / 4096 + 2 then __user_to_prdt user true w = Ok ((- EINVAL, []), w)
  else exists c fl w', __user_to_prdt user true w = Ok ((c, fl), w') /\
    ((c = 0 /\ exists Q d, finished pte_pfn 61440 user total (items w) Q d w' /\ fl = range_of <$> (Q ++ [d])) \/
     (c = - EFAULT /\ no_way user total (items w))).
Proof.
  intros Hf Ht Hc. destruct (Z.ltb_spec (items w) (total / 4096 + 2)) as [Hlt|Hge].
  - unfold __user_to_prdt. erewrite bind_ok by done. cbv beta. rewrite (fresh_size _ _ Hf), page_size.
    destruct (Z.ltb_spec (items w) (total / 4096 + 2)); [done|lia].
  - by apply __user_to_prdt_run.
Qed.

(** The methods that pin pages: with all pages of the buffer at hand method 2
    answers 0 and describes the buffer exactly, in descriptors below 64 KB.  So
    does method 1 if the buffer touches no more pages than its size rounds up
    to; if an unaligned buffer touches one more, it takes the address of a page
    that [get_user_pages] was not asked for. *)
Theorem user_to_prdt_pinned (user total level : Z) (w : walk) :
  fresh total w -> plain user -> 0 <= user -> 0 < total -> user + total < 2 ^ 32 ->
  (forall y, user <= y < user + total -> held y) -> total / 4096 + 2 <= items w ->
  (exists Q d w', user_to_prdt 2 level user true w = Ok (0, w') /\
     finished frame_at 65535 user total (items w) Q d w') /\
  (total <= 2560 * 4096 ->
   if pages_upto user (user + total) =? (total + 4095) / 4096 then
     exists Q d w', user_to_prdt 1 level user true w = Ok (0, w') /\
       finished frame_at 65535 user total (items w) Q d w'
   else user_to_prdt 1 level user true w = Fault Undefined).
Proof.
  intros Hf Hp Hu Ht Hhi Hh Hit. split.
  - destruct (__user_to_prdt2_run user total w Hf Hp Hu Ht Hhi Hh Hit) as (Q & d & w' & Hr & Hfin).
    exists Q, d, w'. split; [|done]. unfold user_to_prdt. cbn [Z.eqb Pos.eqb].
    erewrite bind_ok by exact Hr. by apply (show_finished _ _ _ _ _ _ _ _ _ _ Hfin).
  - intros Hmax. pose proof (__user_to_prdt1_run user total w Hf Hp Hu Ht Hhi Hh Hit Hmax) as Hone.
    destruct (pages_upto user (user + total) =? (total + 4095) / 4096); [|by apply bind_fault].
    destruct Hone as (Q & d & w' & Hr & Hfin). exists Q, d, w'. split; [|done]. unfold user_to_prdt.
    cbn [Z.eqb Pos.eqb]. erewrite bind_ok by exact Hr. by apply (show_finished _ _ _ _ _ _ _ _ _ _ Hfin).
Qed.

(** [C27] The methods agree: for a buffer of at least one byte inside the task's
    areas that does not start in mapped kernel memory, whose page table entries
    name valid frames, the same that [get_user_pages] returns, and a fresh table of
    at least [size/PAGE_SIZE + 3] descriptors, both the walk and method 2 answer 0,
    and their tables name the same bytes in the same order.  A page that is not
    present breaks this (see [prdt_describes_what_is_not_there]). *)
Theorem prdt_methods_agree (user total : Z) (w : walk) :
  fresh total w -> plain user -> 0 <= user -> 0 < total -> user + total < 2 ^ 32 -> covered user total ->
  (forall y, user <= y < user + total -> held y /\ valid_at y = true /\
     pte_pfn (y - y mod 4096) = frame_at (y - y mod 4096)) ->
  total / 4096 + 3 <= items w ->
  exists Q0 d0 w0 Q2 d2 w2,
    user_to_prdt 0 0 user true w = Ok (0, w0) /\ finished pte_pfn 61440 user total (items w) Q0 d0 w0 /\
    user_to_prdt 2 0 user true w = Ok (0, w2) /\ finished frame_at 65535 user total (items w) Q2 d2 w2 /\
    (Q0 ++ [d0]) ≫= bytes = (Q2 ++ [d2]) ≫= bytes.
Proof.
  intros Hf Hp Hu Ht Hhi Hc Hy Hit.
  destruct (__user_to_prdt_run user total w Hf Ht Hc ltac:(lia)) as (c & fl & w0 & Hr0 & Hor).
  destruct Hor as [(-> & Q0 & d0 & F0 & _)|(_ & [Hno|(y & Hr & Hn)])].
  2: { pose proof (pages_upto_most user total Ht). lia. }
  2: { destruct (Hy y Hr) as (_ & Hv & _). congruence. }
  destruct (__user_to_prdt2_run user total w Hf Hp Hu Ht Hhi) as (Q2 & d2 & w2 & Hr2 & F2);
    [intros y H; apply Hy, H|lia|].
  exists Q0, d0, w0, Q2, d2, w2. unfold user_to_prdt. cbn [Z.eqb Pos.eqb Z.ltb Z.compare]. split_and!; try done.
  - by erewrite bind_ok by (by erewrite bind_ok by exact Hr0).
  - by erewrite bind_ok by exact Hr2.
  - rewrite (fin_bytes _ _ _ _ _ _ _ _ F0), (fin_bytes _ _ _ _ _ _ _ _ F2).
    apply list_fmap_ext. intros i z Hz. apply lookup_seqZ in Hz as [-> Hz].
    unfold phys_of. destruct (Hy (user + Z.of_nat i) ltac:(lia)) as (_ & _ & ->). done.
Qed.

Lemma u32_add_r a b : u32 (a + u32 b) = u32 (a + b).
Proof. apply Zplus_mod_idemp_r. Qed.

(** [user_to_virt] answers the kernel address of the byte: for memory of the
    kernel that was mapped to the task the one its [vm_pgoff] gives, for other
    memory the one of the pinned page. *)
Theorem user_to_virt_translates (user : Z) (w : walk) :
  cache_ok w -> 0 <= user ->
  (forall v, v ∈ areas mm_rb -> vm_start v <= user < vm_end v -> kernel_mapped v = true ->
     exists w', user_to_virt user w = Ok (va (vm_pgoff v * 4096 + (user - vm_start v)), w')) /\
  (plain user -> held user -> exists w', user_to_virt user w = Ok (va (phys_of frame_at user), w')).
Proof.
  intros Hc Hu. destruct (find_vma_run user w Hc) as (c & Hf & _). unfold user_to_virt. split.
  - intros v Hv Hx Hk. exists (with_cache c w). erewrite bind_ok by exact Hf. cbv beta.
    rewrite (first_above_some user _ 0 v areas_ordered Hv Hx). cbn. rewrite Hk, shl12. unfold va.
    by rewrite (Z.add_comm (u32 _)), u32_add_r, (Z.add_comm PAGE_OFFSET).
  - intros Hp Hh. exists (with_cache c w). erewrite bind_ok by exact Hf. cbv beta.
    assert ((v ← first_above user (areas mm_rb); if kernel_mapped v then Some v else None) = None) as ->.
    { destruct (first_above user (areas mm_rb)) as [v|] eqn:E; [|done]. cbn. by rewrite (Hp v E). }
    rewrite gup_one by done. rewrite (proj1 (held_frame user Hh)), shl12, page_offset.
    unfold va, phys_of. rewrite (Z.add_comm (u32 _)), u32_add_r.
    by rewrite Z.add_assoc, (Z.add_comm (user mod 4096)).
Qed.
End Theorems.

Lemma user_to_prdt_describes_witness : exists Q d w',
  user_to_prdt 0 2 0x13FFE true (demo_walk 5000 4) = Ok (0, w') /\ finished pte_pfn 61440 0x13FFE 5000 4 Q d w'.
Proof.
  apply (user_to_prdt_describes 0x13FFE 5000 0 2 (demo_walk 5000 4));
    [done|done|apply demo_fresh|lia|apply demo_covered; lia|intros y Hy; apply demo_valid; lia|by vm_compute..].
Defined.

Lemma prdt_walk_answers_witness : exists c fl w',
  __user_to_prdt 0x13FFE true (demo_walk 5000 3) = Ok ((c, fl), w') /\
    ((c = 0 /\ exists Q d, finished pte_pfn 61440 0x13FFE 5000 3 Q d w' /\ fl = range_of <$> (Q ++ [d])) \/
     (c = - EFAULT /\ no_way 0x13FFE 5000 3)).
Proof.
  apply (prdt_walk_answers 0x13FFE 5000 (demo_walk 5000 3));
    [apply demo_fresh|lia|apply demo_covered; lia].
Defined.

Lemma demo_plain user : 0x10000 <= user < 0x18000 -> plain user.
Proof.
  intros Hu v. cbn. destruct (Z.ltb_spec user 0x14000); [by intros [= <-]|].
  destruct (Z.ltb_spec user 0x18000); [by intros [= <-]|lia].
Qed.

Lemma user_to_prdt_pinned_witness :
  (exists Q d w', user_to_prdt 2 2 0x13FFE true (demo_walk 5000 3) = Ok (0, w') /\
     finished frame_at 65535 0x13FFE 5000 3 Q d w') /\
  user_to_prdt 1 0 0x13FFE true (demo_walk 5000 3) = Fault Undefined.
Proof.
  destruct (user_to_prdt_pinned 0x13FFE 5000 2 (demo_walk 5000 3)) as [H2 _];
    [apply demo_fresh|apply demo_plain; lia|lia|lia|lia|intros y Hy; apply demo_held; lia|by vm_compute|].
  destruct (user_to_prdt_pinned 0x13FFE 5000 0 (demo_walk 5000 3)) as [_ H];
    [apply demo_fresh|apply demo_plain; lia|lia|lia|lia|intros y Hy; apply demo_held; lia|by vm_compute|].
  split; [exact H2|].
  specialize (H ltac:(lia)).
  assert ((pages_upto 0x13FFE (0x13FFE + 5000) =? (5000 + 4095) / 4096) = false) as E by done.
  rewrite E in H. exact H.
Defined.

Lemma demo_frames y : 0x10000 <= y < 0x18000 -> pte_pfn (y - y mod 4096) = frame_at (y - y mod 4096).
Proof.
  intros Hy. unfold pte_pfn, frame_at. cbn. unfold demo_user_frame. change PAGE_SHIFT with 12.
  rewrite Z.shiftr_div_pow2 by done.
  destruct (Z.leb_spec 0x10000 (y - y mod 4096)), (Z.ltb_spec (y - y mod 4096) 0x18000); [|dlia..].
  cbn [andb default from_option id]. rewrite Z.div_add_l by done. rewrite Z.add_0_r. done.
Qed.

Lemma prdt_methods_agree_witness : exists Q0 d0 w0 Q2 d2 w2,
  user_to_prdt 0 0 0x13FFE true (demo_walk 5000 4) = Ok (0, w0) /\ finished pte_pfn 61440 0x13FFE 5000 4 Q0 d0 w0 /\
  user_to_prdt 2 0 0x13FFE true (demo_walk 5000 4) = Ok (0, w2) /\ finished frame_at 65535 0x13FFE 5000 4 Q2 d2 w2 /\
  (Q0 ++ [d0]) ≫= bytes = (Q2 ++ [d2]) ≫= bytes.
Proof.
  apply (prdt_methods_agree 0x13FFE 5000 (demo_walk 5000 4));
    [apply demo_fresh|apply demo_plain; lia|lia|lia|lia|apply demo_covered; lia| |by vm_compute].
  intros y Hy. split_and!; [apply demo_held; lia|apply demo_valid; lia|apply demo_frames; lia].
Defined.

Lemma user_to_virt_translates_witness :
  (exists w', user_to_virt 0x40123 (demo_walk 0 0) = Ok (0xDC000123, w')) /\
  (exists w', user_to_virt 0x10123 (demo_walk 0 0) = Ok (0xC0110123, w')).
Proof.
  split.
  - apply (user_to_virt_translates 0x40123 (demo_walk 0 0)) with (v := MkVma 0x40000 0x50000 true 0x1C000);
      [done|lia|by do 2 right; left|cbn; lia|done].
  - destruct (user_to_virt_translates 0x10123 (demo_walk 0 0)) as [_ H]; [done|lia|].
    exact (H (demo_plain 0x10123 ltac:(lia)) (demo_held 0x10123 ltac:(lia))).
Defined.

(** ** Where the walk goes wrong *)

(** The guard of the walk is one descriptor short: two bytes across a page
    boundary need two descriptors, the guard [size/PAGE_SIZE + 2 <= items]
    admits a table of two, and the walk gives up with [-EFAULT] after writing
    the second.  Method 2 fills the same table. *)
Theorem prdt_guard_one_short :
  covered 0x13FFF 2 /\ valid_at 0x13FFF = true /\ valid_at 0x14000 = true /\
  2 / PAGE_SIZE + 2 <= items (demo_walk 2 2) /\
  (exists w', user_to_prdt 0 0 0x13FFF true (demo_walk 2 2) = Ok (- EFAULT, w')) /\
  (exists w', user_to_prdt 2 0 0x13FFF true (demo_walk 2 2) = Ok (0, w') /\
     prdt w' = [MkPrd 0x2EDFFF 1 0 0; MkPrd 0x2EC000 1 0 1]).
Proof.
  split_and!; [apply demo_covered; lia|done|done|done|eexists; by vm_compute|].
  eexists. split; by vm_compute.
Qed.

(** A task with a hole between its first two areas; the page tables do not name
    a frame for [0x17000] yet. *)
Definition hole : AddressSpace := {|
  mm_rb := rb_node (rb_node rb_null (MkVma 0x10000 0x12000 false 0) rb_null)
             (MkVma 0x14000 0x16000 false 0) (rb_node rb_null (MkVma 0x16000 0x18000 false 0) rb_null);
  pte_at a := if a =? 0x17000 then 0 else 0x100000 + a + 3;
  pfn_valid p := p <? 0x1000;
  get_user_pages addr n := []
|}.

(** Buffers that are not there are described all the same.  For two pages of
    which the second lies in a hole the walk answers 0 and enters the first
    page of the third area for it; for a page that was never touched it
    enters frame 0. *)
Theorem prdt_describes_what_is_not_there :
  ~ covered (AS := hole) 0x11000 0x2000 /\
  (exists w', user_to_prdt (H := hole) 0 0 0x11000 true (demo_walk 0x2000 4) = Ok (0, w') /\
     take 2 (prdt w') = [MkPrd 0x111000 4096 0 0; MkPrd 0x116000 4096 0 1]) /\
  @pte_at hole 0x17000 = 0 /\
  (exists w', user_to_prdt (H := hole) 0 0 0x17000 true (demo_walk 0x1000 3) = Ok (0, w') /\
     take 1 (prdt w') = [MkPrd 0 4096 0 1]).
Proof.
  split_and!; [|eexists; split; by vm_compute|done|eexists; split; by vm_compute].
  intros Hc. destruct (Hc 0x12000) as (v & Hv & Hx); [lia|]. cbn in Hv.
  apply list_elem_of_In in Hv as [<-|[<-|[<-|[]]]]; cbn in Hx; lia.
Qed.
