(* ===== verification/Edid.v ===== *)
(** * EDID

    [drivers/video/wmt/parse-edid.c]: the description a display sends over its
    data channel (a base block of 128 bytes and up to three extension blocks) is
    parsed into an [edid_info_t], and [edid_find_support] looks a mode up in
    it.  The buffer is a list of bytes ([char] is unsigned on ARM); reading
    behind its end, and writing behind the end of an array of the structure, is
    [Undefined].  Divisions by zero answer 0, as [__div0] of [arch/arm/lib]
    does after a warning.  Messages are off: [edid_msg_enable] has its
    initial value 0, and what only messages read is left out. *)

From S2P Require Import Prelude.
From stdpp Require Import list.
#[local] Open Scope Z_scope.

(** ** Data *)

Record edid_timing_t := MkTiming { et_resx : Z; et_resy : Z; et_freq : Z }.

Record vpp_timing_t := MkVpp {
  vt_pixel_clock : Z; vt_option : Z;
  vt_hsync : Z; vt_hbp : Z; vt_hpixel : Z; vt_hfp : Z;
  vt_vsync : Z; vt_vbp : Z; vt_vpixel : Z; vt_vfp : Z;
}.

Record edid_info_t := MkInfo {
  establish_timing : Z;
  standard_timing : list edid_timing_t;   (** 8 *)
  detail_timing : list vpp_timing_t;      (** 4 *)
  cea_timing : list edid_timing_t;        (** 6 *)
  cea_vic : list Z;                       (** 8 bytes *)
  pixel_clock_limit : Z;
  info_option : Z;
  hdmi_phy_addr : Z;
}.

Definition timing0 : edid_timing_t := MkTiming 0 0 0.
Definition vpp_timing0 : vpp_timing_t := MkVpp 0 0 0 0 0 0 0 0 0 0.
(** [memset(info,0,sizeof(edid_info_t))] *)
Definition info0 : edid_info_t :=
  MkInfo 0 (replicate 8 timing0) (replicate 4 vpp_timing0) (replicate 6 timing0) (replicate 8 0) 0 0 0.

Definition with_establish (v : Z) (i : edid_info_t) : edid_info_t :=
  MkInfo v (standard_timing i) (detail_timing i) (cea_timing i) (cea_vic i) (pixel_clock_limit i) (info_option i) (hdmi_phy_addr i).
Definition with_standard (l : list edid_timing_t) (i : edid_info_t) : edid_info_t :=
  MkInfo (establish_timing i) l (detail_timing i) (cea_timing i) (cea_vic i) (pixel_clock_limit i) (info_option i) (hdmi_phy_addr i).
Definition with_detail (l : list vpp_timing_t) (i : edid_info_t) : edid_info_t :=
  MkInfo (establish_timing i) (standard_timing i) l (cea_timing i) (cea_vic i) (pixel_clock_limit i) (info_option i) (hdmi_phy_addr i).
Definition with_cea (l : list edid_timing_t) (i : edid_info_t) : edid_info_t :=
  MkInfo (establish_timing i) (standard_timing i) (detail_timing i) l (cea_vic i) (pixel_clock_limit i) (info_option i) (hdmi_phy_addr i).
Definition with_vic (l : list Z) (i : edid_info_t) : edid_info_t :=
  MkInfo (establish_timing i) (standard_timing i) (detail_timing i) (cea_timing i) l (pixel_clock_limit i) (info_option i) (hdmi_phy_addr i).
Definition with_limit (v : Z) (i : edid_info_t) : edid_info_t :=
  MkInfo (establish_timing i) (standard_timing i) (detail_timing i) (cea_timing i) (cea_vic i) v (info_option i) (hdmi_phy_addr i).
Definition with_option (v : Z) (i : edid_info_t) : edid_info_t :=
  MkInfo (establish_timing i) (standard_timing i) (detail_timing i) (cea_timing i) (cea_vic i) (pixel_clock_limit i) v (hdmi_phy_addr i).
Definition with_phy (v : Z) (i : edid_info_t) : edid_info_t :=
  MkInfo (establish_timing i) (standard_timing i) (detail_timing i) (cea_timing i) (cea_vic i) (pixel_clock_limit i) (info_option i) v.

#[local] Abbreviation E := (M edid_info_t).

Definition EDID_LENGTH : Z := 0x80.
Definition EDID_BLOCK_MAX : Z := 4.
Definition ID_MANUFACTURER_NAME : Z := 0x08.
Definition ID_MODEL : Z := 0x0a.
Definition DPMS_FLAGS : Z := 0x18.
Definition ESTABLISHED_TIMING_I : Z := 0x23.
Definition ESTABLISHED_TIMING_II : Z := 0x24.
Definition STANDARD_TIMING_IDENTIFICATION_START : Z := 0x26.
Definition STANDARD_TIMING_IDENTIFICATION_SIZE : Z := 16.
Definition DETAILED_TIMING_DESCRIPTIONS_START : Z := 0x36.
Definition DETAILED_TIMING_DESCRIPTION_SIZE : Z := 18.
Definition NO_DETAILED_TIMING_DESCRIPTIONS : Z := 4.
Definition EDID_TMR_INTERLACE : Z := BIT 31.
Definition EDID_TMR_FREQ : Z := 0xFF.
Definition EDID_OPT_VALID : Z := 0x01.
Definition EDID_OPT_HDMI : Z := 0x100.
Definition EDID_OPT_16_9 : Z := BIT 10.

Definition edid_v1_header : list Z := [0x00; 0xff; 0xff; 0xff; 0xff; 0xff; 0xff; 0x00].
Definition MONITOR_NAME : Z := 0xfc.
Definition MONITOR_LIMITS : Z := 0xfd.
Definition UNKNOWN_DESCRIPTOR : Z := -1.
Definition DETAILED_TIMING_BLOCK : Z := -2.

Definition edid_establish_timing : list edid_timing_t := [
  MkTiming 800 600 60; MkTiming 800 600 56; MkTiming 640 480 75; MkTiming 640 480 72; MkTiming 640 480 67; MkTiming 640 480 60;
  MkTiming 720 400 88; MkTiming 720 400 70; MkTiming 1280 1024 75; MkTiming 1024 768 75; MkTiming 1024 768 70; MkTiming 1024 768 60;
  MkTiming 1024 768 87; MkTiming 832 624 75; MkTiming 800 600 75; MkTiming 800 600 72; MkTiming 1152 870 75
].

Definition COMBINE_HI_8LO (hi lo : Z) : Z := Z.lor (u32 (Z.shiftl hi 8)) lo.
Definition COMBINE_HI_4LO (hi lo : Z) : Z := Z.lor (u32 (Z.shiftl hi 4)) lo.
Definition UPPER_NIBBLE (x : Z) : Z := Z.shiftr (Z.land 0xF0 x) 4.
Definition LOWER_NIBBLE (x : Z) : Z := Z.land 0x0F x.

(** ** Options of a timing ([com-vpp.h]) *)

Definition VPP_OPT_INTERLACE : Z := 0x01.
Definition VPP_VGA_HSYNC_POLAR_HI : Z := 0x02.
Definition VPP_VGA_VSYNC_POLAR_HI : Z := 0x04.
Definition VPP_DVO_SYNC_POLAR_HI : Z := 0x08.
Definition VPP_DVO_VSYNC_POLAR_HI : Z := 0x10.
Definition VPP_OPT_FPS_MASK : Z := 0xFF000000.
Definition VPP_GET_OPT_FPS (option : Z) : Z := Z.shiftr (Z.land option VPP_OPT_FPS_MASK) 24.
Definition VPP_SET_OPT_FPS (option fps : Z) : Z :=
  Z.lor (Z.land option (Z.land 0xFFFFFFFF (Z.lnot VPP_OPT_FPS_MASK))) (u32 (Z.shiftl fps 24)).

Definition vout_check_ratio_16_9 (resx resy : Z) : bool := 15 <=? u32 (resx * 10) / resy.

Section Edid.
Context (edid : list Z).

Definition rd (i : Z) : E Z := if i <? 0 then fail_with Undefined else initialised (edid !! Z.to_nat i).

Fixpoint rd_n (p : Z) (n : nat) : E (list Z) :=
  match n with
  | O => mret []
  | S n => b ← rd p; l ← rd_n (p + 1) n; mret (b :: l)
  end.

(** Storing into an array of the structure. *)
Definition store {A} (l : list A) (i : Z) (v : A) : E (list A) :=
  if (0 <=? i) && (i <? Z.of_nat (length l)) then mret (<[Z.to_nat i := v]> l) else fail_with Undefined.

(** ** The base block *)

Definition block_type (block : Z) : E Z :=
  f ← rd_n block 2;
  if forallb (Z.eqb 0) f then
    b2 ← rd (block + 2);
    if negb (b2 =? 0) then mret UNKNOWN_DESCRIPTOR else rd (block + 3)
  else mret DETAILED_TIMING_BLOCK.

Definition get_vendor_sign (block : Z) : E (list Z) :=
  b0 ← rd block; b1 ← rd (block + 1);
  let h := u16 (COMBINE_HI_8LO b0 b1) in
  mret [u8 (Z.land (Z.shiftr h 10) 0x1f + 65 - 1); u8 (Z.land (Z.shiftr h 5) 0x1f + 65 - 1);
        u8 (Z.land h 0x1f + 65 - 1); 0].

(** Up to 13 characters; a line feed ends the name and becomes a NUL. *)
Fixpoint name_loop (ptr : Z) (n : nat) : E (list Z) :=
  match n with
  | O => mret []
  | S n => c ← rd ptr; if c =? 0xa then mret [0] else l ← name_loop (ptr + 1) n; mret (c :: l)
  end.
Definition get_monitor_name (block : Z) : E (list Z) := name_loop (block + 5) 13.

(** *** A detailed timing descriptor *)

Section Fields.
Context (dtd : list Z).
#[local] Abbreviation b n := (nth n dtd 0).

Definition PIXEL_CLOCK : Z := u32 (COMBINE_HI_8LO (b 1) (b 0) * 10000).
Definition H_ACTIVE : Z := COMBINE_HI_8LO (UPPER_NIBBLE (b 4)) (b 2).
Definition H_BLANKING : Z := COMBINE_HI_8LO (LOWER_NIBBLE (b 4)) (b 3).
Definition V_ACTIVE : Z := COMBINE_HI_8LO (UPPER_NIBBLE (b 7)) (b 5).
Definition V_BLANKING : Z := COMBINE_HI_8LO (LOWER_NIBBLE (b 7)) (b 6).
Definition V_SYNC_WIDTH : Z := COMBINE_HI_4LO (Z.land (b 11) 3) (LOWER_NIBBLE (b 10)).
Definition V_SYNC_OFFSET : Z := COMBINE_HI_4LO (Z.shiftr (Z.land (b 11) 12) 2) (UPPER_NIBBLE (b 10)).
Definition H_SYNC_WIDTH : Z := COMBINE_HI_4LO (Z.shiftr (Z.land (b 11) 48) 4) (b 9).
Definition H_SYNC_OFFSET : Z := COMBINE_HI_4LO (Z.shiftr (Z.land (b 11) 192) 6) (b 8).
Definition FLAGS : Z := b 17.
Definition INTERLACED : bool := negb (Z.land FLAGS 128 =? 0).
Definition HSYNC_POSITIVE : bool := negb (Z.land FLAGS 4 =? 0).
Definition VSYNC_POSITIVE : bool := negb (Z.land FLAGS 2 =? 0).

Definition dtd_fps : Z :=
  let htotal := H_ACTIVE + H_BLANKING in
  let vtotal := V_ACTIVE + V_BLANKING in
  let fps := PIXEL_CLOCK / (vtotal * htotal) in
  if fps =? 59 then 60 else fps.

(** The slot [t] filled in. *)
Definition fill_timing (t : vpp_timing_t) : vpp_timing_t :=
  let o := VPP_SET_OPT_FPS (vt_option t) dtd_fps in
  let o := Z.lor o (if INTERLACED then VPP_OPT_INTERLACE else 0) in
  let o := Z.lor o (if HSYNC_POSITIVE then VPP_DVO_SYNC_POLAR_HI + VPP_VGA_HSYNC_POLAR_HI else 0) in
  let o := Z.lor o (if VSYNC_POSITIVE then VPP_DVO_VSYNC_POLAR_HI + VPP_VGA_VSYNC_POLAR_HI else 0) in
  MkVpp PIXEL_CLOCK o
    H_SYNC_WIDTH (u32 (H_BLANKING - (H_SYNC_WIDTH + H_SYNC_OFFSET))) H_ACTIVE H_SYNC_OFFSET
    V_SYNC_WIDTH (u32 (V_BLANKING - (V_SYNC_WIDTH + V_SYNC_OFFSET))) V_ACTIVE V_SYNC_OFFSET.

(** The first slot without a pixel clock takes the timing. *)
Fixpoint fill_slot (l : list vpp_timing_t) : option (list vpp_timing_t) :=
  match l with
  | [] => None
  | t :: l' => if vt_pixel_clock t =? 0 then Some (fill_timing t :: l') else (cons t) <$> fill_slot l'
  end.
End Fields.

Definition parse_timing_description (dtd : Z) : E unit :=
  d ← rd_n dtd 18;
  info ← get;
  match fill_slot d (detail_timing info) with
  | None => mret tt
  | Some l =>
      modify (with_detail l);;
      if vout_check_ratio_16_9 (H_ACTIVE d) (V_ACTIVE d)
      then modify (fun i => with_option (Z.lor (info_option i) EDID_OPT_16_9) i) else mret tt
  end.

Definition parse_monitor_limits (block : Z) : E unit :=
  c ← rd (block + 9);
  if c * 10 =? 10 * 0xff then mret tt else modify (with_limit (c * 10)).

Definition get_established_timing : E unit :=
  time_1 ← rd ESTABLISHED_TIMING_I;
  time_2 ← rd ESTABLISHED_TIMING_II;
  modify (with_establish (u32 (time_1 + Z.shiftl time_2 8))).

Definition standard_v_res (h_res byte_2 : Z) : Z :=
  let aspect := Z.land byte_2 0xC0 in
  if aspect =? 0x40 then h_res * 3 / 4
  else if aspect =? 0x80 then h_res * 4 / 5
  else if aspect =? 0xC0 then h_res * 9 / 16
  else h_res * 10 / 16.

Definition standard_body (i : Z) : E bool :=
  byte_1 ← rd (STANDARD_TIMING_IDENTIFICATION_START + 2 * i);
  byte_2 ← rd (STANDARD_TIMING_IDENTIFICATION_START + 2 * i + 1);
  if (byte_1 =? 1) && (byte_2 =? 1) then mret false
  else
    let h_res := byte_1 * 8 + 248 in
    l ← gets standard_timing;
    l ← store l i (MkTiming h_res (standard_v_res h_res byte_2) (Z.land byte_2 0x1F + 60));
    modify (with_standard l);;
    mret true.
Definition get_standard_timing : E unit :=
  for_m (upto 0 (STANDARD_TIMING_IDENTIFICATION_SIZE / 2)) standard_body.

(** The sum of the bytes, in a [char]. *)
Definition byte_sum (base len : Z) : E Z :=
  l ← rd_n base (Z.to_nat len); mret (foldl (fun c b => u8 (c + b)) 0 l).

Definition edid_checksum (base len : Z) : E Z :=
  checksum ← byte_sum base len;
  if 8 <? len then
    h ← rd_n base 8;
    mret (if bool_decide (h = edid_v1_header) then 0 else checksum)
  else mret checksum.

Definition descriptor (i : Z) : Z := DETAILED_TIMING_DESCRIPTIONS_START + DETAILED_TIMING_DESCRIPTION_SIZE * i.
Definition descriptors : list Z := descriptor <$> upto 0 NO_DETAILED_TIMING_DESCRIPTIONS.

(** The name of the first name descriptor, if there is one. *)
Fixpoint find_monitor_name (blocks : list Z) : E (option (list Z)) :=
  match blocks with
  | [] => mret None
  | block :: blocks' =>
      t ← block_type block;
      if t =? MONITOR_NAME then n ← get_monitor_name block; mret (Some n) else find_monitor_name blocks'
  end.

Definition limits_body (block : Z) : E bool :=
  t ← block_type block;
  (if t =? MONITOR_LIMITS then parse_monitor_limits block else mret tt);;
  mret true.
Definition detail_body (block : Z) : E bool :=
  t ← block_type block;
  (if t =? DETAILED_TIMING_BLOCK then parse_timing_description block else mret tt);;
  mret true.

Definition edid_parse_v1 : E Z :=
  c ← edid_checksum 0 EDID_LENGTH;
  if negb (c =? 0) then mret (-1)
  else
    h ← rd_n 0 8;
    if negb (bool_decide (h = edid_v1_header)) then mret (-1)
    else
      get_vendor_sign ID_MANUFACTURER_NAME;;
      n ← find_monitor_name descriptors;
      (match n with None => rd_n ID_MODEL 2 | Some n => mret n end);;
      rd DPMS_FLAGS;;
      get_established_timing;;
      get_standard_timing;;
      for_m descriptors limits_body;;
      for_m descriptors detail_body;;
      mret 0.

(** ** Extension blocks *)

Definition video_body (block i : Z) : E bool :=
  b ← rd (block + 1 + i);
  let vic := Z.land b 0x7F in
  l ← gets cea_vic;
  old ← initialised (l !! Z.to_nat (vic / 8));
  l ← store l (vic / 8) (u8 (Z.lor old (Z.shiftl 1 (vic mod 8))));
  modify (with_vic l);;
  mret true.

(** IEEE registration identifier 0x000C03. *)
Definition vendor_is_hdmi (block : Z) : E bool :=
  b1 ← rd (block + 1);
  if b1 =? 0x03 then
    b2 ← rd (block + 2);
    if b2 =? 0x0C then b3 ← rd (block + 3); mret (b3 =? 0) else mret false
  else mret false.

Definition struct_3d_body (block lim index : Z) : E (Z + unit) :=
  if index <? lim then
    b ← rd (block + index);
    let struct_3d := Z.land b 0x0F in
    if negb (Z.land struct_3d 0x8 =? 0) then rd (block + (index + 1));; mret (inl (index + 2))
    else mret (inl (index + 1))
  else mret (inr tt).

(** The fields behind bit 5 of byte 8: HDMI video and 3D structures.  They are
    read for messages only. *)
Definition vendor_3d (block index : Z) : E unit :=
  temp ← rd (block + index);
  b ← rd (block + (index + 1));
  let hdmi_xx_len := Z.shiftr (Z.land b 0xE0) 5 in
  let hdmi_3d_len := Z.land b 0x1F in
  let index := index + 2 + hdmi_xx_len in
  if hdmi_3d_len =? 0 then mret tt
  else
    let lim := hdmi_3d_len + index in
    n ← (if Z.land temp 0x60 =? 0x40 then rd_n (block + index) 4;; mret 4
         else if Z.land temp 0x60 =? 0x20 then rd_n (block + index) 2;; mret 2
         else mret 0);
    loop 33 (struct_3d_body block lim) (index + n).

Definition vendor_block (block len : Z) : E unit :=
  if len <? 5 then mret tt
  else
    hdmi ← vendor_is_hdmi block;
    (if (hdmi : bool) then modify (fun i => with_option (Z.lor (info_option i) EDID_OPT_HDMI) i) else mret tt);;
    b4 ← rd (block + 4); b5 ← rd (block + 5);
    modify (with_phy (u16 (Z.shiftl b4 8 + b5)));;
    if len <? 8 then mret tt
    else
      temp ← rd (block + 8);
      let index := 9 in
      let index := if test_bit temp 7 then index + 2 else index in
      let index := if test_bit temp 6 then index + 2 else index in
      if test_bit temp 5 then vendor_3d block index else mret tt.

(** One turn of the loop over the data blocks. *)
Definition data_block (block_end block : Z) : E (Z + unit) :=
  b0 ← rd block;
  let len := Z.land b0 0x1F in
  let tag := Z.shiftr (Z.land b0 0xE0) 5 in
  len ← (if tag =? 1 then rd (block + 1);; mret len
         else if tag =? 2 then for_m (upto 0 len) (video_body block);; mret len
         else if tag =? 3 then vendor_block block len;; mret len
         else if (tag =? 4) || (tag =? 5) || (tag =? 7) then mret len
         else mret 0);
  let block := block + (1 + len) in
  mret (if block <? block_end then inl block else inr tt).

Definition cea_detail (block i : Z) : E bool :=
  b ← rd_n block 18;
  let b n := nth n b 0 in
  let pixclk := u32 ((Z.shiftl (b 1%nat) 8 + b 0%nat) * 10000) in
  if pixclk =? 0 then mret false
  else
    let hpixel := Z.shiftl (Z.land (b 4%nat) 0xF0) 4 + b 2%nat in
    let hporch := Z.shiftl (Z.land (b 4%nat) 0x0F) 8 + b 3%nat in
    let vpixel := Z.shiftl (Z.land (b 7%nat) 0xF0) 4 + b 5%nat in
    let vporch := Z.shiftl (Z.land (b 7%nat) 0x0F) 8 + b 6%nat in
    let fps := pixclk / ((hpixel + hporch) * (vpixel + vporch)) in
    let interlace := negb (Z.land (b 17%nat) 0x80 =? 0) in
    let vpixel := if interlace then vpixel * 2 else vpixel in
    let fps := if fps =? 59 then 60 else fps in
    l ← gets cea_timing;
    l ← store l i (MkTiming hpixel vpixel (Z.lor fps (if interlace then EDID_TMR_INTERLACE else 0)));
    modify (with_cea l);;
    mret true.

(** A data block has at least its first byte, and they end at most 255 bytes
    behind [base]. *)
Definition max_blocks : nat := 256.

(** The options, the data blocks and the timings behind them. *)
Definition cea_contents (base : Z) : E Z :=
  b3 ← rd (base + 3);
  modify (fun i => with_option (Z.lor (info_option i) (Z.land b3 0xF0)) i);;
  d ← rd (base + 2);
  loop max_blocks (data_block (base + d)) (base + 4);;
  for_m (upto 0 (Z.quot (128 - d) 18)) (fun i => cea_detail (base + d + 18 * i) i);;
  mret 0.

Definition edid_parse_CEA (base : Z) : E Z :=
  b0 ← rd base;
  b1 ← (if b0 =? 2 then rd (base + 1) else mret 0);
  if negb (b0 =? 2) || negb (b1 =? 3) then mret (-1)
  else
    checksum ← byte_sum base EDID_LENGTH;
    if negb (checksum =? 0) then mret (-1) else cea_contents base.

(** ** The whole description *)

Definition extension_body (base : Z) : E bool :=
  r ← edid_parse_CEA base;
  (if r =? 0 then mret [] else rd_n base 128);;
  mret true.

Definition parse_blocks : E Z :=
  modify (fun _ => with_option EDID_OPT_VALID info0);;
  r ← edid_parse_v1;
  if r =? 0 then
    ext ← rd 0x7E;
    let ext_cnt := if EDID_BLOCK_MAX <=? ext then EDID_BLOCK_MAX - 1 else ext in
    for_m (Z.mul 128 <$> upto 1 ext_cnt) extension_body;;
    gets info_option
  else modify (with_option 0);; mret 0.
End Edid.

Definition edid_parse (edid : option (list Z)) : E Z :=
  match edid with
  | None => mret 0
  | Some edid =>
      o ← gets info_option;
      if negb (Z.land o EDID_OPT_VALID =? 0) then mret o else parse_blocks edid
  end.

(** ** Looking a mode up *)

Record hdmi_vic_t := MkVic { vic_resx : Z; vic_resy : Z; vic_freq : Z; vic_option : Z }.
Definition HDMI_VIC_INTERLACE : Z := BIT 0.
Definition HDMI_VIC_PROGRESS : Z := 0.
Definition HDMI_VIC_4x3 : Z := BIT 1.

Definition hdmi_vic_info : list hdmi_vic_t := [
  MkVic 0 0 0 0;
  MkVic 640 480 60 HDMI_VIC_4x3;
  MkVic 720 480 60 HDMI_VIC_4x3;
  MkVic 720 480 60 0;
  MkVic 1280 720 60 0;
  MkVic 1920 1080 60 HDMI_VIC_INTERLACE;
  MkVic 720 480 60 (Z.lor HDMI_VIC_4x3 HDMI_VIC_INTERLACE);
  MkVic 720 480 60 HDMI_VIC_INTERLACE;
  MkVic 720 240 60 HDMI_VIC_4x3;
  MkVic 720 240 60 0;
  MkVic 2880 480 60 (Z.lor HDMI_VIC_4x3 HDMI_VIC_INTERLACE);
  MkVic 2880 480 60 HDMI_VIC_INTERLACE;
  MkVic 2880 240 60 HDMI_VIC_4x3;
  MkVic 2880 240 60 0;
  MkVic 1440 480 60 HDMI_VIC_4x3;
  MkVic 1440 480 60 0;
  MkVic 1920 1080 60 0;
  MkVic 720 576 50 HDMI_VIC_4x3;
  MkVic 720 576 50 0;
  MkVic 1280 720 50 0;
  MkVic 1920 1080 50 HDMI_VIC_INTERLACE;
  MkVic 720 576 50 (Z.lor HDMI_VIC_INTERLACE HDMI_VIC_4x3);
  MkVic 720 576 50 HDMI_VIC_INTERLACE;
  MkVic 720 288 50 HDMI_VIC_4x3;
  MkVic 720 288 50 0;
  MkVic 2880 576 50 (Z.lor HDMI_VIC_INTERLACE HDMI_VIC_4x3);
  MkVic 2880 576 50 HDMI_VIC_INTERLACE;
  MkVic 2880 288 50 HDMI_VIC_4x3;
  MkVic 2880 288 50 0;
  MkVic 1440 576 50 HDMI_VIC_4x3;
  MkVic 1440 576 50 0;
  MkVic 1920 1080 50 0;
  MkVic 1920 1080 24 0;
  MkVic 1920 1080 25 0;
  MkVic 1920 1080 30 0
].
Definition HDMI_VIDEO_CODE_MAX : Z := 35.

(** The first element that satisfies [f]. *)
Fixpoint find_index {A} (f : A -> bool) (l : list A) : option nat :=
  match l with
  | [] => None
  | x :: l' => if f x then Some O else S <$> find_index f l'
  end.

Section Support.
Context (resx resy freq : Z).

Definition detail_match (t : vpp_timing_t) : bool :=
  if vt_pixel_clock t =? 0 then false
  else
    let option := Z.lor (VPP_GET_OPT_FPS (vt_option t))
                    (if negb (Z.land (vt_option t) VPP_OPT_INTERLACE =? 0) then EDID_TMR_INTERLACE else 0) in
    (resx =? vt_hpixel t) && (resy =? vt_vpixel t) && (freq =? option).

Definition timing_is (t : edid_timing_t) : bool :=
  (resx =? et_resx t) && (resy =? et_resy t) && (freq =? et_freq t).

Definition establish_match (e : Z) (i : nat) : bool :=
  negb (Z.land e (Z.shiftl 1 (Z.of_nat i)) =? 0) &&
  match edid_establish_timing !! i with Some t => timing_is t | None => false end.

Definition timing_match (t : edid_timing_t) : bool := if et_resx t =? 0 then false else timing_is t.

Definition vic_match (vics : list Z) (i : nat) : bool :=
  let z := Z.of_nat i in
  if Z.land (nth (i / 8) vics 0) (Z.shiftl 1 (z mod 8)) =? 0 then false
  else if HDMI_VIDEO_CODE_MAX <=? z then false
  else
    match hdmi_vic_info !! i with
    | Some v =>
        if (resx =? vic_resx v) && (resy =? vic_resy v) then
          if negb (Z.land freq EDID_TMR_FREQ =? vic_freq v) then false
          else
            let interlace := if negb (Z.land freq EDID_TMR_INTERLACE =? 0) then HDMI_VIC_INTERLACE else HDMI_VIC_PROGRESS in
            Z.land (vic_option v) HDMI_VIC_INTERLACE =? interlace
        else false
    | None => false
    end.

(** The answer, and the detailed timing ([*timing]) by its index. *)
Definition edid_find_support (info : option edid_info_t) : Z * option nat :=
  match info with
  | None => (0, None)
  | Some info =>
      match find_index detail_match (detail_timing info) with
      | Some i => (3, Some i)
      | None =>
          if negb (establish_timing info =? 0) && existsb (establish_match (establish_timing info)) (seq 0 17)
          then (1, None)
          else if existsb timing_match (standard_timing info) then (2, None)
          else if existsb timing_match (cea_timing info) then (4, None)
          else if existsb (vic_match (cea_vic info)) (seq 0 64) then (5, None)
          else (0, None)
      end
  end.
End Support.
