(* ===== verification/EdidSpec.v ===== *)
(** * What the EDID parser promises

    The parser of [Edid] related to the bytes it reads: which modes a
    description advertises, that [edid_parse] never leaves its arrays on
    extension blocks that are well formed, and that [edid_find_support] answers
    for exactly the modes that are advertised.  The theorems themselves are in
    [EdidModes]. *)

From S2P Require Import Prelude Edid.
From stdpp Require Import list.
#[local] Open Scope Z_scope.

#[local] Abbreviation E := (M edid_info_t).

(** ** Loops that fill an array *)

Section Fill.
Context {A : Type} (stop : Z -> bool) (v : Z -> A).

Fixpoint fill (lo : Z) (n : nat) (l : list A) : list A :=
  match n with
  | O => l
  | S n => if stop lo then l else fill (lo + 1) n (<[Z.to_nat lo := v lo]> l)
  end.

Lemma fill_length lo n l : length (fill lo n l) = length l.
Proof.
  revert lo l. induction n as [|n IH]; intros lo l; simpl; [done|]. destruct (stop lo); [done|].
  by rewrite IH, length_insert.
Qed.

(** The entries up to the first stop are new. *)
Lemma fill_new lo n l j :
  0 <= lo -> lo + Z.of_nat n <= Z.of_nat (length l) -> lo <= Z.of_nat j < lo + Z.of_nat n ->
  (forall i, lo <= i <= Z.of_nat j -> stop i = false) -> fill lo n l !! j = Some (v (Z.of_nat j)).
Proof.
  revert lo l. induction n as [|n IH]; intros lo l Hlo Hl Hj Hs; cbn [fill]; [lia|].
  rewrite Hs by lia. destruct (decide (Z.of_nat j = lo)) as [Ej|Ej].
  - assert (forall m l', length l' = length l -> fill (lo + 1) m l' !! j = l' !! j) as Hk.
    { intros m. clear -Hlo Ej. generalize (lo + 1) (ltac:(lia) : Z.of_nat j < lo + 1).
      induction m as [|m IH]; intros k Hk l' Hl'; cbn [fill]; [done|]. destruct (stop k); [done|].
      rewrite IH by (rewrite ?length_insert; (done || lia)). apply list_lookup_insert_ne. lia. }
    rewrite Hk by (by rewrite length_insert). rewrite <- Ej, Nat2Z.id. apply list_lookup_insert_eq. lia.
  - apply IH; [lia|rewrite length_insert; lia|lia|]. intros i Hi. apply Hs. lia.
Qed.

(** Every entry is new or as before. *)
Lemma fill_inv lo n l j x :
  0 <= lo -> fill lo n l !! j = Some x ->
  (lo <= Z.of_nat j < lo + Z.of_nat n /\ (forall i, lo <= i <= Z.of_nat j -> stop i = false) /\ x = v (Z.of_nat j)) \/
  l !! j = Some x.
Proof.
  revert lo l. induction n as [|n IH]; intros lo l Hlo; cbn [fill]; [by right|].
  destruct (stop lo) eqn:Es; [by right|]. intros [(Hj & Hs & ->)|Hx]%IH; [| |lia].
  - left. split; [lia|]. split; [|done]. intros i Hi. destruct (decide (i = lo)) as [->|]; [done|apply Hs; lia].
  - destruct (decide (Z.of_nat j = lo)) as [Ej|Ej].
    + rewrite <- Ej, Nat2Z.id in Hx. apply list_lookup_insert_Some in Hx as [(_ & <- & _)|[Hne _]]; [|done].
      left. split; [lia|]. split; [|by rewrite Ej]. intros i Hi. by replace i with lo by lia.
    + right. by rewrite list_lookup_insert_ne in Hx by lia.
Qed.
End Fill.

Lemma for_fill {S A} (getl : S -> list A) (setl : list A -> S -> S) (stop : Z -> bool) (v : Z -> A) (body : Z -> M S bool) lo n s :
  (forall l s, getl (setl l s) = l) -> (forall l l' s, setl l (setl l' s) = setl l s) ->
  (forall s, setl (getl s) s = s) ->
  0 <= lo -> lo + Z.of_nat n <= Z.of_nat (length (getl s)) ->
  (forall i s', lo <= i < lo + Z.of_nat n -> length (getl s') = length (getl s) ->
     body i s' = Ok (if stop i then (false, s') else (true, setl (<[Z.to_nat i := v i]> (getl s')) s'))) ->
  for_m (seqZ lo (Z.of_nat n)) body s = Ok (tt, setl (fill stop v lo n (getl s)) s).
Proof.
  intros Hgs Hss Hsg. revert lo s. induction n as [|n IH]; intros lo s Hlo Hl Hb.
  - simpl. by rewrite Hsg.
  - rewrite seqZ_cons by lia. cbn [for_m fill]. unfold mbind, M_bind. rewrite Hb by (done || lia).
    destruct (stop lo); [by rewrite Hsg|].
    replace (Z.pred (Z.of_nat (Datatypes.S n))) with (Z.of_nat n) by lia.
    replace (Z.succ lo) with (lo + 1) by lia.
    rewrite IH; [by rewrite Hgs, Hss|lia|rewrite Hgs, length_insert; lia|].
    intros i s' Hi Hs'. apply Hb; [lia|]. by rewrite Hs', Hgs, length_insert.
Qed.

(** ** Bytes *)

Lemma all_bytes (P : Z -> bool) : forallb P (seqZ 0 256) = true -> forall b, 0 <= b < 256 -> P b = true.
Proof.
  intros H b Hb. rewrite forallb_forall in H. apply H, list_elem_of_In, elem_of_seqZ. lia.
Qed.

Lemma upper_nibble b : 0 <= b < 256 -> UPPER_NIBBLE b = b / 16.
Proof.
  intros Hb. apply Z.eqb_eq. revert b Hb. apply (all_bytes (fun b => UPPER_NIBBLE b =? b / 16)). by vm_compute.
Qed.

Lemma lower_nibble b : 0 <= b < 256 -> LOWER_NIBBLE b = b mod 16.
Proof.
  intros Hb. apply Z.eqb_eq. revert b Hb. apply (all_bytes (fun b => LOWER_NIBBLE b =? b mod 16)). by vm_compute.
Qed.

Lemma lor_shift hi lo n : 0 <= n -> 0 <= lo < 2 ^ n -> Z.lor (hi * 2 ^ n) lo = hi * 2 ^ n + lo.
Proof.
  intros Hn Hlo. symmetry. rewrite <- Z.shiftl_mul_pow2 by done. rewrite Z.add_nocarry_lxor.
  - apply Z.lxor_lor. apply Z.bits_inj'. intros i Hi. rewrite Z.land_spec, Z.bits_0, Z.shiftl_spec by done.
    destruct (Z.lt_ge_cases i n).
    + by rewrite Z.testbit_neg_r by lia.
    + rewrite (bits_above n lo i) by lia. apply andb_false_r.
  - apply Z.bits_inj'. intros i Hi. rewrite Z.land_spec, Z.bits_0, Z.shiftl_spec by done.
    destruct (Z.lt_ge_cases i n).
    + by rewrite Z.testbit_neg_r by lia.
    + rewrite (bits_above n lo i) by lia. apply andb_false_r.
Qed.

Lemma combine8 hi lo : 0 <= hi < 2 ^ 24 -> 0 <= lo < 256 -> COMBINE_HI_8LO hi lo = hi * 256 + lo.
Proof.
  intros Hh Hl. unfold COMBINE_HI_8LO. rewrite Z.shiftl_mul_pow2 by done. rewrite u32_small by lia.
  by apply (lor_shift hi lo 8).
Qed.

Lemma combine4 hi lo : 0 <= hi < 2 ^ 24 -> 0 <= lo < 16 -> COMBINE_HI_4LO hi lo = hi * 16 + lo.
Proof.
  intros Hh Hl. unfold COMBINE_HI_4LO. rewrite Z.shiftl_mul_pow2 by done. rewrite u32_small by lia.
  by apply (lor_shift hi lo 4).
Qed.

Section Buffer.
Context (edid : list Z) (Hbytes : Forall (fun b => 0 <= b < 256) edid).
#[local] Abbreviation len := (Z.of_nat (length edid)).

Definition byte (i : Z) : Z := nth (Z.to_nat i) edid 0.
Definition slice (p : Z) (n : nat) : list Z := byte <$> seqZ p (Z.of_nat n).

Lemma byte_range i : 0 <= byte i < 256.
Proof.
  unfold byte. destruct (nth_in_or_default (Z.to_nat i) edid 0) as [Hin| ->]; [|lia].
  rewrite Forall_forall in Hbytes. by apply Hbytes, list_elem_of_In.
Qed.

Lemma rd_run i s : 0 <= i < len -> rd edid i s = Ok (byte i, s).
Proof.
  intros Hi. unfold rd, byte. destruct (Z.ltb_spec i 0); [lia|].
  destruct (lookup_lt_is_Some_2 edid (Z.to_nat i)) as [b Hb]; [lia|]. rewrite Hb.
  by rewrite (nth_lookup_Some _ _ _ _ Hb).
Qed.

Lemma rd_n_run p n s : 0 <= p -> p + Z.of_nat n <= len -> rd_n edid p n s = Ok (slice p n, s).
Proof.
  revert p. induction n as [|n IH]; intros p Hp Hl; [done|]. cbn [rd_n]. unfold slice.
  rewrite seqZ_cons by lia. cbn [fmap list_fmap]. erewrite bind_ok by (apply rd_run; lia). cbv beta.
  erewrite bind_ok by (apply IH; lia). unfold slice. replace (Z.pred (Z.of_nat (S n))) with (Z.of_nat n) by lia.
  by replace (Z.succ p) with (p + 1) by lia.
Qed.

Lemma slice_length p n : length (slice p n) = n.
Proof. unfold slice. rewrite length_fmap, length_seqZ. lia. Qed.

Lemma nth_slice p n k : (k < n)%nat -> nth k (slice p n) 0 = byte (p + Z.of_nat k).
Proof.
  intros Hk. apply nth_lookup_Some. unfold slice. rewrite list_lookup_fmap.
  by rewrite (proj2 (lookup_seqZ p (Z.of_nat n) k _)) by (split; [reflexivity|lia]).
Qed.

(** ** The base block *)

Definition dtd_at (p : Z) : bool := negb ((byte p =? 0) && (byte (p + 1) =? 0)).

Lemma block_type_run p s :
  0 <= p -> p + 4 <= len ->
  block_type edid p s
  = Ok (if dtd_at p then DETAILED_TIMING_BLOCK
        else if byte (p + 2) =? 0 then byte (p + 3) else UNKNOWN_DESCRIPTOR, s).
Proof.
  intros Hp Hl. unfold block_type, dtd_at. erewrite bind_ok by (apply (rd_n_run p 2); lia). cbv beta.
  unfold slice. change (Z.of_nat 2) with 2. rewrite seqZ_cons, seqZ_cons by lia. cbn [fmap list_fmap forallb].
  replace (Z.succ p) with (p + 1) by lia. change (Z.pred (Z.pred 2)) with 0. rewrite seqZ_nil by lia.
  cbn [forallb fmap list_fmap]. rewrite andb_true_r, (Z.eqb_sym 0 (byte p)), (Z.eqb_sym 0 (byte (p + 1))).
  destruct ((byte p =? 0) && (byte (p + 1) =? 0)); [|done].
  erewrite bind_ok by (apply rd_run; lia). cbv beta. cbn [negb].
  destruct (byte (p + 2) =? 0); [|done]. cbn [negb]. apply rd_run. lia.
Qed.

Lemma dtd_type p : ((if dtd_at p then DETAILED_TIMING_BLOCK
  else if byte (p + 2) =? 0 then byte (p + 3) else UNKNOWN_DESCRIPTOR) =? DETAILED_TIMING_BLOCK) = dtd_at p.
Proof.
  pose proof (byte_range (p + 3)). destruct (dtd_at p); [done|].
  destruct (byte (p + 2) =? 0); apply Z.eqb_neq; unfold DETAILED_TIMING_BLOCK, UNKNOWN_DESCRIPTOR; lia.
Qed.

(** Standard timings, up to the pair (1, 1). *)
Definition std_at (i : Z) : Z := STANDARD_TIMING_IDENTIFICATION_START + 2 * i.
Definition std_stop (i : Z) : bool := (byte (std_at i) =? 1) && (byte (std_at i + 1) =? 1).
Definition std_timing (i : Z) : edid_timing_t :=
  let h_res := byte (std_at i) * 8 + 248 in
  MkTiming h_res (standard_v_res h_res (byte (std_at i + 1))) (Z.land (byte (std_at i + 1)) 0x1F + 60).

Lemma standard_run s :
  128 <= len -> length (standard_timing s) = 8%nat ->
  get_standard_timing edid s = Ok (tt, with_standard (fill std_stop std_timing 0 8 (standard_timing s)) s).
Proof.
  intros Hl Hs. apply (for_fill standard_timing with_standard std_stop std_timing _ 0 8 s); try done.
  - by intros [].
  - rewrite Hs. lia.
  - intros i s' Hi Hs'. unfold standard_body.
    assert (std_at i = 0x26 + 2 * i) as Hat by done.
    erewrite bind_ok by (apply rd_run; fold (std_at i); lia). cbv beta.
    erewrite bind_ok by (apply rd_run; fold (std_at i); lia). cbv beta. fold (std_at i). fold (std_stop i).
    destruct (std_stop i); [done|]. cbv zeta. erewrite bind_ok by done. cbv beta.
    unfold store. destruct (Z.leb_spec 0 i); [|lia]. destruct (Z.ltb_spec i (Z.of_nat (length (standard_timing s')))); [|lia].
    done.
Qed.

Lemma established_run s : 128 <= len ->
  get_established_timing edid s = Ok (tt, with_establish (byte 0x23 + 256 * byte 0x24) s).
Proof.
  intros Hl. unfold get_established_timing. erewrite bind_ok by (apply rd_run; unfold ESTABLISHED_TIMING_I; lia).
  cbv beta. erewrite bind_ok by (apply rd_run; unfold ESTABLISHED_TIMING_II; lia). cbv beta.
  pose proof (byte_range 0x23). pose proof (byte_range 0x24). unfold modify.
  rewrite Z.shiftl_mul_pow2 by done. rewrite u32_small by (unfold ESTABLISHED_TIMING_I, ESTABLISHED_TIMING_II; lia).
  unfold ESTABLISHED_TIMING_I, ESTABLISHED_TIMING_II. by rewrite (Z.mul_comm 256).
Qed.

Definition descriptor_ok (p : Z) : Prop := 0 <= p /\ p + 18 <= len.

Lemma limits_run blocks s : Forall descriptor_ok blocks ->
  exists z, for_m blocks (limits_body edid) s = Ok (tt, with_limit z s).
Proof.
  intros Hb. revert s. induction Hb as [|p l [Hp1 Hp2] _ IH]; intros s.
  - exists (pixel_clock_limit s). by destruct s.
  - assert (exists z, limits_body edid p s = Ok (true, with_limit z s)) as [z Hz].
    { unfold limits_body. erewrite bind_ok by (apply block_type_run; lia). cbv beta.
      destruct (_ =? MONITOR_LIMITS); [|exists (pixel_clock_limit s); by destruct s].
      unfold parse_monitor_limits. set (c := byte (p + 9)).
      destruct (c * 10 =? 10 * 255) eqn:Ec.
      - exists (pixel_clock_limit s). erewrite bind_ok; [|erewrite bind_ok by (apply rd_run; lia); cbv beta; fold c; by rewrite Ec].
        by destruct s.
      - exists (c * 10). by erewrite bind_ok by (erewrite bind_ok by (apply rd_run; lia); cbv beta; fold c; by rewrite Ec). }
    destruct (IH (with_limit z s)) as [z' Hz']. exists z'. cbn [for_m]. erewrite bind_ok by exact Hz. cbv beta. done.
Qed.

(** *** Detailed timings *)

Definition dtd_timing (p : Z) : vpp_timing_t := fill_timing (slice p 18) vpp_timing0.

Lemma pixel_clock_run p : PIXEL_CLOCK (slice p 18) = (byte (p + 1) * 256 + byte p) * 10000.
Proof.
  unfold PIXEL_CLOCK. rewrite !nth_slice by lia. change (Z.of_nat 1) with 1. change (Z.of_nat 0) with 0.
  rewrite Z.add_0_r. pose proof (byte_range p). pose proof (byte_range (p + 1)).
  rewrite combine8 by lia. by rewrite u32_small by lia.
Qed.

Lemma dtd_clock p : dtd_at p = true -> vt_pixel_clock (dtd_timing p) <> 0.
Proof.
  unfold dtd_at, dtd_timing. cbn [fill_timing vt_pixel_clock]. rewrite pixel_clock_run. intros Hd.
  pose proof (byte_range p). pose proof (byte_range (p + 1)).
  destruct (Z.eqb_spec (byte p) 0), (Z.eqb_spec (byte (p + 1)) 0); try done; lia.
Qed.

Lemma fill_slot_first d D m :
  Forall (fun t => vt_pixel_clock t <> 0) D ->
  fill_slot d (D ++ replicate (S m) vpp_timing0) = Some (D ++ fill_timing d vpp_timing0 :: replicate m vpp_timing0).
Proof.
  induction 1 as [|t D Ht _ IH]; [done|]. cbn [app fill_slot]. apply Z.eqb_neq in Ht. by rewrite Ht, IH.
Qed.

(** The option keeps its mark. *)
Definition same_mark (o o' : Z) : Prop := Z.testbit o' 0 = Z.testbit o 0.

Lemma same_mark_lor o k : 0 <= k -> Z.testbit k 0 = false -> same_mark o (Z.lor o k).
Proof. intros Hk Hz. unfold same_mark. by rewrite Z.lor_spec, Hz, orb_false_r. Qed.

Lemma detail_step p s D m :
  descriptor_ok p -> Forall (fun t => vt_pixel_clock t <> 0) D ->
  detail_timing s = D ++ replicate (S m) vpp_timing0 -> dtd_at p = true ->
  exists o, detail_body edid p s
    = Ok (true, with_option o (with_detail (D ++ dtd_timing p :: replicate m vpp_timing0) s)) /\
    same_mark (info_option s) o.
Proof.
  intros [Hp1 Hp2] HD Hs Hd. unfold detail_body. erewrite bind_ok by (apply block_type_run; lia). cbv beta.
  rewrite dtd_type, Hd. unfold parse_timing_description. unfold mbind at 1, M_bind at 1.
  erewrite bind_ok by (apply (rd_n_run p 18); lia). cbv beta. erewrite bind_ok by done. cbv beta.
  rewrite Hs, (fill_slot_first _ _ _ HD). fold (dtd_timing p). erewrite bind_ok by done. cbv beta.
  destruct (vout_check_ratio_16_9 _ _).
  - eexists. split; [done|]. by apply same_mark_lor.
  - exists (info_option s). split; [by destruct s|done].
Qed.

Lemma details_run blocks s D m :
  Forall descriptor_ok blocks -> Forall (fun t => vt_pixel_clock t <> 0) D ->
  detail_timing s = D ++ replicate m vpp_timing0 -> (length blocks <= m)%nat ->
  exists o m', for_m blocks (detail_body edid) s
    = Ok (tt, with_option o (with_detail (D ++ (dtd_timing <$> filter (fun p => dtd_at p = true) blocks)
                                            ++ replicate m' vpp_timing0) s)) /\
    same_mark (info_option s) o /\ (m' = m - length (filter (fun p => dtd_at p = true) blocks))%nat.
Proof.
  intros Hb. revert s D m. induction Hb as [|p l Hp _ IH]; intros s D m HD Hs Hm.
  - exists (info_option s), m. split_and!; [|done|simpl; lia]. simpl. rewrite <- Hs. by destruct s.
  - cbn [for_m]. simpl in Hm. destruct m as [|m]; [lia|]. rewrite filter_cons. destruct (dtd_at p) eqn:Hd.
    + rewrite decide_True by done. destruct (detail_step p s D m Hp HD Hs Hd) as (o & Hr & Ho).
      erewrite bind_ok by exact Hr. cbv beta iota.
      destruct (IH (with_option o (with_detail (D ++ dtd_timing p :: replicate m vpp_timing0) s))
        (D ++ [dtd_timing p]) m) as (o' & m' & Hr' & Ho' & Hm').
      { apply Forall_app. split; [done|]. by apply Forall_singleton, dtd_clock. }
      { cbn. by rewrite <- app_assoc. }
      { lia. }
      exists o', m'. split_and!; [|by unfold same_mark in *; rewrite Ho'|simpl; lia].
      rewrite Hr', <- app_assoc. done.
    + rewrite decide_False by done. erewrite bind_ok.
      2: { unfold detail_body. erewrite bind_ok by (apply block_type_run; destruct Hp; lia). cbv beta.
           rewrite dtd_type, Hd. reflexivity. }
      cbv beta iota. destruct (IH s D (S m) HD Hs ltac:(lia)) as (o' & m' & Hr' & Ho' & Hm'). exists o', m'. done.
Qed.

Lemma descriptors_ok : 128 <= len -> Forall descriptor_ok descriptors.
Proof.
  intros Hl. apply Forall_forall. intros p (i & -> & Hi)%list_elem_of_fmap. apply elem_of_seqZ in Hi.
  unfold descriptor_ok, descriptor, DETAILED_TIMING_DESCRIPTIONS_START, DETAILED_TIMING_DESCRIPTION_SIZE.
  unfold NO_DETAILED_TIMING_DESCRIPTIONS in Hi. lia.
Qed.

Lemma monitor_name_run blocks s : Forall descriptor_ok blocks ->
  exists n, find_monitor_name edid blocks s = Ok (n, s).
Proof.
  induction 1 as [|p l [Hp1 Hp2] _ IH]; [by exists None|]. cbn [find_monitor_name].
  erewrite bind_ok by (apply block_type_run; lia). cbv beta. destruct (_ =? MONITOR_NAME); [|done].
  assert (forall n q, 0 <= q -> q + Z.of_nat n <= len -> exists r, name_loop edid q n s = Ok (r, s)) as Hn.
  { induction n as [|n IHn]; intros q Hq Hl; [by eexists|]. cbn [name_loop].
    erewrite bind_ok by (apply rd_run; lia). cbv beta. destruct (_ =? 10); [by eexists|].
    destruct (IHn (q + 1)) as [r Hr]; [lia..|]. erewrite bind_ok by exact Hr. by eexists. }
  destruct (Hn 13%nat (p + 5)) as [r Hr]; [lia..|]. unfold get_monitor_name. erewrite bind_ok by exact Hr. by eexists.
Qed.

(** ** The base block as a whole *)

Definition header_ok : bool := bool_decide (slice 0 8 = edid_v1_header).

Definition block_sum (base : Z) : Z := foldl (fun c b => u8 (c + b)) 0 (slice base 128).

Lemma byte_sum_run base s : 0 <= base -> base + 128 <= len ->
  byte_sum edid base EDID_LENGTH s = Ok (block_sum base, s).
Proof.
  intros Hb Hl. unfold byte_sum, block_sum.
  assert (Z.to_nat EDID_LENGTH = 128%nat) as -> by done.
  rewrite (bind_ok _ _ _ _ _ (rd_n_run base 128 s Hb Hl)). reflexivity.
Qed.

Lemma checksum_run s : 128 <= len -> edid_checksum edid 0 EDID_LENGTH s = Ok (if header_ok then 0 else block_sum 0, s).
Proof.
  intros Hl. unfold edid_checksum. erewrite bind_ok by (apply byte_sum_run; lia). cbv beta.
  assert ((8 <? EDID_LENGTH) = true) as -> by done.
  by erewrite bind_ok by (apply (rd_n_run 0 8); lia).
Qed.

Lemma v1_reject s : 128 <= len -> header_ok = false -> edid_parse_v1 edid s = Ok (-1, s).
Proof.
  intros Hl Hh. unfold edid_parse_v1. erewrite bind_ok by (by apply checksum_run). cbv beta. rewrite Hh.
  destruct (block_sum 0 =? 0); [|done]. cbn [negb]. unfold header_ok in Hh.
  erewrite bind_ok by (apply (rd_n_run 0 8); lia). cbv beta. by rewrite Hh.
Qed.

Definition base_detail : list vpp_timing_t := dtd_timing <$> filter (fun p => dtd_at p = true) descriptors.

Lemma v1_stages s0 : 128 <= len -> header_ok = true ->
  edid_parse_v1 edid s0 = (get_established_timing edid;; get_standard_timing edid;;
    for_m descriptors (limits_body edid);; for_m descriptors (detail_body edid);; mret 0) s0.
Proof.
  intros Hl Hh. unfold header_ok in Hh.
  unfold edid_parse_v1. erewrite bind_ok by (by apply checksum_run). cbv beta. unfold header_ok. rewrite Hh.
  cbn [Z.eqb negb]. erewrite bind_ok by (apply (rd_n_run 0 8); lia). cbv beta. rewrite Hh. cbn [negb].
  erewrite bind_ok by (unfold get_vendor_sign; erewrite bind_ok by (apply rd_run; unfold ID_MANUFACTURER_NAME; lia);
    erewrite bind_ok by (apply rd_run; unfold ID_MANUFACTURER_NAME; lia); reflexivity).
  destruct (monitor_name_run descriptors s0 (descriptors_ok Hl)) as [n Hn]. erewrite bind_ok by exact Hn. cbv beta.
  assert (exists l, (match n with None => rd_n edid ID_MODEL 2 | Some n => mret n end) s0 = Ok (l, s0)) as [l Hnl].
  { destruct n as [n|]; [by eexists|]. eexists. apply (rd_n_run ID_MODEL 2); unfold ID_MODEL; lia. }
  erewrite bind_ok by exact Hnl. cbv beta. by erewrite bind_ok by (apply rd_run; unfold DPMS_FLAGS; lia).
Qed.

Lemma v1_accept : 128 <= len -> header_ok = true ->
  exists z o, edid_parse_v1 edid (with_option EDID_OPT_VALID info0)
    = Ok (0, MkInfo (byte 0x23 + 256 * byte 0x24) (fill std_stop std_timing 0 8 (replicate 8 timing0))
               (base_detail ++ replicate (4 - length base_detail) vpp_timing0)
               (replicate 6 timing0) (replicate 8 0) z o 0) /\ Z.testbit o 0 = true.
Proof.
  intros Hl Hh. rewrite v1_stages by done. set (s0 := with_option EDID_OPT_VALID info0).
  erewrite bind_ok by (by apply established_run). cbv beta.
  erewrite bind_ok by (by apply standard_run). cbv beta.
  edestruct (limits_run descriptors) as [z Hz]; [by apply descriptors_ok|]. erewrite bind_ok by exact Hz. cbv beta.
  match type of Hz with _ = Ok (tt, ?s) =>
    destruct (details_run descriptors s [] 4) as (o & m' & Hd & Ho & Hm);
      [by apply descriptors_ok|constructor|done|simpl; lia|] end.
  erewrite bind_ok by exact Hd. exists z, o. split; [|by rewrite Ho].
  rewrite Hm. unfold base_detail. rewrite length_fmap. done.
Qed.

(** ** Modes *)

(** What a detailed timing descriptor at [p] says: the active pixels and lines,
    and the rate (59 counts as 60) with a mark for interlaced modes. *)
Definition clock_at (p : Z) : Z := (byte (p + 1) * 256 + byte p) * 10000.
Definition hactive (p : Z) : Z := byte (p + 4) / 16 * 256 + byte (p + 2).
Definition hblank (p : Z) : Z := byte (p + 4) mod 16 * 256 + byte (p + 3).
Definition vactive (p : Z) : Z := byte (p + 7) / 16 * 256 + byte (p + 5).
Definition vblank (p : Z) : Z := byte (p + 7) mod 16 * 256 + byte (p + 6).
Definition interlaced_at (p : Z) : bool := 128 <=? byte (p + 17).
Definition rate_at (p : Z) : Z :=
  let r := clock_at p / ((vactive p + vblank p) * (hactive p + hblank p)) in if r =? 59 then 60 else r.
Definition mark (i : bool) : Z := if i then 2 ^ 31 else 0.
Definition dtd_mode (p : Z) : Z * Z * Z := (hactive p, vactive p, rate_at p mod 256 + mark (interlaced_at p)).

Lemma high_nibble p : 0 <= byte p / 16 < 16.
Proof. pose proof (byte_range p). dlia. Qed.
Lemma low_nibble p : 0 <= byte p mod 16 < 16.
Proof. dlia. Qed.

Lemma active_run p :
  H_ACTIVE (slice p 18) = hactive p /\ H_BLANKING (slice p 18) = hblank p /\
  V_ACTIVE (slice p 18) = vactive p /\ V_BLANKING (slice p 18) = vblank p.
Proof.
  unfold H_ACTIVE, H_BLANKING, V_ACTIVE, V_BLANKING. rewrite !nth_slice by lia.
  pose proof byte_range as Hb.
  rewrite !upper_nibble, !lower_nibble by apply Hb.
  pose proof high_nibble as Hh. pose proof low_nibble as Hl.
  rewrite !combine8 by (apply Hb || (match goal with |- 0 <= byte ?q / 16 < _ => specialize (Hh q) | |- 0 <= byte ?q mod 16 < _ => specialize (Hl q) end; lia)).
  done.
Qed.

Lemma flag_run p : INTERLACED (slice p 18) = interlaced_at p.
Proof.
  unfold INTERLACED, FLAGS, interlaced_at. rewrite nth_slice by lia. change (Z.of_nat 17) with 17.
  pose proof (byte_range (p + 17)) as Hb. revert Hb. generalize (byte (p + 17)). intros b Hb.
  apply (all_bytes (fun b => Bool.eqb (negb (Z.land b 128 =? 0)) (128 <=? b))) in Hb; [|by vm_compute].
  by apply Bool.eqb_prop.
Qed.

Lemma rate_run p : dtd_fps (slice p 18) = rate_at p.
Proof.
  unfold dtd_fps, rate_at. destruct (active_run p) as (-> & -> & -> & ->). by rewrite pixel_clock_run.
Qed.

(** The rate and the interlace mark survive in the packed option. *)
Lemma option_fields r (i : bool) c :
  0 <= c < 2 ^ 24 -> Z.testbit c 0 = i ->
  let o := Z.lor (u32 (Z.shiftl r 24)) c in
  VPP_GET_OPT_FPS o = r mod 256 /\ negb (Z.land o VPP_OPT_INTERLACE =? 0) = i.
Proof.
  intros Hc Hi o.
  assert (u32 (Z.shiftl r 24) = r mod 256 * 2 ^ 24) as Hu.
  { rewrite Z.shiftl_mul_pow2 by done. unfold u32, wrap. change (2 ^ 32) with (256 * 2 ^ 24).
    by rewrite Z.mul_mod_distr_r. }
  assert (o = r mod 256 * 2 ^ 24 + c) as Ho by (unfold o; rewrite Hu; by apply lor_shift).
  split.
  - unfold VPP_GET_OPT_FPS. rewrite Z.shiftr_land. change (Z.shiftr VPP_OPT_FPS_MASK 24) with (Z.ones 8).
    rewrite Z.land_ones, Z.shiftr_div_pow2, Ho by done. rewrite Z.div_add_l by done.
    rewrite (Z.div_small c) by done. rewrite Z.add_0_r. by rewrite Z.mod_mod.
  - change VPP_OPT_INTERLACE with (Z.ones 1). rewrite Z.land_ones, Ho by done.
    rewrite <- Hi, Z.bit0_odd, Zodd_mod. change (2 ^ 1) with 2.
    replace ((r mod 256 * 2 ^ 24 + c) mod 2) with (c mod 2) by dlia.
    pose proof (Z.mod_pos_bound c 2 eq_refl). assert (c mod 2 = 0 \/ c mod 2 = 1) as [-> | ->] by lia; done.
Qed.

Lemma dtd_option p : exists c, 0 <= c < 2 ^ 24 /\ Z.testbit c 0 = interlaced_at p /\
  vt_option (dtd_timing p) = Z.lor (u32 (Z.shiftl (rate_at p) 24)) c.
Proof.
  unfold dtd_timing. cbn [fill_timing vt_option vpp_timing0]. unfold VPP_SET_OPT_FPS.
  rewrite Z.land_0_l, Z.lor_0_l, rate_run, flag_run, <- !Z.lor_assoc. eexists. split; [|split; [|done]].
  - destruct (interlaced_at p), (HSYNC_POSITIVE _), (VSYNC_POSITIVE _); vm_compute; split; done.
  - destruct (interlaced_at p), (HSYNC_POSITIVE _), (VSYNC_POSITIVE _); done.
Qed.

Lemma mark_lor r i : 0 <= r < 2 ^ 31 -> Z.lor r (if (i : bool) then EDID_TMR_INTERLACE else 0) = r + mark i.
Proof.
  intros Hr. destruct i; cbn [mark]; [|by rewrite Z.lor_0_r, Z.add_0_r].
  rewrite Z.lor_comm. change EDID_TMR_INTERLACE with (1 * 2 ^ 31). rewrite lor_shift by lia. lia.
Qed.

Lemma detail_match_dtd x y f p : dtd_at p = true ->
  detail_match x y f (dtd_timing p) = true <-> dtd_mode p = (x, y, f).
Proof.
  intros Hd. unfold detail_match. rewrite (proj2 (Z.eqb_neq _ _) (dtd_clock p Hd)).
  destruct (dtd_option p) as (c & Hc & Hi & Ho). destruct (option_fields (rate_at p) (interlaced_at p) c Hc Hi) as [H1 H2].
  rewrite Ho, H1, H2, mark_lor by dlia. unfold dtd_timing. cbn [fill_timing vt_hpixel vt_vpixel].
  destruct (active_run p) as (-> & _ & -> & _). rewrite !andb_true_iff, !Z.eqb_eq. unfold dtd_mode.
  split; [intros [[-> ->] ->]; done|by intros [= <- <- <-]].
Qed.
End Buffer.

(** ** What [edid_find_support] answers *)

Definition supports (info : edid_info_t) (x y f : Z) : Prop := fst (edid_find_support x y f (Some info)) <> 0.

Lemma find_index_some {A} (g : A -> bool) l : (exists i, find_index g l = Some i) <-> exists t, t ∈ l /\ g t = true.
Proof.
  induction l as [|a l IH]; simpl.
  - split; [intros [i [=]]|intros (t & Ht & _); by apply not_elem_of_nil in Ht].
  - destruct (g a) eqn:Ha.
    + split; [|by eexists]. exists a. split; [by left|done].
    + split.
      * intros [i (j & Hj & _)%fmap_Some]. destruct (proj1 IH) as (t & Ht & Hg); [by exists j|].
        exists t. split; [by right|done].
      * intros (t & [->|Ht]%elem_of_cons & Hg); [congruence|].
        destruct (proj2 IH) as [j Hj]; [by exists t|]. exists (S j). by rewrite Hj.
Qed.

Lemma supports_iff info x y f :
  supports info x y f <->
  (exists t, t ∈ detail_timing info /\ detail_match x y f t = true) \/
  (exists i, (i < 17)%nat /\ establish_match x y f (establish_timing info) i = true) \/
  (exists t, t ∈ standard_timing info /\ timing_match x y f t = true) \/
  (exists t, t ∈ cea_timing info /\ timing_match x y f t = true) \/
  (exists i, (i < 64)%nat /\ vic_match x y f (cea_vic info) i = true).
Proof.
  rewrite <- find_index_some. unfold supports, edid_find_support.
  assert (forall (g : nat -> bool) n, existsb g (seq 0 n) = true <-> exists i, (i < n)%nat /\ g i = true) as Hn.
  { intros g n. rewrite existsb_exists. setoid_rewrite in_seq. firstorder lia. }
  assert (forall (g : edid_timing_t -> bool) l, existsb g l = true <-> exists t, t ∈ l /\ g t = true) as Hl.
  { intros g l. rewrite existsb_exists. by setoid_rewrite list_elem_of_In. }
  assert (negb (establish_timing info =? 0) && existsb (establish_match x y f (establish_timing info)) (seq 0 17)
    = existsb (establish_match x y f (establish_timing info)) (seq 0 17)) as ->.
  { destruct (Z.eqb_spec (establish_timing info) 0) as [->|]; [|done]. symmetry. apply not_true_is_false.
    rewrite Hn. intros (i & _ & Hm). unfold establish_match in Hm. by rewrite Z.land_0_l in Hm. }
  rewrite <- !Hn, <- !Hl.
  destruct (find_index _ _) as [i|]; [split; [by eauto|done]|].
  destruct (existsb (establish_match _ _ _ _) _); [by cbn; intuition|].
  destruct (existsb _ (standard_timing _)); [by cbn; intuition|].
  destruct (existsb _ (cea_timing _)); [by cbn; intuition|].
  destruct (existsb (vic_match _ _ _ _) _); [by cbn; intuition|].
  cbn. split; [done|]. intros Hor. exfalso. by destruct Hor as [[? ?]|[|[|[|]]]].
Qed.

(** ** Extension blocks *)

(** Is a video code in the bit map? *)
Definition has_vic (l : list Z) (v : Z) : bool := Z.testbit (nth (Z.to_nat (v / 8)) l 0) (v mod 8).

Lemma has_vic_set l v u :
  length l = 8%nat -> Forall (fun b => 0 <= b < 256) l -> 0 <= v < 64 -> 0 <= u < 64 ->
  has_vic (<[Z.to_nat (v / 8) := u8 (Z.lor (nth (Z.to_nat (v / 8)) l 0) (Z.shiftl 1 (v mod 8)))]> l) u
  = has_vic l u || (u =? v).
Proof.
  intros Hl Hb Hv Hu. unfold has_vic.
  assert (0 <= nth (Z.to_nat (v / 8)) l 0 < 256) as Hn.
  { destruct (nth_in_or_default (Z.to_nat (v / 8)) l 0) as [Hin| ->]; [|lia].
    rewrite Forall_forall in Hb. by apply Hb, list_elem_of_In. }
  assert (u8 (Z.lor (nth (Z.to_nat (v / 8)) l 0) (Z.shiftl 1 (v mod 8))) = set_bit (nth (Z.to_nat (v / 8)) l 0) (v mod 8)) as ->.
  { apply u8_small. apply (set_bit_bound 8); dlia. }
  destruct (decide (u / 8 = v / 8)) as [E|E].
  - rewrite E. erewrite nth_lookup_Some by (apply list_lookup_insert_eq; dlia).
    rewrite set_bit_bits by dlia. f_equal.
    destruct (Z.eqb_spec (v mod 8) (u mod 8)), (Z.eqb_spec u v); try done; dlia.
  - assert ((u =? v) = false) as -> by (apply Z.eqb_neq; congruence). rewrite orb_false_r. f_equal.
    rewrite !nth_lookup. rewrite list_lookup_insert_ne; [done|]. dlia.
Qed.

(** What the data blocks may change: the video codes [V] are added. *)
Record adds_vics (s : edid_info_t) (V : list Z) (s' : edid_info_t) : Prop := {
  av_establish : establish_timing s' = establish_timing s;
  av_standard : standard_timing s' = standard_timing s;
  av_detail : detail_timing s' = detail_timing s;
  av_cea : cea_timing s' = cea_timing s;
  av_length : length (cea_vic s') = 8%nat;
  av_bytes : Forall (fun b => 0 <= b < 256) (cea_vic s');
  av_vics : forall u, 0 <= u < 64 -> has_vic (cea_vic s') u = true <-> has_vic (cea_vic s) u = true \/ u ∈ V;
  av_mark : same_mark (info_option s) (info_option s');
}.

Definition vics_ok (s : edid_info_t) : Prop :=
  length (cea_vic s) = 8%nat /\ Forall (fun b => 0 <= b < 256) (cea_vic s).

Lemma adds_vics_refl s : vics_ok s -> adds_vics s [] s.
Proof. intros [Hl Hb]. split; try done. intros u Hu. split; [by left|intros [|H]; [done|by apply not_elem_of_nil in H]]. Qed.

Lemma adds_vics_trans s V s' V' s'' : adds_vics s V s' -> adds_vics s' V' s'' -> adds_vics s (V ++ V') s''.
Proof.
  intros [A1 A2 A3 A4 A5 A6 A7 A8] [B1 B2 B3 B4 B5 B6 B7 B8]. split; try congruence.
  intros u Hu. rewrite B7, A7, elem_of_app by done. tauto.
Qed.

Lemma adds_vics_ok s V s' : adds_vics s V s' -> vics_ok s'.
Proof. by intros []. Qed.

(** Changes of the option and of the physical address only. *)
Lemma adds_vics_option s o a : vics_ok s -> same_mark (info_option s) o ->
  adds_vics s [] (with_phy a (with_option o s)).
Proof.
  intros [Hl Hb] Ho. split; try done. intros u Hu. cbn. split; [by left|].
  intros [|H]; [done|by apply not_elem_of_nil in H].
Qed.

Section Extension.
Context (edid : list Z) (Hbytes : Forall (fun b => 0 <= b < 256) edid).
#[local] Abbreviation len := (Z.of_nat (length edid)).
#[local] Abbreviation byte := (byte edid).
#[local] Abbreviation slice := (slice edid).

Definition tag (p : Z) : Z := byte p / 32.
Definition known_tag (t : Z) : bool := (1 <=? t) && negb (t =? 6).
Definition blen (p : Z) : Z := if known_tag (tag p) then byte p mod 32 else 0.
Definition vics_at (p : Z) : list Z :=
  if tag p =? 2 then (fun i => byte (p + 1 + i) mod 128) <$> seqZ 0 (byte p mod 32) else [].

(** The video codes of a block that the bit map [cea_vic] has a place for. *)
Definition low_codes (p : Z) : bool := forallb (fun v => v <? 64) (vics_at p).

(** A data block that the loop takes without leaving an array. *)
Definition block_sane (p : Z) : bool :=
  (p + 1 + Z.max 1 (byte p mod 32) <=? len) &&
  low_codes p &&
  (negb (tag p =? 3) || (byte p mod 32 <? 8) || negb (Z.testbit (byte (p + 8)) 5) || (p + 55 <=? len)).

Fixpoint chain (n : nat) (e p : Z) : list Z :=
  match n with
  | O => []
  | S n => p :: if p + (1 + blen p) <? e then chain n e (p + (1 + blen p)) else []
  end.

Lemma tag_run p : Z.shiftr (Z.land (byte p) 0xE0) 5 = tag p /\ Z.land (byte p) 0x1F = byte p mod 32.
Proof.
  pose proof (byte_range edid Hbytes p) as Hb. unfold tag. revert Hb. generalize (byte p). intros b Hb.
  apply (all_bytes (fun b => (Z.shiftr (Z.land b 0xE0) 5 =? b / 32) && (Z.land b 0x1F =? b mod 32))) in Hb;
    [|by vm_compute]. bool_to_prop. done.
Qed.

Lemma vic_run p : Z.land (byte p) 0x7F = byte p mod 128.
Proof. change 0x7F with (Z.ones 7). by rewrite Z.land_ones. Qed.

Lemma video_step p i s :
  vics_ok s -> 0 <= p -> 0 <= i -> p + 1 + i < len -> byte (p + 1 + i) mod 128 < 64 ->
  exists s', video_body edid p i s = Ok (true, s') /\ adds_vics s [byte (p + 1 + i) mod 128] s'.
Proof.
  intros [Hl Hb] Hp Hi Hlen Hv. unfold video_body. erewrite bind_ok by (apply rd_run; lia). cbv beta zeta.
  rewrite vic_run. set (v := byte (p + 1 + i) mod 128) in *.
  assert (0 <= v < 64) as Hv' by (unfold v in *; dlia).
  erewrite bind_ok by done. cbv beta.
  destruct (lookup_lt_is_Some_2 (cea_vic s) (Z.to_nat (v / 8))) as [b Hlk]; [dlia|]. rewrite Hlk.
  erewrite bind_ok by done. cbv beta. unfold store.
  destruct (Z.leb_spec 0 (v / 8)); [|dlia]. destruct (Z.ltb_spec (v / 8) (Z.of_nat (length (cea_vic s)))); [|dlia].
  cbn [andb]. erewrite bind_ok by done. cbv beta. erewrite bind_ok by done. eexists. split; [done|].
  assert (b = nth (Z.to_nat (v / 8)) (cea_vic s) 0) as -> by (by rewrite (nth_lookup_Some _ _ _ _ Hlk)).
  split; try done; cbn.
  - by rewrite length_insert.
  - apply Forall_insert; [done|]. apply u8_bound.
  - intros u Hu. rewrite has_vic_set by done. rewrite orb_true_iff, Z.eqb_eq, list_elem_of_singleton. done.
Qed.

Lemma video_loop p n i s :
  vics_ok s -> 0 <= p -> 0 <= i -> p + 1 + i + Z.of_nat n <= len ->
  Forall (fun v => v < 64) ((fun i => byte (p + 1 + i) mod 128) <$> seqZ i (Z.of_nat n)) ->
  exists s', for_m (seqZ i (Z.of_nat n)) (video_body edid p) s = Ok (tt, s') /\
    adds_vics s ((fun i => byte (p + 1 + i) mod 128) <$> seqZ i (Z.of_nat n)) s'.
Proof.
  revert i s. induction n as [|n IH]; intros i s Hs Hp Hi Hl Hv.
  - exists s. split; [done|]. by apply adds_vics_refl.
  - rewrite seqZ_cons in * by lia. cbn [fmap list_fmap] in Hv. apply Forall_cons_1 in Hv as [Hv1 Hv2].
    replace (Z.pred (Z.of_nat (S n))) with (Z.of_nat n) in * by lia. replace (Z.succ i) with (i + 1) in * by lia.
    destruct (video_step p i s Hs Hp Hi ltac:(lia) Hv1) as (s1 & Hr1 & Ha1).
    destruct (IH (i + 1) s1) as (s2 & Hr2 & Ha2); [by eapply adds_vics_ok|lia|lia|lia|done|].
    exists s2. split; [cbn [for_m]; by erewrite bind_ok by exact Hr1|].
    by apply (adds_vics_trans s [_] s1).
Qed.

Lemma struct_3d_loop p n lim index s :
  0 <= p + index -> p + lim + 1 <= len -> lim - index < Z.of_nat n -> (0 < n)%nat ->
  loop n (struct_3d_body edid p lim) index s = Ok (tt, s).
Proof.
  revert index. induction n as [|n IH]; intros index Hi Hl Hn H0; [lia|].
  destruct (Z.lt_ge_cases index lim) as [H|H].
  - assert (exists k, struct_3d_body edid p lim index s = Ok (inl k, s) /\ index < k) as (k & Hk & Hlt).
    { unfold struct_3d_body. rewrite (proj2 (Z.ltb_lt _ _) H). erewrite bind_ok by (apply rd_run; lia). cbv beta zeta.
      destruct (negb _); [|eexists; split; [done|lia]].
      erewrite bind_ok by (apply rd_run; lia). eexists. split; [done|lia]. }
    rewrite (loop_next n _ _ _ _ _ Hk). apply IH; lia.
  - apply loop_exit. unfold struct_3d_body. by rewrite (proj2 (Z.ltb_ge _ _) H).
Qed.

Lemma vendor_id_run p s : 0 <= p -> p + 4 <= len -> exists b, vendor_is_hdmi edid p s = Ok (b, s).
Proof.
  intros Hp Hl. unfold vendor_is_hdmi. erewrite bind_ok by (apply rd_run; lia). cbv beta.
  destruct (_ =? 3); [|by eexists]. erewrite bind_ok by (apply rd_run; lia). cbv beta.
  destruct (_ =? 12); [|by eexists]. erewrite bind_ok by (apply rd_run; lia). by eexists.
Qed.

Lemma field_bounds p : 0 <= Z.shiftr (Z.land (byte p) 0xE0) 5 <= 7 /\ 0 <= Z.land (byte p) 0x1F <= 31.
Proof.
  destruct (tag_run p) as [-> ->]. pose proof (byte_range edid Hbytes p). unfold tag. dlia.
Qed.

Lemma vendor_3d_run p index s : 0 <= p -> 9 <= index <= 13 -> p + 55 <= len -> vendor_3d edid p index s = Ok (tt, s).
Proof.
  intros Hp Hi Hl. unfold vendor_3d. erewrite bind_ok by (apply rd_run; lia). cbv beta.
  erewrite bind_ok by (apply rd_run; lia). cbv beta zeta.
  destruct (field_bounds (p + (index + 1))) as [H1 H2].
  set (xx := Z.shiftr _ 5) in *. set (d3 := Z.land (byte (p + (index + 1))) 31) in *.
  destruct (d3 =? 0); [done|].
  assert (forall k, 0 <= k <= 4 -> loop 33 (struct_3d_body edid p (d3 + (index + 2 + xx))) (index + 2 + xx + k) s = Ok (tt, s)) as Hloop.
  { intros k Hk. apply struct_3d_loop; lia. }
  destruct (_ =? 64); [|destruct (_ =? 32)].
  - erewrite bind_ok by (erewrite bind_ok by (apply (rd_n_run edid _ 4); lia); reflexivity). apply Hloop. lia.
  - erewrite bind_ok by (erewrite bind_ok by (apply (rd_n_run edid _ 2); lia); reflexivity). apply Hloop. lia.
  - erewrite bind_ok by done. apply Hloop. lia.
Qed.

Lemma vendor_run p L s :
  vics_ok s -> 0 <= p -> p + 1 + L <= len ->
  (L <? 8) || negb (Z.testbit (byte (p + 8)) 5) || (p + 55 <=? len) = true ->
  exists s', vendor_block edid p L s = Ok (tt, s') /\ adds_vics s [] s'.
Proof.
  intros Hs Hp Hl H3. unfold vendor_block. destruct (Z.ltb_spec L 5); [exists s; split; [done|by apply adds_vics_refl]|].
  destruct (vendor_id_run p s Hp ltac:(lia)) as [b Hb]. erewrite bind_ok by exact Hb. cbv beta.
  assert (exists o, (if b then modify (fun i => with_option (Z.lor (info_option i) EDID_OPT_HDMI) i) else mret tt) s
    = Ok (tt, with_option o s) /\ same_mark (info_option s) o) as (o & Ho & Hm).
  { destruct b; [eexists; split; [done|by apply same_mark_lor]|].
    exists (info_option s). split; [by destruct s|done]. }
  erewrite bind_ok by exact Ho. cbv beta.
  erewrite bind_ok by (apply rd_run; lia). cbv beta. erewrite bind_ok by (apply rd_run; lia). cbv beta.
  erewrite bind_ok by done. cbv beta. set (s1 := with_phy _ _).
  exists s1. split; [|by apply adds_vics_option].
  destruct (Z.ltb_spec L 8); [done|]. cbn [orb] in H3.
  erewrite bind_ok by (apply rd_run; lia). cbv beta zeta.
  destruct (test_bit (byte (p + 8)) 5) eqn:Hbit; [|done].
  rewrite test_bit_testbit in Hbit by done. rewrite Hbit in H3. cbn [negb orb] in H3. bool_to_prop.
  apply vendor_3d_run; [done| |done]. destruct (test_bit _ 7), (test_bit _ 6); lia.
Qed.

Lemma data_block_run p e s :
  vics_ok s -> 0 <= p -> block_sane p = true ->
  exists s', data_block edid e p s
    = Ok (if p + (1 + blen p) <? e then inl (p + (1 + blen p)) else inr tt, s') /\ adds_vics s (vics_at p) s'.
Proof.
  intros Hs Hp Hsane. unfold block_sane in Hsane. rewrite !andb_true_iff, Z.leb_le in Hsane.
  destruct Hsane as [[H1 Hv] H3].
  pose proof (byte_range edid Hbytes p) as Hb. unfold data_block.
  erewrite bind_ok by (apply rd_run; lia). cbv beta zeta. destruct (tag_run p) as [-> ->].
  set (L := byte p mod 32) in *. assert (0 <= L < 32) as HL by (unfold L; dlia).
  assert (exists s', (if tag p =? 1 then rd edid (p + 1);; mret L
    else if tag p =? 2 then for_m (upto 0 L) (video_body edid p);; mret L
    else if tag p =? 3 then vendor_block edid p L;; mret L
    else if (tag p =? 4) || (tag p =? 5) || (tag p =? 7) then mret L else mret 0) s = Ok (blen p, s') /\
    adds_vics s (vics_at p) s') as (s' & Hr & Ha).
  { assert (0 <= tag p < 8) as Ht by (unfold tag; dlia).
    unfold blen, known_tag. unfold low_codes, vics_at in Hv |- *. fold L in Hv |- *.
    destruct (Z.eqb_spec (tag p) 1) as [E|N1]; [rewrite E|].
    { exists s. split; [by erewrite bind_ok by (apply rd_run; lia)|by apply adds_vics_refl]. }
    destruct (Z.eqb_spec (tag p) 2) as [E|N2]; [rewrite E|].
    { destruct (video_loop p (Z.to_nat L) 0 s Hs Hp ltac:(lia)) as (s1 & Hr1 & Ha1); [lia| |].
      - rewrite Z2Nat.id by lia. rewrite forallb_forall in Hv. apply Forall_forall. intros v Hin.
        apply Z.ltb_lt, Hv. by apply list_elem_of_In.
      - rewrite Z2Nat.id in * by lia. exists s1. split; [by erewrite bind_ok by exact Hr1|done]. }
    destruct (Z.eqb_spec (tag p) 3) as [E|N3]; [rewrite E|].
    { destruct (vendor_run p L s Hs Hp) as (s1 & Hr1 & Ha1); [lia|done|].
      exists s1. split; [by erewrite bind_ok by exact Hr1|done]. }
    exists s. split; [|by apply adds_vics_refl].
    assert (tag p = 0 \/ tag p = 4 \/ tag p = 5 \/ tag p = 6 \/ tag p = 7) as [E|[E|[E|[E|E]]]] by lia; by rewrite E. }
  erewrite bind_ok by exact Hr. exists s'. done.
Qed.

(** A code without a place is a store behind the bit map. *)
Lemma video_step_high p i s :
  vics_ok s -> 0 <= p + 1 + i < len -> 64 <= byte (p + 1 + i) mod 128 -> video_body edid p i s = Fault Undefined.
Proof.
  intros [Hl _] Hi Hv. unfold video_body. erewrite bind_ok by (apply rd_run; lia). cbv beta zeta. rewrite vic_run.
  erewrite bind_ok by done. cbv beta.
  assert (cea_vic s !! Z.to_nat (byte (p + 1 + i) mod 128 / 8) = None) as -> by (apply lookup_ge_None; dlia). done.
Qed.

Lemma video_loop_high p n i s :
  vics_ok s -> 0 <= p -> 0 <= i -> p + 1 + i + Z.of_nat n <= len ->
  forallb (fun v => v <? 64) ((fun i => byte (p + 1 + i) mod 128) <$> seqZ i (Z.of_nat n)) = false ->
  for_m (seqZ i (Z.of_nat n)) (video_body edid p) s = Fault Undefined.
Proof.
  revert i s. induction n as [|n IH]; intros i s Hs Hp Hi Hl Hv; [done|].
  rewrite seqZ_cons in * by lia. cbn [fmap list_fmap forallb] in Hv.
  replace (Z.pred (Z.of_nat (S n))) with (Z.of_nat n) in * by lia. replace (Z.succ i) with (i + 1) in * by lia.
  cbn [for_m]. destruct (Z.ltb_spec (byte (p + 1 + i) mod 128) 64) as [H|H].
  - destruct (video_step p i s Hs Hp Hi ltac:(lia) H) as (s1 & Hr1 & Ha1). erewrite bind_ok by exact Hr1.
    apply IH; [by eapply adds_vics_ok|lia|lia|lia|done].
  - by apply bind_fault, video_step_high; [|lia|].
Qed.

Lemma data_block_high p e s :
  vics_ok s -> 0 <= p -> p + 1 + byte p mod 32 <= len -> low_codes p = false ->
  data_block edid e p s = Fault Undefined.
Proof.
  intros Hs Hp Hl Hv. unfold low_codes, vics_at in Hv. destruct (Z.eqb_spec (tag p) 2) as [E|]; [|done].
  assert (0 <= byte p mod 32 < 32) as HL by dlia. unfold data_block.
  erewrite bind_ok by (apply rd_run; lia). cbv beta zeta. destruct (tag_run p) as [-> ->]. rewrite E.
  apply bind_fault. change (2 =? 1) with false. change (2 =? 2) with true. cbv iota. apply bind_fault.
  replace (byte p mod 32) with (Z.of_nat (Z.to_nat (byte p mod 32))) in * by lia.
  apply video_loop_high; [done|lia|lia|lia|done].
Qed.

Lemma chain_run n p e s :
  vics_ok s -> 0 <= p -> e - p < Z.of_nat n -> (0 < n)%nat -> forallb block_sane (chain n e p) = true ->
  exists s', loop n (data_block edid e) p s = Ok (tt, s') /\ adds_vics s (chain n e p ≫= vics_at) s'.
Proof.
  revert p s. induction n as [|n IH]; intros p s Hs Hp Hn H0 Hc; [lia|]. cbn [chain forallb] in Hc.
  apply andb_true_iff in Hc as [H1 Hrest]. destruct (data_block_run p e s Hs Hp H1) as (s1 & Hr & Ha).
  assert (0 <= blen p) as Hbl by (unfold blen; destruct (known_tag _); [apply Z.mod_pos_bound|]; lia).
  cbn [chain mbind list_bind]. destruct (Z.ltb_spec (p + (1 + blen p)) e) as [Hlt|Hge].
  - destruct (IH (p + (1 + blen p)) s1) as (s2 & Hr2 & Ha2); [by eapply adds_vics_ok|lia|lia|lia|done|].
    exists s2. split; [by rewrite (loop_next n _ _ _ _ _ Hr)|]. by eapply adds_vics_trans.
  - exists s1. split; [by apply loop_exit|]. cbn. by rewrite app_nil_r.
Qed.

(** *** The timings of an extension *)

#[local] Abbreviation clock_at := (clock_at edid).
#[local] Abbreviation hactive := (hactive edid).
#[local] Abbreviation vactive := (vactive edid).
#[local] Abbreviation rate_at := (rate_at edid).
#[local] Abbreviation interlaced_at := (interlaced_at edid).

(** As in a base block, but with the lines of a frame. *)
Definition cea_timing_at (p : Z) : edid_timing_t :=
  MkTiming (hactive p) (if interlaced_at p then vactive p * 2 else vactive p) (rate_at p + mark (interlaced_at p)).

Lemma nibble_shift p : Z.shiftl (Z.land (byte p) 0xF0) 4 = byte p / 16 * 256 /\ Z.shiftl (Z.land (byte p) 0x0F) 8 = byte p mod 16 * 256.
Proof.
  pose proof (byte_range edid Hbytes p) as Hb. revert Hb. generalize (byte p). intros b Hb.
  apply (all_bytes (fun b => (Z.shiftl (Z.land b 0xF0) 4 =? b / 16 * 256) && (Z.shiftl (Z.land b 0x0F) 8 =? b mod 16 * 256))) in Hb;
    [|by vm_compute]. bool_to_prop. done.
Qed.

Lemma clock_bound p : 0 <= clock_at p < 2 ^ 31.
Proof.
  pose proof (byte_range edid Hbytes p). pose proof (byte_range edid Hbytes (p + 1)). unfold EdidSpec.clock_at. lia.
Qed.

Lemma sizes_nonneg p : 0 <= hactive p /\ 0 <= hblank edid p /\ 0 <= vactive p /\ 0 <= vblank edid p.
Proof.
  pose proof (byte_range edid Hbytes) as Hb. unfold EdidSpec.hactive, EdidSpec.vactive, hblank, vblank.
  pose proof (Hb (p + 2)). pose proof (Hb (p + 3)). pose proof (Hb (p + 4)). pose proof (Hb (p + 5)).
  pose proof (Hb (p + 6)). pose proof (Hb (p + 7)). dlia.
Qed.

Lemma rate_bound p : 0 <= rate_at p < 2 ^ 31.
Proof.
  pose proof (clock_bound p) as Hc. destruct (sizes_nonneg p) as (S1 & S2 & S3 & S4). unfold EdidSpec.rate_at.
  set (t := (vactive p + vblank edid p) * (hactive p + hblank edid p)).
  assert (0 <= t) as Ht by (apply Z.mul_nonneg_nonneg; lia).
  assert (0 <= clock_at p / t <= clock_at p) as Hq.
  { destruct (decide (t = 0)) as [-> |Hne]; [rewrite Z.div_0_r; lia|].
    split; [apply Z.div_pos; lia|]. apply Z.div_le_upper_bound; nia. }
  destruct (clock_at p / t =? 59); lia.
Qed.

Lemma cea_detail_run q i s :
  0 <= q -> q + 18 <= len -> 0 <= i < Z.of_nat (length (cea_timing s)) ->
  cea_detail edid q i s
  = Ok (if clock_at q =? 0 then (false, s)
        else (true, with_cea (<[Z.to_nat i := cea_timing_at q]> (cea_timing s)) s)).
Proof.
  intros Hq Hl Hi. unfold cea_detail. erewrite bind_ok by (apply (rd_n_run edid q 18); lia). cbv beta zeta.
  rewrite !nth_slice by lia. change (Z.of_nat 0) with 0. rewrite Z.add_0_r.
  repeat match goal with |- context [Z.of_nat ?k] =>
    lazymatch k with context [length] => fail | _ => let v := eval vm_compute in (Z.of_nat k) in change (Z.of_nat k) with v end end.
  rewrite Z.shiftl_mul_pow2 by done. change (2 ^ 8) with 256.
  pose proof (clock_bound q) as Hc. rewrite u32_small by (unfold EdidSpec.clock_at in Hc; lia). fold (clock_at q).
  destruct (Z.eqb_spec (clock_at q) 0) as [E|E]; [done|].
  destruct (nibble_shift (q + 4)) as [-> ->]. destruct (nibble_shift (q + 7)) as [-> ->].
  assert (negb (Z.land (byte (q + 17)) 128 =? 0) = interlaced_at q) as ->.
  { pose proof (flag_run edid Hbytes q) as Hf. unfold INTERLACED, FLAGS in Hf. rewrite nth_slice in Hf by lia. done. }
  erewrite bind_ok by done. cbv beta. unfold store.
  destruct (Z.leb_spec 0 i); [|lia]. destruct (Z.ltb_spec i (Z.of_nat (length (cea_timing s)))); [|lia]. cbn [andb].
  erewrite bind_ok by done. cbv beta. erewrite bind_ok by done. unfold mret, M_ret.
  pose proof (rate_bound q) as Hr. unfold EdidSpec.rate_at in Hr. fold (hactive q) (vactive q) in *.
  change (byte (q + 4) mod 16 * 256 + byte (q + 3)) with (hblank edid q).
  change (byte (q + 7) mod 16 * 256 + byte (q + 6)) with (vblank edid q).
  rewrite (Z.mul_comm (hactive q + hblank edid q)). rewrite mark_lor by done. done.
Qed.

(** ** An extension as a whole *)

Definition accepted (base : Z) : bool :=
  (byte base =? 2) && (byte (base + 1) =? 3) && (block_sum edid base =? 0).

Definition data_blocks (base : Z) : list Z := chain max_blocks (base + byte (base + 2)) (base + 4).
#[local] Strategy expand [data_blocks].
#[local] Strategy opaque [chain].

(** What the loops need to stay inside their arrays. *)
Definition ext_sane (base : Z) : bool := forallb block_sane (data_blocks base) && (3 <=? byte (base + 2)).

(** The layout CEA-861 prescribes: from byte 4 on data blocks of the tags it
    defines, each with the length in its first byte, that fill the space up to the
    detailed timings, which start at the offset in byte 2.  There is at least one
    block. *)
Fixpoint tiled (n : nat) (e p : Z) : bool :=
  match n with
  | O => false
  | S n =>
      let next := p + 1 + byte p mod 32 in
      known_tag (tag p) && (next <=? e) && ((next =? e) || tiled n e next)
  end.
Definition ext_laid_out (base : Z) : bool :=
  (byte (base + 2) <=? 127) && tiled max_blocks (base + byte (base + 2)) (base + 4).

(** All video codes of an extension are below 64. *)
Definition ext_low_codes (base : Z) : bool := forallb low_codes (data_blocks base).

Lemma tiled_step n e p : tiled (S n) e p = true ->
  p + 1 + byte p mod 32 <= e /\ p + (1 + blen p) = p + 1 + byte p mod 32 /\
  (p + 1 + byte p mod 32 < e -> tiled n e (p + 1 + byte p mod 32) = true).
Proof.
  cbn [tiled]. rewrite !andb_true_iff, orb_true_iff, Z.leb_le, Z.eqb_eq. intros [[Hk Hn] Hr]. unfold blen. rewrite Hk.
  split_and!; [lia..|]. intros ?. destruct Hr as [?|Hr]; [lia|done].
Qed.

Lemma block_fits p e : 0 <= p -> e + 55 <= len -> p + 1 + byte p mod 32 <= e -> low_codes p = true -> block_sane p = true.
Proof.
  intros Hp He Hn Hv. assert (0 <= byte p mod 32 < 32) as Hb by dlia.
  unfold block_sane. rewrite !andb_true_iff, Z.leb_le. split; [split; [lia|done]|].
  rewrite !orb_true_iff. right. apply Z.leb_le. lia.
Qed.

Lemma tiled_sane n e p : 0 <= p -> e + 55 <= len -> tiled n e p = true -> forallb low_codes (chain n e p) = true ->
  forallb block_sane (chain n e p) = true.
Proof.
  revert p. induction n as [|n IH]; intros p Hp He Ht Hv; [done|]. apply tiled_step in Ht as (Hn & Hb & Ht).
  cbn [chain forallb] in *. apply andb_true_iff in Hv as [Hv Hrest]. rewrite (block_fits p e) by done. rewrite Hb in *.
  destruct (Z.ltb_spec (p + 1 + byte p mod 32) e); [|done]. apply IH; [dlia|done|by apply Ht|done].
Qed.

Lemma chain_high n e p s : vics_ok s -> 0 <= p -> e + 55 <= len -> tiled n e p = true ->
  forallb low_codes (chain n e p) = false -> loop n (data_block edid e) p s = Fault Undefined.
Proof.
  revert p s. induction n as [|n IH]; intros p s Hs Hp He Ht Hv; [done|]. apply tiled_step in Ht as (Hn & Hb & Ht).
  cbn [chain forallb] in Hv. destruct (low_codes p) eqn:Hlow.
  - destruct (data_block_run p e s Hs Hp (block_fits p e Hp He Hn Hlow)) as (s1 & Hr & Ha). rewrite Hb in *.
    destruct (Z.ltb_spec (p + 1 + byte p mod 32) e); [|done]. rewrite (loop_next n _ _ _ _ _ Hr).
    apply IH; [by eapply adds_vics_ok|dlia|done|by apply Ht|done].
  - apply loop_fault, data_block_high; [done..|lia|done].
Qed.

Lemma tiled_first n e p : tiled n e p = true -> p + 1 <= e.
Proof.
  destruct n as [|n]; [done|]. intros (Hn & _)%tiled_step.
  pose proof (Z.mod_pos_bound (byte p) 32 ltac:(lia)). lia.
Qed.

Lemma laid_out_sane base : 0 <= base <= 256 -> 512 <= len -> ext_laid_out base = true -> ext_low_codes base = true ->
  ext_sane base = true.
Proof.
  intros Hb Hl Ht Hv. apply andb_true_iff in Ht as [Hd%Z.leb_le Ht]. unfold ext_low_codes, data_blocks in Hv.
  unfold ext_sane, data_blocks. rewrite (tiled_sane max_blocks (base + byte (base + 2)) (base + 4) ltac:(lia) ltac:(lia) Ht Hv).
  apply Z.leb_le. apply tiled_first in Ht. lia.
Qed.

Definition cea_at (base i : Z) : Z := base + byte (base + 2) + 18 * i.
Definition cea_count (base : Z) : nat := Z.to_nat ((128 - byte (base + 2)) / 18).
Definition cea_timings (base : Z) (l : list edid_timing_t) : list edid_timing_t :=
  fill (fun i => clock_at (cea_at base i) =? 0) (fun i => cea_timing_at (cea_at base i)) 0 (cea_count base) l.

Lemma accepted_false base : accepted base = false <-> byte base <> 2 \/ byte (base + 1) <> 3 \/ block_sum edid base <> 0.
Proof. unfold accepted. rewrite !andb_false_iff, !Z.eqb_neq. tauto. Qed.

Lemma accepted_true base : accepted base = true <-> byte base = 2 /\ byte (base + 1) = 3 /\ block_sum edid base = 0.
Proof. unfold accepted. rewrite !andb_true_iff, !Z.eqb_eq. tauto. Qed.

Lemma cea_reject base s : 0 <= base -> base + 128 <= len -> accepted base = false ->
  edid_parse_CEA edid base s = Ok (-1, s).
Proof.
  intros Hb Hl Ha%accepted_false. unfold edid_parse_CEA.
  rewrite (bind_ok _ _ _ _ _ (rd_run edid base s ltac:(lia))).
  destruct (Z.eqb_spec (byte base) 2) as [E1|]; [|reflexivity].
  rewrite (bind_ok _ _ _ _ _ (rd_run edid (base + 1) s ltac:(lia))).
  destruct (Z.eqb_spec (byte (base + 1)) 3) as [E2|]; [|reflexivity]. cbn [negb orb].
  rewrite (bind_ok _ _ _ _ _ (byte_sum_run edid base s Hb Hl)).
  destruct (Z.eqb_spec (block_sum edid base) 0); [tauto|reflexivity].
Qed.

Lemma cea_details_run base s :
  0 <= base -> base + 128 <= len -> 3 <= byte (base + 2) -> length (cea_timing s) = 6%nat ->
  for_m (upto 0 (Z.quot (128 - byte (base + 2)) 18)) (fun i => cea_detail edid (base + byte (base + 2) + 18 * i) i) s
  = Ok (tt, with_cea (cea_timings base (cea_timing s)) s).
Proof.
  intros Hb Hl Hd Hc. pose proof (byte_range edid Hbytes (base + 2)) as Hd2.
  destruct (Z.lt_ge_cases (128 - byte (base + 2)) 18) as [Hsmall|Hbig].
  - assert (Z.quot (128 - byte (base + 2)) 18 <= 0) as Hq by (Z.to_euclidean_division_equations; lia).
    unfold upto. rewrite seqZ_nil by lia. unfold cea_timings, cea_count.
    assert (Z.to_nat ((128 - byte (base + 2)) / 18) = 0%nat) as -> by dlia. by destruct s.
  - rewrite Z.quot_div_nonneg by lia.
    replace ((128 - byte (base + 2)) / 18) with (Z.of_nat (cea_count base)) by (unfold cea_count; dlia).
    apply (for_fill cea_timing with_cea (fun i => clock_at (cea_at base i) =? 0)); try done.
    + by intros [].
    + rewrite Hc. unfold cea_count. dlia.
    + intros i s' Hi Hs'. rewrite Hc in Hs'. unfold cea_count in Hi.
      assert (0 <= i < (128 - byte (base + 2)) / 18) as Hi' by lia.
      apply cea_detail_run; unfold cea_at; [lia|dlia|]. rewrite Hs'. dlia.
Qed.

Lemma cea_option_run base s : vics_ok s ->
  adds_vics s [] (with_option (Z.lor (info_option s) (Z.land (byte (base + 3)) 0xF0)) s).
Proof.
  intros Hs. set (s0 := with_option _ s). assert (s0 = with_phy (hdmi_phy_addr s) s0) as -> by done.
  apply adds_vics_option; [done|]. apply same_mark_lor.
  - apply Z.land_nonneg. by right.
  - by rewrite Z.land_spec, andb_false_r.
Qed.

Lemma cea_contents_run base s :
  0 <= base -> base + 128 <= len -> ext_sane base = true -> vics_ok s -> length (cea_timing s) = 6%nat ->
  exists s1, cea_contents edid base s = Ok (0, with_cea (cea_timings base (cea_timing s)) s1) /\
    adds_vics s (data_blocks base ≫= vics_at) s1.
Proof.
  intros Hb Hl Hsane Hs Hc. apply andb_true_iff in Hsane as [Hchain Hd%Z.leb_le].
  pose proof (byte_range edid Hbytes (base + 2)) as Hd2. pose proof (cea_option_run base s Hs) as H0.
  remember (with_option (Z.lor (info_option s) (Z.land (byte (base + 3)) 0xF0)) s) as s0 eqn:Es0.
  assert (base + byte (base + 2) - (base + 4) < Z.of_nat max_blocks) as Hfuel by (unfold max_blocks; lia).
  destruct (chain_run max_blocks (base + 4) (base + byte (base + 2)) s0 (adds_vics_ok _ _ _ H0) ltac:(lia) Hfuel
    ltac:(unfold max_blocks; lia) Hchain) as (s1 & Hr & Ha1).
  pose proof (adds_vics_trans s [] s0 _ s1 H0 Ha1) as Htr. rewrite app_nil_l in Htr.
  exists s1. split; [|exact Htr]. unfold cea_contents.
  rewrite (bind_ok _ _ _ _ _ (rd_run edid (base + 3) s ltac:(lia))).
  rewrite (bind_ok _ _ _ tt s0) by (rewrite Es0; reflexivity).
  rewrite (bind_ok _ _ _ _ _ (rd_run edid (base + 2) s0 ltac:(lia))).
  rewrite (bind_ok _ _ _ _ _ Hr).
  rewrite (bind_ok _ _ _ _ _ (cea_details_run base s1 Hb Hl Hd ltac:(by rewrite (av_cea _ _ _ Htr)))).
  by rewrite (av_cea _ _ _ Htr).
Qed.

Lemma cea_accept base s :
  0 <= base -> base + 128 <= len -> accepted base = true -> ext_sane base = true ->
  vics_ok s -> length (cea_timing s) = 6%nat ->
  exists s1, edid_parse_CEA edid base s = Ok (0, with_cea (cea_timings base (cea_timing s)) s1) /\
    adds_vics s (data_blocks base ≫= vics_at) s1.
Proof.
  intros Hb Hl (A1 & A2 & A3)%accepted_true Hsane Hs Hc.
  destruct (cea_contents_run base s Hb Hl Hsane Hs Hc) as (s1 & Hr & Ha). exists s1. split; [|exact Ha].
  unfold edid_parse_CEA.
  rewrite (bind_ok _ _ _ _ _ (rd_run edid base s ltac:(lia))), A1. cbn [Z.eqb Pos.eqb].
  rewrite (bind_ok _ _ _ _ _ (rd_run edid (base + 1) s ltac:(lia))), A2. cbn [Z.eqb Pos.eqb negb orb].
  rewrite (bind_ok _ _ _ _ _ (byte_sum_run edid base s Hb Hl)), A3. cbn [Z.eqb negb]. exact Hr.
Qed.

(** An extension is as far as its data blocks. *)
Lemma cea_fault base s f :
  0 <= base -> base + 128 <= len -> accepted base = true ->
  loop max_blocks (data_block edid (base + byte (base + 2))) (base + 4)
    (with_option (Z.lor (info_option s) (Z.land (byte (base + 3)) 0xF0)) s) = Fault f ->
  edid_parse_CEA edid base s = Fault f.
Proof.
  intros Hb Hl (A1 & A2 & A3)%accepted_true Hr. unfold edid_parse_CEA.
  rewrite (bind_ok _ _ _ _ _ (rd_run edid base s ltac:(lia))), A1. cbn [Z.eqb Pos.eqb].
  rewrite (bind_ok _ _ _ _ _ (rd_run edid (base + 1) s ltac:(lia))), A2. cbn [Z.eqb Pos.eqb negb orb].
  rewrite (bind_ok _ _ _ _ _ (byte_sum_run edid base s Hb Hl)), A3. cbn [Z.eqb negb]. unfold cea_contents.
  rewrite (bind_ok _ _ _ _ _ (rd_run edid (base + 3) s ltac:(lia))).
  erewrite bind_ok by reflexivity. cbv beta.
  rewrite (bind_ok _ _ _ _ _ (rd_run edid (base + 2) _ ltac:(lia))). by apply bind_fault.
Qed.

Lemma cea_high base s :
  0 <= base <= 256 -> 512 <= len -> accepted base = true -> ext_laid_out base = true -> ext_low_codes base = false ->
  vics_ok s -> edid_parse_CEA edid base s = Fault Undefined.
Proof.
  intros Hb Hl Ha Ht Hv Hs. apply andb_true_iff in Ht as [Hd%Z.leb_le Ht].
  apply cea_fault; [lia|lia|done|]. apply chain_high; [|lia|lia|done|done].
  by apply (adds_vics_ok s []), cea_option_run.
Qed.
End Extension.

Strategy expand [data_blocks].
Strategy opaque [chain].

(** ** The whole description *)

Section Description.
Context (edid : list Z) (Hbytes : Forall (fun b => 0 <= b < 256) edid) (Hlen : 512 <= Z.of_nat (length edid)).
#[local] Abbreviation byte := (byte edid).

(** Where the extensions that are looked at start. *)
Definition extensions : list Z := Z.mul 128 <$> upto 1 (Z.min (byte 0x7E) 3).
Definition edid_sane : bool := forallb (fun base => negb (accepted edid base) || ext_sane edid base) extensions.

(** At most two extensions, and those that are accepted have their layout. *)
Definition edid_laid_out : bool :=
  (byte 0x7E <=? 2) && forallb (fun base => negb (accepted edid base) || ext_laid_out edid base) extensions.

Definition edid_low_codes : bool :=
  forallb (fun base => negb (accepted edid base) || ext_low_codes edid base) extensions.

Lemma extensions_near : edid_laid_out = true -> Forall (fun base => 0 <= base <= 256) extensions.
Proof.
  intros [Hn%Z.leb_le _]%andb_true_iff. apply Forall_forall.
  intros base (i & -> & Hi)%list_elem_of_fmap. apply elem_of_seqZ in Hi. lia.
Qed.

Lemma laid_out_parses : edid_laid_out = true -> edid_low_codes = true -> edid_sane = true.
Proof.
  intros Hlay Hlow. pose proof (extensions_near Hlay) as Hnear. apply andb_true_iff in Hlay as [_ Hl].
  unfold edid_sane. unfold edid_low_codes in Hlow. rewrite forallb_forall in Hl, Hlow |- *. intros base Hb.
  specialize (Hl base Hb). specialize (Hlow base Hb). rewrite Forall_forall in Hnear.
  apply list_elem_of_In in Hb. specialize (Hnear base Hb). destruct (accepted edid base); [|done]. by apply laid_out_sane.
Qed.

(** The structure as its type says. *)
Record info_ok (s : edid_info_t) : Prop := {
  ok_standard : length (standard_timing s) = 8%nat;
  ok_detail : length (detail_timing s) = 4%nat;
  ok_cea : length (cea_timing s) = 6%nat;
  ok_vics : vics_ok s;
  ok_mark : Z.testbit (info_option s) 0 = true;
}.

(** What one extension adds. *)
Definition extended (base : Z) (s s' : edid_info_t) : Prop :=
  if accepted edid base
  then exists s1, adds_vics s (data_blocks edid base ≫= vics_at edid) s1 /\ s' = with_cea (cea_timings edid base (cea_timing s)) s1
  else s' = s.

Lemma extended_ok base s s' : extended base s s' -> info_ok s -> info_ok s'.
Proof.
  unfold extended. destruct (accepted edid base); [|by intros ->].
  intros (s1 & [A1 A2 A3 A4 A5 A6 A7 A8] & ->) [O1 O2 O3 O4 O5].
  split; cbn [standard_timing detail_timing cea_timing info_option with_cea].
  - by rewrite A2.
  - by rewrite A3.
  - unfold cea_timings. by rewrite fill_length.
  - by split.
  - unfold same_mark in A8. by rewrite A8.
Qed.

Lemma extension_run base s :
  0 <= base <= 384 -> negb (accepted edid base) || ext_sane edid base = true -> info_ok s ->
  exists s', extension_body edid base s = Ok (true, s') /\ extended base s s'.
Proof.
  intros Hb Hsane Hs. unfold extension_body, extended. destruct (accepted edid base) eqn:Ha.
  - cbn [negb orb] in Hsane.
    destruct (cea_accept edid Hbytes base s ltac:(lia) ltac:(lia) Ha Hsane (ok_vics _ Hs) (ok_cea _ Hs)) as (s1 & Hr & Hv).
    exists (with_cea (cea_timings edid base (cea_timing s)) s1). split; [|by exists s1].
    rewrite (bind_ok _ _ _ _ _ Hr). reflexivity.
  - exists s. split; [|done].
    rewrite (bind_ok _ _ _ _ _ (cea_reject edid base s ltac:(lia) ltac:(lia) Ha)). cbn [Z.eqb].
    rewrite (bind_ok _ _ _ _ _ (rd_n_run edid base 128 s ltac:(lia) ltac:(lia))). reflexivity.
Qed.

Lemma extensions_run l s :
  Forall (fun base => 0 <= base <= 384) l ->
  forallb (fun base => negb (accepted edid base) || ext_sane edid base) l = true -> info_ok s ->
  exists s', for_m l (extension_body edid) s = Ok (tt, s') /\ info_ok s'.
Proof.
  intros Hl. revert s. induction Hl as [|base l Hb _ IH]; intros s Hsane Hs; [by exists s|].
  cbn [forallb] in Hsane. apply andb_true_iff in Hsane as [H1 H2].
  destruct (extension_run base s Hb H1 Hs) as (s1 & Hr & He).
  destruct (IH s1 H2 (extended_ok _ _ _ He Hs)) as (s2 & Hr2 & H3). exists s2. split; [|done].
  cbn [for_m]. by rewrite (bind_ok _ _ _ _ _ Hr).
Qed.

Lemma extensions_high l s :
  Forall (fun base => 0 <= base <= 256) l ->
  forallb (fun base => negb (accepted edid base) || ext_laid_out edid base) l = true ->
  forallb (fun base => negb (accepted edid base) || ext_low_codes edid base) l = false -> info_ok s ->
  for_m l (extension_body edid) s = Fault Undefined.
Proof.
  intros Hl. revert s. induction Hl as [|base l Hb _ IH]; intros s Hlay Hlow Hs; [done|].
  cbn [forallb] in Hlay, Hlow. apply andb_true_iff in Hlay as [H1 H2]. cbn [for_m].
  destruct (accepted edid base && negb (ext_low_codes edid base)) eqn:Hbad.
  - apply andb_true_iff in Hbad as [Ha Hc%negb_true_iff]. rewrite Ha in H1. unfold extension_body.
    apply bind_fault, bind_fault. apply cea_high; [done..|]. by apply ok_vics.
  - assert (negb (accepted edid base) || ext_low_codes edid base = true) as Hgood
      by (by destruct (accepted edid base), (ext_low_codes edid base)).
    rewrite Hgood in Hlow.
    destruct (extension_run base s ltac:(lia)) as (s1 & Hr & He); [|done|].
    { destruct (accepted edid base); [|done]. by apply laid_out_sane. }
    rewrite (bind_ok _ _ _ _ _ Hr). apply IH; [done|done|]. by eapply extended_ok.
Qed.

Lemma extensions_range : Forall (fun base => 0 <= base <= 384) extensions.
Proof.
  apply Forall_forall. intros base (i & -> & Hi)%list_elem_of_fmap. apply elem_of_seqZ in Hi. lia.
Qed.

Lemma ext_count : (if EDID_BLOCK_MAX <=? byte 0x7E then EDID_BLOCK_MAX - 1 else byte 0x7E) = Z.min (byte 0x7E) 3.
Proof. unfold EDID_BLOCK_MAX. destruct (Z.leb_spec 4 (byte 0x7E)); lia. Qed.

(** The base block's part of the structure. *)
Definition base_info (z o : Z) : edid_info_t :=
  MkInfo (byte 0x23 + 256 * byte 0x24) (fill (std_stop edid) (std_timing edid) 0 8 (replicate 8 timing0))
    (base_detail edid ++ replicate (4 - length (base_detail edid)) vpp_timing0)
    (replicate 6 timing0) (replicate 8 0) z o 0.

Lemma base_info_ok z o : Z.testbit o 0 = true -> info_ok (base_info z o).
Proof.
  intros Ho. split; cbn [standard_timing detail_timing cea_timing cea_vic info_option base_info]; try done.
  - by rewrite fill_length.
  - rewrite length_app, length_replicate. unfold base_detail. rewrite length_fmap.
    pose proof (length_filter (fun p => dtd_at edid p = true) descriptors). change (length descriptors) with 4%nat in *. lia.
  - split; [done|]. repeat constructor; lia.
Qed.

Lemma parse_blocks_run s : header_ok edid = true ->
  exists z o, Z.testbit o 0 = true /\
    parse_blocks edid s = (for_m extensions (extension_body edid);; gets info_option) (base_info z o).
Proof.
  intros Hh. destruct (v1_accept edid Hbytes ltac:(lia) Hh) as (z & o & Hr & Ho). exists z, o. split; [done|].
  unfold parse_blocks. rewrite (bind_ok _ _ _ tt (with_option EDID_OPT_VALID info0)) by reflexivity.
  rewrite (bind_ok _ _ _ _ _ Hr). cbn [Z.eqb].
  rewrite (bind_ok _ _ _ _ _ (rd_run edid 0x7E _ ltac:(lia))). cbv zeta. by rewrite ext_count.
Qed.

Lemma parse_reject s : header_ok edid = false -> parse_blocks edid s = Ok (0, info0).
Proof.
  intros Hh. unfold parse_blocks. rewrite (bind_ok _ _ _ tt (with_option EDID_OPT_VALID info0)) by reflexivity.
  by rewrite (bind_ok _ _ _ _ _ (v1_reject edid _ ltac:(lia) Hh)).
Qed.

Lemma valid_mark s : negb (Z.land (info_option s) EDID_OPT_VALID =? 0) = Z.testbit (info_option s) 0.
Proof. by rewrite <- test_bit_testbit. Qed.
End Description.
