(* ===== verification/EdidModes.v ===== *)
(** * EDID: the modes of a display

    The theorems about [edid_parse] and [edid_find_support]: the parser returns on
    every description whose extensions have their layout, and the lookup
    answers for exactly the modes the bytes advertise; a detailed timing
    that is encoded as the standard says is read back; and the places where
    the code leaves its arrays or misreads the bytes. *)

From S2P Require Import Prelude Edid EdidSpec.
From stdpp Require Import list.
#[local] Open Scope Z_scope.

Section Modes.
Context (edid : list Z) (Hbytes : Forall (fun b => 0 <= b < 256) edid) (Hlen : 512 <= Z.of_nat (length edid)).
#[local] Abbreviation byte := (byte edid).

(** ** The modes a description advertises *)

(** Standard timing [i]: the width, the ratio in the upper two bits and the rate
    in the lower six. *)
Definition std_mode (i : Z) : Z * Z * Z :=
  let x := byte (std_at i) * 8 + 248 in
  let b := byte (std_at i + 1) in
  let y := if b / 64 =? 0 then x * 10 / 16 else if b / 64 =? 1 then x * 3 / 4
           else if b / 64 =? 2 then x * 4 / 5 else x * 9 / 16 in
  (x, y, b mod 64 + 60).






(** ** The lists of the structure *)







End Modes.




Section Results.
Context (edid : list Z) (Hbytes : Forall (fun b => 0 <= b < 256) edid) (Hlen : 512 <= Z.of_nat (length edid)).
#[local] Abbreviation byte := (byte edid).



End Results.

(** ** A description, for the examples *)

(** 1920x1080 at 60 Hz in the first descriptor, a name, 640x480 at 60 Hz among
    the established timings, 1280x1024 at 60 Hz as standard timing; one
    extension with the video codes 16, 4 and 31, an HDMI vendor block, and a
    timing of 1280x720 at 60 Hz. *)
Definition demo_base : list Z :=
  edid_v1_header ++ [0x5A; 0x63; 0; 0; 0; 0; 0; 0; 1; 20; 1; 3; 0x80; 0; 0; 0; 0x0A; 0; 0; 0; 0; 0; 0; 0; 0; 0; 0] ++
  [0x20; 0; 0] ++ [0x81; 0x80; 1; 1; 1; 1; 1; 1; 1; 1; 1; 1; 1; 1; 1; 1] ++
  [0x02; 0x3A; 0x80; 0x18; 0x71; 0x38; 0x2D; 0x40; 0x58; 0x2C; 0x45; 0; 0; 0; 0; 0; 0; 0x1E] ++
  [0; 0; 0; 0xFC; 0; 87; 77; 84; 10; 32; 32; 32; 32; 32; 32; 32; 32; 32] ++
  replicate 36 0 ++ [1; 0].

Definition demo_ext_bytes : list Z :=
  [2; 3; 14; 0xF0; 0x43; 0x90; 4; 31; 0x65; 3; 0x0C; 0; 0x10; 0] ++
  [0x01; 0x1D; 0x00; 0x72; 0x51; 0xD0; 0x1E; 0x20; 0x6E; 0x28; 0x55; 0; 0; 0; 0; 0; 0; 0x1E] ++ replicate 95 0.

Definition demo_extension : list Z :=
  demo_ext_bytes ++ [u8 (- foldl (fun c b => u8 (c + b)) 0 demo_ext_bytes)].

Definition demo_edid : list Z := demo_base ++ demo_extension ++ replicate 256 0.

Lemma demo_bytes : Forall (fun b => 0 <= b < 256) demo_edid.
Proof.
  apply Forall_forall. intros b Hb. apply list_elem_of_In in Hb.
  assert (forallb (fun b => (0 <=? b) && (b <? 256)) demo_edid = true) as Hall by (by vm_compute).
  rewrite forallb_forall in Hall. specialize (Hall b Hb). bool_to_prop. done.
Qed.

(** ** Theorems *)

(** [C28] What [edid_parse] does on every buffer of four blocks (512 bytes) that
    announces at most two extensions, of which those with the tag, revision and
    checksum have the layout of CEA-861 ([ext_laid_out]: data blocks of known tags
    that fill the space before the detailed timings, at least one).  The base block
    and all other bytes are arbitrary.  A structure that is marked valid stays as it
    is; a base block without the header gives 0 and a cleared structure; otherwise
    the call returns exactly when every video code of the accepted extensions is
    below 64, with the option word, marked valid, and every array of its length, and
    with a code from 64 on it stores outside an array.  An extension without data
    blocks is left out: the code reads one all the same ([timing_read_as_block]). *)
Theorem edid_parse_returns (edid : list Z) (s : edid_info_t) :
  Forall (fun b => 0 <= b < 256) edid -> 512 <= Z.of_nat (length edid) -> edid_laid_out edid = true ->
  if Z.testbit (info_option s) 0 then edid_parse (Some edid) s = Ok (info_option s, s)
  else if negb (header_ok edid) then edid_parse (Some edid) s = Ok (0, info0)
  else if edid_low_codes edid then exists s', edid_parse (Some edid) s = Ok (info_option s', s') /\ info_ok s'
  else edid_parse (Some edid) s = Fault Undefined.
Proof.
  intros Hb Hl Hlay. unfold edid_parse. rewrite (bind_ok _ _ _ (info_option s) s) by reflexivity.
  rewrite valid_mark. destruct (Z.testbit (info_option s) 0); [done|].
  destruct (header_ok edid) eqn:Hh; [|by apply parse_reject]. cbn [negb].
  destruct (parse_blocks_run edid Hb Hl s Hh) as (z & o & Ho & ->).
  pose proof (base_info_ok edid z o Ho) as Hok. destruct (edid_low_codes edid) eqn:Hlow.
  - pose proof (laid_out_parses edid Hl Hlay Hlow) as Hsane.
    destruct (extensions_run edid Hb Hl (extensions edid) (base_info edid z o)) as (s' & Hr & Hok');
      [by apply extensions_range|done|done|].
    exists s'. split; [|done]. by rewrite (bind_ok _ _ _ _ _ Hr).
  - pose proof (extensions_near edid Hlay) as Hnear. apply andb_true_iff in Hlay as [_ Hlay].
    by apply bind_fault, extensions_high.
Qed.

(** Witness of [edid_parse_returns]. *)
Lemma edid_parse_returns_witness :
  exists s', edid_parse (Some demo_edid) info0 = Ok (info_option s', s') /\ info_ok s'.
Proof.
  assert (edid_laid_out demo_edid = true) as Hlay by (by vm_compute).
  assert (512 <= Z.of_nat (length demo_edid)) as Hlen by (vm_compute; discriminate).
  pose proof (edid_parse_returns demo_edid info0 demo_bytes Hlen Hlay) as H.
  assert (header_ok demo_edid = true) as Hh by (by vm_compute).
  assert (edid_low_codes demo_edid = true) as Hlow by (by vm_compute).
  rewrite Hh, Hlow in H. exact H.
Defined.




(** ** Encoding a detailed timing *)

(** The 18 bytes of a detailed timing descriptor as the standard lays them out
    (sizes and borders 0); sync offsets and widths have ten bits in a line
    and six in a frame. *)
Record dtd := MkDtd {
  d_clock : Z;      (** in 10 kHz *)
  d_hactive : Z; d_hblank : Z; d_hoffset : Z; d_hwidth : Z;
  d_vactive : Z; d_vblank : Z; d_voffset : Z; d_vwidth : Z;
  d_flags : Z;
}.

Definition dtd_encode (t : dtd) : list Z := [
  d_clock t mod 256; d_clock t / 256;
  d_hactive t mod 256; d_hblank t mod 256; d_hactive t / 256 * 16 + d_hblank t / 256;
  d_vactive t mod 256; d_vblank t mod 256; d_vactive t / 256 * 16 + d_vblank t / 256;
  d_hoffset t mod 256; d_hwidth t mod 256; d_voffset t mod 16 * 16 + d_vwidth t mod 16;
  d_hoffset t / 256 * 64 + d_hwidth t / 256 * 16 + d_voffset t / 16 * 4 + d_vwidth t / 16;
  0; 0; 0; 0; 0; d_flags t
].

Record dtd_ok (t : dtd) : Prop := {
  dok_clock : 0 < d_clock t < 65536;
  dok_hactive : 0 <= d_hactive t < 4096; dok_hblank : 0 <= d_hblank t < 4096;
  dok_vactive : 0 <= d_vactive t < 4096; dok_vblank : 0 <= d_vblank t < 4096;
  dok_hoffset : 0 <= d_hoffset t < 1024; dok_hwidth : 0 <= d_hwidth t < 1024;
  dok_voffset : 0 <= d_voffset t < 64; dok_vwidth : 0 <= d_vwidth t < 64;
  dok_flags : 0 <= d_flags t < 256;
  dok_hsync : d_hoffset t + d_hwidth t <= d_hblank t;
  dok_vsync : d_voffset t + d_vwidth t <= d_vblank t;
}.

Lemma field2 b : 0 <= b < 256 ->
  Z.land b 3 = b mod 4 /\ Z.shiftr (Z.land b 12) 2 = b / 4 mod 4 /\
  Z.shiftr (Z.land b 48) 4 = b / 16 mod 4 /\ Z.shiftr (Z.land b 192) 6 = b / 64.
Proof.
  intros Hb. apply (all_bytes (fun b => (Z.land b 3 =? b mod 4) && (Z.shiftr (Z.land b 12) 2 =? b / 4 mod 4) &&
    (Z.shiftr (Z.land b 48) 4 =? b / 16 mod 4) && (Z.shiftr (Z.land b 192) 6 =? b / 64))) in Hb; [|by vm_compute].
  bool_to_prop. done.
Qed.

Section Encoded.
Context (t : dtd) (Ht : dtd_ok t).
#[local] Abbreviation d := (dtd_encode t).

Lemma encoded_sizes : PIXEL_CLOCK d = d_clock t * 10000 /\
  H_ACTIVE d = d_hactive t /\ H_BLANKING d = d_hblank t /\ V_ACTIVE d = d_vactive t /\ V_BLANKING d = d_vblank t.
Proof.
  destruct Ht. unfold PIXEL_CLOCK, H_ACTIVE, H_BLANKING, V_ACTIVE, V_BLANKING. cbn [nth dtd_encode].
  rewrite !upper_nibble, !lower_nibble by dlia. rewrite !combine8 by dlia. rewrite u32_small by dlia.
  split_and!; dlia.
Qed.

Lemma encoded_vsync : V_SYNC_OFFSET d = d_voffset t /\ V_SYNC_WIDTH d = d_vwidth t.
Proof.
  destruct Ht. unfold V_SYNC_OFFSET, V_SYNC_WIDTH. cbn [nth dtd_encode].
  set (b := _ + d_vwidth t / 16). destruct (field2 b) as (-> & -> & _); [unfold b; dlia|].
  rewrite upper_nibble, lower_nibble by dlia. rewrite !combine4 by dlia. unfold b. split; dlia.
Qed.

(** The offset in a line is put together with a shift by four, although its low
    part has eight bits. *)
Lemma encoded_hsync : H_SYNC_OFFSET d = Z.lor (d_hoffset t / 256 * 16) (d_hoffset t mod 256) /\
  H_SYNC_WIDTH d = Z.lor (d_hwidth t / 256 * 16) (d_hwidth t mod 256).
Proof.
  destruct Ht. unfold H_SYNC_OFFSET, H_SYNC_WIDTH, COMBINE_HI_4LO. cbn [nth dtd_encode].
  set (b := _ + d_vwidth t / 16). destruct (field2 b) as (_ & _ & -> & ->); [unfold b; dlia|].
  rewrite !Z.shiftl_mul_pow2 by done. change (2 ^ 4) with 16. rewrite !u32_small by (unfold b; dlia).
  split; f_equal; f_equal; unfold b; dlia.
Qed.

Lemma hsync_small z : 0 <= z < 256 -> Z.lor (z / 256 * 16) (z mod 256) = z.
Proof. intros Hz. rewrite Z.div_small, Z.mod_small by done. done. Qed.

Lemma hsync_below z : 0 <= z < 1024 -> 0 <= Z.lor (z / 256 * 16) (z mod 256) < 256.
Proof.
  intros Hz. assert (0 <= Z.lor (z / 256 * 16) (z mod 256)) as H0 by (apply Z.lor_nonneg; dlia). split; [done|].
  apply (bits_bound 8); [lia|done|]. intros m Hm. rewrite Z.lor_spec, !(bits_above 8) by dlia. done.
Qed.

(** The rate of the mode, as the parser counts it. *)
Definition d_rate : Z :=
  let r := d_clock t * 10000 / ((d_vactive t + d_vblank t) * (d_hactive t + d_hblank t)) in
  if r =? 59 then 60 else r.
Definition d_mark : Z := if 128 <=? d_flags t then 2 ^ 31 else 0.

Context (rest : list Z) (Hrest : Forall (fun b => 0 <= b < 256) rest).

Lemma encoded_bytes : Forall (fun b => 0 <= b < 256) (d ++ rest).
Proof. apply Forall_app. split; [|done]. destruct Ht. repeat constructor; dlia. Qed.

Lemma encoded_slice : slice (d ++ rest) 0 18 = d.
Proof. reflexivity. Qed.

Lemma encoded_at : dtd_at (d ++ rest) 0 = true.
Proof.
  unfold dtd_at. change (byte (d ++ rest) 0) with (d_clock t mod 256).
  change (byte (d ++ rest) (0 + 1)) with (d_clock t / 256). pose proof (dok_clock _ Ht).
  destruct (Z.eqb_spec (d_clock t mod 256) 0), (Z.eqb_spec (d_clock t / 256) 0); try done. dlia.
Qed.

Lemma encoded_mode : dtd_mode (d ++ rest) 0 = (d_hactive t, d_vactive t, d_rate mod 256 + d_mark).
Proof.
  pose proof encoded_bytes as Hb. unfold dtd_mode.
  rewrite <- (rate_run (d ++ rest) Hb), <- (flag_run (d ++ rest) Hb).
  destruct (active_run (d ++ rest) Hb 0) as (<- & _ & <- & _). rewrite encoded_slice.
  destruct encoded_sizes as (E1 & E2 & E3 & E4 & E5). unfold dtd_fps, d_rate. rewrite E1, E2, E3, E4, E5.
  assert (mark (INTERLACED d) = d_mark) as ->; [|done]. unfold INTERLACED, FLAGS, d_mark, mark. cbn [nth dtd_encode].
  pose proof (dok_flags _ Ht) as Hf. revert Hf. generalize (d_flags t). intros b Hf.
  apply (all_bytes (fun b => Bool.eqb (negb (Z.land b 128 =? 0)) (128 <=? b))) in Hf; [|by vm_compute].
  apply Bool.eqb_prop in Hf. by rewrite Hf.
Qed.
End Encoded.

(** What the parser makes of a horizontal offset or width of ten bits. *)
Definition misread (z : Z) : Z := Z.lor (z / 256 * 16) (z mod 256).

Lemma misread_spec z : 0 <= z < 1024 ->
  0 <= misread z < 256 /\ misread z <= z /\ (z < 256 <-> misread z = z).
Proof.
  intros Hz. pose proof (hsync_below z Hz) as Hb. unfold misread. split; [done|].
  destruct (Z.lt_ge_cases z 256); [|lia]. rewrite hsync_small by lia. lia.
Qed.

(** [C29] A detailed timing through encoding, parsing and lookup.  For a timing
    whose fields fit the format ([dtd_ok]), encoded in the bytes the standard
    prescribes, and a structure whose first slot is empty,
    [parse_timing_description] restores the pixel clock, the active area, the
    total of the blanking and the vertical pulse, and [edid_find_support] answers
    with this timing for its mode.  The horizontal offset and the horizontal width
    are each restored exactly when they are below 256: of a larger one the parser
    makes a value below 256. *)
Theorem detailed_timing_roundtrip (t : dtd) (rest : list Z) (s : edid_info_t) (l : list vpp_timing_t) :
  dtd_ok t -> Forall (fun b => 0 <= b < 256) rest -> detail_timing s = vpp_timing0 :: l ->
  exists o ho hw s', parse_timing_description (dtd_encode t ++ rest) 0 s = Ok (tt, s') /\
    detail_timing s' = MkVpp (d_clock t * 10000) o
      hw (d_hblank t - (hw + ho)) (d_hactive t) ho
      (d_vwidth t) (d_vblank t - (d_vwidth t + d_voffset t)) (d_vactive t) (d_voffset t) :: l /\
    0 <= ho < 256 /\ (d_hoffset t < 256 <-> ho = d_hoffset t) /\
    0 <= hw < 256 /\ (d_hwidth t < 256 <-> hw = d_hwidth t) /\
    edid_find_support (d_hactive t) (d_vactive t) (d_rate t mod 256 + d_mark t) (Some s') = (3, Some 0%nat).
Proof.
  intros Ht Hrest Hs. pose proof (encoded_bytes t Ht rest Hrest) as Hb. set (edid := dtd_encode t ++ rest) in *.
  assert (exists s', parse_timing_description edid 0 s = Ok (tt, s') /\ detail_timing s' = dtd_timing edid 0 :: l) as (s' & Hr & Hd).
  { unfold parse_timing_description.
    rewrite (bind_ok _ _ _ _ _ (rd_n_run edid 0 18 s ltac:(lia) ltac:(unfold edid; rewrite length_app; simpl; lia))).
    rewrite (bind_ok _ _ _ s s) by reflexivity. rewrite Hs.
    change (fill_slot (slice edid 0 18) (vpp_timing0 :: l)) with (Some (dtd_timing edid 0 :: l)). cbv beta iota.
    rewrite (bind_ok _ _ _ tt (with_detail (dtd_timing edid 0 :: l) s)) by reflexivity.
    destruct (vout_check_ratio_16_9 _ _); by eexists. }
  pose proof (misread_spec _ (dok_hoffset t Ht)) as (O1 & O2 & O3). pose proof (misread_spec _ (dok_hwidth t Ht)) as (W1 & W2 & W3).
  assert (d_hoffset t < 256 <-> misread (d_hoffset t) = d_hoffset t) as O4 by done.
  assert (d_hwidth t < 256 <-> misread (d_hwidth t) = d_hwidth t) as W4 by done.
  exists (vt_option (dtd_timing edid 0)), (misread (d_hoffset t)), (misread (d_hwidth t)), s'.
  split; [done|]. split; [|split; [done|split; [done|split; [done|split; [done|]]]]].
  - rewrite Hd. f_equal. unfold dtd_timing, edid. rewrite encoded_slice. unfold fill_timing.
    destruct (encoded_sizes t Ht) as (-> & -> & -> & -> & ->). destruct (encoded_vsync t Ht) as [-> ->].
    destruct (encoded_hsync t Ht) as [-> ->]. fold (misread (d_hoffset t)) (misread (d_hwidth t)).
    destruct Ht. rewrite !u32_small by lia. done.
  - unfold edid_find_support. rewrite Hd. cbn [find_index].
    rewrite (proj2 (detail_match_dtd edid Hb _ _ _ 0 (encoded_at t Ht rest)) (encoded_mode t Ht rest Hrest)). done.
Qed.

(** 1920x1080 at 60 Hz as CEA-861 has it. *)
Definition dtd_1080p60 : dtd := MkDtd 14850 1920 280 88 44 1080 45 4 5 0x1E.

Lemma detailed_timing_roundtrip_witness :
  exists o s', parse_timing_description (dtd_encode dtd_1080p60 ++ []) 0 info0 = Ok (tt, s') /\
    detail_timing s' = MkVpp 148500000 o 44 148 1920 88 5 36 1080 4 :: replicate 3 vpp_timing0 /\
    edid_find_support 1920 1080 (60 mod 256 + 0) (Some s') = (3, Some 0%nat).
Proof.
  destruct (detailed_timing_roundtrip dtd_1080p60 [] info0 (replicate 3 vpp_timing0))
    as (o & ho & hw & s' & H1 & H2 & _ & Ho & _ & Hw & H3); [by split; vm_compute|constructor|done|].
  rewrite (proj1 Ho eq_refl), (proj1 Hw eq_refl) in H2. exists o, s'. exact (conj H1 (conj H2 H3)).
Defined.

(** A longer horizontal front porch is misread: whatever the encoded offset
    is, the parsed one is below 256, and likewise the width, although the total
    of the blanking stays right. *)
Theorem horizontal_sync_truncated (t : dtd) :
  dtd_ok t -> 256 <= d_hoffset t ->
  let v := fill_timing (dtd_encode t) vpp_timing0 in
  0 <= vt_hfp v < 256 /\ vt_hfp v <> d_hoffset t /\ 0 <= vt_hsync v < 256 /\
  vt_hbp v = u32 (d_hblank t - (vt_hsync v + vt_hfp v)).
Proof.
  intros Ht Ho v. unfold v, fill_timing. cbn [vt_hfp vt_hsync vt_hbp].
  destruct (encoded_hsync t Ht) as [-> ->]. destruct (encoded_sizes t Ht) as (_ & _ & -> & _).
  destruct Ht as [_ _ _ _ _ Hoff Hwid _ _ _ _ _].
  pose proof (hsync_below _ Hoff). pose proof (hsync_below _ Hwid). split_and!; (done || lia).
Qed.

(** 1920x1080 at 50 Hz: a front porch of 528 is read as 48. *)
Definition dtd_1080p50 : dtd := MkDtd 14850 1920 720 528 44 1080 45 4 5 0x1E.

Lemma horizontal_sync_truncated_witness :
  (let v := fill_timing (dtd_encode dtd_1080p50) vpp_timing0 in
   0 <= vt_hfp v < 256 /\ vt_hfp v <> 528 /\ 0 <= vt_hsync v < 256 /\ vt_hbp v = u32 (720 - (vt_hsync v + vt_hfp v))) /\
  vt_hfp (fill_timing (dtd_encode dtd_1080p50) vpp_timing0) = 48.
Proof.
  split; [|by vm_compute]. apply (horizontal_sync_truncated dtd_1080p50); [by split; vm_compute|by vm_compute].
Defined.

(** A standard timing of 92 Hz or more is taken for one that is 32 Hz slower. *)
Lemma standard_rate_truncated (edid : list Z) (i : Z) :
  Forall (fun b => 0 <= b < 256) edid -> Z.testbit (byte edid (std_at i + 1)) 5 = true ->
  et_freq (std_timing edid i) = (std_mode edid i).2 - 32.
Proof.
  intros Hb H5. unfold std_timing, std_mode. cbn [et_freq snd].
  pose proof (byte_range edid Hb (std_at i + 1)) as Hr. revert H5 Hr. generalize (byte edid (std_at i + 1)). intros b H5 Hr.
  apply (all_bytes (fun b => negb (Z.testbit b 5) || (Z.land b 31 =? b mod 64 - 32))) in Hr; [|by vm_compute].
  rewrite H5 in Hr. apply Z.eqb_eq in Hr. lia.
Qed.

(** An extension without data blocks, its byte 2 being 4: the first detailed timing
    is read as one.  This one, of a clock of 149.43 MHz, is taken for a list of video
    codes, and one of them leaves the bit map. *)
Definition bare_bytes : list Z :=
  [2; 3; 4; 0] ++ [0x5F; 0x3A; 0x80; 0x18; 0x71; 0x38; 0x2D; 0x40; 0x58; 0x2C; 0x45; 0; 0; 0; 0; 0; 0; 0x1E] ++ replicate 105 0.
Definition bare_extension : list Z := bare_bytes ++ [u8 (- foldl (fun c b => u8 (c + b)) 0 bare_bytes)].

Lemma timing_read_as_block : accepted bare_extension 0 = true /\ edid_parse_CEA bare_extension 0 info0 = Fault Undefined.
Proof. split; by vm_compute. Qed.

(** A video code from 64 up leaves the bit map: an accepted extension whose
    first data block lists such a code writes behind [cea_vic], which has 8
    bytes. *)
Theorem video_code_leaves_map (edid : list Z) (base : Z) (s : edid_info_t) :
  Forall (fun b => 0 <= b < 256) edid -> 0 <= base -> base + 128 <= Z.of_nat (length edid) ->
  accepted edid base = true -> vics_ok s ->
  tag edid (base + 4) = 2 -> 0 < byte edid (base + 4) mod 32 -> 64 <= byte edid (base + 5) mod 128 ->
  edid_parse_CEA edid base s = Fault Undefined.
Proof.
  intros Hb H0 Hl Ha Hv Ht Hn Hc. apply cea_fault; [done..|]. change max_blocks with (S 255).
  apply loop_fault. unfold data_block. erewrite bind_ok by (apply rd_run; lia). cbv beta zeta.
  destruct (tag_run edid Hb (base + 4)) as [-> ->]. rewrite Ht. cbn [Z.eqb Pos.eqb].
  apply bind_fault, bind_fault. unfold upto. rewrite seqZ_cons by lia. cbn [for_m].
  apply bind_fault, video_step_high; [done|lia|]. by replace (base + 4 + 1 + 0) with (base + 5) by lia.
Qed.

(** An extension that lists the video code 93 (3840x2160 at 24 Hz). *)
Definition demo_uhd_bytes : list Z := [2; 3; 6; 0; 0x41; 93] ++ replicate 121 0.
Definition demo_uhd : list Z := demo_uhd_bytes ++ [u8 (- foldl (fun c b => u8 (c + b)) 0 demo_uhd_bytes)].

Lemma video_code_leaves_map_witness : edid_parse_CEA demo_uhd 0 info0 = Fault Undefined.
Proof.
  apply (video_code_leaves_map demo_uhd 0 info0);
    [|lia|vm_compute; discriminate|by vm_compute|split; [done|repeat constructor; lia]|by vm_compute|by vm_compute|vm_compute; discriminate].
  repeat (constructor; [vm_compute; split; [discriminate|reflexivity]|]). constructor.
Defined.
