(* ===== verification/VideoMode.v ===== *)
(** * Choosing a display mode

    The table of video modes of [drivers/video/wmt/vpp.h], the lookups of
    [vpp.c] in it, and the two functions of [vout.c] that choose a mode a
    display supports: [vout_find_edid_support_mode], and the search of
    [vout_find_video_mode].  Both ask [edid_find_support] of [Edid].

    A pointer into the table is its index; reading outside the table is
    [Undefined].  The table ends with an entry whose pixel clock is 0, and an
    interlaced mode is a pair of entries, one for each field.  The state is the
    global [vpp_vout_option]. *)

From S2P Require Import Prelude Edid EdidSpec EdidModes.
From stdpp Require Import list.
#[local] Open Scope Z_scope.

(** ** The table *)

Definition VPP_OPT_HSCALE_UP : Z := 0x20.
Definition VPP_OPT_FPS_VAL (fps : Z) : Z := Z.shiftl fps 24.
Definition VPP_OPT_HDMI_VIC_VAL (vic : Z) : Z := Z.shiftl vic 16.
Definition VOUT_OPT_INTERLACE : Z := BIT 1.

Definition vpp_video_mode_table : list vpp_timing_t := [
  MkVpp 25175000 (VPP_OPT_FPS_VAL 60 + VPP_OPT_HDMI_VIC_VAL 1) 96 48 640 16 2 33 480 10;
  MkVpp 23750000 (VPP_OPT_FPS_VAL 60 + VPP_VGA_VSYNC_POLAR_HI) 64 80 640 16 4 13 480 3;
  MkVpp 31500000 (VPP_OPT_FPS_VAL 75) 64 120 640 16 3 16 480 1;
  MkVpp 30750000 (VPP_OPT_FPS_VAL 75 + VPP_VGA_VSYNC_POLAR_HI) 64 88 640 24 4 17 480 3;
  MkVpp 27027060 (VPP_OPT_FPS_VAL 60 + VPP_OPT_HDMI_VIC_VAL 2) 62 60 720 16 6 30 480 9;
  MkVpp 27000000 (VPP_OPT_FPS_VAL 60 + VPP_OPT_HDMI_VIC_VAL 6 + VPP_OPT_INTERLACE + VPP_OPT_HSCALE_UP) 124 114 720 38 3 15 240 4;
  MkVpp 27000000 (VPP_OPT_FPS_VAL 60 + VPP_OPT_HDMI_VIC_VAL 6 + VPP_OPT_INTERLACE + VPP_OPT_HSCALE_UP) 124 114 720 38 3 16 240 4;
  MkVpp 27000000 (VPP_OPT_FPS_VAL 50 + VPP_OPT_HDMI_VIC_VAL 17) 64 68 720 12 5 39 576 5;
  MkVpp 27000050 (VPP_OPT_FPS_VAL 50 + VPP_OPT_HDMI_VIC_VAL 21 + VPP_OPT_INTERLACE + VPP_OPT_HSCALE_UP) 126 138 720 24 3 19 288 2;
  MkVpp 27000050 (VPP_OPT_FPS_VAL 50 + VPP_OPT_HDMI_VIC_VAL 21 + VPP_OPT_INTERLACE + VPP_OPT_HSCALE_UP) 126 138 720 24 3 20 288 2;
  MkVpp 29500000 (VPP_OPT_FPS_VAL 60 + VPP_VGA_VSYNC_POLAR_HI) 72 96 800 24 7 10 480 3;
  MkVpp 38500000 (VPP_OPT_FPS_VAL 75 + VPP_VGA_VSYNC_POLAR_HI) 80 112 800 32 7 14 480 3;
  MkVpp 40000000 (VPP_OPT_FPS_VAL 60 + VPP_VGA_HSYNC_POLAR_HI + VPP_VGA_VSYNC_POLAR_HI) 128 88 800 40 4 23 600 1;
  MkVpp 38250000 (VPP_OPT_FPS_VAL 60 + VPP_VGA_VSYNC_POLAR_HI) 80 112 800 32 4 17 600 3;
  MkVpp 49500000 (VPP_OPT_FPS_VAL 75 + VPP_VGA_HSYNC_POLAR_HI + VPP_VGA_VSYNC_POLAR_HI) 80 160 800 16 3 21 600 1;
  MkVpp 49000000 (VPP_OPT_FPS_VAL 75 + VPP_VGA_VSYNC_POLAR_HI) 80 120 800 40 4 22 600 3;
  MkVpp 33750000 (VPP_OPT_FPS_VAL 60 + VPP_VGA_HSYNC_POLAR_HI + VPP_VGA_VSYNC_POLAR_HI) 112 112 848 16 8 23 480 6;
  MkVpp 49000000 (VPP_OPT_FPS_VAL 60 + VPP_VGA_VSYNC_POLAR_HI) 104 144 1024 40 10 11 600 3;
  MkVpp 65000000 (VPP_OPT_FPS_VAL 60) 136 160 1024 24 6 29 768 3;
  MkVpp 63500000 (VPP_OPT_FPS_VAL 60 + VPP_VGA_VSYNC_POLAR_HI) 104 152 1024 48 4 23 768 3;
  MkVpp 78750000 (VPP_OPT_FPS_VAL 75 + VPP_VGA_HSYNC_POLAR_HI + VPP_VGA_VSYNC_POLAR_HI) 96 176 1024 16 3 28 768 1;
  MkVpp 82000000 (VPP_OPT_FPS_VAL 75 + VPP_VGA_VSYNC_POLAR_HI) 104 168 1024 64 4 30 768 3;
  MkVpp 81750000 (VPP_OPT_FPS_VAL 60 + VPP_VGA_VSYNC_POLAR_HI) 120 184 1152 64 4 26 864 3;
  MkVpp 108000000 (VPP_OPT_FPS_VAL 75 + VPP_VGA_HSYNC_POLAR_HI + VPP_VGA_VSYNC_POLAR_HI) 128 256 1152 64 3 32 864 1;
  MkVpp 104000000 (VPP_OPT_FPS_VAL 75 + VPP_VGA_VSYNC_POLAR_HI) 120 192 1152 72 4 34 864 3;
  MkVpp 74250060 (VPP_OPT_FPS_VAL 60 + VPP_OPT_HDMI_VIC_VAL 4 + VPP_VGA_HSYNC_POLAR_HI + VPP_VGA_VSYNC_POLAR_HI) 40 220 1280 110 5 20 720 5;
  MkVpp 74250050 (VPP_OPT_FPS_VAL 50 + VPP_OPT_HDMI_VIC_VAL 19 + VPP_VGA_HSYNC_POLAR_HI + VPP_VGA_VSYNC_POLAR_HI) 40 220 1280 440 5 20 720 5;
  MkVpp 74500000 (VPP_OPT_FPS_VAL 60 + VPP_VGA_VSYNC_POLAR_HI) 128 192 1280 64 5 20 720 3;
  MkVpp 95750000 (VPP_OPT_FPS_VAL 75 + VPP_VGA_VSYNC_POLAR_HI) 128 208 1280 80 5 27 720 3;
  MkVpp 79500000 (VPP_OPT_FPS_VAL 60 + VPP_VGA_VSYNC_POLAR_HI) 128 192 1280 64 7 20 768 3;
  MkVpp 102250000 (VPP_OPT_FPS_VAL 75 + VPP_VGA_VSYNC_POLAR_HI) 128 208 1280 80 7 27 768 3;
  MkVpp 83500000 (VPP_OPT_FPS_VAL 60 + VPP_VGA_VSYNC_POLAR_HI) 128 200 1280 72 6 22 800 3;
  MkVpp 106500000 (VPP_OPT_FPS_VAL 75 + VPP_VGA_VSYNC_POLAR_HI) 128 208 1280 80 6 29 800 3;
  MkVpp 108000000 (VPP_OPT_FPS_VAL 60 + VPP_VGA_HSYNC_POLAR_HI + VPP_VGA_VSYNC_POLAR_HI) 112 312 1280 96 3 36 960 1;
  MkVpp 101250000 (VPP_OPT_FPS_VAL 60 + VPP_VGA_VSYNC_POLAR_HI) 128 208 1280 80 4 29 960 3;
  MkVpp 130000000 (VPP_OPT_FPS_VAL 75 + VPP_VGA_VSYNC_POLAR_HI) 136 224 1280 88 4 38 960 3;
  MkVpp 108000000 (VPP_OPT_FPS_VAL 60 + VPP_VGA_HSYNC_POLAR_HI + VPP_VGA_VSYNC_POLAR_HI) 112 248 1280 48 3 38 1024 1;
  MkVpp 109000000 (VPP_OPT_FPS_VAL 60 + VPP_VGA_VSYNC_POLAR_HI) 136 216 1280 80 7 29 1024 3;
  MkVpp 135000000 (VPP_OPT_FPS_VAL 75 + VPP_VGA_HSYNC_POLAR_HI + VPP_VGA_VSYNC_POLAR_HI) 144 248 1280 16 3 38 1024 1;
  MkVpp 138750000 (VPP_OPT_FPS_VAL 75 + VPP_VGA_VSYNC_POLAR_HI) 136 224 1280 88 7 38 1024 3;
  MkVpp 85500000 (VPP_OPT_FPS_VAL 60 + VPP_VGA_HSYNC_POLAR_HI + VPP_VGA_VSYNC_POLAR_HI) 112 256 1360 64 6 18 768 3;
  MkVpp 85500000 (VPP_OPT_FPS_VAL 60 + VPP_VGA_HSYNC_POLAR_HI + VPP_VGA_VSYNC_POLAR_HI) 143 213 1366 70 3 24 768 3;
  MkVpp 121750000 (VPP_OPT_FPS_VAL 60 + VPP_VGA_VSYNC_POLAR_HI) 144 232 1400 88 4 32 1050 3;
  MkVpp 101000000 (VPP_OPT_FPS_VAL 60 + VPP_VGA_VSYNC_POLAR_HI) 32 80 1400 48 4 23 1050 3;
  MkVpp 54054000 (VPP_OPT_FPS_VAL 60 + VPP_OPT_HDMI_VIC_VAL 15) 124 120 1440 32 6 30 480 9;
  MkVpp 106500000 (VPP_OPT_FPS_VAL 60 + VPP_VGA_VSYNC_POLAR_HI) 152 232 1440 80 6 25 900 3;
  MkVpp 136750000 (VPP_OPT_FPS_VAL 75 + VPP_VGA_VSYNC_POLAR_HI) 152 248 1440 96 6 33 900 3;
  MkVpp 162000000 (VPP_OPT_FPS_VAL 60 + VPP_VGA_VSYNC_POLAR_HI) 192 304 1600 64 3 46 1200 1;
  MkVpp 146250000 (VPP_OPT_FPS_VAL 60 + VPP_VGA_VSYNC_POLAR_HI) 176 280 1680 104 6 30 1050 3;
  MkVpp 148500000 (VPP_OPT_FPS_VAL 60 + VPP_OPT_HDMI_VIC_VAL 16 + VPP_VGA_HSYNC_POLAR_HI + VPP_VGA_VSYNC_POLAR_HI) 44 148 1920 88 5 36 1080 4;
  MkVpp 74250025 (VPP_OPT_FPS_VAL 25 + VPP_OPT_HDMI_VIC_VAL 33 + VPP_VGA_HSYNC_POLAR_HI + VPP_VGA_VSYNC_POLAR_HI) 44 148 1920 528 5 36 1080 4;
  MkVpp 74250030 (VPP_OPT_FPS_VAL 30 + VPP_OPT_HDMI_VIC_VAL 34 + VPP_VGA_HSYNC_POLAR_HI + VPP_VGA_VSYNC_POLAR_HI) 44 148 1920 88 5 36 1080 4;
  MkVpp 148500050 (VPP_OPT_FPS_VAL 50 + VPP_OPT_HDMI_VIC_VAL 31 + VPP_VGA_HSYNC_POLAR_HI + VPP_VGA_VSYNC_POLAR_HI) 44 148 1920 528 5 36 1080 4;
  MkVpp 74250050 (VPP_OPT_FPS_VAL 50 + VPP_OPT_HDMI_VIC_VAL 20 + VPP_OPT_INTERLACE + VPP_VGA_HSYNC_POLAR_HI + VPP_VGA_VSYNC_POLAR_HI) 44 148 1920 528 5 15 540 2;
  MkVpp 74250050 (VPP_OPT_FPS_VAL 50 + VPP_OPT_HDMI_VIC_VAL 20 + VPP_OPT_INTERLACE + VPP_VGA_HSYNC_POLAR_HI + VPP_VGA_VSYNC_POLAR_HI) 44 148 1920 528 5 16 540 2;
  MkVpp 74250060 (VPP_OPT_FPS_VAL 60 + VPP_OPT_HDMI_VIC_VAL 5 + VPP_OPT_INTERLACE + VPP_VGA_HSYNC_POLAR_HI + VPP_VGA_VSYNC_POLAR_HI) 44 148 1920 88 5 15 540 2;
  MkVpp 74250060 (VPP_OPT_FPS_VAL 60 + VPP_OPT_HDMI_VIC_VAL 5 + VPP_OPT_INTERLACE + VPP_VGA_HSYNC_POLAR_HI + VPP_VGA_VSYNC_POLAR_HI) 44 148 1920 88 5 16 540 2;
  MkVpp 154000000 (VPP_OPT_FPS_VAL 60 + VPP_VGA_VSYNC_POLAR_HI) 32 80 1920 48 6 26 1200 3;
  MkVpp 193250000 (VPP_OPT_FPS_VAL 60 + VPP_VGA_VSYNC_POLAR_HI) 200 336 1920 136 6 36 1200 3;
  vpp_timing0
].

Abbreviation V := (M Z).

Definition mode_at (i : Z) : V vpp_timing_t :=
  if i <? 0 then fail_with Undefined else initialised (vpp_video_mode_table !! Z.to_nat i).

Definition interlaced (t : vpp_timing_t) : bool := negb (Z.land (vt_option t) VPP_OPT_INTERLACE =? 0).

(** The lines of a frame. *)
Definition line_pixel (t : vpp_timing_t) : Z := if interlaced t then u32 (vt_vpixel t * 2) else vt_vpixel t.

Definition vpp_calculate_diff (val1 val2 : Z) : Z := if val2 <=? val1 then val1 - val2 else val2 - val1.

Definition vpp_get_video_mode_fps (t : vpp_timing_t) : Z :=
  let temp := VPP_GET_OPT_FPS (vt_option t) in
  if negb (temp =? 0) then temp
  else
    let resx := u32 (vt_hsync t + vt_hbp t + vt_hpixel t + vt_hfp t) in
    let resy := u32 (vt_vsync t + vt_vbp t + vt_vpixel t + vt_vfp t) in
    let temp := vt_pixel_clock t - vt_pixel_clock t mod 1000 in
    let temp := temp / resx / resy in
    let diff1 := vpp_calculate_diff (vt_pixel_clock t) (u32 (resx * resy * temp)) in
    let diff2 := vpp_calculate_diff (vt_pixel_clock t) (u32 (resx * resy * (temp + 1))) in
    if diff1 <? diff2 then temp else u32 (temp + 1).

(** ** [vpp_get_video_mode] *)

(** Every turn of a loop over the table moves on by at least one entry. *)
Definition mode_fuel : nat := 64.

Section Lookup.
Context (resx resy fps_pixclk : Z).
#[local] Abbreviation is_fps := (fps_pixclk <? 1000000).

(** The loop over the modes of the requested size: [j], [*index],
    [first_order]. *)
Definition same_body (a : Z * Z * bool) : V (Z * Z * bool + Z) :=
  let '(j, index, first_order) := a in
  ptr ← mode_at j;
  if (vt_pixel_clock ptr =? 0) || negb (vt_hpixel ptr =? resx) || negb (line_pixel ptr =? resy) then mret (inr index)
  else if is_fps then
    if fps_pixclk =? vpp_get_video_mode_fps ptr then mret (inr j) else mret (inl (j + 1, index, first_order))
  else
    let near := fps_pixclk / 10000 =? vt_pixel_clock ptr / 10000 in
    let index := if near && first_order then j else index in
    let first_order := if near then false else first_order in
    if fps_pixclk =? vt_pixel_clock ptr then mret (inr j) else mret (inl (j + 1, index, first_order)).

(** The loop over the table: [i], [*index]. *)
Definition get_body (a : Z * Z) : V (Z * Z + Z) :=
  let '(i, index) := a in
  ptr ← mode_at i;
  if vt_pixel_clock ptr =? 0 then mret (inr index)
  else
    o ← get;
    if negb (Z.land o VOUT_OPT_INTERLACE =? 0) && negb (interlaced ptr) then mret (inl (i + 1, index))
    else if (vt_hpixel ptr =? resx) && (line_pixel ptr =? resy) then
      index ← loop mode_fuel same_body (i, i, true); mret (inr index)
    else if resx <? vt_hpixel ptr then mret (inr index)
    else mret (inl (if interlaced ptr then i + 2 else i + 1, i)).

(** Answers [*index], where the pointer that is returned points to. *)
Definition vpp_get_video_mode (index : Z) : V Z :=
  t ← mode_at index;
  index ← (if interlaced t then
             t' ← mode_at (index + 1);
             mret (if vt_option t =? vt_option t' then index else index - 1)
           else mret index);
  loop mode_fuel get_body (index, index).

Definition vpp_get_video_mode_ext (option : Z) : V Z :=
  put option;;
  time ← vpp_get_video_mode 0;
  put 0;;
  mret time.
End Lookup.

(** ** [vout_find_edid_support_mode] *)

Section Support.
Context (info : option edid_info_t) (resx resy fps : Z) (r_16_9 : bool).

(** Whether the entry is chosen, and its width, lines and rate. *)
Definition mode_option (p : vpp_timing_t) : Z :=
  Z.lor (Z.land (vpp_get_video_mode_fps p) EDID_TMR_FREQ) (if interlaced p then EDID_TMR_INTERLACE else 0).

Definition support_test (p : vpp_timing_t) : bool :=
  let h := line_pixel p in
  let w := vt_hpixel p in
  let f := vpp_get_video_mode_fps p in
  if resy <? h then false else if resx <? w then false else if fps <? f then false
  else if negb (Bool.eqb r_16_9 (vout_check_ratio_16_9 w h)) then false
  else negb (fst (edid_find_support w h (mode_option p) info) =? 0).

Definition support_body (i : Z) : V (Z + option (Z * Z * Z)) :=
  if i <? 0 then mret (inr None)
  else
    p ← mode_at i;
    if support_test p then mret (inr (Some (vt_hpixel p, line_pixel p, vpp_get_video_mode_fps p)))
    else mret (inl (if interlaced p then i - 2 else i - 1)).

(** The number of entries before the last one. *)
Definition count_body (i : Z) : V (Z + Z) :=
  p ← mode_at i; mret (if vt_pixel_clock p =? 0 then inr i else inl (i + 1)).

(** [Some] of the new [*resx], [*resy], [*fps] for an answer of 1. *)
Definition vout_find_edid_support_mode : V (option (Z * Z * Z)) :=
  cnt ← loop mode_fuel count_body 0;
  loop mode_fuel support_body (cnt - 1).
End Support.

(** ** The search of [vout_find_video_mode] *)

Section Search.
Context (edid : option edid_info_t) (pixclk vo_option : Z).

(** Down to the next entry of another size. *)
Definition down_body (resx resy index : Z) : V (Z + Z) :=
  let index := index - 1 in
  p ← mode_at index;
  if resx =? vt_hpixel p then
    let index := if interlaced p then index - 1 else index in
    mret (if resy =? line_pixel p then inl index else inr index)
  else mret (inr index).

(** What the loop is left with: [resx], [resy], [fps], [opt], [edid_timing]. *)
Record found := MkFound { f_resx : Z; f_resy : Z; f_fps : Z; f_opt : Z; f_timing : option nat }.

Definition search_body (a : Z * Z * Z) : V (Z * Z * Z + found) :=
  let '(resx, resy, index) := a in
  index ← vpp_get_video_mode resx resy pixclk index;
  p ← mode_at index;
  let resx := vt_hpixel p in
  let resy := line_pixel p in
  let fps := VPP_GET_OPT_FPS (vt_option p) in
  let i := negb (Z.land vo_option VOUT_OPT_INTERLACE =? 0) in
  let opt := Z.lor fps (if i then EDID_TMR_INTERLACE else 0) in
  match edid with
  | None => mret (inr (MkFound resx resy fps opt None))
  | Some _ =>
      let r := edid_find_support resx resy opt edid in
      if negb (fst r =? 0) then mret (inr (MkFound resx resy fps opt (snd r)))
      else
        let opt := Z.lor fps (if i then 0 else EDID_TMR_INTERLACE) in
        let r := edid_find_support resx resy opt edid in
        if negb (fst r =? 0) then mret (inr (MkFound resx resy fps opt (snd r)))
        else
          t0 ← mode_at 0;
          if (resx <=? vt_hpixel t0) || (index <=? 1) then mret (inr (MkFound (vt_hpixel t0) (vt_vpixel t0) fps opt None))
          else
            index ← loop mode_fuel (down_body resx resy) index;
            p ← mode_at index;
            mret (inl (vt_hpixel p, line_pixel p, index))
  end.

(** The mode: a detailed timing of the display, or an entry of the table. *)
Definition search_mode (resx resy : Z) : V (nat + Z) :=
  f ← loop mode_fuel search_body (resx, resy, 0);
  match f_timing f with
  | Some k => mret (inl k)
  | None =>
      let vo_option :=
        if negb (Z.land (f_opt f) EDID_TMR_INTERLACE =? 0) then Z.lor vo_option VOUT_OPT_INTERLACE
        else Z.land vo_option (Z.lnot VOUT_OPT_INTERLACE) in
      index ← vpp_get_video_mode_ext (f_resx f) (f_resy f) (f_fps f) vo_option;
      mret (inr index)
  end.
End Search.
