(* ===== verification/Regs.v ===== *)
(** * Registers inside the state of a driver

    Drivers that keep state of their own reach the register file of [Mmio] through
    the class [RegState].  Reads and writes, [reg &= ~mask] and [reg |= mask] are
    defined and proved once against it; each driver gives its instance. *)

From S2P Require Import Prelude Mmio.
From stdpp Require Import list.
#[local] Open Scope Z_scope.

Class RegState (S : Type) := {
  regs_of : S -> hw;
  with_regs : hw -> S -> S;
  regs_with h s : regs_of (with_regs h s) = h;
  with_same s : with_regs (regs_of s) s = s;
}.

Section regs.
Context {S : Type} `{!RegState S}.

Definition on_regs {A} (m : M hw A) : M S A := fun s =>
  match m (regs_of s) with
  | Ok (a, h) => Ok (a, with_regs h s)
  | Fault f => Fault f
  end.

Definition rd (a : Z) : M S Z := on_regs (read32 a).
Definition wr (a v : Z) : M S unit := on_regs (write32 a v).

(** [reg &= ~mask] and [reg |= mask]. *)
Definition clear_bits (a mask : Z) : M S unit := v ← rd a; wr a (Z.land v (Z.lnot mask)).
Definition set_bits (a mask : Z) : M S unit := v ← rd a; wr a (Z.lor v mask).

(** The word a register reads as, in a state where the hardware changes none. *)
Definition reg (s : S) (a : Z) : Z := word_at (mem (regs_of s)) a.
Definition quiet (s : S) : Prop := forall a, settled a (regs_of s).
Definition put_reg (a v : Z) (s : S) : S :=
  with_regs (mk_hw (store32 a v (mem (regs_of s))) (pending (regs_of s)) (trace (regs_of s) ++ [W32 a (u32 v)])) s.

Lemma reg_read a s : settled a (regs_of s) -> rd a s = Ok (reg s a, s).
Proof.
  unfold settled, rd, on_regs, read32, reg. intros H.
  destruct (pending (regs_of s) !! a) as [[|]|]; [|done|]; by rewrite with_same.
Qed.

Lemma reg_write a v s : wr a v s = Ok (tt, put_reg a v s).
Proof. done. Qed.

Lemma settled_put a v b s : settled b (regs_of s) -> settled b (regs_of (put_reg a v s)).
Proof. unfold put_reg. by rewrite regs_with. Qed.

Lemma quiet_put a v s : quiet s -> quiet (put_reg a v s).
Proof. intros H b. by apply settled_put. Qed.

Lemma reg_put a v s : reg (put_reg a v s) a = u32 v.
Proof. unfold reg, put_reg. rewrite regs_with. apply word_at_store32. Qed.

Lemma reg_put_ne a b v s : b + 3 < a \/ a + 3 < b -> reg (put_reg a v s) b = reg s b.
Proof. unfold reg, put_reg. rewrite regs_with. apply word_at_store32_ne. Qed.

Lemma reg_put_if (c : bool) a v s b :
  b + 3 < a \/ a + 3 < b -> reg (if c then put_reg a v s else s) b = reg s b.
Proof. destruct c; [apply reg_put_ne|done]. Qed.

Lemma clear_run a m s :
  settled a (regs_of s) -> clear_bits a m s = Ok (tt, put_reg a (Z.land (reg s a) (Z.lnot m)) s).
Proof. intros H. unfold clear_bits. by rewrite (bind_ok _ _ _ _ _ (reg_read a s H)). Qed.

Lemma set_run a m s : settled a (regs_of s) -> set_bits a m s = Ok (tt, put_reg a (Z.lor (reg s a) m) s).
Proof. intros H. unfold set_bits. by rewrite (bind_ok _ _ _ _ _ (reg_read a s H)). Qed.

Lemma poll_quiet a ready s :
  settled a (regs_of s) -> ready (reg s a) = true -> on_regs (poll a ready) s = Ok (tt, s).
Proof.
  intros Hq Hr. pose proof (reg_read a s Hq) as H. unfold settled in Hq.
  unfold on_regs, poll. rewrite Hq. cbn [length poll_loop]. unfold rd, on_regs in H. unfold mbind, M_bind.
  destruct (read32 a (regs_of s)) as [[v h]|]; [|done]. injection H as -> H. rewrite Hr. cbn [mret M_ret].
  f_equal. f_equal. exact H.
Qed.

End regs.

(** The bits of [mask] that [v] has. *)
Definition has (v mask : Z) : bool := negb (Z.land v mask =? 0).

(** ** Masks *)

Lemma u32_masked v m : 0 <= m < 2 ^ 32 -> u32 (Z.land v m) = Z.land v m.
Proof.
  intros Hm. apply u32_small. split; [apply Z.land_nonneg; lia|].
  apply bits_bound; [lia|apply Z.land_nonneg; lia|]. intros n Hn. rewrite Z.land_spec, (bits_above 32 m) by lia. apply andb_false_r.
Qed.

Lemma lor_below n a b : 0 <= n -> 0 <= a < 2 ^ n -> 0 <= b < 2 ^ n -> 0 <= Z.lor a b < 2 ^ n.
Proof.
  intros. split; [apply Z.lor_nonneg; lia|]. apply bits_bound; [lia|apply Z.lor_nonneg; lia|].
  intros k Hk. by rewrite Z.lor_spec, (bits_above n a), (bits_above n b) by lia.
Qed.

(** A word, its bits outside a mask, and back. *)
Lemma mask_split v m : 0 <= v < 2 ^ 32 -> 0 <= m ->
  u32 (Z.land v (Z.lnot m)) = Z.land v (Z.lnot m) /\ Z.lor (Z.land v (Z.lnot m)) (Z.land v m) = v.
Proof.
  intros Hv Hm. split.
  - apply u32_small. split; [apply Z.land_nonneg; lia|]. apply bits_bound; [lia|apply Z.land_nonneg; lia|].
    intros n Hn. by rewrite Z.land_spec, (bits_above 32 v) by lia.
  - rewrite <- Z.land_lor_distr_r. rewrite (Z.lor_comm (Z.lnot m)), Z.lor_lnot_diag. apply Z.land_m1_r.
Qed.

(** What a mask of a combination keeps: masks that do not meet it drop out. *)
Lemma land_masked x m m' : Z.land m m' = 0 -> Z.land (Z.land x m) m' = 0.
Proof. intros H. by rewrite <- Z.land_assoc, H, Z.land_0_r. Qed.
Lemma land_same x m m' : Z.land m m' = m' -> Z.land (Z.land x m) m' = Z.land x m'.
Proof. intros H. by rewrite <- Z.land_assoc, H. Qed.
