(* ===== verification/Rtc.v ===== *)
(** * The real time clock

    [drivers/rtc/wmt-rtc.c] with the register layout of [mach/wmt_rtc.h]: time,
    date and alarm are packed into registers as binary coded decimals, and a
    register may be written while its bit of the write status register [RTWS] is
    clear.

    The registers are words of [Mmio], so that those the hardware owns ([RTCT],
    [RTCD], [RTWS], [RTIS]) may answer anything.  [rtc_st] adds the shadow
    registers, the alarm the driver keeps, the answers of [request_irq] to come,
    and what the driver tells the kernel.  Spin locks, messages and the listing of
    [wmt_rtc_proc] are not modelled. *)

From S2P Require Import Prelude Mmio Regs.
From stdpp Require Import list.
#[local] Open Scope Z_scope.

(** ** Registers *)

Definition RTC_BASE_ADDR : Z := 0xD8100000 + (0xFE000000 - 0xD8000000).
Definition RTTS : Z := RTC_BASE_ADDR + 0x00.
Definition RTDS : Z := RTC_BASE_ADDR + 0x04.
Definition RTAS : Z := RTC_BASE_ADDR + 0x08.
Definition RTCC : Z := RTC_BASE_ADDR + 0x0C.
Definition RTCT : Z := RTC_BASE_ADDR + 0x10.
Definition RTCD : Z := RTC_BASE_ADDR + 0x14.
Definition RTWS : Z := RTC_BASE_ADDR + 0x18.
Definition RTTM : Z := RTC_BASE_ADDR + 0x1C.
Definition RTTC : Z := RTC_BASE_ADDR + 0x20.
Definition RTIS : Z := RTC_BASE_ADDR + 0x24.

Definition BCD2BIN (x : Z) : Z := Z.land x 0x0f + Z.shiftr x 4 * 10.
Definition BIN2BCD (x : Z) : Z := Z.shiftl (Z.quot x 10) 4 + Z.rem x 10.

(** The bits [lo] to [hi] of a register. *)
Definition bits (lo hi : Z) : Z := Z.shiftl (Z.ones (hi - lo + 1)) lo.

Definition RTTS_TIME : Z := 0x7FFFFF.
Definition RTTS_SEC (x : Z) : Z := Z.land (Z.shiftl (BIN2BCD x) 0) (bits 0 6).
Definition RTTS_MIN (x : Z) : Z := Z.land (Z.shiftl (BIN2BCD x) 7) (bits 7 13).
Definition RTTS_HOUR (x : Z) : Z := Z.land (Z.shiftl (BIN2BCD x) 14) (bits 14 19).
Definition RTTS_DAY (x : Z) : Z := Z.land (Z.shiftl (BIN2BCD x) 20) (bits 20 22).

Definition RTDS_DATE : Z := 0x000FFFFF.
Definition RTDS_MDAY (x : Z) : Z := Z.land (Z.shiftl (BIN2BCD x) 0) (bits 0 5).
Definition RTDS_MON (x : Z) : Z := Z.land (Z.shiftl (BIN2BCD x) 6) (bits 6 10).
Definition RTDS_YEAR (x : Z) : Z := Z.land (Z.shiftl (BIN2BCD x) 11) (bits 11 18).
Definition RTDS_CENT (x : Z) : Z := Z.land (Z.shiftl (BIN2BCD x) 19) (bits 19 19).

Definition RTAS_SEC (x : Z) : Z := Z.land (Z.shiftl (BIN2BCD x) 0) (bits 0 6).
Definition RTAS_MIN (x : Z) : Z := Z.land (Z.shiftl (BIN2BCD x) 7) (bits 7 13).
Definition RTAS_HOUR (x : Z) : Z := Z.land (Z.shiftl (BIN2BCD x) 14) (bits 14 19).
Definition RTAS_DAY (x : Z) : Z := Z.land (Z.shiftl (BIN2BCD x) 20) (bits 20 25).
Definition RTAS_CMPSEC : Z := BIT 26.
Definition RTAS_CMPMIN : Z := BIT 27.
Definition RTAS_CMPHOUR : Z := BIT 28.
Definition RTAS_CMPDAY : Z := BIT 29.
Definition RTAS_CMPMASK : Z := bits 26 29.

Definition RTCC_ENA : Z := BIT 0.
Definition RTCC_INTENA : Z := BIT 2.
Definition RTCC_INTTYPE : Z := BIT 3.

Definition RTCT_SEC (x : Z) : Z := BCD2BIN (Z.shiftr (Z.land x (bits 0 6)) 0).
Definition RTCT_MIN (x : Z) : Z := BCD2BIN (Z.shiftr (Z.land x (bits 7 13)) 7).
Definition RTCT_HOUR (x : Z) : Z := BCD2BIN (Z.shiftr (Z.land x (bits 14 19)) 14).
Definition RTCT_DAY (x : Z) : Z := BCD2BIN (Z.shiftr (Z.land x (bits 20 22)) 20).
Definition RTCT_INVALID : Z := BIT 31.

Definition RTCD_MDAY (x : Z) : Z := BCD2BIN (Z.shiftr (Z.land x (bits 0 5)) 0).
Definition RTCD_MON (x : Z) : Z := BCD2BIN (Z.shiftr (Z.land x (bits 6 10)) 6).
Definition RTCD_YEAR (x : Z) : Z := BCD2BIN (Z.shiftr (Z.land x (bits 11 18)) 11).
Definition RTCD_CENT (x : Z) : Z := BCD2BIN (Z.shiftr (Z.land x (bits 19 19)) 19).
Definition RTCD_INVALID : Z := BIT 31.

Definition RTWS_TIMESET : Z := BIT 0.
Definition RTWS_DATESET : Z := BIT 1.
Definition RTWS_ALARMSET : Z := BIT 2.
Definition RTTM_ENABLE : Z := BIT 0.
Definition RTIS_ALARM : Z := BIT 0.
Definition RTIS_UPDATE : Z := BIT 1.
Definition RTC_DEF_DIVIDER : Z := 32768 - 1.
Definition RTC_IRQF : Z := 0x80.
Definition RTC_AF : Z := 0x20.
Definition RTC_UF : Z := 0x10.

Definition EBUSY : Z := 16.
Definition EINVAL : Z := 22.

(** ** State *)

Record rtc_time := MkTm {
  tm_sec : Z; tm_min : Z; tm_hour : Z; tm_mday : Z; tm_mon : Z; tm_year : Z;
  tm_wday : Z; tm_yday : Z; tm_isdst : Z;
}.

(** What the driver tells the kernel. *)
Inductive note :=
  UpdateIrq (events : Z) | IrqWake (on : bool) | FreeUpdateIrq | FreeAlarmIrq | InitWakeup | SetDrvdata | Unregister.

Record rtc_st := MkRtc {
  rtc_hw : hw;
  sh_rtct : Z; sh_rtcd : Z; sh_rtas : Z;   (** shadow registers *)
  rtc_alarm : rtc_time;
  irq_answers : list Z;                    (** next results of [request_irq], then 0 *)
  notes : list note;
}.

Abbreviation R := (M rtc_st).

Definition with_hw (h : hw) (s : rtc_st) : rtc_st :=
  MkRtc h (sh_rtct s) (sh_rtcd s) (sh_rtas s) (rtc_alarm s) (irq_answers s) (notes s).
Definition with_time (t d : Z) (s : rtc_st) : rtc_st :=
  MkRtc (rtc_hw s) t d (sh_rtas s) (rtc_alarm s) (irq_answers s) (notes s).
Definition with_rtas (v : Z) (s : rtc_st) : rtc_st :=
  MkRtc (rtc_hw s) (sh_rtct s) (sh_rtcd s) v (rtc_alarm s) (irq_answers s) (notes s).
Definition with_alarm (t : rtc_time) (s : rtc_st) : rtc_st :=
  MkRtc (rtc_hw s) (sh_rtct s) (sh_rtcd s) (sh_rtas s) t (irq_answers s) (notes s).
Definition with_answers (l : list Z) (s : rtc_st) : rtc_st :=
  MkRtc (rtc_hw s) (sh_rtct s) (sh_rtcd s) (sh_rtas s) (rtc_alarm s) l (notes s).
Definition tell (n : note) : R unit := modify (fun s =>
  MkRtc (rtc_hw s) (sh_rtct s) (sh_rtcd s) (sh_rtas s) (rtc_alarm s) (irq_answers s) (notes s ++ [n])).

Lemma with_hw_same s : with_hw (rtc_hw s) s = s.
Proof. by destruct s. Qed.

#[global] Instance rtc_regs : RegState rtc_st := {|
  regs_of := rtc_hw; with_regs := with_hw; regs_with h s := eq_refl; with_same := with_hw_same;
|}.

(** ** Operations *)

Definition wmt_set_time (value : Z) : R Z :=
  s ← rd RTWS;
  if negb (has s RTWS_TIMESET) then wr RTTS (Z.land value RTTS_TIME);; mret 0 else mret (- EBUSY).

Definition wmt_set_date (value : Z) : R Z :=
  s ← rd RTWS;
  if negb (has s RTWS_DATESET) then wr RTDS (Z.land value RTDS_DATE);; mret 0 else mret (- EBUSY).

Definition alarm_value (alarm : rtc_time) : Z :=
  let value := 0 in
  let value := if (0 <=? tm_sec alarm) && (tm_sec alarm <? 60)
               then Z.lor (Z.lor value (RTAS_SEC (tm_sec alarm))) RTAS_CMPSEC else value in
  let value := if (0 <=? tm_min alarm) && (tm_min alarm <? 60)
               then Z.lor (Z.lor value (RTAS_MIN (tm_min alarm))) RTAS_CMPMIN else value in
  let value := if (0 <=? tm_hour alarm) && (tm_hour alarm <? 24)
               then Z.lor (Z.lor value (RTAS_HOUR (tm_hour alarm))) RTAS_CMPHOUR else value in
  if (0 <? tm_mday alarm) && (tm_mday alarm <=? 31)
  then Z.lor (Z.lor value (RTAS_DAY (tm_mday alarm))) RTAS_CMPDAY else value.

Definition wmt_set_alarm (alarm : rtc_time) : R Z :=
  let value := alarm_value alarm in
  if value =? 0 then mret 0
  else
    s ← rd RTWS;
    if negb (has s RTWS_ALARMSET) then wr RTAS value;; mret 0 else mret (- EBUSY).

Definition rtc_periodic_alarm (tm : rtc_time) : bool :=
  (tm_year tm =? -1) || (12 <=? u32 (tm_mon tm)) || (31 <=? u32 (tm_mday tm - 1)) ||
  (23 <? u32 (tm_hour tm)) || (59 <? u32 (tm_min tm)) || (59 <? u32 (tm_sec tm)).

(** [wmt_rtc]: whether the data of the device is not null. *)
Definition wmt_rtc_interrupt (wmt_rtc : bool) : R unit :=
  rtis ← rd RTIS;
  wr RTIS rtis;;
  (if has rtis RTIS_ALARM then clear_bits RTAS RTAS_CMPMASK else mret tt);;
  let events := 0 in
  let events := if has rtis RTIS_ALARM then Z.lor events (Z.lor RTC_AF RTC_IRQF) else events in
  let events := if has rtis RTIS_UPDATE then Z.lor events (Z.lor RTC_UF RTC_IRQF) else events in
  (if wmt_rtc then tell (UpdateIrq events) else mret tt);;
  alarm ← gets rtc_alarm;
  if has rtis RTIS_ALARM && rtc_periodic_alarm alarm then wmt_set_alarm alarm;; mret tt else mret tt.

Definition request_irq : R Z :=
  l ← gets irq_answers;
  match l with
  | [] => mret 0
  | r :: l' => modify (with_answers l');; mret r
  end.

Definition wmt_rtc_open : R Z :=
  ret ← request_irq;
  if negb (ret =? 0) then mret ret
  else
    ret ← request_irq;
    if negb (ret =? 0) then tell FreeUpdateIrq;; mret ret else mret 0.

Definition wmt_rtc_release : R unit :=
  clear_bits RTCC RTCC_INTENA;;
  wr RTAS 0;;
  modify (with_rtas 0);;
  tell FreeUpdateIrq;;
  tell FreeAlarmIrq.

Inductive rtc_cmd := RTC_AIE_OFF | RTC_AIE_ON | RTC_UIE_OFF | RTC_UIE_ON | RTC_other.

Definition wmt_rtc_ioctl (cmd : rtc_cmd) : R Z :=
  match cmd with
  | RTC_AIE_OFF =>
      v ← rd RTAS;
      modify (with_rtas v);;
      clear_bits RTAS RTAS_CMPMASK;;
      mret 0
  | RTC_AIE_ON =>
      s ← gets sh_rtas;
      set_bits RTAS (Z.land s RTAS_CMPMASK);;
      mret 0
  | RTC_UIE_OFF => clear_bits RTCC RTCC_INTENA;; mret 0
  | RTC_UIE_ON => set_bits RTCC RTCC_INTENA;; mret 0
  | RTC_other => mret (- EINVAL)
  end.

(** [None] is a null pointer; otherwise the structure as it is left. *)
Definition wmt_rtc_read_time (tm : option rtc_time) : R (Z * option rtc_time) :=
  match tm with
  | None => mret (- EINVAL, None)
  | Some tm =>
      rtct ← rd RTCT;
      rtcd ← rd RTCD;
      modify (with_time rtct rtcd);;
      if has rtct RTCT_INVALID || has rtcd RTCD_INVALID then
        rd RTCD;; rd RTCT;; mret (- EINVAL, Some tm)
      else
        mret (0, Some (MkTm (RTCT_SEC rtct) (RTCT_MIN rtct) (RTCT_HOUR rtct)
          (RTCD_MDAY rtcd) (RTCD_MON rtcd - 1) (RTCD_YEAR rtcd + (RTCD_CENT rtcd * 100 + 100))
          (RTCT_DAY rtct) (tm_yday tm) (tm_isdst tm)))
  end.

Definition time_word (tm : rtc_time) : Z :=
  Z.lor (Z.lor (Z.lor (RTTS_SEC (tm_sec tm)) (RTTS_MIN (tm_min tm))) (RTTS_HOUR (tm_hour tm))) (RTTS_DAY (tm_wday tm)).
Definition date_word (tm : rtc_time) : Z :=
  Z.lor (Z.lor (Z.lor (RTDS_MDAY (tm_mday tm)) (RTDS_MON (tm_mon tm + 1))) (RTDS_YEAR (Z.rem (tm_year tm) 100)))
    (RTDS_CENT (Z.quot (tm_year tm) 100 - 1)).

Definition invalid_time (tm : rtc_time) : bool :=
  (tm_sec tm <? 0) || (59 <? tm_sec tm) || (tm_min tm <? 0) || (59 <? tm_min tm) ||
  (tm_hour tm <? 0) || (23 <? tm_hour tm) || (tm_wday tm <? 0) || (6 <? tm_wday tm) ||
  (tm_mday tm <? 0) || (31 <? tm_mday tm) || (tm_mon tm <? 0) || (11 <? tm_mon tm) || (tm_year tm <? 100).

Definition wmt_rtc_set_time (tm : rtc_time) : R Z :=
  if invalid_time tm then mret (- EINVAL)
  else
    ret ← wmt_set_time (time_word tm);
    if negb (ret =? 0) then mret ret else wmt_set_date (date_word tm).



(** [registered]: what [rtc_device_register] answers, 0 or an error. *)
Definition wmt_rtc_probe (registered : Z) : R Z :=
  m ← rd RTTM;
  (if has m RTTM_ENABLE then c ← rd RTTC; if c =? 0 then wr RTTC RTC_DEF_DIVIDER else mret tt else mret tt);;
  c ← rd RTCC;
  (if negb (has c RTCC_ENA) then
     wr RTAS 0;;
     wr RTTM 0;;
     wr RTCC (Z.lor RTCC_ENA RTCC_INTTYPE);;
     d ← rd RTCD;
     if d =? 0 then
       on_regs (poll RTWS (fun v => negb (has v RTWS_DATESET)));;
       d ← rd RTDS; wr RTDS d
     else mret tt
   else mret tt);;
  tell InitWakeup;;
  if negb (registered =? 0) then mret registered else tell SetDrvdata;; mret 0.

Definition wmt_rtc_remove (wmt_rtc : bool) : R Z :=
  (if wmt_rtc then clear_bits RTCC RTCC_INTENA;; tell Unregister else mret tt);; mret 0.

(** ** Registers that are read back *)

Create HintDb rtc.
Lemma quiet_at a (s : rtc_st) : quiet s -> settled a (regs_of s).
Proof. intros H. apply H. Qed.

#[local] Hint Resolve quiet_put : rtc.
#[local] Hint Unfold RTTS RTDS RTAS RTCC RTCT RTCD RTWS RTTM RTTC RTIS : rtc.

Ltac apart := autounfold with rtc; lia.

(** One access of a quiet register file. *)
Ltac step :=
  match goal with
  | |- context [mbind _ (rd ?a) ?s] => rewrite (bind_ok _ _ _ _ _ (reg_read a s ltac:(apply quiet_at; auto with rtc)))
  | |- context [mbind _ (wr ?a ?v) ?s] => rewrite (bind_ok _ _ _ _ _ (reg_write a v s))
  end.

(** ** Packed fields *)

Definition all_upto (n : Z) (f : Z -> bool) : bool := forallb f (seqZ 0 n).

Lemma all_upto_spec n f x : all_upto n f = true -> 0 <= x < n -> f x = true.
Proof. intros H Hx. apply (proj1 (forallb_forall f (seqZ 0 n)) H), list_elem_of_In, elem_of_seqZ. lia. Qed.

Ltac decided n f :=
  apply Z.eqb_eq; apply (all_upto_spec n f); [vm_compute; reflexivity|lia].

Ltac pick :=
  repeat first
    [ rewrite Z.land_lor_distr_l
    | match goal with |- context [Z.land (Z.land ?x ?m) ?m'] =>
        first [rewrite (land_masked x m m' eq_refl) | rewrite (land_same x m m' eq_refl)] end ];
  rewrite ?Z.lor_0_l, ?Z.lor_0_r.

Lemma sec_field x : 0 <= x < 60 -> RTCT_SEC (RTTS_SEC x) = x.
Proof. intros. decided 60 (fun x => RTCT_SEC (RTTS_SEC x) =? x). Qed.
Lemma min_field x : 0 <= x < 60 -> RTCT_MIN (RTTS_MIN x) = x.
Proof. intros. decided 60 (fun x => RTCT_MIN (RTTS_MIN x) =? x). Qed.
Lemma hour_field x : 0 <= x < 24 -> RTCT_HOUR (RTTS_HOUR x) = x.
Proof. intros. decided 24 (fun x => RTCT_HOUR (RTTS_HOUR x) =? x). Qed.
Lemma wday_field x : 0 <= x < 7 -> RTCT_DAY (RTTS_DAY x) = x.
Proof. intros. decided 7 (fun x => RTCT_DAY (RTTS_DAY x) =? x). Qed.
Lemma mday_field x : 0 <= x < 32 -> RTCD_MDAY (RTDS_MDAY x) = x.
Proof. intros. decided 32 (fun x => RTCD_MDAY (RTDS_MDAY x) =? x). Qed.
Lemma mon_field x : 0 <= x < 13 -> RTCD_MON (RTDS_MON x) = x.
Proof. intros. decided 13 (fun x => RTCD_MON (RTDS_MON x) =? x). Qed.
Lemma year_field x : 0 <= x < 100 -> RTCD_YEAR (RTDS_YEAR x) = x.
Proof. intros. decided 100 (fun x => RTCD_YEAR (RTDS_YEAR x) =? x). Qed.

(** Only the lowest bit of the century is kept. *)
Lemma cent_field x : 0 <= x -> RTCD_CENT (RTDS_CENT x) = x mod 2.
Proof.
  intros Hx. unfold RTDS_CENT, RTCD_CENT. rewrite <- Z.land_assoc, Z.land_diag.
  change (bits 19 19) with (Z.shiftl 1 19). rewrite <- Z.shiftl_land, Z.shiftr_shiftl_l, Z.shiftl_0_r by lia.
  change 1 with (Z.ones 1) at 1. rewrite Z.land_ones by lia. change (2 ^ 1) with 2.
  replace (BIN2BCD x mod 2) with (x mod 2).
  { pose proof (Z.mod_pos_bound x 2 ltac:(lia)). assert (x mod 2 = 0 \/ x mod 2 = 1) as [->| ->] by lia; done. }
  unfold BIN2BCD. rewrite Z.quot_div_nonneg, Z.rem_mod_nonneg, Z.shiftl_mul_pow2 by lia.
  change (2 ^ 4) with 16. pose proof (Z.div_mod x 10 ltac:(lia)). dlia.
Qed.

(** ** Setting and reading the time *)

Lemma valid_bounds tm : invalid_time tm = false ->
  0 <= tm_sec tm < 60 /\ 0 <= tm_min tm < 60 /\ 0 <= tm_hour tm < 24 /\ 0 <= tm_wday tm < 7 /\
  0 <= tm_mday tm < 32 /\ 0 <= tm_mon tm < 12 /\ 100 <= tm_year tm.
Proof. unfold invalid_time. rewrite !orb_false_iff, !Z.ltb_ge. lia. Qed.

(** The fields of the words that are written. *)
Lemma time_fields tm : invalid_time tm = false ->
  let w := u32 (Z.land (time_word tm) RTTS_TIME) in
  RTCT_SEC w = tm_sec tm /\ RTCT_MIN w = tm_min tm /\ RTCT_HOUR w = tm_hour tm /\ RTCT_DAY w = tm_wday tm /\
  has w RTCT_INVALID = false.
Proof.
  intros (Hs & Hm & Hh & Hw & _)%valid_bounds. cbv zeta. rewrite u32_masked by (unfold RTTS_TIME; lia).
  rewrite <- (sec_field _ Hs). rewrite <- (min_field _ Hm). rewrite <- (hour_field _ Hh).
  rewrite <- (wday_field _ Hw).
  unfold RTCT_SEC, RTCT_MIN, RTCT_HOUR, RTCT_DAY, has, time_word, RTTS_SEC, RTTS_MIN, RTTS_HOUR, RTTS_DAY.
  split_and!; by pick.
Qed.

Lemma date_fields tm : invalid_time tm = false ->
  let w := u32 (Z.land (date_word tm) RTDS_DATE) in
  RTCD_MDAY w = tm_mday tm /\ RTCD_MON w = tm_mon tm + 1 /\ RTCD_YEAR w = Z.rem (tm_year tm) 100 /\
  RTCD_CENT w = (Z.quot (tm_year tm) 100 - 1) mod 2 /\ has w RTCD_INVALID = false.
Proof.
  intros (_ & _ & _ & _ & Hd & Hm & Hy)%valid_bounds. cbv zeta. rewrite u32_masked by (unfold RTDS_DATE; lia).
  assert (0 <= Z.rem (tm_year tm) 100 < 100) as Hr by dlia.
  assert (0 <= Z.quot (tm_year tm) 100 - 1) as Hc by dlia.
  rewrite <- (mday_field _ Hd). rewrite <- (mon_field (tm_mon tm + 1) ltac:(lia)).
  rewrite <- (year_field _ Hr). rewrite <- (cent_field _ Hc).
  unfold RTCD_MDAY, RTCD_MON, RTCD_YEAR, RTCD_CENT, has, date_word, RTDS_MDAY, RTDS_MON, RTDS_YEAR, RTDS_CENT.
  split_and!; by pick.
Qed.

Lemma set_time_run tm s : quiet s -> invalid_time tm = false ->
  has (reg s RTWS) RTWS_TIMESET = false ->
  let s1 := put_reg RTTS (Z.land (time_word tm) RTTS_TIME) s in
  wmt_rtc_set_time tm s =
    if has (reg s RTWS) RTWS_DATESET then Ok (- EBUSY, s1)
    else Ok (0, put_reg RTDS (Z.land (date_word tm) RTDS_DATE) s1).
Proof.
  intros Hq Hv Ht s1. unfold wmt_rtc_set_time. rewrite Hv. rewrite (bind_ok _ _ _ 0 s1).
  - cbn [Z.eqb negb]. unfold wmt_set_date. step.
    replace (reg s1 RTWS) with (reg s RTWS) by (symmetry; apply reg_put_ne; apart).
    by destruct (has (reg s RTWS) RTWS_DATESET).
  - unfold wmt_set_time. step. rewrite Ht. cbn [negb]. by step.
Qed.

(** The ranges the comments of the code give for the fields of a time. *)
Record documented (tm : rtc_time) : Prop := {
  doc_sec : 0 <= tm_sec tm <= 59; doc_min : 0 <= tm_min tm <= 59; doc_hour : 0 <= tm_hour tm <= 23;
  doc_wday : 0 <= tm_wday tm <= 6; doc_mday : 1 <= tm_mday tm <= 31; doc_mon : 0 <= tm_mon tm <= 11;
  doc_year : 100 <= tm_year tm;
}.

Lemma documented_valid tm : documented tm -> invalid_time tm = false.
Proof. intros []. unfold invalid_time. rewrite !orb_false_iff, !Z.ltb_ge. lia. Qed.

(** [C30] The time that is set is the time that is read: with every field in the
    range its comment in the code gives (the day of the month from 1 to 31), with
    neither set register busy and no register changed by the hardware meanwhile,
    [wmt_rtc_set_time] answers 0, and once the clock shows what was set,
    [wmt_rtc_read_time] answers the same second, minute, hour, day and month.  The
    year is the same up to 2199; the register has one bit for the century, so that
    later years come back in 2000 to 2199. *)
Theorem rtc_time_roundtrip (tm tm0 : rtc_time) (s : rtc_st) :
  quiet s -> documented tm ->
  has (reg s RTWS) RTWS_TIMESET = false -> has (reg s RTWS) RTWS_DATESET = false ->
  exists s', wmt_rtc_set_time tm s = Ok (0, s') /\
    forall t, quiet t -> reg t RTCT = reg s' RTTS -> reg t RTCD = reg s' RTDS ->
      exists t', wmt_rtc_read_time (Some tm0) t = Ok ((0, Some (MkTm (tm_sec tm) (tm_min tm) (tm_hour tm) (tm_mday tm)
        (tm_mon tm) (100 + (tm_year tm - 100) mod 200) (tm_wday tm) (tm_yday tm0) (tm_isdst tm0))), t') /\
      (tm_year tm < 300 -> 100 + (tm_year tm - 100) mod 200 = tm_year tm).
Proof.
  intros Hq Hv%documented_valid Ht Hd. eexists. split; [by rewrite (set_time_run tm s Hq Hv Ht), Hd|].
  intros t Hqt. rewrite reg_put, reg_put_ne, reg_put by apart. intros H1 H2.
  destruct (time_fields tm Hv) as (F1 & F2 & F3 & F4 & F5). destruct (date_fields tm Hv) as (G1 & G2 & G3 & G4 & G5).
  cbv zeta in *. pose proof (valid_bounds tm Hv) as (_ & _ & _ & _ & _ & _ & Hy).
  unfold wmt_rtc_read_time. step. step. rewrite (bind_ok _ _ _ tt (with_time (reg t RTCT) (reg t RTCD) t)) by reflexivity.
  rewrite H1, H2, F5, G5. cbn [orb]. rewrite F1, F2, F3, F4, G1, G2, G3, G4. eexists. split.
  - rewrite Z.add_simpl_r. replace (Z.rem (tm_year tm) 100 + ((Z.quot (tm_year tm) 100 - 1) mod 2 * 100 + 100))
      with (100 + (tm_year tm - 100) mod 200) by dlia. reflexivity.
  - intros H. rewrite Z.mod_small; lia.
Qed.

(** Day 0 of a month is taken for valid and set. *)
Lemma rtc_sets_day_zero (tm : rtc_time) (s : rtc_st) :
  quiet s -> invalid_time tm = false -> tm_mday tm = 0 ->
  has (reg s RTWS) RTWS_TIMESET = false -> has (reg s RTWS) RTWS_DATESET = false ->
  exists s', wmt_rtc_set_time tm s = Ok (0, s') /\ RTCD_MDAY (reg s' RTDS) = 0.
Proof.
  intros Hq Hv H0 Ht Hd. eexists. split; [by rewrite (set_time_run tm s Hq Hv Ht), Hd|].
  rewrite reg_put. destruct (date_fields tm Hv) as (G1 & _). cbv zeta in G1. by rewrite G1.
Qed.

(** Every way [wmt_rtc_set_time] can fail: a field out of range or a busy
    time register changes nothing.  A busy date register is noticed after the
    time has been written, so the call answers [EBUSY] and leaves the new time
    with the old date. *)
Theorem rtc_set_time_fails (tm : rtc_time) (s : rtc_st) :
  quiet s ->
  (invalid_time tm = true -> wmt_rtc_set_time tm s = Ok (- EINVAL, s)) /\
  (invalid_time tm = false -> has (reg s RTWS) RTWS_TIMESET = true -> wmt_rtc_set_time tm s = Ok (- EBUSY, s)) /\
  (invalid_time tm = false -> has (reg s RTWS) RTWS_TIMESET = false -> has (reg s RTWS) RTWS_DATESET = true ->
     exists s', wmt_rtc_set_time tm s = Ok (- EBUSY, s') /\
       RTCT_SEC (reg s' RTTS) = tm_sec tm /\ RTCT_MIN (reg s' RTTS) = tm_min tm /\ RTCT_HOUR (reg s' RTTS) = tm_hour tm /\
       reg s' RTDS = reg s RTDS).
Proof.
  intros Hq. split; [|split].
  - intros H. unfold wmt_rtc_set_time. by rewrite H.
  - intros H Ht. unfold wmt_rtc_set_time. rewrite H. rewrite (bind_ok _ _ _ (- EBUSY) s); [done|].
    unfold wmt_set_time. step. by rewrite Ht.
  - intros H Ht Hd. eexists. split; [by rewrite (set_time_run tm s Hq H Ht), Hd|].
    rewrite reg_put. destruct (time_fields tm H) as (F1 & F2 & F3 & _). split_and!; try done. apply reg_put_ne. apart.
Qed.

(** ** The alarm *)

Definition sec_ok (t : rtc_time) : bool := (0 <=? tm_sec t) && (tm_sec t <? 60).
Definition min_ok (t : rtc_time) : bool := (0 <=? tm_min t) && (tm_min t <? 60).
Definition hour_ok (t : rtc_time) : bool := (0 <=? tm_hour t) && (tm_hour t <? 24).
Definition mday_ok (t : rtc_time) : bool := (0 <? tm_mday t) && (tm_mday t <=? 31).



(** The alarm word as a combination of parts that do not overlap. *)
Definition part (b : bool) (v m : Z) : Z := if b then Z.lor v m else 0.

Lemma alarm_parts t : alarm_value t =
  Z.lor (Z.lor (Z.lor (part (sec_ok t) (RTAS_SEC (tm_sec t)) RTAS_CMPSEC) (part (min_ok t) (RTAS_MIN (tm_min t)) RTAS_CMPMIN))
    (part (hour_ok t) (RTAS_HOUR (tm_hour t)) RTAS_CMPHOUR)) (part (mday_ok t) (RTAS_DAY (tm_mday t)) RTAS_CMPDAY).
Proof.
  unfold alarm_value, part, sec_ok, min_ok, hour_ok, mday_ok.
  destruct (_ && _), (_ && _), (_ && _), (_ && _); rewrite ?Z.lor_0_l, ?Z.lor_0_r, ?Z.lor_assoc; done.
Qed.

(** A part seen through a mask: only the part with that field counts. *)
Lemma part_land b x m c m' : Z.land (part b (Z.land x m) c) m' =
  if b then Z.lor (Z.land x (Z.land m m')) (Z.land c m') else 0.
Proof. unfold part. destruct b; [|done]. by rewrite Z.land_lor_distr_l, Z.land_assoc. Qed.

Lemma through m t : Z.land (alarm_value t) m =
  Z.lor (Z.lor (Z.lor
    (if sec_ok t then Z.lor (Z.land (Z.shiftl (BIN2BCD (tm_sec t)) 0) (Z.land (bits 0 6) m)) (Z.land RTAS_CMPSEC m) else 0)
    (if min_ok t then Z.lor (Z.land (Z.shiftl (BIN2BCD (tm_min t)) 7) (Z.land (bits 7 13) m)) (Z.land RTAS_CMPMIN m) else 0))
    (if hour_ok t then Z.lor (Z.land (Z.shiftl (BIN2BCD (tm_hour t)) 14) (Z.land (bits 14 19) m)) (Z.land RTAS_CMPHOUR m) else 0))
    (if mday_ok t then Z.lor (Z.land (Z.shiftl (BIN2BCD (tm_mday t)) 20) (Z.land (bits 20 25) m)) (Z.land RTAS_CMPDAY m) else 0).
Proof. rewrite alarm_parts, !Z.land_lor_distr_l. unfold RTAS_SEC, RTAS_MIN, RTAS_HOUR, RTAS_DAY. by rewrite !part_land. Qed.

(** [through] at a mask that is a constant. *)
Ltac see m := rewrite (through m);
  repeat match goal with |- context [Z.land ?c m] => let v := eval vm_compute in (Z.land c m) in
    progress change (Z.land c m) with v end;
  rewrite ?Z.land_0_r, ?Z.lor_0_r; cbn [Z.lor].

Lemma alarm_compare t :
  has (alarm_value t) RTAS_CMPSEC = sec_ok t /\ has (alarm_value t) RTAS_CMPMIN = min_ok t /\
  has (alarm_value t) RTAS_CMPHOUR = hour_ok t /\ has (alarm_value t) RTAS_CMPDAY = mday_ok t.
Proof.
  unfold has. split_and!; [see RTAS_CMPSEC|see RTAS_CMPMIN|see RTAS_CMPHOUR|see RTAS_CMPDAY];
    by destruct (sec_ok t), (min_ok t), (hour_ok t), (mday_ok t).
Qed.


Lemma alarm_word t : u32 (alarm_value t) = alarm_value t.
Proof.
  apply u32_small. rewrite alarm_parts.
  assert (forall b x m c, 0 <= m < 2 ^ 32 -> 0 <= c < 2 ^ 32 -> 0 <= part b (Z.land x m) c < 2 ^ 32) as P.
  { intros b x m c Hm Hc. unfold part. destruct b; [|lia]. apply lor_below; try lia.
    rewrite <- (u32_masked x m Hm). apply Z.mod_pos_bound. lia. }
  unfold RTAS_SEC, RTAS_MIN, RTAS_HOUR, RTAS_DAY.
  repeat apply lor_below; try lia; apply P; vm_compute; split; congruence.
Qed.

(** An alarm with a field to compare has a word that is not 0. *)
Definition compares (t : rtc_time) : bool := sec_ok t || min_ok t || hour_ok t || mday_ok t.

Lemma compares_spec t : (alarm_value t =? 0) = negb (compares t).
Proof.
  destruct (alarm_compare t) as (C1 & C2 & C3 & C4). unfold compares.
  destruct (Z.eqb_spec (alarm_value t) 0) as [E|E].
  - rewrite E in *. by rewrite <- C1, <- C2, <- C3, <- C4.
  - rewrite alarm_parts in E. destruct (sec_ok t), (min_ok t), (hour_ok t), (mday_ok t); try done.
Qed.

Lemma set_alarm_run t s : quiet s -> wmt_set_alarm t s =
  if negb (compares t) then Ok (0, s)
  else if has (reg s RTWS) RTWS_ALARMSET then Ok (- EBUSY, s) else Ok (0, put_reg RTAS (alarm_value t) s).
Proof.
  intros Hq. unfold wmt_set_alarm. rewrite compares_spec. destruct (negb _); [done|].
  step. by destruct (has (reg s RTWS) RTWS_ALARMSET).
Qed.


(** What the interrupt leaves in the alarm register. *)
Definition rtas_after (s : rtc_st) : Z :=
  if has (reg s RTIS) RTIS_ALARM then
    if rtc_periodic_alarm (rtc_alarm s) && compares (rtc_alarm s) && negb (has (reg s RTWS) RTWS_ALARMSET)
    then alarm_value (rtc_alarm s) else u32 (Z.land (reg s RTAS) (Z.lnot RTAS_CMPMASK))
  else reg s RTAS.

Definition events_of (rtis : Z) : Z :=
  Z.lor (if has rtis RTIS_ALARM then Z.lor RTC_AF RTC_IRQF else 0) (if has rtis RTIS_UPDATE then Z.lor RTC_UF RTC_IRQF else 0).

(** Is the alarm armed again? *)
Definition armed_again (s : rtc_st) : bool :=
  rtc_periodic_alarm (rtc_alarm s) && compares (rtc_alarm s) && negb (has (reg s RTWS) RTWS_ALARMSET).

(** The writes of the interrupt handler, in order: the status it read back to the
    status register, which acknowledges it, then the alarm register. *)
Definition irq_writes (s : rtc_st) : list event :=
  W32 RTIS (u32 (reg s RTIS)) ::
  if has (reg s RTIS) RTIS_ALARM
  then W32 RTAS (u32 (Z.land (reg s RTAS) (Z.lnot RTAS_CMPMASK))) ::
       (if armed_again s then [W32 RTAS (u32 (alarm_value (rtc_alarm s)))] else [])
  else [].

(** What a run leaves: the alarm register, the writes it made and the notes. *)
Definition leaves (m : R unit) (s : rtc_st) (rtas : Z) (writes : list event) (told : list note) : Prop :=
  exists s', m s = Ok (tt, s') /\ reg s' RTAS = rtas /\
    trace (rtc_hw s') = trace (rtc_hw s) ++ writes /\ notes s' = notes s ++ told.

Lemma trace_put a v (s : rtc_st) : trace (rtc_hw (put_reg a v s)) = trace (rtc_hw s) ++ [W32 a (u32 v)].
Proof. done. Qed.

(** The last step of the interrupt: a periodic alarm is set again. *)
Lemma rearm_run (al : rtc_time) (again : bool) (s : rtc_st) : quiet s ->
  let set := again && compares al && negb (has (reg s RTWS) RTWS_ALARMSET) in
  exists s', (if again then wmt_set_alarm al;; mret tt else mret tt) s = Ok (tt, s') /\
    reg s' RTAS = (if set then alarm_value al else reg s RTAS) /\
    trace (rtc_hw s') = trace (rtc_hw s) ++ (if set then [W32 RTAS (u32 (alarm_value al))] else []) /\ notes s' = notes s.
Proof.
  intros Hq set. unfold set. destruct again; [|exists s; by rewrite app_nil_r].
  pose proof (set_alarm_run al s Hq) as H. destruct (compares al), (has (reg s RTWS) RTWS_ALARMSET); cbn [negb andb] in *;
    rewrite (bind_ok _ _ _ _ _ H); eexists; (split; [reflexivity|]); rewrite ?app_nil_r; try done.
  split_and!; [by rewrite reg_put, alarm_word|done|done].
Qed.

(** [C35] The interrupt handler, with no register changed by the hardware meanwhile.
    Its first write puts the status it read back into the status register, which
    acknowledges it, and there is no other write to that register.  It passes on the
    events the status stands for (to a device that is there).  After an alarm it
    clears every compare bit, so that the alarm goes off once; only a periodic alarm,
    one with a field out of range, is armed again, if its register may be written.
    These are all its writes, in that order. *)
Theorem rtc_interrupt_run (wmt_rtc : bool) (s : rtc_st) :
  quiet s ->
  leaves (wmt_rtc_interrupt wmt_rtc) s (rtas_after s) (irq_writes s)
    (if wmt_rtc then [UpdateIrq (events_of (reg s RTIS))] else []).
Proof.
  intros Hq. unfold leaves, wmt_rtc_interrupt, rtas_after, irq_writes, armed_again. step. step.
  set (v := reg s RTIS). set (s1 := put_reg RTIS v s). assert (quiet s1) as Hq1 by (by apply quiet_put).
  set (s2 := if has v RTIS_ALARM then put_reg RTAS (Z.land (reg s1 RTAS) (Z.lnot RTAS_CMPMASK)) s1 else s1).
  rewrite (bind_ok _ _ _ tt s2) by (unfold s2; destruct (has v RTIS_ALARM); [by apply clear_run|done]).
  match goal with |- context [tell (UpdateIrq ?e)] => replace e with (events_of v)
    by (unfold events_of; destruct (has v RTIS_ALARM), (has v RTIS_UPDATE); done) end.
  assert (reg s1 RTAS = reg s RTAS) as E0 by (unfold s1; by rewrite reg_put_ne by apart).
  assert (reg s2 RTWS = reg s RTWS /\ trace (rtc_hw s2) = trace (rtc_hw s) ++ W32 RTIS (u32 v) ::
      (if has v RTIS_ALARM then [W32 RTAS (u32 (Z.land (reg s RTAS) (Z.lnot RTAS_CMPMASK)))] else []) /\
    notes s2 = notes s /\ rtc_alarm s2 = rtc_alarm s /\ quiet s2 /\
    reg s2 RTAS = if has v RTIS_ALARM then u32 (Z.land (reg s RTAS) (Z.lnot RTAS_CMPMASK)) else reg s RTAS) as (E1 & E2 & E3 & E4 & Hq2 & E5).
  { unfold s2. rewrite E0. unfold s1. destruct (has v RTIS_ALARM); rewrite ?trace_put, <- ?app_assoc, ?reg_put, ?reg_put_ne by apart;
      split_and!; try done; auto with rtc. }
  set (s3 := if wmt_rtc then MkRtc (rtc_hw s2) (sh_rtct s2) (sh_rtcd s2) (sh_rtas s2) (rtc_alarm s2) (irq_answers s2)
    (notes s2 ++ [UpdateIrq (events_of v)]) else s2).
  rewrite (bind_ok _ _ _ tt s3) by (unfold s3; by destruct wmt_rtc).
  assert (rtc_hw s3 = rtc_hw s2 /\ rtc_alarm s3 = rtc_alarm s) as [Hh Ha] by (unfold s3; by destruct wmt_rtc).
  assert (forall a, reg s3 a = reg s2 a) as Hr by (intros a; unfold reg; cbn [regs_of rtc_regs]; by rewrite Hh).
  rewrite (bind_ok _ _ _ (rtc_alarm s) s3) by (unfold gets; by rewrite Ha).
  destruct (rearm_run (rtc_alarm s) (has v RTIS_ALARM && rtc_periodic_alarm (rtc_alarm s)) s3) as (s' & R1 & R2 & R3 & R4).
  { intros a. unfold settled. cbn [regs_of rtc_regs]. rewrite Hh. apply (Hq2 a). }
  exists s'. split; [exact R1|]. rewrite R2, R3, R4, !Hr, Hh, E1, E2, E5. split_and!.
  - destruct (has v RTIS_ALARM); [|done]. done.
  - rewrite <- app_assoc. f_equal. destruct (has v RTIS_ALARM); done.
  - unfold s3. destruct wmt_rtc; cbn [notes]; rewrite E3, ?app_nil_r; done.
Qed.

(** ** Switching the alarm interrupt *)

Lemma aie_off_run s : quiet s -> exists s1, wmt_rtc_ioctl RTC_AIE_OFF s = Ok (0, s1) /\ quiet s1 /\
  sh_rtas s1 = reg s RTAS /\ reg s1 RTAS = u32 (Z.land (reg s RTAS) (Z.lnot RTAS_CMPMASK)).
Proof.
  intros Hq. unfold wmt_rtc_ioctl. step. rewrite (bind_ok _ _ _ tt (with_rtas (reg s RTAS) s)) by reflexivity.
  assert (quiet (with_rtas (reg s RTAS) s)) as Hq' by apply Hq.
  rewrite (bind_ok _ _ _ _ _ (clear_run RTAS RTAS_CMPMASK _ (Hq' _))). eexists. split; [reflexivity|].
  split; [by apply quiet_put|]. split; [done|]. by rewrite reg_put.
Qed.

Lemma aie_on_run s : quiet s -> exists s1, wmt_rtc_ioctl RTC_AIE_ON s = Ok (0, s1) /\
  reg s1 RTAS = u32 (Z.lor (reg s RTAS) (Z.land (sh_rtas s) RTAS_CMPMASK)).
Proof.
  intros Hq. unfold wmt_rtc_ioctl. rewrite (bind_ok _ _ _ (sh_rtas s) s) by reflexivity.
  rewrite (bind_ok _ _ _ _ _ (set_run RTAS _ s (Hq _))). eexists. split; [reflexivity|]. by rewrite reg_put.
Qed.

(** Disabling the alarm interrupt and enabling it again gives back the alarm
    register as it was.  Disabling it twice loses it: the second call saves the
    register after its compare bits are cleared, and enabling leaves the alarm
    off. *)
Theorem rtc_aie_off_on (s : rtc_st) :
  quiet s -> bytes_ok (mem (rtc_hw s)) ->
  (exists s1 s2, wmt_rtc_ioctl RTC_AIE_OFF s = Ok (0, s1) /\ wmt_rtc_ioctl RTC_AIE_ON s1 = Ok (0, s2) /\
     Z.land (reg s1 RTAS) RTAS_CMPMASK = 0 /\ reg s2 RTAS = reg s RTAS) /\
  (exists s1 s2 s3, wmt_rtc_ioctl RTC_AIE_OFF s = Ok (0, s1) /\ wmt_rtc_ioctl RTC_AIE_OFF s1 = Ok (0, s2) /\
     wmt_rtc_ioctl RTC_AIE_ON s2 = Ok (0, s3) /\ Z.land (reg s3 RTAS) RTAS_CMPMASK = 0).
Proof.
  intros Hq Hb. assert (0 <= reg s RTAS < 2 ^ 32) as Hv by (by apply word_at_bound).
  destruct (aie_off_run s Hq) as (s1 & R1 & Hq1 & S1 & A1).
  destruct (mask_split (reg s RTAS) RTAS_CMPMASK Hv ltac:(by vm_compute)) as [M1 M2]. rewrite M1 in A1.
  assert (forall x, Z.land (Z.land x (Z.lnot RTAS_CMPMASK)) RTAS_CMPMASK = 0) as Hc
    by (intros x; rewrite <- Z.land_assoc; by rewrite Z.land_0_r).
  split.
  - destruct (aie_on_run s1 Hq1) as (s2 & R2 & A2). exists s1, s2. rewrite A1, A2, A1, S1, M2, u32_small by done. by rewrite Hc.
  - destruct (aie_off_run s1 Hq1) as (s2 & R2 & Hq2 & S2 & A2). destruct (aie_on_run s2 Hq2) as (s3 & R3 & A3).
    exists s1, s2, s3. split_and!; try done. rewrite A3, A2, S2, A1, Hc, Z.lor_0_r.
    rewrite <- Z.land_assoc, Z.land_diag, M1, M1. apply Hc.
Qed.

(** [wmt_rtc_open] leaves both interrupts requested or, if either request
    is refused, none, and answers what the request answered. *)
Lemma rtc_open_all_or_nothing (r1 r2 : Z) (l : list Z) (s : rtc_st) :
  irq_answers s = r1 :: r2 :: l ->
  wmt_rtc_open s =
    if negb (r1 =? 0) then Ok (r1, with_answers (r2 :: l) s)
    else if negb (r2 =? 0) then Ok (r2, MkRtc (rtc_hw s) (sh_rtct s) (sh_rtcd s) (sh_rtas s) (rtc_alarm s) l
      (notes s ++ [FreeUpdateIrq]))
    else Ok (0, with_answers l s).
Proof.
  intros H. unfold wmt_rtc_open, request_irq. unfold mbind, M_bind, gets, modify. rewrite H. cbn.
  destruct (r1 =? 0); cbn; [|done]. by destruct (r2 =? 0).
Qed.

(** ** Probing *)

(** [wmt_rtc_probe] leaves a clock that runs.  One that was off has its alarm
    and its test mode off, and no update interrupt. *)
Lemma rtc_probe_enables (registered : Z) (s : rtc_st) :
  quiet s -> has (reg s RTWS) RTWS_DATESET = false ->
  exists s', wmt_rtc_probe registered s = Ok (registered, s') /\ has (reg s' RTCC) RTCC_ENA = true /\
    (has (reg s RTCC) RTCC_ENA = false -> reg s' RTAS = 0 /\ reg s' RTTM = 0 /\ has (reg s' RTCC) RTCC_INTENA = false).
Proof.
  intros Hq Hd. unfold wmt_rtc_probe. step.
  set (s1 := if has (reg s RTTM) RTTM_ENABLE && (reg s RTTC =? 0) then put_reg RTTC RTC_DEF_DIVIDER s else s).
  rewrite (bind_ok _ _ _ tt s1) by (unfold s1; destruct (has (reg s RTTM) RTTM_ENABLE); [step; by destruct (reg s RTTC =? 0)|done]).
  assert (quiet s1) as Hq1 by (unfold s1; destruct (_ && _); auto with rtc).
  assert (reg s1 RTCC = reg s RTCC /\ reg s1 RTWS = reg s RTWS) as [E1 E2] by (split; apply reg_put_if; apart).
  step. rewrite E1. destruct (has (reg s RTCC) RTCC_ENA) eqn:Hc; cbn [negb].
  - rewrite (bind_ok _ _ _ tt s1) by reflexivity. destruct (Z.eqb_spec registered 0) as [->|];
      eexists; (split; [reflexivity|]); (split; [|done]); change (has (reg s1 RTCC) RTCC_ENA = true); by rewrite E1.
  - set (s2 := put_reg RTCC (Z.lor RTCC_ENA RTCC_INTTYPE) (put_reg RTTM 0 (put_reg RTAS 0 s1))).
    assert (quiet s2) as Hq2 by (unfold s2; auto with rtc).
    set (s3 := if reg s2 RTCD =? 0 then put_reg RTDS (reg s2 RTDS) s2 else s2).
    rewrite (bind_ok _ _ _ tt s3).
    + assert (reg s3 RTCC = reg s2 RTCC /\ reg s3 RTAS = reg s2 RTAS /\ reg s3 RTTM = reg s2 RTTM) as (F1 & F2 & F3)
        by (split_and!; apply reg_put_if; apart).
      assert (reg s2 RTCC = Z.lor RTCC_ENA RTCC_INTTYPE /\ reg s2 RTTM = 0 /\ reg s2 RTAS = 0) as (G1 & G2 & G3)
        by (unfold s2; split_and!; rewrite ?reg_put_ne, ?reg_put by apart; rewrite ?reg_put_ne, ?reg_put by apart; reflexivity).
      destruct (Z.eqb_spec registered 0) as [->|]; eexists; (split; [reflexivity|]);
        change (has (reg s3 RTCC) RTCC_ENA = true /\ (false = false -> reg s3 RTAS = 0 /\ reg s3 RTTM = 0 /\ has (reg s3 RTCC) RTCC_INTENA = false));
        by rewrite F1, F2, F3, G1, G2, G3.
    + do 3 step. fold s2. step. unfold s3. destruct (reg s2 RTCD =? 0); [|done].
      assert (has (reg s2 RTWS) RTWS_DATESET = false) as Hd2 by (unfold s2; rewrite !reg_put_ne by apart; by rewrite E2).
      rewrite (bind_ok _ _ _ tt s2) by (apply poll_quiet; [apply Hq2|by rewrite Hd2]). by step.
Qed.

(** ** Witnesses *)

Definition calm : rtc_st := MkRtc (mk_hw ∅ ∅ []) 0 0 0 (MkTm 0 0 0 1 0 100 0 0 0) [] [].
Lemma calm_quiet : quiet calm.
Proof. intros a. unfold settled. cbn. by rewrite lookup_empty. Qed.

(** 21:30:59 on Thursday the 31st of December 2099. *)
Definition eve : rtc_time := MkTm 59 30 21 31 11 199 4 0 0.
Lemma eve_documented : documented eve.
Proof. split; cbn; lia. Qed.

(** The clock shows what the two set registers of [s] have. *)
Definition showing (s : rtc_st) : rtc_st := put_reg RTCD (reg s RTDS) (put_reg RTCT (reg s RTTS) calm).

(** The state a run ends in. *)
Definition final {A} (m : R A) (s : rtc_st) : rtc_st := match m s with Ok (_, s') => s' | Fault _ => s end.

(** Witness of [rtc_time_roundtrip]. *)
Lemma rtc_time_roundtrip_witness :
  exists s' t', wmt_rtc_set_time eve calm = Ok (0, s') /\ wmt_rtc_read_time (Some eve) (showing s') = Ok ((0, Some eve), t').
Proof.
  destruct (rtc_time_roundtrip eve eve calm calm_quiet eve_documented eq_refl eq_refl) as (s' & H & K).
  assert (s' = final (wmt_rtc_set_time eve) calm) as E by (unfold final; by rewrite H).
  destruct (K (showing s')) as (t' & R & _); [|by rewrite E; vm_compute..|by exists s', t'].
  unfold showing. auto using quiet_put, calm_quiet.
Defined.

(** Witness of [rtc_set_time_fails]: a state with the date register busy. *)
Lemma rtc_set_time_fails_witness :
  let s := put_reg RTWS RTWS_DATESET calm in
  exists s', wmt_rtc_set_time eve s = Ok (- EBUSY, s') /\ RTCT_SEC (reg s' RTTS) = 59 /\ reg s' RTDS = 0.
Proof.
  intros s. destruct (rtc_set_time_fails eve s (quiet_put _ _ _ calm_quiet)) as (_ & _ & H).
  destruct (H eq_refl ltac:(by vm_compute) ltac:(by vm_compute)) as (s' & R & E1 & _ & _ & E2). by exists s'.
Defined.


(** Witness of [rtc_interrupt_run]: an alarm of every day goes off and is set again. *)
Lemma rtc_interrupt_run_witness :
  let s := put_reg RTIS RTIS_ALARM (with_alarm (MkTm (-1) 30 6 0 0 0 0 0 0) calm) in
  leaves (wmt_rtc_interrupt true) s 0x18019800 [W32 RTIS RTIS_ALARM; W32 RTAS 0; W32 RTAS 0x18019800] [UpdateIrq 0xA0].
Proof. intros s. exact (rtc_interrupt_run true s (quiet_put _ _ _ calm_quiet)). Defined.

(** Witness of [rtc_aie_off_on]. *)
Lemma rtc_aie_off_on_witness :
  let s := put_reg RTAS 0x18019800 calm in
  exists s1 s2, wmt_rtc_ioctl RTC_AIE_OFF s = Ok (0, s1) /\ wmt_rtc_ioctl RTC_AIE_ON s1 = Ok (0, s2) /\
    Z.land (reg s1 RTAS) RTAS_CMPMASK = 0 /\ reg s2 RTAS = 0x18019800.
Proof.
  intros s. exact (proj1 (rtc_aie_off_on s (quiet_put _ _ _ calm_quiet)
    (store32_ok _ _ _ ltac:(intros a v H; by rewrite lookup_empty in H)))).
Defined.
