(* ===== verification/Dma.v ===== *)
(** * The DMA controller

    [arch/arm/mach-wmt/dma.c] with [mach/dma.h]: sixteen channels, each with a ring
    of transfer descriptors in memory that the engine follows, and a control
    register.

    Registers are words of [Mmio] inside the state of the clock manager, whose
    gate the driver opens at start-up.  [dma_st] adds the channels, the table of
    devices, the memory blocks [dma_alloc_coherent] has given out (by their
    kernel address, 256 words each) with the bus address of each, the addresses it
    will give, the lock
    [dma_list_lock], and what the driver tells others.  A descriptor is stored
    through a checked index, so that a store outside its block is [Undefined].
    The parts of the local [descript_attr] that [add_descript] may read before it
    sets them are arguments of the model.  Messages, [udelay], memory barriers and
    disabling interrupts are not modelled. *)

From S2P Require Import Prelude Mmio Regs Clock.
From stdpp Require Import list.
#[local] Open Scope Z_scope.

(** ** Constants *)

Definition MAX_DMA_CHANNELS : Z := 16.
Definition SIZE_1B : Z := 0x1.
Definition SIZE_1KB : Z := 0x400.
Definition SIZE_4KB : Z := 0x1000.
Definition SIZE_16KB : Z := 0x4000.
Definition SIZE_32KB : Z := 0x8000.
Definition SIZE_64KB : Z := 0x10000.
Definition MAX_DESCRIPT_SIZE : Z := SIZE_1KB.

Definition DMA_SW_RST : Z := BIT 8.
Definition DMA_GLOBAL_EN : Z := BIT 0.
Definition ALL_INT_EN : Z := 0xFFFF.
Definition ALL_INT_CLEAR : Z := 0xFFFF.
Definition SCHEDULE_RR_DISABLE : Z := BIT 0.
Definition DMA_REQ_ID_SHIFT : Z := 16.
Definition SYSTEM_DMA_RUN : Z := BIT 7.
Definition DMA_WAKE : Z := BIT 6.
Definition DMA_ACTIVE : Z := BIT 4.
Definition DMA_USER_SET_MASK : Z := 0xFFFE0000.
Definition SYSTEM_DMA_REQ_EN : Z := BIT 11.
Definition DMA_EVT_ID_MASK : Z := 0xF.
Definition DMA_EVT_NO_STATUS : Z := 0.
Definition DMA_EVT_SUCCESS : Z := 15.
Definition DMA_UP_MEMREG_EN : Z := BIT 5.
Definition DMA_DES_END : Z := BIT 31.
Definition DMA_FORMAT_DES1 : Z := BIT 30.
Definition DMA_INTEN_DES : Z := BIT 29.
Definition DMA_DES0_SIZE : Z := 0x8.
Definition DMA_DES1_SIZE : Z := 0x10.
Definition DMA_DES_REQCNT_MASK : Z := 0xFFFF.
Definition DEVICE_TO_MEM : Z := BIT 22.

Definition UART_TX_DMA_CFG : Z := 0.
Definition UART_RX_DMA_CFG : Z := DEVICE_TO_MEM.
Definition PCM_TX_DMA_CFG : Z := Z.lor (BIT 29) (BIT 26).
Definition PCM_RX_DMA_CFG : Z := Z.lor (Z.lor (BIT 29) (BIT 26)) DEVICE_TO_MEM.
Definition I2S_TX_DMA_CFG : Z := Z.lor (BIT 29) (BIT 27).
Definition I2S_RX_DMA_CFG : Z := Z.lor (Z.lor (BIT 29) (BIT 27)) DEVICE_TO_MEM.

Definition ENODEV : Z := 19.
Definition EBUSY : Z := 16.
Definition EINVAL : Z := 22.
Definition EOVERFLOW : Z := 75.

(** The devices of [enum dma_device_e] that the code names. *)
Definition MEMORY_DMA_REQ : Z := 32.
Definition DEVICE_RESERVED : Z := 33.

(** ** Registers *)

Definition DMA_CTRL_CFG_BASE_ADDR : Z := 0xD8001800 + (0xFE000000 - 0xD8000000).
Definition DMA_MEM_REG_OFFSET : Z := 0x100.
Definition DMA_GCR : Z := DMA_CTRL_CFG_BASE_ADDR + 0x40.
Definition DMA_MRPR : Z := DMA_CTRL_CFG_BASE_ADDR + 0x44.
Definition DMA_IER : Z := DMA_CTRL_CFG_BASE_ADDR + 0x48.
Definition DMA_ISR : Z := DMA_CTRL_CFG_BASE_ADDR + 0x4C.
Definition DMA_TMR : Z := DMA_CTRL_CFG_BASE_ADDR + 0x50.
Definition DMA_CCR_CH (ch : Z) : Z := DMA_CTRL_CFG_BASE_ADDR + 0x80 + 4 * ch.

(** The memory registers of a channel, eight words each. *)
Definition mem_reg_group (ch : Z) : Z := DMA_CTRL_CFG_BASE_ADDR + DMA_MEM_REG_OFFSET + 32 * ch.
Definition DMA_IF0RBR_CH (ch : Z) : Z := mem_reg_group ch + 0.
Definition DMA_IF0DAR_CH (ch : Z) : Z := mem_reg_group ch + 4.
Definition DMA_IF0BAR_CH (ch : Z) : Z := mem_reg_group ch + 8.
Definition DMA_IF0CPR_CH (ch : Z) : Z := mem_reg_group ch + 12.
Definition DMA_IF1RBR_CH (ch : Z) : Z := mem_reg_group ch + 16.
Definition DMA_IF1DAR_CH (ch : Z) : Z := mem_reg_group ch + 20.
Definition DMA_IF1BAR_CH (ch : Z) : Z := mem_reg_group ch + 24.
Definition DMA_IF1CPR_CH (ch : Z) : Z := mem_reg_group ch + 28.

(** The OS timer. *)
Definition OSCR_ADDR : Z := PMC_BASE + 0x110.
Definition OSTC_ADDR : Z := PMC_BASE + 0x120.
Definition OSTA_ADDR : Z := PMC_BASE + 0x124.
Definition OSTC_RDREQ : Z := BIT 1.
Definition OSTA_RCA : Z := BIT 5.

Definition dma_irq_no : list Z := [17; 27; 34; 40; 41; 45; 46; 51; 92; 93; 94; 95; 96; 97; 98; 99].

(** ** State *)

Record dma_device_cfg_s := MkCfg {
  DeviceReqType : Z; DefaultCCR : Z; MIF0addr : Z; MIF1addr : Z; ChunkSize : Z;
}.

Record dma_info_s := MkChan {
  device_no : Z; device_cfg : dma_device_cfg_s; callback : bool; in_use : bool;
  des0cnt : Z; des1cnt : Z; max_des0cnt : Z; max_des1cnt : Z;
  residue_des0cnt : Z; residue_des1cnt : Z;
  des_0 : Z; des_1 : Z; des0_phy_addr : Z; des1_phy_addr : Z;
  accu_size : Z; descript_size : Z;
}.

(** What the driver tells others. *)
Inductive dnote := Callback (ch : Z) | RequestIrq (irq : Z).

Record dma_st := MkDma {
  dm_clk : clk;
  dma_chan : list dma_info_s;
  request_chans : Z;
  dma_device_cfg_table : list dma_device_cfg_s;
  blocks : gmap Z (list Z);        (** coherent memory, by kernel address *)
  pages : gmap Z Z;                (** the bus address of each of them *)
  grants : list (Z * Z);           (** next answers of [dma_alloc_coherent] *)
  dma_list_lock : bool;
  told : list dnote;
}.

Abbreviation D := (M dma_st).

Definition with_clk (c : clk) (s : dma_st) : dma_st :=
  MkDma c (dma_chan s) (request_chans s) (dma_device_cfg_table s) (blocks s) (pages s) (grants s) (dma_list_lock s) (told s).
Definition with_chans (l : list dma_info_s) (s : dma_st) : dma_st :=
  MkDma (dm_clk s) l (request_chans s) (dma_device_cfg_table s) (blocks s) (pages s) (grants s) (dma_list_lock s) (told s).
Definition with_request (v : Z) (s : dma_st) : dma_st :=
  MkDma (dm_clk s) (dma_chan s) v (dma_device_cfg_table s) (blocks s) (pages s) (grants s) (dma_list_lock s) (told s).
Definition with_table (l : list dma_device_cfg_s) (s : dma_st) : dma_st :=
  MkDma (dm_clk s) (dma_chan s) (request_chans s) l (blocks s) (pages s) (grants s) (dma_list_lock s) (told s).
Definition with_blocks (b : gmap Z (list Z)) (s : dma_st) : dma_st :=
  MkDma (dm_clk s) (dma_chan s) (request_chans s) (dma_device_cfg_table s) b (pages s) (grants s) (dma_list_lock s) (told s).
Definition with_pages (p : gmap Z Z) (s : dma_st) : dma_st :=
  MkDma (dm_clk s) (dma_chan s) (request_chans s) (dma_device_cfg_table s) (blocks s) p (grants s) (dma_list_lock s) (told s).
Definition with_grants (l : list (Z * Z)) (s : dma_st) : dma_st :=
  MkDma (dm_clk s) (dma_chan s) (request_chans s) (dma_device_cfg_table s) (blocks s) (pages s) l (dma_list_lock s) (told s).
Definition with_lock (b : bool) (s : dma_st) : dma_st :=
  MkDma (dm_clk s) (dma_chan s) (request_chans s) (dma_device_cfg_table s) (blocks s) (pages s) (grants s) b (told s).
Definition tells (n : dnote) : D unit := modify (fun s =>
  MkDma (dm_clk s) (dma_chan s) (request_chans s) (dma_device_cfg_table s) (blocks s) (pages s) (grants s) (dma_list_lock s) (told s ++ [n])).

Definition with_dma_hw (h : hw) (s : dma_st) : dma_st := with_clk (mk_clk h (dev_en_count (dm_clk s))) s.
Lemma with_dma_hw_same s : with_dma_hw (chw (dm_clk s)) s = s.
Proof. by destruct s as [[]]. Qed.

#[global] Instance dma_regs : RegState dma_st := {|
  regs_of s := chw (dm_clk s); with_regs := with_dma_hw; regs_with h s := eq_refl; with_same := with_dma_hw_same;
|}.

(** A call of the clock manager. *)
Definition on_clk {A} (m : M clk A) : D A := fun s =>
  match m (dm_clk s) with
  | Ok (a, c) => Ok (a, with_clk c s)
  | Fault f => Fault f
  end.

(** ** Access to the state *)

(** [&dma_chan[ch]] when it is read. *)
Definition chan_at (ch : Z) : D dma_info_s := fun s =>
  match (if 0 <=? ch then dma_chan s !! Z.to_nat ch else None) with
  | Some c => Ok (c, s)
  | None => Fault Undefined
  end.
Definition upd (ch : Z) (f : dma_info_s -> dma_info_s) : D unit :=
  modify (fun s => with_chans (alter f (Z.to_nat ch) (dma_chan s)) s).

Definition with_des0cnt (n : Z) (c : dma_info_s) : dma_info_s :=
  MkChan (device_no c) (device_cfg c) (callback c) (in_use c) n (des1cnt c) (max_des0cnt c) (max_des1cnt c)
    (residue_des0cnt c) (residue_des1cnt c) (des_0 c) (des_1 c) (des0_phy_addr c) (des1_phy_addr c) (accu_size c) (descript_size c).
Definition with_residue (n : Z) (c : dma_info_s) : dma_info_s :=
  MkChan (device_no c) (device_cfg c) (callback c) (in_use c) (des0cnt c) (des1cnt c) (max_des0cnt c) (max_des1cnt c)
    n (residue_des1cnt c) (des_0 c) (des_1 c) (des0_phy_addr c) (des1_phy_addr c) (accu_size c) (descript_size c).
Definition with_accu (n : Z) (c : dma_info_s) : dma_info_s :=
  MkChan (device_no c) (device_cfg c) (callback c) (in_use c) (des0cnt c) (des1cnt c) (max_des0cnt c) (max_des1cnt c)
    (residue_des0cnt c) (residue_des1cnt c) (des_0 c) (des_1 c) (des0_phy_addr c) (des1_phy_addr c) n (descript_size c).
Definition with_cfg (g : dma_device_cfg_s) (c : dma_info_s) : dma_info_s :=
  MkChan (device_no c) g (callback c) (in_use c) (des0cnt c) (des1cnt c) (max_des0cnt c) (max_des1cnt c)
    (residue_des0cnt c) (residue_des1cnt c) (des_0 c) (des_1 c) (des0_phy_addr c) (des1_phy_addr c) (accu_size c) (descript_size c).
Definition with_des_0 (virt phys n : Z) (c : dma_info_s) : dma_info_s :=
  MkChan (device_no c) (device_cfg c) (callback c) (in_use c) (des0cnt c) (des1cnt c) n (max_des1cnt c)
    (residue_des0cnt c) (residue_des1cnt c) virt (des_1 c) phys (des1_phy_addr c) (accu_size c) (descript_size c).
(** The second block: its bus address, too, goes to [des0_phy_addr]. *)
Definition with_des_1 (virt phys n : Z) (c : dma_info_s) : dma_info_s :=
  MkChan (device_no c) (device_cfg c) (callback c) (in_use c) (des0cnt c) (des1cnt c) (max_des0cnt c) n
    (residue_des0cnt c) (residue_des1cnt c) (des_0 c) virt phys (des1_phy_addr c) (accu_size c) (descript_size c).

Definition spin_lock : D unit := fun s =>
  if dma_list_lock s then Fault Hang else Ok (tt, with_lock true s).
Definition spin_unlock : D unit := modify (with_lock false).

(** Words of a block, by an index into [unsigned long *]. *)
Definition des_load (base off : Z) : D Z := fun s =>
  match blocks s !! base with
  | Some ws => match (if 0 <=? off then ws !! Z.to_nat off else None) with
               | Some v => Ok (v, s)
               | None => Fault Undefined
               end
  | None => Fault Undefined
  end.
Definition des_store (base off v : Z) : D unit := fun s =>
  match blocks s !! base with
  | Some ws =>
      if (0 <=? off) && (off <? Z.of_nat (length ws))
      then Ok (tt, with_blocks (<[base := <[Z.to_nat off := u32 v]> ws]> (blocks s)) s)
      else Fault Undefined
  | None => Fault Undefined
  end.

(** [dma_alloc_coherent]: a block of zeroes and its bus address, or a null
    pointer. *)
Definition dma_alloc_coherent (size : Z) : D (Z * Z) := fun s =>
  match grants s with
  | (virt, phys) :: l =>
      let s := with_grants l s in
      Ok ((virt, phys), if virt =? 0 then s
                        else with_pages (<[virt := phys]> (pages s))
                               (with_blocks (<[virt := replicate (Z.to_nat (size / 4)) 0]> (blocks s)) s))
  | [] => Ok ((0, u32 (-1)), s)
  end.

(** [dma_free_coherent] unmaps the kernel address and frees the pages of the bus
    address it is given ([arch/arm/mm/dma-mapping.c]).  With an address that was
    not given out, or a bus address that is not that of the block, it frees pages
    that are not the block's: [Undefined]. *)
Definition dma_free_coherent (virt phys : Z) : D unit := fun s =>
  if bool_decide (pages s !! virt = Some phys)
  then Ok (tt, with_pages (delete virt (pages s)) (with_blocks (delete virt (blocks s)) s))
  else Fault Undefined.

(** ** Descriptors *)

Record des_attribute := MkAttr {
  end_descript : Z; interrupt_en : Z; at_size : Z; at_fmt : Z; data_addr : Z; branch_addr : Z;
}.

(** [x * sizeof(struct dma_des_fmt0) / sizeof(unsigned long)]. *)
Definition des_words (x : Z) : Z := u32 (x * 8) / 4.

(** The checks that open most functions. *)
Definition bad_channel (ch : Z) (c : dma_info_s) : bool := (MAX_DMA_CHANNELS <=? ch) || negb (in_use c).

Definition create_fmt0_descript (ch : Z) (cfg : dma_device_cfg_s) (attr : des_attribute) : D Z :=
  dma ← chan_at ch;
  let des_offset := des_words (des0cnt dma) in
  if bad_channel ch dma then mret (- EINVAL)
  else if negb (device_no dma =? DeviceReqType cfg) then mret (- ENODEV)
  else
    let ReqCnt := 0 in
    let ReqCnt := if interrupt_en attr =? 1 then Z.lor ReqCnt DMA_INTEN_DES else ReqCnt in
    let ReqCnt := if end_descript attr =? 1 then Z.lor ReqCnt DMA_DES_END else ReqCnt in
    if SIZE_64KB - 1 <? at_size attr then mret (- EOVERFLOW)
    else
      des_store (des_0 dma) des_offset (Z.lor ReqCnt (at_size attr));;
      des_store (des_0 dma) (des_offset + 1) (data_addr attr);;
      upd ch (with_des0cnt (des0cnt dma + 1));;
      mret 0.

Definition create_fmt1_descript (ch : Z) (cfg : dma_device_cfg_s) (attr : des_attribute) : D Z :=
  dma ← chan_at ch;
  let des_offset := des_words (max_des0cnt dma - 1) in
  if bad_channel ch dma then mret (- EINVAL)
  else if negb (device_no dma =? DeviceReqType cfg) then mret (- ENODEV)
  else
    let ReqCnt := 0 in
    let ReqCnt := if interrupt_en attr =? 1 then Z.lor ReqCnt DMA_INTEN_DES else ReqCnt in
    let ReqCnt := if end_descript attr =? 1 then Z.lor ReqCnt DMA_DES_END else ReqCnt in
    let ReqCnt := if at_fmt attr =? 1 then Z.lor ReqCnt DMA_FORMAT_DES1 else ReqCnt in
    if SIZE_64KB - 1 <? at_size attr then mret (- EOVERFLOW)
    else
      des_store (des_0 dma) des_offset (Z.lor ReqCnt (at_size attr));;
      des_store (des_0 dma) (des_offset + 1) (data_addr attr);;
      des_store (des_0 dma) (des_offset + 2) (branch_addr attr);;
      upd ch (with_des0cnt 0);;
      mret 0.

Definition clear_last_descript (ch : Z) (cfg : dma_device_cfg_s) : D Z :=
  dma ← chan_at ch;
  let des_offset := if 0 <=? des0cnt dma - 1 then des_words (des0cnt dma - 1) else des_words (max_des0cnt dma - 1) in
  if bad_channel ch dma then mret (- EINVAL)
  else if negb (device_no dma =? DeviceReqType cfg) then mret (- ENODEV)
  else
    v ← des_load (des_0 dma) des_offset;
    des_store (des_0 dma) des_offset (Z.land v (Z.lnot DMA_DES_END));;
    mret 0.

(** The same checks where the channel is not read before them. *)
Definition checked (ch : Z) (cfg : dma_device_cfg_s) (k : dma_info_s -> D Z) : D Z :=
  if MAX_DMA_CHANNELS <=? ch then mret (- EINVAL)
  else
    dma ← chan_at ch;
    if negb (in_use dma) then mret (- EINVAL)
    else if negb (device_no dma =? DeviceReqType cfg) then mret (- ENODEV)
    else k dma.

(** One round of the loop of [add_descript]: what is left, the number of
    descriptors, the address, and [end_descript] and [interrupt_en] of the local
    structure. *)
Record add_st := MkAdd { residue_size : Z; xfer_index : Z; dma_ptr : Z; end_d : Z; int_d : Z }.

Definition add_round (ch : Z) (cfg : dma_device_cfg_s) (size : Z) (a : add_st) : D add_st :=
  (if residue_size a =? size then clear_last_descript ch cfg;; mret tt else mret tt);;
  let '(xfer_size, rest) := if SIZE_32KB <? residue_size a then (SIZE_32KB, residue_size a - SIZE_32KB)
                            else (residue_size a, 0) in
  let ptr := u32 (dma_ptr a + xfer_size * xfer_index a) in
  dma ← chan_at ch;
  let accu := u32 (accu_size dma + xfer_size) in
  let e := if rest <=? SIZE_32KB then 1 else end_d a in
  let '(i, accu) := if ChunkSize cfg <=? accu then (1, xfer_size) else (int_d a, accu) in
  upd ch (with_accu accu);;
  (if des0cnt dma <? max_des0cnt dma - 1
   then create_fmt0_descript ch cfg (MkAttr e i xfer_size 0 ptr 0)
   else create_fmt1_descript ch cfg (MkAttr e i xfer_size 1 ptr (des0_phy_addr dma)));;
  mret (MkAdd rest (u32 (xfer_index a + 1)) ptr e i).

Definition descripts_needed (size : Z) : Z := size / SIZE_32KB + (if size mod SIZE_32KB =? 0 then 0 else 1).

(** [end0] and [int0]: what [descript_attr] has before it is set. *)
Definition add_descript (end0 int0 : Z) (ch : Z) (cfg : dma_device_cfg_s) (ptr size : Z) : D Z :=
  let need_add_descript_count := descripts_needed size in
  checked ch cfg (fun dma =>
  if max_des0cnt dma - residue_des0cnt dma <? need_add_descript_count then mret (- EBUSY)
  else
    loop (S (Z.to_nat need_add_descript_count)) (fun a =>
      if 0 <? residue_size a then a' ← add_round ch cfg size a; mret (inl a') else mret (inr (xfer_index a)))
      (MkAdd size 0 ptr end0 int0)).

(** ** Position of the engine *)

Definition wmt_read_oscr : D Z :=
  set_bits OSTC_ADDR OSTC_RDREQ;;
  on_regs (poll OSTA_ADDR (fun v => negb (has v OSTA_RCA)));;
  rd OSCR_ADDR.

(** The loop that waits for [DMA_UP_MEMREG_EN] to clear, for at most 15 ticks of
    the timer.  Once the answers pending for the control register and for the
    timer are used up both read the same for ever, so the fuel is their number
    plus one. *)
Fixpoint memreg_loop (fuel : nat) (ch now_time : Z) : D unit :=
  match fuel with
  | O => fail_with Hang
  | S fuel' =>
      v ← rd (DMA_CCR_CH ch);
      if has v DMA_UP_MEMREG_EN then
        t ← wmt_read_oscr;
        if 15 <? u32 (t - now_time) then clear_bits (DMA_CCR_CH ch) DMA_UP_MEMREG_EN
        else memreg_loop fuel' ch now_time
      else mret tt
  end.

Definition answers (a : Z) (s : dma_st) : nat := length (default [] (pending (regs_of s) !! a)).

Definition up_memreg (ch : Z) : D unit :=
  set_bits (DMA_CCR_CH ch) DMA_UP_MEMREG_EN;;
  now_time ← wmt_read_oscr;
  fuel ← gets (fun s => S (answers (DMA_CCR_CH ch) s + answers OSCR_ADDR s));
  memreg_loop fuel ch now_time.

(** The same under the lock, for a channel that runs. *)
Definition update_position (ch : Z) : D unit :=
  v ← rd (DMA_CCR_CH ch);
  if has v SYSTEM_DMA_RUN then spin_lock;; up_memreg ch;; spin_unlock else mret tt.

Record dma_mem_reg_group_s := MkGroup {
  IF0RBR : Z; IF0DAR : Z; IF0BAR : Z; IF0CPR : Z; IF1RBR : Z; IF1DAR : Z; IF1BAR : Z; IF1CPR : Z;
}.

Definition read_group (ch : Z) : D dma_mem_reg_group_s :=
  bar0 ← rd (DMA_IF0BAR_CH ch);
  cpr0 ← rd (DMA_IF0CPR_CH ch);
  rbr0 ← rd (DMA_IF0RBR_CH ch);
  dar0 ← rd (DMA_IF0DAR_CH ch);
  bar1 ← rd (DMA_IF1BAR_CH ch);
  cpr1 ← rd (DMA_IF1CPR_CH ch);
  rbr1 ← rd (DMA_IF1RBR_CH ch);
  dar1 ← rd (DMA_IF1DAR_CH ch);
  mret (MkGroup rbr0 dar0 bar0 cpr0 rbr1 dar1 bar1 cpr1).

(** [None]: the structure is returned without being set. *)
Definition wmt_get_dma_pos_info (ch : Z) : D (option dma_mem_reg_group_s) :=
  if MAX_DMA_CHANNELS <=? ch then mret None
  else
    dma ← chan_at ch;
    if negb (in_use dma) then mret None
    else update_position ch;; g ← read_group ch; mret (Some g).

Definition wmt_get_dma_pos (ch : Z) : D (option Z) :=
  if MAX_DMA_CHANNELS <=? ch then mret None
  else
    dma ← chan_at ch;
    if negb (in_use dma) then mret None
    else update_position ch;; g ← read_group ch; mret (Some (IF0DAR g)).

Definition revise_descript (ch : Z) (cfg : dma_device_cfg_s) (dma_mem_reg : option dma_mem_reg_group_s) : D Z :=
  checked ch cfg (fun dma =>
    update_position ch;;
    g ← initialised dma_mem_reg;
    let req_count := Z.land (IF0RBR g) DMA_DES_REQCNT_MASK in
    let data_address := IF0DAR g in
    let des_offset := u32 (IF0CPR g - des0_phy_addr dma) in
    if 0 <? req_count then
      v ← des_load (des_0 dma) (des_offset / 4);
      des_store (des_0 dma) (des_offset / 4) (Z.land v (Z.lnot DMA_DES_REQCNT_MASK));;
      v ← des_load (des_0 dma) (des_offset / 4);
      des_store (des_0 dma) (des_offset / 4) (Z.lor v req_count);;
      des_store (des_0 dma) (des_offset / 4 + 1) 0;;
      des_store (des_0 dma) (des_offset / 4 + 1) data_address;;
      mret 0
    else mret 0).

(** ** Calls *)

Definition wmt_start_dma (end0 int0 : Z) (ch ptr ptr2 size : Z) : D Z :=
  if size =? 0 then mret (- EINVAL)
  else
    dma ← chan_at ch;
    descript_count ← add_descript end0 int0 ch (device_cfg dma) ptr size;
    if descript_count <? 0 then mret (- EBUSY)
    else
      dma ← chan_at ch;
      let residue := s32 (residue_des0cnt dma + descript_count) in
      upd ch (with_residue (if max_des0cnt dma - 1 <? residue then max_des0cnt dma - 1 else residue));;
      v ← rd (DMA_CCR_CH ch);
      (if has v SYSTEM_DMA_RUN then set_bits (DMA_CCR_CH ch) DMA_WAKE
       else
         wr (DMA_IF0CPR_CH ch) (des0_phy_addr dma);;
         (if DeviceReqType (device_cfg dma) =? MEMORY_DMA_REQ then wr (DMA_IF1CPR_CH ch) (des0_phy_addr dma) else mret tt);;
         set_bits (DMA_CCR_CH ch) (Z.lor SYSTEM_DMA_RUN SYSTEM_DMA_REQ_EN));;
      mret 0.

Definition wmt_wake_dma (end0 int0 : Z) (ch ptr ptr2 size : Z) : D Z :=
  if size =? 0 then mret (- EINVAL)
  else
    dma ← chan_at ch;
    if ChunkSize (device_cfg dma) <? size then mret (- EOVERFLOW)
    else
      v ← rd (DMA_CCR_CH ch);
      if has v SYSTEM_DMA_RUN then
        ret ← add_descript end0 int0 ch (device_cfg dma) ptr size;
        dma ← chan_at ch;
        upd ch (with_residue (s32 (residue_des0cnt dma + ret)));;
        set_bits (DMA_CCR_CH ch) DMA_WAKE;;
        mret ret
      else mret 0.

(** The first channel from 1 on that is free. *)
Fixpoint free_channel (l : list dma_info_s) (ch : Z) : option Z :=
  match l with
  | [] => None
  | c :: l' => if in_use c then free_channel l' (ch + 1) else Some ch
  end.

Definition claim (device : Z) (cb : bool) (c : dma_info_s) : dma_info_s :=
  MkChan device (device_cfg c) cb true 0 0 (max_des0cnt c) (max_des1cnt c) 0 0
    (des_0 c) (des_1 c) (des0_phy_addr c) (des1_phy_addr c) 0 MAX_DESCRIPT_SIZE.

(** The answer and what [*channel] has. *)
Definition wmt_request_dma (device : Z) (cb : bool) : D (Z * Z) :=
  spin_lock;;
  l ← gets dma_chan;
  match free_channel (tail l) 1 with
  | None => mret (- EBUSY, u32 (-1))
  | Some ch =>
      spin_unlock;;
      r ← gets request_chans;
      modify (with_request (Z.lor r (Z.shiftl 1 ch)));;
      upd ch (claim device cb);;
      wr DMA_ISR (Z.shiftl 1 ch);;
      wr (DMA_IF0CPR_CH ch) 0;;
      wr (DMA_IF1CPR_CH ch) 0;;
      '(virt, phys) ← dma_alloc_coherent MAX_DESCRIPT_SIZE;
      let n := (MAX_DESCRIPT_SIZE - DMA_DES1_SIZE) / DMA_DES0_SIZE + 1 in
      upd ch (with_des_0 virt phys n);;
      t ← gets dma_device_cfg_table;
      cfg ← initialised (t !! Z.to_nat device);
      upd ch (with_cfg cfg);;
      wr (DMA_CCR_CH ch) (Z.land (DefaultCCR cfg) DMA_USER_SET_MASK);;
      (if negb (device =? MEMORY_DMA_REQ) then set_bits (DMA_CCR_CH ch) (Z.shiftl device DMA_REQ_ID_SHIFT)
       else '(virt, phys) ← dma_alloc_coherent MAX_DESCRIPT_SIZE; upd ch (with_des_1 virt phys n));;
      mret (0, ch)
  end.

Definition clear_counts (c : dma_info_s) : dma_info_s :=
  MkChan (device_no c) (device_cfg c) (callback c) (in_use c) 0 0 (max_des0cnt c) (max_des1cnt c)
    0 (residue_des1cnt c) (des_0 c) (des_1 c) (des0_phy_addr c) (des1_phy_addr c) 0 (descript_size c).

Definition wmt_clear_dma (ch : Z) : D unit :=
  chan_at ch;;
  clear_bits (DMA_CCR_CH ch) SYSTEM_DMA_REQ_EN;;
  clear_bits (DMA_CCR_CH ch) SYSTEM_DMA_RUN;;
  wr DMA_ISR (Z.shiftl 1 ch);;
  upd ch clear_counts.

Definition release (c : dma_info_s) : dma_info_s :=
  MkChan DEVICE_RESERVED (device_cfg c) (callback c) false 0 0 0 0
    0 (residue_des1cnt c) (des_0 c) (des_1 c) (des0_phy_addr c) (des1_phy_addr c) 0 (descript_size c).

Definition wmt_free_dma (ch : Z) : D unit :=
  if MAX_DMA_CHANNELS <=? ch then mret tt
  else
    dma ← chan_at ch;
    if negb (in_use dma) then mret tt
    else if device_no dma =? DEVICE_RESERVED then mret tt
    else
      wmt_clear_dma ch;;
      r ← gets request_chans;
      modify (with_request (Z.land r (Z.lnot (Z.shiftl 1 ch))));;
      dma_free_coherent (des_0 dma) (des0_phy_addr dma);;
      (if device_no dma =? MEMORY_DMA_REQ then dma_free_coherent (des_1 dma) (des1_phy_addr dma) else mret tt);;
      upd ch release.

Definition wmt_reset_dma (ch : Z) : D unit :=
  if MAX_DMA_CHANNELS <=? ch then mret tt else wmt_clear_dma ch.

Definition set_table (dev : Z) (cfg : dma_device_cfg_s) : D unit := fun s =>
  if (0 <=? dev) && (dev <? Z.of_nat (length (dma_device_cfg_table s)))
  then Ok (tt, with_table (<[Z.to_nat dev := cfg]> (dma_device_cfg_table s)) s)
  else Fault Undefined.

Definition wmt_setup_dma (ch : Z) (cfg : dma_device_cfg_s) : D Z :=
  checked ch cfg (fun dma =>
    let dev_no := device_no dma in
    set_table dev_no cfg;;
    upd ch (with_cfg cfg);;
    wr DMA_ISR (Z.shiftl 1 ch);;
    wr (DMA_CCR_CH ch) (DefaultCCR cfg);;
    (if negb (DeviceReqType cfg =? MEMORY_DMA_REQ)
     then set_bits (DMA_CCR_CH ch) (Z.shiftl (DeviceReqType cfg) DMA_REQ_ID_SHIFT) else mret tt);;
    (if negb (dev_no =? MEMORY_DMA_REQ) then wr (DMA_IF1CPR_CH ch) (MIF1addr cfg) else mret tt);;
    mret 0).

Definition wmt_stop_dma (ch : Z) : D unit :=
  if MAX_DMA_CHANNELS <=? ch then mret tt
  else
    dma ← chan_at ch;
    if negb (in_use dma) then mret tt
    else
      clear_bits (DMA_CCR_CH ch) SYSTEM_DMA_REQ_EN;;
      v ← rd (DMA_CCR_CH ch);
      (if has v SYSTEM_DMA_RUN then up_memreg ch else mret tt);;
      clear_bits (DMA_CCR_CH ch) SYSTEM_DMA_RUN.

Definition wmt_resume_dma (ch : Z) : D unit :=
  dma ← chan_at ch;
  v ← rd (DMA_CCR_CH ch);
  (if has v DMA_ACTIVE then
     clear_bits (DMA_CCR_CH ch) SYSTEM_DMA_REQ_EN;;
     clear_bits (DMA_CCR_CH ch) SYSTEM_DMA_RUN
   else mret tt);;
  if bad_channel ch dma then mret tt
  else
    g ← wmt_get_dma_pos_info ch;
    revise_descript ch (device_cfg dma) g;;
    set_bits (DMA_CCR_CH ch) (Z.lor SYSTEM_DMA_RUN SYSTEM_DMA_REQ_EN).

Definition wmt_dma_busy (ch : Z) : D Z :=
  if MAX_DMA_CHANNELS <=? ch then mret (-1)
  else
    dma ← chan_at ch;
    if negb (in_use dma) then mret (-1)
    else
      v ← rd DMA_ISR;
      if has v (Z.shiftl 1 ch) then wr DMA_ISR (Z.shiftl 1 ch);; mret 0 else mret 1.

(** Only the accesses: the values are printed. *)
Definition wmt_dump_dma_regs (ch : Z) : D unit :=
  chan_at ch;;
  rd DMA_GCR;; rd DMA_MRPR;; rd DMA_IER;; rd DMA_ISR;; rd DMA_TMR;; rd (DMA_CCR_CH ch);;
  update_position ch;;
  rd (DMA_IF0RBR_CH ch);; rd (DMA_IF0DAR_CH ch);; rd (DMA_IF0BAR_CH ch);; rd (DMA_IF0CPR_CH ch);;
  rd (DMA_IF1RBR_CH ch);; rd (DMA_IF1DAR_CH ch);; rd (DMA_IF1BAR_CH ch);; rd (DMA_IF1CPR_CH ch);;
  mret tt.

(** The channel with this interrupt. *)
Fixpoint channel_of (l : list Z) (ch irq : Z) : option Z :=
  match l with
  | [] => None
  | n :: l' => if irq =? n then Some ch else channel_of l' (ch + 1) irq
  end.

(** The end of the handler: one descriptor less, and the callback. *)
Definition descript_done (ch : Z) : D unit :=
  dma ← chan_at ch;
  (if 0 <? residue_des0cnt dma then upd ch (with_residue (residue_des0cnt dma - 1)) else mret tt);;
  if callback dma then tells (Callback ch) else mret tt.

Definition dma_irq_handler (irq : Z) : D unit :=
  rd DMA_ISR;;
  match channel_of dma_irq_no 0 irq with
  | None => mret tt
  | Some ch =>
      v ← rd (DMA_CCR_CH ch);
      let channel_st := Z.land v DMA_EVT_ID_MASK in
      dma ← chan_at ch;
      wr DMA_ISR (Z.shiftl 1 ch);;
      if channel_st =? DMA_EVT_NO_STATUS then
        g ← wmt_get_dma_pos_info ch;
        revise_descript ch (device_cfg dma) g;;
        descript_done ch
      else if negb (channel_st =? DMA_EVT_SUCCESS) then
        wmt_dump_dma_regs ch;;
        wmt_resume_dma ch
      else descript_done ch
  end.

(** ** Start-up and resume *)

Definition enable_engine : D unit :=
  set_bits DMA_GCR DMA_GLOBAL_EN;;
  wr DMA_ISR ALL_INT_CLEAR;;
  set_bits DMA_IER ALL_INT_EN;;
  clear_bits DMA_TMR SCHEDULE_RR_DISABLE;;
  wr DMA_MRPR (DMA_CTRL_CFG_BASE_ADDR + DMA_MEM_REG_OFFSET).

Definition dma_resume : D unit := on_clk (auto_pll_divisor DEV_DMA CLK_ENABLE 0 0);; enable_engine.

Definition unowned (c : dma_info_s) : dma_info_s :=
  MkChan DEVICE_RESERVED (device_cfg c) (callback c) false (des0cnt c) (des1cnt c) (max_des0cnt c) (max_des1cnt c)
    (residue_des0cnt c) (residue_des1cnt c) (des_0 c) (des_1 c) (des0_phy_addr c) (des1_phy_addr c) (accu_size c) (descript_size c).

Definition channels : list Z := upto 0 MAX_DMA_CHANNELS.

Definition wmt_dma_init : D Z :=
  on_clk (auto_pll_divisor DEV_DMA CLK_ENABLE 0 0);;
  modify (with_request 0);;
  for_m channels (fun ch => upd ch unowned;; mret true);;
  let dma_mem_phy := DMA_CTRL_CFG_BASE_ADDR + DMA_MEM_REG_OFFSET in
  if negb (Z.land dma_mem_phy 0xFF =? 0) then mret (-1)
  else
    set_bits DMA_GCR DMA_SW_RST;;
    enable_engine;;
    for_m channels (fun ch => wr (DMA_IF0CPR_CH ch) 0x100;; wr (DMA_IF1CPR_CH ch) 0x100;; wr (DMA_CCR_CH ch) 0;; mret true);;
    for_m dma_irq_no (fun n => tells (RequestIrq n);; mret true);;
    mret 0.

(** ** The table of devices *)

Definition reserved_cfg : dma_device_cfg_s := MkCfg DEVICE_RESERVED 0x100 0 0 SIZE_4KB.
Definition UART_FIFO (base off : Z) : Z := off + base.

Definition initial_table : list dma_device_cfg_s :=
  [ MkCfg 0 0x100 0 0 SIZE_4KB; MkCfg 1 0x100 0 0 SIZE_4KB; MkCfg 2 0x100 0 0 SIZE_4KB; MkCfg 3 0x100 0 0 SIZE_4KB;
    reserved_cfg; reserved_cfg;
    MkCfg 6 UART_TX_DMA_CFG 0 (UART_FIFO 0xD8200000 0x1000) SIZE_1B;
    MkCfg 7 UART_RX_DMA_CFG 0 (UART_FIFO 0xD8200000 0x1020) SIZE_4KB;
    MkCfg 8 UART_TX_DMA_CFG 0 (UART_FIFO 0xD82b0000 0x1000) SIZE_1B;
    MkCfg 9 UART_RX_DMA_CFG 0 (UART_FIFO 0xD82b0000 0x1020) SIZE_4KB;
    MkCfg 10 UART_TX_DMA_CFG 0 (UART_FIFO 0xD8210000 0x1000) SIZE_1B;
    MkCfg 11 UART_RX_DMA_CFG 0 (UART_FIFO 0xD8210000 0x1020) SIZE_4KB;
    MkCfg 12 UART_TX_DMA_CFG 0 (UART_FIFO 0xD82c0000 0x1000) SIZE_1B;
    MkCfg 13 UART_RX_DMA_CFG 0 (UART_FIFO 0xD82c0000 0x1020) SIZE_4KB;
    MkCfg 14 PCM_TX_DMA_CFG 0 (0xD82D0000 + 0x10) SIZE_4KB;
    MkCfg 15 PCM_RX_DMA_CFG 0 (0xD82D0000 + 0x30) SIZE_4KB;
    reserved_cfg; reserved_cfg; reserved_cfg; reserved_cfg; reserved_cfg;
    MkCfg 21 I2S_RX_DMA_CFG 0 0xD80EDB00 SIZE_16KB; MkCfg 22 I2S_TX_DMA_CFG 0 0xD80EDB60 SIZE_16KB;
    MkCfg 23 I2S_RX_DMA_CFG 0 0xD80EDB20 SIZE_16KB;
    MkCfg 24 0x100 0 0 SIZE_4KB; MkCfg 25 0x100 0 0 SIZE_4KB; MkCfg 26 0x100 0 0 SIZE_4KB; MkCfg 27 0x100 0 0 SIZE_4KB;
    MkCfg 28 0x100 0 0 SIZE_4KB;
    reserved_cfg; reserved_cfg; reserved_cfg;
    MkCfg MEMORY_DMA_REQ 0x2a800000 0x0a200000 0x0a220000 SIZE_4KB;
    reserved_cfg ].
