(* ===== verification/DmaSafe.v ===== *)
(** * The DMA driver: memory safety

    The invariant of the channels and of their descriptor memory, that every call
    keeps it and stores inside the descriptor memory of its channel, and when the
    calls return. *)

From S2P Require Import Prelude Mmio Regs Clock Dma.
From stdpp Require Import list.
#[local] Open Scope Z_scope.

(** ** Invariant *)

(** The blocks a channel owns. *)
Definition owned (c : dma_info_s) : list Z :=
  if in_use c then des_0 c :: (if device_no c =? MEMORY_DMA_REQ then [des_1 c] else []) else [].

Definition chan_ok (c : dma_info_s) : Prop :=
  in_use c = true -> max_des0cnt c = 127 /\ 0 <= des0cnt c <= 126 /\ 0 <= device_no c < 34.

Definition word_ok (v : Z) : Prop := 0 <= v < 2 ^ 32.
Definition block_ok (ws : list Z) : Prop := length ws = 256%nat /\ Forall word_ok ws.

(** A channel that does not copy memory knows the bus address of its block. *)
Definition bus_ok (p : gmap Z Z) (c : dma_info_s) : Prop :=
  in_use c = true -> device_no c <> MEMORY_DMA_REQ -> p !! des_0 c = Some (des0_phy_addr c).

Record inv (s : dma_st) : Prop := {
  inv_count : length (dma_chan s) = 16%nat;
  inv_table : length (dma_device_cfg_table s) = 34%nat;
  inv_chans : Forall chan_ok (dma_chan s);
  inv_apart : NoDup (mjoin (owned <$> dma_chan s));
  inv_owned : forall b, b ∈ mjoin (owned <$> dma_chan s) <-> is_Some (blocks s !! b);
  inv_blocks : forall b ws, blocks s !! b = Some ws -> block_ok ws;
  inv_pages : forall b, is_Some (pages s !! b) <-> is_Some (blocks s !! b);
  inv_bus : Forall (bus_ok (pages s)) (dma_chan s);
}.

(** All the invariant talks of. *)
Definition soft (s : dma_st) := (dma_chan s, dma_device_cfg_table s, blocks s, pages s).

Lemma inv_soft s s' : soft s' = soft s -> inv s -> inv s'.
Proof. unfold soft. intros [= E1 E2 E3 E4] []. split; by rewrite ?E1, ?E2, ?E3, ?E4. Qed.

Lemma chan_lookup s ch : inv s -> 0 <= ch < 16 ->
  exists c, dma_chan s !! Z.to_nat ch = Some c /\ chan_at ch s = Ok (c, s) /\ chan_ok c.
Proof.
  intros Hi Hch. destruct (lookup_lt_is_Some_2 (dma_chan s) (Z.to_nat ch)) as [c Hc].
  { rewrite (inv_count s Hi). lia. }
  exists c. split; [done|]. split.
  - unfold chan_at. rewrite (proj2 (Z.leb_le 0 ch)) by lia. by rewrite Hc.
  - apply (proj1 (Forall_lookup _ _) (inv_chans s Hi) _ _ Hc).
Qed.

Lemma own_block s (i : nat) c : inv s -> dma_chan s !! i = Some c -> in_use c = true ->
  exists ws, blocks s !! des_0 c = Some ws /\ block_ok ws.
Proof.
  intros Hi Hc Hu. destruct (proj1 (inv_owned s Hi (des_0 c))) as [ws Hw].
  - apply list_elem_of_join. exists (owned c). split; [unfold owned; rewrite Hu; set_solver|].
    apply list_elem_of_fmap. exists c. split; [done|]. by eapply list_elem_of_lookup_2.
  - exists ws. split; [done|]. by eapply inv_blocks.
Qed.

(** Changing a channel without changing what it owns. *)
Lemma owned_alter f (i : nat) (l : list dma_info_s) : (forall c, l !! i = Some c -> owned (f c) = owned c) -> owned <$> alter f i l = owned <$> l.
Proof.
  revert i. induction l as [|c l IH]; intros i H; [done|]. destruct i as [|i]; cbn.
  - by rewrite H.
  - f_equal. by apply IH.
Qed.

Lemma inv_upd f (i : nat) s : inv s ->
  (forall c, dma_chan s !! i = Some c -> owned (f c) = owned c /\ chan_ok (f c) /\ (bus_ok (pages s) c -> bus_ok (pages s) (f c))) ->
  inv (with_chans (alter f i (dma_chan s)) s).
Proof.
  intros [H1 H2 H3 H4 H5 H6 H7 H8] Hf. assert (owned <$> alter f i (dma_chan s) = owned <$> dma_chan s) as E
    by (apply owned_alter; intros c Hc; by apply Hf).
  split; cbn [with_chans dma_chan dma_device_cfg_table blocks pages]; rewrite ?length_alter, ?E; try done.
  - apply Forall_alter; [done|]. intros c Hc _. by apply Hf.
  - apply Forall_alter; [done|]. intros c Hc Hb. by apply Hf.
Qed.

Lemma inv_store s b ws off v : inv s -> blocks s !! b = Some ws ->
  inv (with_blocks (<[b := <[off := u32 v]> ws]> (blocks s)) s).
Proof.
  intros [H1 H2 H3 H4 H5 H6 H7 H8] Hb. split; cbn [with_blocks dma_chan dma_device_cfg_table blocks pages]; try done.
  - intros b'. rewrite H5. destruct (decide (b = b')) as [->|]; [rewrite lookup_insert_eq|by rewrite lookup_insert_ne].
    rewrite Hb. split; intros _; eauto.
  - intros b' ws'. destruct (decide (b = b')) as [->|]; [rewrite lookup_insert_eq|rewrite lookup_insert_ne by done; apply H6].
    intros [= <-]. destruct (H6 _ _ Hb) as [Hl Hw]. split; [by rewrite length_insert|].
    apply Forall_insert; [done|]. apply u32_bound.
  - intros b'. rewrite H7. destruct (decide (b = b')) as [->|]; [rewrite lookup_insert_eq|by rewrite lookup_insert_ne].
    rewrite Hb. split; intros _; eauto.
Qed.

(** ** Runs that keep the invariant

    [ends h m Q s]: the run of [m] from [s] does not store outside its memory; it
    ends in a state with [Q], or waits for ever, which only [h] allows. *)
Definition ends {A} (h : bool) (m : D A) (Q : A -> dma_st -> Prop) (s : dma_st) : Prop :=
  match m s with
  | Ok (a, s') => Q a s'
  | Fault Hang => h = true
  | Fault Undefined => False
  end.

Lemma ends_ret {A} h (a : A) Q s : Q a s -> ends h (mret a) Q s.
Proof. done. Qed.

Lemma ends_bind {A B} h (m : D A) (k : A -> D B) Q s :
  ends h m (fun a s' => ends h (k a) Q s') s -> ends h (mbind k m) Q s.
Proof. unfold ends, mbind, M_bind. by destruct (m s) as [[a s']|]. Qed.

Lemma ends_mono {A} h (m : D A) P Q s : (forall a s', P a s' -> Q a s') -> ends h m P s -> ends h m Q s.
Proof. unfold ends. intros H. destruct (m s) as [[a s']|]; auto. Qed.

Lemma ends_weaken {A} (m : D A) h Q s : ends false m Q s -> ends h m Q s.
Proof. unfold ends. by destruct (m s) as [[a s']|[]]. Qed.

(** The registers: the rest of the state, and the lock, stay. *)
Definition same (s s' : dma_st) : Prop := soft s' = soft s /\ dma_list_lock s' = dma_list_lock s.

#[global] Instance same_preorder : PreOrder same.
Proof. split; [done|]. intros s1 s2 s3 [? ?] [? ?]. split; congruence. Qed.

Lemma ends_rd h a Q s : (forall v s', same s s' -> Q v s') -> ends h (rd a) Q s.
Proof. intros H. unfold ends, rd, on_regs, read32. destruct (pending (regs_of s) !! a) as [[|]|]; by apply H. Qed.
Lemma ends_wr h a v Q s : (forall s', same s s' -> Q tt s') -> ends h (wr a v) Q s.
Proof. intros H. by apply H. Qed.
Lemma ends_set h a m Q s : (forall s', same s s' -> Q tt s') -> ends h (set_bits a m) Q s.
Proof. intros H. apply ends_bind, ends_rd. intros v s1 H1. apply ends_wr. intros s2 H2. apply H. by etransitivity. Qed.
Lemma ends_clear h a m Q s : (forall s', same s s' -> Q tt s') -> ends h (clear_bits a m) Q s.
Proof. intros H. apply ends_bind, ends_rd. intros v s1 H1. apply ends_wr. intros s2 H2. apply H. by etransitivity. Qed.

Lemma same_inv s s' : same s s' -> inv s -> inv s'.
Proof. intros [H _]. by apply inv_soft. Qed.

(** ** The operations *)

(** The invariant, and the state of the lock. *)
Definition good (b : bool) (s : dma_st) : Prop := inv s /\ dma_list_lock s = b.

Lemma same_good b s s' : same s s' -> good b s -> good b s'.
Proof. intros Hs [Hi Hl]. split; [by eapply same_inv|]. destruct Hs as [_ H]. congruence. Qed.

Lemma ends_chan_at h ch Q s : inv s -> 0 <= ch < 16 ->
  (forall c, dma_chan s !! Z.to_nat ch = Some c -> chan_ok c -> Q c s) -> ends h (chan_at ch) Q s.
Proof. intros Hi Hch H. destruct (chan_lookup s ch Hi Hch) as (c & Hc & Hr & Ho). unfold ends. rewrite Hr. by apply H. Qed.

Lemma ends_upd h ch f Q s : Q tt (with_chans (alter f (Z.to_nat ch) (dma_chan s)) s) -> ends h (upd ch f) Q s.
Proof. done. Qed.

(** A store into a block, and what it leaves alone. *)
Lemma ends_store h base off v Q s ws : inv s -> blocks s !! base = Some ws -> 0 <= off < 256 ->
  (forall s', inv s' -> dma_chan s' = dma_chan s -> dma_list_lock s' = dma_list_lock s ->
     blocks s' !! base = Some (<[Z.to_nat off := u32 v]> ws) -> Q tt s') ->
  ends h (des_store base off v) Q s.
Proof.
  intros Hi Hb Ho H. unfold ends, des_store. rewrite Hb. destruct (inv_blocks s Hi _ _ Hb) as [Hl _].
  rewrite Hl, (proj2 (Z.leb_le 0 off)), (proj2 (Z.ltb_lt off (Z.of_nat 256))) by lia. cbn [andb].
  apply H; [by apply inv_store|done..|]. cbn. apply lookup_insert_eq.
Qed.

Lemma ends_load h base off Q s ws : inv s -> blocks s !! base = Some ws -> 0 <= off < 256 ->
  (forall v, ws !! Z.to_nat off = Some v -> Q v s) -> ends h (des_load base off) Q s.
Proof.
  intros Hi Hb Ho H. unfold ends, des_load. rewrite Hb. destruct (inv_blocks s Hi _ _ Hb) as [Hl _].
  rewrite (proj2 (Z.leb_le 0 off)) by lia.
  destruct (lookup_lt_is_Some_2 ws (Z.to_nat off)) as [v Hv]; [rewrite Hl; lia|]. rewrite Hv. by apply H.
Qed.

Lemma des_words_small x : 0 <= x < 1000 -> des_words x = 2 * x.
Proof. intros H. unfold des_words. rewrite u32_small by lia. dlia. Qed.

(** A channel in use by the device of [cfg]. *)
Definition live (ch : Z) (cfg : dma_device_cfg_s) (s : dma_st) : Prop :=
  exists c, dma_chan s !! Z.to_nat ch = Some c /\ in_use c = true /\ device_no c = DeviceReqType cfg.

(** Updates of the counters of a channel. *)
Definition counts_only (f : dma_info_s -> dma_info_s) : Prop := forall c,
  in_use (f c) = in_use c /\ device_no (f c) = device_no c /\ des_0 (f c) = des_0 c /\ des_1 (f c) = des_1 c /\
  max_des0cnt (f c) = max_des0cnt c /\ des0_phy_addr (f c) = des0_phy_addr c.

Lemma counts_owned f c : counts_only f -> owned (f c) = owned c.
Proof. intros H. destruct (H c) as (E1 & E2 & E3 & E4 & _). unfold owned. by rewrite E1, E2, E3, E4. Qed.

Lemma counts_upd b ch f s : good b s -> counts_only f ->
  (forall c, dma_chan s !! Z.to_nat ch = Some c -> in_use c = true -> 0 <= des0cnt (f c) <= 126) ->
  good b (with_chans (alter f (Z.to_nat ch) (dma_chan s)) s).
Proof.
  intros [Hi Hl] Hf Hd. split; [|done]. apply inv_upd; [done|]. intros c Hc. destruct (Hf c) as (E1 & E2 & E3 & _ & E5 & E6).
  split; [by apply counts_owned|]. split; [|unfold bus_ok; by rewrite E1, E2, E3, E6]. intros Hu. rewrite E1 in Hu.
  destruct (proj1 (Forall_lookup _ _) (inv_chans s Hi) _ _ Hc Hu) as (K1 & K2 & K3). rewrite E2, E5. auto.
Qed.

Lemma live_upd ch cfg f s : counts_only f -> live ch cfg s -> live ch cfg (with_chans (alter f (Z.to_nat ch) (dma_chan s)) s).
Proof.
  intros Hf (c & Hc & Hu & Hd). exists (f c). destruct (Hf c) as (E1 & E2 & _). split; [|by rewrite E1, E2].
  cbn. rewrite list_lookup_alter. rewrite Hc. by destruct (decide _).
Qed.

Lemma counts_accu n : counts_only (with_accu n). Proof. done. Qed.
Lemma counts_des0 n : counts_only (with_des0cnt n). Proof. done. Qed.
Lemma counts_residue n : counts_only (with_residue n). Proof. done. Qed.
Lemma counts_clear : counts_only clear_counts. Proof. done. Qed.

Ltac chan c Hc Ho := apply ends_bind, ends_chan_at; [assumption|assumption|]; intros c Hc Ho.

(** The two checks of a channel that is live. *)
Lemma live_checks ch cfg s c : 0 <= ch < 16 -> live ch cfg s -> dma_chan s !! Z.to_nat ch = Some c ->
  bad_channel ch c = false /\ (device_no c =? DeviceReqType cfg) = true /\ in_use c = true.
Proof.
  intros Hch (c' & Hc' & Hu & Hd) Hc. simplify_eq. unfold bad_channel. rewrite Hu, Hd, Z.eqb_refl.
  rewrite (proj2 (Z.leb_gt MAX_DMA_CHANNELS ch)) by (unfold MAX_DMA_CHANNELS; lia). done.
Qed.

(** What a step of [add_descript] may change. *)
Definition steps (b : bool) (ch : Z) (cfg : dma_device_cfg_s) {A} (m : D A) : Prop := forall s,
  good b s -> live ch cfg s -> ends false m (fun _ s' => good b s' /\ live ch cfg s') s.

Lemma live_same ch cfg s s' : dma_chan s' = dma_chan s -> live ch cfg s -> live ch cfg s'.
Proof. unfold live. by intros ->. Qed.

Lemma clear_last_steps b ch cfg : 0 <= ch < 16 -> steps b ch cfg (clear_last_descript ch cfg).
Proof.
  intros Hch s [Hi Hl] Hv. unfold clear_last_descript. chan c Hc Ho.
  destruct (live_checks ch cfg s c Hch Hv Hc) as (-> & -> & Hu). cbn [negb]. destruct (Ho Hu) as (Hm & Hd & _).
  destruct (own_block s _ c Hi Hc Hu) as (ws & Hw & _).
  match goal with |- context [des_load _ ?o] => set (off := o) end.
  assert (0 <= off < 256) as Hoff by (unfold off; rewrite Hm; destruct (Z.leb_spec 0 (des0cnt c - 1)); rewrite des_words_small by lia; lia).
  apply ends_bind. eapply ends_load; [done..|]. intros v _.
  apply ends_bind. eapply ends_store; [done..|]. intros s' Hi' Hc' Hl' _. apply ends_ret.
  split; [split; [done|congruence]|]. by eapply live_same.
Qed.

Lemma fmt0_steps b ch cfg attr : 0 <= ch < 16 ->
  forall s, good b s -> live ch cfg s -> (forall c, dma_chan s !! Z.to_nat ch = Some c -> des0cnt c < max_des0cnt c - 1) ->
    ends false (create_fmt0_descript ch cfg attr) (fun _ s' => good b s' /\ live ch cfg s') s.
Proof.
  intros Hch s [Hi Hl] Hv Hlt. unfold create_fmt0_descript. chan c Hc Ho.
  destruct (live_checks ch cfg s c Hch Hv Hc) as (-> & -> & Hu). cbn [negb]. destruct (Ho Hu) as (Hm & Hd & _).
  specialize (Hlt c Hc). destruct (own_block s _ c Hi Hc Hu) as (ws & Hw & _).
  destruct (SIZE_64KB - 1 <? at_size attr); [by apply ends_ret|].
  rewrite des_words_small by lia.
  apply ends_bind. eapply ends_store; [done..|lia|]. intros s1 Hi1 Hc1 Hl1 Hw1.
  apply ends_bind. eapply ends_store; [done..|lia|]. intros s2 Hi2 Hc2 Hl2 _.
  apply ends_bind, ends_upd, ends_ret. split; [|apply live_upd; [apply counts_des0|]; eapply live_same; [|done]; congruence].
  apply counts_upd; [split; [done|congruence]|apply counts_des0|]. intros c' _ _. cbn. lia.
Qed.

Lemma fmt1_steps b ch cfg attr : 0 <= ch < 16 -> steps b ch cfg (create_fmt1_descript ch cfg attr).
Proof.
  intros Hch s [Hi Hl] Hv. unfold create_fmt1_descript. chan c Hc Ho.
  destruct (live_checks ch cfg s c Hch Hv Hc) as (-> & -> & Hu). cbn [negb]. destruct (Ho Hu) as (Hm & Hd & _).
  destruct (own_block s _ c Hi Hc Hu) as (ws & Hw & _).
  destruct (SIZE_64KB - 1 <? at_size attr); [by apply ends_ret|].
  rewrite Hm, des_words_small by lia.
  apply ends_bind. eapply ends_store; [done..|lia|]. intros s1 Hi1 Hc1 Hl1 Hw1.
  apply ends_bind. eapply ends_store; [done..|lia|]. intros s2 Hi2 Hc2 Hl2 Hw2.
  apply ends_bind. eapply ends_store; [done..|lia|]. intros s3 Hi3 Hc3 Hl3 _.
  apply ends_bind, ends_upd, ends_ret. split; [|apply live_upd; [apply counts_des0|]; eapply live_same; [|done]; congruence].
  apply counts_upd; [split; [done|congruence]|apply counts_des0|]. intros c' _ _. cbn. lia.
Qed.

(** ** Adding descriptors *)

Definition rest_of (r : Z) : Z := if SIZE_32KB <? r then r - SIZE_32KB else 0.

Lemma add_round_steps b ch cfg size a s : 0 <= ch < 16 -> good b s -> live ch cfg s ->
  ends false (add_round ch cfg size a)
    (fun a' s' => residue_size a' = rest_of (residue_size a) /\ good b s' /\ live ch cfg s') s.
Proof.
  intros Hch Hg Hv. unfold add_round, rest_of. apply ends_bind.
  apply (ends_mono _ _ (fun _ s' => good b s' /\ live ch cfg s')).
  2: { destruct (_ =? size); [|by apply ends_ret]. apply ends_bind.
       eapply ends_mono; [|by apply clear_last_steps]. intros r s' H. by apply ends_ret. }
  clear s Hg Hv. intros _ s [Hg Hv].
  destruct (SIZE_32KB <? residue_size a).
  all: destruct Hg as [Hi Hl]; chan c Hc Ho; destruct (live_checks ch cfg s c Hch Hv Hc) as (_ & _ & Hu).
  all: destruct (_ <=? u32 (accu_size c + _)); apply ends_bind, ends_upd.
  all: match goal with |- context [alter (with_accu ?n)] =>
         assert (good b (with_chans (alter (with_accu n) (Z.to_nat ch) (dma_chan s)) s)) as Hg
           by (apply counts_upd; [by split|apply counts_accu|]; intros c' Hc' Hu'; by apply (proj1 (Forall_lookup _ _) (inv_chans s Hi) _ _ Hc'));
         pose proof (live_upd ch cfg _ s (counts_accu n) Hv) as Hv' end.
  all: apply ends_bind; destruct (Z.ltb_spec (des0cnt c) (max_des0cnt c - 1)).
  all: eapply ends_mono; [|first [apply fmt0_steps; [done..|] | by apply fmt1_steps]].
  all: try (intros r s' H'; by apply ends_ret).
  all: intros c' Hc'; cbn in Hc'; rewrite list_lookup_alter, Hc in Hc'; destruct (decide _); [|done]; cbn in Hc'; by simplify_eq/=.
Qed.

Lemma add_loop_ends b ch cfg size n a s : 0 <= ch < 16 -> good b s -> live ch cfg s ->
  residue_size a <= SIZE_32KB * Z.of_nat n ->
  ends false (loop (S n) (fun a => if 0 <? residue_size a then a' ← add_round ch cfg size a; mret (inl a')
                                   else mret (inr (xfer_index a))) a)
    (fun _ s' => good b s' /\ live ch cfg s') s.
Proof.
  intros Hch. revert a s. induction n as [|n IH]; intros a s Hg Hv Hr; (apply ends_bind;
    destruct (Z.ltb_spec 0 (residue_size a)); [apply ends_bind|by apply ends_ret]); [lia|].
  eapply ends_mono; [|by apply add_round_steps]. intros a' s' (Hr' & Hg' & Hv'). cbn beta. apply ends_ret, IH; [done..|].
  rewrite Hr'. unfold rest_of, SIZE_32KB in *. destruct (Z.ltb_spec 0x8000 (residue_size a)); lia.
Qed.

Lemma ends_checked h b ch cfg k s : good b s -> 0 <= ch ->
  (forall c, 0 <= ch < 16 -> dma_chan s !! Z.to_nat ch = Some c -> chan_ok c -> in_use c = true ->
     device_no c = DeviceReqType cfg -> ends h (k c) (fun _ s' => good b s') s) ->
  ends h (checked ch cfg k) (fun _ s' => good b s') s.
Proof.
  intros [Hi Hl] Hch H. unfold checked. destruct (Z.leb_spec MAX_DMA_CHANNELS ch) as [|Hlt]; [by apply ends_ret|].
  unfold MAX_DMA_CHANNELS in Hlt. assert (0 <= ch < 16) as Hch' by lia. chan c Hc Ho.
  destruct (in_use c) eqn:Hu; cbn [negb]; [|by apply ends_ret].
  destruct (Z.eqb_spec (device_no c) (DeviceReqType cfg)); cbn [negb]; [|by apply ends_ret]. by apply H.
Qed.

Lemma add_descript_ends e i b ch cfg ptr size s : good b s -> 0 <= ch -> 0 <= size ->
  ends false (add_descript e i ch cfg ptr size) (fun _ s' => good b s') s.
Proof.
  intros Hg Hch Hs. unfold add_descript. apply ends_checked; [done..|]. intros c Hch' Hc Ho Hu Hd.
  destruct (_ <? _); [by apply ends_ret|]. eapply ends_mono; [|apply (add_loop_ends b ch cfg size)]; try done.
  - by intros r s' [H _].
  - by exists c.
  - cbn [residue_size]. unfold descripts_needed, SIZE_32KB. destruct (Z.eqb_spec (size mod 32768) 0); dlia.
Qed.

(** ** Register accesses *)

(** Programs that keep [good b] from any state and end. *)
Definition preserves (b h : bool) {A} (m : D A) : Prop := forall s, good b s -> ends h m (fun _ s' => good b s') s.

Section preserves.
Context (b h : bool).

Lemma pres_ret {A} (a : A) : preserves b h (mret a).
Proof. intros s H. by apply ends_ret. Qed.
Lemma pres_bind {A B} (m : D A) (k : A -> D B) : preserves b h m -> (forall a, preserves b h (k a)) -> preserves b h (mbind k m).
Proof. intros Hm Hk s Hs. apply ends_bind. eapply ends_mono; [|by apply Hm]. intros a s' H. by apply Hk. Qed.
Lemma pres_if {A} (c : bool) (m n : D A) : preserves b h m -> preserves b h n -> preserves b h (if c then m else n).
Proof. by destruct c. Qed.
Lemma pres_rd a : preserves b h (rd a).
Proof. intros s H. apply ends_rd. intros v s' Hs. by eapply same_good. Qed.
Lemma pres_wr a v : preserves b h (wr a v).
Proof. intros s H. apply ends_wr. intros s' Hs. by eapply same_good. Qed.
Lemma pres_set a m : preserves b h (set_bits a m).
Proof. intros s H. apply ends_set. intros s' Hs. by eapply same_good. Qed.
Lemma pres_clear a m : preserves b h (clear_bits a m).
Proof. intros s H. apply ends_clear. intros s' Hs. by eapply same_good. Qed.
Lemma pres_tells n : preserves b h (tells n).
Proof. intros s [Hi Hl]. split; [|done]. by eapply inv_soft; [|exact Hi]. Qed.
Lemma pres_request v : preserves b h (modify (with_request v)).
Proof. intros s [Hi Hl]. split; [|done]. by eapply inv_soft; [|exact Hi]. Qed.
Lemma pres_gets {A} (f : dma_st -> A) : preserves b h (gets f).
Proof. by intros s H. Qed.

Lemma pres_upd ch f : counts_only f -> (forall c, 0 <= des0cnt c <= 126 -> 0 <= des0cnt (f c) <= 126) -> preserves b h (upd ch f).
Proof.
  intros Hf Hd s Hg. apply ends_upd, counts_upd; [done..|]. intros c Hc Hu.
  destruct Hg as [Hi _]. apply Hd. by apply (proj1 (Forall_lookup _ _) (inv_chans s Hi) _ _ Hc).
Qed.
End preserves.

(** [chan_at] where only the invariant is needed afterwards. *)
Lemma pres_chan b h ch {A} (k : dma_info_s -> D A) : 0 <= ch < 16 ->
  (forall c, chan_ok c -> preserves b h (k c)) -> preserves b h (mbind k (chan_at ch)).
Proof. intros Hch Hk s Hg. pose proof Hg as [Hi _]. chan c Hc Ho. by apply Hk. Qed.

Ltac keep := repeat match goal with
  | |- preserves _ _ (mret _) => apply pres_ret
  | |- preserves _ _ (if _ then _ else _) => apply pres_if
  | |- preserves _ _ (mbind _ _) => apply pres_bind
  | |- preserves _ _ (rd _) => apply pres_rd
  | |- preserves _ _ (wr _ _) => apply pres_wr
  | |- preserves _ _ (set_bits _ _) => apply pres_set
  | |- preserves _ _ (clear_bits _ _) => apply pres_clear
  | |- preserves _ _ (tells _) => apply pres_tells
  | |- preserves _ _ (modify (with_request _)) => apply pres_request
  | |- preserves _ _ (gets _) => apply pres_gets
  | |- forall _, _ => progress intros ?
  end.

(** ** The calls that do not wait *)

Lemma pres_add e i b ch cfg ptr size : 0 <= ch -> 0 <= size -> preserves b false (add_descript e i ch cfg ptr size).
Proof. intros Hch Hs s Hg. by apply add_descript_ends. Qed.

Lemma pres_start e i b ch ptr ptr2 size : 0 <= ch < 16 -> 0 <= size -> preserves b false (wmt_start_dma e i ch ptr ptr2 size).
Proof.
  intros Hch Hs. unfold wmt_start_dma. apply pres_if; [keep|]. apply pres_chan; [done|]. intros c _.
  apply pres_bind; [apply pres_add; lia|]. intros n. apply pres_if; [keep|].
  apply pres_chan; [done|]. intros c' _. apply pres_bind; [by apply pres_upd|]. keep.
Qed.

Lemma pres_wake e i b ch ptr ptr2 size : 0 <= ch < 16 -> 0 <= size -> preserves b false (wmt_wake_dma e i ch ptr ptr2 size).
Proof.
  intros Hch Hs. unfold wmt_wake_dma. apply pres_if; [keep|]. apply pres_chan; [done|]. intros c _.
  apply pres_if; [keep|]. apply pres_bind; [keep|]. intros v. apply pres_if; [|keep].
  apply pres_bind; [apply pres_add; lia|]. intros n.
  apply pres_chan; [done|]. intros c' _. apply pres_bind; [by apply pres_upd|]. keep.
Qed.

Lemma pres_clear_dma b h ch : 0 <= ch < 16 -> preserves b h (wmt_clear_dma ch).
Proof. intros Hch. unfold wmt_clear_dma. apply pres_chan; [done|]. intros c _. keep. by apply pres_upd. Qed.

Lemma pres_reset b h ch : 0 <= ch -> preserves b h (wmt_reset_dma ch).
Proof.
  intros Hch. unfold wmt_reset_dma. destruct (Z.leb_spec MAX_DMA_CHANNELS ch) as [|H]; [keep|].
  apply pres_clear_dma. unfold MAX_DMA_CHANNELS in H. lia.
Qed.

Lemma pres_busy b h ch : 0 <= ch -> preserves b h (wmt_dma_busy ch).
Proof.
  intros Hch. unfold wmt_dma_busy. destruct (Z.leb_spec MAX_DMA_CHANNELS ch) as [|H]; [keep|].
  apply pres_chan; [unfold MAX_DMA_CHANNELS in H; lia|]. keep.
Qed.

Lemma pres_setup b h ch cfg : 0 <= ch -> preserves b h (wmt_setup_dma ch cfg).
Proof.
  intros Hch s Hg. unfold wmt_setup_dma. apply ends_checked; [done..|]. intros c Hch' Hc Ho Hu Hd.
  apply ends_bind. unfold ends at 1, set_table. destruct Hg as [Hi Hl]. destruct (Ho Hu) as (_ & _ & Hdev).
  rewrite (inv_table s Hi). rewrite (proj2 (Z.leb_le 0 (device_no c))), (proj2 (Z.ltb_lt (device_no c) (Z.of_nat 34))) by lia. cbn [andb].
  match goal with |- ends _ _ _ ?x => assert (good b x) as Hg' end.
  { split; [|done]. destruct Hi. split; try done. cbn. by rewrite length_insert. }
  revert Hg'. generalize (with_table (<[Z.to_nat (device_no c):=cfg]> (dma_device_cfg_table s)) s). clear. intros s Hg.
  match goal with |- ends _ ?m _ _ => change (ends h m (fun _ s' => good b s') s); apply (fun H : preserves b h m => H s Hg) end.
  apply pres_bind; [by apply pres_upd|]. keep.
Qed.

(** ** Giving channels out and taking them back *)

Lemma free_channel_spec l n :
  match free_channel l n with
  | Some ch => n <= ch /\ (exists c, l !! Z.to_nat (ch - n) = Some c /\ in_use c = false) /\
      forall j c, n <= j < ch -> l !! Z.to_nat (j - n) = Some c -> in_use c = true
  | None => Forall (fun c => in_use c = true) l
  end.
Proof.
  revert n. induction l as [|c l IH]; intros n; cbn [free_channel]; [constructor|].
  destruct (in_use c) eqn:Hu.
  - specialize (IH (n + 1)). destruct (free_channel l (n + 1)) as [ch|]; [|by constructor].
    destruct IH as (Hle & (c' & Hc' & Hu') & Hall). split; [lia|]. split.
    + exists c'. split; [|done]. replace (Z.to_nat (ch - n)) with (S (Z.to_nat (ch - (n + 1)))) by lia. done.
    + intros j c0 Hj Hc0. destruct (Z.to_nat (j - n)) as [|k] eqn:Ek; [by simplify_eq/=|].
      apply (Hall j c0); [lia|]. replace (Z.to_nat (j - (n + 1))) with k by lia. done.
  - split; [lia|]. split; [|intros; lia]. exists c. by replace (n - n) with 0 by lia.
Qed.

(** What the channels own, seen from one of them. *)
Lemma owned_split (i : nat) (l : list dma_info_s) c : l !! i = Some c -> exists r,
  mjoin (owned <$> l) ≡ₚ owned c ++ r /\ (forall f, mjoin (owned <$> alter f i l) ≡ₚ owned (f c) ++ r) /\
  forall j c' b, j <> i -> l !! j = Some c' -> b ∈ owned c' -> b ∈ r.
Proof.
  revert i. induction l as [|c0 l IH]; intros i Hi; [done|]. destruct i as [|i]; simplify_eq/=.
  - exists (mjoin (owned <$> l)). split_and!; [done..|]. intros [|j] c' b Hj Hc Hb; [done|].
    apply list_elem_of_join. exists (owned c'). split; [done|]. apply list_elem_of_fmap_2. by eapply list_elem_of_lookup_2.
  - destruct (IH i Hi) as (r & Hr & Hf & Ho). exists (owned c0 ++ r). split_and!.
    + rewrite Hr. by rewrite !app_assoc, (Permutation_app_comm (owned c0)).
    + intros f. rewrite (Hf f). by rewrite !app_assoc, (Permutation_app_comm (owned c0)).
    + intros [|j] c' b Hj Hc Hb; apply elem_of_app; [left; by simplify_eq/=|right]. apply (Ho j c' b); [congruence|done..].
Qed.

(** A channel gets other blocks: what it had is gone, what it gets was not there. *)
Lemma inv_reown (i : nat) c f s s' : inv s -> dma_chan s !! i = Some c -> chan_ok (f c) ->
  NoDup (owned (f c)) ->
  (forall b, b ∈ owned (f c) -> blocks s !! b = None \/ b ∈ owned c) ->
  dma_chan s' = alter f i (dma_chan s) -> dma_device_cfg_table s' = dma_device_cfg_table s ->
  (forall b, b ∈ owned (f c) -> exists ws, blocks s' !! b = Some ws /\ block_ok ws) ->
  (forall b, b ∉ owned (f c) -> b ∈ owned c -> blocks s' !! b = None) ->
  (forall b, b ∉ owned (f c) -> b ∉ owned c -> blocks s' !! b = blocks s !! b /\ pages s' !! b = pages s !! b) ->
  (forall b, b ∈ owned (f c) ++ owned c -> is_Some (pages s' !! b) <-> is_Some (blocks s' !! b)) ->
  bus_ok (pages s') (f c) ->
  inv s'.
Proof.
  intros [H1 H2 H3 H4 H5 H6 H7 H8] Hc Hok Hnd Hnew Hch Ht Hgot Hgone Hboth Hpg Hbus.
  assert (forall b, b ∉ owned (f c) -> b ∉ owned c -> blocks s' !! b = blocks s !! b) as Hkept by (intros b Hb Hb'; by apply Hboth).
  destruct (owned_split i _ c Hc) as (r & Hr & Hf & Ho). specialize (Hf f). rewrite <- Hch in Hf.
  rewrite Hr in H4. apply NoDup_app in H4 as (N1 & N2 & N3).
  assert (forall b, b ∈ r -> (b ∉ owned (f c)) /\ (b ∉ owned c)) as Hrest.
  { intros b Hb. assert (b ∉ owned c) as Hn by (intros Hc'; by apply (N2 b)). split; [|done]. intros Hb'.
    destruct (Hnew b Hb') as [E|E]; [|done]. assert (is_Some (blocks s !! b)) as [ws Hw] by (apply H5; rewrite Hr, elem_of_app; by right); congruence. }
  split.
  - rewrite Hch. by rewrite length_alter.
  - congruence.
  - rewrite Hch. apply Forall_lookup. intros j c' Hj. destruct (decide (i = j)) as [->|Hne].
    + rewrite list_lookup_alter, Hc in Hj. destruct (decide _); [|done]. by simplify_eq/=.
    + rewrite list_lookup_alter_ne in Hj by done. by eapply Forall_lookup_1.
  - rewrite Hf. apply NoDup_app. split; [done|]. split; [|done]. intros b Hb Hb'. by destruct (Hrest b Hb').
  - intros b. rewrite Hf. rewrite elem_of_app. destruct (decide (b ∈ owned (f c))) as [Hin|Hin].
    + split; [|by left]. intros _. destruct (Hgot b Hin) as (ws & -> & _). eauto.
    + destruct (decide (b ∈ owned c)) as [Hin'|Hin'].
      * rewrite (Hgone b Hin Hin'). split; [intros [|Hb]; [done|by destruct (Hrest b Hb)]|by intros [? [=]]].
      * rewrite (Hkept b Hin Hin'), <- H5, Hr, elem_of_app. split; (intros [|]; [done|by right]).
  - intros b ws Hw. destruct (decide (b ∈ owned (f c))) as [Hin|Hin].
    + destruct (Hgot b Hin) as (ws' & E & ?). congruence.
    + destruct (decide (b ∈ owned c)) as [Hin'|Hin']; [rewrite (Hgone b Hin Hin') in Hw; done|].
      rewrite (Hkept b Hin Hin') in Hw. by eapply H6.
  - intros b. destruct (decide (b ∈ owned (f c) ++ owned c)) as [Hin|Hin]; [by apply Hpg|].
    rewrite elem_of_app in Hin. destruct (Hboth b) as [-> ->]; [tauto|tauto|]. apply H7.
  - rewrite Hch. apply Forall_lookup. intros j c' Hj. destruct (decide (i = j)) as [->|Hne].
    + rewrite list_lookup_alter, Hc in Hj. destruct (decide _); [|done]. by simplify_eq/=.
    + rewrite list_lookup_alter_ne in Hj by done. intros Hu Hm.
      assert (des_0 c' ∈ r) as Hin.
      { apply (Ho j c'); [done..|]. unfold owned. rewrite Hu. by left. }
      destruct (Hrest _ Hin). destruct (Hboth (des_0 c')) as [_ ->]; [done..|].
      by apply (proj1 (Forall_lookup _ _) H8 _ _ Hj).
Qed.

Lemma alter_twice (f g : dma_info_s -> dma_info_s) (i : nat) (l : list dma_info_s) : alter g i (alter f i l) = alter (fun c => g (f c)) i l.
Proof. revert i. induction l as [|c l IH]; intros [|i]; cbn; try done. f_equal. apply IH. Qed.

(** [s'] is [s] with other channels and blocks. *)
Definition becomes (s : dma_st) (l : list dma_info_s) (m : gmap Z (list Z)) (p : gmap Z Z) (s' : dma_st) : Prop :=
  soft s' = (l, dma_device_cfg_table s, m, p) /\ dma_list_lock s' = dma_list_lock s.

Lemma becomes_same s l m p s1 s2 : becomes s l m p s1 -> same s1 s2 -> becomes s l m p s2.
Proof. intros [H1 H2] [H3 H4]. split; congruence. Qed.

Lemma clear_dma_becomes h ch s Q : inv s -> 0 <= ch < 16 ->
  (forall s', becomes s (alter clear_counts (Z.to_nat ch) (dma_chan s)) (blocks s) (pages s) s' -> Q tt s') ->
  ends h (wmt_clear_dma ch) Q s.
Proof.
  intros Hi Hch HQ. unfold wmt_clear_dma. chan c Hc Ho.
  apply ends_bind, ends_clear. intros s1 H1. apply ends_bind, ends_clear. intros s2 H2.
  apply ends_bind, ends_wr. intros s3 H3. apply ends_upd, HQ.
  assert (same s s3) as [E1 E2] by (etransitivity; [exact H1|]; by etransitivity). injection E1 as E3 E4 E5 E6.
  split; [|done]. unfold soft. cbn. by rewrite E3, E4, E5, E6.
Qed.

Lemma ends_modify h f Q s : Q tt (f s) -> ends h (modify f) Q s.
Proof. done. Qed.

(** A channel that copies memory is not in use. *)
Definition not_memory (ch : Z) (s : dma_st) : Prop :=
  forall c, dma_chan s !! Z.to_nat ch = Some c -> in_use c = true -> device_no c <> MEMORY_DMA_REQ.

#[global] Instance not_memory_dec ch s : Decision (not_memory ch s).
Proof.
  unfold not_memory. destruct (dma_chan s !! Z.to_nat ch) as [c|]; [|left; by intros].
  destruct (decide (in_use c = true -> device_no c <> MEMORY_DMA_REQ)) as [H|H]; [left|right].
  - intros c' [= <-]. exact H.
  - intros H'. by apply H, H'.
Defined.

Lemma free_becomes h ch s c Q : inv s -> 0 <= ch < 16 -> dma_chan s !! Z.to_nat ch = Some c ->
  in_use c = true -> device_no c <> DEVICE_RESERVED -> device_no c <> MEMORY_DMA_REQ ->
  (forall s', becomes s (alter release (Z.to_nat ch) (dma_chan s)) (delete (des_0 c) (blocks s)) (delete (des_0 c) (pages s)) s' -> Q tt s') ->
  ends h (wmt_free_dma ch) Q s.
Proof.
  intros Hi Hch Hc Hu Hd Hm HQ. unfold wmt_free_dma. rewrite (proj2 (Z.leb_gt MAX_DMA_CHANNELS ch)) by (unfold MAX_DMA_CHANNELS; lia).
  chan c' Hc' Ho'. simplify_eq. rewrite Hu, (proj2 (Z.eqb_neq _ _) Hd). cbn [negb].
  pose proof (proj1 (Forall_lookup _ _) (inv_bus s Hi) _ _ Hc Hu Hm) as Hb.
  apply ends_bind, clear_dma_becomes; [done..|]. intros s1 [E1 E2]. injection E1 as E3 E4 E5 E6.
  apply ends_bind. cbn [ends gets]. apply ends_bind, ends_modify, ends_bind. unfold ends at 1, dma_free_coherent. cbn.
  rewrite E6, (bool_decide_true _ Hb), (proj2 (Z.eqb_neq _ _) Hm). apply ends_bind, ends_ret, ends_upd, HQ.
  split; [|done]. unfold soft. cbn. rewrite E3, E4, E5. by rewrite (alter_twice clear_counts release).
Qed.

Lemma free_ends b h ch s : 0 <= ch -> not_memory ch s -> good b s -> ends h (wmt_free_dma ch) (fun _ s' => good b s') s.
Proof.
  intros Hch Hm [Hi Hl]. destruct (Z.leb_spec 16 ch) as [H16|H16].
  { unfold wmt_free_dma. rewrite (proj2 (Z.leb_le MAX_DMA_CHANNELS ch)) by done. by split. }
  destruct (chan_lookup s ch Hi) as (c & Hc & Hr & Ho); [lia|].
  destruct (in_use c && negb (device_no c =? DEVICE_RESERVED)) eqn:E.
  - apply andb_prop in E as [Hu Hd%negb_true_iff%Z.eqb_neq]. specialize (Hm c Hc Hu).
    assert (owned c = [des_0 c]) as Hoc by (unfold owned; by rewrite Hu, (proj2 (Z.eqb_neq _ _) Hm)).
    apply (free_becomes h ch s c); [done|lia|done..|]. intros s' [E1 E2]. injection E1 as E3 E4 E5 E6.
    split; [|congruence]. eapply (inv_reown _ c release s s'); try done; rewrite ?E5, ?E6, ?Hoc.
    + constructor.
    + intros b' Hb'. by apply elem_of_nil in Hb'.
    + intros b' Hb'. by apply elem_of_nil in Hb'.
    + intros b' _ ->%list_elem_of_singleton. apply lookup_delete_eq.
    + intros b' _ Hb'. assert (des_0 c <> b') by (intros <-; apply Hb'; by left). by rewrite !lookup_delete_ne.
    + intros b' ->%list_elem_of_singleton. by rewrite !lookup_delete_eq.
  - unfold wmt_free_dma. rewrite (proj2 (Z.leb_gt MAX_DMA_CHANNELS ch)) by done. apply ends_bind. unfold ends. rewrite Hr.
    destruct (in_use c); [|by split]. cbn in E. apply negb_false_iff in E. rewrite E. by split.
Qed.

(** The addresses [dma_alloc_coherent] may give: not null, not in use. *)
Definition unused (s : dma_st) (v1 v2 : Z) : Prop :=
  v1 <> 0 /\ v2 <> 0 /\ v1 <> v2 /\ blocks s !! v1 = None /\ blocks s !! v2 = None.

Definition zeroes : list Z := replicate 256 0.

(** A channel that is given to [device], and the blocks with its memory. *)
Definition granted (device : Z) (cb : bool) (cfg : dma_device_cfg_s) (v1 p1 v2 p2 : Z) (c : dma_info_s) : dma_info_s :=
  let c := with_cfg cfg (with_des_0 v1 p1 127 (claim device cb c)) in
  if device =? MEMORY_DMA_REQ then with_des_1 v2 p2 127 c else c.
Definition blocks_with (device v1 v2 : Z) (m : gmap Z (list Z)) : gmap Z (list Z) :=
  if device =? MEMORY_DMA_REQ then <[v2 := zeroes]> (<[v1 := zeroes]> m) else <[v1 := zeroes]> m.
Definition pages_with (device v1 p1 v2 p2 : Z) (m : gmap Z Z) : gmap Z Z :=
  if device =? MEMORY_DMA_REQ then <[v2 := p2]> (<[v1 := p1]> m) else <[v1 := p1]> m.

Lemma ends_init {A} h (o : option A) a Q s : o = Some a -> Q a s -> ends h (initialised o) Q s.
Proof. by intros ->. Qed.

Lemma ends_alloc h v p l Q s : grants s = (v, p) :: l -> v <> 0 ->
  Q (v, p) (with_pages (<[v := p]> (pages s)) (with_blocks (<[v := zeroes]> (blocks s)) (with_grants l s))) -> ends h (dma_alloc_coherent MAX_DESCRIPT_SIZE) Q s.
Proof. intros Hg Hv H. unfold ends, dma_alloc_coherent. rewrite Hg. cbn zeta. by rewrite (proj2 (Z.eqb_neq v 0) Hv). Qed.

Lemma ends_put h a v Q s : Q tt (put_reg a v s) -> ends h (wr a v) Q s.
Proof. done. Qed.

Lemma request_becomes device cb v1 p1 v2 p2 cfg ch s :
  grants s = [(v1, p1); (v2, p2)] -> dma_list_lock s = false -> v1 <> 0 -> v2 <> 0 ->
  dma_device_cfg_table s !! Z.to_nat device = Some cfg -> free_channel (tail (dma_chan s)) 1 = Some ch ->
  ends false (wmt_request_dma device cb) (fun r s' => r = (0, ch) /\
    becomes s (alter (granted device cb cfg v1 p1 v2 p2) (Z.to_nat ch) (dma_chan s)) (blocks_with device v1 v2 (blocks s)) (pages_with device v1 p1 v2 p2 (pages s)) s') s.
Proof.
  intros Hg Hl Hv1 Hv2 Ht Hf. unfold wmt_request_dma. apply ends_bind. unfold ends at 1, spin_lock. rewrite Hl.
  apply ends_bind. cbn [ends gets]. cbn. rewrite Hf. apply ends_bind, ends_modify, ends_bind. cbn [ends gets].
  apply ends_bind, ends_modify, ends_bind, ends_upd.
  do 3 apply ends_bind, ends_put. apply ends_bind. eapply ends_alloc; [exact Hg|done|]. cbn beta iota.
  apply ends_bind, ends_upd, ends_bind. cbn [ends gets]. apply ends_bind. eapply ends_init; [exact Ht|].
  apply ends_bind, ends_upd, ends_bind, ends_put, ends_bind. unfold granted, blocks_with, pages_with.
  destruct (device =? MEMORY_DMA_REQ); cbn [negb].
  - apply ends_bind. eapply ends_alloc; [reflexivity|done|]. cbn beta iota. apply ends_upd, ends_ret. split; [done|].
    split; [|done]. unfold soft. cbn. by rewrite !alter_twice.
  - apply ends_set. intros s' Hs. apply ends_ret. split; [done|]. eapply becomes_same; [|exact Hs].
    split; [|done]. unfold soft. cbn. by rewrite !alter_twice.
Qed.

Lemma request_full device cb s :
  dma_list_lock s = false -> free_channel (tail (dma_chan s)) 1 = None ->
  wmt_request_dma device cb s = Ok ((- EBUSY, u32 (-1)), with_lock true s).
Proof. intros Hl Hf. unfold wmt_request_dma, spin_lock, mbind, M_bind, gets. rewrite Hl. cbn. by rewrite Hf. Qed.

(** The channel that is found. *)
Lemma free_channel_found s ch : inv s -> free_channel (tail (dma_chan s)) 1 = Some ch ->
  1 <= ch < 16 /\ exists c, dma_chan s !! Z.to_nat ch = Some c /\ in_use c = false.
Proof.
  intros Hi Hf. pose proof (free_channel_spec (tail (dma_chan s)) 1) as H. rewrite Hf in H.
  destruct H as (Hle & (c & Hc & Hu) & _). pose proof (inv_count s Hi) as Hn.
  destruct (dma_chan s) as [|c0 l] eqn:E; [done|]. cbn in Hc, Hn. pose proof (lookup_lt_Some _ _ _ Hc).
  split; [lia|]. exists c. split; [|done]. by replace (Z.to_nat ch) with (S (Z.to_nat (ch - 1))) by lia.
Qed.

Lemma granted_inv device cb cfg v1 p1 v2 p2 ch c s s' :
  inv s -> 0 <= device < 34 -> unused s v1 v2 -> dma_chan s !! Z.to_nat ch = Some c -> in_use c = false ->
  becomes s (alter (granted device cb cfg v1 p1 v2 p2) (Z.to_nat ch) (dma_chan s)) (blocks_with device v1 v2 (blocks s)) (pages_with device v1 p1 v2 p2 (pages s)) s' ->
  inv s'.
Proof.
  intros Hi Hd (N1 & N2 & N3 & F1 & F2) Hc Hu [E1 E2]. injection E1 as E3 E4 E5 E6.
  assert (owned c = []) as Hoc by (unfold owned; by rewrite Hu).
  assert (block_ok zeroes) as Hz by (split; [done|]; by apply Forall_replicate).
  assert (owned (granted device cb cfg v1 p1 v2 p2 c) = if device =? MEMORY_DMA_REQ then [v1; v2] else [v1]) as Ho.
  { unfold granted. destruct (device =? MEMORY_DMA_REQ) eqn:E; unfold owned; cbn; by rewrite E. }
  eapply (inv_reown _ c (granted device cb cfg v1 p1 v2 p2) s s'); try done; rewrite ?Ho, ?E5, ?E6, ?Hoc; unfold blocks_with, pages_with.
  - intros _. unfold granted. by destruct (device =? MEMORY_DMA_REQ).
  - destruct (device =? MEMORY_DMA_REQ); repeat constructor; rewrite ?elem_of_cons, elem_of_nil; intuition.
  - intros b. destruct (device =? MEMORY_DMA_REQ); rewrite ?elem_of_cons, elem_of_nil; left; intuition congruence.
  - intros b. destruct (device =? MEMORY_DMA_REQ); rewrite ?elem_of_cons, elem_of_nil; intros Hb; exists zeroes; (split; [|done]).
    + destruct Hb as [->|[->|[]]]; [by rewrite lookup_insert_ne, lookup_insert_eq|by rewrite lookup_insert_eq].
    + destruct Hb as [->|[]]. by rewrite lookup_insert_eq.
  - intros b _ Hb. by apply elem_of_nil in Hb.
  - intros b. destruct (device =? MEMORY_DMA_REQ); rewrite ?elem_of_cons, elem_of_nil; intros Hb _;
      rewrite ?lookup_insert_ne by intuition; done.
  - intros b. rewrite app_nil_r. destruct (device =? MEMORY_DMA_REQ); rewrite ?elem_of_cons, elem_of_nil; intros Hb.
    + destruct Hb as [->|[->|[]]]; [rewrite !(lookup_insert_ne _ v2 v1) by done|]; rewrite !lookup_insert_eq; split; eauto.
    + destruct Hb as [->|[]]. rewrite !lookup_insert_eq. split; eauto.
  - unfold granted. destruct (Z.eqb_spec device MEMORY_DMA_REQ) as [->|Hm]; intros _; cbn; [done|]. intros _. apply lookup_insert_eq.
Qed.

(** ** Waiting for the engine *)

(** Every answer the register at [a] may give has [P]. *)
Definition all_answers (a : Z) (P : Z -> Prop) (s : dma_st) : Prop :=
  Forall (fun v => P (u32 v)) (default [] (pending (regs_of s) !! a)) /\ P (reg s a).

(** Programs that read registers and write others than the one at [a]: they end
    or wait, and keep the rest of the state and what [a] may answer. *)
Definition calm (a : Z) (P : Z -> Prop) {A} (m : D A) : Prop := forall s,
  all_answers a P s -> ends true m (fun _ s' => same s s' /\ all_answers a P s') s.

Section calm.
Context (a : Z) (P : Z -> Prop).

Lemma calm_ret {A} (x : A) : calm a P (mret x).
Proof. intros s H. by apply ends_ret. Qed.

Lemma calm_bind {A B} (m : D A) (k : A -> D B) : calm a P m -> (forall x, calm a P (k x)) -> calm a P (mbind k m).
Proof.
  intros Hm Hk s Hs. apply ends_bind. eapply ends_mono; [|by apply Hm]. intros x s1 [S1 A1].
  eapply ends_mono; [|by apply Hk]. intros y s2 [S2 A2]. split; [by etransitivity|done].
Qed.

Lemma calm_if {A} (c : bool) (m n : D A) : calm a P m -> calm a P n -> calm a P (if c then m else n).
Proof. by destruct c. Qed.

(** One read: its answer, too. *)
Lemma rd_answer b s : all_answers a P s ->
  ends false (rd b) (fun v s' => (b = a -> P v) /\ same s s' /\ all_answers a P s') s.
Proof.
  intros [H1 H2]. unfold ends, rd, on_regs, read32, reg in *. destruct (pending (regs_of s) !! b) as [[|v l]|] eqn:E.
  - split; [by intros ->|]. by rewrite with_same.
  - split.
    + intros ->. rewrite E in H1. by inversion H1.
    + split; [done|]. split; [|done]. cbn. destruct (decide (a = b)) as [->|].
      * rewrite lookup_insert_eq. rewrite E in H1. by inversion H1.
      * by rewrite lookup_insert_ne.
  - split; [by intros ->|]. by rewrite with_same.
Qed.

Lemma calm_rd b : calm a P (rd b).
Proof. intros s H. apply ends_weaken. eapply ends_mono; [|by apply rd_answer]. by intros v s' (_ & ? & ?). Qed.

Lemma calm_wr b v : a + 3 < b \/ b + 3 < a -> calm a P (wr b v).
Proof. intros Hb s [H1 H2]. split; [done|]. split; [done|]. change (P (reg (put_reg b v s) a)). by rewrite reg_put_ne. Qed.

Lemma calm_set b m : a + 3 < b \/ b + 3 < a -> calm a P (set_bits b m).
Proof. intros Hb. apply calm_bind; [apply calm_rd|]. intros v. by apply calm_wr. Qed.
Lemma calm_clear b m : a + 3 < b \/ b + 3 < a -> calm a P (clear_bits b m).
Proof. intros Hb. apply calm_bind; [apply calm_rd|]. intros v. by apply calm_wr. Qed.

Lemma poll_loop_calm fuel b ready : calm a P (on_regs (poll_loop fuel b ready)).
Proof.
  induction fuel as [|fuel IH]; intros s Hs; [done|].
  pose proof (calm_bind (rd b) (fun v => if ready v then mret tt else on_regs (poll_loop fuel b ready)) (calm_rd b)
    (fun v => calm_if _ _ _ (calm_ret tt) IH) s Hs) as H.
  revert H. unfold ends, rd, on_regs, mbind, M_bind. cbn [poll_loop]. unfold mbind, M_bind.
  destruct (read32 b (regs_of s)) as [[v h]|]; [|done]. cbn beta iota. destruct (ready v); [done|].
  change (regs_of (with_regs h s)) with h.
  by destruct (poll_loop fuel b ready h) as [[[] h']|].
Qed.

Lemma calm_poll b ready : calm a P (on_regs (poll b ready)).
Proof. intros s. apply poll_loop_calm. Qed.
End calm.

(** The registers of the engine the loops write to, and the timer's. *)
Definition elsewhere (a ch : Z) : Prop :=
  (a + 3 < DMA_CCR_CH ch \/ DMA_CCR_CH ch + 3 < a) /\ (a + 3 < OSTC_ADDR \/ OSTC_ADDR + 3 < a).

Lemma calm_oscr a ch P : elsewhere a ch -> calm a P wmt_read_oscr.
Proof.
  intros [_ H]. unfold wmt_read_oscr. apply calm_bind; [by apply calm_set|]. intros _.
  apply calm_bind; [apply calm_poll|]. intros _. apply calm_rd.
Qed.

Lemma calm_memreg a ch P fuel now : elsewhere a ch -> calm a P (memreg_loop fuel ch now).
Proof.
  intros H. induction fuel as [|fuel IH]; cbn [memreg_loop]; [by intros s|].
  apply calm_bind; [apply calm_rd|]. intros v. apply calm_if; [|apply calm_ret].
  apply calm_bind; [by eapply calm_oscr|]. intros t. apply calm_if; [apply calm_clear, H|done].
Qed.

Lemma calm_up_memreg a ch P : elsewhere a ch -> calm a P (up_memreg ch).
Proof.
  intros H. unfold up_memreg. apply calm_bind; [apply calm_set, H|]. intros _.
  apply calm_bind; [by eapply calm_oscr|]. intros now. apply calm_bind; [by intros s Hs|]. intros fuel. by apply calm_memreg.
Qed.

Lemma calm_update a ch P : elsewhere a ch -> calm a P (update_position ch).
Proof.
  intros H s Hs. unfold update_position. apply ends_bind. eapply ends_mono; [|by apply (calm_rd a P (DMA_CCR_CH ch))].
  intros v s0 [S0 A0]. destruct (has v SYSTEM_DMA_RUN).
  2: { apply ends_ret. by split. }
  apply ends_bind. unfold ends at 1, spin_lock. destruct (dma_list_lock s0) eqn:Hl; [done|].
  apply ends_bind. eapply ends_mono; [|by apply (calm_up_memreg a ch P H (with_lock true s0))].
  intros _ s1 [[E1 E2] A1]. split; [|done]. destruct S0 as [F1 F2]. split; [|cbn; congruence].
  change (soft s1 = soft s). by rewrite E1, <- F1.
Qed.

Lemma elsewhere_group ch a : 0 <= ch < 16 -> mem_reg_group ch <= a <= mem_reg_group ch + 28 -> elsewhere a ch.
Proof.
  intros Hch Ha. unfold elsewhere, DMA_CCR_CH, OSTC_ADDR, mem_reg_group, PMC_BASE, PM_CTRL_BASE_ADDR, DMA_CTRL_CFG_BASE_ADDR, DMA_MEM_REG_OFFSET in *. lia.
Qed.

(** ** Positions the engine reports *)

(** A report with nothing left to transfer, or with a command pointer inside the
    descriptors of the channel. *)
Definition idle_count (v : Z) : Prop := Z.land v DMA_DES_REQCNT_MASK = 0.
Definition inside (c : dma_info_s) (v : Z) : Prop := u32 (v - des0_phy_addr c) / 4 < 255.

(** The engine only gives such reports. *)
Definition engine_ok (ch : Z) (c : dma_info_s) (s : dma_st) : Prop :=
  all_answers (DMA_IF0RBR_CH ch) idle_count s \/ all_answers (DMA_IF0CPR_CH ch) (inside c) s.

#[global] Instance all_answers_dec a P s `{!forall v, Decision (P v)} : Decision (all_answers a P s).
Proof. unfold all_answers. apply _. Defined.
#[global] Instance engine_ok_dec ch c s : Decision (engine_ok ch c s).
Proof. unfold engine_ok, idle_count, inside. apply _. Defined.

Definition report_ok (c : dma_info_s) (g : dma_mem_reg_group_s) : Prop := idle_count (IF0RBR g) \/ inside c (IF0CPR g).

(** One field of the report. *)
Lemma read_group_answer a ch P (f : dma_mem_reg_group_s -> Z) s :
  (a = DMA_IF0RBR_CH ch /\ f = IF0RBR \/ a = DMA_IF0CPR_CH ch /\ f = IF0CPR) ->
  all_answers a P s -> ends true (read_group ch) (fun g s' => P (f g) /\ same s s' /\ all_answers a P s') s.
Proof.
  intros Hf Hs. unfold read_group.
  do 8 (apply ends_bind, ends_weaken; eapply ends_mono; [|apply (rd_answer a P); eassumption];
    let Hp := fresh "Hp" in let Hs := fresh "Hs" in intros ? ? (Hp & Hs & ?)).
  apply ends_ret. split; [|split; [|done]].
  - destruct Hf as [[-> ->]|[-> ->]]; auto.
  - repeat (etransitivity; [eassumption|]). done.
Qed.

Lemma pos_info_report ch c s : 0 <= ch < 16 -> dma_chan s !! Z.to_nat ch = Some c -> in_use c = true ->
  inv s -> engine_ok ch c s ->
  ends true (wmt_get_dma_pos_info ch) (fun g s' => (exists g', g = Some g' /\ report_ok c g') /\ same s s' /\ engine_ok ch c s') s.
Proof.
  intros Hch Hc Hu Hi He. unfold wmt_get_dma_pos_info. rewrite (proj2 (Z.leb_gt MAX_DMA_CHANNELS ch)) by (unfold MAX_DMA_CHANNELS; lia).
  chan c' Hc' Ho'. simplify_eq. rewrite Hu. cbn [negb].
  assert (forall a P f, (a = DMA_IF0RBR_CH ch /\ f = IF0RBR \/ a = DMA_IF0CPR_CH ch /\ f = IF0CPR) -> all_answers a P s ->
    ends true (update_position ch;; g ← read_group ch; mret (Some g))
      (fun g s' => (exists g', g = Some g' /\ P (f g')) /\ same s s' /\ all_answers a P s') s) as H.
  { intros a P f Hf Ha. apply ends_bind. eapply ends_mono; [|apply (calm_update a ch P); [|done]].
    - intros _ s1 [S1 A1]. apply ends_bind. eapply ends_mono; [|by apply (read_group_answer a ch P f)].
      intros g s2 (Hg & S2 & A2). apply ends_ret. split; [by exists g|]. split; [by etransitivity|done].
    - apply elsewhere_group; [done|]. destruct Hf as [[-> _]|[-> _]]; unfold DMA_IF0RBR_CH, DMA_IF0CPR_CH; lia. }
  destruct He as [He|He].
  - eapply ends_mono; [|exact (H _ _ _ (or_introl (conj eq_refl eq_refl)) He)].
    intros g s' ((g' & -> & Hg) & S1 & A1). split; [exists g'; by split; [|left]|]. by split; [|left].
  - eapply ends_mono; [|exact (H _ _ _ (or_intror (conj eq_refl eq_refl)) He)].
    intros g s' ((g' & -> & Hg) & S1 & A1). split; [exists g'; by split; [|right]|]. by split; [|right].
Qed.

Lemma same_chan s s' : same s s' -> dma_chan s' = dma_chan s.
Proof. by intros [[= -> _ _] _]. Qed.

Lemma revise_ends b ch cfg c g s : good b s -> 0 <= ch < 16 -> dma_chan s !! Z.to_nat ch = Some c -> report_ok c g ->
  ends true (revise_descript ch cfg (Some g)) (fun _ s' => good b s') s.
Proof.
  intros Hg Hch Hc Hr. unfold revise_descript. apply ends_checked; [done|lia|]. intros c' _ Hc' Ho Hu Hd. simplify_eq.
  assert (all_answers (DMA_IF0RBR_CH ch) (fun _ => True) s) as Ha by (split; [by apply Forall_true|done]).
  apply ends_bind. eapply ends_mono; [|apply (calm_update (DMA_IF0RBR_CH ch) ch (fun _ => True)); [|exact Ha]].
  2: { apply elsewhere_group; [done|]. unfold DMA_IF0RBR_CH. lia. }
  intros _ s1 [S1 _]. pose proof (same_good b s s1 S1 Hg) as [Hi1 Hl1]. rewrite <- (same_chan _ _ S1) in Hc.
  apply ends_bind. cbn [initialised]. apply ends_ret.
  destruct (Z.ltb_spec 0 (Z.land (IF0RBR g) DMA_DES_REQCNT_MASK)); [|by apply ends_ret].
  destruct Hr as [Hr|Hr]; [unfold idle_count in Hr; lia|]. unfold inside in Hr.
  destruct (own_block s1 _ c Hi1 Hc Hu) as (ws & Hw & _).
  set (off := u32 (IF0CPR g - des0_phy_addr c) / 4) in *.
  assert (0 <= off < 255) as Hoff by (pose proof (u32_bound (IF0CPR g - des0_phy_addr c)); unfold off in *; dlia).
  apply ends_bind. eapply ends_load; [done..|lia|]. intros v _.
  apply ends_bind. eapply ends_store; [done..|lia|]. intros s2 Hi2 Hc2 Hl2 Hw2.
  apply ends_bind. eapply ends_load; [done..|lia|]. intros v2 _.
  apply ends_bind. eapply ends_store; [done..|lia|]. intros s3 Hi3 Hc3 Hl3 Hw3.
  apply ends_bind. eapply ends_store; [done..|lia|]. intros s4 Hi4 Hc4 Hl4 Hw4.
  apply ends_bind. eapply ends_store; [done..|lia|]. intros s5 Hi5 Hc5 Hl5 _.
  apply ends_ret. split; [done|congruence].
Qed.

(** Reading the position and writing it back to the descriptor. *)
Lemma position_ends b ch cfg c s : good b s -> 0 <= ch < 16 -> dma_chan s !! Z.to_nat ch = Some c ->
  (in_use c = true -> engine_ok ch c s) ->
  ends true (g ← wmt_get_dma_pos_info ch; revise_descript ch cfg g) (fun _ s' => good b s') s.
Proof.
  intros Hg Hch Hc He. destruct (in_use c) eqn:Hu.
  - apply ends_bind. eapply ends_mono; [|apply (pos_info_report ch c); [done..|by apply Hg|by apply He]].
    intros g s1 ((g' & -> & Hr) & S1 & _). eapply revise_ends; [by eapply same_good|done| |done]. by rewrite (same_chan _ _ S1).
  - apply ends_bind. unfold wmt_get_dma_pos_info. rewrite (proj2 (Z.leb_gt MAX_DMA_CHANNELS ch)) by (unfold MAX_DMA_CHANNELS; lia).
    pose proof Hg as [Hi _]. chan c' Hc' Ho'. simplify_eq. rewrite Hu. apply ends_ret.
    unfold revise_descript, checked. rewrite (proj2 (Z.leb_gt MAX_DMA_CHANNELS ch)) by (unfold MAX_DMA_CHANNELS; lia).
    chan c' Hc'' Ho''. simplify_eq. rewrite Hu. by apply ends_ret.
Qed.

(** ** The calls that wait *)

Definition in_group (ch a : Z) : Prop := mem_reg_group ch <= a <= mem_reg_group ch + 28.

(** A calm program keeps what the engine reports. *)
Lemma engine_calm {A} ch c (m : D A) s : (forall a P, in_group ch a -> calm a P m) -> engine_ok ch c s ->
  ends true m (fun _ s' => same s s' /\ engine_ok ch c s') s.
Proof.
  intros Hm [He|He]; (eapply ends_mono; [|apply Hm; [|exact He]]);
    try (unfold in_group, DMA_IF0RBR_CH, DMA_IF0CPR_CH; lia); intros x s' [S1 A1]; (split; [done|]); [by left|by right].
Qed.

(** The same where nothing is known of the reports. *)
Lemma pres_calm {A} b ch (m : D A) : (forall a P, in_group ch a -> calm a P m) -> preserves b true m.
Proof.
  intros Hm s Hg. eapply ends_mono; [|apply (Hm (DMA_IF0RBR_CH ch) (fun _ => True))].
  - intros x s' [S1 _]. by eapply same_good.
  - unfold in_group, DMA_IF0RBR_CH. lia.
  - split; [by apply Forall_true|done].
Qed.

Lemma group_isr ch a : 0 <= ch < 16 -> in_group ch a -> a + 3 < DMA_ISR \/ DMA_ISR + 3 < a.
Proof. unfold in_group, mem_reg_group, DMA_ISR, DMA_CTRL_CFG_BASE_ADDR, DMA_MEM_REG_OFFSET. lia. Qed.
Lemma group_ccr ch a : 0 <= ch < 16 -> in_group ch a -> a + 3 < DMA_CCR_CH ch \/ DMA_CCR_CH ch + 3 < a.
Proof. intros Hch Ha. by apply (elsewhere_group ch a Hch). Qed.

Ltac calmly Hch := repeat match goal with
  | |- calm _ _ (mret _) => apply calm_ret
  | |- calm _ _ (if _ then _ else _) => apply calm_if
  | |- calm _ _ (mbind _ _) => apply calm_bind
  | |- calm _ _ (rd _) => apply calm_rd
  | |- calm _ _ (wr DMA_ISR _) => apply calm_wr, (group_isr _ _ Hch); assumption
  | |- calm _ _ (set_bits (DMA_CCR_CH _) _) => apply calm_set, (group_ccr _ _ Hch); assumption
  | |- calm _ _ (clear_bits (DMA_CCR_CH _) _) => apply calm_clear, (group_ccr _ _ Hch); assumption
  | |- calm _ _ (update_position _) => apply calm_update, elsewhere_group; assumption
  | |- calm _ _ (up_memreg _) => apply calm_up_memreg, elsewhere_group; assumption
  | |- calm _ _ (read_group _) => unfold read_group
  | |- forall _, _ => progress intros ?
  end.

Lemma pres_stop b ch : 0 <= ch -> preserves b true (wmt_stop_dma ch).
Proof.
  intros Hch. unfold wmt_stop_dma. destruct (Z.leb_spec MAX_DMA_CHANNELS ch) as [|H]; [keep|]. unfold MAX_DMA_CHANNELS in H.
  assert (0 <= ch < 16) as Hch' by lia. apply pres_chan; [done|]. intros c _. apply pres_if; [keep|].
  apply (pres_calm b ch). calmly Hch'.
Qed.

Lemma pres_pos_info b ch : 0 <= ch -> preserves b true (wmt_get_dma_pos_info ch).
Proof.
  intros Hch. unfold wmt_get_dma_pos_info. destruct (Z.leb_spec MAX_DMA_CHANNELS ch) as [|H]; [keep|]. unfold MAX_DMA_CHANNELS in H.
  assert (0 <= ch < 16) as Hch' by lia. apply pres_chan; [done|]. intros c _. apply pres_if; [keep|].
  apply (pres_calm b ch). calmly Hch'.
Qed.

Lemma pres_pos b ch : 0 <= ch -> preserves b true (wmt_get_dma_pos ch).
Proof.
  intros Hch. unfold wmt_get_dma_pos. destruct (Z.leb_spec MAX_DMA_CHANNELS ch) as [|H]; [keep|]. unfold MAX_DMA_CHANNELS in H.
  assert (0 <= ch < 16) as Hch' by lia. apply pres_chan; [done|]. intros c _. apply pres_if; [keep|].
  apply (pres_calm b ch). calmly Hch'.
Qed.

(** What the engine of a channel in use reports. *)
Definition reports (ch : Z) (s : dma_st) : Prop :=
  forall c, dma_chan s !! Z.to_nat ch = Some c -> in_use c = true -> engine_ok ch c s.

#[global] Instance reports_dec ch s : Decision (reports ch s).
Proof.
  unfold reports. destruct (dma_chan s !! Z.to_nat ch) as [c|]; [|left; by intros].
  destruct (decide (in_use c = true -> engine_ok ch c s)) as [H|H]; [left|right].
  - intros c' [= <-]. exact H.
  - intros H'. by apply H, H'.
Defined.

Lemma reports_calm {A} b ch (m : D A) s : (forall a P, in_group ch a -> calm a P m) -> good b s -> 0 <= ch < 16 -> reports ch s ->
  ends true m (fun _ s' => good b s' /\ reports ch s') s.
Proof.
  intros Hm Hg Hch Hr. pose proof Hg as [Hi _]. destruct (chan_lookup s ch Hi Hch) as (c & Hc & _ & _).
  destruct (in_use c) eqn:Hu.
  - eapply ends_mono; [|apply (engine_calm ch c m s Hm); by apply Hr]. intros x s' [S1 E1].
    split; [by eapply same_good|]. pose proof (same_chan _ _ S1) as E.
    intros c' Hc' _. rewrite E in Hc'. by simplify_eq.
  - eapply ends_mono; [|apply (Hm (DMA_IF0RBR_CH ch) (fun _ => True))].
    + intros x s' [S1 _]. split; [by eapply same_good|]. pose proof (same_chan _ _ S1) as E.
      intros c' Hc' Hu'. rewrite E in Hc'. simplify_eq. congruence.
    + unfold in_group, DMA_IF0RBR_CH. lia.
    + split; [by apply Forall_true|done].
Qed.

Lemma revised_ends b ch cfg s : good b s -> 0 <= ch < 16 -> reports ch s ->
  ends true (g ← wmt_get_dma_pos_info ch; revise_descript ch cfg g) (fun _ s' => good b s') s.
Proof.
  intros Hg Hch Hr. pose proof Hg as [Hi _]. destruct (chan_lookup s ch Hi Hch) as (c & Hc & _ & _).
  eapply position_ends; [done..|]. by apply Hr.
Qed.

Lemma bind_assoc {A B C} (m : D A) (k : A -> D B) (k' : B -> D C) s :
  (x ← m; y ← k x; k' y) s = (y ← (x ← m; k x); k' y) s.
Proof. unfold mbind, M_bind. by destruct (m s) as [[x s']|]. Qed.

(** The position written back, then [k]. *)
Lemma revised_then {B} b ch cfg (k : Z -> D B) s : good b s -> 0 <= ch < 16 -> reports ch s ->
  (forall r, preserves b true (k r)) ->
  ends true (g ← wmt_get_dma_pos_info ch; r ← revise_descript ch cfg g; k r) (fun _ s' => good b s') s.
Proof.
  intros Hg Hch Hr Hk. unfold ends. rewrite bind_assoc. apply ends_bind.
  eapply ends_mono; [|by apply (revised_ends b ch cfg)]. intros r s' Hg'. by apply Hk.
Qed.

Lemma resume_ends b ch s : good b s -> 0 <= ch < 16 -> reports ch s ->
  ends true (wmt_resume_dma ch) (fun _ s' => good b s') s.
Proof.
  intros Hg Hch Hr. unfold wmt_resume_dma. pose proof Hg as [Hi _]. chan c Hc Ho.
  apply ends_bind. eapply ends_mono; [|apply (reports_calm b ch); [calmly Hch|done..]]. clear s Hg Hr Hi Hc. intros v s (Hg & Hr).
  apply ends_bind. eapply ends_mono; [|apply (reports_calm b ch); [calmly Hch|done..]]. clear s Hg Hr. intros _ s (Hg & Hr).
  destruct (bad_channel ch c); [by apply ends_ret|]. apply revised_then; [done..|]. intros r. keep.
Qed.

Lemma pres_done b ch : 0 <= ch < 16 -> preserves b true (descript_done ch).
Proof.
  intros Hch. unfold descript_done. apply pres_chan; [done|]. intros c _. apply pres_bind; [|keep].
  apply pres_if; [by apply pres_upd|keep].
Qed.

Lemma channel_of_bound l n irq ch : channel_of l n irq = Some ch -> n <= ch < n + Z.of_nat (length l).
Proof.
  revert n. induction l as [|x l IH]; intros n; cbn [channel_of length]; [done|].
  destruct (irq =? x); [intros [= ->]; lia|]. intros H. apply IH in H. lia.
Qed.

Lemma irq_ends b irq s : good b s -> (forall ch, channel_of dma_irq_no 0 irq = Some ch -> reports ch s) ->
  ends true (dma_irq_handler irq) (fun _ s' => good b s') s.
Proof.
  intros Hg Hr. unfold dma_irq_handler. destruct (channel_of dma_irq_no 0 irq) as [ch|] eqn:E.
  2: { apply ends_bind, ends_rd. intros v s' Hs. apply ends_ret. by eapply same_good. }
  specialize (Hr ch eq_refl). apply channel_of_bound in E. cbn [dma_irq_no length] in E. assert (0 <= ch < 16) as Hch by lia. clear E.
  apply ends_bind. eapply ends_mono; [|apply (reports_calm b ch); [calmly Hch|done..]]. clear s Hg Hr. intros _ s (Hg & Hr).
  apply ends_bind. eapply ends_mono; [|apply (reports_calm b ch); [calmly Hch|done..]]. clear s Hg Hr. intros v s (Hg & Hr).
  pose proof Hg as [Hi _]. chan c Hc Ho. clear Hi Hc.
  apply ends_bind. eapply ends_mono; [|apply (reports_calm b ch); [calmly Hch|done..]]. clear s Hg Hr. intros _ s (Hg & Hr).
  destruct (_ =? DMA_EVT_NO_STATUS); [apply revised_then; [done..|]; intros _; by apply pres_done|].
  destruct (negb _); [|by apply pres_done].
  unfold wmt_dump_dma_regs. pose proof Hg as [Hi _]. apply ends_bind. chan c' Hc' Ho'. clear Hi Hc'.
  eapply ends_mono; [|apply (reports_calm b ch); [calmly Hch|done..]]. clear s Hg Hr. intros _ s (Hg & Hr). by apply resume_ends.
Qed.
