(* ===== verification/DmaCalls.v ===== *)
(** * The DMA driver: sequences of calls

    What the driver keeps from start-up on under any sequence of calls, when the
    calls return, and the ways in which they go wrong: a request that finds no
    free channel keeps the lock, a position reported by the engine is used without
    a test, and a channel that copies memory is freed with the wrong bus address. *)

From S2P Require Import Prelude Mmio Regs Clock Dma DmaSafe.
From stdpp Require Import list.
#[local] Open Scope Z_scope.

(** ** Sequences of calls *)

(** The calls of the driver; a request comes with the two addresses, and their
    bus addresses, that [dma_alloc_coherent] would give next. *)
Inductive call :=
| CRequest (device : Z) (cb : bool) (v1 p1 v2 p2 : Z)
| CFree (ch : Z) | CClear (ch : Z) | CReset (ch : Z) | CStop (ch : Z) | CResume (ch : Z)
| CStart (end0 int0 ch ptr ptr2 size : Z) | CWake (end0 int0 ch ptr ptr2 size : Z)
| CSetup (ch : Z) (cfg : dma_device_cfg_s)
| CPos (ch : Z) | CPosInfo (ch : Z) | CBusy (ch : Z) | CIrq (irq : Z).

Definition run_call (c : call) : D unit :=
  match c with
  | CRequest device cb v1 p1 v2 p2 => modify (with_grants [(v1, p1); (v2, p2)]);; wmt_request_dma device cb;; mret tt
  | CFree ch => wmt_free_dma ch
  | CClear ch => wmt_clear_dma ch
  | CReset ch => wmt_reset_dma ch
  | CStop ch => wmt_stop_dma ch
  | CResume ch => wmt_resume_dma ch
  | CStart e i ch ptr ptr2 size => wmt_start_dma e i ch ptr ptr2 size;; mret tt
  | CWake e i ch ptr ptr2 size => wmt_wake_dma e i ch ptr ptr2 size;; mret tt
  | CSetup ch cfg => wmt_setup_dma ch cfg;; mret tt
  | CPos ch => wmt_get_dma_pos ch;; mret tt
  | CPosInfo ch => wmt_get_dma_pos_info ch;; mret tt
  | CBusy ch => wmt_dma_busy ch;; mret tt
  | CIrq irq => dma_irq_handler irq
  end.

(** What a call relies on.  Channels are numbers of type [unsigned]; those that
    are not tested are channels of the driver.  What [dma_alloc_coherent] gives is
    null or not in use. *)
Definition guard (c : call) (s : dma_st) : Prop :=
  match c with
  | CRequest device _ v1 _ v2 _ => 0 <= device < 34 /\ (v1 = 0 \/ v2 = 0 \/ unused s v1 v2)
  | CFree ch | CReset ch | CStop ch | CSetup ch _ | CPos ch | CPosInfo ch | CBusy ch => 0 <= ch
  | CClear ch | CResume ch => 0 <= ch < 16
  | CStart _ _ ch _ _ size | CWake _ _ ch _ _ size => 0 <= ch < 16 /\ 0 <= size < 2 ^ 32
  | CIrq irq => True
  end.

(** What the driver does not survive: it does not test whether it was given
    memory, it frees a channel that copies memory with the wrong bus address, and
    it uses the position the engine reports without a test. *)
Definition trouble (c : call) (s : dma_st) : Prop :=
  match c with
  | CRequest _ _ v1 _ v2 _ => v1 = 0 \/ v2 = 0
  | CFree ch => ~ not_memory ch s
  | CResume ch => ~ reports ch s
  | CIrq irq => match channel_of dma_irq_no 0 irq with Some ch => ~ reports ch s | None => False end
  | _ => False
  end.

#[global] Instance trouble_dec c s : Decision (trouble c s).
Proof. destruct c; cbn [trouble]; try apply _. destruct (channel_of dma_irq_no 0 irq); apply _. Defined.

(** The calls that wait for the engine. *)
Definition waits (c : call) : bool :=
  match c with
  | CStop _ | CResume _ | CPos _ | CPosInfo _ | CIrq _ => true
  | _ => false
  end.

(** The only call that takes the lock and may keep it. *)
Definition keeps_lock (c : call) (s : dma_st) : bool :=
  match c with
  | CRequest _ _ _ _ _ _ => match free_channel (tail (dma_chan s)) 1 with None => true | Some _ => false end
  | _ => false
  end.

Lemma request_ends device cb v1 p1 v2 p2 s : good false s -> 0 <= device < 34 -> unused s v1 v2 ->
  ends false (run_call (CRequest device cb v1 p1 v2 p2))
    (fun _ s' => good (keeps_lock (CRequest device cb v1 p1 v2 p2) s) s') s.
Proof.
  intros [Hi Hl] Hd Hf. cbn [run_call keeps_lock]. apply ends_bind, ends_modify.
  set (s0 := with_grants [(v1, p1); (v2, p2)] s). assert (inv s0) as Hi0 by (by eapply inv_soft; [|exact Hi]).
  apply ends_bind. destruct (free_channel (tail (dma_chan s)) 1) as [ch|] eqn:Hc.
  - destruct (lookup_lt_is_Some_2 (dma_device_cfg_table s) (Z.to_nat device)) as [cfg Hcfg]; [rewrite (inv_table s Hi); lia|].
    destruct (free_channel_found s ch Hi Hc) as (Hch & c & Hcc & Hu).
    eapply ends_mono; [|apply (request_becomes device cb v1 p1 v2 p2 cfg ch s0); try done; by apply Hf].
    intros r s' [_ HB]. apply ends_ret. split; [|destruct HB as [_ HB]; rewrite HB; exact Hl].
    by apply (granted_inv device cb cfg v1 p1 v2 p2 ch c s0 s').
  - unfold ends. rewrite (request_full device cb s0) by done. apply ends_ret. split; [|done]. by eapply inv_soft; [|exact Hi0].
Qed.


(** A call that does not wait, with the lock free. *)
Lemma call_ends c s : waits c = false -> good false s -> guard c s -> ~ trouble c s ->
  ends false (run_call c) (fun _ s' => good (keeps_lock c s) s') s.
Proof.
  assert (forall A (m : D A) s, preserves false false m -> good false s -> ends false (m;; mret tt) (fun _ s' => good false s') s) as Hk.
  { intros A m s' Hm Hs. apply (pres_bind false false m (fun _ => mret tt) Hm (fun _ => pres_ret _ _ _) s' Hs). }
  destruct c; try done; intros _ Hg G T; cbn [guard trouble] in G, T; cbn [run_call keeps_lock].
  - apply request_ends; [done|apply G|]. destruct G as [_ [G|[G|G]]]; [tauto|tauto|done].
  - apply free_ends; [done| |done]. by apply dec_stable.
  - by apply pres_clear_dma.
  - by apply pres_reset.
  - apply Hk; [apply pres_start; lia|done].
  - apply Hk; [apply pres_wake; lia|done].
  - apply Hk; [by apply pres_setup|done].
  - apply Hk; [by apply pres_busy|done].
Qed.







(** ** Start-up *)

(** The static data when the kernel starts. *)
Record booted (s : dma_st) : Prop := {
  boot_chans : length (dma_chan s) = 16%nat;
  boot_table : length (dma_device_cfg_table s) = 34%nat;
  boot_blocks : blocks s = ∅;
  boot_pages : pages s = ∅;
  boot_lock : dma_list_lock s = false;
  boot_counts : length (dev_en_count (dm_clk s)) = 128%nat;
}.

(** Programs of the clock manager that only touch its counts and registers. *)
Lemma ends_clk {A} h (m : M clk A) s Q : (exists r c, m (dm_clk s) = Ok (r, c)) ->
  (forall r s', same s s' -> Q r s') -> ends h (on_clk m) Q s.
Proof. intros (r & c & H) HQ. unfold ends, on_clk. rewrite H. by apply HQ. Qed.

Lemma read32_ok a h : exists v h', read32 a h = Ok (v, h').
Proof. unfold read32. destruct (pending h !! a) as [[|]|]; eauto. Qed.

Lemma enable_runs dev (c : clk) : 0 <= dev < 128 -> length (dev_en_count c) = 128%nat ->
  exists r c', auto_pll_divisor dev CLK_ENABLE 0 0 c = Ok (r, c').
Proof.
  intros Hd Hn. cbn [auto_pll_divisor]. rewrite (proj2 (Z.ltb_lt dev 128)) by lia.
  unfold enable_dev_clk. rewrite (proj2 (Z.ltb_ge 128 dev)) by lia. unfold mbind, M_bind, get_count.
  destruct (lookup_lt_is_Some_2 (dev_en_count c) (Z.to_nat dev)) as [n ->]; [rewrite Hn; lia|].
  unfold on_hw at 1. destruct (read32_ok (gate_addr dev) (chw c)) as (v & h & ->).
  destruct (_ || _); [|by eexists _, _]. unfold set_count, modify, on_hw. cbn [chw].
  destruct (read32_ok (gate_addr dev) h) as (v' & h' & ->). cbn. by eexists _, _.
Qed.

(** The loop that marks the channels free. *)
Lemma unowned_all chs s : exists l, for_m chs (fun ch => upd ch unowned;; mret true) s = Ok (tt, with_chans l s) /\
  length l = length (dma_chan s) /\
  forall (i : nat) c, l !! i = Some c ->
    (Z.of_nat i ∈ chs \/ exists c0, dma_chan s !! i = Some c0 /\ in_use c0 = false) -> in_use c = false.
Proof.
  revert s. induction chs as [|ch chs IH]; intros s; cbn [for_m].
  - exists (dma_chan s). split; [by destruct s|]. split; [done|]. intros i c Hc [H|(c0 & H & Hu)]; [by apply elem_of_nil in H|].
    by simplify_eq.
  - destruct (IH (with_chans (alter unowned (Z.to_nat ch) (dma_chan s)) s)) as (l & Hr & Hn & Hl).
    exists l. split; [exact Hr|]. split; [rewrite Hn; cbn; by rewrite length_alter|].
    intros i c Hc Hi. apply (Hl i c Hc). cbn. destruct (decide (Z.of_nat i ∈ chs)) as [|Hin]; [by left|right].
    assert (i < length (dma_chan s))%nat as Hlt by (apply lookup_lt_Some in Hc; rewrite Hn in Hc; cbn in Hc; by rewrite length_alter in Hc).
    destruct (lookup_lt_is_Some_2 _ _ Hlt) as [c0 Hc0]. destruct (decide (i = Z.to_nat ch)) as [->|Hne].
    + exists (unowned c0). rewrite list_lookup_alter, Hc0. by destruct (decide _).
    + exists c0. rewrite list_lookup_alter_ne by done. split; [done|].
      destruct Hi as [[Hi|Hi]%elem_of_cons|(c1 & H1 & H2)]; [lia|done|]. by simplify_eq.
Qed.

Lemma pres_for {I} b h (l : list I) (body : I -> D bool) : (forall x, preserves b h (body x)) -> preserves b h (for_m l body).
Proof.
  intros H. induction l as [|x l IH]; cbn [for_m]; [apply pres_ret|]. apply pres_bind; [done|]. intros more. by apply pres_if; [|apply pres_ret].
Qed.

Lemma pres_engine b h : preserves b h enable_engine.
Proof. unfold enable_engine. keep. Qed.

Lemma free_inv s : length (dma_chan s) = 16%nat -> length (dma_device_cfg_table s) = 34%nat -> blocks s = ∅ -> pages s = ∅ ->
  Forall (fun c => in_use c = false) (dma_chan s) -> inv s.
Proof.
  intros H1 H2 H3 Hp H4. assert (mjoin (owned <$> dma_chan s) = []) as E.
  { apply join_nil_2, Forall_fmap. eapply Forall_impl; [exact H4|]. intros c Hu. unfold owned. cbn. by rewrite Hu. }
  split; try done; rewrite ?E, ?H3, ?Hp.
  - eapply Forall_impl; [exact H4|]. intros c Hu Hu'. congruence.
  - constructor.
  - intros b. rewrite lookup_empty. split; [intros Hb; by apply elem_of_nil in Hb|by intros [? [=]]].
  - intros b ws Hb. by rewrite lookup_empty in Hb.
  - intros b. by rewrite !lookup_empty.
  - eapply Forall_impl; [exact H4|]. intros c Hu Hu'. congruence.
Qed.

Lemma ends_keeps {A B} b h (m : D A) (k : A -> D B) Q s : preserves b h m -> good b s ->
  (forall a s', good b s' -> ends h (k a) Q s') -> ends h (mbind k m) Q s.
Proof. intros Hm Hg Hk. apply ends_bind. eapply ends_mono; [|by apply Hm]. intros a s' H. by apply Hk. Qed.

Lemma init_good s : booted s -> exists s0, wmt_dma_init s = Ok (0, s0) /\ good false s0.
Proof.
  intros [B1 B2 B3 Bp B4 B5]. enough (ends false wmt_dma_init (fun r s0 => r = 0 /\ good false s0) s) as H.
  { unfold ends in H. destruct (wmt_dma_init s) as [[r s0]|[]]; [|done..]. destruct H as [-> H]. by exists s0. }
  unfold wmt_dma_init. apply ends_bind, ends_clk; [by apply enable_runs|]. intros r s1 [E1 E2]. injection E1 as E3 E4 E5 E6.
  apply ends_bind, ends_modify, ends_bind.
  destruct (unowned_all channels (with_request 0 s1)) as (l & Hr & Hn & Hl). unfold ends at 1. rewrite Hr.
  change (negb (Z.land (DMA_CTRL_CFG_BASE_ADDR + DMA_MEM_REG_OFFSET) 255 =? 0)) with false. cbn iota.
  assert (good false (with_chans l (with_request 0 s1))) as Hg.
  { split; [|cbn; congruence]. apply free_inv; cbn; try congruence. { rewrite Hn. cbn. congruence. }
    apply Forall_lookup. intros i c Hc. apply (Hl i c Hc). left. apply elem_of_seqZ.
    apply lookup_lt_Some in Hc. rewrite Hn in Hc. cbn in Hc. rewrite E3, B1 in Hc. unfold MAX_DMA_CHANNELS. lia. }
  revert Hg. generalize (with_chans l (with_request 0 s1)). clear. intros s Hg.
  eapply ends_keeps; [apply pres_set|exact Hg|]. clear s Hg. intros _ s Hg.
  eapply ends_keeps; [apply pres_engine|exact Hg|]. clear s Hg. intros _ s Hg.
  eapply ends_keeps; [apply pres_for; intros x; keep|exact Hg|]. clear s Hg. intros _ s Hg.
  eapply ends_keeps; [apply pres_for; intros x; keep|exact Hg|]. clear s Hg. intros _ s Hg.
  by apply ends_ret.
Qed.

(** ** Theorems *)


(** [C18] Requesting, freeing, starting, waking, clearing, resetting, setting up
    and polling a channel return, with the invariant kept, while the lock is
    free.  The lock is free again afterwards, unless a request found every
    channel in use.  The numbers are channels and devices of the driver, a size is
    below 2^32; a request is given memory that is not null and not in use (a null
    answer of [dma_alloc_coherent] is not noticed, and breaks the invariant), and
    the channel to be freed does not copy memory. *)
Theorem dma_call_returns (c : call) (s : dma_st) :
  waits c = false -> inv s -> dma_list_lock s = false -> guard c s -> ~ trouble c s ->
  exists s', run_call c s = Ok (tt, s') /\ inv s' /\ dma_list_lock s' = keeps_lock c s.
Proof.
  intros Hw Hi Hl Hg Ht. pose proof (call_ends c s Hw (conj Hi Hl) Hg Ht) as H. unfold ends in H.
  destruct (run_call c s) as [[[] s']|[]]; [|done..]. exists s'. by destruct H.
Qed.

(** A request that finds every channel in use answers [EBUSY] and keeps the
    lock: whatever is requested next waits for ever. *)
Theorem dma_request_keeps_lock (device device' : Z) (cb cb' : bool) (s : dma_st) :
  dma_list_lock s = false -> Forall (fun c => in_use c = true) (tail (dma_chan s)) ->
  exists s', wmt_request_dma device cb s = Ok ((- EBUSY, u32 (-1)), s') /\ wmt_request_dma device' cb' s' = Fault Hang.
Proof.
  intros Hl Hall. exists (with_lock true s). split; [|done]. apply request_full; [done|].
  pose proof (free_channel_spec (tail (dma_chan s)) 1) as H. destruct (free_channel _ 1) as [ch|]; [|done].
  destruct H as (_ & (c & Hc & Hu) & _). rewrite Forall_lookup in Hall. specialize (Hall _ _ Hc). congruence.
Qed.

(** ** Waiting *)

(** The timer may be read. *)
Definition timer_ready (s : dma_st) : Prop := settled OSTA_ADDR (regs_of s) /\ has (reg s OSTA_ADDR) OSTA_RCA = false.

Definition timer_answers (s : dma_st) : list Z := default [] (pending (regs_of s) !! OSCR_ADDR).

Lemma timer_rd b s : timer_ready s -> b <> OSTA_ADDR -> b <> OSCR_ADDR ->
  ends false (rd b) (fun _ s' => timer_ready s' /\ timer_answers s' = timer_answers s /\ same s s') s.
Proof.
  intros [H1 H2] N1 N2. unfold ends, rd, on_regs, read32. destruct (pending (regs_of s) !! b) as [[|v l]|] eqn:E;
    rewrite ?with_same; try done. unfold timer_ready, timer_answers, settled in *. cbn. by rewrite !lookup_insert_ne.
Qed.

Lemma timer_wr b v s : timer_ready s -> b + 3 < OSTA_ADDR \/ OSTA_ADDR + 3 < b ->
  ends false (wr b v) (fun _ s' => timer_ready s' /\ timer_answers s' = timer_answers s /\ same s s') s.
Proof.
  intros [H1 H2] Hb. split; [|done]. split; [done|]. change (has (reg (put_reg b v s) OSTA_ADDR) OSTA_RCA = false). by rewrite reg_put_ne by lia.
Qed.

Lemma timer_read t l s : timer_ready s -> timer_answers s = t :: l ->
  ends false wmt_read_oscr (fun v s' => v = u32 t /\ timer_ready s' /\ timer_answers s' = l /\ same s s') s.
Proof.
  intros Hs Ha. unfold wmt_read_oscr. apply ends_bind. unfold set_bits. apply ends_bind.
  eapply ends_mono; [|by apply (timer_rd OSTC_ADDR)]. intros v s1 (H1 & A1 & S1).
  eapply ends_mono; [|apply timer_wr; [done|unfold OSTC_ADDR, OSTA_ADDR; lia]]. intros ? s2 (H2 & A2 & S2). apply ends_bind.
  unfold ends at 1. rewrite (poll_quiet OSTA_ADDR _ s2) by (destruct H2 as [? H2]; by rewrite ?H2).
  unfold ends, rd, on_regs, read32. rewrite <- A1, <- A2 in Ha. unfold timer_answers in Ha.
  destruct (pending (regs_of s2) !! OSCR_ADDR) as [[|t' l']|] eqn:E; [done| |done]. cbn in Ha. simplify_eq.
  split; [done|]. split; [|split; [unfold timer_answers; cbn; by rewrite lookup_insert_eq|]].
  - destruct H2 as [K1 K2]. split; [|done]. unfold settled in *. cbn. by rewrite lookup_insert_ne.
  - etransitivity; [exact S1|]. etransitivity; [exact S2|]. done.
Qed.

Definition late (now t : Z) : Prop := 15 < u32 (u32 t - now).

Lemma ccr_apart ch : 0 <= ch < 16 -> DMA_CCR_CH ch + 3 < PMC_BASE.
Proof. unfold DMA_CCR_CH, PMC_BASE, PM_CTRL_BASE_ADDR, DMA_CTRL_CFG_BASE_ADDR. lia. Qed.

Lemma memreg_ends ch now l fuel s : 0 <= ch < 16 -> timer_ready s -> timer_answers s = l -> Exists (late now) l ->
  (length l < fuel)%nat -> ends false (memreg_loop fuel ch now) (fun _ s' => same s s') s.
Proof.
  intros Hch. pose proof (ccr_apart ch Hch) as Hap.
  revert fuel s. induction l as [|t l IH]; intros fuel s Hs Ha He Hf; [by inversion He|].
  destruct fuel as [|fuel]; [cbn in Hf; lia|]. cbn [memreg_loop]. apply ends_bind.
  eapply ends_mono; [|apply (timer_rd (DMA_CCR_CH ch)); [done|unfold OSTA_ADDR, OSCR_ADDR; lia..]].
  intros v s1 (H1 & A1 & S1). destruct (has v DMA_UP_MEMREG_EN); [|by apply ends_ret].
  rewrite <- A1 in Ha. apply ends_bind. eapply ends_mono; [|by apply (timer_read t l)]. intros x s2 (-> & H2 & A2 & S2).
  assert (same s s2) as S12 by (by etransitivity).
  destruct (Z.ltb_spec 15 (u32 (u32 t - now))) as [Hlt|Hge].
  - apply ends_clear. intros s3 S3. by etransitivity.
  - inversion He as [? ? Hx|? ? Hx]; subst; [unfold late in Hx; lia|].
    eapply ends_mono; [|apply (IH fuel s2); [done..|cbn in Hf; lia]]. intros ? s3 S3. by etransitivity.
Qed.

Lemma up_memreg_ends ch now l s : 0 <= ch < 16 -> timer_ready s -> timer_answers s = now :: l -> Exists (late (u32 now)) l ->
  ends false (up_memreg ch) (fun _ s' => same s s') s.
Proof.
  intros Hch Hs Ha He. pose proof (ccr_apart ch Hch) as Hap.
  unfold up_memreg, set_bits. apply ends_bind, ends_bind.
  eapply ends_mono; [|apply (timer_rd (DMA_CCR_CH ch)); [done|unfold OSTA_ADDR, OSCR_ADDR; lia..]]. intros v s1 (H1 & A1 & S1).
  eapply ends_mono; [|apply timer_wr; [done|unfold OSTA_ADDR; lia]]. intros ? s2 (H2 & A2 & S2).
  apply ends_bind. eapply ends_mono; [|apply (timer_read now l); [done|congruence]]. intros x s3 (-> & H3 & A3 & S3).
  apply ends_bind. cbn [ends gets]. eapply ends_mono; [|apply (memreg_ends ch (u32 now) l); try done].
  - intros ? s4 S4. do 3 (etransitivity; [eassumption|]). done.
  - unfold answers. fold (timer_answers s3). rewrite A3. lia.
Qed.

(** [C36] [wmt_stop_dma] returns, and the channel is told to stop, when the timer
    moves: it may be read, and one of the values it reads as, after the first, is
    more than 15 ticks later. *)
Theorem dma_stop_returns (ch now : Z) (l : list Z) (c : dma_info_s) (s : dma_st) :
  0 <= ch < 16 -> inv s -> dma_chan s !! Z.to_nat ch = Some c -> in_use c = true ->
  timer_ready s -> timer_answers s = now :: l -> Exists (late (u32 now)) l ->
  exists s', wmt_stop_dma ch s = Ok (tt, s') /\ has (reg s' (DMA_CCR_CH ch)) SYSTEM_DMA_RUN = false /\ inv s'.
Proof.
  intros Hch Hi Hc Hu Hs Ha He. pose proof (ccr_apart ch Hch) as Hap.
  enough (ends false (wmt_stop_dma ch) (fun _ s' => has (reg s' (DMA_CCR_CH ch)) SYSTEM_DMA_RUN = false /\ same s s') s) as H.
  { unfold ends in H. destruct (wmt_stop_dma ch s) as [[[] s']|[]]; [|done..]. exists s'. destruct H as [H S]. split_and!; try done. by eapply same_inv. }
  unfold wmt_stop_dma. rewrite (proj2 (Z.leb_gt MAX_DMA_CHANNELS ch)) by (unfold MAX_DMA_CHANNELS; lia).
  chan c' Hc' Ho. simplify_eq. rewrite Hu. cbn [negb]. unfold clear_bits at 1. apply ends_bind, ends_bind.
  eapply ends_mono; [|apply (timer_rd (DMA_CCR_CH ch)); [done|unfold OSTA_ADDR, OSCR_ADDR; lia..]]. intros v s1 (H1 & A1 & S1).
  eapply ends_mono; [|apply timer_wr; [done|unfold OSTA_ADDR; lia]]. intros ? s2 (H2 & A2 & S2). apply ends_bind.
  eapply ends_mono; [|apply (timer_rd (DMA_CCR_CH ch)); [done|unfold OSTA_ADDR, OSCR_ADDR; lia..]]. intros v' s3 (H3 & A3 & S3).
  apply ends_bind. apply (ends_mono _ _ (fun _ s4 => same s3 s4)).
  2: { destruct (has v' SYSTEM_DMA_RUN); [|by apply ends_ret]. apply (up_memreg_ends ch now l); try done. congruence. }
  intros ? s4 S4. unfold clear_bits. apply ends_bind, ends_rd. intros w s5 S5. apply ends_put. split.
  - rewrite reg_put. unfold has. unfold u32, wrap. rewrite <- Z.land_ones, <- !Z.land_assoc by lia. by rewrite Z.land_0_r.
  - do 5 (etransitivity; [eassumption|]). done.
Qed.

(** ** Writing a position back *)

Lemma update_stopped ch s : settled (DMA_CCR_CH ch) (regs_of s) -> has (reg s (DMA_CCR_CH ch)) SYSTEM_DMA_RUN = false ->
  update_position ch s = Ok (tt, s).
Proof. intros Hq Hr. unfold update_position. rewrite (bind_ok _ _ _ _ _ (reg_read _ _ Hq)). by rewrite Hr. Qed.

Lemma load_run base ws off v s : blocks s !! base = Some ws -> 0 <= off -> ws !! Z.to_nat off = Some v -> des_load base off s = Ok (v, s).
Proof. intros Hb Ho Hv. unfold des_load. rewrite Hb, (proj2 (Z.leb_le 0 off)) by done. by rewrite Hv. Qed.

Lemma des_store_run base ws off v s : blocks s !! base = Some ws -> 0 <= off < Z.of_nat (length ws) ->
  des_store base off v s = Ok (tt, with_blocks (<[base := <[Z.to_nat off := u32 v]> ws]> (blocks s)) s).
Proof.
  intros Hb Ho. unfold des_store. rewrite Hb, (proj2 (Z.leb_le 0 off)), (proj2 (Z.ltb_lt off _)) by lia. done.
Qed.

Lemma store_outside base ws off v s : blocks s !! base = Some ws -> Z.of_nat (length ws) <= off -> des_store base off v s = Fault Undefined.
Proof. intros Hb Ho. unfold des_store. rewrite Hb, (proj2 (Z.ltb_ge off _)) by lia. by rewrite andb_false_r. Qed.

(** The same after an earlier store. *)
Lemma store_again base ws m off v s : 0 <= off < Z.of_nat (length ws) ->
  des_store base off v (with_blocks (<[base := ws]> m) s) = Ok (tt, with_blocks (<[base := <[Z.to_nat off := u32 v]> ws]> m) s).
Proof.
  intros Ho. rewrite (des_store_run base ws) by (cbn; rewrite ?lookup_insert_eq; done). cbn. by rewrite insert_insert_eq.
Qed.

(** A word with another count. *)
Definition with_req_count (v n : Z) : Z := u32 (Z.lor (u32 (Z.land v (Z.lnot DMA_DES_REQCNT_MASK))) n).

(** [revise_descript] on a channel that does not run: with nothing left it
    changes nothing; with a command pointer inside the descriptors it puts what is
    left, and where, into the descriptor the pointer is at and changes nothing
    else; any other pointer is not noticed, and it stores outside the memory of
    the channel. *)
Theorem dma_revise_exact (ch : Z) (c : dma_info_s) (ws : list Z) (g : dma_mem_reg_group_s) (s : dma_st) :
  0 <= ch < 16 -> inv s -> dma_chan s !! Z.to_nat ch = Some c -> in_use c = true -> device_no c = DeviceReqType (device_cfg c) ->
  blocks s !! des_0 c = Some ws -> settled (DMA_CCR_CH ch) (regs_of s) -> has (reg s (DMA_CCR_CH ch)) SYSTEM_DMA_RUN = false ->
  let n := Z.land (IF0RBR g) DMA_DES_REQCNT_MASK in
  let off := u32 (IF0CPR g - des0_phy_addr c) / 4 in
  revise_descript ch (device_cfg c) (Some g) s =
    if 0 <? n then
      if off <? 255 then
        Ok (0, with_blocks (<[des_0 c := <[Z.to_nat (off + 1) := u32 (IF0DAR g)]>
          (<[Z.to_nat off := with_req_count (default 0 (ws !! Z.to_nat off)) n]> ws)]> (blocks s)) s)
      else Fault Undefined
    else Ok (0, s).
Proof.
  intros Hch Hi Hc Hu Hd Hw Hq Hr n off. unfold revise_descript, checked.
  rewrite (proj2 (Z.leb_gt MAX_DMA_CHANNELS ch)) by (unfold MAX_DMA_CHANNELS; lia).
  destruct (chan_lookup s ch Hi Hch) as (c' & Hc' & Hrun & _). simplify_eq.
  rewrite (bind_ok _ _ _ _ _ Hrun), Hu, Hd, Z.eqb_refl. cbn [negb].
  rewrite (bind_ok _ _ _ _ _ (update_stopped ch s Hq Hr)). rewrite (bind_ok _ _ _ g s) by reflexivity.
  fold n. fold off. destruct (0 <? n); [|done].
  pose proof (u32_bound (IF0CPR g - des0_phy_addr c)) as Hb. destruct (inv_blocks s Hi _ _ Hw) as [Hl _].
  assert (0 <= off) as Hoff by (unfold off; dlia).
  destruct (Z.ltb_spec off 255) as [Hin|Hout].
  - destruct (lookup_lt_is_Some_2 ws (Z.to_nat off)) as [v Hv]; [rewrite Hl; lia|]. rewrite Hv. cbn [default option_rect].
    rewrite (bind_ok _ _ _ _ _ (load_run (des_0 c) ws off v s Hw Hoff Hv)).
    rewrite (bind_ok _ _ _ _ _ (des_store_run (des_0 c) ws off _ s Hw ltac:(rewrite Hl; lia))).
    erewrite bind_ok; [|eapply load_run; [cbn; apply lookup_insert_eq|done|apply list_lookup_insert_eq; rewrite Hl; lia]].
    do 3 (erewrite bind_ok; [|apply store_again; rewrite !length_insert, Hl; lia]). cbn [mret M_ret].
    rewrite !list_insert_insert_eq. done.
  - destruct (ws !! Z.to_nat off) as [v|] eqn:Hv.
    + pose proof (lookup_lt_Some _ _ _ Hv) as Hlt.
      rewrite (bind_ok _ _ _ _ _ (load_run (des_0 c) ws off v s Hw Hoff Hv)).
      rewrite (bind_ok _ _ _ _ _ (des_store_run (des_0 c) ws off _ s Hw ltac:(lia))).
      erewrite bind_ok; [|eapply load_run; [cbn; apply lookup_insert_eq|done|apply list_lookup_insert_eq; lia]].
      erewrite bind_ok; [|apply store_again; rewrite !length_insert, Hl; lia].
      apply bind_fault. eapply store_outside; [cbn; apply lookup_insert_eq|]. rewrite !length_insert. lia.
    + apply bind_fault. unfold des_load. rewrite Hw, (proj2 (Z.leb_le 0 off)) by done. by rewrite Hv.
Qed.

(** ** Requesting and freeing *)

(** What a request leaves, and the channel it gives. *)
Lemma request_gives device cb v1 p1 v2 p2 ch s :
  inv s -> dma_list_lock s = false -> grants s = [(v1, p1); (v2, p2)] -> unused s v1 v2 -> 0 <= device < 34 ->
  free_channel (tail (dma_chan s)) 1 = Some ch ->
  exists s1 c cfg, wmt_request_dma device cb s = Ok ((0, ch), s1) /\ inv s1 /\ 1 <= ch < 16 /\
    dma_chan s !! Z.to_nat ch = Some c /\
    becomes s (alter (granted device cb cfg v1 p1 v2 p2) (Z.to_nat ch) (dma_chan s))
      (blocks_with device v1 v2 (blocks s)) (pages_with device v1 p1 v2 p2 (pages s)) s1 /\
    dma_chan s1 !! Z.to_nat ch = Some (granted device cb cfg v1 p1 v2 p2 c).
Proof.
  intros Hi Hl Hg Hu Hd Hf.
  destruct (lookup_lt_is_Some_2 (dma_device_cfg_table s) (Z.to_nat device)) as [cfg Hcfg]; [rewrite (inv_table s Hi); lia|].
  destruct (free_channel_found s ch Hi Hf) as (Hch & c & Hc & Huc).
  pose proof (request_becomes device cb v1 p1 v2 p2 cfg ch s Hg Hl (proj1 Hu) (proj1 (proj2 Hu)) Hcfg Hf) as H.
  unfold ends in H. destruct (wmt_request_dma device cb s) as [[r s1]|[]]; [|done..]. destruct H as [-> HB].
  exists s1, c, cfg. split_and!; try done; try lia.
  - by apply (granted_inv device cb cfg v1 p1 v2 p2 ch c s s1).
  - destruct HB as [E _]. injection E as E _ _ _. rewrite E, list_lookup_alter, Hc. by destruct (decide _).
Qed.

(** [C17] [wmt_request_dma] for a device other than memory, with the lock free,
    memory that is not in use and a channel free, takes the lowest free channel from
    1 on, gives it to the device with an empty ring, and touches no other channel.
    It does so also when another channel already belongs to the device, which the
    comment above the function says is refused.  [wmt_free_dma] makes the channel
    free again and gives back its memory, so that the blocks in use, and their
    pages, are those from before.  A request for [DEVICE_RESERVED] is left out: such
    a channel is never freed; for memory see [dma_free_memory_channel]. *)
Theorem dma_request_free (device : Z) (cb : bool) (v1 p1 v2 p2 ch : Z) (s : dma_st) :
  inv s -> dma_list_lock s = false -> grants s = [(v1, p1); (v2, p2)] -> unused s v1 v2 ->
  0 <= device < DEVICE_RESERVED -> device <> MEMORY_DMA_REQ -> free_channel (tail (dma_chan s)) 1 = Some ch ->
  (forall j c, 1 <= j < ch -> dma_chan s !! Z.to_nat j = Some c -> in_use c = true) /\
  exists s1 c1, wmt_request_dma device cb s = Ok ((0, ch), s1) /\ inv s1 /\ dma_chan s1 !! Z.to_nat ch = Some c1 /\
    in_use c1 = true /\ device_no c1 = device /\ des_0 c1 = v1 /\ blocks s1 !! v1 = Some zeroes /\
    des0cnt c1 = 0 /\ residue_des0cnt c1 = 0 /\ max_des0cnt c1 = 127 /\
    (forall j, j <> Z.to_nat ch -> dma_chan s1 !! j = dma_chan s !! j) /\
    exists s2 c2, wmt_free_dma ch s1 = Ok (tt, s2) /\ inv s2 /\ blocks s2 = blocks s /\ pages s2 = pages s /\
      dma_chan s2 !! Z.to_nat ch = Some c2 /\ in_use c2 = false /\ forall j, j <> Z.to_nat ch -> dma_chan s2 !! j = dma_chan s !! j.
Proof.
  intros Hi Hl Hg Hu Hd Hm Hf. unfold DEVICE_RESERVED in Hd. split.
  { intros j c Hj Hc. pose proof (free_channel_spec (tail (dma_chan s)) 1) as H. rewrite Hf in H. destruct H as (_ & _ & H).
    apply (H j c); [done|]. destruct (dma_chan s); [done|]. by replace (Z.to_nat j) with (S (Z.to_nat (j - 1))) in Hc by lia. }
  destruct (request_gives device cb v1 p1 v2 p2 ch s) as (s1 & c & cfg & Hr & Hi1 & Hch & Hc & [E1 E2] & Hc1); [done..|lia|done|].
  injection E1 as E3 E4 E5 E6. unfold granted, blocks_with, pages_with in *. rewrite (proj2 (Z.eqb_neq _ _) Hm) in *.
  destruct Hu as (N1 & N2 & N3 & F1 & F2).
  assert (pages s !! v1 = None) as F3.
  { destruct (pages s !! v1) as [p|] eqn:E; [|done]. destruct (proj1 (inv_pages s Hi v1)) as [x Hx]; [by rewrite E|congruence]. }
  set (c1 := with_cfg cfg (with_des_0 v1 p1 127 (claim device cb c))) in *.
  exists s1, c1. split_and!; try done; [by rewrite E5, lookup_insert_eq|intros j Hj; rewrite E3; by rewrite list_lookup_alter_ne|].
  pose proof (free_ends false false ch s1 ltac:(lia)) as Hk.
  pose proof (free_becomes false ch s1 c1 (fun _ => becomes s1 (alter release (Z.to_nat ch) (dma_chan s1)) (delete v1 (blocks s1)) (delete v1 (pages s1))) Hi1 ltac:(lia) Hc1 eq_refl ltac:(cbn; unfold DEVICE_RESERVED; lia) Hm (fun s' H => H)) as Hb.
  unfold ends in Hk, Hb. destruct (wmt_free_dma ch s1) as [[[] s2]|[]]; [|done..]. destruct Hb as [K1 K2]. injection K1 as K3 K4 K5 K6.
  exists s2, (release c1). split_and!; try done.
  - apply Hk; [|by split; [|congruence]]. intros c' Hc' _. rewrite Hc1 in Hc'. by simplify_eq.
  - rewrite K5, E5. cbn. by rewrite delete_insert_id.
  - rewrite K6, E6. cbn. by rewrite delete_insert_id.
  - rewrite K3, list_lookup_alter, Hc1. by destruct (decide _).
  - intros j Hj. rewrite K3, list_lookup_alter_ne by done. rewrite E3. by rewrite list_lookup_alter_ne.
Qed.

(** [C33] Freeing a channel that copies memory.  With the lock free, a channel free
    and two blocks that are not in use and have different bus addresses, a request
    for [MEMORY_DMA_REQ] answers 0, but stores the bus address of the second block
    over that of the first; [wmt_free_dma] of the channel then gives
    [dma_free_coherent] the first block with the bus address of the second, and
    would free the pages of another block. *)
Theorem dma_free_memory_channel (cb : bool) (v1 p1 v2 p2 ch : Z) (s : dma_st) :
  inv s -> dma_list_lock s = false -> grants s = [(v1, p1); (v2, p2)] -> unused s v1 v2 -> p1 <> p2 ->
  free_channel (tail (dma_chan s)) 1 = Some ch ->
  exists s1, wmt_request_dma MEMORY_DMA_REQ cb s = Ok ((0, ch), s1) /\ wmt_free_dma ch s1 = Fault Undefined.
Proof.
  intros Hi Hl Hg Hu Hp Hf.
  destruct (request_gives MEMORY_DMA_REQ cb v1 p1 v2 p2 ch s) as (s1 & c & cfg & Hr & Hi1 & Hch & Hc & [E1 E2] & Hc1); [done..|].
  exists s1. split; [done|]. injection E1 as E3 E4 E5 E6.
  enough (ends false (wmt_clear_dma ch) (fun _ s' => pages s' = pages s1) s1) as H.
  { unfold wmt_free_dma. rewrite (proj2 (Z.leb_gt MAX_DMA_CHANNELS ch)) by (unfold MAX_DMA_CHANNELS; lia).
    destruct (chan_lookup s1 ch Hi1) as (c' & Hc' & Hrun & _); [lia|]. rewrite Hc1 in Hc'. injection Hc' as <-.
    rewrite (bind_ok _ _ _ _ _ Hrun). change (negb (in_use _)) with false. cbn iota.
    change (device_no (granted MEMORY_DMA_REQ cb cfg v1 p1 v2 p2 c)) with MEMORY_DMA_REQ.
    change (MEMORY_DMA_REQ =? DEVICE_RESERVED) with false. cbn iota.
    unfold ends in H. destruct (wmt_clear_dma ch s1) as [[[] s2]|] eqn:E; [|by destruct f].
    rewrite (bind_ok _ _ _ _ _ E). rewrite (bind_ok _ _ _ _ _ (eq_refl : gets request_chans s2 = Ok (request_chans s2, s2))).
    erewrite bind_ok by reflexivity. apply bind_fault. unfold dma_free_coherent. cbn. rewrite H, E6. unfold pages_with. cbn.
    rewrite bool_decide_false; [done|]. destruct Hu as (_ & _ & N3 & _). rewrite lookup_insert_ne by done.
    rewrite lookup_insert_eq. congruence. }
  apply clear_dma_becomes; [done|lia|]. intros s' [K _]. by injection K as _ _ _ K.
Qed.

(** ** Witnesses *)

Definition boot_chan : dma_info_s := MkChan 0 (MkCfg 0 0 0 0 0) false false 0 0 0 0 0 0 0 0 0 0 0 0.
Definition boot_dma : dma_st :=
  MkDma (mk_clk (mk_hw ∅ ∅ []) (replicate 128 0)) (replicate 16 boot_chan) 0 initial_table ∅ ∅ [] false [].

Lemma boot_booted : booted boot_dma.
Proof. by split. Qed.

(** The state a run ends in. *)
Definition ends_in {A} (m : D A) (s : dma_st) : dma_st := match m s with Ok (_, s') => s' | Fault _ => s end.


Definition ready : dma_st := ends_in wmt_dma_init boot_dma.
Definition request : call := CRequest 21 true 0xFFC00000 0x1000000 0xFFC01000 0x1001000.
(** Channel 1 belongs to the first audio device. *)
Definition demo : dma_st := ends_in (run_call request) ready.

Lemma ready_run s0 : wmt_dma_init boot_dma = Ok (0, s0) -> s0 = ready.
Proof. intros H. unfold ready, ends_in. by rewrite H. Qed.

Lemma ready_good : good false ready.
Proof. destruct (init_good boot_dma boot_booted) as (s0 & H & Hg). unfold ready, ends_in. by rewrite H. Qed.

Lemma ready_unused : unused ready 0xFFC00000 0xFFC01000.
Proof. repeat split; by vm_compute. Qed.

Lemma request_guard : guard request ready.
Proof. split; [lia|]. right. right. apply ready_unused. Qed.

Lemma request_untroubled : ~ trouble request ready.
Proof. cbn. lia. Qed.

Lemma demo_good : good false demo.
Proof.
  pose proof (call_ends request ready eq_refl ready_good request_guard request_untroubled) as H. unfold ends in H. unfold demo, ends_in.
  destruct (run_call request ready) as [[u s]|[]]; [exact H|done|done].
Qed.

Definition demo_chan : dma_info_s := default boot_chan (dma_chan demo !! 1%nat).

Lemma demo_facts : dma_chan demo !! Z.to_nat 1 = Some demo_chan /\ in_use demo_chan = true /\
  device_no demo_chan = DeviceReqType (device_cfg demo_chan) /\ blocks demo !! des_0 demo_chan = Some zeroes /\
  des0_phy_addr demo_chan = 0x1000000 /\ des0cnt demo_chan = 0 /\ residue_des0cnt demo_chan = 0.
Proof. by vm_compute. Qed.

#[local] Opaque ready demo demo_chan.

Lemma start_guard : guard (CStart 0 0 1 0x2000000 0 4096) demo.
Proof. cbn [guard]. lia. Qed.




(** Witness of [dma_call_returns]. *)
Lemma dma_call_returns_witness : exists s', run_call (CStart 0 0 1 0x2000000 0 4096) demo = Ok (tt, s') /\ inv s' /\ dma_list_lock s' = false.
Proof.
  destruct demo_good as [Hi Hl].
  exact (dma_call_returns (CStart 0 0 1 0x2000000 0 4096) demo eq_refl Hi Hl start_guard (fun f => f)).
Defined.

(** Every channel in use. *)
Definition taken : dma_st := with_chans (replicate 16 (claim 6 false boot_chan)) boot_dma.
Lemma taken_all : Forall (fun c => in_use c = true) (tail (dma_chan taken)).
Proof. cbn [taken dma_chan with_chans replicate tail]. repeat constructor. Qed.

(** Witness of [dma_request_keeps_lock]. *)
Lemma dma_request_keeps_lock_witness :
  exists s', wmt_request_dma 21 true taken = Ok ((- EBUSY, u32 (-1)), s') /\ wmt_request_dma 6 false s' = Fault Hang.
Proof. exact (dma_request_keeps_lock 21 6 true false taken eq_refl taken_all). Defined.

(** Other registers, and other grants. *)
Lemma regs_inv h s : inv s -> inv (with_dma_hw h s).
Proof. by apply inv_soft. Qed.
Lemma grants_good b l s : good b s -> good b (with_grants l s).
Proof. intros [Hi Hl]. split; [by eapply inv_soft; [|exact Hi]|done]. Qed.
Lemma grants_unused l s v1 v2 : unused s v1 v2 -> unused (with_grants l s) v1 v2.
Proof. done. Qed.
Lemma regs_chan h s : dma_chan (with_dma_hw h s) = dma_chan s.
Proof. done. Qed.

(** Witness of [dma_stop_returns]: a running channel whose update never ends, and a
    timer that moves. *)
Definition stuck : hw := mk_hw (store32 (DMA_CCR_CH 1) 0x80 ∅) {[OSCR_ADDR := [100; 105; 120]]} [].
Lemma stuck_timer : timer_ready (with_dma_hw stuck demo) /\ timer_answers (with_dma_hw stuck demo) = [100; 105; 120].
Proof. repeat split; vm_compute; reflexivity. Qed.
Lemma stuck_late : Exists (late (u32 100)) [105; 120].
Proof. apply Exists_cons_tl, Exists_cons_hd. unfold late. vm_compute. reflexivity. Qed.

Lemma dma_stop_returns_witness :
  exists s', wmt_stop_dma 1 (with_dma_hw stuck demo) = Ok (tt, s') /\ has (reg s' (DMA_CCR_CH 1)) SYSTEM_DMA_RUN = false /\ inv s'.
Proof.
  destruct demo_facts as (F1 & F2 & _). assert (0 <= 1 < 16) as Hch by lia.
  rewrite <- (regs_chan stuck demo) in F1.
  exact (dma_stop_returns 1 100 [105; 120] demo_chan (with_dma_hw stuck demo) Hch (regs_inv stuck demo (proj1 demo_good)) F1 F2 (proj1 stuck_timer) (proj2 stuck_timer) stuck_late).
Defined.

(** Witness of [dma_revise_exact]: 16 bytes are left of the second descriptor. *)
Definition left_16 : dma_mem_reg_group_s := MkGroup 16 0x2000100 0 0x1000008 0 0 0 0.

Lemma demo_stopped : settled (DMA_CCR_CH 1) (regs_of demo) /\ has (reg demo (DMA_CCR_CH 1)) SYSTEM_DMA_RUN = false.
Proof. split; vm_compute; reflexivity. Qed.

Lemma dma_revise_exact_witness :
  exists s', revise_descript 1 (device_cfg demo_chan) (Some left_16) demo = Ok (0, s').
Proof.
  destruct demo_facts as (F1 & F2 & F3 & F4 & F5 & _). assert (0 <= 1 < 16) as Hch by lia.
  pose proof (dma_revise_exact 1 demo_chan zeroes left_16 demo Hch (proj1 demo_good) F1 F2 F3 F4 (proj1 demo_stopped) (proj2 demo_stopped)) as H.
  cbv zeta in H. rewrite F5 in H. eexists. exact H.
Defined.

(** Witness of [dma_request_free]. *)
Definition stocked : dma_st := with_grants [(0xFFC00000, 0x1000000); (0xFFC01000, 0x1001000)] ready.
Lemma stocked_good : good false stocked.
Proof. apply grants_good, ready_good. Qed.
Lemma stocked_grants s : grants (with_grants [(0xFFC00000, 0x1000000); (0xFFC01000, 0x1001000)] s) = [(0xFFC00000, 0x1000000); (0xFFC01000, 0x1001000)].
Proof. done. Qed.
Lemma stocked_free : free_channel (tail (dma_chan stocked)) 1 = Some 1.
Proof. vm_compute. reflexivity. Qed.

Lemma dma_request_free_witness :
  exists s1 s2, wmt_request_dma 21 true stocked = Ok ((0, 1), s1) /\ wmt_free_dma 1 s1 = Ok (tt, s2) /\ blocks s2 = blocks stocked.
Proof.
  assert (0 <= 21 < DEVICE_RESERVED) as Hd by (unfold DEVICE_RESERVED; lia).
  assert (21 <> MEMORY_DMA_REQ) as Hm by (unfold MEMORY_DMA_REQ; lia).
  destruct (dma_request_free 21 true 0xFFC00000 0x1000000 0xFFC01000 0x1001000 1 stocked (proj1 stocked_good) (proj2 stocked_good)
    (stocked_grants ready) (grants_unused _ ready _ _ ready_unused) Hd Hm stocked_free) as (_ & s1 & c1 & H1 & H).
  destruct H as (_ & _ & _ & _ & _ & _ & _ & _ & _ & _ & s2 & c2 & H2 & _ & H3 & _). exists s1, s2. exact (conj H1 (conj H2 H3)).
Defined.

(** Witness of [dma_free_memory_channel]. *)
Lemma dma_free_memory_channel_witness :
  exists s1, wmt_request_dma MEMORY_DMA_REQ true stocked = Ok ((0, 1), s1) /\ wmt_free_dma 1 s1 = Fault Undefined.
Proof.
  assert (0x1000000 <> 0x1001000) as Hp by lia.
  exact (dma_free_memory_channel true 0xFFC00000 0x1000000 0xFFC01000 0x1001000 1 stocked (proj1 stocked_good) (proj2 stocked_good)
    (stocked_grants ready) (grants_unused _ ready _ _ ready_unused) Hp stocked_free).
Defined.
