(* ===== verification/DmaRing.v ===== *)
(** * The DMA driver: the ring of descriptors

    The engine follows the descriptors of a channel from one to the next until one
    ends the list.  Seen that way a ring holds a queue of buffers, and
    [wmt_start_dma] puts a buffer at its end.  This is proved for buffers of at
    most 32 KB; what happens to larger ones is the last part. *)

From S2P Require Import Prelude Mmio Regs Clock Dma DmaSafe DmaCalls.
From stdpp Require Import list.
#[local] Open Scope Z_scope.

(** ** What one call writes *)

Definition prev_slot (d : Z) : Z := if 0 <=? d - 1 then d - 1 else 126.
Definition next_slot (d : Z) : Z := if d <? 126 then d + 1 else 0.

Definition flags (intr fin fmt : bool) : Z :=
  Z.lor (Z.lor (if intr then DMA_INTEN_DES else 0) (if fin then DMA_DES_END else 0)) (if fmt then DMA_FORMAT_DES1 else 0).

Definition clear_end (d : Z) (ws : list Z) : list Z :=
  <[Z.to_nat (2 * d) := u32 (Z.land (default 0 (ws !! Z.to_nat (2 * d))) (Z.lnot DMA_DES_END))]> ws.

Definition put_desc (phys d : Z) (intr fin : bool) (ptr size : Z) (ws : list Z) : list Z :=
  let ws := <[Z.to_nat (2 * d + 1) := u32 ptr]> (<[Z.to_nat (2 * d) := u32 (Z.lor (flags intr fin (d =? 126)) size)]> ws) in
  if d =? 126 then <[Z.to_nat (2 * d + 2) := u32 phys]> ws else ws.

(** A state with these channels, and these words in one block. *)
Definition at_ring (base : Z) (ws : list Z) (l : list dma_info_s) (s : dma_st) : dma_st :=
  with_chans l (with_blocks (<[base := ws]> (blocks s)) s).

Section ring.
Context (base : Z) (l : list dma_info_s) (s : dma_st) (ws : list Z).
Hypothesis Hlen : length ws = 256%nat.

Lemma ring_store off v : 0 <= off < 256 -> des_store base off v (at_ring base ws l s) = Ok (tt, at_ring base (<[Z.to_nat off := u32 v]> ws) l s).
Proof.
  intros Ho. unfold des_store, at_ring. cbn. rewrite lookup_insert_eq, Hlen.
  rewrite (proj2 (Z.leb_le 0 off)), (proj2 (Z.ltb_lt off (Z.of_nat 256))) by lia. cbn. by rewrite insert_insert_eq.
Qed.

Lemma ring_load off : 0 <= off < 256 -> des_load base off (at_ring base ws l s) = Ok (default 0 (ws !! Z.to_nat off), at_ring base ws l s).
Proof.
  intros Ho. unfold des_load, at_ring. cbn. rewrite lookup_insert_eq, (proj2 (Z.leb_le 0 off)) by lia.
  destruct (lookup_lt_is_Some_2 ws (Z.to_nat off)) as [v Hv]; [rewrite Hlen; lia|]. by rewrite Hv.
Qed.

Lemma ring_chan ch c : 0 <= ch -> l !! Z.to_nat ch = Some c -> chan_at ch (at_ring base ws l s) = Ok (c, at_ring base ws l s).
Proof. intros Hch Hc. unfold chan_at. rewrite (proj2 (Z.leb_le 0 ch)) by done. cbn. by rewrite Hc. Qed.

Lemma ring_upd ch f : upd ch f (at_ring base ws l s) = Ok (tt, at_ring base ws (alter f (Z.to_nat ch) l) s).
Proof. done. Qed.
End ring.

(** The channel of a call: in use, with the device of its configuration. *)
Record ready_chan (ch : Z) (cfg : dma_device_cfg_s) (base : Z) (c : dma_info_s) : Prop := {
  rc_ch : 0 <= ch < 16;
  rc_use : in_use c = true;
  rc_dev : device_no c = DeviceReqType cfg;
  rc_max : max_des0cnt c = 127;
  rc_cnt : 0 <= des0cnt c <= 126;
  rc_base : des_0 c = base;
}.

Lemma ready_checks ch cfg base c : ready_chan ch cfg base c ->
  bad_channel ch c = false /\ negb (device_no c =? DeviceReqType cfg) = false.
Proof.
  intros []. unfold bad_channel, MAX_DMA_CHANNELS. rewrite rc_use0, rc_dev0, Z.eqb_refl.
  rewrite (proj2 (Z.leb_gt 16 ch)) by lia. done.
Qed.

Section call.
Context (ch : Z) (cfg : dma_device_cfg_s) (base : Z) (c : dma_info_s) (l : list dma_info_s) (s : dma_st) (ws : list Z).
Context (Hr : ready_chan ch cfg base c) (Hc : l !! Z.to_nat ch = Some c) (Hlen : length ws = 256%nat).

Lemma clear_last_run : clear_last_descript ch cfg (at_ring base ws l s) = Ok (0, at_ring base (clear_end (prev_slot (des0cnt c)) ws) l s).
Proof.
  destruct (ready_checks _ _ _ _ Hr) as [B1 B2]. destruct Hr. unfold clear_last_descript.
  rewrite (bind_ok _ _ _ _ _ (ring_chan base l s ws ch c ltac:(lia) Hc)). rewrite B1, B2, rc_base0, rc_max0.
  replace (if 0 <=? des0cnt c - 1 then des_words (des0cnt c - 1) else des_words (127 - 1)) with (2 * prev_slot (des0cnt c))
    by (unfold prev_slot; destruct (Z.leb_spec 0 (des0cnt c - 1)); rewrite des_words_small by lia; lia).
  assert (0 <= 2 * prev_slot (des0cnt c) < 256) as Hp by (unfold prev_slot; destruct (Z.leb_spec 0 (des0cnt c - 1)); lia).
  rewrite (bind_ok _ _ _ _ _ (ring_load base l s ws Hlen _ Hp)).
  by rewrite (bind_ok _ _ _ _ _ (ring_store base l s ws Hlen _ _ Hp)).
Qed.

Lemma flags_fmt0 intr fin : (if fin =? 1 then Z.lor (if intr =? 1 then Z.lor 0 DMA_INTEN_DES else 0) DMA_DES_END
  else if intr =? 1 then Z.lor 0 DMA_INTEN_DES else 0) = flags (intr =? 1) (fin =? 1) false.
Proof. by destruct (fin =? 1), (intr =? 1). Qed.

(** The descriptor at the index of the channel, in the format of its place. *)
Lemma descript_run attr : at_size attr < SIZE_64KB -> branch_addr attr = des0_phy_addr c \/ des0cnt c < 126 -> at_fmt attr = (if des0cnt c <? 126 then 0 else 1) ->
  (if des0cnt c <? max_des0cnt c - 1 then create_fmt0_descript ch cfg attr else create_fmt1_descript ch cfg attr) (at_ring base ws l s) =
  Ok (0, at_ring base (put_desc (des0_phy_addr c) (des0cnt c) (interrupt_en attr =? 1) (end_descript attr =? 1) (data_addr attr) (at_size attr) ws)
    (alter (with_des0cnt (next_slot (des0cnt c))) (Z.to_nat ch) l) s).
Proof.
  intros Hs Hb Hf. destruct (ready_checks _ _ _ _ Hr) as [B1 B2]. destruct Hr. unfold SIZE_64KB in Hs.
  rewrite rc_max0. change (127 - 1) with 126. unfold put_desc, next_slot.
  destruct (Z.ltb_spec (des0cnt c) 126) as [Hlt|Hge].
  - rewrite (proj2 (Z.eqb_neq (des0cnt c) 126)) by lia. unfold create_fmt0_descript.
    rewrite (bind_ok _ _ _ _ _ (ring_chan base l s ws ch c ltac:(lia) Hc)). rewrite B1, B2, rc_base0, flags_fmt0.
    rewrite des_words_small by lia. rewrite (proj2 (Z.ltb_ge (SIZE_64KB - 1) (at_size attr))) by (unfold SIZE_64KB; lia).
    erewrite bind_ok; [|apply ring_store; [exact Hlen|lia]].
    erewrite bind_ok; [|apply ring_store; [by rewrite length_insert|lia]].
    by rewrite (bind_ok _ _ _ _ _ (ring_upd base l s _ ch _)).
  - assert (des0cnt c = 126) as Hd by lia. rewrite Hd. change (126 =? 126) with true. cbn iota.
    destruct Hb as [Hb|]; [|lia]. unfold create_fmt1_descript.
    rewrite (bind_ok _ _ _ _ _ (ring_chan base l s ws ch c ltac:(lia) Hc)). rewrite B1, B2, rc_base0, rc_max0, Hf, Hb.
    change (des_words (127 - 1)) with 252. cbn [Z.eqb Pos.eqb]. rewrite (proj2 (Z.ltb_ge (SIZE_64KB - 1) (at_size attr))) by (unfold SIZE_64KB; lia).
    erewrite bind_ok; [|apply ring_store; [exact Hlen|lia]].
    erewrite bind_ok; [|apply ring_store; [by rewrite length_insert|lia]].
    erewrite bind_ok; [|apply ring_store; [by rewrite !length_insert|lia]].
    rewrite (bind_ok _ _ _ _ _ (ring_upd base l s _ ch _)). cbn [mret M_ret]. unfold flags.
    by destruct (end_descript attr =? 1), (interrupt_en attr =? 1).
Qed.
End call.

(** ** One round of the loop *)

Definition xfer_of (r : Z) : Z := if SIZE_32KB <? r then SIZE_32KB else r.
Definition accu_of (cfg : dma_device_cfg_s) (accu x : Z) : Z :=
  if ChunkSize cfg <=? u32 (accu + x) then x else u32 (accu + x).
Definition intr_of (cfg : dma_device_cfg_s) (accu x i : Z) : Z := if ChunkSize cfg <=? u32 (accu + x) then 1 else i.

(** What the round leaves of the channel. *)
Definition round_chan (cfg : dma_device_cfg_s) (x : Z) (c : dma_info_s) : dma_info_s :=
  with_des0cnt (next_slot (des0cnt c)) (with_accu (accu_of cfg (accu_size c) x) c).

Lemma ready_round ch cfg base cfg' x c : ready_chan ch cfg base c -> ready_chan ch cfg base (round_chan cfg' x c).
Proof. intros []. split; try done. cbn. unfold next_slot. destruct (Z.ltb_spec (des0cnt c) 126); lia. Qed.

Lemma alter_const (f : dma_info_s -> dma_info_s) (i : nat) (l : list dma_info_s) c :
  l !! i = Some c -> alter f i l = <[i := f c]> l.
Proof. revert i. induction l as [|c' l IH]; intros [|i] H; simplify_eq/=; [done|]. f_equal. by apply IH. Qed.

Lemma add_round_run ch cfg base c l s ws size a :
  ready_chan ch cfg base c -> l !! Z.to_nat ch = Some c -> length ws = 256%nat -> residue_size a < 2 ^ 32 ->
  let x := xfer_of (residue_size a) in
  let rest := rest_of (residue_size a) in
  let ptr := u32 (dma_ptr a + x * xfer_index a) in
  let e := if rest <=? SIZE_32KB then 1 else end_d a in
  let i := intr_of cfg (accu_size c) x (int_d a) in
  let ws1 := if residue_size a =? size then clear_end (prev_slot (des0cnt c)) ws else ws in
  add_round ch cfg size a (at_ring base ws l s) =
    Ok (MkAdd rest (u32 (xfer_index a + 1)) ptr e i,
        at_ring base (put_desc (des0_phy_addr c) (des0cnt c) (i =? 1) (e =? 1) ptr x ws1) (<[Z.to_nat ch := round_chan cfg x c]> l) s).
Proof.
  intros Hr Hc Hlen Hsz x rest ptr e i ws1. unfold add_round.
  assert (length ws1 = 256%nat) as Hlen1 by (unfold ws1, clear_end; destruct (_ =? size); by rewrite ?length_insert).
  rewrite (bind_ok _ _ _ tt (at_ring base ws1 l s)).
  2: { unfold ws1. destruct (_ =? size); [|done]. by rewrite (bind_ok _ _ _ _ _ (clear_last_run ch cfg base c l s ws Hr Hc Hlen)). }
  replace (if SIZE_32KB <? residue_size a then (SIZE_32KB, residue_size a - SIZE_32KB) else (residue_size a, 0)) with (x, rest)
    by (unfold x, rest, xfer_of, rest_of; by destruct (SIZE_32KB <? residue_size a)).
  fold ptr. rewrite (bind_ok _ _ _ _ _ (ring_chan base l s ws1 ch c ltac:(destruct Hr; lia) Hc)). fold e.
  replace (if ChunkSize cfg <=? u32 (accu_size c + x) then (1, x) else (int_d a, u32 (accu_size c + x)))
    with (i, accu_of cfg (accu_size c) x) by (unfold i, intr_of, accu_of; by destruct (ChunkSize cfg <=? u32 (accu_size c + x))).
  rewrite (bind_ok _ _ _ _ _ (ring_upd base l s ws1 ch _)).
  set (c1 := with_accu (accu_of cfg (accu_size c) x) c). set (l1 := alter _ _ l).
  assert (l1 !! Z.to_nat ch = Some c1) as Hc1 by (unfold l1; rewrite list_lookup_alter, Hc; by destruct (decide _)).
  assert (ready_chan ch cfg base c1) as Hr1 by (destruct Hr; by split).
  assert (x < SIZE_64KB) as Hx by (unfold x, xfer_of, SIZE_32KB, SIZE_64KB; destruct (Z.ltb_spec 32768 (residue_size a)); lia).
  pose proof (descript_run ch cfg base c1 l1 s ws1 Hr1 Hc1 Hlen1
    (if des0cnt c <? 126 then MkAttr e i x 0 ptr 0 else MkAttr e i x 1 ptr (des0_phy_addr c))) as Hcr.
  rewrite (bind_ok _ _ _ 0 (at_ring base (put_desc (des0_phy_addr c) (des0cnt c) (i =? 1) (e =? 1) ptr x ws1)
    (alter (with_des0cnt (next_slot (des0cnt c))) (Z.to_nat ch) l1) s)).
  - cbn [mret M_ret]. unfold l1. rewrite alter_twice, (alter_const _ _ _ _ Hc). done.
  - change (des0cnt c1) with (des0cnt c) in Hcr. change (des0_phy_addr c1) with (des0_phy_addr c) in Hcr.
    change (max_des0cnt c1) with (max_des0cnt c) in Hcr. destruct Hr. rewrite rc_max0 in Hcr |- *. change (127 - 1) with 126 in *.
    destruct (Z.ltb_spec (des0cnt c) 126) as [Hlt|Hge]; cbn [at_size branch_addr at_fmt interrupt_en end_descript data_addr] in Hcr;
      apply Hcr; auto.
Qed.

(** ** The engine

    A descriptor has a count and flags in its first word, the address of the
    buffer in its second and, in format 1, the bus address of the next descriptor
    in its third.  The engine transfers the buffer, and stops at a descriptor
    with [DMA_DES_END]. *)
Fixpoint follow (n : nat) (phys : Z) (ws : list Z) (off : Z) : option (list (Z * Z)) :=
  match n with
  | O => None
  | S n' =>
      w ← ws !! Z.to_nat off;
      a ← ws !! Z.to_nat (off + 1);
      let b := (a, Z.land w DMA_DES_REQCNT_MASK) in
      if has w DMA_DES_END then Some [b]
      else
        next ← (if has w DMA_FORMAT_DES1 then br ← ws !! Z.to_nat (off + 2); Some (u32 (br - phys) / 4) else Some (off + 2));
        l ← follow n' phys ws next;
        Some (b :: l)
  end.

(** A slot of the ring with a buffer, the last one or not. *)
Definition slot_holds (ws : list Z) (phys i : Z) (b : Z * Z) (fin : bool) : Prop :=
  exists w, ws !! Z.to_nat (2 * i) = Some w /\ Z.land w DMA_DES_REQCNT_MASK = b.2 /\ has w DMA_DES_END = fin /\
    has w DMA_FORMAT_DES1 = (i =? 126) /\ ws !! Z.to_nat (2 * i + 1) = Some b.1 /\
    (i = 126 -> ws !! Z.to_nat (2 * i + 2) = Some phys).

Definition slot (k : Z) (j : nat) : Z := (k + Z.of_nat j) mod 127.

(** The ring holds the queue [q] from slot [k] on. *)
Definition ring (ws : list Z) (phys k : Z) (q : list (Z * Z)) : Prop :=
  forall j b, q !! j = Some b -> slot_holds ws phys (slot k j) b (S j =? length q)%nat.

Lemma slot_bound k j : 0 <= slot k j < 127.
Proof. unfold slot. dlia. Qed.
Lemma slot_0 k : 0 <= k < 127 -> slot k 0 = k.
Proof. intros H. unfold slot. rewrite Z.mod_small; lia. Qed.
Lemma slot_S k j : slot k (S j) = next_slot (slot k j).
Proof. unfold slot, next_slot. destruct (Z.ltb_spec ((k + Z.of_nat j) mod 127) 126); rewrite Nat2Z.inj_succ; dlia. Qed.
Lemma slot_shift k j : slot (slot k 1) j = slot k (S j).
Proof. unfold slot. rewrite Nat2Z.inj_succ. dlia. Qed.
Lemma slot_prev k j : prev_slot (slot k (S j)) = slot k j.
Proof. pose proof (slot_bound k j). rewrite slot_S. unfold next_slot, prev_slot. destruct (Z.ltb_spec (slot k j) 126); case_bool; lia. Qed.
Lemma slot_inj k (i j : nat) : (i < j)%nat -> (j < i + 127)%nat -> slot k i <> slot k j.
Proof. intros H1 H2. unfold slot. dlia. Qed.

(** The engine finds the queue. *)
Lemma ring_follow ws phys k q : 0 <= k < 127 -> 0 <= phys < 2 ^ 32 -> q <> [] -> ring ws phys k q -> follow (length q) phys ws (2 * k) = Some q.
Proof.
  intros Hk Hp. revert k Hk. induction q as [|b q IH]; intros k Hk Hne Hq; [done|].
  destruct (Hq 0%nat b eq_refl) as (w & W1 & W2 & W3 & W4 & W5 & W6). rewrite slot_0 in * by done.
  cbn [length follow]. rewrite W1. cbn [mbind option_bind]. rewrite W5. cbn [mbind option_bind]. rewrite W2. replace (b.1, b.2) with b by (by destruct b).
  rewrite W3. destruct q as [|b' q]; [done|]. change (1 =? length (b :: b' :: q))%nat with false. cbn iota.
  assert (follow (length (b' :: q)) phys ws (2 * slot k 1) = Some (b' :: q)) as HI.
  { apply IH; [apply slot_bound|done|]. intros j b0 Hj. rewrite slot_shift. apply (Hq (S j) b0 Hj). }
  rewrite slot_S, slot_0 in HI by done. unfold next_slot in HI. rewrite W4. destruct (Z.eqb_spec k 126) as [->|Hn].
  - rewrite W6 by done. cbn [mbind option_bind]. rewrite Z.sub_diag. change (u32 0 / 4) with (2 * 0).
    change (126 <? 126) with false in HI. cbn iota in HI. rewrite HI. done.
  - cbn [mbind option_bind]. rewrite (proj2 (Z.ltb_lt k 126)) in HI by lia. replace (2 * k + 2) with (2 * (k + 1)) by lia. rewrite HI. done.
Qed.

(** ** Putting a buffer at the end *)

Lemma new_word intr fin fmt size : 0 <= size < 2 ^ 16 ->
  let w := u32 (Z.lor (flags intr fin fmt) size) in
  Z.land w DMA_DES_REQCNT_MASK = size /\ has w DMA_DES_END = fin /\ has w DMA_FORMAT_DES1 = fmt.
Proof.
  intros Hs. cbv zeta. assert (forall n, 16 <= n -> Z.land size (BIT n) = 0) as Hhigh.
  { intros n Hn. apply Z.bits_inj'. intros m Hm. rewrite Z.land_spec, BIT_bits, Z.bits_0 by lia.
    destruct (Z.eqb_spec n m) as [->|]; [|apply andb_false_r]. by rewrite (bits_above 16 size) by lia. }
  rewrite u32_small.
  2: { apply lor_below; [lia| |lia]. by destruct intr, fin, fmt; vm_compute. }
  unfold has. rewrite !Z.land_lor_distr_l. unfold DMA_DES_END, DMA_FORMAT_DES1 in *. rewrite !Hhigh, !Z.lor_0_r by lia.
  split; [|by destruct intr, fin, fmt]. change DMA_DES_REQCNT_MASK with (Z.ones 16). rewrite (Z.land_ones size), (Z.mod_small size) by lia.
  by destruct intr, fin, fmt.
Qed.

Lemma cleared_word w : word_ok w ->
  let w' := u32 (Z.land w (Z.lnot DMA_DES_END)) in
  Z.land w' DMA_DES_REQCNT_MASK = Z.land w DMA_DES_REQCNT_MASK /\ has w' DMA_DES_END = false /\
  has w' DMA_FORMAT_DES1 = has w DMA_FORMAT_DES1.
Proof.
  intros Hw. cbv zeta. destruct (mask_split w DMA_DES_END Hw ltac:(by vm_compute)) as [-> _]. unfold has.
  rewrite <- !Z.land_assoc. change (Z.land (Z.lnot DMA_DES_END) DMA_DES_REQCNT_MASK) with DMA_DES_REQCNT_MASK.
  change (Z.land (Z.lnot DMA_DES_END) DMA_FORMAT_DES1) with DMA_FORMAT_DES1.
  change (Z.land (Z.lnot DMA_DES_END) DMA_DES_END) with 0. by rewrite Z.land_0_r.
Qed.

Lemma put_desc_here phys d intr fin ptr size ws : length ws = 256%nat -> 0 <= d <= 126 -> 0 <= ptr < 2 ^ 32 -> 0 <= phys < 2 ^ 32 ->
  0 <= size < 2 ^ 16 -> slot_holds (put_desc phys d intr fin ptr size ws) phys d (ptr, size) fin.
Proof.
  intros Hl Hd Hp Hph Hs. destruct (new_word intr fin (d =? 126) size Hs) as (N1 & N2 & N3). unfold put_desc.
  exists (u32 (Z.lor (flags intr fin (d =? 126)) size)). split; [|split; [done|split; [done|split; [done|split]]]].
  - destruct (d =? 126); [rewrite list_lookup_insert_ne by lia|];
      rewrite list_lookup_insert_ne by lia; apply list_lookup_insert_eq; lia.
  - rewrite (u32_small ptr) by done. destruct (d =? 126); [rewrite list_lookup_insert_ne by lia|];
      apply list_lookup_insert_eq; rewrite length_insert; lia.
  - intros ->. cbn [Z.eqb Pos.eqb]. rewrite (u32_small phys) by done. apply list_lookup_insert_eq. rewrite !length_insert. lia.
Qed.

Lemma put_desc_other phys phys' d intr fin ptr size ws i b f : 0 <= d <= 126 -> 0 <= i <= 126 -> i <> d ->
  slot_holds ws phys' i b f -> slot_holds (put_desc phys d intr fin ptr size ws) phys' i b f.
Proof.
  intros Hd Hi Hne (w & W1 & W2 & W3 & W4 & W5 & W6). unfold put_desc. destruct (Z.eqb_spec d 126) as [->|Hd'].
  - exists w. rewrite !list_lookup_insert_ne by lia. split_and!; try done.
  - exists w. rewrite !list_lookup_insert_ne by lia. split_and!; try done. intros ->. rewrite !list_lookup_insert_ne by lia. by apply W6.
Qed.

Lemma clear_end_here phys ws i b f : Forall word_ok ws -> slot_holds ws phys i b f -> 0 <= i <= 126 ->
  slot_holds (clear_end i ws) phys i b false.
Proof.
  intros Hws (w & W1 & W2 & W3 & W4 & W5 & W6) Hi. destruct (cleared_word w) as (C1 & C2 & C3); [by eapply Forall_lookup_1|].
  unfold clear_end. rewrite W1. cbn [default option_rect]. exists (u32 (Z.land w (Z.lnot DMA_DES_END))).
  split; [apply list_lookup_insert_eq; by eapply lookup_lt_Some|]. rewrite !list_lookup_insert_ne by lia.
  split_and!; try congruence. done.
Qed.

Lemma clear_end_other phys ws p i b f : 0 <= p <= 126 -> 0 <= i -> i <> p ->
  slot_holds ws phys i b f -> slot_holds (clear_end p ws) phys i b f.
Proof.
  intros Hp Hi Hne (w & W1 & W2 & W3 & W4 & W5 & W6). exists w. unfold clear_end.
  rewrite !list_lookup_insert_ne by lia. split_and!; try done. intros ->. rewrite list_lookup_insert_ne by lia. by apply W6.
Qed.

Lemma length_put phys d intr fin ptr size ws : length (put_desc phys d intr fin ptr size ws) = length ws.
Proof. unfold put_desc. destruct (d =? 126); by rewrite !length_insert. Qed.
Lemma length_clear d ws : length (clear_end d ws) = length ws.
Proof. unfold clear_end. by rewrite length_insert. Qed.

(** The ring of [q] with one more buffer. *)
Lemma ring_snoc ws phys k q intr ptr size : block_ok ws -> ring ws phys k q -> (length q < 127)%nat ->
  0 <= ptr < 2 ^ 32 -> 0 <= phys < 2 ^ 32 -> 0 <= size < 2 ^ 16 ->
  let d := slot k (length q) in
  ring (put_desc phys d intr true ptr size (clear_end (prev_slot d) ws)) phys k (q ++ [(ptr, size)]).
Proof.
  intros [Hl Hw] Hq Hn Hp Hph Hs d j b Hj. pose proof (slot_bound k (length q)) as Hd. fold d in Hd.
  rewrite length_app. cbn [length]. destruct (decide (j < length q)%nat) as [Hlt|Hge].
  - rewrite lookup_app_l in Hj by done. pose proof (Hq j b Hj) as Hs1. pose proof (slot_bound k j) as Hb.
    assert (slot k j <> d) as Hne by (unfold d; apply slot_inj; lia).
    rewrite (proj2 (Nat.eqb_neq (S j) (length q + 1))) by lia. apply put_desc_other; [lia..|done|].
    unfold d in *. destruct (length q) as [|m] eqn:Em; [lia|]. rewrite slot_prev in *. pose proof (slot_bound k m).
    destruct (decide (j = m)) as [->|Hjm].
    + eapply clear_end_here; [done..|lia].
    + rewrite (proj2 (Nat.eqb_neq (S j) (S m))) in Hs1 by lia. apply clear_end_other; [lia..| |done]. apply slot_inj; lia.
  - assert (j = length q) as ->. { apply lookup_lt_Some in Hj. rewrite length_app in Hj. cbn in Hj. lia. }
    rewrite lookup_app_r, Nat.sub_diag in Hj by lia. cbn in Hj. simplify_eq. rewrite (proj2 (Nat.eqb_eq (S (length q)) (length q + 1))) by lia.
    apply put_desc_here; try done; [by rewrite length_clear|lia].
Qed.

(** ** [wmt_start_dma] *)

Lemma at_ring_id base ws s : blocks s !! base = Some ws -> at_ring base ws (dma_chan s) s = s.
Proof. intros H. unfold at_ring. destruct s. cbn in *. by rewrite insert_id. Qed.

Definition residue_after (residue n : Z) : Z := let r := s32 (residue + n) in if 126 <? r then 126 else r.

(** What the end of the call does to the registers. *)
Definition kick (ch : Z) (c : dma_info_s) (s : dma_st) : dma_st :=
  let ccr := DMA_CCR_CH ch in
  if has (reg s ccr) SYSTEM_DMA_RUN then put_reg ccr (Z.lor (reg s ccr) DMA_WAKE) s
  else
    let s1 := put_reg (DMA_IF0CPR_CH ch) (des0_phy_addr c) s in
    let s2 := if DeviceReqType (device_cfg c) =? MEMORY_DMA_REQ then put_reg (DMA_IF1CPR_CH ch) (des0_phy_addr c) s1 else s1 in
    put_reg ccr (Z.lor (reg s ccr) (Z.lor SYSTEM_DMA_RUN SYSTEM_DMA_REQ_EN)) s2.

Lemma group_apart ch : 0 <= ch < 16 -> DMA_CCR_CH ch + 3 < mem_reg_group ch.
Proof. unfold DMA_CCR_CH, mem_reg_group, DMA_MEM_REG_OFFSET. lia. Qed.

(** The registers after the call. *)
Lemma kick_regs ch c s : 0 <= ch < 16 ->
  if has (reg s (DMA_CCR_CH ch)) SYSTEM_DMA_RUN then reg (kick ch c s) (DMA_CCR_CH ch) = u32 (Z.lor (reg s (DMA_CCR_CH ch)) DMA_WAKE)
  else reg (kick ch c s) (DMA_CCR_CH ch) = u32 (Z.lor (reg s (DMA_CCR_CH ch)) (Z.lor SYSTEM_DMA_RUN SYSTEM_DMA_REQ_EN)) /\
       reg (kick ch c s) (DMA_IF0CPR_CH ch) = u32 (des0_phy_addr c).
Proof.
  intros Hch. pose proof (group_apart ch Hch) as Hap. unfold kick. destruct (has _ _); [apply reg_put|]. split; [apply reg_put|].
  rewrite reg_put_ne by (unfold DMA_IF0CPR_CH; lia).
  rewrite reg_put_if by (unfold DMA_IF0CPR_CH, DMA_IF1CPR_CH; lia). apply reg_put.
Qed.

Section start.
Context (e i ch ptr ptr2 size base : Z) (c c1 : dma_info_s) (l1 : list dma_info_s) (ws1 : list Z) (n : Z) (s : dma_st).
Context (Hch : 0 <= ch < 16) (Hc : dma_chan s !! Z.to_nat ch = Some c) (Hsize : size <> 0) (Hn : 0 <= n).
Context (Hadd : add_descript e i ch (device_cfg c) ptr size s = Ok (n, at_ring base ws1 l1 s)).
Context (Hc1 : l1 !! Z.to_nat ch = Some c1) (Hmax : max_des0cnt c1 = 127) (Hq : settled (DMA_CCR_CH ch) (regs_of s)).

Lemma start_run : wmt_start_dma e i ch ptr ptr2 size s =
  Ok (0, kick ch c1 (at_ring base ws1 (<[Z.to_nat ch := with_residue (residue_after (residue_des0cnt c1) n) c1]> l1) s)).
Proof.
  pose proof (group_apart ch Hch) as Hap. unfold wmt_start_dma. rewrite (proj2 (Z.eqb_neq size 0) Hsize).
  assert (chan_at ch s = Ok (c, s)) as Hr by (unfold chan_at; rewrite (proj2 (Z.leb_le 0 ch)) by lia; by rewrite Hc).
  rewrite (bind_ok _ _ _ _ _ Hr), (bind_ok _ _ _ _ _ Hadd), (proj2 (Z.ltb_ge n 0)) by done.
  rewrite (bind_ok _ _ _ _ _ (ring_chan base l1 s ws1 ch c1 ltac:(lia) Hc1)). rewrite Hmax. change (127 - 1) with 126.
  rewrite (bind_ok _ _ _ _ _ (ring_upd base l1 s ws1 ch _)). rewrite (alter_const _ _ _ _ Hc1).
  fold (residue_after (residue_des0cnt c1) n). set (s1 := at_ring base ws1 _ s).
  assert (settled (DMA_CCR_CH ch) (regs_of s1)) as Hq1 by exact Hq.
  rewrite (bind_ok _ _ _ _ _ (reg_read _ _ Hq1)). unfold kick. destruct (has (reg s1 (DMA_CCR_CH ch)) SYSTEM_DMA_RUN).
  - by rewrite (bind_ok _ _ _ _ _ (set_run _ _ _ Hq1)).
  - rewrite (bind_ok _ _ _ tt (put_reg (DMA_CCR_CH ch) (Z.lor (reg s1 (DMA_CCR_CH ch)) (Z.lor SYSTEM_DMA_RUN SYSTEM_DMA_REQ_EN))
      (if DeviceReqType (device_cfg c1) =? MEMORY_DMA_REQ then put_reg (DMA_IF1CPR_CH ch) (des0_phy_addr c1) (put_reg (DMA_IF0CPR_CH ch) (des0_phy_addr c1) s1)
       else put_reg (DMA_IF0CPR_CH ch) (des0_phy_addr c1) s1))); [done|].
    rewrite (bind_ok _ _ _ _ _ (reg_write _ _ _)). set (s2 := put_reg (DMA_IF0CPR_CH ch) _ s1).
    rewrite (bind_ok _ _ _ tt (if DeviceReqType (device_cfg c1) =? MEMORY_DMA_REQ then put_reg (DMA_IF1CPR_CH ch) (des0_phy_addr c1) s2 else s2))
      by (by destruct (_ =? MEMORY_DMA_REQ)).
    rewrite set_run by (destruct (_ =? MEMORY_DMA_REQ); repeat apply settled_put; exact Hq1).
    rewrite reg_put_if by (unfold DMA_IF1CPR_CH; lia). unfold s2. by rewrite reg_put_ne by (unfold DMA_IF0CPR_CH; lia).
Qed.
End start.

(** The checks of [add_descript]. *)
Lemma add_descript_loop e i ch cfg base c l s ws ptr size : ready_chan ch cfg base c -> l !! Z.to_nat ch = Some c ->
  descripts_needed size <= 127 - residue_des0cnt c ->
  add_descript e i ch cfg ptr size (at_ring base ws l s) =
    loop (S (Z.to_nat (descripts_needed size))) (fun a =>
      if 0 <? residue_size a then a' ← add_round ch cfg size a; mret (inl a') else mret (inr (xfer_index a)))
      (MkAdd size 0 ptr e i) (at_ring base ws l s).
Proof.
  intros Hr Hc Hn. destruct Hr. unfold add_descript, checked, MAX_DMA_CHANNELS. rewrite (proj2 (Z.leb_gt 16 ch)) by lia.
  rewrite (bind_ok _ _ _ _ _ (ring_chan base l s ws ch c ltac:(lia) Hc)).
  rewrite rc_use0, rc_dev0, Z.eqb_refl, rc_max0. cbn [negb]. by rewrite (proj2 (Z.ltb_ge _ _)) by lia.
Qed.

(** At most 32 KB: one descriptor. *)
Lemma add_small_run e i ch cfg base c l s ws ptr size : ready_chan ch cfg base c -> l !! Z.to_nat ch = Some c -> length ws = 256%nat ->
  residue_des0cnt c <= 126 -> 0 < size <= SIZE_32KB ->
  add_descript e i ch cfg ptr size (at_ring base ws l s) =
    Ok (1, at_ring base (put_desc (des0_phy_addr c) (des0cnt c) (intr_of cfg (accu_size c) size i =? 1) true (u32 ptr) size
                          (clear_end (prev_slot (des0cnt c)) ws)) (<[Z.to_nat ch := round_chan cfg size c]> l) s).
Proof.
  intros Hr Hc Hl Hres Hs. unfold SIZE_32KB in Hs.
  assert (descripts_needed size = 1) as Hn by (unfold descripts_needed, SIZE_32KB; destruct (Z.eqb_spec (size mod 32768) 0); dlia).
  rewrite (add_descript_loop _ _ _ _ _ c) by (try done; lia). rewrite Hn. change (Z.to_nat 1) with 1%nat.
  pose proof (add_round_run ch cfg base c l s ws size (MkAdd size 0 ptr e i) Hr Hc Hl ltac:(cbn; lia)) as H.
  cbn [residue_size xfer_index dma_ptr end_d int_d] in H. unfold xfer_of, rest_of, SIZE_32KB in H.
  rewrite (proj2 (Z.ltb_ge 0x8000 size)), (Z.eqb_refl size), Z.mul_0_r, Z.add_0_r in H by lia.
  erewrite loop_next; [|cbn [residue_size]; rewrite (proj2 (Z.ltb_lt 0 size)) by lia; rewrite (bind_ok _ _ _ _ _ H); reflexivity].
  apply loop_exit. reflexivity.
Qed.

(** ** The queue of a channel *)

(** Channel [ch] is in use and its ring holds the buffers [q] from slot [k] on. *)
Definition queue (ch k : Z) (q : list (Z * Z)) (c : dma_info_s) (ws : list Z) (s : dma_st) : Prop :=
  inv s /\ 0 <= ch < 16 /\ 0 <= k < 127 /\ dma_chan s !! Z.to_nat ch = Some c /\ in_use c = true /\
  device_no c = DeviceReqType (device_cfg c) /\ blocks s !! des_0 c = Some ws /\ 0 <= des0_phy_addr c < 2 ^ 32 /\
  des0cnt c = slot k (length q) /\ ring ws (des0_phy_addr c) k q.

(** The engine, at the descriptor of slot [k], transfers [q] and stops. *)
Definition transfers (k : Z) (q : list (Z * Z)) (c : dma_info_s) (ws : list Z) : Prop :=
  follow (length q) (des0_phy_addr c) ws (2 * k) = Some q.

Lemma queue_ready ch k q c ws s : queue ch k q c ws s -> ready_chan ch (device_cfg c) (des_0 c) c /\ block_ok ws /\ at_ring (des_0 c) ws (dma_chan s) s = s.
Proof.
  intros (Hi & Hch & Hk & Hc & Hu & Hd & Hw & Hp & Hcnt & Hq). split; [|split].
  - destruct (proj1 (Forall_lookup _ _) (inv_chans s Hi) _ _ Hc Hu) as (M1 & M2 & _). by split.
  - by eapply inv_blocks.
  - by apply at_ring_id.
Qed.

(** The channel and the ring after a small buffer. *)
Definition started (n : Z) (c : dma_info_s) : dma_info_s := with_residue (residue_after (residue_des0cnt c) n) c.

Lemma start_small_run e i ch k ptr ptr2 size q c ws s :
  queue ch k q c ws s -> 0 < size <= SIZE_32KB -> residue_des0cnt c <= 126 -> settled (DMA_CCR_CH ch) (regs_of s) ->
  let ws1 := put_desc (des0_phy_addr c) (des0cnt c) (intr_of (device_cfg c) (accu_size c) size i =? 1) true (u32 ptr) size
               (clear_end (prev_slot (des0cnt c)) ws) in
  let c1 := started 1 (round_chan (device_cfg c) size c) in
  wmt_start_dma e i ch ptr ptr2 size s = Ok (0, kick ch (round_chan (device_cfg c) size c)
    (at_ring (des_0 c) ws1 (<[Z.to_nat ch := c1]> (dma_chan s)) s)).
Proof.
  intros Hqu Hs Hres Hst ws1 c1. destruct (queue_ready _ _ _ _ _ _ Hqu) as (Hr & [Hl Hw] & Hid).
  destruct Hqu as (Hi & Hch & _ & Hc & _).
  pose proof (add_small_run e i ch (device_cfg c) (des_0 c) c (dma_chan s) s ws ptr size Hr Hc Hl Hres Hs) as H. rewrite Hid in H.
  assert (<[Z.to_nat ch := round_chan (device_cfg c) size c]> (dma_chan s) !! Z.to_nat ch = Some (round_chan (device_cfg c) size c)) as Hc1
    by (apply list_lookup_insert_eq; by eapply lookup_lt_Some).
  pose proof (start_run e i ch ptr ptr2 size (des_0 c) c _ _ _ 1 s Hch Hc ltac:(lia) ltac:(lia) H Hc1 ltac:(by destruct Hr) Hst) as Hrun.
  by rewrite list_insert_insert_eq in Hrun.
Qed.

(** [kick] only touches registers. *)
Lemma kick_soft ch c s : soft (kick ch c s) = soft s.
Proof. unfold kick. destruct (has _ _); [done|]. by destruct (_ =? MEMORY_DMA_REQ). Qed.

Lemma start_inv e i ch ptr ptr2 size s r s' : inv s -> 0 <= ch < 16 -> 0 <= size -> wmt_start_dma e i ch ptr ptr2 size s = Ok (r, s') -> inv s'.
Proof.
  intros Hi Hch Hs Hrun. pose proof (pres_start e i (dma_list_lock s) ch ptr ptr2 size Hch Hs s (conj Hi eq_refl)) as H.
  unfold ends in H. rewrite Hrun in H. apply H.
Qed.

Lemma kick_settled a ch c s : settled a (regs_of s) -> settled a (regs_of (kick ch c s)).
Proof. intros H. unfold kick. destruct (has _ _); [by apply settled_put|]. destruct (_ =? MEMORY_DMA_REQ); by repeat apply settled_put. Qed.

(** The channels and the block of a state that [wmt_start_dma] leaves. *)
Lemma started_lookup ch c c1 base ws1 l s : (Z.to_nat ch < length l)%nat ->
  dma_chan (kick ch c (at_ring base ws1 (<[Z.to_nat ch := c1]> l) s)) !! Z.to_nat ch = Some c1 /\
  blocks (kick ch c (at_ring base ws1 (<[Z.to_nat ch := c1]> l) s)) !! base = Some ws1.
Proof.
  intros Hlt. pose proof (kick_soft ch c (at_ring base ws1 (<[Z.to_nat ch := c1]> l) s)) as [= -> _ -> _]. cbn.
  split; [by apply list_lookup_insert_eq|by rewrite lookup_insert_eq].
Qed.

(** One call, and that the control register is read as it is written. *)
Lemma start_step (e i ch k ptr ptr2 size : Z) (q : list (Z * Z)) (c : dma_info_s) (ws : list Z) (s : dma_st) :
  queue ch k q c ws s -> (length q < 127)%nat -> residue_des0cnt c <= 126 ->
  0 < size <= SIZE_32KB -> 0 <= ptr < 2 ^ 32 -> settled (DMA_CCR_CH ch) (regs_of s) ->
  exists s' c' ws', wmt_start_dma e i ch ptr ptr2 size s = Ok (0, s') /\
    queue ch k (q ++ [(ptr, size)]) c' ws' s' /\ transfers k (q ++ [(ptr, size)]) c' ws' /\
    residue_des0cnt c' = residue_after (residue_des0cnt c) 1 /\
    (if has (reg s (DMA_CCR_CH ch)) SYSTEM_DMA_RUN then reg s' (DMA_CCR_CH ch) = u32 (Z.lor (reg s (DMA_CCR_CH ch)) DMA_WAKE)
     else reg s' (DMA_CCR_CH ch) = u32 (Z.lor (reg s (DMA_CCR_CH ch)) (Z.lor SYSTEM_DMA_RUN SYSTEM_DMA_REQ_EN)) /\
          reg s' (DMA_IF0CPR_CH ch) = u32 (des0_phy_addr c)) /\
    settled (DMA_CCR_CH ch) (regs_of s').
Proof.
  intros Hqu Hn Hres Hs Hp Hst. pose proof (start_small_run e i ch k ptr ptr2 size q c ws s Hqu Hs Hres Hst) as Hrun. cbv zeta in Hrun.
  destruct (queue_ready _ _ _ _ _ _ Hqu) as (Hr & Hb & _). destruct Hqu as (Hi & Hch & Hk & Hc & Hu & Hd & Hw & Hph & Hcnt & Hq).
  assert (0 <= size) as Hs0 by lia. pose proof (start_inv _ _ _ _ _ _ _ _ _ Hi Hch Hs0 Hrun) as Hi'.
  rewrite (u32_small ptr), Hcnt in * by done. unfold SIZE_32KB in Hs.
  pose proof (ring_snoc ws (des0_phy_addr c) k q (intr_of (device_cfg c) (accu_size c) size i =? 1) ptr size Hb Hq Hn Hp Hph ltac:(lia)) as Hq'.
  cbv zeta in Hq'. eexists _, _, _. split; [exact Hrun|].
  destruct (started_lookup ch (round_chan (device_cfg c) size c) (started 1 (round_chan (device_cfg c) size c)) (des_0 c)
    (put_desc (des0_phy_addr c) (slot k (length q)) (intr_of (device_cfg c) (accu_size c) size i =? 1) true ptr size
      (clear_end (prev_slot (slot k (length q))) ws)) (dma_chan s) s ltac:(by eapply lookup_lt_Some)) as [L1 L2].
  split; [|split; [|split; [|split]]].
  - repeat (split; [done|]). split; [|done]. cbn. rewrite Hcnt. unfold round_chan. rewrite length_app, Nat.add_1_r. symmetry. apply slot_S.
  - apply (ring_follow _ _ k _ Hk Hph); [by destruct q|done].
  - done.
  - apply (kick_regs ch (round_chan (device_cfg c) size c) (at_ring (des_0 c) _ _ s) Hch).
  - by apply kick_settled.
Qed.


(** Buffers started one after the other. *)
Fixpoint start_all (e i ch : Z) (bufs : list (Z * Z)) : D unit :=
  match bufs with
  | [] => mret tt
  | (ptr, size) :: l => wmt_start_dma e i ch ptr 0 size;; start_all e i ch l
  end.

Definition small (b : Z * Z) : Prop := 0 <= b.1 < 2 ^ 32 /\ 0 < b.2 <= SIZE_32KB.

Lemma residue_after_max r n : residue_after r n <= 126.
Proof. unfold residue_after. cbv zeta. case_bool; lia. Qed.

Lemma start_all_step e i ch k bufs q c ws s : queue ch k q c ws s -> (length q + length bufs <= 127)%nat ->
  residue_des0cnt c <= 126 -> Forall small bufs -> settled (DMA_CCR_CH ch) (regs_of s) -> q ++ bufs <> [] ->
  exists s' c' ws', start_all e i ch bufs s = Ok (tt, s') /\ queue ch k (q ++ bufs) c' ws' s' /\ transfers k (q ++ bufs) c' ws' /\
    residue_des0cnt c' <= 126 /\ settled (DMA_CCR_CH ch) (regs_of s').
Proof.
  revert q c ws s. induction bufs as [|[ptr size] bufs IH]; intros q c ws s Hqu Hn Hr Hb Hs Hne.
  - rewrite app_nil_r in *. exists s, c, ws. split; [done|]. split; [done|]. split; [|done].
    destruct Hqu as (_ & _ & Hk & _ & _ & _ & _ & Hp & _ & Hq). by apply ring_follow.
  - inversion_clear Hb as [|? ? [Hp Hz] Hb']. cbn [length] in Hn.
    destruct (start_step e i ch k ptr 0 size q c ws s) as (s1 & c1 & ws1 & H1 & H2 & H3 & H4 & _ & H6); try done; [lia|].
    destruct (IH (q ++ [(ptr, size)]) c1 ws1 s1) as (s' & c' & ws' & K1 & K2 & K3); try done.
    + rewrite length_app. cbn. lia.
    + rewrite H4. apply residue_after_max.
    + by destruct q.
    + rewrite <- app_assoc in K2, K3. exists s', c', ws'. split; [|done]. cbn [start_all]. by rewrite (bind_ok _ _ _ _ _ H1).
Qed.

(** Up to 127 buffers of at most 32 KB each, started one after the other on
    a channel in use whose ring is empty, are all transferred, in that order:
    every call answers, and the engine at the first descriptor finds exactly
    them. *)
Theorem dma_starts_transfer (e i ch k : Z) (bufs : list (Z * Z)) (c : dma_info_s) (ws : list Z) (s : dma_st) :
  queue ch k [] c ws s -> residue_des0cnt c <= 126 -> (0 < length bufs <= 127)%nat -> Forall small bufs ->
  settled (DMA_CCR_CH ch) (regs_of s) ->
  exists s' c' ws', start_all e i ch bufs s = Ok (tt, s') /\ dma_chan s' !! Z.to_nat ch = Some c' /\
    blocks s' !! des_0 c' = Some ws' /\ transfers k bufs c' ws'.
Proof.
  intros Hqu Hr Hn Hb Hs. destruct (start_all_step e i ch k bufs [] c ws s) as (s' & c' & ws' & H1 & H2 & H3 & _); try done.
  - cbn. lia.
  - destruct bufs; [cbn in Hn; lia|done].
  - exists s', c', ws'. destruct H2 as (_ & _ & _ & Hc & _ & _ & Hw & _). by split_and!.
Qed.

(** A single descriptor that ends the list. *)
Lemma follow_end n phys ws i b : slot_holds ws phys i b true -> follow (S n) phys ws (2 * i) = Some [b].
Proof. intros (w & W1 & W2 & W3 & _ & W5 & _). cbn [follow]. rewrite W1. cbn. rewrite W5. cbn. rewrite W3, W2. by destruct b. Qed.

(** A full ring is not noticed.  The number of descriptors in use is cut to
    126 while the test asks for 127, so a buffer of at most 32 KB is taken also
    when 127 are queued and none is done; its descriptor replaces the first of
    them, and the engine, there, finds the new buffer and stops.  The number is
    again at most 126, so the next buffer is taken, too. *)
Theorem dma_full_ring_overrun (e i ch k ptr ptr2 size : Z) (q : list (Z * Z)) (c : dma_info_s) (ws : list Z) (s : dma_st) :
  queue ch k q c ws s -> length q = 127%nat -> residue_des0cnt c <= 126 ->
  0 < size <= SIZE_32KB -> 0 <= ptr < 2 ^ 32 -> settled (DMA_CCR_CH ch) (regs_of s) ->
  exists s' c' ws', wmt_start_dma e i ch ptr ptr2 size s = Ok (0, s') /\ dma_chan s' !! Z.to_nat ch = Some c' /\
    blocks s' !! des_0 c' = Some ws' /\ residue_des0cnt c' <= 126 /\ transfers k [(ptr, size)] c' ws'.
Proof.
  intros Hqu Hn Hres Hs Hp Hst. pose proof (start_small_run e i ch k ptr ptr2 size q c ws s Hqu Hs Hres Hst) as Hrun. cbv zeta in Hrun.
  destruct (queue_ready _ _ _ _ _ _ Hqu) as (Hr & [Hl Hw'] & _). destruct Hqu as (Hi & Hch & Hk & Hc & Hu & Hd & Hw & Hph & Hcnt & Hq).
  assert (des0cnt c = k) as Hd' by (rewrite Hcnt, Hn; unfold slot; dlia). rewrite (u32_small ptr), Hd' in * by done.
  eexists _, _, _. split; [exact Hrun|].
  match type of Hrun with _ = Ok (0, kick _ _ (at_ring _ ?w (<[_ := ?x]> _) _)) =>
    destruct (started_lookup ch (round_chan (device_cfg c) size c) x (des_0 c) w (dma_chan s) s ltac:(by eapply lookup_lt_Some)) as [L1 L2] end.
  split; [exact L1|]. split; [exact L2|]. split.
  - apply residue_after_max.
  - apply (follow_end 0). unfold SIZE_32KB in Hs. apply put_desc_here; try done; try lia. by rewrite length_clear.
Qed.

(** ** Larger buffers *)

Lemma add_big_run e i ch cfg base c l s ws ptr size : ready_chan ch cfg base c -> l !! Z.to_nat ch = Some c -> length ws = 256%nat ->
  residue_des0cnt c <= 125 -> SIZE_32KB < size <= SIZE_64KB ->
  let c1 := round_chan cfg SIZE_32KB c in
  let i1 := intr_of cfg (accu_size c) SIZE_32KB i in
  let i2 := intr_of cfg (accu_size c1) (size - SIZE_32KB) i1 in
  add_descript e i ch cfg ptr size (at_ring base ws l s) =
    Ok (2, at_ring base
      (put_desc (des0_phy_addr c) (next_slot (des0cnt c)) (i2 =? 1) true (u32 (u32 ptr + (size - SIZE_32KB))) (size - SIZE_32KB)
        (put_desc (des0_phy_addr c) (des0cnt c) (i1 =? 1) true (u32 ptr) SIZE_32KB (clear_end (prev_slot (des0cnt c)) ws)))
      (<[Z.to_nat ch := round_chan cfg (size - SIZE_32KB) c1]> l) s).
Proof.
  intros Hr Hc Hl Hres Hs c1 i1 i2. unfold SIZE_32KB, SIZE_64KB in Hs.
  assert (descripts_needed size = 2) as Hn by (unfold descripts_needed, SIZE_32KB; destruct (Z.eqb_spec (size mod 32768) 0); dlia).
  rewrite (add_descript_loop _ _ _ _ _ c) by (try done; lia). rewrite Hn. change (Z.to_nat 2) with 2%nat.
  pose proof (add_round_run ch cfg base c l s ws size (MkAdd size 0 ptr e i) Hr Hc Hl ltac:(cbn; lia)) as H1.
  cbn [residue_size xfer_index dma_ptr end_d int_d] in H1.
  replace (xfer_of size) with SIZE_32KB in H1 by (unfold xfer_of, SIZE_32KB; by rewrite (proj2 (Z.ltb_lt _ _)) by lia).
  replace (rest_of size) with (size - SIZE_32KB) in H1 by (unfold rest_of, SIZE_32KB; by rewrite (proj2 (Z.ltb_lt _ _)) by lia).
  rewrite (proj2 (Z.leb_le (size - SIZE_32KB) SIZE_32KB)), (Z.eqb_refl size), Z.mul_0_r, Z.add_0_r in H1 by (unfold SIZE_32KB; lia).
  erewrite loop_next; [|cbn [residue_size]; rewrite (proj2 (Z.ltb_lt 0 size)) by lia; rewrite (bind_ok _ _ _ _ _ H1); reflexivity].
  fold i1. fold c1. set (ws1 := put_desc _ _ _ _ _ _ _).
  assert (length ws1 = 256%nat) as Hl1 by (unfold ws1; by rewrite length_put, length_clear).
  assert (<[Z.to_nat ch := c1]> l !! Z.to_nat ch = Some c1) as Hc1 by (apply list_lookup_insert_eq; by eapply lookup_lt_Some).
  pose proof (add_round_run ch cfg base c1 _ s ws1 size (MkAdd (size - SIZE_32KB) (u32 (0 + 1)) (u32 ptr) 1 i1)
    (ready_round ch cfg base cfg SIZE_32KB c Hr) Hc1 Hl1 ltac:(cbn; unfold SIZE_32KB; lia)) as H2.
  cbn [residue_size xfer_index dma_ptr end_d int_d] in H2. change (u32 (0 + 1)) with 1 in H2.
  replace (xfer_of (size - SIZE_32KB)) with (size - SIZE_32KB) in H2 by (unfold xfer_of, SIZE_32KB; by rewrite (proj2 (Z.ltb_ge _ _)) by lia).
  replace (rest_of (size - SIZE_32KB)) with 0 in H2 by (unfold rest_of, SIZE_32KB; by rewrite (proj2 (Z.ltb_ge _ _)) by lia).
  rewrite (proj2 (Z.eqb_neq (size - SIZE_32KB) size)), Z.mul_1_r, list_insert_insert_eq in H2 by (unfold SIZE_32KB; lia).
  change (u32 (0 + 1)) with 1. erewrite loop_next;
    [|cbn [residue_size]; rewrite (proj2 (Z.ltb_lt 0 (size - SIZE_32KB))) by (unfold SIZE_32KB; lia); rewrite (bind_ok _ _ _ _ _ H2); reflexivity].
  apply loop_exit. reflexivity.
Qed.

(** [C40] A buffer of more than 32 KB and up to 64 KB is split wrongly.  The call
    answers 0, but the descriptor of the first 32 KB ends the list, so the engine
    stops after them; the second descriptor has the rest at the start of the
    buffer plus the size of the rest, not at 32 KB. *)
Theorem dma_big_buffer_cut (e i ch k ptr ptr2 size : Z) (q : list (Z * Z)) (c : dma_info_s) (ws : list Z) (s : dma_st) :
  queue ch k q c ws s -> residue_des0cnt c <= 125 -> SIZE_32KB < size <= SIZE_64KB -> 0 <= ptr -> ptr + size < 2 ^ 32 ->
  settled (DMA_CCR_CH ch) (regs_of s) ->
  exists s' c' ws', wmt_start_dma e i ch ptr ptr2 size s = Ok (0, s') /\ dma_chan s' !! Z.to_nat ch = Some c' /\
    blocks s' !! des_0 c' = Some ws' /\ transfers (des0cnt c) [(ptr, SIZE_32KB)] c' ws' /\
    slot_holds ws' (des0_phy_addr c) (next_slot (des0cnt c)) (ptr + (size - SIZE_32KB), size - SIZE_32KB) true.
Proof.
  intros Hqu Hres Hs Hp0 Hp Hst. destruct (queue_ready _ _ _ _ _ _ Hqu) as (Hr & [Hl Hw'] & Hid).
  destruct Hqu as (Hi & Hch & Hk & Hc & Hu & Hd & Hw & Hph & _).
  pose proof (add_big_run e i ch (device_cfg c) (des_0 c) c (dma_chan s) s ws ptr size Hr Hc Hl Hres Hs) as H. rewrite Hid in H. cbv zeta in H.
  unfold SIZE_32KB, SIZE_64KB in *. rewrite (u32_small ptr), (u32_small (ptr + (size - 0x8000))) in H by lia.
  set (c1 := round_chan (device_cfg c) (size - 0x8000) (round_chan (device_cfg c) 0x8000 c)) in *.
  assert (<[Z.to_nat ch := c1]> (dma_chan s) !! Z.to_nat ch = Some c1) as Hc1 by (apply list_lookup_insert_eq; by eapply lookup_lt_Some).
  pose proof (start_run e i ch ptr ptr2 size (des_0 c) c _ _ _ 2 s Hch Hc ltac:(lia) ltac:(lia) H Hc1 ltac:(by destruct Hr) Hst) as Hrun.
  rewrite list_insert_insert_eq in Hrun. eexists _, _, _. split; [exact Hrun|].
  match type of Hrun with _ = Ok (0, kick _ _ (at_ring _ ?w (<[_ := ?x]> _) _)) =>
    destruct (started_lookup ch c1 x (des_0 c) w (dma_chan s) s ltac:(by eapply lookup_lt_Some)) as [L1 L2] end.
  split; [exact L1|]. split; [exact L2|]. destruct Hr.
  assert (0 <= next_slot (des0cnt c) <= 126 /\ des0cnt c <> next_slot (des0cnt c)) as [Hns Hne]
    by (unfold next_slot; destruct (Z.ltb_spec (des0cnt c) 126); lia).
  split.
  - apply (follow_end 0). apply put_desc_other; [done|done|done|]. apply put_desc_here; try done; try lia. by rewrite length_clear.
  - apply put_desc_here; try done; try lia. by rewrite length_put, length_clear.
Qed.

(** ** Witnesses *)

#[local] Opaque ready demo demo_chan.

Lemma demo_queue : queue 1 0 [] demo_chan zeroes demo.
Proof.
  destruct demo_facts as (F1 & F2 & F3 & F4 & F5 & F6 & F7). unfold queue. rewrite F5, F6.
  split; [exact (proj1 demo_good)|]. split; [lia|]. split; [lia|]. split; [exact F1|]. split; [exact F2|]. split; [exact F3|].
  split; [exact F4|]. split; [lia|]. split; [reflexivity|]. intros j b Hj. by rewrite lookup_nil in Hj.
Qed.

Lemma demo_residue n : 0 <= n -> residue_des0cnt demo_chan <= n.
Proof. destruct demo_facts as (_ & _ & _ & _ & _ & _ & ->). lia. Qed.


(** 127 buffers. *)
Definition many : list (Z * Z) := (fun n => (0x2000000 + 4096 * n, 4096)) <$> seqZ 0 127.
Lemma many_small : Forall small many.
Proof.
  apply Forall_fmap, Forall_forall. intros n Hn%elem_of_seqZ. unfold small, SIZE_32KB. cbn. lia.
Qed.

(** Witness of [dma_starts_transfer]. *)
Lemma dma_starts_transfer_witness : exists s' c' ws', start_all 0 0 1 many demo = Ok (tt, s') /\ transfers 0 many c' ws'.
Proof.
  assert (0 < length many <= 127)%nat as Hn by (vm_compute; lia).
  destruct (dma_starts_transfer 0 0 1 0 many demo_chan zeroes demo demo_queue (demo_residue 126 ltac:(lia)) Hn many_small (proj1 demo_stopped))
    as (s' & c' & ws' & H1 & _ & _ & H2). exists s', c', ws'. exact (conj H1 H2).
Defined.

(** The ring is full. *)
Lemma full_ring : exists c ws s, queue 1 0 many c ws s /\ residue_des0cnt c <= 126 /\ settled (DMA_CCR_CH 1) (regs_of s).
Proof.
  destruct (start_all_step 0 0 1 0 many [] demo_chan zeroes demo demo_queue) as (s' & c' & ws' & _ & H2 & _ & H4 & H5).
  - vm_compute. lia.
  - apply demo_residue. lia.
  - exact many_small.
  - exact (proj1 demo_stopped).
  - vm_compute. discriminate.
  - by exists c', ws', s'.
Qed.

(** Witness of [dma_full_ring_overrun]. *)
Lemma dma_full_ring_overrun_witness : exists s s' c' ws', wmt_start_dma 0 0 1 0x3000000 0 4096 s = Ok (0, s') /\
  transfers 0 [(0x3000000, 4096)] c' ws'.
Proof.
  assert (0 < 4096 <= SIZE_32KB) as Hs by (unfold SIZE_32KB; lia). assert (0 <= 0x3000000 < 2 ^ 32) as Hp by lia.
  assert (length many = 127%nat) as Hn by (vm_compute; reflexivity). destruct full_ring as (c & ws & s & Hq & Hr & Hst).
  destruct (dma_full_ring_overrun 0 0 1 0 0x3000000 0 4096 many c ws s Hq Hn Hr Hs Hp Hst) as (s' & c' & ws' & H1 & _ & _ & _ & H2).
  exists s, s', c', ws'. exact (conj H1 H2).
Defined.

(** Witness of [dma_big_buffer_cut]. *)
Lemma dma_big_buffer_cut_witness : exists s' c' ws', wmt_start_dma 0 0 1 0x2000000 0 40000 demo = Ok (0, s') /\
  transfers 0 [(0x2000000, SIZE_32KB)] c' ws' /\ slot_holds ws' 0x1000000 1 (0x2001C40, 7232) true.
Proof.
  assert (SIZE_32KB < 40000 <= SIZE_64KB) as Hs by (unfold SIZE_32KB, SIZE_64KB; lia).
  assert (0 <= 0x2000000) as Hp by lia. assert (0x2000000 + 40000 < 2 ^ 32) as Hp' by lia.
  destruct (dma_big_buffer_cut 0 0 1 0 0x2000000 0 40000 [] demo_chan zeroes demo demo_queue (demo_residue 125 ltac:(lia)) Hs Hp Hp' (proj1 demo_stopped))
    as (s' & c' & ws' & H1 & _ & _ & H2 & H3). exists s', c', ws'. destruct demo_facts as (_ & _ & _ & _ & F5 & F6 & _).
  rewrite F6 in H2, H3. rewrite F5 in H3. exact (conj H1 (conj H2 H3)).
Defined.
