(* ===== verification/Scan.v ===== *)
(** * Reading numbers from text: [sscanf] and [strsep]

    [lib/vsprintf.c] and [lib/string.c], which drivers use to take boot
    variables apart.  A string is the list of its characters before the NUL, and
    a pointer into it what is left from there on; [deref] reads the NUL at the
    end.  No read of this code goes past the NUL.  [char] is unsigned, as it is
    on ARM, and [long] has 32 bits. *)

From Stdlib Require Import Ascii String.
From S2P Require Import Prelude Env.
From stdpp Require Import list strings.

#[local] Open Scope Z_scope.

(** ** Characters, [lib/ctype.c] *)

Definition between (lo hi c : Z) : bool := (lo <=? c) && (c <=? hi).
Definition isspace (c : Z) : bool := between 9 13 c || (c =? 32) || (c =? 160).
Definition isdigit (c : Z) : bool := between 48 57 c.
Definition isxdigit (c : Z) : bool := isdigit c || between 65 70 c || between 97 102 c.
Definition TOLOWER (c : Z) : Z := Z.lor c 0x20.

Definition deref (p : list Z) : Z := hd 0 p.

(** [skip_spaces], with the number of characters it passes. *)
Fixpoint skip_spaces (p : list Z) : list Z * Z :=
  match p with
  | c :: p' => if isspace c then let '(r, n) := skip_spaces p' in (r, n + 1) else (p, 0)
  | [] => ([], 0)
  end.

(** ** Numbers: value, and the text behind it with the characters passed *)

Definition simple_guess_base (cp : list Z) : Z :=
  if deref cp =? ch "0" then
    if (TOLOWER (deref (tail cp)) =? ch "x") && isxdigit (deref (tail (tail cp))) then 16 else 8
  else 10.

(** The loop of [simple_strtoull]. *)
Fixpoint digits_from (base result : Z) (cp : list Z) : Z * list Z * Z :=
  match cp with
  | c :: cp' =>
      if isxdigit c then
        let value := if isdigit c then c - ch "0" else TOLOWER c - ch "a" + 10 in
        if base <=? value then (result, cp, 0)
        else let '(r, next, n) := digits_from base (u64 (result * base + value)) cp' in (r, next, n + 1)
      else (result, cp, 0)
  | [] => (result, [], 0)
  end.

Definition simple_strtoull (cp : list Z) (base : Z) : Z * list Z * Z :=
  let base := if base =? 0 then simple_guess_base cp else base in
  if (base =? 16) && (deref cp =? ch "0") && (TOLOWER (deref (tail cp)) =? ch "x")
  then let '(r, next, n) := digits_from base 0 (tail (tail cp)) in (r, next, n + 2)
  else digits_from base 0 cp.

Definition simple_strtoul (cp : list Z) (base : Z) : Z * list Z * Z :=
  let '(r, next, n) := simple_strtoull cp base in (u32 r, next, n).

Definition simple_strtol (cp : list Z) (base : Z) : Z * list Z * Z :=
  if deref cp =? ch "-"
  then let '(r, next, n) := simple_strtoul (tail cp) base in (s32 (- r), next, n + 1)
  else let '(r, next, n) := simple_strtoul cp base in (s32 r, next, n).

(** Conversion to [long long]. *)
Definition s64 (z : Z) : Z := let r := u64 z in if r <? 2 ^ 63 then r else r - 2 ^ 64.

Definition simple_strtoll (cp : list Z) (base : Z) : Z * list Z * Z :=
  if deref cp =? ch "-"
  then let '(r, next, n) := simple_strtoull (tail cp) base in (s64 (- r), next, n + 1)
  else let '(r, next, n) := simple_strtoull cp base in (s64 r, next, n).

Fixpoint atoi_from (i : Z) (s : list Z) : Z * list Z :=
  match s with
  | c :: s' => if isdigit c then atoi_from (s32 (i * 10 + c - ch "0")) s' else (i, s)
  | [] => (i, [])
  end.
Definition skip_atoi (s : list Z) : Z * list Z := atoi_from 0 s.

(** ** [vsscanf] *)

(** What is stored through an argument: an integer of some bytes, or characters. *)
Inductive stored :=
| SInt (size value : Z)
| SChars (l : list Z).

(** The variables of [vsscanf]: [sc_off] is [str - buf], [sc_out] what was
    stored so far, one entry per argument. *)
Record scan := MkScan {
  sc_fmt : list Z;
  sc_str : list Z;
  sc_off : Z;
  sc_num : Z;
  sc_out : list stored;
}.

(** The end of the function, after [break]: a [%n] may be left. *)
Definition scan_end (x : scan) : Z * list stored :=
  (sc_num x,
   if (deref (sc_fmt x) =? ch "%") && (deref (tail (sc_fmt x)) =? ch "n")
   then sc_out x ++ [SInt 4 (s32 (sc_off x))] else sc_out x).

(** The white space of the format and of the input. *)
Definition scan_space (x : scan) : scan :=
  if isspace (deref (sc_fmt x)) then
    let '(str, n) := skip_spaces (sc_str x) in
    MkScan (skip_spaces (tail (sc_fmt x))).1 str (sc_off x + n) (sc_num x) (sc_out x)
  else x.

(** The conversion qualifier: 255 is the [-1] of an unsigned byte. *)
Definition scan_qualifier (fmt : list Z) : Z * list Z :=
  let c := deref fmt in
  if (c =? ch "h") || (TOLOWER c =? ch "l") || (TOLOWER c =? ch "z") then
    let fmt := tail fmt in
    if c =? deref fmt then
      if c =? ch "h" then (ch "H", tail fmt)
      else if c =? ch "l" then (ch "L", tail fmt)
      else (c, fmt)
    else (c, fmt)
  else (255, fmt).

(** The loops of [%*] and [%s]: characters up to white space, at most [w]. *)
Fixpoint skip_word (p : list Z) : list Z * Z :=
  match p with
  | c :: p' => if isspace c then (p, 0) else let '(r, n) := skip_word p' in (r, n + 1)
  | [] => ([], 0)
  end.
Fixpoint skip_directive (p : list Z) : list Z :=
  match p with
  | c :: p' => if isspace c || (c =? ch "%") then p else skip_directive p'
  | [] => []
  end.
Fixpoint take_word (w : nat) (p : list Z) : list Z :=
  match w, p with
  | S w', c :: p' => if isspace c then [] else c :: take_word w' p'
  | _, _ => []
  end.

(** The kinds of conversion the letter selects: base and sign for integers. *)
Inductive conversion :=
| KChar | KString | KCount | KInt (base : Z) (is_sign : bool) | KPercent | KInvalid.

Definition conversion_of (c : Z) : conversion :=
  if c =? ch "c" then KChar
  else if c =? ch "s" then KString
  else if c =? ch "n" then KCount
  else if c =? ch "o" then KInt 8 false
  else if (c =? ch "x") || (c =? ch "X") then KInt 16 false
  else if c =? ch "i" then KInt 0 true
  else if c =? ch "d" then KInt 10 true
  else if c =? ch "u" then KInt 10 false
  else if c =? ch "%" then KPercent
  else KInvalid.

(** Whether the text has a digit for the base. *)
Definition no_digit (base digit : Z) : bool :=
  (digit =? 0) || ((base =? 16) && negb (isxdigit digit)) || ((base =? 10) && negb (isdigit digit)) ||
  ((base =? 8) && (negb (isdigit digit) || (ch "7" <? digit))) || ((base =? 0) && negb (isdigit digit)).

Definition s8 (z : Z) : Z := let r := u8 z in if r <? 128 then r else r - 256.
Definition s16 (z : Z) : Z := let r := u16 z in if r <? 32768 then r else r - 65536.

(** The last [switch]: which function reads, and into how many bytes. *)
Definition scan_int (qualifier base : Z) (is_sign : bool) (str : list Z) : stored * list Z * Z :=
  let signed := simple_strtol str base in
  let unsigned := simple_strtoul str base in
  let keep (size : Z) (f : Z -> Z) (x : Z * list Z * Z) := let '(v, next, n) := x in (SInt size (f v), next, n) in
  if qualifier =? ch "H" then if is_sign then keep 1 s8 signed else keep 1 u8 unsigned
  else if qualifier =? ch "h" then if is_sign then keep 2 s16 signed else keep 2 u16 unsigned
  else if qualifier =? ch "l" then if is_sign then keep 4 id signed else keep 4 id unsigned
  else if qualifier =? ch "L" then
    if is_sign then keep 8 id (simple_strtoll str base) else keep 8 id (simple_strtoull str base)
  else if (qualifier =? ch "Z") || (qualifier =? ch "z") then keep 4 id unsigned
  else if is_sign then keep 4 id signed else keep 4 id unsigned.

(** How many characters [%s] copies at most: [field_width] counts down as a
    16-bit integer until it is 0. *)
Definition string_width (width : Z) : nat := Z.to_nat (u16 (if width =? -1 then 32767 else width)).

(** One conversion, from behind its letter; [inr] leaves the function. *)
Definition scan_convert (k : conversion) (width qualifier : Z) (x : scan) : scan + Z * list stored :=
  let '(MkScan fmt str off num out) := x in
  match k with
  | KChar =>
      let w := Z.to_nat (Z.max 1 (if width =? -1 then 1 else width)) in
      let l := take w str in
      inl (MkScan fmt (drop w str) (off + len l) (num + 1) (out ++ [SChars l]))
  | KString =>
      let w := string_width width in
      let '(str, n) := skip_spaces str in
      let l := take_word w str in
      inl (MkScan fmt (drop (length l) str) (off + n + len l) (num + 1) (out ++ [SChars (l ++ [0])]))
  | KCount => inl (MkScan fmt str off num (out ++ [SInt 4 (s32 off)]))
  | KPercent =>
      if deref str =? ch "%" then inl (MkScan fmt (tail str) (off + 1) num out) else inr (num, out)
  | KInvalid => inr (num, out)
  | KInt base is_sign =>
      let '(str, n) := skip_spaces str in
      let digit := if is_sign && (deref str =? ch "-") then deref (tail str) else deref str in
      if no_digit base digit then inr (scan_end (MkScan fmt str (off + n) num out))
      else
        let '(v, next, k) := scan_int qualifier base is_sign str in
        inl (MkScan fmt next (off + n + k) (num + 1) (out ++ [v]))
  end.

(** What follows a [%]. *)
Definition scan_directive (x : scan) : scan + Z * list stored :=
  let '(MkScan fmt str off num out) := x in
  if deref fmt =? ch "*" then
    let '(str, n) := skip_word str in inl (MkScan (skip_directive fmt) str (off + n) num out)
  else
    let '(width, fmt) := if isdigit (deref fmt) then let '(i, f) := skip_atoi fmt in (s16 i, f) else (-1, fmt) in
    let '(qualifier, fmt) := scan_qualifier fmt in
    if (deref fmt =? 0) || (deref str =? 0) then inr (scan_end (MkScan fmt str off num out))
    else scan_convert (conversion_of (deref fmt)) width qualifier (MkScan (tail fmt) str off num out).

(** A round of the loop of [vsscanf]. *)
Definition vsscanf_body {S} (x : scan) : M S (scan + Z * list stored) :=
  if (deref (sc_fmt x) =? 0) || (deref (sc_str x) =? 0) then mret (inr (scan_end x))
  else
    let '(MkScan fmt str off num out) := scan_space x in
    if negb (deref fmt =? ch "%") && negb (deref fmt =? 0) then
      let x' := MkScan (tail fmt) (tail str) (off + 1) num out in
      mret (if deref fmt =? deref str then inl x' else inr (scan_end x'))
    else if deref fmt =? 0 then mret (inr (scan_end (MkScan fmt str off num out)))
    else mret (scan_directive (MkScan (tail fmt) str off num out)).

(** [sscanf(buf, fmt, ...)]: the number of conversions and what was stored. *)
Definition vsscanf {S} (buf fmt : list Z) : M S (Z * list stored) :=
  loop (Datatypes.S (length fmt)) vsscanf_body (MkScan fmt buf 0 0 []).

(** The value of an [int] variable after a [sscanf] whose argument number [i]
    was its address: the old value when nothing was stored. *)
Definition scanned (out : list stored) (i : nat) (old : Z) : Z :=
  match out !! i with Some (SInt _ v) => v | _ => old end.

(** ** [lib/string.c] *)

(** The two loops of [strpbrk]: the text up to a character of [ct], and what
    begins with it. *)
Fixpoint strpbrk (cs ct : list Z) : option (list Z * list Z) :=
  match cs with
  | [] => None
  | c :: cs' =>
      if existsb (Z.eqb c) ct then Some ([], cs)
      else match strpbrk cs' ct with Some (a, b) => Some (c :: a, b) | None => None end
  end.

(** [strsep(&s, ct)]: the token, which is NULL when [s] is, and the new [s]. *)
Definition strsep (s : option (list Z)) (ct : list Z) : option (list Z) * option (list Z) :=
  match s with
  | None => (None, None)
  | Some sbegin =>
      match strpbrk sbegin ct with
      | Some (token, rest) => (Some token, Some (tail rest))
      | None => (Some sbegin, None)
      end
  end.

(** ** [vsscanf] always returns *)

Lemma skip_spaces_length p : (length (skip_spaces p).1 <= length p)%nat.
Proof.
  induction p as [|c p IH]; [done|]. simpl. destruct (isspace c); [|done].
  destruct (skip_spaces p). simpl in *. lia.
Qed.

Lemma skip_directive_length p : (length (skip_directive p) <= length p)%nat.
Proof. induction p as [|c p IH]; [done|]. simpl. destruct (_ || _); simpl; lia. Qed.

Lemma atoi_from_length i p : (length (atoi_from i p).2 <= length p)%nat.
Proof. revert i. induction p as [|c p IH]; intros i; [done|]. simpl. destruct (isdigit c); [|done]. etrans; [apply IH|lia]. Qed.

Lemma tail_length (p : list Z) : (length (tail p) <= length p)%nat.
Proof. destruct p; simpl; lia. Qed.

Lemma deref_length p : deref p <> 0 -> (length (tail p) < length p)%nat.
Proof. destruct p; [done|simpl; lia]. Qed.

Lemma scan_qualifier_length p : (length (scan_qualifier p).2 <= length p)%nat.
Proof.
  pose proof (tail_length p). pose proof (tail_length (tail p)).
  unfold scan_qualifier. repeat case_match; simpl; lia.
Qed.

Lemma scan_convert_length k w q x x' : scan_convert k w q x = inl x' -> sc_fmt x' = sc_fmt x.
Proof.
  destruct x as [fmt str off num out]. destruct k; cbn [scan_convert sc_fmt]; repeat case_match; by intros [= <-].
Qed.

Lemma scan_directive_length x x' : scan_directive x = inl x' -> (length (sc_fmt x') <= length (sc_fmt x))%nat.
Proof.
  destruct x as [fmt str off num out]. unfold scan_directive. case_match.
  { destruct (skip_word str). intros [= <-]. apply skip_directive_length. }
  set (a := if isdigit (deref fmt) then _ else _).
  assert (length a.2 <= length fmt)%nat as Ha.
  { unfold a. case_match; [|done]. pose proof (atoi_from_length 0 fmt) as Hl. unfold skip_atoi.
    by destruct (atoi_from 0 fmt). }
  destruct a as [width f]. pose proof (scan_qualifier_length f) as Hq.
  destruct (scan_qualifier f) as [q g]. cbn [sc_fmt snd] in *. case_match; [done|].
  intros ->%scan_convert_length. cbn [sc_fmt]. pose proof (tail_length g). lia.
Qed.

Lemma vsscanf_body_shrinks {S} x (s : S) : exists r, vsscanf_body x s = Ok (r, s) /\
  forall x', r = inl x' -> (length (sc_fmt x') < length (sc_fmt x))%nat.
Proof.
  unfold vsscanf_body. destruct (_ || _) eqn:E; [by eexists|]. bool_to_prop.
  assert (length (sc_fmt (scan_space x)) <= length (sc_fmt x))%nat as Hs.
  { unfold scan_space. case_match; [|done]. destruct (skip_spaces (sc_str x)). simpl.
    etrans; [apply skip_spaces_length|apply tail_length]. }
  destruct (scan_space x) as [fmt str off num out]. simpl in Hs.
  destruct (negb _ && negb _) eqn:E1.
  - bool_to_prop. eexists. split; [done|]. intros x'. case_match; [|done]. intros [= <-]. simpl.
    pose proof (deref_length fmt). lia.
  - destruct (Z.eqb_spec (deref fmt) 0); [by eexists|]. eexists. split; [done|].
    intros x' Hd%scan_directive_length. simpl in Hd. pose proof (deref_length fmt). lia.
Qed.

Lemma vsscanf_loop_returns {S} n x (s : S) : (length (sc_fmt x) < n)%nat -> exists r, loop n vsscanf_body x s = Ok (r, s).
Proof.
  revert x. induction n as [|n IH]; intros x Hn; [lia|].
  destruct (vsscanf_body_shrinks x s) as ([x'|r] & Hr & Hl).
  - specialize (Hl x' eq_refl). erewrite loop_next by exact Hr. apply IH. lia.
  - exists r. by apply loop_exit.
Qed.

(** Every text is read with every format. *)
Lemma vsscanf_returns {S} buf fmt (s : S) : exists r, vsscanf buf fmt s = Ok (r, s).
Proof. apply vsscanf_loop_returns. simpl. lia. Qed.

(** ** Decimal numbers *)

Definition decimal_from (r : Z) (d : list Z) : Z := fold_left (fun r c => r * 10 + (c - 48)) d r.

(** [d] is written with decimal digits and has the value [z], which is an [int]. *)
Definition numeral (d : list Z) (z : Z) : Prop :=
  d <> [] /\ Forall (fun c => isdigit c = true) d /\ decimal_from 0 d = z /\ z < 2 ^ 31.

Lemma isdigit_range c : isdigit c = true <-> 48 <= c <= 57.
Proof. unfold isdigit, between. rewrite andb_true_iff, !Z.leb_le. lia. Qed.

Lemma decimal_from_grows d r : 0 <= r -> Forall (fun c => isdigit c = true) d -> r <= decimal_from r d.
Proof.
  intros Hr Hd. revert r Hr. induction Hd as [|c d Hc Hd IH]; intros r Hr; [done|].
  apply isdigit_range in Hc. change (r <= decimal_from (r * 10 + (c - 48)) d).
  specialize (IH (r * 10 + (c - 48)) ltac:(lia)). lia.
Qed.

Lemma numeral_bound d z : numeral d z -> 0 <= z < 2 ^ 31.
Proof. intros (_ & Hd & <- & Hz). pose proof (decimal_from_grows d 0). auto with lia. Qed.

Lemma digits_decimal d rest r : 0 <= r -> Forall (fun c => isdigit c = true) d ->
  isdigit (deref rest) = false -> decimal_from r d < 2 ^ 64 ->
  digits_from 10 r (d ++ rest) = (decimal_from r d, rest, len d).
Proof.
  intros Hr Hd Hrest. revert r Hr. induction Hd as [|c d Hc Hd IH]; intros r Hr Hb.
  - simpl. destruct rest as [|c rest]; [done|]. simpl in *.
    destruct (isxdigit c) eqn:Hx; [|done]. rewrite Hrest.
    enough ((10 <=? TOLOWER c - ch "a" + 10) = true) as -> by done.
    unfold isxdigit, between in Hx. rewrite Hrest in Hx. simpl in Hx.
    change (ch "a") with 97. apply Z.leb_le.
    assert (65 <= c <= 70 \/ 97 <= c <= 102) as Hc
      by (apply orb_true_iff in Hx; destruct Hx; bool_to_prop; lia).
    assert (c ∈ seqZ 65 6 ++ seqZ 97 6) as Hin by (apply elem_of_app; rewrite !elem_of_seqZ; lia).
    revert Hin. clear. intros Hin.
    assert (Forall (fun c => 10 <= TOLOWER c - 97 + 10) (seqZ 65 6 ++ seqZ 97 6)) as Hf
      by (vm_compute; repeat constructor; done).
    rewrite Forall_forall in Hf. by apply Hf.
  - pose proof Hc as Hc'. apply isdigit_range in Hc. simpl. unfold isxdigit. rewrite Hc'. simpl.
    change (ch "0") with 48. destruct (Z.leb_spec 10 (c - 48)); [lia|].
    change (decimal_from r (c :: d)) with (decimal_from (r * 10 + (c - 48)) d) in *.
    pose proof (decimal_from_grows d (r * 10 + (c - 48)) ltac:(lia) Hd).
    rewrite u64_small by lia. rewrite IH by (done || lia). f_equal. lia.
Qed.

Lemma strtol_numeral d z rest : numeral d z -> isdigit (deref rest) = false ->
  simple_strtol (d ++ rest) 10 = (z, rest, len d).
Proof.
  intros Hn Hrest. pose proof (numeral_bound _ _ Hn). destruct Hn as (Hne & Hd & Hz & Hb).
  unfold simple_strtol, simple_strtoul, simple_strtoull.
  assert ((deref (d ++ rest) =? ch "-") = false) as ->.
  { destruct Hd as [|c d Hc Hd]; [done|]. apply isdigit_range in Hc. simpl. apply Z.eqb_neq.
    change (ch "-") with 45. lia. }
  simpl. rewrite digits_decimal by (done || lia). rewrite Hz, u32_small, s32_small by lia. done.
Qed.

(** A round on a character of the format, one that the text has, and on [%d]. *)
Lemma scan_character {S} c f str off num out (s : S) : c <> 37 -> isspace c = false ->
  let x' := MkScan f (tail str) (off + 1) num out in
  vsscanf_body (MkScan (c :: f) str off num out) s
  = Ok (if (c =? 0) || (deref str =? 0) then inr (scan_end (MkScan (c :: f) str off num out))
        else if c =? deref str then inl x' else inr (scan_end x'), s).
Proof.
  intros Hp Hs x'. unfold vsscanf_body, scan_space. cbn [sc_fmt sc_str]. change (deref (c :: f)) with c.
  destruct (_ || _) eqn:E; [done|]. apply orb_false_iff in E as [E _]. rewrite Hs.
  change (ch "%") with 37. change (deref (c :: f)) with c. by rewrite (proj2 (Z.eqb_neq c 37) Hp), E.
Qed.

Lemma scan_literal {S} c f str off num out (s : S) : c <> 0 -> c <> 37 -> isspace c = false ->
  vsscanf_body (MkScan (c :: f) (c :: str) off num out) s = Ok (inl (MkScan f str (off + 1) num out), s).
Proof.
  intros H0 Hp Hs. rewrite scan_character by done. change (deref (c :: str)) with c.
  by rewrite (proj2 (Z.eqb_neq c 0) H0), Z.eqb_refl.
Qed.

Lemma convert_decimal d z f rest off num out w : numeral d z -> isdigit (deref rest) = false ->
  scan_convert (KInt 10 true) w 255 (MkScan f (d ++ rest) off num out)
  = inl (MkScan f rest (off + len d) (num + 1) (out ++ [SInt 4 z])).
Proof.
  intros Hn Hrest. pose proof (strtol_numeral d z rest Hn Hrest) as Hv. pose proof Hn as (Hne & Hd & _).
  destruct d as [|c d]; [done|]. apply Forall_cons in Hd as [Hc _]. pose proof Hc as Hr. apply isdigit_range in Hr.
  assert (skip_spaces ((c :: d) ++ rest) = ((c :: d) ++ rest, 0)) as Hsp.
  { simpl. unfold isspace, between. destruct (Z.leb_spec c 13), (Z.eqb_spec c 32), (Z.eqb_spec c 160); try lia.
    by rewrite andb_false_r. }
  unfold scan_convert. rewrite Hsp. change (deref ((c :: d) ++ rest)) with c.
  rewrite (proj2 (Z.eqb_neq c (ch "-"))) by (change (ch "-") with 45; lia). cbn [andb].
  unfold no_digit. rewrite (proj2 (Z.eqb_neq c 0)), Hc by lia. cbn [orb andb negb Z.eqb Pos.eqb].
  unfold scan_int. rewrite Hv. cbn -[length]. by rewrite Z.add_0_r.
Qed.

Lemma scan_decimal {S} d z f rest off num out (s : S) : numeral d z -> isdigit (deref rest) = false ->
  vsscanf_body (MkScan (37 :: 100 :: f) (d ++ rest) off num out) s
  = Ok (inl (MkScan f rest (off + len d) (num + 1) (out ++ [SInt 4 z])), s).
Proof.
  intros Hn Hrest. rewrite <- (convert_decimal d z f rest off num out (-1) Hn Hrest). destruct Hn as (Hne & Hd & _).
  destruct d as [|c d]; [done|]. apply Forall_cons in Hd as [Hc _]. apply isdigit_range in Hc.
  unfold vsscanf_body, scan_space, scan_directive. cbn -[scan_convert].
  by rewrite (proj2 (Z.eqb_neq c 0)) by lia.
Qed.

(** ** Splitting a text *)

Lemma strpbrk_found pre c rest : c ∉ pre -> strpbrk (pre ++ c :: rest) [c] = Some (pre, c :: rest).
Proof.
  induction pre as [|a pre IH]; intros Hc; simpl; [by rewrite Z.eqb_refl|].
  apply not_elem_of_cons in Hc as [Ha Hc]. rewrite (proj2 (Z.eqb_neq a c)) by done. by rewrite IH.
Qed.

Lemma strpbrk_none cs c : c ∉ cs -> strpbrk cs [c] = None.
Proof.
  induction cs as [|a cs IH]; intros Hc; simpl; [done|].
  apply not_elem_of_cons in Hc as [Ha Hc]. rewrite (proj2 (Z.eqb_neq a c)) by done. by rewrite IH.
Qed.

Lemma strsep_found pre c rest : c ∉ pre -> strsep (Some (pre ++ c :: rest)) [c] = (Some pre, Some rest).
Proof. intros Hc. simpl. by rewrite strpbrk_found. Qed.

Lemma strsep_last cs c : c ∉ cs -> strsep (Some cs) [c] = (Some cs, None).
Proof. intros Hc. simpl. by rewrite strpbrk_none. Qed.

(** The rest of a format without conversions stores nothing. *)
Lemma scan_literals {S} n fmt str off num out (s : S) :
  Forall (fun c => c <> 37 /\ isspace c = false) fmt -> (length fmt < n)%nat ->
  loop n vsscanf_body (MkScan fmt str off num out) s = Ok ((num, out), s).
Proof.
  assert (forall fmt str off, Forall (fun c => c <> 37 /\ isspace c = false) fmt ->
    scan_end (MkScan fmt str off num out) = (num, out)) as He.
  { intros f st o Hf. unfold scan_end. cbn [sc_fmt sc_num sc_out]. destruct Hf as [|c f [Hc _]]; [done|].
    change (deref (c :: f)) with c. by rewrite (proj2 (Z.eqb_neq c (ch "%"))). }
  intros Hf. revert fmt str off Hf. induction n as [|n IH]; intros fmt str off Hf Hn; [lia|].
  inversion Hf as [|c f [Hc Hs] Hf' Heq]; subst fmt.
  { apply loop_exit. unfold vsscanf_body. cbn [sc_fmt deref hd Z.eqb orb]. by rewrite He. }
  pose proof (scan_character c f str off num out s Hc Hs) as Hr. simpl in Hn.
  destruct (_ || _); [|destruct (c =? deref str)]; cbn zeta in Hr; rewrite ?He in Hr by done.
  - by apply loop_exit.
  - erewrite loop_next by exact Hr. apply IH; [done|lia].
  - by apply loop_exit.
Qed.
