(* ===== verification/Cpufreq.v ===== *)
(** * The CPU frequency driver, [arch/arm/mach-wmt/wmt_cpufreq.c]

    The driver takes a table of frequencies from the boot variable
    [wmt.misc.param] and offers it to the CPU frequency core of the kernel, whose
    helpers for tables ([drivers/cpufreq/freq_table.c]) are modelled with it.  The
    state has the boot environment of [EnvFlash] as a field.  Code behind the
    unconditional [return] of [wmt_getspeed] and [wmt_change_plla_freq] is never
    reached and left out, and so are messages and [get_arm_plla_param], which
    reads two registers and uses neither. *)

From Stdlib Require Import Ascii String.
From S2P Require Import Prelude Env EnvFlash Scan.
From stdpp Require Import list strings.

#[local] Open Scope Z_scope.

(** ** Data *)

Definition DVFS_TABLE_NUM_MAX : Z := 20.
Definition CPUFREQ_RELATION_L : Z := 0.
Definition CPUFREQ_RELATION_H : Z := 1.
Definition CPUFREQ_ENTRY_INVALID : Z := u32 (Z.lnot 0).
Definition CPUFREQ_TABLE_END : Z := u32 (Z.lnot 1).
Definition ENOMEM : Z := 12.
Definition ENODEV : Z := 19.
Definition EINVAL : Z := 22.
Definition ENODATA : Z := 61.

(** [struct wmt_dvfs_table]; its list node is the place of the entry. *)
Record wmt_dvfs_table := MkDvfs { freq : Z; vol : Z; index : Z }.

(** [struct cpufreq_frequency_table]. *)
Record cpufreq_frequency_table := MkFreq { ft_index : Z; frequency : Z }.

(** What the driver and the helpers use of [struct cpufreq_policy]. *)
Record cpufreq_policy := MkPolicy {
  cpu : Z;
  p_min : Z;
  p_max : Z;
  cur : Z;
  min_freq : Z;
  max_freq : Z;
  transition_latency : Z;
}.

(** A pointer to allocated memory. *)
Inductive heap (A : Type) := Null | Block (a : A) | Freed.
Arguments Null {A}.
Arguments Block {A} a.
Arguments Freed {A}.

(** [wmt_dvfs_drvdata] (of [wmt_dvfs_list] the places of its nodes in
    [dvfs_table], [None] before it is initialised), the other variable of the
    file, the environment, which allocations will fail, the notifications sent
    (old and new frequency, before and after a change) and whether the core
    shows the table. *)
Record cpufreq_st F := MkCf {
  cf_env : est F;
  tbl_num : Z;
  sample_rate : Z;
  wmt_dvfs_list : option (list nat);
  dvfs_table : heap (list wmt_dvfs_table);
  freq_table : heap (list cpufreq_frequency_table);
  gMaxCpuFreq : Z;
  fails : list bool;
  notified : list (bool * Z * Z);
  shown : bool;
}.
Arguments MkCf {F}.
Arguments cf_env {F}.
Arguments tbl_num {F}.
Arguments sample_rate {F}.
Arguments wmt_dvfs_list {F}.
Arguments dvfs_table {F}.
Arguments freq_table {F}.
Arguments gMaxCpuFreq {F}.
Arguments fails {F}.
Arguments notified {F}.
Arguments shown {F}.

(** ** The helpers for tables, [drivers/cpufreq/freq_table.c] *)

Definition cpufreq_verify_within_limits (p : cpufreq_policy) (min max : Z) : cpufreq_policy :=
  let a := p_min p in
  let b := p_max p in
  let a := if a <? min then min else a in
  let b := if b <? min then min else b in
  let a := if max <? a then max else a in
  let b := if max <? b then max else b in
  let a := if b <? a then b else a in
  MkPolicy (cpu p) a b (cur p) (min_freq p) (max_freq p) (transition_latency p).

(** [for (i = 0; table[i].frequency != CPUFREQ_TABLE_END; i++)]: the loop leaves
    the table when it has no end mark. *)
Fixpoint table_loop {A} (table : list cpufreq_frequency_table) (f : Z -> A -> A) (a : A) : result A :=
  match table with
  | [] => Fault Undefined
  | e :: rest =>
      if frequency e =? CPUFREQ_TABLE_END then Ok a
      else table_loop rest f (if frequency e =? CPUFREQ_ENTRY_INVALID then a else f (frequency e) a)
  end.

Definition cpuinfo_body (fr : Z) (mm : Z * Z) : Z * Z :=
  let '(mn, mx) := mm in (if fr <? mn then fr else mn, if mx <? fr then fr else mx).

Definition cpufreq_frequency_table_cpuinfo (p : cpufreq_policy) (table : list cpufreq_frequency_table) :
  result (Z * cpufreq_policy) :=
  match table_loop table cpuinfo_body (u32 (Z.lnot 0), 0) with
  | Ok (mn, mx) =>
      Ok (if mn =? u32 (Z.lnot 0) then - EINVAL else 0,
          MkPolicy (cpu p) mn mx (cur p) mn mx (transition_latency p))
  | Fault f => Fault f
  end.

Definition verify_body (p : cpufreq_policy) (fr : Z) (x : Z * Z) : Z * Z :=
  let '(count, next_larger) := x in
  if (p_min p <=? fr) && (fr <=? p_max p) then (u32 (count + 1), next_larger)
  else if (fr <? next_larger) && (p_max p <? fr) then (count, fr)
  else (count, next_larger).

(** [cpu_online(cpu)] without SMP is [cpu == 0]. *)
Definition cpufreq_frequency_table_verify (p : cpufreq_policy) (table : list cpufreq_frequency_table) :
  result (Z * cpufreq_policy) :=
  if negb (cpu p =? 0) then Ok (- EINVAL, p)
  else
    let p := cpufreq_verify_within_limits p (min_freq p) (max_freq p) in
    match table_loop table (verify_body p) (0, u32 (Z.lnot 0)) with
    | Ok (count, next_larger) =>
        let p := if count =? 0
                 then MkPolicy (cpu p) (p_min p) next_larger (cur p) (min_freq p) (max_freq p) (transition_latency p)
                 else p in
        Ok (0, cpufreq_verify_within_limits p (min_freq p) (max_freq p))
    | Fault f => Fault f
    end.

Section Driver.
Context {F : Type} `{FlashOps F}.
Abbreviation C := (M (cpufreq_st F)).

(** ** Access to the state *)

Definition with_env (e : est F) (s : cpufreq_st F) : cpufreq_st F :=
  MkCf e (tbl_num s) (sample_rate s) (wmt_dvfs_list s) (dvfs_table s) (freq_table s) (gMaxCpuFreq s) (fails s)
    (notified s) (shown s).
Definition with_data (n r : Z) (l : option (list nat)) (d : heap (list wmt_dvfs_table)) (s : cpufreq_st F) :
  cpufreq_st F :=
  MkCf (cf_env s) n r l d (freq_table s) (gMaxCpuFreq s) (fails s) (notified s) (shown s).
Definition with_freq_table (t : heap (list cpufreq_frequency_table)) (s : cpufreq_st F) : cpufreq_st F :=
  MkCf (cf_env s) (tbl_num s) (sample_rate s) (wmt_dvfs_list s) (dvfs_table s) t (gMaxCpuFreq s) (fails s)
    (notified s) (shown s).
Definition with_max (x : Z) (s : cpufreq_st F) : cpufreq_st F :=
  MkCf (cf_env s) (tbl_num s) (sample_rate s) (wmt_dvfs_list s) (dvfs_table s) (freq_table s) x (fails s)
    (notified s) (shown s).
Definition with_fails (l : list bool) (s : cpufreq_st F) : cpufreq_st F :=
  MkCf (cf_env s) (tbl_num s) (sample_rate s) (wmt_dvfs_list s) (dvfs_table s) (freq_table s) (gMaxCpuFreq s) l
    (notified s) (shown s).
Definition with_shown (b : bool) (s : cpufreq_st F) : cpufreq_st F :=
  MkCf (cf_env s) (tbl_num s) (sample_rate s) (wmt_dvfs_list s) (dvfs_table s) (freq_table s) (gMaxCpuFreq s)
    (fails s) (notified s) b.

Definition on_env {A} (m : M (est F) A) : C A := fun s =>
  match m (cf_env s) with
  | Ok (a, e) => Ok (a, with_env e s)
  | Fault f => Fault f
  end.

(** Code that does not touch the state. *)
Definition lift {A} (r : result A) : C A := fun s => match r with Ok a => Ok (a, s) | Fault f => Fault f end.

(** [kzalloc]: whether it answers memory. *)
Definition kzalloc : C bool := fun s => Ok (negb (hd false (fails s)), with_fails (tail (fails s)) s).

(** [kfree] of a pointer that is not NULL; memory that is freed may not be
    freed again. *)
Definition kfree {A} (p : heap A) : C (heap A) :=
  match p with
  | Null => mret Null
  | Block _ => mret Freed
  | Freed => fail_with Undefined
  end.

(** [cpufreq_notify_transition]: only recorded. *)
Definition cpufreq_notify_transition (post : bool) (old new : Z) : C unit := modify (fun s =>
  MkCf (cf_env s) (tbl_num s) (sample_rate s) (wmt_dvfs_list s) (dvfs_table s) (freq_table s) (gMaxCpuFreq s)
    (fails s) (notified s ++ [(post, old, new)]) (shown s)).

(** The nodes of [wmt_dvfs_list], and the entry of a node. *)
Definition nodes : C (list nat) := l ← gets wmt_dvfs_list; initialised l.
Definition entry (k : nat) : C wmt_dvfs_table :=
  t ← gets dvfs_table;
  match t with
  | Block l => initialised (l !! k)
  | _ => fail_with Undefined
  end.

(** ** The frequency table *)

(** [freq_tbl[i].index = i; freq_tbl[i].frequency = f;] *)
Definition set_freq (i : nat) (f : Z) : C unit :=
  t ← gets freq_table;
  match t with
  | Block l =>
      if decide (i < length l)%nat then modify (with_freq_table (Block (<[i := MkFreq (Z.of_nat i) f]> l)))
      else fail_with Undefined
  | _ => fail_with Undefined
  end.

(** [list_for_each_entry] of [wmt_init_cpufreq_table]; the final [i]. *)
Fixpoint copy_entries (l : list nat) (i : nat) : C nat :=
  match l with
  | [] => mret i
  | k :: l' => d ← entry k; set_freq i (freq d);; copy_entries l' (S i)
  end.

(** The allocation is [tbl_num + 1] times the 20 bytes of a [wmt_dvfs_table]; an
    entry of the table that is put there takes 8. *)
Definition wmt_init_cpufreq_table : C Z :=
  n ← gets tbl_num;
  ok ← kzalloc;
  if (ok : bool) then
    modify (with_freq_table (Block (replicate (Z.to_nat (u32 (20 * u32 (n + 1)) / 8)) (MkFreq 0 0))));;
    l ← nodes;
    i ← copy_entries l 0;
    set_freq i CPUFREQ_TABLE_END;;
    mret 0
  else mret (- ENOMEM).

Definition wmt_exit_cpufreq_table : C unit :=
  f ← gets freq_table;
  f' ← kfree f;
  modify (with_freq_table f');;
  d ← gets dvfs_table;
  d' ← kfree d;
  modify (fun s => with_data (tbl_num s) (sample_rate s) (wmt_dvfs_list s) d' s).

(** ** Speeds *)

Definition wmt_getspeed (c : Z) : C Z := if negb (c =? 0) then mret 0 else gets (fun s => u32 (gMaxCpuFreq s)).

Fixpoint find_ceil (l : list nat) (target : Z) : C (option wmt_dvfs_table) :=
  match l with
  | [] => mret None
  | k :: l' => d ← entry k; if target <=? freq d then mret (Some d) else find_ceil l' target
  end.
Definition find_freq_ceil (target : Z) : C (option wmt_dvfs_table) := l ← nodes; find_ceil l target.

Fixpoint find_floor (l : list nat) (target : Z) : C (option wmt_dvfs_table) :=
  match l with
  | [] => mret None
  | k :: l' => d ← entry k; if freq d <=? target then mret (Some d) else find_floor l' target
  end.
Definition find_freq_floor (target : Z) : C (option wmt_dvfs_table) := l ← nodes; find_floor (reverse l) target.

(** The entry; the caller's [*target_freq] is then its frequency. *)
Definition wmt_recalc_target_freq (target relation : Z) : C (option wmt_dvfs_table) :=
  if relation =? CPUFREQ_RELATION_L then find_freq_ceil target
  else if relation =? CPUFREQ_RELATION_H then find_freq_floor target
  else mret None.

(** Everything behind the first [return] is unreachable. *)
Definition wmt_change_plla_freq (target : Z) : C Z := gets gMaxCpuFreq.

(** ** The operations of the driver *)

Definition wmt_target (p : cpufreq_policy) (target relation : Z) : C Z :=
  if negb (cpu p =? 0) then mret (- EINVAL)
  else
    let target := if target <? p_min p then p_min p else target in
    let target := if p_max p <? target then p_max p else target in
    t ← wmt_recalc_target_freq target relation;
    match t with
    | None => mret (- EINVAL)
    | Some d =>
        let new := freq d in
        old ← wmt_getspeed (cpu p);
        if new =? old then mret 0
        else
          cpufreq_notify_transition false old new;;
          _ ← wmt_change_plla_freq new;
          cpufreq_notify_transition true old new;;
          mret 0
    end.

Definition wmt_verify_speed (p : cpufreq_policy) : C (Z * cpufreq_policy) :=
  if negb (cpu p =? 0) then mret (- EINVAL, p)
  else
    t ← gets freq_table;
    match t with
    | Null => mret (- EINVAL, p)
    | Freed => fail_with Undefined
    | Block l => lift (cpufreq_frequency_table_verify p l)
    end.

(** [policy->cur], [min] and [max] are first set to the current speed and then,
    but for [cur], by the helper. *)
Definition wmt_cpu_init (p : cpufreq_policy) : C (Z * cpufreq_policy) :=
  if negb (cpu p =? 0) then mret (- EINVAL, p)
  else
    v ← wmt_getspeed (cpu p);
    let p := MkPolicy (cpu p) v v v (min_freq p) (max_freq p) (transition_latency p) in
    _ ← wmt_init_cpufreq_table;
    t ← gets freq_table;
    match t with
    | Null => mret (- EINVAL, p)
    | Freed => fail_with Undefined
    | Block l =>
        '(ret, p) ← lift (cpufreq_frequency_table_cpuinfo p l);
        (if ret =? 0 then modify (with_shown true) else mret tt);;
        v ← wmt_getspeed (cpu p);
        rate ← gets sample_rate;
        modify (with_max (s32 (p_max p)));;
        mret (ret, MkPolicy (cpu p) (p_min p) (p_max p) v (min_freq p) (max_freq p) rate)
    end.

(** [memset(&wmt_dvfs_drvdata, sizeof(wmt_dvfs_drvdata), 0x00)] fills no bytes:
    value and length are swapped. *)
Definition wmt_cpu_exit : C Z := wmt_exit_cpufreq_table;; modify (with_shown false);; mret 0.

(** ** Start-up *)

(** A string in an array: the characters before the first NUL. *)
Fixpoint string_at (buf : list Z) : option (list Z) :=
  match buf with
  | [] => None
  | c :: b => if c =? 0 then Some [] else match string_at b with Some l => Some (c :: l) | None => None end
  end.

Definition default_param : list Z := bytes "1:100000:2:[1200000:1300][1200000:1300]".

(** A round of the loop that fills [dvfs_table]; [ptr], [freq] and [voltage]
    keep their values from round to round. *)
Definition env_body (i : nat) (ptr : option (list Z)) (fr voltage : Z) : C (option (list Z) * Z * Z) :=
  let ptr := (strsep ptr (bytes "[")).2 in
  match ptr with
  | None => fail_with Undefined
  | Some text =>
      '(_, out) ← vsscanf text (bytes "%d:%d]:[");
      let fr := u32 (scanned out 0 fr) in
      let voltage := u32 (scanned out 1 voltage) in
      t ← gets dvfs_table;
      match t with
      | Block l =>
          if decide (i < length l)%nat then
            modify (fun s => with_data (tbl_num s) (sample_rate s) ((fun n => n ++ [i]) <$> wmt_dvfs_list s)
                               (Block (<[i := MkDvfs fr voltage (Z.of_nat i)]> l)) s);;
            mret (ptr, fr, voltage)
          else fail_with Undefined
      | _ => fail_with Undefined
      end
  end.

Fixpoint env_loop (l : list nat) (ptr : option (list Z)) (fr voltage : Z) : C unit :=
  match l with
  | [] => mret tt
  | i :: l' => '(ptr, fr, voltage) ← env_body i ptr fr voltage; env_loop l' ptr fr voltage
  end.

Definition wmt_cpufreq_check_env : C Z :=
  '(ret, buf, _) ← on_env (wmt_getsyspara (bytes "wmt.misc.param") (replicate 512 0) 512);
  text ← (if negb (ret =? 0) then mret default_param else initialised (string_at buf));
  '(_, out) ← vsscanf text (bytes "%d:%d:%d");
  let drv_en := u32 (scanned out 0 0) in
  let rate := u32 (scanned out 1 0) in
  let num := u32 (scanned out 2 0) in
  if drv_en =? 0 then mret (- ENODEV)
  else if num <? 2 then mret (- ENODATA)
  else
    let num := if DVFS_TABLE_NUM_MAX <? num then DVFS_TABLE_NUM_MAX else num in
    ok ← kzalloc;
    if (ok : bool) then
      modify (with_data num rate (Some []) (Block (replicate (Z.to_nat num) (MkDvfs 0 0 0))));;
      env_loop (seq 0 (Z.to_nat num)) (Some text) 0 0;;
      mret 0
    else mret (- ENOMEM).

(** [cpufreq_register_driver] is code of the core that calls the operations
    above; [core] is what it answers. *)
Definition wmt_cpufreq_driver_init (core : Z) : C (Z * bool) :=
  ret ← wmt_cpufreq_check_env;
  if negb (ret =? 0) then mret (ret, false) else mret (core, true).
End Driver.
