(* ===== verification/CpufreqUse.v ===== *)
(** * Theorems on the CPU frequency driver

    What the driver makes of its boot variable, the limits it reports, the
    frequency it chooses, and what does not work. *)

From Stdlib Require Import Ascii String.
From S2P Require Import Prelude Env EnvFlash EnvStore Scan Cpufreq.
From stdpp Require Import list sorting strings.

#[local] Open Scope Z_scope.

(** A comparison of the goal without another one inside. *)
Ltac case_inner :=
  match goal with
  | |- context [?a <? ?b] =>
      lazymatch a with context [if _ then _ else _] => fail | _ => idtac end;
      lazymatch b with context [if _ then _ else _] => fail | _ => idtac end;
      destruct (Z.ltb_spec a b)
  end.

(** ** The table the core sees *)

(** The cells for entries from place [i] on. *)
Fixpoint cells (i : nat) (l : list wmt_dvfs_table) : list cpufreq_frequency_table :=
  match l with
  | [] => []
  | d :: l' => MkFreq (Z.of_nat i) (freq d) :: cells (S i) l'
  end.

Lemma cells_length i l : length (cells i l) = length l.
Proof. revert i. induction l as [|d l IH]; intros i; simpl; [done|by rewrite IH]. Qed.

Lemma cells_snoc i l d : cells i (l ++ [d]) = cells i l ++ [MkFreq (Z.of_nat (i + length l)) (freq d)].
Proof.
  revert i. induction l as [|e l IH]; intros i; simpl; [by rewrite Nat.add_0_r|].
  rewrite IH. by replace (S i + length l)%nat with (i + S (length l))%nat by lia.
Qed.

(** A frequency that marks neither the end nor a gap. *)
Definition proper (d : wmt_dvfs_table) : Prop := 0 <= freq d < 2 ^ 31.

Lemma table_loop_cells {A} (f : Z -> A -> A) l i j junk a : Forall proper l ->
  table_loop (cells i l ++ MkFreq j CPUFREQ_TABLE_END :: junk) f a
  = Ok (fold_left (fun a d => f (freq d) a) l a).
Proof.
  intros Hl. revert i a. induction Hl as [|d l Hd Hl IH]; intros i a; [done|].
  cbn [cells app table_loop frequency]. unfold proper in Hd. change CPUFREQ_TABLE_END with 4294967294.
  change CPUFREQ_ENTRY_INVALID with 4294967295.
  destruct (Z.eqb_spec (freq d) 4294967294), (Z.eqb_spec (freq d) 4294967295); [lia..|]. apply IH.
Qed.

(** With an end mark somewhere, the loop stays inside. *)
Definition ended (t : list cpufreq_frequency_table) : Prop := Exists (fun e => frequency e = CPUFREQ_TABLE_END) t.

Lemma table_loop_ended {A} (f : Z -> A -> A) t a : ended t -> exists r, table_loop t f a = Ok r.
Proof.
  intros Ht. revert a. induction Ht as [e t He|e t Ht IH]; intros a; simpl.
  - rewrite He. eauto.
  - case_match; eauto.
Qed.

(** ** Limits *)

Lemma cpuinfo_fold l mn mx : Forall proper l ->
  let r := fold_left (fun a d => cpuinfo_body (freq d) a) l (mn, mx) in
  r.1 <= mn /\ mx <= r.2 /\ (forall d, d ∈ l -> r.1 <= freq d <= r.2) /\
  (r.1 = mn \/ exists d, d ∈ l /\ freq d = r.1) /\ (r.2 = mx \/ exists d, d ∈ l /\ freq d = r.2).
Proof.
  intros Hl. revert mn mx. induction Hl as [|d l Hd Hl IH]; intros mn mx; simpl.
  - split_and!; [lia..| |by left|by left]. by intros d Hd%elem_of_nil.
  - destruct (IH (if freq d <? mn then freq d else mn) (if mx <? freq d then freq d else mx)) as (H1 & H2 & H3 & H4 & H5).
    split_and!.
    + etrans; [exact H1|]. case_bool; lia.
    + etrans; [|exact H2]. case_bool; lia.
    + intros e [->|He]%elem_of_cons; [|by apply H3]. revert H1 H2. do 2 case_bool; lia.
    + destruct H4 as [->|(e & He & Hf)]; [case_bool; [right; exists d|by left]|right; exists e]; split; try done; by constructor.
    + destruct H5 as [->|(e & He & Hf)]; [case_bool; [right; exists d|by left]|right; exists e]; split; try done; by constructor.
Qed.

(** [min] and [max] are the limits of the table. *)
Definition limits (l : list wmt_dvfs_table) (mn mx : Z) : Prop :=
  (forall d, d ∈ l -> mn <= freq d <= mx) /\
  (exists d, d ∈ l /\ freq d = mn) /\ (exists d, d ∈ l /\ freq d = mx).

Lemma limits_order l mn mx : limits l mn mx -> Forall proper l -> 0 <= mn <= mx /\ mx < 2 ^ 31.
Proof.
  intros (Hl & (d & Hd & <-) & (e & He & <-)) Hp. rewrite Forall_forall in Hp.
  pose proof (Hp d Hd). pose proof (Hp e He). pose proof (Hl d Hd). unfold proper in *. lia.
Qed.

Lemma cpuinfo_limits p l i j junk : Forall proper l -> l <> [] ->
  exists mn mx, limits l mn mx /\
    cpufreq_frequency_table_cpuinfo p (cells i l ++ MkFreq j CPUFREQ_TABLE_END :: junk)
    = Ok (0, MkPolicy (cpu p) mn mx (cur p) mn mx (transition_latency p)).
Proof.
  intros Hp Hne. unfold cpufreq_frequency_table_cpuinfo. rewrite table_loop_cells by done.
  change (u32 (Z.lnot 0)) with 4294967295.
  pose proof (cpuinfo_fold l 4294967295 0 Hp) as Hf. cbn zeta in Hf.
  destruct (fold_left _ l _) as [mn mx]. simpl in Hf. destruct Hf as (H1 & H2 & H3 & H4 & H5).
  destruct l as [|d l]; [done|]. pose proof (H3 d ltac:(by constructor)) as Hd.
  assert (proper d) as Hpd by (by inversion Hp). unfold proper in Hpd.
  exists mn, mx. rewrite (proj2 (Z.eqb_neq mn 4294967295)) by lia. split; [|done]. split; [done|]. split.
  - destruct H4 as [->|]; [lia|done].
  - destruct H5 as [->|]; [|done]. exists d. split; [by constructor|lia].
Qed.

Lemma within_limits p mn mx : mn <= mx ->
  let q := cpufreq_verify_within_limits p mn mx in
  mn <= p_min q /\ p_min q <= p_max q <= mx /\ cpu q = cpu p /\ min_freq q = min_freq p /\ max_freq q = max_freq p.
Proof. intros Hm. unfold cpufreq_verify_within_limits. simpl. repeat case_inner; lia. Qed.

Lemma within_limits_max p mn mx : mn <= p_min p -> p_min p <= p_max p <= mx ->
  p_min (cpufreq_verify_within_limits p mn mx) = p_min p /\ p_max (cpufreq_verify_within_limits p mn mx) = p_max p.
Proof. intros. unfold cpufreq_verify_within_limits. simpl. repeat case_inner; lia. Qed.

(** The loop of [verify]: entries in range are counted, and the next larger one
    is found. *)
Lemma verify_fold p l count nl : Forall proper l -> 0 <= count -> count + len l < 2 ^ 32 ->
  let r := fold_left (fun a d => verify_body p (freq d) a) l (count, nl) in
  count <= r.1 /\ (r.1 = count -> forall d, d ∈ l -> ~ p_min p <= freq d <= p_max p) /\
  (r.1 <> count -> exists d, d ∈ l /\ p_min p <= freq d <= p_max p) /\
  r.2 <= nl /\ (forall d, d ∈ l -> p_max p < freq d -> p_min p <= p_max p -> r.2 <= freq d) /\
  (r.2 = nl \/ exists d, d ∈ l /\ freq d = r.2 /\ p_max p < freq d).
Proof.
  intros Hl. revert count nl. induction Hl as [|d l Hd Hl IH]; intros count nl Hc Hb; simpl.
  { split_and!; [lia| |done|lia| |by left]; intros; by match goal with H : _ ∈ [] |- _ => apply elem_of_nil in H end. }
  simpl in Hb. destruct ((p_min p <=? freq d) && (freq d <=? p_max p)) eqn:E.
  - rewrite u32_small by lia. destruct (IH (count + 1) nl ltac:(lia) ltac:(lia)) as (H1 & H2 & H3 & H4 & H5 & H6).
    bool_to_prop. split_and!; [lia|lia| |done| |].
    + intros _. exists d. split; [by constructor|lia].
    + intros e [->|He]%elem_of_cons; [lia|by apply H5].
    + destruct H6 as [?|(e & He & ?)]; [by left|right; exists e; by split; [constructor|]].
  - assert (~ p_min p <= freq d <= p_max p) as Hn by (intros ?; apply andb_false_iff in E; lia).
    set (nl' := if (freq d <? nl) && (p_max p <? freq d) then freq d else nl).
    assert (verify_body p (freq d) (count, nl) = (count, nl')) as Hv
      by (unfold verify_body, nl'; rewrite E; by case_match).
    unfold verify_body in Hv. rewrite E in Hv. rewrite Hv.
    destruct (IH count nl' ltac:(lia) ltac:(lia)) as (H1 & H2 & H3 & H4 & H5 & H6).
    split_and!; [done| | | | |].
    + intros Hr e [->|He]%elem_of_cons; [done|by apply H2].
    + intros Hr. destruct (H3 Hr) as (e & He & ?). exists e. by split; [constructor|].
    + etrans; [exact H4|]. unfold nl'. case_match; bool_to_prop; lia.
    + intros e [->|He]%elem_of_cons Hgt Hle; [|by apply H5]. etrans; [exact H4|]. unfold nl'.
      destruct ((freq d <? nl) && (p_max p <? freq d)) eqn:E2; [lia|apply andb_false_iff in E2; lia].
    + destruct H6 as [->|(e & He & ?)]; [|right; exists e; by split; [constructor|]].
      unfold nl'. destruct ((freq d <? nl) && (p_max p <? freq d)) eqn:E2; [right|by left]. bool_to_prop.
      exists d. split_and!; [by constructor|done|lia].
Qed.

(** Some frequency of the table is left between the limits [verify] sets. *)
Lemma verify_usable p l mn mx i j junk : Forall proper l -> len l < 2 ^ 31 -> limits l mn mx ->
  cpu p = 0 -> min_freq p = mn -> max_freq p = mx ->
  exists q, cpufreq_frequency_table_verify p (cells i l ++ MkFreq j CPUFREQ_TABLE_END :: junk) = Ok (0, q) /\
    mn <= p_min q /\ p_min q <= p_max q <= mx /\ exists d, d ∈ l /\ p_min q <= freq d <= p_max q.
Proof.
  intros Hp Hlen Hlim Hc Hmn Hmx. pose proof (limits_order _ _ _ Hlim Hp) as [Ho Hb].
  unfold cpufreq_frequency_table_verify. rewrite Hc, Hmn, Hmx. simpl negb. cbn iota.
  pose proof (within_limits p mn mx ltac:(lia)) as Hq. cbn zeta in Hq |- *.
  set (q := cpufreq_verify_within_limits p mn mx) in *. destruct Hq as (Hq1 & Hq2 & _ & Hq3 & Hq4). clearbody q.
  rewrite table_loop_cells by done. change (u32 (Z.lnot 0)) with 4294967295.
  pose proof (verify_fold q l 0 4294967295 Hp ltac:(lia) ltac:(lia)) as Hf. cbn zeta in Hf.
  destruct (fold_left _ l _) as [count nl]. simpl in Hf. destruct Hf as (_ & F1 & F2 & _ & F3 & F4).
  destruct (Z.eqb_spec count 0) as [->|Hne]; cycle 1.
  - rewrite Hq3, Hq4, Hmn, Hmx. destruct (within_limits_max q mn mx Hq1 Hq2) as [Ha Hz].
    eexists. split; [done|]. rewrite Ha, Hz. auto.
  - cbn [min_freq max_freq]. rewrite Hq3, Hq4, Hmn, Hmx. destruct Hlim as (Hl & _ & (top & Htop & Hfr)).
    assert (p_max q < freq top) as Hgt.
    { pose proof (F1 eq_refl top Htop). lia. }
    pose proof (F3 top Htop Hgt ltac:(lia)) as Hle.
    destruct F4 as [->|(d & Hd & Hdn & Hdq)]; [lia|]. subst nl.
    set (q' := MkPolicy _ _ _ _ _ _ _).
    destruct (within_limits_max q' mn mx) as [Ha Hz]; [done|simpl; lia|].
    eexists. split; [done|]. rewrite Ha, Hz. simpl. split_and!; [lia..|]. exists d. split; [done|lia].
Qed.

Section Use.
Context {F : Type} `{FlashOps F}.
#[local] Abbreviation St := (cpufreq_st F).

(** The table [l] is in memory and on the list. *)
Record loaded (s : St) (l : list wmt_dvfs_table) : Prop := {
  ld_list : wmt_dvfs_list s = Some (seq 0 (length l));
  ld_table : dvfs_table s = Block l;
  ld_num : tbl_num s = len l;
  ld_size : len l <= 20;
}.

Lemma nodes_run s l : loaded s l -> nodes s = Ok (seq 0 (length l), s).
Proof. intros [Hl _ _ _]. unfold nodes. erewrite bind_ok by done. by rewrite Hl. Qed.

Lemma entry_run (s : St) l k d : dvfs_table s = Block l -> l !! k = Some d -> entry k s = Ok (d, s).
Proof. intros Ht Hk. unfold entry. erewrite bind_ok by done. by rewrite Ht, Hk. Qed.

(** ** Building the table *)

Lemma set_freq_run (s : St) t i f : freq_table s = Block t -> (i < length t)%nat ->
  set_freq i f s = Ok (tt, with_freq_table (Block (<[i := MkFreq (Z.of_nat i) f]> t)) s).
Proof. intros Ht Hi. unfold set_freq. erewrite bind_ok by done. rewrite Ht. by rewrite decide_True. Qed.

Lemma copy_entries_run pre l rest (s : St) : dvfs_table s = Block (pre ++ l) ->
  freq_table s = Block (cells 0 pre ++ rest) -> (length l <= length rest)%nat ->
  copy_entries (seq (length pre) (length l)) (length pre) s
  = Ok (length (pre ++ l), with_freq_table (Block (cells 0 (pre ++ l) ++ drop (length l) rest)) s).
Proof.
  revert pre rest s. induction l as [|d l IH]; intros pre rest s Ht Hf Hlen.
  { simpl. rewrite !app_nil_r, drop_0. destruct s. simpl in *. by subst. }
  destruct rest as [|x rest]; [simpl in Hlen; lia|]. cbn [length seq copy_entries].
  erewrite bind_ok by (eapply entry_run; [exact Ht|by apply list_lookup_middle]).
  assert (<[length pre := MkFreq (Z.of_nat (length pre)) (freq d)]> (cells 0 pre ++ x :: rest)
          = cells 0 (pre ++ [d]) ++ rest) as Hins.
  { rewrite cells_snoc, <- app_assoc. rewrite insert_app_r_alt by (rewrite cells_length; lia).
    rewrite cells_length, Nat.sub_diag. done. }
  erewrite bind_ok; [|apply (set_freq_run _ _ _ _ Hf); rewrite length_app, cells_length; simpl; lia].
  rewrite Hins. replace (S (length pre)) with (length (pre ++ [d])) by (rewrite length_app; simpl; lia).
  rewrite (IH (pre ++ [d]) rest); [|by rewrite <- app_assoc|done|simpl in Hlen; lia].
  by rewrite <- app_assoc.
Qed.

(** The table of [l], in memory for [n] more cells than it has entries. *)
Definition table_of (l : list wmt_dvfs_table) (t : list cpufreq_frequency_table) : Prop :=
  exists junk, t = cells 0 l ++ MkFreq (len l) CPUFREQ_TABLE_END :: junk.

Lemma table_of_ended l t : table_of l t -> ended t.
Proof. intros [junk ->]. apply Exists_app. right. by constructor. Qed.

Lemma init_table_run s l : loaded s l -> hd false (fails s) = false ->
  exists t, table_of l t /\
    wmt_init_cpufreq_table s = Ok (0, with_freq_table (Block t) (with_fails (tail (fails s)) s)).
Proof.
  intros Hl Hk. pose proof Hl as [H1 H2 H3 H4]. unfold wmt_init_cpufreq_table.
  erewrite bind_ok by done. erewrite bind_ok by done. rewrite Hk. cbn [negb]. cbn iota.
  set (n := Z.to_nat _). assert (length l < n)%nat as Hn.
  { unfold n. rewrite H3, !(u32_small (len l + 1)), u32_small by lia. zify. dlia. }
  erewrite bind_ok by done. set (s1 := with_freq_table _ _).
  erewrite bind_ok by (apply (nodes_run s1 l); by split).
  erewrite bind_ok.
  2:{ apply (copy_entries_run [] l (replicate n (MkFreq 0 0)) s1); [done|done|rewrite length_replicate; lia]. }
  simpl app. rewrite drop_replicate. destruct (n - length l)%nat as [|k] eqn:Ek; [lia|]. cbn [replicate].
  erewrite bind_ok.
  2:{ apply set_freq_run; [done|]. rewrite length_app, cells_length. simpl. lia. }
  eexists. split; [|done].
  rewrite insert_app_r_alt by (rewrite cells_length; lia). rewrite cells_length, Nat.sub_diag. by eexists.
Qed.

(** ** Choosing an entry *)

Definition ordered (l : list wmt_dvfs_table) : Prop := StronglySorted (fun a b => freq a <= freq b) l.

Lemma ordered_reverse l : ordered l -> StronglySorted (fun a b => freq b <= freq a) (reverse l).
Proof.
  induction 1 as [|d l Hs IH Hd]; [constructor|]. rewrite reverse_cons. apply StronglySorted_app_2; [|done|by repeat constructor].
  intros a b Ha Hb. apply list_elem_of_singleton in Hb as ->. rewrite Forall_forall in Hd.
  apply Hd. by apply elem_of_reverse.
Qed.

Lemma find_first (R : wmt_dvfs_table -> wmt_dvfs_table -> Prop) (f : wmt_dvfs_table -> bool) l :
  (forall d, R d d) -> StronglySorted R l ->
  match find f l with
  | Some d => d ∈ l /\ f d = true /\ forall e, e ∈ l -> f e = true -> R d e
  | None => forall e, e ∈ l -> f e = false
  end.
Proof.
  intros HR. induction 1 as [|d l Hs IH Hd]; simpl; [by intros e ?%elem_of_nil|].
  rewrite Forall_forall in Hd. destruct (f d) eqn:E.
  - split_and!; [by constructor|done|]. intros e [->|He]%elem_of_cons _; auto.
  - destruct (find f l) as [e|].
    + destruct IH as (He & Hf & Hmin). split_and!; [by constructor|done|].
      intros x [->|Hx]%elem_of_cons Hfx; [congruence|auto].
    + intros e [->|He]%elem_of_cons; auto.
Qed.

Lemma find_ceil_run (s : St) l ks ds t : dvfs_table s = Block l -> Forall2 (fun k d => l !! k = Some d) ks ds ->
  find_ceil ks t s = Ok (find (fun d => t <=? freq d) ds, s).
Proof.
  intros Ht. induction 1 as [|k d ks ds Hk Hks IH]; [done|]. simpl.
  erewrite bind_ok by by eapply entry_run. by destruct (t <=? freq d).
Qed.

Lemma find_floor_run (s : St) l ks ds t : dvfs_table s = Block l -> Forall2 (fun k d => l !! k = Some d) ks ds ->
  find_floor ks t s = Ok (find (fun d => freq d <=? t) ds, s).
Proof.
  intros Ht. induction 1 as [|k d ks ds Hk Hks IH]; [done|]. simpl.
  erewrite bind_ok by by eapply entry_run. by destruct (freq d <=? t).
Qed.

Lemma nodes_entries (l : list wmt_dvfs_table) : Forall2 (fun k d => l !! k = Some d) (seq 0 (length l)) l.
Proof.
  apply Forall2_same_length_lookup_2; [by rewrite length_seq|].
  intros i k d Hk Hd. apply lookup_seq in Hk as [-> _]. done.
Qed.

Definition clamp (p : cpufreq_policy) (target : Z) : Z :=
  let target := if target <? p_min p then p_min p else target in
  if p_max p <? target then p_max p else target.

(** What a change to [new] does: nothing to the speed, two notifications unless
    the speed is [new] already. *)
Definition announce (new : Z) (s : St) : St :=
  let old := u32 (gMaxCpuFreq s) in
  if new =? old then s
  else MkCf (cf_env s) (tbl_num s) (sample_rate s) (wmt_dvfs_list s) (dvfs_table s) (freq_table s) (gMaxCpuFreq s)
         (fails s) (notified s ++ [(false, old, new); (true, old, new)]) (shown s).

Lemma target_run p target relation (s : St) t : cpu p = 0 ->
  wmt_recalc_target_freq (clamp p target) relation s = Ok (t, s) ->
  wmt_target p target relation s
  = match t with Some d => Ok (0, announce (freq d) s) | None => Ok (- EINVAL, s) end.
Proof.
  intros Hc Ht. unfold wmt_target. rewrite Hc. change (negb (0 =? 0)) with false. cbv beta iota zeta.
  change (if p_max p <? (if target <? p_min p then p_min p else target) then p_max p
          else if target <? p_min p then p_min p else target) with (clamp p target).
  erewrite bind_ok by exact Ht. destruct t as [d|]; [|done]. unfold announce. erewrite bind_ok by done.
  destruct (freq d =? u32 (gMaxCpuFreq s)); [done|]. destruct s. simpl.
  do 3 (erewrite bind_ok by done). unfold mret, M_ret. simpl. by rewrite <- app_assoc.
Qed.

Lemma recalc_run (s : St) l t relation : loaded s l ->
  wmt_recalc_target_freq t relation s
  = Ok (if relation =? 0 then find (fun d => t <=? freq d) l
        else if relation =? 1 then find (fun d => freq d <=? t) (reverse l) else None, s).
Proof.
  intros Hl. pose proof (ld_table _ _ Hl) as Ht. unfold wmt_recalc_target_freq, find_freq_ceil, find_freq_floor.
  change CPUFREQ_RELATION_L with 0. change CPUFREQ_RELATION_H with 1.
  destruct (relation =? 0); [|destruct (relation =? 1); [|done]]; erewrite bind_ok by by apply nodes_run.
  - eapply find_ceil_run; [done|apply nodes_entries].
  - eapply find_floor_run; [done|]. apply Forall2_reverse, nodes_entries.
Qed.

(** ** Theorems *)

(** Which entry is taken: the first one on the side of the clamped target that
    the relation names. *)
Lemma target_picks (s : St) (l : list wmt_dvfs_table) (p : cpufreq_policy) (target relation : Z) :
  loaded s l -> ordered l -> cpu p = 0 ->
  let t := clamp p target in
  let up d := d ∈ l /\ t <= freq d /\ forall e, e ∈ l -> t <= freq e -> freq d <= freq e in
  let down d := d ∈ l /\ freq d <= t /\ forall e, e ∈ l -> freq e <= t -> freq e <= freq d in
  (exists d, (relation = CPUFREQ_RELATION_L /\ up d \/ relation = CPUFREQ_RELATION_H /\ down d) /\
     wmt_target p target relation s = Ok (0, announce (freq d) s)) \/
  ((relation = CPUFREQ_RELATION_L -> forall d, d ∈ l -> freq d < t) /\
   (relation = CPUFREQ_RELATION_H -> forall d, d ∈ l -> t < freq d) /\
   wmt_target p target relation s = Ok (- EINVAL, s)).
Proof.
  intros Hl Ho Hc t up down. pose proof (target_run p target relation s _ Hc (recalc_run s l t relation Hl)) as Hr.
  unfold CPUFREQ_RELATION_L, CPUFREQ_RELATION_H. destruct (Z.eqb_spec relation 0) as [->|H0].
  - pose proof (find_first _ (fun d => t <=? freq d) l (fun d => Z.le_refl _) Ho) as Hf.
    destruct (find _ l) as [d|].
    + left. exists d. split; [|done]. left. destruct Hf as (Hd & Ht & Hm). bool_to_prop.
      split; [done|]. split; [done|]. split; [done|]. intros e He Hte. apply Hm; [done|lia].
    + right. split_and!; [|lia|done]. intros _ d Hd. specialize (Hf d Hd). simpl in Hf. lia.
  - destruct (Z.eqb_spec relation 1) as [->|H1]; [|right; split_and!; [lia|lia|done]].
    pose proof (find_first _ (fun d => freq d <=? t) (reverse l) (fun d => Z.le_refl _) (ordered_reverse l Ho)) as Hf.
    destruct (find _ (reverse l)) as [d|].
    + left. exists d. split; [|done]. right. destruct Hf as (Hd & Ht & Hm). bool_to_prop.
      split; [done|]. split; [by apply elem_of_reverse|]. split; [done|]. intros e He Hte. apply Hm; [by apply elem_of_reverse|lia].
    + right. split_and!; [lia| |done]. intros _ d Hd. specialize (Hf d ltac:(by apply elem_of_reverse)). simpl in Hf. lia.
Qed.

Definition within (p : cpufreq_policy) (f : Z) : Prop := p_min p <= f <= p_max p.

(** On the side of [t] that the relation asks for. *)
Definition on_side (t relation f : Z) : Prop :=
  relation = CPUFREQ_RELATION_L /\ t <= f \/ relation = CPUFREQ_RELATION_H /\ f <= t.

(** An entry no other of the table on the same side is closer to [t] than. *)
Definition closest (l : list wmt_dvfs_table) (t relation : Z) (d : wmt_dvfs_table) : Prop :=
  d ∈ l /\ on_side t relation (freq d) /\
  forall e, e ∈ l -> on_side t relation (freq e) -> Z.abs (freq d - t) <= Z.abs (freq e - t).

Lemma target_closest (s : St) (l : list wmt_dvfs_table) (p : cpufreq_policy) (target relation : Z) :
  loaded s l -> ordered l -> cpu p = 0 ->
  (exists d, closest l (clamp p target) relation d /\ wmt_target p target relation s = Ok (0, announce (freq d) s)) \/
  (Forall (fun d => ~ on_side (clamp p target) relation (freq d)) l /\ wmt_target p target relation s = Ok (- EINVAL, s)).
Proof.
  intros Hl Ho Hc. unfold closest, on_side.
  destruct (target_picks s l p target relation Hl Ho Hc) as [(d & Hd & Hr)|(HL & HH & Hr)].
  - left. exists d. split; [|done]. destruct Hd as [(-> & Hd & Ht & Hm)|(-> & Hd & Ht & Hm)];
      (split_and!; [done|tauto|]); intros e He [[? Hs]|[? Hs]]; try discriminate; specialize (Hm e He Hs); lia.
  - right. split; [|done]. apply Forall_forall. intros d Hd [[Hrel Hs]|[Hrel Hs]];
      [specialize (HL Hrel d Hd)|specialize (HH Hrel d Hd)]; lia.
Qed.

Lemma clamp_within p target : p_min p <= p_max p -> within p (clamp p target).
Proof. unfold within, clamp. intros. repeat case_inner; lia. Qed.

(** An entry as close as one inside the limits is inside them. *)
Lemma closest_within l p t relation d e : within p t -> closest l t relation d ->
  e ∈ l -> within p (freq e) -> on_side t relation (freq e) -> within p (freq d).
Proof.
  unfold within. intros Ht (Hd & Hs & Hm) He Hw Hse. specialize (Hm e He Hse). unfold on_side in *.
  destruct Hs as [[-> Hs]|[-> Hs]], Hse as [[Hx Hse]|[Hx Hse]]; try discriminate Hx; lia.
Qed.

Lemma getspeed_announce new (s : St) : wmt_getspeed 0 (announce new s) = Ok (u32 (gMaxCpuFreq s), announce new s).
Proof. unfold announce. by case_match. Qed.

(** [C31] [wmt_target] for CPU 0 against the rules of
    Documentation/cpu-freq/cpu-drivers.txt, with a table in ascending order that
    is loaded and a policy whose minimum is not above its maximum.  Take the
    frequencies of the table on the side of the clamped target that the relation
    asks for (not below it for CPUFREQ_RELATION_L, not above it for
    CPUFREQ_RELATION_H).  When one of them is inside the policy, the one that is
    announced is inside the policy and the closest to the target.  When none is,
    the rule that the new frequency is inside the policy is not kept: the closest
    one outside is announced, and the answer is EINVAL only when there is none at
    all on that side, or the relation is another.  In every case the speed
    [wmt_getspeed] answers stays what it was: the change is announced and not
    made. *)
Theorem wmt_target_chooses (s : St) (l : list wmt_dvfs_table) (p : cpufreq_policy) (target relation : Z)
    (Hl : loaded s l) (Ho : ordered l) (Hc : cpu p = 0) (Hm : p_min p <= p_max p) :
  let t := clamp p target in
  let fits d := within p (freq d) /\ on_side t relation (freq d) in
  exists rc s', wmt_target p target relation s = Ok (rc, s') /\
    wmt_getspeed 0 s' = Ok (u32 (gMaxCpuFreq s), s') /\
    (Exists fits l -> exists d, closest l t relation d /\ within p (freq d) /\ rc = 0 /\ s' = announce (freq d) s) /\
    (~ Exists fits l ->
       (exists d, closest l t relation d /\ ~ within p (freq d) /\ rc = 0 /\ s' = announce (freq d) s) \/
       (Forall (fun d => ~ on_side t relation (freq d)) l /\ rc = - EINVAL /\ s' = s)).
Proof.
  intros t fits. pose proof (clamp_within p target Hm) as Ht. fold t in Ht.
  destruct (target_closest s l p target relation Hl Ho Hc) as [(d & Hd & Hr)|[Hno Hr]].
  - exists 0, (announce (freq d) s). split_and!; [done|apply getspeed_announce| |].
    + intros (e & He & Hw & Hs)%Exists_exists. exists d. split_and!; [done| |done..].
      exact (closest_within l p t relation d e Ht Hd He Hw Hs).
    + intros Hn. left. exists d. split_and!; [done| |done..]. intros Hw. apply Hn, Exists_exists.
      destruct Hd as (Hd & Hs & _). by exists d.
  - exists (- EINVAL), s. split_and!; [done|done| |by right].
    intros (e & He & _ & Hs)%Exists_exists. rewrite Forall_forall in Hno. by destruct (Hno e He).
Qed.

Lemma cpuinfo_ended p t : ended t -> exists r, cpufreq_frequency_table_cpuinfo p t = Ok r.
Proof.
  intros Ht. unfold cpufreq_frequency_table_cpuinfo.
  destruct (table_loop_ended cpuinfo_body t (u32 (Z.lnot 0), 0) Ht) as [[mn mx] ->]. eauto.
Qed.

Lemma verify_ended p t : ended t -> exists r, cpufreq_frequency_table_verify p t = Ok r.
Proof.
  intros Ht. unfold cpufreq_frequency_table_verify. case_match; [eauto|]. cbv zeta.
  destruct (table_loop_ended (verify_body (cpufreq_verify_within_limits p (min_freq p) (max_freq p))) t
              (0, u32 (Z.lnot 0)) Ht) as [[count nl] ->]. eauto.
Qed.

(** The policy [wmt_cpu_init] passes to the helper. *)
Definition at_speed (v : Z) (p : cpufreq_policy) : cpufreq_policy :=
  MkPolicy (cpu p) v v v (min_freq p) (max_freq p) (transition_latency p).

(** [wmt_cpu_init] from the point where [freq_table] is known. *)
Lemma cpu_init_run p (s s1 : St) c t r : cpu p = 0 -> wmt_init_cpufreq_table s = Ok (c, s1) ->
  freq_table s1 = Block t -> gMaxCpuFreq s1 = gMaxCpuFreq s ->
  cpufreq_frequency_table_cpuinfo (at_speed (u32 (gMaxCpuFreq s)) p) t = Ok r -> cpu r.2 = 0 ->
  wmt_cpu_init p s
  = Ok ((r.1, MkPolicy 0 (p_min r.2) (p_max r.2) (u32 (gMaxCpuFreq s)) (min_freq r.2) (max_freq r.2) (sample_rate s1)),
        with_max (s32 (p_max r.2)) (if r.1 =? 0 then with_shown true s1 else s1)).
Proof.
  intros Hc Hi Ht Hg Hr Hcr. unfold wmt_cpu_init. rewrite Hc. unfold at_speed in Hr. rewrite Hc in Hr.
  change (negb (0 =? 0)) with false. cbv beta iota zeta.
  erewrite bind_ok by done. erewrite bind_ok by exact Hi. erewrite bind_ok by done. rewrite Ht.
  erewrite bind_ok; [|unfold lift; rewrite Hr; done]. destruct r as [ret q]. cbn [fst snd] in *. rewrite Hcr.
  destruct (ret =? 0); do 4 (erewrite bind_ok by done); simpl; by rewrite Hg.
Qed.

Lemma cpuinfo_cpu p t r : cpufreq_frequency_table_cpuinfo p t = Ok r -> cpu r.2 = cpu p.
Proof. unfold cpufreq_frequency_table_cpuinfo. destruct (table_loop _ _ _) as [[mn mx]|]; by intros [= <-]. Qed.

(** [C32] A loaded table of frequencies below 2^31 gives a usable policy:
    [wmt_cpu_init] for CPU 0, given memory, answers 0 with the smallest and the
    largest frequency of the table as limits, and in the state it leaves the
    speed that is reported is the largest.  Whatever limits are asked for in that
    state, [wmt_verify_speed] cuts them to those of the table and leaves a
    frequency of the table between them. *)
Theorem cpufreq_policy_usable (s : St) (l : list wmt_dvfs_table) (p : cpufreq_policy)
    (Hl : loaded s l) (Hp : Forall proper l) (Hne : l <> []) (Hk : hd false (fails s) = false) (Hc : cpu p = 0) :
  exists p' s', wmt_cpu_init p s = Ok ((0, p'), s') /\
    limits l (min_freq p') (max_freq p') /\ p_min p' = min_freq p' /\ p_max p' = max_freq p' /\
    wmt_getspeed 0 s' = Ok (max_freq p', s') /\
    forall q, cpu q = 0 -> min_freq q = min_freq p' -> max_freq q = max_freq p' ->
      exists q', wmt_verify_speed q s' = Ok ((0, q'), s') /\ min_freq p' <= p_min q' /\
        p_min q' <= p_max q' <= max_freq p' /\ exists d, d ∈ l /\ p_min q' <= freq d <= p_max q'.
Proof.
  destruct (init_table_run s l Hl Hk) as (t & [junk Ht] & Hi).
  destruct (cpuinfo_limits (at_speed (u32 (gMaxCpuFreq s)) p) l 0 (len l) junk Hp Hne) as (mn & mx & Hlim & Hr).
  rewrite <- Ht in Hr. pose proof (limits_order _ _ _ Hlim Hp) as [Ho Hb]. pose proof (ld_size _ _ Hl).
  eexists _, _. split; [by apply (cpu_init_run p s _ 0 t _ Hc Hi eq_refl eq_refl Hr Hc)|].
  cbn [fst snd min_freq max_freq p_min p_max]. split_and!; [done|done|done| |].
  - unfold wmt_getspeed. simpl. unfold gets. simpl. by rewrite s32_small, u32_small by lia.
  - intros q Hq Hq1 Hq2. edestruct (verify_usable q l mn mx 0 (len l) junk) as (q' & Hv & Hq'); [done|lia|done..|].
    exists q'. split; [|done]. unfold wmt_verify_speed. rewrite Hq. change (negb (0 =? 0)) with false. cbn iota.
    erewrite bind_ok by done. cbn [freq_table with_max with_shown with_freq_table Z.eqb]. unfold lift.
    by rewrite Ht, Hv.
Qed.

(** A target between the limits of the policy can be taken out of them: when
    no frequency of the table is between the target and the upper limit but one
    is above it, CPUFREQ_RELATION_L announces one above the limit. *)
Lemma wmt_target_leaves_policy (s : St) (l : list wmt_dvfs_table) (p : cpufreq_policy) (target : Z)
    (Hl : loaded s l) (Hc : cpu p = 0) (Ht : p_min p <= target <= p_max p)
    (Hno : Forall (fun d => ~ target <= freq d <= p_max p) l) (Hup : Exists (fun d => p_max p < freq d) l) :
  exists new, p_max p < new /\ wmt_target p target CPUFREQ_RELATION_L s = Ok (0, announce new s).
Proof.
  pose proof (target_run p target 0 s _ Hc (recalc_run s l (clamp p target) 0 Hl)) as Hr.
  assert (clamp p target = target) as Hcl by (unfold clamp; repeat case_inner; lia). rewrite Hcl in Hr.
  simpl in Hr. destruct (find _ l) as [d|] eqn:Hf.
  - apply find_some in Hf as [Hd Hge]. bool_to_prop. apply list_elem_of_In in Hd. rewrite Forall_forall in Hno.
    specialize (Hno d Hd). exists (freq d). split; [lia|done].
  - apply Exists_exists in Hup as (d & Hd & Hgt). apply list_elem_of_In in Hd.
    pose proof (find_none _ _ Hf d Hd) as Hn. simpl in Hn. lia.
Qed.

(** ** Sequences of calls *)

Inductive cf_call :=
| CfInit (p : cpufreq_policy)
| CfVerify (p : cpufreq_policy)
| CfTarget (p : cpufreq_policy) (target relation : Z)
| CfSpeed (c : Z).

Definition run_cf_call (c : cf_call) : M St unit :=
  match c with
  | CfInit p => _ ← wmt_cpu_init p; mret tt
  | CfVerify p => _ ← wmt_verify_speed p; mret tt
  | CfTarget p t r => _ ← wmt_target p t r; mret tt
  | CfSpeed c => _ ← wmt_getspeed c; mret tt
  end.

Fixpoint run_cf_calls (l : list cf_call) : M St unit :=
  match l with [] => mret tt | c :: l' => run_cf_call c;; run_cf_calls l' end.

(** A table is loaded, and what the core was given has an end. *)
Definition usable (s : St) : Prop :=
  exists l, loaded s l /\ (freq_table s = Null \/ exists t, freq_table s = Block t /\ ended t).

Lemma init_table_usable s : usable s -> exists c s', wmt_init_cpufreq_table s = Ok (c, s') /\ usable s' /\
  gMaxCpuFreq s' = gMaxCpuFreq s.
Proof.
  intros (l & Hl & Ht). destruct (hd false (fails s)) eqn:Hk.
  - unfold wmt_init_cpufreq_table. erewrite bind_ok by done. erewrite bind_ok by done. rewrite Hk.
    eexists _, _. split; [done|]. split; [|done]. exists l. by destruct Hl; split; [split|].
  - destruct (init_table_run s l Hl Hk) as (t & Htab & Hi). eexists _, _. split; [exact Hi|]. split; [|done].
    exists l. destruct Hl. split; [by split|]. right. exists t. split; [done|by eapply table_of_ended].
Qed.

Lemma usable_with_max x (s : St) : usable s -> usable (with_max x s).
Proof. intros (l & [] & Ht). exists l. by split; [split|]. Qed.
Lemma usable_shown b (s : St) : usable s -> usable (with_shown b s).
Proof. intros (l & [] & Ht). exists l. by split; [split|]. Qed.
Lemma usable_announce x (s : St) : usable s -> usable (announce x s).
Proof. unfold announce. intros (l & [] & Ht). exists l. case_match; by split; [split|]. Qed.

Lemma cf_call_safe c s : usable s -> wp (run_cf_call c) (fun _ s' => usable s') s.
Proof.
  intros Hu. apply wp_run. destruct c as [p|p|p t r|c]; simpl.
  - destruct (Z.eqb_spec (cpu p) 0) as [Hc|Hc]; cycle 1.
    { unfold wmt_cpu_init. rewrite (proj2 (Z.eqb_neq _ _) Hc). by exists tt, s. }
    destruct (init_table_usable s Hu) as (c & s1 & Hi & Hu1 & Hg). pose proof Hu1 as (l & _ & [Ht|(t & Ht & He)]).
    + unfold wmt_cpu_init. rewrite Hc. change (negb (0 =? 0)) with false. cbv beta iota zeta. exists tt, s1.
      split; [|done]. erewrite bind_ok; [done|]. erewrite bind_ok by done. erewrite bind_ok by exact Hi.
      erewrite bind_ok by done. by rewrite Ht.
    + destruct (cpuinfo_ended (at_speed (u32 (gMaxCpuFreq s)) p) t He) as (r & Hr).
      eexists tt, _. split; [erewrite bind_ok|].
      2:{ apply (cpu_init_run p s s1 c t r Hc Hi Ht Hg Hr). by rewrite (cpuinfo_cpu _ _ _ Hr), <- Hc. }
      * done.
      * apply usable_with_max. case_match; [by apply usable_shown|done].
  - exists tt, s. split; [|done]. unfold wmt_verify_speed. case_match; [done|]. destruct Hu as (l & _ & [Ht|(t & Ht & He)]).
    + erewrite bind_ok; [done|]. erewrite bind_ok by done. by rewrite Ht.
    + destruct (verify_ended p t He) as (r & Hr). erewrite bind_ok; [done|]. erewrite bind_ok by done.
      rewrite Ht. unfold lift. by rewrite Hr.
  - destruct (Z.eqb_spec (cpu p) 0) as [Hc|Hc]; cycle 1.
    { unfold wmt_target. rewrite (proj2 (Z.eqb_neq _ _) Hc). by exists tt, s. }
    pose proof Hu as (l & Hl & _).
    pose proof (target_run p t r s _ Hc (recalc_run s l (clamp p t) r Hl)) as Hr. exists tt.
    destruct (if r =? 0 then _ else _) as [d|]; [exists (announce (freq d) s)|exists s]; (split; [by erewrite bind_ok by exact Hr|]);
      [by apply usable_announce|done].
  - exists tt, s. split; [|done]. unfold wmt_getspeed. by case_match.
Qed.

(** [C19] With a table loaded, no sequence of start-ups of the policy, checks,
    changes of frequency and queries leaves memory or uses freed memory, also
    when allocations fail: every call returns and the table stays loaded. *)
Theorem cpufreq_calls_safe (s : St) (calls : list cf_call) (Hu : usable s) :
  exists s', run_cf_calls calls s = Ok (tt, s') /\ usable s'.
Proof.
  revert s Hu. induction calls as [|c calls IH]; intros s Hu; [by exists s|].
  destruct (proj1 (wp_run _ _ _) (cf_call_safe c s Hu)) as ([] & s1 & Hr & Hu1).
  destruct (IH s1 Hu1) as (s' & Hs & Hu'). exists s'. split; [|done]. simpl. by erewrite bind_ok by exact Hr.
Qed.

(** After [wmt_cpu_exit] everything points to freed memory, since its [memset]
    clears nothing. *)
Lemma cpufreq_exit_dangling (s : St) (l : list wmt_dvfs_table) (t : list cpufreq_frequency_table) (p : cpufreq_policy)
    (target : Z) (Hl : loaded s l) (Hne : l <> []) (Ht : freq_table s = Block t) (Hc : cpu p = 0) :
  exists s', wmt_cpu_exit s = Ok (0, s') /\ wmt_verify_speed p s' = Fault Undefined /\
    wmt_target p target CPUFREQ_RELATION_L s' = Fault Undefined /\ wmt_cpu_exit s' = Fault Undefined.
Proof.
  destruct Hl as [H1 H2 H3 H4]. destruct l as [|d l]; [done|]. destruct s as [e n r li dt ft g fl no sh]. simpl in *. subst.
  eexists. split; [done|]. split_and!.
  - unfold wmt_verify_speed. by rewrite Hc.
  - unfold wmt_target. by rewrite Hc.
  - done.
Qed.
End Use.

(** ** The boot variable *)

(** The text of one entry, from behind its bracket, and of the whole variable:
    three numbers and the entries, with anything between them that has no
    opening bracket. *)
Definition entry_text (e : list Z) (d : Z * Z) : Prop :=
  exists f v t, numeral f d.1 /\ numeral v d.2 /\ e = f ++ 58 :: v ++ 93 :: t /\ 91 ∉ t.
Definition bracketed (es : list (list Z)) : list Z := mjoin ((fun e => 91 :: e) <$> es).
Definition param_text (text : list Z) (en rate num : Z) (ds : list (Z * Z)) : Prop :=
  exists a b c t es, numeral a en /\ numeral b rate /\ numeral c num /\ (91 ∉ t) /\ isdigit (deref t) = false /\
    Forall2 entry_text es ds /\ text = a ++ 58 :: b ++ 58 :: c ++ t ++ bracketed es.

Lemma numeral_no_bracket d z : numeral d z -> 91 ∉ d.
Proof.
  intros (_ & Hd & _) Hin. rewrite Forall_forall in Hd. specialize (Hd _ Hin). apply isdigit_range in Hd. lia.
Qed.

Lemma entry_no_bracket e d : entry_text e d -> 91 ∉ e.
Proof.
  intros (f & v & t & Hf%numeral_no_bracket & Hv%numeral_no_bracket & -> & Ht).
  rewrite !elem_of_app, elem_of_cons, elem_of_app, elem_of_cons. intros [?|[?|[?|[?|?]]]]; (lia || tauto).
Qed.

Lemma head_scan {S} a b c rest en rate num (s : S) : numeral a en -> numeral b rate -> numeral c num ->
  isdigit (deref rest) = false ->
  vsscanf (a ++ 58 :: b ++ 58 :: c ++ rest) (bytes "%d:%d:%d") s = Ok ((3, [SInt 4 en; SInt 4 rate; SInt 4 num]), s).
Proof.
  intros Ha Hb Hc Hr. unfold vsscanf. change (bytes "%d:%d:%d") with [37; 100; 58; 37; 100; 58; 37; 100].
  cbn [length]. erewrite loop_next by by apply scan_decimal. erewrite loop_next by by apply scan_literal.
  erewrite loop_next by by apply scan_decimal. erewrite loop_next by by apply scan_literal.
  erewrite loop_next by by apply scan_decimal. by apply scan_literals; [|simpl; lia].
Qed.

Lemma pair_scan {S} f v rest fr vo (s : S) : numeral f fr -> numeral v vo ->
  vsscanf (f ++ 58 :: v ++ 93 :: rest) (bytes "%d:%d]:[") s = Ok ((2, [SInt 4 fr; SInt 4 vo]), s).
Proof.
  intros Hf Hv. unfold vsscanf. change (bytes "%d:%d]:[") with [37; 100; 58; 37; 100; 93; 58; 91].
  cbn [length]. erewrite loop_next by by apply scan_decimal. erewrite loop_next by by apply scan_literal.
  erewrite loop_next by by apply scan_decimal. apply scan_literals; [by repeat constructor|simpl; lia].
Qed.

Section EnvTable.
Context {F : Type} `{FlashSpec F}.
Context (sp : Z) (Hsp : Z.land (Z.shiftr sp 1) 3 = 0) (d0 d1 : nat).
#[local] Abbreviation St := (cpufreq_st F).

(** The entries as the driver keeps them. *)
Fixpoint dvfs_from (i : nat) (ds : list (Z * Z)) : list wmt_dvfs_table :=
  match ds with
  | [] => []
  | d :: ds' => MkDvfs d.1 d.2 (Z.of_nat i) :: dvfs_from (S i) ds'
  end.

Lemma env_body_run (s : St) i pre e d rest l fr vo : 91 ∉ pre -> entry_text e d ->
  dvfs_table s = Block l -> (i < length l)%nat ->
  env_body i (Some (pre ++ 91 :: e ++ rest)) fr vo s
  = Ok ((Some (e ++ rest), d.1, d.2),
        with_data (tbl_num s) (sample_rate s) ((fun n => n ++ [i]) <$> wmt_dvfs_list s)
          (Block (<[i := MkDvfs d.1 d.2 (Z.of_nat i)]> l)) s).
Proof.
  intros Hpre (f & v & t & Hf & Hv & -> & Ht) Hl Hi. unfold env_body.
  change (bytes "[") with [91]. rewrite strsep_found by done. cbn [snd].
  replace ((f ++ 58 :: v ++ 93 :: t) ++ rest) with (f ++ 58 :: v ++ 93 :: t ++ rest) by (by rewrite <- !app_assoc; simpl; rewrite <- !app_assoc).
  erewrite bind_ok by (by apply pair_scan). cbv beta iota zeta. erewrite bind_ok by done. rewrite Hl, decide_True by done.
  pose proof (numeral_bound _ _ Hf). pose proof (numeral_bound _ _ Hv). unfold scanned. simpl.
  by rewrite !u32_small by lia.
Qed.

Lemma env_body_missing (s : St) i pre fr vo : 91 ∉ pre -> env_body i (Some pre) fr vo s = Fault Undefined.
Proof. intros Hp. unfold env_body. change (bytes "[") with [91]. by rewrite strsep_last. Qed.

(** The loop from place [length done] on. *)
Lemma env_loop_run n es ds (s : St) pre fr vo (l : list wmt_dvfs_table) z : 91 ∉ pre -> Forall2 entry_text es ds ->
  dvfs_table s = Block (l ++ replicate n z) -> wmt_dvfs_list s = Some (seq 0 (length l)) ->
  env_loop (seq (length l) n) (Some (pre ++ bracketed es)) fr vo s
  = if decide (n <= length ds)%nat
    then Ok (tt, with_data (tbl_num s) (sample_rate s) (Some (seq 0 (length l + n)))
                   (Block (l ++ dvfs_from (length l) (take n ds))) s)
    else Fault Undefined.
Proof.
  revert es ds s pre fr vo l. induction n as [|n IH]; intros es ds s pre fr vo l Hpre Hes Ht Hli.
  { rewrite decide_True by lia. rewrite take_0, Nat.add_0_r. simpl in *. rewrite !app_nil_r in *.
    destruct s. simpl in *. by subst. }
  cbn [seq env_loop]. destruct Hes as [|e d es ds He Hes].
  { rewrite decide_False by (simpl; lia). apply bind_fault. unfold bracketed. simpl. rewrite app_nil_r.
    by apply env_body_missing. }
  assert (bracketed (e :: es) = 91 :: e ++ bracketed es) as -> by done.
  erewrite bind_ok.
  2:{ eapply env_body_run; [done|exact He|exact Ht|]. rewrite length_app, length_replicate. lia. }
  cbv beta iota zeta. set (d' := MkDvfs _ _ _).
  assert (<[length l := d']> (l ++ replicate (S n) z) = (l ++ [d']) ++ replicate n z) as Hins.
  { rewrite insert_app_r_alt, Nat.sub_diag by lia. by rewrite <- app_assoc. }
  replace (S (length l)) with (length (l ++ [d'])) by (rewrite length_app; simpl; lia).
  rewrite (IH es ds); [|by eapply entry_no_bracket|done|cbn [dvfs_table with_data]; by rewrite Hins|].
  2:{ simpl. rewrite Hli. simpl. rewrite length_app. f_equal. simpl. rewrite seq_app. done. }
  cbn [length]. destruct (decide (n <= length ds)%nat), (decide (S n <= S (length ds))%nat); [|lia..|done].
  do 2 f_equal. simpl. rewrite length_app. simpl. rewrite <- app_assoc. simpl.
  replace (length l + 1 + n)%nat with (length l + S n)%nat by lia. by rewrite Nat.add_1_r.
Qed.

Lemma string_at_value val junk : val_ok val -> string_at (val ++ 0 :: junk) = Some val.
Proof.
  induction 1 as [|c val Hc Hv IH]; simpl; [done|]. rewrite (proj2 (Z.eqb_neq c 0)) by done. by rewrite IH.
Qed.

Lemma lookup_var_ok E n v : Forall var_ok E -> lookup_var n E = Some v -> val_ok v.
Proof.
  induction 1 as [|[k x] E [_ Hx] HE IH]; simpl; [done|]. case_decide; [|done]. by intros [= <-].
Qed.

(** What the driver does with a text. *)
Definition table_result (en rate num : Z) (ds : list (Z * Z)) (s : St) : result (Z * St) :=
  if en =? 0 then Ok (- ENODEV, s)
  else if num <? 2 then Ok (- ENODATA, s)
  else
    let s1 := with_fails (tail (fails s)) s in
    if hd false (fails s) then Ok (- ENOMEM, s1)
    else
      let n := Z.min num 20 in
      if decide (Z.to_nat n <= length ds)%nat
      then Ok (0, with_data n rate (Some (seq 0 (Z.to_nat n))) (Block (dvfs_from 0 (take (Z.to_nat n) ds))) s1)
      else Fault Undefined.

Lemma check_env_run (s : St) ret buf vl text en rate num ds :
  wmt_getsyspara (bytes "wmt.misc.param") (replicate 512 0) 512 (cf_env s) = Ok ((ret, buf, vl), cf_env s) ->
  (if negb (ret =? 0) then Some default_param else string_at buf) = Some text ->
  param_text text en rate num ds -> wmt_cpufreq_check_env s = table_result en rate num ds s.
Proof.
  intros Hg Htext (a & b & c & t & es & Ha & Hb & Hc & Ht & Hd & Hes & Htx). unfold wmt_cpufreq_check_env.
  rewrite (bind_ok _ _ _ (ret, buf, vl) s).
  2:{ unfold on_env. rewrite Hg. by destruct s. }
  rewrite (bind_ok _ _ _ text s).
  2:{ destruct (negb _); [by injection Htext as ->|]. by rewrite Htext. }
  erewrite bind_ok.
  2:{ rewrite Htx. apply head_scan; [done..|]. destruct t; [|done]. by destruct es. }
  cbv beta iota zeta. unfold scanned. cbn [lookup list_lookup].
  pose proof (numeral_bound _ _ Ha). pose proof (numeral_bound _ _ Hb). pose proof (numeral_bound _ _ Hc).
  rewrite !u32_small by lia. unfold table_result. destruct (en =? 0); [done|]. destruct (Z.ltb_spec num 2); [done|].
  erewrite bind_ok by done. destruct (hd false (fails s)); [done|]. cbn [negb]. cbv iota zeta.
  assert ((if DVFS_TABLE_NUM_MAX <? num then DVFS_TABLE_NUM_MAX else num) = Z.min num 20) as ->
    by (unfold DVFS_TABLE_NUM_MAX; case_bool; lia).
  erewrite bind_ok by done.
  pose proof (env_loop_run (Z.to_nat (Z.min num 20)) es ds
    (with_data (Z.min num 20) rate (Some []) (Block (replicate (Z.to_nat (Z.min num 20)) (MkDvfs 0 0 0)))
       (with_fails (tail (fails s)) s)) (a ++ 58 :: b ++ 58 :: c ++ t) 0 0 [] (MkDvfs 0 0 0)) as Hloop.
  assert (a ++ 58 :: b ++ 58 :: c ++ t ++ bracketed es = (a ++ 58 :: b ++ 58 :: c ++ t) ++ bracketed es) as Heq
    by (rewrite <- !app_assoc; simpl; by rewrite <- !app_assoc; simpl; rewrite <- !app_assoc).
  rewrite Htx, Heq. simpl length in Hloop.
  assert (91 ∉ a ++ 58 :: b ++ 58 :: c ++ t) as Hno.
  { apply numeral_no_bracket in Ha, Hb, Hc.
    rewrite !elem_of_app, elem_of_cons, elem_of_app, elem_of_cons, elem_of_app. intros [?|[?|[?|[?|[?|?]]]]]; (lia || tauto). }
  specialize (Hloop Hno Hes eq_refl eq_refl). destruct (decide _) in Hloop |- *.
  - by erewrite bind_ok by exact Hloop.
  - by apply bind_fault.
Qed.

Lemma dvfs_from_length i ds : length (dvfs_from i ds) = length ds.
Proof. revert i. induction ds as [|d ds IH]; intros i; simpl; [done|by rewrite IH]. Qed.

Lemma dvfs_from_proper es ds i : Forall2 entry_text es ds -> Forall proper (dvfs_from i ds).
Proof.
  intros Hes. revert i. induction Hes as [|e d es ds (f & v & t & Hf & _) Hes IH]; intros i; constructor; [|apply IH].
  unfold proper. simpl. by apply numeral_bound in Hf.
Qed.

Definition ascending (ds : list (Z * Z)) : Prop := StronglySorted (fun a b => a.1 <= b.1) ds.

Lemma dvfs_from_freqs P i ds : Forall (fun d => P (freq d)) (dvfs_from i ds) <-> Forall (fun d => P d.1) ds.
Proof. revert i. induction ds as [|d ds IH]; intros i; simpl; [by split|]. by rewrite !Forall_cons, IH. Qed.

Lemma dvfs_from_ordered i ds : ordered (dvfs_from i ds) <-> ascending ds.
Proof.
  unfold ordered, ascending. revert i. induction ds as [|d ds IH]; intros i; simpl; [by split; constructor|].
  split; intros [Hs Hf]%StronglySorted_inv; (constructor; [by apply (IH (S i))|]);
    by apply (dvfs_from_freqs (fun f => d.1 <= f) (S i)).
Qed.

Lemma table_result_loaded en rate num ds es (s s' : St) : Forall2 entry_text es ds -> table_result en rate num ds s = Ok (0, s') ->
  let l := dvfs_from 0 (take (Z.to_nat (Z.min num 20)) ds) in
  loaded s' l /\ Forall proper l /\ l <> [] /\ freq_table s' = freq_table s.
Proof.
  intros Hes. unfold table_result. destruct (en =? 0); [done|]. destruct (Z.ltb_spec num 2); [done|]. cbv zeta.
  destruct (hd false (fails s)); [done|]. case_decide as Hd; [|done]. intros [= <-].
  assert (length (dvfs_from 0 (take (Z.to_nat (Z.min num 20)) ds)) = Z.to_nat (Z.min num 20)) as Hlen
    by (rewrite dvfs_from_length, length_take; lia).
  split; [split; cbn [wmt_dvfs_list dvfs_table tbl_num with_data]; rewrite ?Hlen; (done || lia)|]. split_and!; [..|done].
  - eapply dvfs_from_proper. apply (Forall2_take _ _ _ _ Hes).
  - intros He. rewrite He in Hlen. simpl in Hlen. lia.
Qed.

(** [C16] The driver and the boot environment together: from a loaded environment
    where [wmt.misc.param] (the variable the code reads; the comment at its line
    737 names [wmt.cpufreq.param]) has the form of its example and fewer than
    512 characters, [wmt_cpufreq_check_env] answers ENODEV when the driver is
    disabled, ENODATA for fewer than two entries, ENOMEM without memory, and
    otherwise loads exactly the first entries of the text, as many as announced
    and at most 20; a text with fewer entries than announced makes it read
    through a null pointer.  A table that is loaded is not empty and has
    frequencies below 2^31.  Its order is that of the text, which nothing checks:
    the table is in ascending order exactly when the entries are.  The table of
    the core is not touched, so with none allocated yet the state is one where
    the calls of the driver are safe ([usable]). *)
Theorem cpufreq_env_table (s : St) (b : list Z) (v : Z) (E : env_list) (text : list Z) (en rate num : Z) (ds : list (Z * Z))
    (Hrun : running sp d0 d1 (cf_env s) b v) (Hidle : idle (cf_env s)) (HR : Rep (drop 5 b) E)
    (Hv : lookup_var (bytes "wmt.misc.param") E = Some text) (Hlen : len text < 512)
    (Hp : param_text text en rate num ds) :
  wmt_cpufreq_check_env s = table_result en rate num ds s /\
  forall s', table_result en rate num ds s = Ok (0, s') ->
    let entries := take (Z.to_nat (Z.min num 20)) ds in
    let l := dvfs_from 0 entries in
    loaded s' l /\ Forall proper l /\ l <> [] /\ (ordered l <-> ascending entries) /\
    freq_table s' = freq_table s /\ (freq_table s = Null -> usable s').
Proof.
  split; cycle 1.
  { intros s' Hs'. destruct Hp as (a & bb & c & t & es & _ & _ & _ & _ & _ & Hes & _).
    destruct (table_result_loaded _ _ _ _ _ _ _ Hes Hs') as (Hl & Hpr & Hne & Hft).
    split_and!; [done..|apply dvfs_from_ordered|done|]. intros Hn. eexists. split; [exact Hl|left; congruence]. }
  pose proof (get_running sp Hsp d0 d1 (cf_env s) b v E (bytes "wmt.misc.param") (replicate 512 0) 512 Hrun Hidle HR
    ltac:(by repeat constructor) ltac:(lia)) as Hg.
  unfold get_result in Hg. rewrite Hv, length_replicate in Hg. destruct (Z.ltb_spec (len text) (Z.of_nat 512)); [|lia].
  destruct (Z.ltb_spec 512 (len text)); [lia|].
  eapply check_env_run; [exact Hg| |exact Hp]. simpl. apply string_at_value.
  destruct HR as [HE _]. by eapply lookup_var_ok.
Qed.

(** A value of 512 characters or more is copied over the end of the array. *)
Lemma cpufreq_env_overrun (s : St) b v E text : running sp d0 d1 (cf_env s) b v -> idle (cf_env s) -> Rep (drop 5 b) E ->
  lookup_var (bytes "wmt.misc.param") E = Some text -> 512 <= len text -> wmt_cpufreq_check_env s = Fault Undefined.
Proof.
  intros Hrun Hidle HR Hv Hlen.
  pose proof (get_running sp Hsp d0 d1 (cf_env s) b v E (bytes "wmt.misc.param") (replicate 512 0) 512 Hrun Hidle HR
    ltac:(by repeat constructor) ltac:(lia)) as Hg.
  unfold get_result in Hg. rewrite Hv, length_replicate in Hg. destruct (Z.ltb_spec (len text) (Z.of_nat 512)); [lia|].
  apply bind_fault. unfold on_env. by rewrite Hg.
Qed.

(** Without the variable the table has 1200 MHz twice. *)
Lemma cpufreq_env_absent (s : St) b v E : running sp d0 d1 (cf_env s) b v -> idle (cf_env s) -> Rep (drop 5 b) E ->
  lookup_var (bytes "wmt.misc.param") E = None ->
  wmt_cpufreq_check_env s = table_result 1 100000 2 [(1200000, 1300); (1200000, 1300)] s.
Proof.
  intros Hrun Hidle HR Hv.
  pose proof (get_running sp Hsp d0 d1 (cf_env s) b v E (bytes "wmt.misc.param") (replicate 512 0) 512 Hrun Hidle HR
    ltac:(by repeat constructor) ltac:(lia)) as Hg.
  unfold get_result in Hg. rewrite Hv in Hg. eapply check_env_run; [exact Hg|reflexivity|].
  assert (entry_text (bytes "1200000:1300]") (1200000, 1300)) as He.
  { exists (bytes "1200000"), (bytes "1300"), []. split_and!; [by split_and!; [|repeat constructor|..]..|done|].
    by intros ?%elem_of_nil. }
  exists (bytes "1"), (bytes "100000"), (bytes "2"), (bytes ":"), [bytes "1200000:1300]"; bytes "1200000:1300]"].
  split_and!; [by split_and!; [|repeat constructor|..]..| |done|by repeat constructor|done].
  change (bytes ":") with [58]. rewrite list_elem_of_singleton. lia.
Qed.
End EnvTable.

(** ** Witnesses *)

(** A board with [wmt.misc.param] for three frequencies, and a policy. *)
Definition misc : list Z := bytes "1:100000:3:[600000:1000][800000:1100][1000000:1200]".
Definition misc_entries : list (Z * Z) := [(600000, 1000); (800000, 1100); (1000000, 1200)].
Definition E_misc : env_list := [(bytes "wmt.misc.param", misc)].
Definition buf_misc : list Z := [0; 0; 0; 0; 1] ++ flat E_misc ++ replicate (full - 5 - length (flat E_misc)) 0.
Definition demo_cf : cpufreq_st nor :=
  MkCf (booted 0 0 1 1 chip ram buf_misc 0 1) 0 0 None Null Null 0 [] [] false.
Definition demo_table : list wmt_dvfs_table := dvfs_from 0 misc_entries.
Definition loaded_cf : cpufreq_st nor :=
  with_data 3 100000 (Some (seq 0 3)) (Block demo_table) demo_cf.
Definition demo_policy : cpufreq_policy := MkPolicy 0 700000 900000 0 600000 1000000 0.

Lemma misc_text : param_text misc 1 100000 3 misc_entries.
Proof.
  exists (bytes "1"), (bytes "100000"), (bytes "3"), (bytes ":"),
    [bytes "600000:1000]"; bytes "800000:1100]"; bytes "1000000:1200]"].
  split_and!; [by split_and!; [|repeat constructor|..]..| |done| |done].
  { change (bytes ":") with [58]. rewrite list_elem_of_singleton. lia. }
  repeat constructor; simpl.
  - exists (bytes "600000"), (bytes "1000"), []. split_and!; [by split_and!; [|repeat constructor|..]..|done|by intros ?%elem_of_nil].
  - exists (bytes "800000"), (bytes "1100"), []. split_and!; [by split_and!; [|repeat constructor|..]..|done|by intros ?%elem_of_nil].
  - exists (bytes "1000000"), (bytes "1200"), []. split_and!; [by split_and!; [|repeat constructor|..]..|done|by intros ?%elem_of_nil].
Qed.

Lemma buf_misc_length : length buf_misc = full.
Proof.
  pose proof full_size. unfold buf_misc. rewrite !length_app, length_replicate.
  change (length (flat E_misc)) with 67%nat. cbn [length]. lia.
Qed.

Lemma misc_running : running 0 0 1 (cf_env demo_cf) buf_misc 0.
Proof. split; [reflexivity|apply chip_mounted|reflexivity|apply buf_misc_length|by right|by left|reflexivity..]. Qed.

Lemma misc_rep : Rep (drop 5 buf_misc) E_misc.
Proof.
  pose proof full_size. split; [by repeat constructor|].
  exists (replicate (full - 5 - length (flat E_misc) - 1) 0). split; [|done]. unfold buf_misc.
  change (drop 5 ([0; 0; 0; 0; 1] ++ ?x)) with x. apply (f_equal (app (flat E_misc))).
  change (length (flat E_misc)) with 67%nat. by replace (full - 5 - 67)%nat with (S (full - 5 - 67 - 1)) by lia.
Qed.

Lemma demo_loaded : loaded loaded_cf demo_table.
Proof. by split. Qed.

Lemma cpufreq_env_table_witness :
  wmt_cpufreq_check_env demo_cf = Ok (0, loaded_cf) /\ loaded loaded_cf demo_table.
Proof.
  destruct (cpufreq_env_table 0 eq_refl 0 1 demo_cf buf_misc 0 E_misc misc 1 100000 3 misc_entries) as [Hr Hl].
  - apply misc_running.
  - split; reflexivity.
  - apply misc_rep.
  - reflexivity.
  - reflexivity.
  - apply misc_text.
  - split; [rewrite Hr; reflexivity|]. apply (Hl loaded_cf). reflexivity.
Defined.

(** 850 MHz or less, of 600, 800 and 1000 between 700 and 900: it is 800. *)
Lemma wmt_target_chooses_witness :
  exists d s', wmt_target demo_policy 850000 CPUFREQ_RELATION_H loaded_cf = Ok (0, s') /\
    closest demo_table 850000 CPUFREQ_RELATION_H d /\ 700000 <= freq d <= 900000 /\ s' = announce (freq d) loaded_cf.
Proof.
  destruct (wmt_target_chooses loaded_cf demo_table demo_policy 850000 CPUFREQ_RELATION_H)
    as (rc & s' & Hr & _ & Hf & _).
  - apply demo_loaded.
  - repeat constructor; simpl; lia.
  - reflexivity.
  - vm_compute. discriminate.
  - destruct Hf as (d & Hd & Hw & -> & ->).
    + right. left. split; [vm_compute; split; discriminate|]. right. split; [reflexivity|]. vm_compute. discriminate.
    + exists d. eexists. split; [exact Hr|]. split; [exact Hd|]. split; [exact Hw|reflexivity].
Defined.

Lemma cpufreq_policy_usable_witness :
  exists p' s', wmt_cpu_init demo_policy loaded_cf = Ok ((0, p'), s') /\ limits demo_table (min_freq p') (max_freq p').
Proof.
  destruct (cpufreq_policy_usable loaded_cf demo_table demo_policy) as (p' & s' & Hr & Hl & _).
  - apply demo_loaded.
  - repeat constructor; vm_compute; congruence.
  - discriminate.
  - reflexivity.
  - reflexivity.
  - exists p', s'. split; [exact Hr|exact Hl].
Defined.

Lemma cpufreq_calls_safe_witness :
  exists s', run_cf_calls [CfInit demo_policy; CfVerify demo_policy; CfTarget demo_policy 850000 0; CfSpeed 0] loaded_cf
             = Ok (tt, s') /\ usable s'.
Proof.
  apply (cpufreq_calls_safe loaded_cf). exists demo_table. split; [apply demo_loaded|left; reflexivity].
Defined.

(** Between 700 and 900 MHz there is 800; for 850 the driver announces 1000. *)
Example target_leaves_policy_demo :
  exists new, 900000 < new /\ wmt_target demo_policy 850000 CPUFREQ_RELATION_L loaded_cf = Ok (0, announce new loaded_cf).
Proof.
  apply (wmt_target_leaves_policy loaded_cf demo_table demo_policy).
  - apply demo_loaded.
  - reflexivity.
  - simpl. lia.
  - repeat constructor; simpl; lia.
  - do 2 right. left. simpl. lia.
Qed.
